(* ===== verification/_CoqProject ===== *)
-Q . S2P
Prelude.v
Header.v
Pipe.v
World.v
Logic.v
Memory.v
Invariant.v
Pchan.v
Exports.v
Context.v
RbTree.v
Vchan.v
Wait.v
Open.v
Loopback.v
Sample.v
Msg.v
Mimex.v
Dmabuf.v
Progress.v
Virtio.v
Pools.v
VirtioRx.v
VHost.v
VHostWork.v
VHostVirtio.v
Claims.v
Hab.v
VirtioDev.v
VirtioProbe.v
VirtioLife.v
LoopThread.v
Config.v
Boot.v
VHostDev.v
VHostLife.v
Stat.v
Linux.v
Release.v
Kernel.v
Init.v
