(* ===== verification/Prelude.v ===== *)
(** HAB, the hypervisor abstraction driver of a guest or host kernel: programs (and
    kernel clients) exchange messages and share memory with other virtual machines.
    This file is the root of a development that models the driver and proves it
    correct; it also holds the generic part (machine integers, byte strings, memory,
    lists, sorting out of booleans) that the other files share.

    * The program

    A client owns a context ([uhab_context]): its virtual channels, exports and
    imports.  A virtual channel is one end of a conversation; it runs over a physical
    channel, which belongs to a device (one per mmid) and leads to one remote VM over a
    transport (the hypervisor back end).  Opening a virtual channel is a three-way
    handshake of requests (INIT, INIT_ACK, INIT_DONE, with INIT_CANCEL) that travel as
    messages and are queued at the device.  Sending hands a header and bytes to the
    transport.  Receiving takes a message that the transport's receive path queued
    at the virtual channel.  Exporting publishes a buffer under an id and sends
    its page table to the other end, importing maps the pages of such a descriptor.
    Objects are reference counted, with several lists and id tables pointing at them;
    the central question about the driver is whether these counts are right on every
    path, whatever the other VM sends and whatever other threads do.

    * The files

    - Prelude: this file.  Header: the wire format of hab.h (headers, payload
      structures, vcid and mmid words).
    - Pipe: the shared-memory ring of hab_pipe.c.  It stands alone.
    - World: the heap of the driver's objects (hab.h), faults, the state-and-error
      monad [M], and the interface [Platform] to the transport and to the kernel's
      memory calls.  Logic: weakest preconditions [wp] (no fault, and the
      postcondition) and [wpf] (faults only of a given kind).
    - Invariant: [wf h w], the well-formedness of a driver [w] in which running
      threads hold the references [h]; frames and reference steps that keep it.
    - Pchan (hab_pchan.c), Exports (export nodes), Context (contexts in hab.c, the
      reclaim worker), RbTree (the import tree of hab_linux.c), Vchan (hab_vchan.c),
      Wait (wait_event and relatives), Open (hab_open.c), Msg (hab_msg.c), Memory,
      Dmabuf and Mimex (os/linux/hab_mem_linux.c and hab_mimex.c), Hab (hab.c): one per
      component; each has its operations first and their specifications after.
    - Loopback and LoopThread: the transport of hab_comm.c, an instance of
      [Platform], and its delivering thread.  Sample: a small concrete driver.
    - Progress: what does not sleep.  Claims: interleavings of imports and unimports.
    - Config (hab_parser.c and the table of channels), Boot (start and end of the
      driver on the loopback transport).
    - Linux (hab_linux.c, hab_ioctl.h): ioctl commands and user memory.  Release: the
      life of an open file.  Kernel (os/linux/khab.c): the clients in the kernel.  Init
      (hab_linux.c): loading and unloading the module.
    - Virtio (hypervisor/virtio/hab_virtio.c: buffers and sending), Pools (what a send
      and its completion do to them), VirtioRx (reception), VirtioDev (devices, queues,
      probe and removal), VirtioProbe and VirtioLife (their theorems): the guest's end
      of the virtio transport, another instance of [Platform].
    - VHost (hypervisor/virtio/hab_vhost.c: sending, and the worker that hands messages
      to the guest), VHostWork (the worker that takes the guest's), VHostDev (character
      devices: opening, starting, stopping, ioctl), VHostLife (their theorems): the
      host's end, a third instance.  VHostVirtio: the two ends together.
    - Stat (hab_stat.c): the reports.

    A Definition is named after the C function it translates and is preceded by a
    comment with the file and lines.  Parts of a long function are definitions of
    their own (e.g. [import_claim], [import_map] and [import_drop] of
    [hab_mem_import]) that the definition of the function composes.

    * State and operations

    Addresses are numbers given out by [w_next]; each kind of object has a map from
    address to record, an absent address is a freed object, and every access through
    a pointer is [get_x]/[upd_x], which is a [Fault UseAfterFree] on an absent one;
    a NULL pointer is [None], and its dereference [Fault NullDeref]; an access outside
    a buffer is [Fault OutOfBounds].  Integers are [Z] with the wrap-around of their C
    type written out ([u32], [i32], [u64]).  List heads are lists, idr tables and the
    import tree finite maps, krefs counters.  Allocations succeed or fail as
    [w_alloc] tells; calls that leave the driver (sends, wake-ups) are in [w_log].
    Locks are not modelled as state: the code between a lock and its unlock is one
    step, and where a thread sleeps or drops a lock other threads may run, see below.

    Concurrency: a thread that waits is given a schedule ([list wake]): runs of other
    threads, signals, time-outs.  The theorems quantify over all schedules of runs
    that keep the invariant for every [h] ([sched_ok]); all proved operations
    do.  What the threads hold meanwhile is in [h].  A schedule that ends too early
    leaves the thread [Blocked]; theorems say what happens otherwise, and Progress says
    which operations never block.

    * What is shown

    - Safety and invariants: receiving any message (Msg.hab_msg_recv_safe), opening
      (Hab.hab_vchan_open_safe), the four memory operations (Mimex.*_safe), every ioctl
      command (Linux.hab_ioctl_safe), opening and releasing the file
      (Release.hab_open_release), the start (Boot.do_hab_parse_boots) keep [wf]; a
      client meets no fault except the NULL dereferences that separate theorems show.
    - Function: a data message reaches the queue of its channel and nothing else
      (Msg.hab_msg_recv_delivers), the queue is a FIFO (Msg.hab_msg_dequeue_fifo), a
      send sends exactly the bytes (Hab.hab_vchan_send_sends), and over the loopback
      transport what one end sends the other receives, whole, once and in order
      (LoopThread.loopback_transfer).  Across virtio a message arrives whole from guest to
      guest (VirtioRx.virtio_transfer), from guest to host and back
      (VHostVirtio.guest_to_host, host_to_guest), and a turn of the host's worker keeps
      the order (VHost.vhost_send_order).  The pools of buffers stay complete
      (Pools.virtio_buffers_kept), and reception ends and gives all buffers back
      (VirtioRx.virthab_recv_rxq_safe, VHostWork.tx_worker_safe).  A probe brings every
      channel up (VirtioProbe.virthab_probe_up); the host's devices are listed, opened
      and started consistently (VHostLife).  A report is the text it should be, cut to
      its buffer (Stat.hab_stat_show_vchan_reports).  Config gives the table and the
      channels in terms of the device tree.
    - Refinement: the ring is a bounded byte FIFO (Pipe.pipe_refines_fifo), the red-black
      tree a finite map (RbTree.rb_refines_map).
    - Round trips: headers, payloads, page tables (Header, Memory.compress_expand_roundtrip),
      the buffer of an import from its making to its release (Dmabuf.import_buffer_life).
    - Progress: message handling, unexport and unimport return (Progress), reads of the
      ring terminate (Pipe.hab_pipe_read_safe).
    - Exclusion: one thread at a time works on an import (Claims.claim_exclusive).
    - Errors: theorems with concrete or general inputs for what the code gets wrong;
      each is also a finding of the manifest.

    * Bounds and fuel

    Loops over lists recurse on the list.  The loops that have no such measure take
    fuel, and running out of it is a fault, [OutOfFuel], which the theorems exclude.
    The ring reader copies a header again at most 1001 times, so [retry_fuel] is 1003.
    The listening loop of an open takes one step more than its schedule is long:
    each turn that does not end the loop uses up a time-out of the schedule.  The
    loopback thread's inner loop takes a turn per message and one to find the list
    empty; LoopThread.loopback_transfer holds for every such number of turns.  The
    virtio loops ([virthab_recv_rxq], [get_rx_buf_locked], [tx_loop]) go on as long as
    the other end has something; the laws of the queues give a measure of what it has
    left, and the theorems hold for every fuel above it.  [rx_send_loop] puts at least
    one byte of the message into each buffer, so its fuel is the message's length.

    * Assumptions

    [Platform] has the transport's send and read as fields, and the kernel's calls for
    pages and DMA buffers ([LinuxCalls]), with the laws that a send gives 0 or an errno and that a read
    gives no more bytes than it was asked for;
    [KernelIdr] is the kernel's id allocator, with the law that it returns a free id in
    range.  The loopback, virtio and vhost transports are proved
    instances.  The queues that the kernel's virtio and vhost libraries keep are the
    classes [Virtqueue] and [VhostQueue], a user's vhost device the class
    [VhostDevice]; what the theorems need of the other end is stated as records of laws
    ([device_ok], [rx_guest], [tx_guest]: it has finitely much left, its buffers are as
    large as agreed, its messages need no more than the invariant), and each theorem
    with such a law is applied to a concrete queue.  The invariant theorems for
    the export assume that a kernel buffer has the pages asked for ([covered]); that the
    code does not check this is one of the findings.

    * Not modelled

    The trace events (hab_trace_os.h) have no effect on the state.  The files in sysfs
    that show the reports and the self-test (khab_test.c) are input and output only;
    vhost.h is a copy of a header of the kernel and guest_shm.h is not used.  When the
    kernel runs a worker, and how its turns fall between those of other threads, is
    not fixed: a worker's turn is one step ([run_work]).  Of code that depends on the
    version of the kernel the newer branch is modelled.

    Some state is kept in another place than in the code.  The buffers and queues of a
    virtio channel are the transport's state of that channel ([ln_vpc], [vl_hyp]), found
    by the channel's address, not by a pointer in it; like [hyp_data] in the code it
    outlives the channel.  A queue that was deleted for a suspension is not told from
    one that is there.  [virtio_phys_send] and its like, as the interface [Platform]
    wants, give an errno or bytes and no fault; the faults are those of [virtio_send]
    and [virtio_read], which the theorems on the transport are about. *)
From Stdlib Require Export ZArith Lia.
From stdpp Require Export base gmap list fin_maps numbers.
#[global] Open Scope Z_scope.

(** * Machine integers, written as [Z] with their wrap-around *)

Definition u8 (z : Z) : Z := z mod 2 ^ 8.
Definition u32 (z : Z) : Z := z mod 2 ^ 32.
Definition u64 (z : Z) : Z := z mod 2 ^ 64.
Definition i32 (z : Z) : Z := (z + 2 ^ 31) mod 2 ^ 32 - 2 ^ 31.

Definition is_u32 (z : Z) : Prop := 0 <= z < 2 ^ 32.
Definition is_i32 (z : Z) : Prop := - 2 ^ 31 <= z < 2 ^ 31.

Lemma u32_range z : 0 <= u32 z < 2 ^ 32.
Proof. apply Z.mod_pos_bound. lia. Qed.

Lemma u32_id z : is_u32 z -> u32 z = z.
Proof. intros ?. by apply Z.mod_small. Qed.

Lemma u32_u32 z : u32 (u32 z) = u32 z.
Proof. apply u32_id, u32_range. Qed.

Lemma i32_range z : is_i32 (i32 z).
Proof.
  unfold is_i32, i32.
  pose proof (Z.mod_pos_bound (z + 2 ^ 31) (2 ^ 32) ltac:(lia)). lia.
Qed.

Lemma i32_id z : is_i32 z -> i32 z = z.
Proof. unfold is_i32, i32. intros ?. rewrite Z.mod_small; lia. Qed.

(** Modular differences: the ring counters only ever meet through these. *)
Lemma u32_add_sub a b n : u32 (u32 (a + n) - b) = u32 (u32 (a - b) + n).
Proof.
  unfold u32. rewrite Zminus_mod_idemp_l, Zplus_mod_idemp_l. f_equal. lia.
Qed.

Lemma u32_sub_add a b n : u32 (a - u32 (b + n)) = u32 (u32 (a - b) - n).
Proof.
  unfold u32. rewrite Zminus_mod_idemp_r, Zminus_mod_idemp_l. f_equal. lia.
Qed.

(** * errno values ([-EINVAL] is written [- EINVAL]) *)

Definition ENOENT : Z := 2.
Definition EINTR : Z := 4.
Definition EIO : Z := 5.
Definition ENXIO : Z := 6.
Definition EBADF : Z := 9.
Definition EAGAIN : Z := 11.
Definition ENOMEM : Z := 12.
Definition EFAULT : Z := 14.
Definition EBUSY : Z := 16.
Definition ENODEV : Z := 19.
Definition EINVAL : Z := 22.
Definition ENOSPC : Z := 28.
Definition EPIPE : Z := 32.
Definition EPROTO : Z := 71.
Definition EOVERFLOW : Z := 75.
Definition EOPNOTSUPP : Z := 95.
Definition ETIMEDOUT : Z := 110.
Definition ERESTARTSYS : Z := 512.
Definition ENOIOCTLCMD : Z := 515.

Definition PAGE_SHIFT : Z := 12.
Definition PAGE_SIZE : Z := 4096.

(** * Outcomes of kernel code

    [Fault] is what C leaves undefined (a dangling or null pointer, an access
    outside an object); [Blocked] is a thread that still sleeps when the
    schedule it was given ends. *)

Inductive fault :=
  | NullDeref
  | UseAfterFree
  | OutOfBounds
  | RefUnderflow
  | OutOfFuel.

Inductive res (A : Type) : Type :=
  | Ok (a : A)
  | Fault (f : fault)
  | Blocked.
Arguments Ok {A} a.
Arguments Fault {A} f.
Arguments Blocked {A}.

Definition res_bind {A B} (m : res A) (k : A -> res B) : res B :=
  match m with
  | Ok a => k a
  | Fault f => Fault f
  | Blocked => Blocked
  end.

Definition of_opt {A} (f : fault) (o : option A) : res A :=
  match o with Some a => Ok a | None => Fault f end.

Declare Scope res_scope.
Delimit Scope res_scope with res.
Notation "'let?' x ':=' m 'in' k" := (res_bind m (fun x => k))
  (at level 10, x pattern, m at level 100, k at level 200) : res_scope.
#[global] Open Scope res_scope.

Definition is_fault {A} (r : res A) : Prop :=
  match r with Fault _ => True | _ => False end.

(** * Bytes and bounded memory *)

Abbreviation byte := Z (only parsing).
Abbreviation bytes := (list Z) (only parsing).

Definition zlen {A} (l : list A) : Z := Z.of_nat (length l).

(** [memcpy] out of and into an object: [None] when any byte of the copy lies
    outside it. *)
Definition mem_read (m : bytes) (off len : Z) : option bytes :=
  if (0 <=? off) && (0 <=? len) && (off + len <=? zlen m)
  then Some (take (Z.to_nat len) (drop (Z.to_nat off) m))
  else None.

Definition mem_write (m : bytes) (off : Z) (src : bytes) : option bytes :=
  if (0 <=? off) && (off + zlen src <=? zlen m)
  then Some (take (Z.to_nat off) m ++ src ++ drop (Z.to_nat (off + zlen src)) m)
  else None.

Lemma zlen_nonneg {A} (l : list A) : 0 <= zlen l.
Proof. unfold zlen. lia. Qed.

Lemma zlen_app {A} (l1 l2 : list A) : zlen (l1 ++ l2) = zlen l1 + zlen l2.
Proof. unfold zlen. rewrite length_app. lia. Qed.

Lemma zlen_take {A} n (l : list A) :
  0 <= n <= zlen l -> zlen (take (Z.to_nat n) l) = n.
Proof. unfold zlen. intros ?. rewrite length_take. lia. Qed.

Lemma zlen_drop {A} n (l : list A) :
  0 <= n <= zlen l -> zlen (drop (Z.to_nat n) l) = zlen l - n.
Proof. unfold zlen. intros ?. rewrite length_drop. lia. Qed.

Lemma mem_read_Some m off len :
  0 <= off -> 0 <= len -> off + len <= zlen m ->
  mem_read m off len = Some (take (Z.to_nat len) (drop (Z.to_nat off) m)).
Proof.
  intros. unfold mem_read.
  destruct (Z.leb_spec 0 off), (Z.leb_spec 0 len), (Z.leb_spec (off + len) (zlen m));
    simpl; (done || lia).
Qed.

Lemma mem_read_len m off len r : mem_read m off len = Some r -> zlen r = len.
Proof.
  unfold mem_read. pose proof (zlen_nonneg m).
  destruct (Z.leb_spec 0 off), (Z.leb_spec 0 len), (Z.leb_spec (off + len) (zlen m));
    simpl; try done.
  intros [= <-]. rewrite zlen_take; [done|]. rewrite zlen_drop; lia.
Qed.

Lemma mem_write_Some m off src :
  0 <= off -> off + zlen src <= zlen m ->
  mem_write m off src =
    Some (take (Z.to_nat off) m ++ src ++ drop (Z.to_nat (off + zlen src)) m).
Proof.
  intros. unfold mem_write.
  destruct (Z.leb_spec 0 off), (Z.leb_spec (off + zlen src) (zlen m)); simpl; (done || lia).
Qed.

Lemma mem_write_len m off src m' :
  mem_write m off src = Some m' -> zlen m' = zlen m.
Proof.
  unfold mem_write. pose proof (zlen_nonneg src). pose proof (zlen_nonneg m).
  destruct (Z.leb_spec 0 off), (Z.leb_spec (off + zlen src) (zlen m)); simpl; try done.
  intros [= <-]. rewrite !zlen_app, zlen_take, zlen_drop by lia. lia.
Qed.

(** What a write leaves at each index. *)
Lemma mem_write_lookup m off src m' (i : nat) :
  mem_write m off src = Some m' ->
  m' !! i = if (off <=? Z.of_nat i) && (Z.of_nat i <? off + zlen src)
            then src !! (i - Z.to_nat off)%nat else m !! i.
Proof.
  unfold mem_write. pose proof (zlen_nonneg src).
  destruct (Z.leb_spec 0 off), (Z.leb_spec (off + zlen src) (zlen m)); simpl; try done.
  intros [= <-]. unfold zlen in *.
  destruct (Z.leb_spec off (Z.of_nat i)), (Z.ltb_spec (Z.of_nat i) (off + Z.of_nat (length src))); simpl.
  - rewrite lookup_app_r by (rewrite length_take; lia).
    rewrite length_take, lookup_app_l by lia. f_equal. lia.
  - rewrite lookup_app_r by (rewrite length_take; lia).
    rewrite length_take, lookup_app_r by lia.
    rewrite lookup_drop. f_equal. lia.
  - rewrite lookup_app_l by (rewrite length_take; lia).
    by rewrite lookup_take_lt by lia.
  - lia.
Qed.

(** * Little-endian encoding of the packed structures *)

Fixpoint le_enc (n : nat) (z : Z) : bytes :=
  match n with
  | O => []
  | S n => z mod 256 :: le_enc n (z / 256)
  end.

Fixpoint le_dec (l : bytes) : Z :=
  match l with
  | [] => 0
  | b :: l => b + 256 * le_dec l
  end.

Lemma le_enc_length n z : length (le_enc n z) = n.
Proof. revert z. induction n; intros; simpl; auto. Qed.

Lemma le_enc_zlen n z : zlen (le_enc n z) = Z.of_nat n.
Proof. unfold zlen. by rewrite le_enc_length. Qed.

Lemma le_dec_enc n z : le_dec (le_enc n z) = z mod 256 ^ Z.of_nat n.
Proof.
  revert z. induction n as [|n IH]; intros z.
  - simpl. by rewrite Z.mod_1_r.
  - cbn [le_enc le_dec]. rewrite IH.
    replace (Z.of_nat (S n)) with (1 + Z.of_nat n) by lia.
    rewrite Z.pow_add_r by lia. change (256 ^ 1) with 256.
    rewrite Z.rem_mul_r; lia.
Qed.

Lemma le_dec_enc_u32 z : is_u32 z -> le_dec (le_enc 4 z) = z.
Proof. intros ?. rewrite le_dec_enc. apply Z.mod_small. unfold is_u32 in *. lia. Qed.

Definition le_dec_i32 (l : bytes) : Z := i32 (le_dec l).

Lemma le_dec_enc_i32 z : is_i32 z -> le_dec_i32 (le_enc 4 z) = z.
Proof.
  intros Hz. unfold le_dec_i32. rewrite le_dec_enc.
  change (256 ^ Z.of_nat 4) with (2 ^ 32).
  unfold i32. rewrite Zplus_mod_idemp_l. by apply i32_id.
Qed.

Definition bytes_ok (l : bytes) : Prop := Forall (fun b => 0 <= b < 256) l.

Lemma le_dec_range l : bytes_ok l -> 0 <= le_dec l < 256 ^ zlen l.
Proof.
  induction 1 as [|b l Hb Hl IH]; [done|]. cbn [le_dec].
  replace (zlen (b :: l)) with (1 + zlen l) by (unfold zlen; simpl length; lia).
  rewrite Z.pow_add_r; [|lia|unfold zlen; lia]. lia.
Qed.

(** * Lists of kernel objects *)

(** [list_for_each_entry_safe] with a [list_del] and [break] on the first match. *)
Fixpoint list_take_first {A} (p : A -> bool) (l : list A) : option (A * list A) :=
  match l with
  | [] => None
  | x :: l =>
      if p x then Some (x, l)
      else match list_take_first p l with
           | Some (y, l') => Some (y, x :: l')
           | None => None
           end
  end.

Lemma list_take_first_Some {A} (p : A -> bool) l x l' :
  list_take_first p l = Some (x, l') ->
  exists l1 l2, l = l1 ++ x :: l2 /\ l' = l1 ++ l2 /\ p x = true /\
    Forall (fun y => p y = false) l1.
Proof.
  revert l'. induction l as [|y l IH]; intros l'; simpl; [done|].
  destruct (p y) eqn:Hy.
  - intros [= <- <-]. by exists [], l.
  - destruct (list_take_first p l) as [[z l0]|]; [|done].
    intros [= -> <-]. destruct (IH l0 eq_refl) as (l1 & l2 & -> & -> & Hx & Hl).
    exists (y :: l1), l2. repeat split; auto.
Qed.

Lemma list_take_first_None {A} (p : A -> bool) l :
  list_take_first p l = None <-> Forall (fun y => p y = false) l.
Proof.
  induction l as [|y l IH]; simpl; [by split|].
  destruct (p y) eqn:Hy.
  - split; [done|]. by inversion_clear 1; congruence.
  - destruct (list_take_first p l) as [[z l0]|].
    + split; [done|]. inversion_clear 1. by apply IH in H1.
    + split; [|done]. intros _. constructor; [done|]. by apply IH.
Qed.

(** [list_del] of an object by its address. *)
Definition list_del (x : nat) (l : list nat) : list nat := filter (fun y => y <> x) l.

Lemma elem_of_list_del x y l : y ∈ list_del x l <-> y ∈ l /\ y <> x.
Proof. unfold list_del. rewrite list_elem_of_filter. tauto. Qed.

Lemma filter_none {A} (P : A -> Prop) `{forall x, Decision (P x)} l :
  Forall (fun x => ~ P x) l -> filter P l = [].
Proof. induction 1 as [|x l Hx Hl IH]; [done|]. by rewrite filter_cons, decide_False. Qed.

Lemma filter_all {A} (P : A -> Prop) `{forall x, Decision (P x)} l : Forall P l -> filter P l = l.
Proof. induction 1 as [|x l Hx Hl IH]; [done|]. by rewrite filter_cons, decide_True, IH. Qed.

Lemma NoDup_list_del x l : NoDup l -> NoDup (list_del x l).
Proof. apply list.NoDup_filter. Qed.

Lemma list_del_notin x l : x ∉ l -> list_del x l = l.
Proof.
  unfold list_del. induction l as [|y l IH]; intros Hx; [done|].
  apply not_elem_of_cons in Hx as [? ?]. rewrite filter_cons.
  destruct (decide (y <> x)) as [_|Hn]; [|destruct Hn; congruence]. by rewrite IH.
Qed.

Lemma list_del_length x l :
  NoDup l -> x ∈ l -> length l = S (length (list_del x l)).
Proof.
  intros Hnd. induction Hnd as [|y l Hy Hnd IH]; intros Hx.
  - by apply elem_of_nil in Hx.
  - unfold list_del. rewrite filter_cons. fold (list_del x l).
    destruct (decide (y <> x)) as [Hyx|Hyx].
    + simpl. f_equal. apply IH. apply elem_of_cons in Hx as [|]; [congruence|done].
    + assert (y = x) as -> by (destruct (decide (y = x)) as [|Hn]; [done|by destruct Hyx]).
      simpl. by rewrite list_del_notin.
Qed.

(** * Counting the objects of a heap that satisfy a predicate *)

Definition count {V} (P : V -> bool) (m : gmap nat V) : Z :=
  Z.of_nat (size (filter (fun kv => P (kv.2) = true) m)).

Section count.
Context {V : Type} (P : V -> bool).
Implicit Types (m : gmap nat V) (k : nat) (v : V).

Lemma count_nonneg m : 0 <= count P m.
Proof. unfold count. lia. Qed.

Lemma count_insert_None m k v :
  m !! k = None -> count P (<[k:=v]> m) = count P m + (if P v then 1 else 0).
Proof.
  intros Hk. unfold count. rewrite map_filter_insert.
  case_decide as Hv; simpl in Hv.
  - rewrite Hv, map_size_insert_None; [lia|].
    apply map_lookup_filter_None. by left.
  - rewrite delete_id by done. destruct (P v); [done|lia].
Qed.

Lemma count_delete m k v :
  m !! k = Some v -> count P (delete k m) = count P m - (if P v then 1 else 0).
Proof.
  intros Hk.
  rewrite <- (insert_delete_id m k v Hk) at 2.
  rewrite count_insert_None by apply lookup_delete_eq. lia.
Qed.

Lemma count_insert_Some m k v v' :
  m !! k = Some v ->
  count P (<[k:=v']> m) = count P m - (if P v then 1 else 0) + (if P v' then 1 else 0).
Proof.
  intros Hk. rewrite <- insert_delete_eq.
  rewrite count_insert_None by apply lookup_delete_eq.
  by rewrite (count_delete _ _ _ Hk).
Qed.

Lemma count_pos m k v : m !! k = Some v -> P v = true -> 0 < count P m.
Proof.
  intros Hk Hv. pose proof (count_delete m k v Hk) as Hc. rewrite Hv in Hc.
  pose proof (count_nonneg (delete k m)). lia.
Qed.
End count.

(** * Automation *)

Create HintDb hab discriminated.
#[export] Hint Resolve u32_range i32_range zlen_nonneg count_nonneg
  le_enc_length le_enc_zlen : hab.

(** Case analysis on the boolean comparisons of a goal or hypothesis. *)
Ltac bool_cases :=
  repeat match goal with
  | |- context [?a =? ?b] => destruct (Z.eqb_spec a b)
  | |- context [?a <? ?b] => destruct (Z.ltb_spec a b)
  | |- context [?a <=? ?b] => destruct (Z.leb_spec a b)
  | H : context [?a =? ?b] |- _ => destruct (Z.eqb_spec a b)
  | H : context [?a <? ?b] |- _ => destruct (Z.ltb_spec a b)
  | H : context [?a <=? ?b] |- _ => destruct (Z.leb_spec a b)
  end; cbn [andb orb negb] in *.

(** Turn a boolean condition that holds into arithmetic facts. *)
Ltac bool_hyps :=
  repeat match goal with
  | H : (_ && _)%bool = true |- _ => apply andb_true_iff in H as [? ?]
  | H : (_ || _)%bool = false |- _ => apply orb_false_iff in H as [? ?]
  | H : negb _ = true |- _ => apply negb_true_iff in H
  | H : negb _ = false |- _ => apply negb_false_iff in H
  | H : (_ =? _) = true |- _ => apply Z.eqb_eq in H
  | H : (_ =? _) = false |- _ => apply Z.eqb_neq in H
  | H : (_ <? _) = true |- _ => apply Z.ltb_lt in H
  | H : (_ <? _) = false |- _ => apply Z.ltb_ge in H
  | H : (_ <=? _) = true |- _ => apply Z.leb_le in H
  | H : (_ <=? _) = false |- _ => apply Z.leb_gt in H
  end.

(** [flat_map] keeps [NoDup] when every element tells which part it came from. *)
Lemma NoDup_flat_map {A B} (f : A -> list B) (g : B -> A) l :
  NoDup l -> (forall x, x ∈ l -> NoDup (f x)) -> (forall x y, x ∈ l -> y ∈ f x -> g y = x) -> NoDup (flat_map f l).
Proof.
  induction l as [|x l IH]; intros Hl Hf Hg; simpl; [constructor|].
  apply list.NoDup_cons in Hl as [Hx Hl]. apply list.NoDup_app. split; [apply Hf; by left|]. split.
  - intros y Hy [z [Hz Hyz]]%list_elem_of_In%in_flat_map. apply list_elem_of_In in Hz, Hyz. apply Hx.
    rewrite <- (Hg x y) by (by try left). by rewrite (Hg z y) by (by try right).
  - apply IH; [done|..]; intros; [apply Hf|apply Hg]; try done; by right.
Qed.

Lemma elem_of_flat_map {A B} (f : A -> list B) l y : y ∈ flat_map f l <-> exists x, x ∈ l /\ y ∈ f x.
Proof. rewrite list_elem_of_In, in_flat_map. by setoid_rewrite list_elem_of_In. Qed.
