(* ===== verification/Header.v ===== *)
(** The wire format: the message header of hab.h with its accessor macros,
    the payload types, the identifiers (vcid, mmid) packed into 32 bits, and
    the fixed-size structures that travel as payloads.  Every field is a 32-bit
    word in [Z]; the packed structures are written out as little-endian bytes. *)
From S2P Require Import Prelude.

(* src/hab.h:22-41 hab_payload_type *)
Inductive hab_payload_type :=
  | HAB_PAYLOAD_TYPE_MSG
  | HAB_PAYLOAD_TYPE_INIT
  | HAB_PAYLOAD_TYPE_INIT_ACK
  | HAB_PAYLOAD_TYPE_INIT_DONE
  | HAB_PAYLOAD_TYPE_EXPORT
  | HAB_PAYLOAD_TYPE_EXPORT_ACK
  | HAB_PAYLOAD_TYPE_PROFILE
  | HAB_PAYLOAD_TYPE_CLOSE
  | HAB_PAYLOAD_TYPE_INIT_CANCEL
  | HAB_PAYLOAD_TYPE_SCHE_MSG
  | HAB_PAYLOAD_TYPE_SCHE_MSG_ACK
  | HAB_PAYLOAD_TYPE_SCHE_RESULT_REQ
  | HAB_PAYLOAD_TYPE_SCHE_RESULT_RSP
  | HAB_PAYLOAD_TYPE_IMPORT
  | HAB_PAYLOAD_TYPE_IMPORT_ACK
  | HAB_PAYLOAD_TYPE_IMPORT_ACK_FAIL
  | HAB_PAYLOAD_TYPE_UNIMPORT.

#[export] Instance hab_payload_type_eq_dec : EqDecision hab_payload_type.
Proof. solve_decision. Defined.

(** The enumerators' values, in declaration order from 0. *)
(* src/hab.h:23-40 hab_payload_type *)
Definition payload_code (t : hab_payload_type) : Z :=
  match t with
  | HAB_PAYLOAD_TYPE_MSG => 0
  | HAB_PAYLOAD_TYPE_INIT => 1
  | HAB_PAYLOAD_TYPE_INIT_ACK => 2
  | HAB_PAYLOAD_TYPE_INIT_DONE => 3
  | HAB_PAYLOAD_TYPE_EXPORT => 4
  | HAB_PAYLOAD_TYPE_EXPORT_ACK => 5
  | HAB_PAYLOAD_TYPE_PROFILE => 6
  | HAB_PAYLOAD_TYPE_CLOSE => 7
  | HAB_PAYLOAD_TYPE_INIT_CANCEL => 8
  | HAB_PAYLOAD_TYPE_SCHE_MSG => 9
  | HAB_PAYLOAD_TYPE_SCHE_MSG_ACK => 10
  | HAB_PAYLOAD_TYPE_SCHE_RESULT_REQ => 11
  | HAB_PAYLOAD_TYPE_SCHE_RESULT_RSP => 12
  | HAB_PAYLOAD_TYPE_IMPORT => 13
  | HAB_PAYLOAD_TYPE_IMPORT_ACK => 14
  | HAB_PAYLOAD_TYPE_IMPORT_ACK_FAIL => 15
  | HAB_PAYLOAD_TYPE_UNIMPORT => 16
  end.

Definition all_payload_types : list hab_payload_type :=
  [HAB_PAYLOAD_TYPE_MSG; HAB_PAYLOAD_TYPE_INIT; HAB_PAYLOAD_TYPE_INIT_ACK;
   HAB_PAYLOAD_TYPE_INIT_DONE; HAB_PAYLOAD_TYPE_EXPORT; HAB_PAYLOAD_TYPE_EXPORT_ACK;
   HAB_PAYLOAD_TYPE_PROFILE; HAB_PAYLOAD_TYPE_CLOSE; HAB_PAYLOAD_TYPE_INIT_CANCEL;
   HAB_PAYLOAD_TYPE_SCHE_MSG; HAB_PAYLOAD_TYPE_SCHE_MSG_ACK;
   HAB_PAYLOAD_TYPE_SCHE_RESULT_REQ; HAB_PAYLOAD_TYPE_SCHE_RESULT_RSP;
   HAB_PAYLOAD_TYPE_IMPORT; HAB_PAYLOAD_TYPE_IMPORT_ACK;
   HAB_PAYLOAD_TYPE_IMPORT_ACK_FAIL; HAB_PAYLOAD_TYPE_UNIMPORT].

(** The enumerator a received type field stands for; [None] is the [default]
    branch of the dispatcher. *)
Definition payload_of_code (c : Z) : option hab_payload_type :=
  if c <? 0 then None else all_payload_types !! Z.to_nat c.

Lemma payload_of_code_code t : payload_of_code (payload_code t) = Some t.
Proof. by destruct t. Qed.

(* src/hab.h:40-40 HAB_PAYLOAD_TYPE_MAX *)
Definition HAB_PAYLOAD_TYPE_MAX : Z := 17.

(** ** struct hab_header *)

(* src/hab.h:124-130 hab_header *)
Record hab_header := {
  id_type : Z;
  payload_size : Z;
  session_id : Z;
  signature : Z;
  sequence : Z
}.

Definition sizeof_hab_header : Z := 20.

(* src/hab.h:133-134 HAB_HEADER_TYPE_SHIFT *)
Definition HAB_HEADER_TYPE_SHIFT : Z := 16.
Definition HAB_HEADER_EXT_TYPE_SHIFT : Z := 0.
(* src/hab.h:135-135 HAB_HEADER_ID_SHIFT *)
Definition HAB_HEADER_ID_SHIFT : Z := 20.
(* src/hab.h:136-141 HAB_HEADER_SIZE_MAX *)
Definition HAB_HEADER_SIZE_MAX : Z := 0x0007D000.
(* src/hab.h:142-142 HAB_HEADER_TYPE_MASK *)
Definition HAB_HEADER_TYPE_MASK : Z := 0x000F0000.
(* src/hab.h:143-144 HAB_HEADER_TYPE_LEN *)
Definition HAB_HEADER_TYPE_LEN : Z := 4.
(* src/hab.h:145-145 HAB_HEADER_EXT_TYPE_MASK *)
Definition HAB_HEADER_EXT_TYPE_MASK : Z := 0x0000000F.
(* src/hab.h:146-146 HAB_HEADER_ID_MASK *)
Definition HAB_HEADER_ID_MASK : Z := 0xFFF00000.
(* src/hab.h:147-147 HAB_HEADER_INITIALIZER *)
Definition HAB_HEADER_INITIALIZER : hab_header := Build_hab_header 0 0 0 0 0.

(* src/hab.h:149-149 HAB_MMID_GET_MAJOR *)
Definition HAB_MMID_GET_MAJOR (mmid : Z) : Z := Z.land mmid 0xFFFF.
(* src/hab.h:150-150 HAB_MMID_GET_MINOR *)
Definition HAB_MMID_GET_MINOR (mmid : Z) : Z := Z.land (Z.shiftr mmid 16) 0xFF.
(* src/include/uapi/linux/habmmid.h:9-9 HAB_MMID_CREATE *)
Definition HAB_MMID_CREATE (major minor : Z) : Z :=
  Z.lor (Z.land major 0xFFFF) (Z.shiftl (Z.land minor 0xFF) 16).

(* src/hab.h:152-155 HAB_VCID_ID_SHIFT *)
Definition HAB_VCID_ID_SHIFT : Z := 0.
Definition HAB_VCID_DOMID_SHIFT : Z := 12.
Definition HAB_VCID_MMID_SHIFT : Z := 20.
Definition HAB_VCID_ID_MASK : Z := 0x00000FFF.
(* src/hab.h:156-157 HAB_VCID_DOMID_MASK *)
Definition HAB_VCID_DOMID_MASK : Z := 0x000FF000.
Definition HAB_VCID_MMID_MASK : Z := 0xFFF00000.
(* src/hab.h:158-159 HAB_VCID_GET_ID *)
Definition HAB_VCID_GET_ID (vcid : Z) : Z :=
  Z.shiftr (Z.land vcid HAB_VCID_ID_MASK) HAB_VCID_ID_SHIFT.

(* src/hab.h:162-163 HAB_HEADER_SET_SESSION_ID *)
Definition HAB_HEADER_SET_SESSION_ID (h : hab_header) (sid : Z) : hab_header :=
  Build_hab_header (id_type h) (payload_size h) (u32 sid) (signature h) (sequence h).

(* src/hab.h:165-166 HAB_HEADER_SET_SIZE *)
Definition HAB_HEADER_SET_SIZE (h : hab_header) (size : Z) : hab_header :=
  Build_hab_header (id_type h) (u32 size) (session_id h) (signature h) (sequence h).

Definition set_id_type (h : hab_header) (x : Z) : hab_header :=
  Build_hab_header x (payload_size h) (session_id h) (signature h) (sequence h).

(* src/hab.h:168-174 HAB_HEADER_SET_TYPE *)
Definition HAB_HEADER_SET_TYPE (h : hab_header) (type : Z) : hab_header :=
  set_id_type h
    (Z.lor
      (Z.lor
        (Z.land (id_type h)
                (u32 (Z.lnot (Z.lor HAB_HEADER_TYPE_MASK HAB_HEADER_EXT_TYPE_MASK))))
        (Z.land (Z.shiftl type HAB_HEADER_TYPE_SHIFT) HAB_HEADER_TYPE_MASK))
      (Z.land (Z.shiftl (Z.shiftr type HAB_HEADER_TYPE_LEN) HAB_HEADER_EXT_TYPE_SHIFT)
              HAB_HEADER_EXT_TYPE_MASK)).

(* src/hab.h:176-180 HAB_HEADER_SET_ID *)
Definition HAB_HEADER_SET_ID (h : hab_header) (id : Z) : hab_header :=
  set_id_type h
    (Z.lor
      (Z.land (id_type h) (u32 (Z.lnot HAB_HEADER_ID_MASK)))
      (Z.land (Z.shiftl (HAB_VCID_GET_ID id) HAB_HEADER_ID_SHIFT) HAB_HEADER_ID_MASK)).

(* src/hab.h:182-183 HAB_HEADER_GET_SIZE *)
Definition HAB_HEADER_GET_SIZE (h : hab_header) : Z := payload_size h.

(* src/hab.h:185-188 HAB_HEADER_GET_TYPE *)
Definition HAB_HEADER_GET_TYPE (h : hab_header) : Z :=
  Z.lor
    (Z.shiftr (Z.land (id_type h) HAB_HEADER_TYPE_MASK) HAB_HEADER_TYPE_SHIFT)
    (Z.shiftl (Z.land (id_type h) HAB_HEADER_EXT_TYPE_MASK) HAB_HEADER_TYPE_LEN).

(* src/hab.h:190-192 HAB_HEADER_GET_ID *)
Definition HAB_HEADER_GET_ID (h : hab_header) : Z :=
  Z.land
    (Z.shiftr (Z.land (id_type h) HAB_HEADER_ID_MASK)
              (HAB_HEADER_ID_SHIFT - HAB_VCID_ID_SHIFT))
    HAB_VCID_ID_MASK.

(* src/hab.h:194-194 HAB_HEADER_GET_SESSION_ID *)
Definition HAB_HEADER_GET_SESSION_ID (h : hab_header) : Z := session_id h.

(* src/hab.h:196-196 HAB_HS_TIMEOUT *)
Definition HAB_HS_TIMEOUT : Z := 10 * 1000 * 1000.
(* src/hab.h:197-197 HAB_HEAD_SIGNATURE *)
Definition HAB_HEAD_SIGNATURE : Z := 0xBEE1BEE1.
(* src/hab.h:199-201 HAB_VCID_UNIMPORT *)
Definition HAB_VCID_UNIMPORT : Z := 1.
Definition HAB_SESSIONID_UNIMPORT : Z := 1.
(* src/hab.h:203-204 HAB_VER_PROT *)
Definition HAB_VER_PROT : Z := 1.

(* src/include/linux/habmm.h:11-13 HAB_API_VER *)
Definition HAB_API_VER : Z :=
  Z.lor (Z.shiftl (Z.land 1 0xFF) 16) (Z.land 0 0xFFF).

(** The header a sender composes: size, type, id and session id set in turn on
    [HAB_HEADER_INITIALIZER]. *)
Definition mk_header (size : Z) (t : hab_payload_type) (id sid : Z) : hab_header :=
  HAB_HEADER_SET_SESSION_ID
    (HAB_HEADER_SET_ID
      (HAB_HEADER_SET_TYPE
        (HAB_HEADER_SET_SIZE HAB_HEADER_INITIALIZER size) (payload_code t)) id) sid.

(** ** The payload structures *)

(* src/hab.h:247-254 hab_open_send_data *)
Record hab_open_send_data := {
  vchan_id : Z;
  sub_id : Z;
  open_id : Z;
  ver_fe : Z;
  ver_be : Z;
  ver_proto : Z
}.

Definition sizeof_hab_open_send_data : Z := 24.

Definition open_data_zero : hab_open_send_data := Build_hab_open_send_data 0 0 0 0 0 0.

Definition open_data_enc (d : hab_open_send_data) : bytes :=
  le_enc 4 (vchan_id d) ++ le_enc 4 (sub_id d) ++ le_enc 4 (open_id d) ++
  le_enc 4 (ver_fe d) ++ le_enc 4 (ver_be d) ++ le_enc 4 (ver_proto d).

(** The [i]-th 32-bit word of a buffer. *)
Definition word_at (i : nat) (l : bytes) : bytes := take 4 (drop (4 * i) l).

Definition open_data_dec (l : bytes) : hab_open_send_data :=
  Build_hab_open_send_data
    (le_dec_i32 (word_at 0 l)) (le_dec_i32 (word_at 1 l)) (le_dec_i32 (word_at 2 l))
    (le_dec_i32 (word_at 3 l)) (le_dec_i32 (word_at 4 l)) (le_dec_i32 (word_at 5 l)).

(* src/hab.h:268-272 hab_export_ack *)
Record hab_export_ack := {
  ea_export_id : Z;
  ea_vcid_local : Z;
  ea_vcid_remote : Z
}.

Definition sizeof_hab_export_ack : Z := 12.

Definition export_ack_enc (a : hab_export_ack) : bytes :=
  le_enc 4 (ea_export_id a) ++ le_enc 4 (ea_vcid_local a) ++ le_enc 4 (ea_vcid_remote a).

Definition export_ack_dec (l : bytes) : hab_export_ack :=
  Build_hab_export_ack (le_dec (word_at 0 l)) (le_dec_i32 (word_at 1 l))
    (le_dec_i32 (word_at 2 l)).

(* src/hab.h:280-285 hab_import_ack *)
Record hab_import_ack := {
  ia_export_id : Z;
  ia_vcid_local : Z;
  ia_vcid_remote : Z;
  ia_imp_whse_added : Z
}.

(* src/hab.h:293-297 hab_import_data *)
Record hab_import_data := {
  id_exp_id : Z;
  id_page_cnt : Z;
  id_reserved : Z
}.

Definition sizeof_hab_import_data : Z := 12.

Definition import_data_enc (d : hab_import_data) : bytes :=
  le_enc 4 (id_exp_id d) ++ le_enc 4 (id_page_cnt d) ++ le_enc 4 (id_reserved d).

Definition import_data_dec (l : bytes) : hab_import_data :=
  Build_hab_import_data (le_dec (word_at 0 l)) (le_dec (word_at 1 l)) (le_dec (word_at 2 l)).

Definition header_enc (h : hab_header) : bytes :=
  le_enc 4 (id_type h) ++ le_enc 4 (payload_size h) ++ le_enc 4 (session_id h) ++
  le_enc 4 (signature h) ++ le_enc 4 (sequence h).

Definition header_dec (l : bytes) : hab_header :=
  Build_hab_header (le_dec (word_at 0 l)) (le_dec (word_at 1 l)) (le_dec (word_at 2 l))
    (le_dec (word_at 3 l)) (le_dec (word_at 4 l)).

(** The header as it is sent. *)
Definition sent_header (h : hab_header) (seq : Z) : hab_header :=
  Build_hab_header (id_type h) (payload_size h) (session_id h) HAB_HEAD_SIGNATURE seq.

(** ** Lemmas *)

Lemma header_enc_zlen h : zlen (header_enc h) = sizeof_hab_header.
Proof. unfold header_enc. by rewrite !zlen_app, !le_enc_zlen. Qed.

Definition header_ok (h : hab_header) : Prop :=
  is_u32 (id_type h) /\ is_u32 (payload_size h) /\ is_u32 (session_id h) /\
  is_u32 (signature h) /\ is_u32 (sequence h).

Definition open_data_ok (d : hab_open_send_data) : Prop :=
  is_i32 (vchan_id d) /\ is_i32 (sub_id d) /\ is_i32 (open_id d) /\
  is_i32 (ver_fe d) /\ is_i32 (ver_be d) /\ is_i32 (ver_proto d).

Definition export_ack_ok (a : hab_export_ack) : Prop :=
  is_u32 (ea_export_id a) /\ is_i32 (ea_vcid_local a) /\ is_i32 (ea_vcid_remote a).

(** Skip the first word of a concatenation of words. *)
Lemma word_at_0 (z : Z) l : word_at 0 (le_enc 4 z ++ l) = le_enc 4 z.
Proof. done. Qed.

Lemma word_at_0_nil (z : Z) : word_at 0 (le_enc 4 z) = le_enc 4 z.
Proof. done. Qed.

Lemma word_at_S i (z : Z) l : word_at (S i) (le_enc 4 z ++ l) = word_at i l.
Proof.
  unfold word_at. replace (4 * S i)%nat with (4 + 4 * i)%nat by lia. done.
Qed.

Create Rewrite HintDb hab_words.
Lemma header_dec_size bs : bytes_ok bs -> 0 <= payload_size (header_dec bs).
Proof.
  intros Hb. unfold header_dec. cbn [payload_size]. apply le_dec_range. by apply Forall_take, Forall_drop.
Qed.

(** The first bytes of a message are its header, whatever the one before was. *)
Lemma word_at_app i (a b : bytes) : (4 * i + 4 <= length a)%nat -> word_at i (a ++ b) = word_at i a.
Proof. intros Hi. unfold word_at. rewrite drop_app_le by lia. rewrite take_app_le; [done|]. rewrite length_skipn. lia. Qed.

Lemma header_dec_first (data header : bytes) : sizeof_hab_header <= zlen data ->
  let head := take (Z.to_nat sizeof_hab_header) data in header_dec (head ++ drop (length head) header) = header_dec data.
Proof.
  intros Hz. cbv zeta. set (head := take _ data). rewrite <- (take_drop (Z.to_nat sizeof_hab_header) data) at 1. fold head.
  assert (length head = 20%nat) by (unfold head, zlen, sizeof_hab_header in *; rewrite length_firstn; lia).
  unfold header_dec. by rewrite !word_at_app by lia.
Qed.

#[export] Hint Rewrite word_at_0 word_at_0_nil word_at_S : hab_words.
#[export] Hint Rewrite le_dec_enc_u32 le_dec_enc_i32 using assumption : hab_words.

Ltac words := autorewrite with hab_words.

(** Bits of a constant mask that a second mask clears. *)
Lemma land_lor3 a b c m :
  Z.land (Z.lor (Z.lor a b) c) m = Z.lor (Z.lor (Z.land a m) (Z.land b m)) (Z.land c m).
Proof. by rewrite !Z.land_lor_distr_l. Qed.

(** The type bits of [id_type] after [HAB_HEADER_SET_TYPE] do not depend on
    what was there. *)
Lemma set_type_masked h type m :
  Z.land (u32 (Z.lnot (Z.lor HAB_HEADER_TYPE_MASK HAB_HEADER_EXT_TYPE_MASK))) m = 0 ->
  Z.land (id_type (HAB_HEADER_SET_TYPE h type)) m =
  Z.land (id_type (HAB_HEADER_SET_TYPE HAB_HEADER_INITIALIZER type)) m.
Proof.
  intros Hm. unfold HAB_HEADER_SET_TYPE, set_id_type. cbn [id_type HAB_HEADER_INITIALIZER].
  rewrite !land_lor3, <- !Z.land_assoc, Hm. by rewrite !Z.land_0_r.
Qed.

Lemma set_type_get_type_pure h type :
  HAB_HEADER_GET_TYPE (HAB_HEADER_SET_TYPE h type) =
  HAB_HEADER_GET_TYPE (HAB_HEADER_SET_TYPE HAB_HEADER_INITIALIZER type).
Proof.
  unfold HAB_HEADER_GET_TYPE.
  by rewrite (set_type_masked h type HAB_HEADER_TYPE_MASK),
    (set_type_masked h type HAB_HEADER_EXT_TYPE_MASK).
Qed.

(** Every type code of up to eight bits survives (checked over all of them). *)
Lemma type_codes_ok :
  forallb (fun n => HAB_HEADER_GET_TYPE
                      (HAB_HEADER_SET_TYPE HAB_HEADER_INITIALIZER (Z.of_nat n))
                    =? Z.of_nat n) (seq 0 256) = true.
Proof. vm_compute. reflexivity. Qed.

Lemma get_type_set_type h type :
  0 <= type < 256 -> HAB_HEADER_GET_TYPE (HAB_HEADER_SET_TYPE h type) = type.
Proof.
  intros Ht. rewrite set_type_get_type_pure.
  pose proof type_codes_ok as Hall. rewrite forallb_forall in Hall.
  specialize (Hall (Z.to_nat type)). rewrite Z2Nat.id in Hall by lia.
  apply Z.eqb_eq, Hall, in_seq. lia.
Qed.

Lemma get_id_set_type h type :
  HAB_HEADER_GET_ID (HAB_HEADER_SET_TYPE h type) = HAB_HEADER_GET_ID h.
Proof.
  unfold HAB_HEADER_GET_ID, HAB_HEADER_SET_TYPE, set_id_type. cbn [id_type].
  rewrite land_lor3, <- !Z.land_assoc.
  change (Z.land (u32 _) HAB_HEADER_ID_MASK) with HAB_HEADER_ID_MASK.
  change (Z.land HAB_HEADER_TYPE_MASK HAB_HEADER_ID_MASK) with 0.
  change (Z.land HAB_HEADER_EXT_TYPE_MASK HAB_HEADER_ID_MASK) with 0.
  by rewrite !Z.land_0_r, !Z.lor_0_r.
Qed.

Lemma get_type_set_id h id :
  HAB_HEADER_GET_TYPE (HAB_HEADER_SET_ID h id) = HAB_HEADER_GET_TYPE h.
Proof.
  unfold HAB_HEADER_GET_TYPE, HAB_HEADER_SET_ID, set_id_type. cbn [id_type].
  rewrite !Z.land_lor_distr_l, <- !Z.land_assoc.
  change (Z.land (u32 (Z.lnot HAB_HEADER_ID_MASK)) HAB_HEADER_TYPE_MASK)
    with HAB_HEADER_TYPE_MASK.
  change (Z.land (u32 (Z.lnot HAB_HEADER_ID_MASK)) HAB_HEADER_EXT_TYPE_MASK)
    with HAB_HEADER_EXT_TYPE_MASK.
  change (Z.land HAB_HEADER_ID_MASK HAB_HEADER_TYPE_MASK) with 0.
  change (Z.land HAB_HEADER_ID_MASK HAB_HEADER_EXT_TYPE_MASK) with 0.
  by rewrite !Z.land_0_r, !Z.lor_0_r.
Qed.

Lemma vcid_get_id_mod vcid : HAB_VCID_GET_ID vcid = vcid mod 2 ^ 12.
Proof.
  unfold HAB_VCID_GET_ID, HAB_VCID_ID_SHIFT. rewrite Z.shiftr_0_r.
  change HAB_VCID_ID_MASK with (Z.ones 12). by apply Z.land_ones.
Qed.

Lemma get_id_set_id h id :
  HAB_HEADER_GET_ID (HAB_HEADER_SET_ID h id) = HAB_VCID_GET_ID id.
Proof.
  unfold HAB_HEADER_GET_ID, HAB_HEADER_SET_ID, set_id_type. cbn [id_type].
  rewrite Z.land_lor_distr_l, <- !Z.land_assoc.
  change (Z.land (u32 (Z.lnot HAB_HEADER_ID_MASK)) HAB_HEADER_ID_MASK) with 0.
  rewrite Z.land_0_r, Z.lor_0_l, Z.land_diag.
  change (HAB_HEADER_ID_SHIFT - HAB_VCID_ID_SHIFT) with HAB_HEADER_ID_SHIFT.
  rewrite Z.shiftr_land, Z.shiftr_shiftl_l by (compute; discriminate).
  replace (HAB_HEADER_ID_SHIFT - HAB_HEADER_ID_SHIFT) with 0 by reflexivity.
  rewrite Z.shiftl_0_r, <- Z.land_assoc.
  change (Z.land (Z.shiftr HAB_HEADER_ID_MASK HAB_HEADER_ID_SHIFT) HAB_VCID_ID_MASK)
    with (Z.ones 12).
  rewrite Z.land_ones by lia. rewrite vcid_get_id_mod. apply Zmod_mod.
Qed.

Lemma vcid_get_id_range vcid : 0 <= HAB_VCID_GET_ID vcid < 4096.
Proof. rewrite vcid_get_id_mod. by apply Z.mod_pos_bound. Qed.

Lemma mk_header_type size t id sid :
  HAB_HEADER_GET_TYPE (mk_header size t id sid) = payload_code t.
Proof.
  unfold mk_header, HAB_HEADER_SET_SESSION_ID, HAB_HEADER_GET_TYPE. cbn [id_type].
  fold (HAB_HEADER_GET_TYPE (HAB_HEADER_SET_ID (HAB_HEADER_SET_TYPE
     (HAB_HEADER_SET_SIZE HAB_HEADER_INITIALIZER size) (payload_code t)) id)).
  rewrite get_type_set_id. apply get_type_set_type. by destruct t.
Qed.

Lemma mk_header_id size t id sid :
  HAB_HEADER_GET_ID (mk_header size t id sid) = HAB_VCID_GET_ID id.
Proof.
  unfold mk_header, HAB_HEADER_SET_SESSION_ID, HAB_HEADER_GET_ID. cbn [id_type].
  apply (get_id_set_id (HAB_HEADER_SET_TYPE _ _)).
Qed.

Lemma mk_header_size size t id sid :
  HAB_HEADER_GET_SIZE (mk_header size t id sid) = u32 size.
Proof. done. Qed.

Lemma mk_header_session size t id sid :
  HAB_HEADER_GET_SESSION_ID (mk_header size t id sid) = u32 sid.
Proof. done. Qed.

(** ** Properties *)

(** What a sender packs into a message header with the HAB_HEADER_SET_*
    macros is what the receiver's HAB_HEADER_GET_* macros return: the payload
    type (all five bits of it, although the type field proper has only four),
    the low 12 bits of the vcid, the size and the session id, whatever order of
    bits they share in the 32-bit [id_type] word. *)
Theorem header_fields_roundtrip (size : Z) (t : hab_payload_type) (id sid : Z) :
  HAB_HEADER_GET_TYPE (mk_header size t id sid) = payload_code t /\
  payload_of_code (HAB_HEADER_GET_TYPE (mk_header size t id sid)) = Some t /\
  HAB_HEADER_GET_ID (mk_header size t id sid) = id mod 2 ^ 12 /\
  HAB_HEADER_GET_SIZE (mk_header size t id sid) = size mod 2 ^ 32 /\
  HAB_HEADER_GET_SESSION_ID (mk_header size t id sid) = sid mod 2 ^ 32.
Proof.
  rewrite mk_header_type, mk_header_id, vcid_get_id_mod, payload_of_code_code.
  repeat split.
Qed.

Lemma header_dec_app h x : header_ok h -> header_dec (header_enc h ++ x) = h.
Proof.
  intros (?&?&?&?&?). unfold header_dec, header_enc. rewrite <- !app_assoc. words. by destruct h.
Qed.


