(* ===== verification/Pipe.v ===== *)
(** The shared-memory ring of hab_pipe.c: one writer and one reader per
    direction, each with a private index, the two 32-bit counters shared with
    the peer.  Accesses to the ring and to the caller's buffer go through
    [mem_read]/[mem_write], so an access outside either is a [Fault].  The last
    section gives the byte queue the ring implements and the refinement. *)
From S2P Require Import Prelude Header.

(* src/hab_pipe.h:8-13 hab_shared_buf *)
Record hab_shared_buf := {
  rd_count : Z;
  wr_count : Z;
  size : Z;
  data : bytes
}.

(* src/hab_pipe.h:32-42 hab_pipe_endpoint *)
Record hab_pipe_endpoint := {
  tx_wr_count : Z;
  tx_index : Z;
  rx_index : Z
}.

(** [buf_base] holds the two rings one after the other; the legacy fields are
    kept because [hab_pipe_init] clears them. *)
(* src/hab_pipe.h:44-54 hab_pipe *)
Record hab_pipe := {
  top : hab_pipe_endpoint;
  bottom : hab_pipe_endpoint;
  legacy_buf_a : option Z;
  legacy_buf_b : option Z;
  legacy_total_size : Z;
  buf_a : hab_shared_buf;
  buf_b : hab_shared_buf
}.

Definition sizeof_shared_buf : Z := 12.
Definition sizeof_endpoint : Z := 32.
Definition sizeof_pipe : Z := 2 * sizeof_endpoint + 24.

(* src/hab_pipe.c:8-12 hab_pipe_calc_required_bytes *)
Definition hab_pipe_calc_required_bytes (shared_buf_size : Z) : Z :=
  u64 (sizeof_pipe + 2 * (sizeof_shared_buf + shared_buf_size)).

Inductive pipe_side := SideTop | SideBottom.
Inductive pipe_buf := BufA | BufB.

Definition endpoint_zero : hab_pipe_endpoint := Build_hab_pipe_endpoint 0 0 0.

Definition memset_shared (b : hab_shared_buf) (sz : Z) : hab_shared_buf :=
  Build_hab_shared_buf 0 0 sz (data b).

(** The returned endpoint and the ring each end writes to and reads from.
    [pipe], [tx_p] and [rx_p] are the three pointers tested for NULL; the debug
    items are whatever [kzalloc] gave ([itms_ok]). *)
(* src/hab_pipe.c:24-67 hab_pipe_init *)
Definition hab_pipe_init (pipe : option hab_pipe) (tx_p rx_p itms_ok : bool)
    (shared_buf_size : Z) (is_top : bool)
  : option (hab_pipe * pipe_side * pipe_buf * pipe_buf * bool) :=
  match pipe with
  | None => None
  | Some p =>
      if negb tx_p || negb rx_p then None
      else if is_top then
        Some (Build_hab_pipe endpoint_zero (bottom p) None (legacy_buf_b p)
                (legacy_total_size p) (buf_a p) (buf_b p),
              SideTop, BufA, BufB, itms_ok)
      else
        Some (Build_hab_pipe (top p) endpoint_zero (legacy_buf_a p) None 0
                (memset_shared (buf_a p) shared_buf_size)
                (memset_shared (buf_b p) shared_buf_size),
              SideBottom, BufB, BufA, itms_ok)
  end.

(** One [memcpy] into the ring with the index update that follows it. *)
Definition ring_put (buf_size : Z) (mem : bytes) (idx wr : Z) (src : bytes)
  : res (bytes * Z * Z) :=
  let? mem' := of_opt OutOfBounds (mem_write mem idx src) in
  let idx' := u32 (idx + zlen src) in
  Ok (mem', if buf_size <=? idx' then 0 else idx', u32 (wr + zlen src)).

(* src/hab_pipe.c:69-125 hab_pipe_write *)
Definition hab_pipe_write (ep : hab_pipe_endpoint) (sh : hab_shared_buf)
    (buf_size : Z) (p : option bytes) (num_bytes : Z)
  : res (Z * hab_pipe_endpoint * hab_shared_buf) :=
  let used := u32 (tx_wr_count ep - rd_count sh) in
  if buf_size <? used then Ok (0, ep, sh)
  else
    let space := u32 (buf_size - used) in
    match p with
    | None => Ok (0, ep, sh)
    | Some p =>
      if (space <? num_bytes) || (num_bytes =? 0) then Ok (0, ep, sh)
      else if (buf_size <? tx_index ep) || (buf_size <? num_bytes) then Ok (0, ep, sh)
      else
        let count1 := if num_bytes <=? u32 (buf_size - tx_index ep)
                      then num_bytes else u32 (buf_size - tx_index ep) in
        let count2 := u32 (num_bytes - count1) in
        let? (m1, i1, w1) :=
          (if 0 <? count1
           then let? src := of_opt OutOfBounds (mem_read p 0 count1) in
                ring_put buf_size (data sh) (tx_index ep) (tx_wr_count ep) src
           else Ok (data sh, tx_index ep, tx_wr_count ep)) in
        let? (m2, i2, w2) :=
          (if 0 <? count2
           then let? src := of_opt OutOfBounds (mem_read p count1 count2) in
                ring_put buf_size m1 i1 w1 src
           else Ok (m1, i1, w1)) in
        Ok (num_bytes, Build_hab_pipe_endpoint w2 i2 (rx_index ep),
            Build_hab_shared_buf (rd_count sh) (wr_count sh) (size sh) m2)
    end.

(* src/hab_pipe.c:127-134 hab_pipe_write_commit *)
Definition hab_pipe_write_commit (ep : hab_pipe_endpoint) (sh : hab_shared_buf)
  : hab_shared_buf :=
  Build_hab_shared_buf (rd_count sh) (tx_wr_count ep) (size sh) (data sh).

(** The two copies out of the ring into the caller's buffer [p]: [count1] bytes
    from [idx1], [count2] bytes from [idx2]. *)
Definition ring_get (mem : bytes) (p : bytes) (idx1 count1 idx2 count2 : Z) : res bytes :=
  let? p1 := (if 0 <? count1
              then let? s := of_opt OutOfBounds (mem_read mem idx1 count1) in
                   of_opt OutOfBounds (mem_write p 0 s)
              else Ok p) in
  if 0 <? count2
  then let? s := of_opt OutOfBounds (mem_read mem idx2 count2) in
       of_opt OutOfBounds (mem_write p1 count1 s)
  else Ok p1.

(** The retry loop on a corrupted header.  [snap k] is the ring's memory as the
    [k]-th re-copy sees it (the peer may be writing it); [sm] is the static
    flag [signature_mismatch] and is 0 or 1.  The loop ends by itself: [fuel] is
    the number of re-copies the source allows plus the two exits. *)
(* src/hab_pipe.c:189-226 hab_pipe_read *)
Fixpoint header_retry (fuel : nat) (snap : Z -> bytes) (sm retry_cnt : Z) (p : bytes)
    (index_saved count1 idx2 count2 : Z) : res (Z * Z * bytes) :=
  match fuel with
  | O => Fault OutOfFuel
  | S fuel =>
      if signature (header_dec p) =? HAB_HEAD_SIGNATURE then Ok (0, retry_cnt, p)
      else if retry_cnt <=? 1000 then
        let? p' := ring_get (snap retry_cnt) p index_saved count1 idx2 count2 in
        if sm =? 0
        then header_retry fuel snap sm (retry_cnt + 1) p' index_saved count1 idx2 count2
        else Ok (1, retry_cnt + 1, p')
      else Ok (1, retry_cnt + 1, p)
  end.

Definition retry_fuel : nat := S (Z.to_nat 1002).
#[global] Arguments retry_fuel : simpl never.
#[global] Arguments header_retry : simpl never.

(* src/hab_pipe.c:138-245 hab_pipe_read *)
Definition hab_pipe_read (snap : Z -> bytes) (sm : Z) (ep : hab_pipe_endpoint)
    (sh : hab_shared_buf) (buf_size : Z) (p : option bytes) (sz : Z) (clear : bool)
  : res (Z * Z * hab_pipe_endpoint * hab_shared_buf * option bytes) :=
  let avail := u32 (wr_count sh - rd_count sh) in
  match p with
  | None => Ok (0, sm, ep, sh, p)
  | Some buf =>
    if (avail =? 0) || (sz =? 0) || (buf_size <? rx_index ep) then Ok (0, sm, ep, sh, p)
    else
      let index_saved := rx_index ep in
      let to_read := if avail <? sz then avail else sz in
      let count1 := if to_read <=? u32 (buf_size - index_saved)
                    then to_read else u32 (buf_size - index_saved) in
      let count2 := u32 (to_read - count1) in
      let idx1 := (if 0 <? count1
                   then let i := u32 (index_saved + count1) in
                        if buf_size <=? i then 0 else i
                   else index_saved) in
      let idx2 := (if 0 <? count2 then u32 (idx1 + count2) else idx1) in
      let? buf1 := ring_get (data sh) buf index_saved count1 idx1 count2 in
      if u32 (count1 + count2) =? 0
      then Ok (to_read, sm, Build_hab_pipe_endpoint (tx_wr_count ep) (tx_index ep) idx2, sh,
               Some buf1)
      else
        let? (sm', retry_cnt, buf2) :=
          (if clear && (sz =? sizeof_hab_header)
           then header_retry retry_fuel snap sm 0 buf1 index_saved count1
                  (u32 (idx2 - count2)) count2
           else Ok (sm, 0, buf1)) in
        let rxi := (if sm' =? 0 then idx2
                    else let i := u32 (index_saved + 1) in
                         if size sh <=? i then 0 else i) in
        let to_read' := (if sm' =? 0 then to_read
                         else if retry_cnt <? 1000 then 0xFFFFFFFE else 0xFFFFFFFF) in
        let step := (if sm' =? 0 then u32 (count1 + count2) else 1) in
        Ok (to_read', sm', Build_hab_pipe_endpoint (tx_wr_count ep) (tx_index ep) rxi,
            Build_hab_shared_buf (u32 (rd_count sh + step)) (wr_count sh) (size sh) (data sh),
            Some buf2)
  end.

(* src/hab_pipe.c:247-255 hab_pipe_rxinfo *)
Definition hab_pipe_rxinfo (ep : hab_pipe_endpoint) (sh : hab_shared_buf) : Z * Z * Z :=
  (rd_count sh, wr_count sh, rx_index ep).

(** ** Ring arithmetic *)

Lemma wrap_mod b k n :
  0 <= b < n -> 0 <= k <= n ->
  (b + k) mod n = if b + k <? n then b + k else b + k - n.
Proof.
  intros. destruct (Z.ltb_spec (b + k) n).
  - apply Z.mod_small. lia.
  - symmetry. apply (Z.mod_unique_pos _ _ 1); lia.
Qed.

(** [m'] is [m] with [src] laid down on the ring of [n] bytes from [base] on. *)
Definition ring_written (n base : Z) (src m m' : bytes) : Prop :=
  zlen m' = zlen m /\
  forall k, 0 <= k < n ->
    m' !! Z.to_nat ((base + k) mod n) =
    if k <? zlen src then src !! Z.to_nat k else m !! Z.to_nat ((base + k) mod n).

(** The bytes of the ring from [base] on. *)
Definition ring_slice (n base : Z) (l m : bytes) : Prop :=
  forall i : nat, (i < length l)%nat -> l !! i = m !! Z.to_nat ((base + Z.of_nat i) mod n).

Lemma ring_slice_take n base l m r :
  ring_slice n base l m -> ring_slice n base (take r l) m.
Proof.
  intros H i Hi. rewrite length_take in Hi. rewrite lookup_take_lt by lia.
  apply H. lia.
Qed.

Lemma ring_slice_drop n base l m (r : nat) :
  0 < n -> (r <= length l)%nat ->
  ring_slice n base l m -> ring_slice n ((base + Z.of_nat r) mod n) (drop r l) m.
Proof.
  intros Hn Hr H i Hi. rewrite length_drop in Hi.
  rewrite lookup_drop, H by lia. do 2 f_equal.
  rewrite Zplus_mod_idemp_l. f_equal. lia.
Qed.

(** Writing behind a slice extends it. *)
Lemma ring_slice_written n base l src m m' :
  0 < n -> 0 <= base < n -> zlen l + zlen src <= n ->
  ring_slice n base l m ->
  ring_written n ((base + zlen l) mod n) src m m' ->
  ring_slice n base (l ++ src) m'.
Proof.
  intros Hn Hb Hlen Hsl [_ Hw] i Hi. unfold zlen in *. rewrite length_app in Hi.
  destruct (Nat.ltb_spec i (length l)) as [Hil|Hil].
  - rewrite lookup_app_l by lia. rewrite Hsl by lia.
    specialize (Hw (Z.of_nat i - Z.of_nat (length l) + n)).
    rewrite Zplus_mod_idemp_l in Hw.
    replace (base + Z.of_nat (length l) + (Z.of_nat i - Z.of_nat (length l) + n))
      with (base + Z.of_nat i + 1 * n) in Hw by lia.
    rewrite Z_mod_plus_full in Hw. rewrite Hw by lia.
    destruct (Z.ltb_spec (Z.of_nat i - Z.of_nat (length l) + n) (Z.of_nat (length src)));
      [lia|done].
  - rewrite lookup_app_r by lia.
    specialize (Hw (Z.of_nat i - Z.of_nat (length l))).
    rewrite Zplus_mod_idemp_l in Hw.
    replace (base + Z.of_nat (length l) + (Z.of_nat i - Z.of_nat (length l)))
      with (base + Z.of_nat i) in Hw by lia.
    rewrite Hw by lia.
    destruct (Z.ltb_spec (Z.of_nat i - Z.of_nat (length l)) (Z.of_nat (length src)));
      [f_equal; lia|lia].
Qed.

(** The two copies of a write together lay the whole source on the ring. *)
Lemma ring_put_once n mem idx wr src :
  0 < n < 2 ^ 32 -> zlen mem = n -> 0 <= idx < n -> idx + zlen src <= n ->
  exists m', ring_put n mem idx wr src =
    Ok (m', (idx + zlen src) mod n, u32 (wr + zlen src)) /\
    mem_write mem idx src = Some m'.
Proof.
  intros Hn Hm Hi Hs. pose proof (zlen_nonneg src) as Hs0.
  unfold ring_put. rewrite mem_write_Some by lia. simpl. eexists. split; [|done].
  do 2 f_equal. f_equal. rewrite u32_id by (unfold is_u32; lia).
  rewrite wrap_mod by lia.
  destruct (Z.leb_spec n (idx + zlen src)), (Z.ltb_spec (idx + zlen src) n); lia.
Qed.

Lemma ring_written_once n idx src m m' :
  0 < n -> zlen m = n -> 0 <= idx < n -> idx + zlen src <= n ->
  mem_write m idx src = Some m' -> ring_written n idx src m m'.
Proof.
  intros Hn Hm Hi Hs Hw. split; [by apply mem_write_len in Hw|].
  intros k Hk. rewrite (mem_write_lookup _ _ _ _ _ Hw), wrap_mod by lia.
  destruct (Z.ltb_spec (idx + k) n); rewrite Z2Nat.id by lia;
    bool_cases; try lia; f_equal; lia.
Qed.

Lemma ring_written_app n idx s1 s2 m m1 m2 :
  0 < n -> 0 <= idx < n -> zlen s1 + zlen s2 <= n ->
  ring_written n idx s1 m m1 ->
  ring_written n ((idx + zlen s1) mod n) s2 m1 m2 ->
  ring_written n idx (s1 ++ s2) m m2.
Proof.
  intros Hn Hi Hlen [Hl1 H1] [Hl2 H2]. split; [congruence|]. intros k Hk.
  pose proof (zlen_nonneg s1). pose proof (zlen_nonneg s2).
  rewrite zlen_app. destruct (Z.ltb_spec k (zlen s1)) as [Hks|Hks].
  - specialize (H2 (k - zlen s1 + n)). rewrite Zplus_mod_idemp_l in H2.
    replace (idx + zlen s1 + (k - zlen s1 + n)) with (idx + k + 1 * n) in H2 by lia.
    rewrite Z_mod_plus_full in H2. rewrite H2 by lia.
    rewrite H1 by lia. unfold zlen in *. bool_cases; try lia.
    rewrite lookup_app_l by lia. done.
  - specialize (H2 (k - zlen s1)). rewrite Zplus_mod_idemp_l in H2.
    replace (idx + zlen s1 + (k - zlen s1)) with (idx + k) in H2 by lia.
    rewrite H2 by lia. rewrite H1 by lia. unfold zlen in *. bool_cases; try lia; [|done].
    rewrite lookup_app_r by lia. f_equal. lia.
Qed.

Lemma take_split {A} (l : list A) (a b : nat) :
  take a l ++ take b (drop a l) = take (a + b) l.
Proof. by rewrite take_take_drop. Qed.

(** The two-piece copy of [hab_pipe_write] once its guards passed. *)
Lemma hab_pipe_write_copy ep sh n p num :
  0 < n < 2 ^ 32 -> zlen (data sh) = n -> 0 <= tx_index ep < n ->
  0 < num <= zlen p -> num <= u32 (n - u32 (tx_wr_count ep - rd_count sh)) ->
  u32 (tx_wr_count ep - rd_count sh) <= n -> num <= n ->
  exists m',
    hab_pipe_write ep sh n (Some p) num =
      Ok (num,
          Build_hab_pipe_endpoint (u32 (tx_wr_count ep + num))
            ((tx_index ep + num) mod n) (rx_index ep),
          Build_hab_shared_buf (rd_count sh) (wr_count sh) (size sh) m') /\
    ring_written n (tx_index ep) (take (Z.to_nat num) p) (data sh) m'.
Proof.
  intros Hn Hm Hi Hp Hsp Hused Hnum.
  unfold hab_pipe_write. pose proof (u32_range (tx_wr_count ep - rd_count sh)).
  destruct (Z.ltb_spec n (u32 (tx_wr_count ep - rd_count sh))); [lia|].
  destruct (Z.ltb_spec (u32 (n - u32 (tx_wr_count ep - rd_count sh))) num); [lia|].
  destruct (Z.eqb_spec num 0); [lia|].
  destruct (Z.ltb_spec n (tx_index ep)); [lia|].
  destruct (Z.ltb_spec n num); [lia|]. cbn [orb].
  rewrite (u32_id (n - tx_index ep)) by (unfold is_u32; lia).
  destruct (Z.leb_spec num (n - tx_index ep)) as [Hone|Htwo].
  - rewrite (u32_id (num - num)) by (unfold is_u32; lia).
    destruct (Z.ltb_spec 0 num); [|lia]. destruct (Z.ltb_spec 0 (num - num)); [lia|].
    rewrite mem_read_Some by lia. cbn [of_opt res_bind]. change (drop (Z.to_nat 0) p) with p.
    assert (Hs : zlen (take (Z.to_nat num) p) = num) by (apply zlen_take; lia).
    destruct (ring_put_once n (data sh) (tx_index ep) (tx_wr_count ep)
                (take (Z.to_nat num) p)) as (m' & -> & Hw); [lia..|].
    cbn [res_bind]. rewrite Hs. exists m'. split; [done|].
    apply ring_written_once; lia || done.
  - set (c1 := n - tx_index ep) in *.
    rewrite (u32_id (num - c1)) by (unfold is_u32; lia).
    destruct (Z.ltb_spec 0 c1); [|lia]. destruct (Z.ltb_spec 0 (num - c1)); [|lia].
    rewrite !mem_read_Some by lia. cbn [of_opt res_bind]. change (drop (Z.to_nat 0) p) with p.
    set (s1 := take (Z.to_nat c1) p). set (s2 := take (Z.to_nat (num - c1)) (drop (Z.to_nat c1) p)).
    assert (Hs1 : zlen s1 = c1) by (apply zlen_take; lia).
    assert (Hs2 : zlen s2 = num - c1) by (apply zlen_take; rewrite zlen_drop; lia).
    destruct (ring_put_once n (data sh) (tx_index ep) (tx_wr_count ep) s1)
      as (m1 & -> & Hw1); [lia..|].
    cbn [res_bind]. rewrite Hs1.
    assert (Hm1 : zlen m1 = n) by (apply mem_write_len in Hw1; lia).
    replace ((tx_index ep + c1) mod n) with 0 by
      (unfold c1; replace (tx_index ep + (n - tx_index ep)) with (0 + 1 * n) by lia;
       rewrite Z_mod_plus_full; done).
    destruct (ring_put_once n m1 0 (u32 (tx_wr_count ep + c1)) s2)
      as (m2 & -> & Hw2); [lia..|].
    cbn [res_bind]. rewrite Hs2. exists m2. split.
    + do 3 f_equal. f_equal.
      * unfold u32. rewrite Zplus_mod_idemp_l. f_equal. lia.
      * rewrite Z.add_0_l, Z.mod_small by lia.
        replace (tx_index ep + num) with (num - c1 + 1 * n) by (unfold c1; lia).
        rewrite Z_mod_plus_full. symmetry. apply Z.mod_small. lia.
    + replace (take (Z.to_nat num) p) with (s1 ++ s2)
        by (unfold s1, s2; rewrite take_split; f_equal; lia).
      apply ring_written_app with (m1 := m1); [lia..| |].
      * apply ring_written_once; lia || done.
      * rewrite Hs1. replace ((tx_index ep + c1) mod n) with 0 by
          (unfold c1; replace (tx_index ep + (n - tx_index ep)) with (0 + 1 * n) by lia;
           rewrite Z_mod_plus_full; done).
        apply ring_written_once; lia || done.
Qed.

(** The copy of [hab_pipe_read]: the bytes that leave the ring, whatever was in
    the caller's buffer, when they do not exceed the ring. *)
Lemma ring_get_ok n mem p idx r :
  0 < n -> zlen mem = n -> 0 <= idx < n -> 0 < r <= n -> r <= zlen p ->
  let c1 := if r <=? n - idx then r else n - idx in
  exists out, ring_get mem p idx c1 (if r <=? n - idx then (idx + r) mod n else 0) (r - c1) =
      Ok (out ++ drop (Z.to_nat r) p) /\
    zlen out = r /\ (forall q, ring_slice n idx q mem -> r <= zlen q -> out = take (Z.to_nat r) q).
Proof.
  intros Hn Hm Hi Hr Hp c1. unfold ring_get.
  assert (Hc1 : 0 < c1 <= r /\ idx + c1 <= n) by (unfold c1; bool_cases; lia).
  destruct (Z.ltb_spec 0 c1); [|lia].
  rewrite (mem_read_Some mem) by lia. cbn [of_opt res_bind].
  set (s1 := take (Z.to_nat c1) (drop (Z.to_nat idx) mem)).
  assert (Hs1 : zlen s1 = c1) by (apply zlen_take; rewrite zlen_drop; lia).
  rewrite mem_write_Some by lia. rewrite Z.add_0_l, Hs1. cbn [of_opt res_bind].
  change (take (Z.to_nat 0) p) with (@nil Z). rewrite app_nil_l.
  destruct (Z.ltb_spec 0 (r - c1)) as [Htwo|Hone].
  - assert (Hc : c1 = n - idx /\ n - idx < r) by (unfold c1 in *; bool_cases; lia).
    destruct (Z.leb_spec r (n - idx)); [lia|].
    rewrite mem_read_Some by lia. cbn [of_opt res_bind]. change (drop (Z.to_nat 0) mem) with mem.
    set (s2 := take (Z.to_nat (r - c1)) mem).
    assert (Hs2 : zlen s2 = r - c1) by (apply zlen_take; lia).
    rewrite mem_write_Some; [|lia|rewrite zlen_app, zlen_drop; lia].
    exists (s1 ++ s2). rewrite Hs2. split; [|split].
    + cbn [of_opt]. f_equal. unfold zlen in *.
      rewrite take_app_le, take_ge by lia.
      rewrite drop_app_ge by lia. rewrite drop_drop, <- app_assoc. do 3 f_equal. lia.
    + rewrite zlen_app. lia.
    + intros q Hsl Hq. apply list_eq. intros i. unfold zlen in *.
      destruct (Nat.ltb_spec i (Z.to_nat r)) as [Hir|Hir].
      2:{ rewrite !lookup_ge_None_2; [done| |]; rewrite ?length_take, ?length_app; lia. }
      rewrite lookup_take_lt, Hsl by lia.
      destruct (Nat.ltb_spec i (Z.to_nat c1)).
      * rewrite lookup_app_l by lia. unfold s1.
        rewrite lookup_take_lt, lookup_drop by lia. f_equal.
        rewrite Z.mod_small by lia. lia.
      * rewrite lookup_app_r by lia. unfold s2.
        rewrite lookup_take_lt by lia. f_equal.
        rewrite wrap_mod by lia. bool_cases; lia.
  - exists s1. rewrite Hs1. replace (Z.to_nat r) with (Z.to_nat c1) by lia.
    split; [done|split; [lia|]]. intros q Hsl Hq. apply list_eq. intros i. unfold zlen in *.
    destruct (Nat.ltb_spec i (Z.to_nat c1)).
    + unfold s1. rewrite lookup_take_lt, lookup_drop by lia.
      rewrite lookup_take_lt, Hsl by lia. f_equal. rewrite Z.mod_small by lia. lia.
    + rewrite !lookup_ge_None_2; [done| |]; rewrite ?length_take; lia.
Qed.

(** ** The byte queue a ring implements *)

(** [f_staged] has been written and not yet committed. *)
Record fifo := { f_cap : Z; f_committed : bytes; f_staged : bytes }.

Definition fifo_free (f : fifo) : Z := f_cap f - zlen (f_committed f) - zlen (f_staged f).

Definition fifo_write (f : fifo) (p : bytes) (num : Z) : Z * fifo :=
  if (fifo_free f <? num) || (num =? 0) then (0, f)
  else (num, Build_fifo (f_cap f) (f_committed f) (f_staged f ++ take (Z.to_nat num) p)).

Definition fifo_commit (f : fifo) : fifo :=
  Build_fifo (f_cap f) (f_committed f ++ f_staged f) [].

Definition fifo_read (f : fifo) (sz : Z) : bytes * fifo :=
  let r := Z.to_nat sz in
  (take r (f_committed f), Build_fifo (f_cap f) (drop r (f_committed f)) (f_staged f)).

(** The writer's endpoint, the reader's endpoint and the shared ring represent
    the queue.  Counters are 32-bit and may have wrapped. *)
Record pipe_rep (tx rx : hab_pipe_endpoint) (sh : hab_shared_buf) (f : fifo) : Prop := {
  rep_cap : 0 < f_cap f < 2 ^ 32;
  rep_len : zlen (data sh) = f_cap f;
  rep_rx : 0 <= rx_index rx < f_cap f;
  rep_used : zlen (f_committed f) + zlen (f_staged f) <= f_cap f;
  rep_wr : u32 (wr_count sh - rd_count sh) = zlen (f_committed f);
  rep_tx : u32 (tx_wr_count tx - rd_count sh) = zlen (f_committed f) + zlen (f_staged f);
  rep_txi : tx_index tx =
    (rx_index rx + (zlen (f_committed f) + zlen (f_staged f))) mod f_cap f;
  rep_bytes : ring_slice (f_cap f) (rx_index rx) (f_committed f ++ f_staged f) (data sh)
}.

Lemma rep_txi_range tx rx sh f :
  pipe_rep tx rx sh f -> 0 <= tx_index tx < f_cap f.
Proof. intros H. rewrite (rep_txi _ _ _ _ H). apply Z.mod_pos_bound. apply H. Qed.

Lemma pipe_rep_init n mem :
  0 < n < 2 ^ 32 -> zlen mem = n ->
  pipe_rep endpoint_zero endpoint_zero (Build_hab_shared_buf 0 0 n mem) (Build_fifo n [] []).
Proof.
  intros Hn Hm. constructor; simpl; change (zlen (@nil Z)) with 0; try done; try lia.
  intros i Hi. simpl in Hi. lia.
Qed.

Lemma hab_pipe_write_rep tx rx sh f p num :
  pipe_rep tx rx sh f -> 0 <= num <= zlen p ->
  exists tx' sh',
    hab_pipe_write tx sh (f_cap f) (Some p) num = Ok (fst (fifo_write f p num), tx', sh') /\
    pipe_rep tx' rx sh' (snd (fifo_write f p num)).
Proof.
  intros H Hnum. pose proof (rep_txi_range _ _ _ _ H) as Htxi.
  destruct H as [Hcap Hlen Hrx Hused Hwr Htx Hti Hby].
  pose proof (zlen_nonneg (f_committed f)). pose proof (zlen_nonneg (f_staged f)).
  assert (Hfree : u32 (f_cap f - u32 (tx_wr_count tx - rd_count sh)) = fifo_free f).
  { rewrite Htx, u32_id; unfold fifo_free, is_u32; lia. }
  unfold fifo_write.
  destruct ((fifo_free f <? num) || (num =? 0))%bool eqn:Hg; cbn [fst snd].
  - exists tx, sh. split; [|by constructor].
    unfold hab_pipe_write. rewrite Hfree, Hg.
    by destruct (f_cap f <? _).
  - bool_hyps.
    destruct (hab_pipe_write_copy tx sh (f_cap f) p num) as (m' & -> & Hw);
      [unfold fifo_free in *; lia..|].
    eexists _, _. split; [done|].
    assert (Ht : zlen (take (Z.to_nat num) p) = num) by (apply zlen_take; lia).
    destruct Hw as [Hwl Hw].
    constructor; cbn [f_cap f_committed f_staged data rd_count wr_count tx_wr_count tx_index];
      rewrite ?zlen_app, ?Ht; unfold fifo_free in *; try lia.
    + rewrite u32_add_sub, Htx, u32_id; unfold is_u32; lia.
    + rewrite Hti, Zplus_mod_idemp_l. f_equal. lia.
    + rewrite app_assoc. eapply ring_slice_written with (m := data sh);
        rewrite ?zlen_app; try lia; [done|].
      rewrite <- Hti. by split.
Qed.

Lemma hab_pipe_write_commit_rep tx rx sh f :
  pipe_rep tx rx sh f -> pipe_rep tx rx (hab_pipe_write_commit tx sh) (fifo_commit f).
Proof.
  intros [Hcap Hlen Hrx Hused Hwr Htx Hti Hby].
  constructor; simpl; rewrite ?zlen_app; change (zlen (@nil Z)) with 0; try done; try lia.
  - rewrite Hti. f_equal. lia.
  - by rewrite app_nil_r.
Qed.

(** The indices and counts of a read of [r] bytes from [idx]. *)
Lemma read_indices n idx r :
  0 < n < 2 ^ 32 -> 0 <= idx < n -> 0 < r <= n ->
  let c1 := if r <=? u32 (n - idx) then r else u32 (n - idx) in
  let i1 := (if 0 <? c1
             then let i := u32 (idx + c1) in if n <=? i then 0 else i else idx) in
  let c2 := u32 (r - c1) in
  c1 = (if r <=? n - idx then r else n - idx) /\ 0 < c1 <= r /\ c2 = r - c1 /\
  i1 = (if r <=? n - idx then (idx + r) mod n else 0) /\
  (if 0 <? c2 then u32 (i1 + c2) else i1) = (idx + r) mod n /\
  u32 (c1 + c2) = r.
Proof.
  intros Hn Hi Hr. cbv zeta. rewrite (u32_id (n - idx)) by (unfold is_u32; lia).
  rewrite (wrap_mod idx r n) by lia.
  destruct (Z.leb_spec r (n - idx)).
  - rewrite (u32_id (r - r)), (u32_id (idx + r)) by (unfold is_u32; lia).
    rewrite (u32_id (r + (r - r))) by (unfold is_u32; lia).
    repeat split; bool_cases; lia.
  - rewrite (u32_id (r - (n - idx))), (u32_id (idx + (n - idx))) by (unfold is_u32; lia).
    rewrite (u32_id (n - idx + _)) by (unfold is_u32; lia).
    repeat split; bool_cases; try lia. rewrite u32_id; unfold is_u32; lia.
Qed.

(** [hab_pipe_read] up to its header check, when at least one byte is read and
    no more than the ring holds: [out] left the ring, whatever the counters. *)
Lemma hab_pipe_read_copy snap sm ep sh n buf sz clear :
  0 < n < 2 ^ 32 -> zlen (data sh) = n -> 0 <= rx_index ep < n -> sz <= zlen buf ->
  let r := Z.min (u32 (wr_count sh - rd_count sh)) sz in
  let idx := rx_index ep in
  let c1 := if r <=? n - idx then r else n - idx in
  0 < r <= n ->
  exists out,
    zlen out = r /\
    (forall q, ring_slice n idx q (data sh) -> r <= zlen q -> out = take (Z.to_nat r) q) /\
    ring_get (data sh) buf idx c1 (if r <=? n - idx then (idx + r) mod n else 0) (r - c1)
      = Ok (out ++ drop (Z.to_nat r) buf) /\
    hab_pipe_read snap sm ep sh n (Some buf) sz clear =
      let? (sm', retry_cnt, buf2) :=
        (if clear && (sz =? sizeof_hab_header)
         then header_retry retry_fuel snap sm 0 (out ++ drop (Z.to_nat r) buf) idx c1
                (u32 ((idx + r) mod n - (r - c1))) (r - c1)
         else Ok (sm, 0, out ++ drop (Z.to_nat r) buf)) in
      Ok (if sm' =? 0 then r else if retry_cnt <? 1000 then 0xFFFFFFFE else 0xFFFFFFFF,
          sm',
          Build_hab_pipe_endpoint (tx_wr_count ep) (tx_index ep)
            (if sm' =? 0 then (idx + r) mod n
             else let i := u32 (idx + 1) in if size sh <=? i then 0 else i),
          Build_hab_shared_buf (u32 (rd_count sh + (if sm' =? 0 then r else 1)))
            (wr_count sh) (size sh) (data sh),
          Some buf2).
Proof.
  intros Hn Hm Hi Hsz r idx c1 Hr.
  destruct (ring_get_ok n (data sh) buf idx r) as (out & Hget & Hout & Hq);
    [subst r idx; lia..|].
  exists out. split; [done|]. split; [done|]. split; [done|].
  unfold hab_pipe_read.
  assert (Hrr : (if u32 (wr_count sh - rd_count sh) <? sz
                 then u32 (wr_count sh - rd_count sh) else sz) = r)
    by (subst r; bool_cases; lia).
  destruct (Z.eqb_spec (u32 (wr_count sh - rd_count sh)) 0); [subst r; lia|].
  destruct (Z.eqb_spec sz 0); [subst r; lia|].
  destruct (Z.ltb_spec n (rx_index ep)); [lia|]. cbn [orb]. fold idx. rewrite Hrr.
  destruct (read_indices n idx r) as (Hc1 & Hc1r & Hc2 & Hi1 & Hi2 & Hsum); [done..|].
  cbv zeta in *. rewrite Hi2, Hsum, Hi1, Hc2, Hc1. fold c1.
  unfold c1 in Hget |- *. rewrite Hget. cbn [res_bind].
  destruct (Z.eqb_spec r 0); [lia|]. done.
Qed.

(** The queue after [r] bytes were consumed. *)
Lemma pipe_rep_advance tx rx sh f r :
  pipe_rep tx rx sh f -> 0 <= r <= zlen (f_committed f) ->
  pipe_rep tx
    (Build_hab_pipe_endpoint (tx_wr_count rx) (tx_index rx)
       ((rx_index rx + r) mod f_cap f))
    (Build_hab_shared_buf (u32 (rd_count sh + r)) (wr_count sh) (size sh) (data sh))
    (Build_fifo (f_cap f) (drop (Z.to_nat r) (f_committed f)) (f_staged f)).
Proof.
  intros [Hcap Hlen Hrx Hused Hwr Htx Hti Hby] Hr.
  pose proof (zlen_nonneg (f_staged f)).
  assert (Hl : zlen (drop (Z.to_nat r) (f_committed f)) = zlen (f_committed f) - r)
    by (apply zlen_drop; lia).
  constructor; cbn [f_cap f_committed f_staged data rd_count wr_count tx_wr_count tx_index
    rx_index]; rewrite ?Hl; clear Hl.
  - done.
  - done.
  - apply Z.mod_pos_bound. lia.
  - clear Hti. lia.
  - rewrite u32_sub_add, Hwr. apply u32_id. clear Hti. unfold is_u32. lia.
  - rewrite u32_sub_add, Htx. clear Hti. rewrite u32_id; unfold is_u32; lia.
  - rewrite Hti, Zplus_mod_idemp_l. f_equal. clear Hti. lia.
  - rewrite <- drop_app_le by (unfold zlen in *; clear Hti; lia).
    replace (rx_index rx + r) with (rx_index rx + Z.of_nat (Z.to_nat r)) by (clear Hti; lia).
    apply ring_slice_drop; [lia|rewrite length_app; unfold zlen in *; clear Hti; lia|done].
Qed.

Lemma header_retry_good fuel snap sm cnt p idx c1 i2 c2 :
  signature (header_dec p) = HAB_HEAD_SIGNATURE ->
  header_retry (S fuel) snap sm cnt p idx c1 i2 c2 = Ok (0, cnt, p).
Proof. intros H. change (S fuel) with (S fuel). unfold header_retry. by rewrite H. Qed.

Lemma read_header_ok snap buf idx c1 i2 c2 sz clear :
  (clear = true /\ sz = sizeof_hab_header ->
   signature (header_dec buf) = HAB_HEAD_SIGNATURE) ->
  (if clear && (sz =? sizeof_hab_header)
   then header_retry retry_fuel snap 0 0 buf idx c1 i2 c2
   else Ok (0, 0, buf)) = Ok (0, 0, buf).
Proof.
  intros Hclr. destruct clear; cbn [andb]; [|done].
  destruct (Z.eqb_spec sz sizeof_hab_header); [|done].
  unfold retry_fuel. by rewrite header_retry_good by auto.
Qed.

(** What a read of [sz] bytes does to the queue when the header check passes or
    does not apply. *)
Lemma hab_pipe_read_rep snap tx rx sh f buf sz clear :
  pipe_rep tx rx sh f -> 0 <= sz <= zlen buf ->
  (clear = true /\ sz = sizeof_hab_header ->
   signature (header_dec (fst (fifo_read f sz) ++ drop (length (fst (fifo_read f sz))) buf))
     = HAB_HEAD_SIGNATURE) ->
  exists rx' sh',
    hab_pipe_read snap 0 rx sh (f_cap f) (Some buf) sz clear =
      Ok (zlen (fst (fifo_read f sz)), 0, rx', sh',
          Some (fst (fifo_read f sz) ++ drop (length (fst (fifo_read f sz))) buf)) /\
    pipe_rep tx rx' sh' (snd (fifo_read f sz)).
Proof.
  intros H Hsz Hclr. pose proof H as [Hcap Hlen Hrx Hused Hwr Htx Hti Hby].
  unfold fifo_read in *. cbn [fst snd] in *.
  pose proof (zlen_nonneg (f_committed f)). pose proof (zlen_nonneg (f_staged f)).
  set (q := f_committed f) in *. set (r := Z.min (zlen q) sz).
  assert (Htk : take (Z.to_nat sz) q = take (Z.to_nat r) q /\
                drop (Z.to_nat sz) q = drop (Z.to_nat r) q).
  { subst r. unfold zlen in *. destruct (Z.leb_spec sz (Z.of_nat (length q))).
    - by rewrite Z.min_r by lia.
    - rewrite Z.min_l by lia. rewrite !take_ge, !drop_ge by lia. done. }
  destruct Htk as [Htk Hdr]. rewrite Htk, Hdr in *.
  destruct (Z.eqb_spec r 0) as [Hr0|Hr0].
  - exists rx, sh. rewrite Hr0 in *. change (Z.to_nat 0) with 0%nat.
    cbn [take drop length app].
    split; [|by destruct f].
    unfold hab_pipe_read. rewrite Hwr.
    replace ((zlen q =? 0) || (sz =? 0))%bool with true; [done|].
    subst r. symmetry. apply orb_true_iff. rewrite !Z.eqb_eq. lia.
  - destruct (hab_pipe_read_copy snap 0 rx sh (f_cap f) buf sz clear)
      as (out & Hout & Hq & _ & ->); [lia..|rewrite Hwr; subst r; clear Hti; lia|].
    rewrite Hwr in *. fold r in Hout, Hq |- *.
    assert (Houtq : out = take (Z.to_nat r) q).
    { rewrite (Hq (q ++ f_staged f) Hby) by (rewrite zlen_app; subst r; clear Hti; lia).
      apply take_app_le. unfold zlen in *. subst r. clear Hti. lia. }
    rewrite <- Houtq in *.
    replace (Z.to_nat r) with (length out) by (unfold zlen in Hout; lia).
    rewrite read_header_ok by done. cbn [res_bind Z.eqb]. rewrite Hout.
    eexists _, _. split; [done|]. unfold zlen in Hout.
    replace (drop (length out) q) with (drop (Z.to_nat r) q) by (f_equal; lia).
    apply pipe_rep_advance; [done|fold q; subst r; clear Hti; lia].
Qed.

(** ** Runs of the two ends *)

Inductive pipe_op :=
  | OpWrite (p : bytes) (num : Z)
  | OpCommit
  | OpRead (sz : Z).

Definition op_ok (o : pipe_op) : Prop :=
  match o with
  | OpWrite p num => 0 <= num <= zlen p
  | OpCommit => True
  | OpRead sz => 0 <= sz
  end.

Definition pipe_state : Type := hab_pipe_endpoint * hab_pipe_endpoint * hab_shared_buf.

(** One call by the writer (whose endpoint comes first) or by the reader, with
    what the caller observes: the returned count and the bytes received. *)
Definition pipe_step (n : Z) (st : pipe_state) (o : pipe_op) : res (Z * bytes * pipe_state) :=
  let '(tx, rx, sh) := st in
  match o with
  | OpWrite p num =>
      let? (ret, tx', sh') := hab_pipe_write tx sh n (Some p) num in
      Ok (ret, [], (tx', rx, sh'))
  | OpCommit => Ok (0, [], (tx, rx, hab_pipe_write_commit tx sh))
  | OpRead sz =>
      let? (ret, _, rx', sh', p) :=
        hab_pipe_read (fun _ => data sh) 0 rx sh n (Some (repeat 0 (Z.to_nat sz))) sz false in
      Ok (ret, take (Z.to_nat ret) (default [] p), (tx, rx', sh'))
  end.

Fixpoint pipe_run (n : Z) (st : pipe_state) (ops : list pipe_op)
  : res (list (Z * bytes) * pipe_state) :=
  match ops with
  | [] => Ok ([], st)
  | o :: ops =>
      let? (ret, out, st1) := pipe_step n st o in
      let? (outs, st2) := pipe_run n st1 ops in
      Ok ((ret, out) :: outs, st2)
  end.

Definition fifo_step (f : fifo) (o : pipe_op) : Z * bytes * fifo :=
  match o with
  | OpWrite p num => (fst (fifo_write f p num), [], snd (fifo_write f p num))
  | OpCommit => (0, [], fifo_commit f)
  | OpRead sz => (zlen (fst (fifo_read f sz)), fst (fifo_read f sz), snd (fifo_read f sz))
  end.

Fixpoint fifo_run (f : fifo) (ops : list pipe_op) : list (Z * bytes) :=
  match ops with
  | [] => []
  | o :: ops => (fst (fifo_step f o)) :: fifo_run (snd (fifo_step f o)) ops
  end.

Lemma fifo_step_cap f o : f_cap (snd (fifo_step f o)) = f_cap f.
Proof. destruct o; simpl; try done. unfold fifo_write. by destruct (_ || _). Qed.

Lemma pipe_step_refines tx rx sh f o :
  pipe_rep tx rx sh f -> op_ok o ->
  exists tx' rx' sh',
    pipe_step (f_cap f) (tx, rx, sh) o = Ok (fst (fifo_step f o), (tx', rx', sh')) /\
    pipe_rep tx' rx' sh' (snd (fifo_step f o)).
Proof.
  intros H Ho. destruct o as [p num| |sz]; cbn [pipe_step fifo_step fst snd op_ok] in *.
  - destruct (hab_pipe_write_rep tx rx sh f p num) as (tx' & sh' & -> & Hr); [done..|].
    by exists tx', rx, sh'.
  - exists tx, rx, (hab_pipe_write_commit tx sh). split; [done|].
    by apply hab_pipe_write_commit_rep.
  - destruct (hab_pipe_read_rep (fun _ => data sh) tx rx sh f (repeat 0 (Z.to_nat sz)) sz false)
      as (rx' & sh' & -> & Hr); [done| |by intros []|].
    { unfold zlen. rewrite repeat_length. lia. }
    exists tx, rx', sh'. split; [|done]. cbn [res_bind default].
    set (out := fst (fifo_read f sz)). unfold zlen. rewrite Nat2Z.id.
    unfold id. by rewrite take_app_length.
Qed.

Lemma pipe_run_rep n tx rx sh f ops :
  f_cap f = n -> pipe_rep tx rx sh f -> Forall op_ok ops ->
  exists st', pipe_run n (tx, rx, sh) ops = Ok (fifo_run f ops, st').
Proof.
  revert tx rx sh f. induction ops as [|o ops IH]; intros tx rx sh f Hn H Hops.
  - by eexists.
  - inversion Hops as [|? ? Ho Hops']; subst. cbn [pipe_run fifo_run].
    destruct (pipe_step_refines _ _ _ _ o H Ho) as (tx' & rx' & sh' & Hs & Hr).
    rewrite Hs. pose proof (fifo_step_cap f o) as Hc.
    destruct (fifo_step f o) as [[ret out] f'].
    cbn [res_bind fst snd] in *.
    destruct (IH tx' rx' sh' f') as (st' & Hrun); [congruence|done..|].
    rewrite Hrun. cbn. by eexists.
Qed.

(** The pipe after the bottom end and then the top end initialised it. *)
Definition pipe_after_init (p : hab_pipe) (n : Z) : option hab_pipe :=
  match hab_pipe_init (Some p) true true true n false with
  | Some (p1, _, _, _, _) =>
      match hab_pipe_init (Some p1) true true true n true with
      | Some (p2, _, _, _, _) => Some p2
      | None => None
      end
  | None => None
  end.

(** ** Properties *)

(** C4: the ring of a freshly initialised pipe is a bounded first-in first-out
    byte queue.  For any sequence of writes, commits and reads by its two ends,
    every call returns what the queue returns: a write is all or nothing (0 when
    the free space is too small or the length is 0), staged bytes are invisible
    until committed, a read yields the oldest committed bytes, as many as asked
    for or available, in order and unchanged, and no call touches memory outside
    the ring or the caller's buffer.  Wrapping of the index and of the 32-bit
    counters does not show. *)
Theorem pipe_refines_fifo (p p' : hab_pipe) (n : Z) (ops : list pipe_op) :
  0 < n < 2 ^ 32 -> zlen (data (buf_b p)) = n ->
  pipe_after_init p n = Some p' -> Forall op_ok ops ->
  exists st', pipe_run n (bottom p', top p', buf_b p') ops =
                Ok (fifo_run (Build_fifo n [] []) ops, st').
Proof.
  intros Hn Hlen Hinit Hops. unfold pipe_after_init in Hinit. cbn in Hinit.
  injection Hinit as <-. cbn.
  apply pipe_run_rep; [done| |done]. by apply pipe_rep_init.
Qed.

Definition demo_ring (n : nat) : hab_shared_buf := Build_hab_shared_buf 9 9 9 (repeat 7 n).
Definition demo_pipe (n : nat) : hab_pipe :=
  Build_hab_pipe (Build_hab_pipe_endpoint 1 2 3) (Build_hab_pipe_endpoint 1 2 3)
    None None 5 (demo_ring n) (demo_ring n).

Lemma pipe_refines_fifo_witness :
  exists p', pipe_after_init (demo_pipe 5) 5 = Some p' /\
  exists st', pipe_run 5 (bottom p', top p', buf_b p')
      [OpWrite [1; 2; 3; 4] 4; OpRead 2; OpCommit; OpRead 3; OpWrite [5; 6; 7; 8] 4;
       OpCommit; OpWrite [9] 1; OpRead 9]
    = Ok ([(4, []); (0, []); (0, []); (3, [1; 2; 3]); (4, []); (0, []); (0, []);
           (5, [4; 5; 6; 7; 8])], st').
Proof.
  eexists. split; [reflexivity|].
  apply (pipe_refines_fifo (demo_pipe 5) _ 5); [lia|reflexivity|reflexivity|].
  repeat constructor; discriminate.
Defined.

(** C35: a write is memory safe whatever the peer puts into the shared counters.
    With the writer's own index inside the ring, every call returns, writes only
    inside the ring, reads only inside the caller's buffer, keeps the index
    inside the ring, and returns either 0 with nothing changed or the whole
    length requested. *)
Theorem hab_pipe_write_safe (ep : hab_pipe_endpoint) (sh : hab_shared_buf) (n : Z)
    (p : bytes) (num : Z) :
  0 < n < 2 ^ 32 -> zlen (data sh) = n -> 0 <= tx_index ep < n -> 0 <= num <= zlen p ->
  exists ret ep' sh',
    hab_pipe_write ep sh n (Some p) num = Ok (ret, ep', sh') /\
    0 <= tx_index ep' < n /\ zlen (data sh') = n /\
    rd_count sh' = rd_count sh /\ wr_count sh' = wr_count sh /\ rx_index ep' = rx_index ep /\
    (ret = num \/ ret = 0 /\ ep' = ep /\ sh' = sh).
Proof.
  intros Hn Hm Hi Hp.
  set (used := u32 (tx_wr_count ep - rd_count sh)).
  destruct (decide (0 < num /\ num <= u32 (n - used) /\ used <= n /\ num <= n))
    as [(?&?&?&?)|Hno]; subst used.
  - destruct (hab_pipe_write_copy ep sh n p num) as (m' & -> & Hw & _); [lia..|].
    eexists _, _, _. split; [done|]. cbn. repeat split; auto; try congruence;
      apply Z.mod_pos_bound; lia.
  - exists 0, ep, sh. split; [|by auto 10].
    unfold hab_pipe_write. set (used := u32 (tx_wr_count ep - rd_count sh)) in *.
    destruct (Z.ltb_spec n used); [done|]. destruct (Z.ltb_spec (u32 (n - used)) num); [done|].
    destruct (Z.eqb_spec num 0); [done|]. destruct (Z.ltb_spec n (tx_index ep)); [done|].
    destruct (Z.ltb_spec n num); [done|]. lia.
Qed.

Lemma hab_pipe_write_safe_witness :
  exists ret ep' sh',
    hab_pipe_write (Build_hab_pipe_endpoint 0 3 0)
      (Build_hab_shared_buf 4294967294 77 0 [0; 0; 0; 0]) 4 (Some [1; 2]) 2 =
      Ok (ret, ep', sh') /\
    0 <= tx_index ep' < 4 /\ zlen (data sh') = 4 /\
    rd_count sh' = 4294967294 /\ wr_count sh' = 77 /\ rx_index ep' = 0 /\
    (ret = 2 \/ ret = 0 /\ ep' = Build_hab_pipe_endpoint 0 3 0 /\
      sh' = Build_hab_shared_buf 4294967294 77 0 [0; 0; 0; 0]).
Proof.
  apply (hab_pipe_write_safe (Build_hab_pipe_endpoint 0 3 0)
    (Build_hab_shared_buf 4294967294 77 0 [0; 0; 0; 0]) 4 [1; 2] 2);
  vm_compute; repeat split; discriminate.
Defined.

(** ** Reading from a hostile or corrupted ring *)

Lemma ring_get_no_second m p i c1 x y c2 :
  c2 <= 0 -> ring_get m p i c1 x c2 = ring_get m p i c1 y c2.
Proof. intros H. unfold ring_get. destruct (Z.ltb_spec 0 c2); [lia|done]. Qed.

(** A re-copy of the header from any snapshot of the ring succeeds. *)
Lemma recopy_ok n mem p idx r :
  0 < n < 2 ^ 32 -> zlen mem = n -> 0 <= idx < n -> 0 < r <= n -> r <= zlen p ->
  let c1 := if r <=? n - idx then r else n - idx in
  exists out,
    ring_get mem p idx c1 (u32 ((idx + r) mod n - (r - c1))) (r - c1)
      = Ok (out ++ drop (Z.to_nat r) p) /\ zlen out = r /\
    forall q, ring_slice n idx q mem -> r <= zlen q -> out = take (Z.to_nat r) q.
Proof.
  intros Hn Hm Hi Hr Hp c1.
  destruct (ring_get_ok n mem p idx r) as (out & Hget & Ho & Hq); [lia..|].
  exists out. split; [|done]. fold c1 in Hget. rewrite <- Hget.
  destruct (Z.leb_spec r (n - idx)) as [Hle|Hgt].
  - apply ring_get_no_second. subst c1. destruct (Z.leb_spec r (n - idx)); lia.
  - f_equal. subst c1. destruct (Z.leb_spec r (n - idx)); [lia|].
    rewrite wrap_mod by lia. destruct (Z.ltb_spec (idx + r) n); [lia|].
    rewrite u32_id; unfold is_u32; lia.
Qed.

Lemma header_retry_S fuel snap sm cnt p idx c1 i2 c2 :
  header_retry (S fuel) snap sm cnt p idx c1 i2 c2 =
  if signature (header_dec p) =? HAB_HEAD_SIGNATURE then Ok (0, cnt, p)
  else if cnt <=? 1000 then
    let? p' := ring_get (snap cnt) p idx c1 i2 c2 in
    if sm =? 0 then header_retry fuel snap sm (cnt + 1) p' idx c1 i2 c2
    else Ok (1, cnt + 1, p')
  else Ok (1, cnt + 1, p).
Proof. done. Qed.

(** The retry loop ends, whatever the peer writes meanwhile. *)
Lemma header_retry_total n snap sm idx r fuel cnt p :
  0 < n < 2 ^ 32 -> (forall k, zlen (snap k) = n) -> 0 <= idx < n ->
  0 < r <= n -> r <= zlen p -> 0 <= cnt <= 1001 -> 1003 - cnt <= Z.of_nat fuel ->
  let c1 := if r <=? n - idx then r else n - idx in
  exists sm' cnt' p',
    header_retry fuel snap sm cnt p idx c1 (u32 ((idx + r) mod n - (r - c1))) (r - c1)
      = Ok (sm', cnt', p') /\ (sm' = 0 \/ sm' = 1) /\ zlen p' = zlen p.
Proof.
  intros Hn Hs Hi Hr Hp Hc Hf c1. revert cnt p Hp Hc Hf.
  induction fuel as [|fuel IH]; intros cnt p Hp Hc Hf; [lia|].
  rewrite header_retry_S.
  destruct (Z.eqb_spec (signature (header_dec p)) HAB_HEAD_SIGNATURE).
  { exists 0, cnt, p. auto. }
  destruct (Z.leb_spec cnt 1000); [|exists 1, (cnt + 1), p; auto].
  destruct (recopy_ok n (snap cnt) p idx r) as (out & Hget & Ho & _); [done..|].
  fold c1 in Hget. rewrite Hget. cbn [res_bind].
  assert (Hl : zlen (out ++ drop (Z.to_nat r) p) = zlen p)
    by (rewrite zlen_app, zlen_drop; lia).
  destruct (sm =? 0).
  - destruct (IH (cnt + 1) (out ++ drop (Z.to_nat r) p)) as (s' & c' & p' & Hh & Hs' & Hl');
      [lia..|]. exists s', c', p'. rewrite Hh. repeat split; [done|congruence].
  - eexists _, _, _. split; [done|]. auto.
Qed.

(** The retry loop on a ring that keeps giving the same corrupted header. *)
Lemma header_retry_corrupt n mem idx r fuel cnt p q :
  0 < n < 2 ^ 32 -> zlen mem = n -> 0 <= idx < n -> 0 < r <= n -> r <= zlen p ->
  ring_slice n idx q mem -> r <= zlen q ->
  take (Z.to_nat r) p = take (Z.to_nat r) q ->
  signature (header_dec p) <> HAB_HEAD_SIGNATURE ->
  0 <= cnt <= 1001 -> 1003 - cnt <= Z.of_nat fuel ->
  let c1 := if r <=? n - idx then r else n - idx in
  header_retry fuel (fun _ => mem) 0 cnt p idx c1 (u32 ((idx + r) mod n - (r - c1))) (r - c1)
    = Ok (1, 1002, p).
Proof.
  intros Hn Hm Hi Hr Hp Hsl Hq Htk Hsig Hc Hf c1. revert cnt Hc Hf.
  induction fuel as [|fuel IH]; intros cnt Hc Hf; [lia|].
  rewrite header_retry_S.
  destruct (Z.eqb_spec (signature (header_dec p)) HAB_HEAD_SIGNATURE); [done|].
  destruct (Z.leb_spec cnt 1000).
  2:{ by replace (cnt + 1) with 1002 by lia. }
  destruct (recopy_ok n mem p idx r) as (out & Hget & Ho & Hout); [done..|].
  fold c1 in Hget. rewrite Hget. cbn [res_bind Z.eqb].
  rewrite (Hout q Hsl Hq), <- Htk, take_drop. apply IH; lia.
Qed.



(** Resynchronisation.  When a whole header is available and its signature
    word is wrong, and re-reading the ring does not repair it, the reader raises
    [signature_mismatch], reports 0xFFFFFFFF (the code of an exhausted retry) and
    consumes exactly one byte of the stream, so that the next read looks for a
    header one byte further. *)
Theorem hab_pipe_read_resync (tx rx : hab_pipe_endpoint) (sh : hab_shared_buf) (f : fifo)
    (buf : bytes) :
  pipe_rep tx rx sh f -> size sh = f_cap f ->
  zlen buf = sizeof_hab_header -> sizeof_hab_header <= zlen (f_committed f) ->
  signature (header_dec (take 20 (f_committed f))) <> HAB_HEAD_SIGNATURE ->
  exists rx' sh',
    hab_pipe_read (fun _ => data sh) 0 rx sh (f_cap f) (Some buf) sizeof_hab_header true =
      Ok (0xFFFFFFFF, 1, rx', sh', Some (take 20 (f_committed f))) /\
    pipe_rep tx rx' sh'
      (Build_fifo (f_cap f) (drop 1 (f_committed f)) (f_staged f)).
Proof.
  intros H Hsz Hb Hq Hsig. pose proof H as [Hcap Hlen Hrx Hused Hwr Htx _ Hby].
  pose proof (zlen_nonneg (f_staged f)). unfold sizeof_hab_header in *.
  destruct (hab_pipe_read_copy (fun _ => data sh) 0 rx sh (f_cap f) buf 20 true)
    as (out & Ho & Hout & _ & ->); [lia..|]. rewrite Hwr in *.
  rewrite Z.min_r in * by lia.
  rewrite (Hout _ Hby) by (rewrite zlen_app; lia).
  rewrite (drop_ge buf) by (unfold zlen in *; lia). rewrite app_nil_r.
  change (Z.to_nat 20) with 20%nat in *.
  rewrite (take_app_le (f_committed f)) by (unfold zlen in *; lia).
  change (true && (20 =? sizeof_hab_header))%bool with true. cbv iota.
  assert (Hl20 : zlen (take 20 (f_committed f)) = 20)
    by (unfold zlen in *; rewrite length_take; lia).
  rewrite (header_retry_corrupt (f_cap f) (data sh) (rx_index rx) 20 retry_fuel 0 _
    (f_committed f ++ f_staged f));
    [|unfold retry_fuel; rewrite ?zlen_app; try done; try lia..].
  2:{ change (Z.to_nat 20) with 20%nat. rewrite take_take.
      rewrite take_app_le by (unfold zlen in *; lia). done. }
  cbn [res_bind Z.eqb Z.ltb Z.compare Pos.compare Pos.compare_cont].
  eexists _, _. split; [done|]. rewrite Hsz.
  rewrite (u32_id (rx_index rx + 1)) by (unfold is_u32; lia).
  replace (if f_cap f <=? rx_index rx + 1 then 0 else rx_index rx + 1)
    with ((rx_index rx + 1) mod f_cap f)
    by (rewrite wrap_mod by lia; bool_cases; lia).
  rewrite <- Hsz at 2. apply (pipe_rep_advance _ _ _ _ 1); [done|lia].
Qed.

Definition bad_ring : hab_shared_buf :=
  Build_hab_shared_buf 0 21 24 (repeat 1 21 ++ [0; 0; 0]).

Lemma hab_pipe_read_resync_witness :
  exists rx' sh',
    hab_pipe_read (fun _ => data bad_ring) 0 endpoint_zero bad_ring 24
      (Some (repeat 0 20)) sizeof_hab_header true =
      Ok (0xFFFFFFFF, 1, rx', sh', Some (repeat 1 20)) /\
    pipe_rep (Build_hab_pipe_endpoint 21 21 0) rx' sh' (Build_fifo 24 (repeat 1 20) []).
Proof.
  apply (hab_pipe_read_resync (Build_hab_pipe_endpoint 21 21 0) endpoint_zero bad_ring
    (Build_fifo 24 (repeat 1 21) []) (repeat 0 20));
    [|reflexivity|reflexivity|vm_compute; discriminate|vm_compute; discriminate].
  constructor; try reflexivity; try (vm_compute; repeat split; discriminate).
  intros i Hi. do 21 (destruct i as [|i]; [reflexivity|]). simpl in Hi. lia.
Defined.

(** ** What the guards of [hab_pipe_read] do not cover *)

(** The reader believes the peer's [wr_count]: a count that claims more than the
    ring holds takes the second copy past its end. *)
Lemma hab_pipe_read_overrun :
  hab_pipe_read (fun _ => [1; 2]) 0 endpoint_zero (Build_hab_shared_buf 0 9 2 [1; 2]) 2
    (Some (repeat 0 8)) 8 false = Fault OutOfBounds.
Proof. reflexivity. Qed.

(** After a mismatch the reader's index is wrapped at the peer's [size] word
    instead of at the ring size, so a peer that enlarges [size] moves it to the
    end of the ring and the next read starts outside. *)
Lemma hab_pipe_read_peer_size :
  exists ep' sh' buf',
    hab_pipe_read (fun _ => repeat 1 24) 1 (Build_hab_pipe_endpoint 0 0 23)
      (Build_hab_shared_buf 0 20 99 (repeat 1 24)) 24 (Some (repeat 0 20)) 20 true
      = Ok (0xFFFFFFFE, 1, ep', sh', Some buf') /\
    rx_index ep' = 24 /\
    hab_pipe_read (fun _ => repeat 1 24) 1 ep' sh' 24 (Some (repeat 0 20)) 20 true
      = Fault OutOfBounds.
Proof. eexists _, _, _. split; [vm_compute; reflexivity|]. by vm_compute. Qed.

(** [signature_mismatch] is one static flag for all pipes and is only cleared by
    a good header: while it is set, reading a payload consumes one byte and
    reports an error although nothing is wrong with it. *)
Lemma hab_pipe_mismatch_sticks :
  exists ep' sh',
    hab_pipe_read (fun _ => [5; 6; 7; 8]) 1 endpoint_zero
      (Build_hab_shared_buf 0 3 4 [5; 6; 7; 8]) 4 (Some [0; 0; 0]) 3 false
      = Ok (0xFFFFFFFE, 1, ep', sh', Some [5; 6; 7]) /\ rd_count sh' = 1.
Proof. eexists _, _. by vm_compute. Qed.
