(* ===== verification/World.v ===== *)
(** The state of the driver: the objects of hab.h on a heap, the devices and the
    driver singleton, and the small state-and-error monad in which the handlers
    are written.  Addresses are numbers; a freed object is absent from its map,
    so following a dangling pointer is a [Fault].  List heads are lists of
    addresses, a kref is a counter, an idr is a finite map.  The calls that leave
    the driver's state (sends, wake-ups, scheduled work) are appended to a log. *)
From S2P Require Import Prelude Header.

(** ** Messages and requests *)

(** [m_data] is one chunk, or the pages of a scattered message. *)
(* src/hab.h:299-305 hab_message *)
Record hab_message := {
  m_sizebytes : Z;
  m_scatter : bool;
  m_sequence_rx : Z;
  m_data : list bytes
}.

Definition set_m_sizebytes (x : Z) (r : hab_message) : hab_message :=
  Build_hab_message x (m_scatter r) (m_sequence_rx r) (m_data r).
Definition set_m_scatter (x : bool) (r : hab_message) : hab_message :=
  Build_hab_message (m_sizebytes r) x (m_sequence_rx r) (m_data r).
Definition set_m_sequence_rx (x : Z) (r : hab_message) : hab_message :=
  Build_hab_message (m_sizebytes r) (m_scatter r) x (m_data r).
Definition set_m_data (x : list bytes) (r : hab_message) : hab_message :=
  Build_hab_message (m_sizebytes r) (m_scatter r) (m_sequence_rx r) x.

(* src/hab.h:256-260 hab_open_request *)
Record hab_open_request := {
  rq_type : Z;
  rq_pchan : option nat;
  rq_xdata : hab_open_send_data
}.

Definition set_rq_type (x : Z) (r : hab_open_request) : hab_open_request :=
  Build_hab_open_request x (rq_pchan r) (rq_xdata r).
Definition set_rq_pchan (x : option nat) (r : hab_open_request) : hab_open_request :=
  Build_hab_open_request (rq_type r) x (rq_xdata r).
Definition set_rq_xdata (x : hab_open_send_data) (r : hab_open_request) : hab_open_request :=
  Build_hab_open_request (rq_type r) (rq_pchan r) x.

(* src/hab.h:262-266 hab_open_node *)
Record hab_open_node := {
  on_request : hab_open_request;
  on_age : Z
}.

Definition set_on_request (x : hab_open_request) (r : hab_open_node) : hab_open_node :=
  Build_hab_open_node x (on_age r).
Definition set_on_age (x : Z) (r : hab_open_node) : hab_open_node :=
  Build_hab_open_node (on_request r) x.

(* src/hab.h:274-278 hab_export_ack_recvd *)
Record hab_export_ack_recvd := {
  ear_ack : hab_export_ack;
  ear_age : Z
}.

Definition set_ear_ack (x : hab_export_ack) (r : hab_export_ack_recvd) : hab_export_ack_recvd :=
  Build_hab_export_ack_recvd x (ear_age r).
Definition set_ear_age (x : Z) (r : hab_export_ack_recvd) : hab_export_ack_recvd :=
  Build_hab_export_ack_recvd (ear_ack r) x.

(* src/hab.h:287-291 hab_import_ack_recvd *)
Record hab_import_ack_recvd := {
  iar_ack : hab_import_ack;
  iar_age : Z
}.

Definition set_iar_ack (x : hab_import_ack) (r : hab_import_ack_recvd) : hab_import_ack_recvd :=
  Build_hab_import_ack_recvd x (iar_age r).
Definition set_iar_age (x : Z) (r : hab_import_ack_recvd) : hab_import_ack_recvd :=
  Build_hab_import_ack_recvd (iar_ack r) x.

(** ** Channels and contexts *)

(* src/hab.h:206-245 physical_channel *)
Record physical_channel := {
  pc_refcount : Z;
  pc_is_be : bool;
  pc_habdev : nat;
  pc_vchan_idr : gmap Z nat;
  pc_expid_idr : gmap Z nat;
  pc_expid_next : Z;
  pc_dom_id : Z;
  pc_vmid_local : Z;
  pc_vmid_remote : Z;
  pc_closed : bool;
  pc_otherend_closed : bool;
  pc_sequence_tx : Z;
  pc_sequence_rx : Z;
  pc_vchannels : list nat;
  pc_vcnt : Z;
  pc_mem_proto : Z
}.

Definition set_pc_refcount (x : Z) (r : physical_channel) : physical_channel :=
  Build_physical_channel x (pc_is_be r) (pc_habdev r) (pc_vchan_idr r) (pc_expid_idr r) (pc_expid_next r) (pc_dom_id r) (pc_vmid_local r) (pc_vmid_remote r) (pc_closed r) (pc_otherend_closed r) (pc_sequence_tx r) (pc_sequence_rx r) (pc_vchannels r) (pc_vcnt r) (pc_mem_proto r).
Definition set_pc_is_be (x : bool) (r : physical_channel) : physical_channel :=
  Build_physical_channel (pc_refcount r) x (pc_habdev r) (pc_vchan_idr r) (pc_expid_idr r) (pc_expid_next r) (pc_dom_id r) (pc_vmid_local r) (pc_vmid_remote r) (pc_closed r) (pc_otherend_closed r) (pc_sequence_tx r) (pc_sequence_rx r) (pc_vchannels r) (pc_vcnt r) (pc_mem_proto r).
Definition set_pc_habdev (x : nat) (r : physical_channel) : physical_channel :=
  Build_physical_channel (pc_refcount r) (pc_is_be r) x (pc_vchan_idr r) (pc_expid_idr r) (pc_expid_next r) (pc_dom_id r) (pc_vmid_local r) (pc_vmid_remote r) (pc_closed r) (pc_otherend_closed r) (pc_sequence_tx r) (pc_sequence_rx r) (pc_vchannels r) (pc_vcnt r) (pc_mem_proto r).
Definition set_pc_vchan_idr (x : gmap Z nat) (r : physical_channel) : physical_channel :=
  Build_physical_channel (pc_refcount r) (pc_is_be r) (pc_habdev r) x (pc_expid_idr r) (pc_expid_next r) (pc_dom_id r) (pc_vmid_local r) (pc_vmid_remote r) (pc_closed r) (pc_otherend_closed r) (pc_sequence_tx r) (pc_sequence_rx r) (pc_vchannels r) (pc_vcnt r) (pc_mem_proto r).
Definition set_pc_expid_idr (x : gmap Z nat) (r : physical_channel) : physical_channel :=
  Build_physical_channel (pc_refcount r) (pc_is_be r) (pc_habdev r) (pc_vchan_idr r) x (pc_expid_next r) (pc_dom_id r) (pc_vmid_local r) (pc_vmid_remote r) (pc_closed r) (pc_otherend_closed r) (pc_sequence_tx r) (pc_sequence_rx r) (pc_vchannels r) (pc_vcnt r) (pc_mem_proto r).
Definition set_pc_expid_next (x : Z) (r : physical_channel) : physical_channel :=
  Build_physical_channel (pc_refcount r) (pc_is_be r) (pc_habdev r) (pc_vchan_idr r) (pc_expid_idr r) x (pc_dom_id r) (pc_vmid_local r) (pc_vmid_remote r) (pc_closed r) (pc_otherend_closed r) (pc_sequence_tx r) (pc_sequence_rx r) (pc_vchannels r) (pc_vcnt r) (pc_mem_proto r).
Definition set_pc_dom_id (x : Z) (r : physical_channel) : physical_channel :=
  Build_physical_channel (pc_refcount r) (pc_is_be r) (pc_habdev r) (pc_vchan_idr r) (pc_expid_idr r) (pc_expid_next r) x (pc_vmid_local r) (pc_vmid_remote r) (pc_closed r) (pc_otherend_closed r) (pc_sequence_tx r) (pc_sequence_rx r) (pc_vchannels r) (pc_vcnt r) (pc_mem_proto r).
Definition set_pc_vmid_local (x : Z) (r : physical_channel) : physical_channel :=
  Build_physical_channel (pc_refcount r) (pc_is_be r) (pc_habdev r) (pc_vchan_idr r) (pc_expid_idr r) (pc_expid_next r) (pc_dom_id r) x (pc_vmid_remote r) (pc_closed r) (pc_otherend_closed r) (pc_sequence_tx r) (pc_sequence_rx r) (pc_vchannels r) (pc_vcnt r) (pc_mem_proto r).
Definition set_pc_vmid_remote (x : Z) (r : physical_channel) : physical_channel :=
  Build_physical_channel (pc_refcount r) (pc_is_be r) (pc_habdev r) (pc_vchan_idr r) (pc_expid_idr r) (pc_expid_next r) (pc_dom_id r) (pc_vmid_local r) x (pc_closed r) (pc_otherend_closed r) (pc_sequence_tx r) (pc_sequence_rx r) (pc_vchannels r) (pc_vcnt r) (pc_mem_proto r).
Definition set_pc_closed (x : bool) (r : physical_channel) : physical_channel :=
  Build_physical_channel (pc_refcount r) (pc_is_be r) (pc_habdev r) (pc_vchan_idr r) (pc_expid_idr r) (pc_expid_next r) (pc_dom_id r) (pc_vmid_local r) (pc_vmid_remote r) x (pc_otherend_closed r) (pc_sequence_tx r) (pc_sequence_rx r) (pc_vchannels r) (pc_vcnt r) (pc_mem_proto r).
Definition set_pc_otherend_closed (x : bool) (r : physical_channel) : physical_channel :=
  Build_physical_channel (pc_refcount r) (pc_is_be r) (pc_habdev r) (pc_vchan_idr r) (pc_expid_idr r) (pc_expid_next r) (pc_dom_id r) (pc_vmid_local r) (pc_vmid_remote r) (pc_closed r) x (pc_sequence_tx r) (pc_sequence_rx r) (pc_vchannels r) (pc_vcnt r) (pc_mem_proto r).
Definition set_pc_sequence_tx (x : Z) (r : physical_channel) : physical_channel :=
  Build_physical_channel (pc_refcount r) (pc_is_be r) (pc_habdev r) (pc_vchan_idr r) (pc_expid_idr r) (pc_expid_next r) (pc_dom_id r) (pc_vmid_local r) (pc_vmid_remote r) (pc_closed r) (pc_otherend_closed r) x (pc_sequence_rx r) (pc_vchannels r) (pc_vcnt r) (pc_mem_proto r).
Definition set_pc_sequence_rx (x : Z) (r : physical_channel) : physical_channel :=
  Build_physical_channel (pc_refcount r) (pc_is_be r) (pc_habdev r) (pc_vchan_idr r) (pc_expid_idr r) (pc_expid_next r) (pc_dom_id r) (pc_vmid_local r) (pc_vmid_remote r) (pc_closed r) (pc_otherend_closed r) (pc_sequence_tx r) x (pc_vchannels r) (pc_vcnt r) (pc_mem_proto r).
Definition set_pc_vchannels (x : list nat) (r : physical_channel) : physical_channel :=
  Build_physical_channel (pc_refcount r) (pc_is_be r) (pc_habdev r) (pc_vchan_idr r) (pc_expid_idr r) (pc_expid_next r) (pc_dom_id r) (pc_vmid_local r) (pc_vmid_remote r) (pc_closed r) (pc_otherend_closed r) (pc_sequence_tx r) (pc_sequence_rx r) x (pc_vcnt r) (pc_mem_proto r).
Definition set_pc_vcnt (x : Z) (r : physical_channel) : physical_channel :=
  Build_physical_channel (pc_refcount r) (pc_is_be r) (pc_habdev r) (pc_vchan_idr r) (pc_expid_idr r) (pc_expid_next r) (pc_dom_id r) (pc_vmid_local r) (pc_vmid_remote r) (pc_closed r) (pc_otherend_closed r) (pc_sequence_tx r) (pc_sequence_rx r) (pc_vchannels r) x (pc_mem_proto r).
Definition set_pc_mem_proto (x : Z) (r : physical_channel) : physical_channel :=
  Build_physical_channel (pc_refcount r) (pc_is_be r) (pc_habdev r) (pc_vchan_idr r) (pc_expid_idr r) (pc_expid_next r) (pc_dom_id r) (pc_vmid_local r) (pc_vmid_remote r) (pc_closed r) (pc_otherend_closed r) (pc_sequence_tx r) (pc_sequence_rx r) (pc_vchannels r) (pc_vcnt r) x.

(** [dv_head_word] is the word of memory found where the list head [pchannels],
    taken for a [physical_channel], would have its [dom_id]. *)
(* src/hab.h:313-323 hab_device *)
Record hab_device := {
  dv_id : Z;
  dv_pchannels : list nat;
  dv_pchan_cnt : Z;
  dv_head_word : Z;
  dv_openq_list : list hab_open_node;
  dv_openq_cnt : Z
}.

Definition set_dv_id (x : Z) (r : hab_device) : hab_device :=
  Build_hab_device x (dv_pchannels r) (dv_pchan_cnt r) (dv_head_word r) (dv_openq_list r) (dv_openq_cnt r).
Definition set_dv_pchannels (x : list nat) (r : hab_device) : hab_device :=
  Build_hab_device (dv_id r) x (dv_pchan_cnt r) (dv_head_word r) (dv_openq_list r) (dv_openq_cnt r).
Definition set_dv_pchan_cnt (x : Z) (r : hab_device) : hab_device :=
  Build_hab_device (dv_id r) (dv_pchannels r) x (dv_head_word r) (dv_openq_list r) (dv_openq_cnt r).
Definition set_dv_head_word (x : Z) (r : hab_device) : hab_device :=
  Build_hab_device (dv_id r) (dv_pchannels r) (dv_pchan_cnt r) x (dv_openq_list r) (dv_openq_cnt r).
Definition set_dv_openq_list (x : list hab_open_node) (r : hab_device) : hab_device :=
  Build_hab_device (dv_id r) (dv_pchannels r) (dv_pchan_cnt r) (dv_head_word r) x (dv_openq_cnt r).
Definition set_dv_openq_cnt (x : Z) (r : hab_device) : hab_device :=
  Build_hab_device (dv_id r) (dv_pchannels r) (dv_pchan_cnt r) (dv_head_word r) (dv_openq_list r) x.

(* src/hab.h:325-362 uhab_context *)
Record uhab_context := {
  cx_refcount : Z;
  cx_vchannels : list nat;
  cx_vcnt : Z;
  cx_exp_whse : list nat;
  cx_export_total : Z;
  cx_exp_rxq : list hab_export_ack_recvd;
  cx_imp_whse : gmap (Z * nat) nat;
  cx_import_total : Z;
  cx_imp_rxq : list hab_import_ack_recvd;
  cx_pending_open : list hab_open_request;
  cx_pending_cnt : Z;
  cx_forbidden : list Z;
  cx_closing : bool;
  cx_kernel : bool;
  cx_owner : Z;
  cx_lb_be : Z
}.

Definition set_cx_refcount (x : Z) (r : uhab_context) : uhab_context :=
  Build_uhab_context x (cx_vchannels r) (cx_vcnt r) (cx_exp_whse r) (cx_export_total r) (cx_exp_rxq r) (cx_imp_whse r) (cx_import_total r) (cx_imp_rxq r) (cx_pending_open r) (cx_pending_cnt r) (cx_forbidden r) (cx_closing r) (cx_kernel r) (cx_owner r) (cx_lb_be r).
Definition set_cx_vchannels (x : list nat) (r : uhab_context) : uhab_context :=
  Build_uhab_context (cx_refcount r) x (cx_vcnt r) (cx_exp_whse r) (cx_export_total r) (cx_exp_rxq r) (cx_imp_whse r) (cx_import_total r) (cx_imp_rxq r) (cx_pending_open r) (cx_pending_cnt r) (cx_forbidden r) (cx_closing r) (cx_kernel r) (cx_owner r) (cx_lb_be r).
Definition set_cx_vcnt (x : Z) (r : uhab_context) : uhab_context :=
  Build_uhab_context (cx_refcount r) (cx_vchannels r) x (cx_exp_whse r) (cx_export_total r) (cx_exp_rxq r) (cx_imp_whse r) (cx_import_total r) (cx_imp_rxq r) (cx_pending_open r) (cx_pending_cnt r) (cx_forbidden r) (cx_closing r) (cx_kernel r) (cx_owner r) (cx_lb_be r).
Definition set_cx_exp_whse (x : list nat) (r : uhab_context) : uhab_context :=
  Build_uhab_context (cx_refcount r) (cx_vchannels r) (cx_vcnt r) x (cx_export_total r) (cx_exp_rxq r) (cx_imp_whse r) (cx_import_total r) (cx_imp_rxq r) (cx_pending_open r) (cx_pending_cnt r) (cx_forbidden r) (cx_closing r) (cx_kernel r) (cx_owner r) (cx_lb_be r).
Definition set_cx_export_total (x : Z) (r : uhab_context) : uhab_context :=
  Build_uhab_context (cx_refcount r) (cx_vchannels r) (cx_vcnt r) (cx_exp_whse r) x (cx_exp_rxq r) (cx_imp_whse r) (cx_import_total r) (cx_imp_rxq r) (cx_pending_open r) (cx_pending_cnt r) (cx_forbidden r) (cx_closing r) (cx_kernel r) (cx_owner r) (cx_lb_be r).
Definition set_cx_exp_rxq (x : list hab_export_ack_recvd) (r : uhab_context) : uhab_context :=
  Build_uhab_context (cx_refcount r) (cx_vchannels r) (cx_vcnt r) (cx_exp_whse r) (cx_export_total r) x (cx_imp_whse r) (cx_import_total r) (cx_imp_rxq r) (cx_pending_open r) (cx_pending_cnt r) (cx_forbidden r) (cx_closing r) (cx_kernel r) (cx_owner r) (cx_lb_be r).
Definition set_cx_imp_whse (x : gmap (Z * nat) nat) (r : uhab_context) : uhab_context :=
  Build_uhab_context (cx_refcount r) (cx_vchannels r) (cx_vcnt r) (cx_exp_whse r) (cx_export_total r) (cx_exp_rxq r) x (cx_import_total r) (cx_imp_rxq r) (cx_pending_open r) (cx_pending_cnt r) (cx_forbidden r) (cx_closing r) (cx_kernel r) (cx_owner r) (cx_lb_be r).
Definition set_cx_import_total (x : Z) (r : uhab_context) : uhab_context :=
  Build_uhab_context (cx_refcount r) (cx_vchannels r) (cx_vcnt r) (cx_exp_whse r) (cx_export_total r) (cx_exp_rxq r) (cx_imp_whse r) x (cx_imp_rxq r) (cx_pending_open r) (cx_pending_cnt r) (cx_forbidden r) (cx_closing r) (cx_kernel r) (cx_owner r) (cx_lb_be r).
Definition set_cx_imp_rxq (x : list hab_import_ack_recvd) (r : uhab_context) : uhab_context :=
  Build_uhab_context (cx_refcount r) (cx_vchannels r) (cx_vcnt r) (cx_exp_whse r) (cx_export_total r) (cx_exp_rxq r) (cx_imp_whse r) (cx_import_total r) x (cx_pending_open r) (cx_pending_cnt r) (cx_forbidden r) (cx_closing r) (cx_kernel r) (cx_owner r) (cx_lb_be r).
Definition set_cx_pending_open (x : list hab_open_request) (r : uhab_context) : uhab_context :=
  Build_uhab_context (cx_refcount r) (cx_vchannels r) (cx_vcnt r) (cx_exp_whse r) (cx_export_total r) (cx_exp_rxq r) (cx_imp_whse r) (cx_import_total r) (cx_imp_rxq r) x (cx_pending_cnt r) (cx_forbidden r) (cx_closing r) (cx_kernel r) (cx_owner r) (cx_lb_be r).
Definition set_cx_pending_cnt (x : Z) (r : uhab_context) : uhab_context :=
  Build_uhab_context (cx_refcount r) (cx_vchannels r) (cx_vcnt r) (cx_exp_whse r) (cx_export_total r) (cx_exp_rxq r) (cx_imp_whse r) (cx_import_total r) (cx_imp_rxq r) (cx_pending_open r) x (cx_forbidden r) (cx_closing r) (cx_kernel r) (cx_owner r) (cx_lb_be r).
Definition set_cx_forbidden (x : list Z) (r : uhab_context) : uhab_context :=
  Build_uhab_context (cx_refcount r) (cx_vchannels r) (cx_vcnt r) (cx_exp_whse r) (cx_export_total r) (cx_exp_rxq r) (cx_imp_whse r) (cx_import_total r) (cx_imp_rxq r) (cx_pending_open r) (cx_pending_cnt r) x (cx_closing r) (cx_kernel r) (cx_owner r) (cx_lb_be r).
Definition set_cx_closing (x : bool) (r : uhab_context) : uhab_context :=
  Build_uhab_context (cx_refcount r) (cx_vchannels r) (cx_vcnt r) (cx_exp_whse r) (cx_export_total r) (cx_exp_rxq r) (cx_imp_whse r) (cx_import_total r) (cx_imp_rxq r) (cx_pending_open r) (cx_pending_cnt r) (cx_forbidden r) x (cx_kernel r) (cx_owner r) (cx_lb_be r).
Definition set_cx_kernel (x : bool) (r : uhab_context) : uhab_context :=
  Build_uhab_context (cx_refcount r) (cx_vchannels r) (cx_vcnt r) (cx_exp_whse r) (cx_export_total r) (cx_exp_rxq r) (cx_imp_whse r) (cx_import_total r) (cx_imp_rxq r) (cx_pending_open r) (cx_pending_cnt r) (cx_forbidden r) (cx_closing r) x (cx_owner r) (cx_lb_be r).
Definition set_cx_owner (x : Z) (r : uhab_context) : uhab_context :=
  Build_uhab_context (cx_refcount r) (cx_vchannels r) (cx_vcnt r) (cx_exp_whse r) (cx_export_total r) (cx_exp_rxq r) (cx_imp_whse r) (cx_import_total r) (cx_imp_rxq r) (cx_pending_open r) (cx_pending_cnt r) (cx_forbidden r) (cx_closing r) (cx_kernel r) x (cx_lb_be r).
Definition set_cx_lb_be (x : Z) (r : uhab_context) : uhab_context :=
  Build_uhab_context (cx_refcount r) (cx_vchannels r) (cx_vcnt r) (cx_exp_whse r) (cx_export_total r) (cx_exp_rxq r) (cx_imp_whse r) (cx_import_total r) (cx_imp_rxq r) (cx_pending_open r) (cx_pending_cnt r) (cx_forbidden r) (cx_closing r) (cx_kernel r) (cx_owner r) x.

(* src/hab.h:411-441 virtual_channel *)
Record virtual_channel := {
  vc_refcount : Z;
  vc_pchan : nat;
  vc_ctx : option nat;
  vc_rx_list : list hab_message;
  vc_id : Z;
  vc_otherend_id : Z;
  vc_otherend_closed : bool;
  vc_session_id : Z;
  vc_closed : bool;
  vc_tx_cnt : Z;
  vc_rx_cnt : Z;
  vc_rx_inflight : bool
}.

Definition set_vc_refcount (x : Z) (r : virtual_channel) : virtual_channel :=
  Build_virtual_channel x (vc_pchan r) (vc_ctx r) (vc_rx_list r) (vc_id r) (vc_otherend_id r) (vc_otherend_closed r) (vc_session_id r) (vc_closed r) (vc_tx_cnt r) (vc_rx_cnt r) (vc_rx_inflight r).
Definition set_vc_pchan (x : nat) (r : virtual_channel) : virtual_channel :=
  Build_virtual_channel (vc_refcount r) x (vc_ctx r) (vc_rx_list r) (vc_id r) (vc_otherend_id r) (vc_otherend_closed r) (vc_session_id r) (vc_closed r) (vc_tx_cnt r) (vc_rx_cnt r) (vc_rx_inflight r).
Definition set_vc_ctx (x : option nat) (r : virtual_channel) : virtual_channel :=
  Build_virtual_channel (vc_refcount r) (vc_pchan r) x (vc_rx_list r) (vc_id r) (vc_otherend_id r) (vc_otherend_closed r) (vc_session_id r) (vc_closed r) (vc_tx_cnt r) (vc_rx_cnt r) (vc_rx_inflight r).
Definition set_vc_rx_list (x : list hab_message) (r : virtual_channel) : virtual_channel :=
  Build_virtual_channel (vc_refcount r) (vc_pchan r) (vc_ctx r) x (vc_id r) (vc_otherend_id r) (vc_otherend_closed r) (vc_session_id r) (vc_closed r) (vc_tx_cnt r) (vc_rx_cnt r) (vc_rx_inflight r).
Definition set_vc_id (x : Z) (r : virtual_channel) : virtual_channel :=
  Build_virtual_channel (vc_refcount r) (vc_pchan r) (vc_ctx r) (vc_rx_list r) x (vc_otherend_id r) (vc_otherend_closed r) (vc_session_id r) (vc_closed r) (vc_tx_cnt r) (vc_rx_cnt r) (vc_rx_inflight r).
Definition set_vc_otherend_id (x : Z) (r : virtual_channel) : virtual_channel :=
  Build_virtual_channel (vc_refcount r) (vc_pchan r) (vc_ctx r) (vc_rx_list r) (vc_id r) x (vc_otherend_closed r) (vc_session_id r) (vc_closed r) (vc_tx_cnt r) (vc_rx_cnt r) (vc_rx_inflight r).
Definition set_vc_otherend_closed (x : bool) (r : virtual_channel) : virtual_channel :=
  Build_virtual_channel (vc_refcount r) (vc_pchan r) (vc_ctx r) (vc_rx_list r) (vc_id r) (vc_otherend_id r) x (vc_session_id r) (vc_closed r) (vc_tx_cnt r) (vc_rx_cnt r) (vc_rx_inflight r).
Definition set_vc_session_id (x : Z) (r : virtual_channel) : virtual_channel :=
  Build_virtual_channel (vc_refcount r) (vc_pchan r) (vc_ctx r) (vc_rx_list r) (vc_id r) (vc_otherend_id r) (vc_otherend_closed r) x (vc_closed r) (vc_tx_cnt r) (vc_rx_cnt r) (vc_rx_inflight r).
Definition set_vc_closed (x : bool) (r : virtual_channel) : virtual_channel :=
  Build_virtual_channel (vc_refcount r) (vc_pchan r) (vc_ctx r) (vc_rx_list r) (vc_id r) (vc_otherend_id r) (vc_otherend_closed r) (vc_session_id r) x (vc_tx_cnt r) (vc_rx_cnt r) (vc_rx_inflight r).
Definition set_vc_tx_cnt (x : Z) (r : virtual_channel) : virtual_channel :=
  Build_virtual_channel (vc_refcount r) (vc_pchan r) (vc_ctx r) (vc_rx_list r) (vc_id r) (vc_otherend_id r) (vc_otherend_closed r) (vc_session_id r) (vc_closed r) x (vc_rx_cnt r) (vc_rx_inflight r).
Definition set_vc_rx_cnt (x : Z) (r : virtual_channel) : virtual_channel :=
  Build_virtual_channel (vc_refcount r) (vc_pchan r) (vc_ctx r) (vc_rx_list r) (vc_id r) (vc_otherend_id r) (vc_otherend_closed r) (vc_session_id r) (vc_closed r) (vc_tx_cnt r) x (vc_rx_inflight r).
Definition set_vc_rx_inflight (x : bool) (r : virtual_channel) : virtual_channel :=
  Build_virtual_channel (vc_refcount r) (vc_pchan r) (vc_ctx r) (vc_rx_list r) (vc_id r) (vc_otherend_id r) (vc_otherend_closed r) (vc_session_id r) (vc_closed r) (vc_tx_cnt r) (vc_rx_cnt r) x.

(** ** Exported memory *)

(* src/hab.h:524-529 exp_desc_state *)
Inductive exp_desc_state :=
  | EXP_DESC_INIT
  | EXP_DESC_IMPORTING
  | EXP_DESC_IMPORTED
  | EXP_DESC_UNIMPORTING.

(* src/hab.h:531-534 export_state *)
Inductive export_state :=
  | HAB_EXP_EXPORTING
  | HAB_EXP_SUCCESS.

#[export] Instance exp_desc_state_eq_dec : EqDecision exp_desc_state.
Proof. solve_decision. Defined.
#[export] Instance export_state_eq_dec : EqDecision export_state.
Proof. solve_decision. Defined.

(* src/hab.h:448-468 export_desc *)
Record export_desc := {
  ed_export_id : Z;
  ed_readonly : Z;
  ed_import_index : Z;
  ed_vchan : option nat;
  ed_ctx : option nat;
  ed_pchan : option nat;
  ed_vcid_local : Z;
  ed_vcid_remote : Z;
  ed_domid_local : Z;
  ed_domid_remote : Z;
  ed_flags : Z;
  ed_kva : Z;
  ed_payload_count : Z;
  ed_payload : bytes
}.

Definition set_ed_export_id (x : Z) (r : export_desc) : export_desc :=
  Build_export_desc x (ed_readonly r) (ed_import_index r) (ed_vchan r) (ed_ctx r) (ed_pchan r) (ed_vcid_local r) (ed_vcid_remote r) (ed_domid_local r) (ed_domid_remote r) (ed_flags r) (ed_kva r) (ed_payload_count r) (ed_payload r).
Definition set_ed_readonly (x : Z) (r : export_desc) : export_desc :=
  Build_export_desc (ed_export_id r) x (ed_import_index r) (ed_vchan r) (ed_ctx r) (ed_pchan r) (ed_vcid_local r) (ed_vcid_remote r) (ed_domid_local r) (ed_domid_remote r) (ed_flags r) (ed_kva r) (ed_payload_count r) (ed_payload r).
Definition set_ed_import_index (x : Z) (r : export_desc) : export_desc :=
  Build_export_desc (ed_export_id r) (ed_readonly r) x (ed_vchan r) (ed_ctx r) (ed_pchan r) (ed_vcid_local r) (ed_vcid_remote r) (ed_domid_local r) (ed_domid_remote r) (ed_flags r) (ed_kva r) (ed_payload_count r) (ed_payload r).
Definition set_ed_vchan (x : option nat) (r : export_desc) : export_desc :=
  Build_export_desc (ed_export_id r) (ed_readonly r) (ed_import_index r) x (ed_ctx r) (ed_pchan r) (ed_vcid_local r) (ed_vcid_remote r) (ed_domid_local r) (ed_domid_remote r) (ed_flags r) (ed_kva r) (ed_payload_count r) (ed_payload r).
Definition set_ed_ctx (x : option nat) (r : export_desc) : export_desc :=
  Build_export_desc (ed_export_id r) (ed_readonly r) (ed_import_index r) (ed_vchan r) x (ed_pchan r) (ed_vcid_local r) (ed_vcid_remote r) (ed_domid_local r) (ed_domid_remote r) (ed_flags r) (ed_kva r) (ed_payload_count r) (ed_payload r).
Definition set_ed_pchan (x : option nat) (r : export_desc) : export_desc :=
  Build_export_desc (ed_export_id r) (ed_readonly r) (ed_import_index r) (ed_vchan r) (ed_ctx r) x (ed_vcid_local r) (ed_vcid_remote r) (ed_domid_local r) (ed_domid_remote r) (ed_flags r) (ed_kva r) (ed_payload_count r) (ed_payload r).
Definition set_ed_vcid_local (x : Z) (r : export_desc) : export_desc :=
  Build_export_desc (ed_export_id r) (ed_readonly r) (ed_import_index r) (ed_vchan r) (ed_ctx r) (ed_pchan r) x (ed_vcid_remote r) (ed_domid_local r) (ed_domid_remote r) (ed_flags r) (ed_kva r) (ed_payload_count r) (ed_payload r).
Definition set_ed_vcid_remote (x : Z) (r : export_desc) : export_desc :=
  Build_export_desc (ed_export_id r) (ed_readonly r) (ed_import_index r) (ed_vchan r) (ed_ctx r) (ed_pchan r) (ed_vcid_local r) x (ed_domid_local r) (ed_domid_remote r) (ed_flags r) (ed_kva r) (ed_payload_count r) (ed_payload r).
Definition set_ed_domid_local (x : Z) (r : export_desc) : export_desc :=
  Build_export_desc (ed_export_id r) (ed_readonly r) (ed_import_index r) (ed_vchan r) (ed_ctx r) (ed_pchan r) (ed_vcid_local r) (ed_vcid_remote r) x (ed_domid_remote r) (ed_flags r) (ed_kva r) (ed_payload_count r) (ed_payload r).
Definition set_ed_domid_remote (x : Z) (r : export_desc) : export_desc :=
  Build_export_desc (ed_export_id r) (ed_readonly r) (ed_import_index r) (ed_vchan r) (ed_ctx r) (ed_pchan r) (ed_vcid_local r) (ed_vcid_remote r) (ed_domid_local r) x (ed_flags r) (ed_kva r) (ed_payload_count r) (ed_payload r).
Definition set_ed_flags (x : Z) (r : export_desc) : export_desc :=
  Build_export_desc (ed_export_id r) (ed_readonly r) (ed_import_index r) (ed_vchan r) (ed_ctx r) (ed_pchan r) (ed_vcid_local r) (ed_vcid_remote r) (ed_domid_local r) (ed_domid_remote r) x (ed_kva r) (ed_payload_count r) (ed_payload r).
Definition set_ed_kva (x : Z) (r : export_desc) : export_desc :=
  Build_export_desc (ed_export_id r) (ed_readonly r) (ed_import_index r) (ed_vchan r) (ed_ctx r) (ed_pchan r) (ed_vcid_local r) (ed_vcid_remote r) (ed_domid_local r) (ed_domid_remote r) (ed_flags r) x (ed_payload_count r) (ed_payload r).
Definition set_ed_payload_count (x : Z) (r : export_desc) : export_desc :=
  Build_export_desc (ed_export_id r) (ed_readonly r) (ed_import_index r) (ed_vchan r) (ed_ctx r) (ed_pchan r) (ed_vcid_local r) (ed_vcid_remote r) (ed_domid_local r) (ed_domid_remote r) (ed_flags r) (ed_kva r) x (ed_payload r).
Definition set_ed_payload (x : bytes) (r : export_desc) : export_desc :=
  Build_export_desc (ed_export_id r) (ed_readonly r) (ed_import_index r) (ed_vchan r) (ed_ctx r) (ed_pchan r) (ed_vcid_local r) (ed_vcid_remote r) (ed_domid_local r) (ed_domid_remote r) (ed_flags r) (ed_kva r) (ed_payload_count r) x.

(* src/hab.h:536-553 export_desc_super *)
Record export_desc_super := {
  es_refcount : Z;
  es_platform_data : bool;
  es_offset : Z;
  es_payload_size : Z;
  es_import_state : exp_desc_state;
  es_exp_state : export_state;
  es_remote_imported : Z;
  es_exp : export_desc
}.

Definition set_es_refcount (x : Z) (r : export_desc_super) : export_desc_super :=
  Build_export_desc_super x (es_platform_data r) (es_offset r) (es_payload_size r) (es_import_state r) (es_exp_state r) (es_remote_imported r) (es_exp r).
Definition set_es_platform_data (x : bool) (r : export_desc_super) : export_desc_super :=
  Build_export_desc_super (es_refcount r) x (es_offset r) (es_payload_size r) (es_import_state r) (es_exp_state r) (es_remote_imported r) (es_exp r).
Definition set_es_offset (x : Z) (r : export_desc_super) : export_desc_super :=
  Build_export_desc_super (es_refcount r) (es_platform_data r) x (es_payload_size r) (es_import_state r) (es_exp_state r) (es_remote_imported r) (es_exp r).
Definition set_es_payload_size (x : Z) (r : export_desc_super) : export_desc_super :=
  Build_export_desc_super (es_refcount r) (es_platform_data r) (es_offset r) x (es_import_state r) (es_exp_state r) (es_remote_imported r) (es_exp r).
Definition set_es_import_state (x : exp_desc_state) (r : export_desc_super) : export_desc_super :=
  Build_export_desc_super (es_refcount r) (es_platform_data r) (es_offset r) (es_payload_size r) x (es_exp_state r) (es_remote_imported r) (es_exp r).
Definition set_es_exp_state (x : export_state) (r : export_desc_super) : export_desc_super :=
  Build_export_desc_super (es_refcount r) (es_platform_data r) (es_offset r) (es_payload_size r) (es_import_state r) x (es_remote_imported r) (es_exp r).
Definition set_es_remote_imported (x : Z) (r : export_desc_super) : export_desc_super :=
  Build_export_desc_super (es_refcount r) (es_platform_data r) (es_offset r) (es_payload_size r) (es_import_state r) (es_exp_state r) x (es_exp r).
Definition set_es_exp (x : export_desc) (r : export_desc_super) : export_desc_super :=
  Build_export_desc_super (es_refcount r) (es_platform_data r) (es_offset r) (es_payload_size r) (es_import_state r) (es_exp_state r) (es_remote_imported r) x.

(** The pages of an import, as the dma-buf made of them keeps them; [pl_addr] is
    its identity. *)
(* src/os/linux/hab_mem_linux.c:18-29 pages_list *)
Record pages_list := {
  pl_addr : nat;
  pl_pages : list Z;
  pl_npages : Z;
  pl_userflags : Z;
  pl_export_id : Z;
  pl_vcid : Z;
  pl_pchan : option nat;
  pl_refcount : Z;
  pl_vmapping : option Z
}.

Definition set_pl_addr (x : nat) (r : pages_list) : pages_list :=
  Build_pages_list x (pl_pages r) (pl_npages r) (pl_userflags r) (pl_export_id r) (pl_vcid r) (pl_pchan r) (pl_refcount r) (pl_vmapping r).
Definition set_pl_pages (x : list Z) (r : pages_list) : pages_list :=
  Build_pages_list (pl_addr r) x (pl_npages r) (pl_userflags r) (pl_export_id r) (pl_vcid r) (pl_pchan r) (pl_refcount r) (pl_vmapping r).
Definition set_pl_npages (x : Z) (r : pages_list) : pages_list :=
  Build_pages_list (pl_addr r) (pl_pages r) x (pl_userflags r) (pl_export_id r) (pl_vcid r) (pl_pchan r) (pl_refcount r) (pl_vmapping r).
Definition set_pl_userflags (x : Z) (r : pages_list) : pages_list :=
  Build_pages_list (pl_addr r) (pl_pages r) (pl_npages r) x (pl_export_id r) (pl_vcid r) (pl_pchan r) (pl_refcount r) (pl_vmapping r).
Definition set_pl_export_id (x : Z) (r : pages_list) : pages_list :=
  Build_pages_list (pl_addr r) (pl_pages r) (pl_npages r) (pl_userflags r) x (pl_vcid r) (pl_pchan r) (pl_refcount r) (pl_vmapping r).
Definition set_pl_vcid (x : Z) (r : pages_list) : pages_list :=
  Build_pages_list (pl_addr r) (pl_pages r) (pl_npages r) (pl_userflags r) (pl_export_id r) x (pl_pchan r) (pl_refcount r) (pl_vmapping r).
Definition set_pl_pchan (x : option nat) (r : pages_list) : pages_list :=
  Build_pages_list (pl_addr r) (pl_pages r) (pl_npages r) (pl_userflags r) (pl_export_id r) (pl_vcid r) x (pl_refcount r) (pl_vmapping r).
Definition set_pl_refcount (x : Z) (r : pages_list) : pages_list :=
  Build_pages_list (pl_addr r) (pl_pages r) (pl_npages r) (pl_userflags r) (pl_export_id r) (pl_vcid r) (pl_pchan r) x (pl_vmapping r).
Definition set_pl_vmapping (x : option Z) (r : pages_list) : pages_list :=
  Build_pages_list (pl_addr r) (pl_pages r) (pl_npages r) (pl_userflags r) (pl_export_id r) (pl_vcid r) (pl_pchan r) (pl_refcount r) x.

(** ** The driver *)

(** What the driver asks of the outside: a message given to the transport, a
    wait queue woken, the reclaim worker scheduled. *)
Inductive event :=
  | EvSend (p : nat) (h : hab_header) (payload : bytes)
  | EvWakeRx (v : nat)
  | EvWakeExp (c : nat)
  | EvWakeImp (c : nat)
  | EvWakeOpenq (d : nat)
  | EvReclaimWork.

(** The heap, the devices and [hab_driver].  An [export_desc_super] lives in
    [w_exps] when [habmem_add_export] allocated it and in [w_imps] when it was
    received from the other side.  [w_hyp] is the transport's own
    state of each physical channel, [w_imp_list] the page lists of the imports that
    are mapped, [w_now] the clock, [w_alloc] the outcomes of
    the coming allocations (success when it runs out). *)
(* src/hab.h:379-409 hab_driver *)
Record world (HS : Type) := {
  w_next : nat;
  w_pchans : gmap nat physical_channel;
  w_hyp : gmap nat HS;
  w_vchans : gmap nat virtual_channel;
  w_ctxs : gmap nat uhab_context;
  w_exps : gmap nat export_desc_super;
  w_imps : gmap nat export_desc_super;
  w_devs : list hab_device;
  w_uctx_list : list nat;
  w_ctx_cnt : Z;
  w_reclaim_list : list nat;
  w_loopback : bool;
  w_loopback_be : Z;
  w_open_id : Z;
  w_imp_list : list pages_list;
  w_imp_cnt : Z;
  w_now : Z * Z;
  w_alloc : list bool;
  w_log : list event
}.
Arguments Build_world {HS}.
Arguments w_next {HS} _.
Arguments w_pchans {HS} _.
Arguments w_hyp {HS} _.
Arguments w_vchans {HS} _.
Arguments w_ctxs {HS} _.
Arguments w_exps {HS} _.
Arguments w_imps {HS} _.
Arguments w_devs {HS} _.
Arguments w_uctx_list {HS} _.
Arguments w_ctx_cnt {HS} _.
Arguments w_reclaim_list {HS} _.
Arguments w_loopback {HS} _.
Arguments w_loopback_be {HS} _.
Arguments w_open_id {HS} _.
Arguments w_imp_list {HS} _.
Arguments w_imp_cnt {HS} _.
Arguments w_now {HS} _.
Arguments w_alloc {HS} _.
Arguments w_log {HS} _.

Definition set_w_next {HS} (x : nat) (r : world HS) : world HS :=
  Build_world x (w_pchans r) (w_hyp r) (w_vchans r) (w_ctxs r) (w_exps r) (w_imps r) (w_devs r) (w_uctx_list r) (w_ctx_cnt r) (w_reclaim_list r) (w_loopback r) (w_loopback_be r) (w_open_id r) (w_imp_list r) (w_imp_cnt r) (w_now r) (w_alloc r) (w_log r).
Definition set_w_pchans {HS} (x : gmap nat physical_channel) (r : world HS) : world HS :=
  Build_world (w_next r) x (w_hyp r) (w_vchans r) (w_ctxs r) (w_exps r) (w_imps r) (w_devs r) (w_uctx_list r) (w_ctx_cnt r) (w_reclaim_list r) (w_loopback r) (w_loopback_be r) (w_open_id r) (w_imp_list r) (w_imp_cnt r) (w_now r) (w_alloc r) (w_log r).
Definition set_w_hyp {HS} (x : gmap nat HS) (r : world HS) : world HS :=
  Build_world (w_next r) (w_pchans r) x (w_vchans r) (w_ctxs r) (w_exps r) (w_imps r) (w_devs r) (w_uctx_list r) (w_ctx_cnt r) (w_reclaim_list r) (w_loopback r) (w_loopback_be r) (w_open_id r) (w_imp_list r) (w_imp_cnt r) (w_now r) (w_alloc r) (w_log r).
Definition set_w_vchans {HS} (x : gmap nat virtual_channel) (r : world HS) : world HS :=
  Build_world (w_next r) (w_pchans r) (w_hyp r) x (w_ctxs r) (w_exps r) (w_imps r) (w_devs r) (w_uctx_list r) (w_ctx_cnt r) (w_reclaim_list r) (w_loopback r) (w_loopback_be r) (w_open_id r) (w_imp_list r) (w_imp_cnt r) (w_now r) (w_alloc r) (w_log r).
Definition set_w_ctxs {HS} (x : gmap nat uhab_context) (r : world HS) : world HS :=
  Build_world (w_next r) (w_pchans r) (w_hyp r) (w_vchans r) x (w_exps r) (w_imps r) (w_devs r) (w_uctx_list r) (w_ctx_cnt r) (w_reclaim_list r) (w_loopback r) (w_loopback_be r) (w_open_id r) (w_imp_list r) (w_imp_cnt r) (w_now r) (w_alloc r) (w_log r).
Definition set_w_exps {HS} (x : gmap nat export_desc_super) (r : world HS) : world HS :=
  Build_world (w_next r) (w_pchans r) (w_hyp r) (w_vchans r) (w_ctxs r) x (w_imps r) (w_devs r) (w_uctx_list r) (w_ctx_cnt r) (w_reclaim_list r) (w_loopback r) (w_loopback_be r) (w_open_id r) (w_imp_list r) (w_imp_cnt r) (w_now r) (w_alloc r) (w_log r).
Definition set_w_imps {HS} (x : gmap nat export_desc_super) (r : world HS) : world HS :=
  Build_world (w_next r) (w_pchans r) (w_hyp r) (w_vchans r) (w_ctxs r) (w_exps r) x (w_devs r) (w_uctx_list r) (w_ctx_cnt r) (w_reclaim_list r) (w_loopback r) (w_loopback_be r) (w_open_id r) (w_imp_list r) (w_imp_cnt r) (w_now r) (w_alloc r) (w_log r).
Definition set_w_devs {HS} (x : list hab_device) (r : world HS) : world HS :=
  Build_world (w_next r) (w_pchans r) (w_hyp r) (w_vchans r) (w_ctxs r) (w_exps r) (w_imps r) x (w_uctx_list r) (w_ctx_cnt r) (w_reclaim_list r) (w_loopback r) (w_loopback_be r) (w_open_id r) (w_imp_list r) (w_imp_cnt r) (w_now r) (w_alloc r) (w_log r).
Definition set_w_uctx_list {HS} (x : list nat) (r : world HS) : world HS :=
  Build_world (w_next r) (w_pchans r) (w_hyp r) (w_vchans r) (w_ctxs r) (w_exps r) (w_imps r) (w_devs r) x (w_ctx_cnt r) (w_reclaim_list r) (w_loopback r) (w_loopback_be r) (w_open_id r) (w_imp_list r) (w_imp_cnt r) (w_now r) (w_alloc r) (w_log r).
Definition set_w_ctx_cnt {HS} (x : Z) (r : world HS) : world HS :=
  Build_world (w_next r) (w_pchans r) (w_hyp r) (w_vchans r) (w_ctxs r) (w_exps r) (w_imps r) (w_devs r) (w_uctx_list r) x (w_reclaim_list r) (w_loopback r) (w_loopback_be r) (w_open_id r) (w_imp_list r) (w_imp_cnt r) (w_now r) (w_alloc r) (w_log r).
Definition set_w_reclaim_list {HS} (x : list nat) (r : world HS) : world HS :=
  Build_world (w_next r) (w_pchans r) (w_hyp r) (w_vchans r) (w_ctxs r) (w_exps r) (w_imps r) (w_devs r) (w_uctx_list r) (w_ctx_cnt r) x (w_loopback r) (w_loopback_be r) (w_open_id r) (w_imp_list r) (w_imp_cnt r) (w_now r) (w_alloc r) (w_log r).
Definition set_w_loopback {HS} (x : bool) (r : world HS) : world HS :=
  Build_world (w_next r) (w_pchans r) (w_hyp r) (w_vchans r) (w_ctxs r) (w_exps r) (w_imps r) (w_devs r) (w_uctx_list r) (w_ctx_cnt r) (w_reclaim_list r) x (w_loopback_be r) (w_open_id r) (w_imp_list r) (w_imp_cnt r) (w_now r) (w_alloc r) (w_log r).
Definition set_w_loopback_be {HS} (x : Z) (r : world HS) : world HS :=
  Build_world (w_next r) (w_pchans r) (w_hyp r) (w_vchans r) (w_ctxs r) (w_exps r) (w_imps r) (w_devs r) (w_uctx_list r) (w_ctx_cnt r) (w_reclaim_list r) (w_loopback r) x (w_open_id r) (w_imp_list r) (w_imp_cnt r) (w_now r) (w_alloc r) (w_log r).
Definition set_w_open_id {HS} (x : Z) (r : world HS) : world HS :=
  Build_world (w_next r) (w_pchans r) (w_hyp r) (w_vchans r) (w_ctxs r) (w_exps r) (w_imps r) (w_devs r) (w_uctx_list r) (w_ctx_cnt r) (w_reclaim_list r) (w_loopback r) (w_loopback_be r) x (w_imp_list r) (w_imp_cnt r) (w_now r) (w_alloc r) (w_log r).
Definition set_w_imp_list {HS} (x : list pages_list) (r : world HS) : world HS :=
  Build_world (w_next r) (w_pchans r) (w_hyp r) (w_vchans r) (w_ctxs r) (w_exps r) (w_imps r) (w_devs r) (w_uctx_list r) (w_ctx_cnt r) (w_reclaim_list r) (w_loopback r) (w_loopback_be r) (w_open_id r) x (w_imp_cnt r) (w_now r) (w_alloc r) (w_log r).
Definition set_w_imp_cnt {HS} (x : Z) (r : world HS) : world HS :=
  Build_world (w_next r) (w_pchans r) (w_hyp r) (w_vchans r) (w_ctxs r) (w_exps r) (w_imps r) (w_devs r) (w_uctx_list r) (w_ctx_cnt r) (w_reclaim_list r) (w_loopback r) (w_loopback_be r) (w_open_id r) (w_imp_list r) x (w_now r) (w_alloc r) (w_log r).
Definition set_w_now {HS} (x : Z * Z) (r : world HS) : world HS :=
  Build_world (w_next r) (w_pchans r) (w_hyp r) (w_vchans r) (w_ctxs r) (w_exps r) (w_imps r) (w_devs r) (w_uctx_list r) (w_ctx_cnt r) (w_reclaim_list r) (w_loopback r) (w_loopback_be r) (w_open_id r) (w_imp_list r) (w_imp_cnt r) x (w_alloc r) (w_log r).
Definition set_w_alloc {HS} (x : list bool) (r : world HS) : world HS :=
  Build_world (w_next r) (w_pchans r) (w_hyp r) (w_vchans r) (w_ctxs r) (w_exps r) (w_imps r) (w_devs r) (w_uctx_list r) (w_ctx_cnt r) (w_reclaim_list r) (w_loopback r) (w_loopback_be r) (w_open_id r) (w_imp_list r) (w_imp_cnt r) (w_now r) x (w_log r).
Definition set_w_log {HS} (x : list event) (r : world HS) : world HS :=
  Build_world (w_next r) (w_pchans r) (w_hyp r) (w_vchans r) (w_ctxs r) (w_exps r) (w_imps r) (w_devs r) (w_uctx_list r) (w_ctx_cnt r) (w_reclaim_list r) (w_loopback r) (w_loopback_be r) (w_open_id r) (w_imp_list r) (w_imp_cnt r) (w_now r) (w_alloc r) x.

(** [ARRAY_SIZE(hab_devices)] devices, one per mmid, in this order. *)
(* src/hab.c:27-58 hab_devices *)
Definition hab_device_ids : list Z :=
  [101; 102; 103; 104; 201; 202; 301; 302; 303; 304; 305; 401; 501; 502; 503; 601; 701;
   801; 802; 901; 1001; 1101; 1102; 1201; 1301; 1302; 1303; 1401; 1501; 1601].

(** ** The monad *)

Definition M (HS A : Type) : Type := world HS -> res (A * world HS).

Definition ret {HS A} (a : A) : M HS A := fun w => Ok (a, w).
Definition bind {HS A B} (m : M HS A) (k : A -> M HS B) : M HS B :=
  fun w => match m w with
           | Ok (a, w') => k a w'
           | Fault f => Fault f
           | Blocked => Blocked
           end.
Definition fail {HS A} (f : fault) : M HS A := fun _ => Fault f.
Definition gets {HS A} (f : world HS -> A) : M HS A := fun w => Ok (f w, w).
Definition modify {HS} (f : world HS -> world HS) : M HS unit := fun w => Ok (tt, f w).

Declare Scope hab_scope.
Delimit Scope hab_scope with hab.
Notation "'let!' x ':=' m 'in' k" := (bind m (fun x => k))
  (at level 10, x pattern, m at level 100, k at level 200) : hab_scope.
Notation "'do!' m 'in' k" := (bind m (fun _ => k))
  (at level 10, m at level 100, k at level 200) : hab_scope.
#[global] Open Scope hab_scope.

(** [when b m]: an [if] without [else]. *)
Definition when {HS} (b : bool) (m : M HS unit) : M HS unit := if b then m else ret tt.

Fixpoint for_each {HS A} (f : A -> M HS unit) (l : list A) : M HS unit :=
  match l with
  | [] => ret tt
  | x :: l => do! f x in for_each f l
  end.

Definition log {HS} (e : event) : M HS unit :=
  modify (fun w => set_w_log (w_log w ++ [e]) w).

(** One allocation: did it succeed, and the next address. *)
Definition kalloc {HS} : M HS (option nat) := fun w =>
  match w_alloc w with
  | false :: l => Ok (None, set_w_alloc l w)
  | true :: l => Ok (Some (w_next w), set_w_next (S (w_next w)) (set_w_alloc l w))
  | [] => Ok (Some (w_next w), set_w_next (S (w_next w)) w)
  end.

(** Following a pointer. *)
Definition get_p {HS} (p : nat) : M HS physical_channel := fun w =>
  match w_pchans w !! p with Some x => Ok (x, w) | None => Fault UseAfterFree end.
Definition get_v {HS} (v : nat) : M HS virtual_channel := fun w =>
  match w_vchans w !! v with Some x => Ok (x, w) | None => Fault UseAfterFree end.
Definition get_c {HS} (c : nat) : M HS uhab_context := fun w =>
  match w_ctxs w !! c with Some x => Ok (x, w) | None => Fault UseAfterFree end.
Definition get_e {HS} (e : nat) : M HS export_desc_super := fun w =>
  match w_exps w !! e with Some x => Ok (x, w) | None => Fault UseAfterFree end.
Definition get_d {HS} (d : nat) : M HS hab_device := fun w =>
  match w_devs w !! d with Some x => Ok (x, w) | None => Fault OutOfBounds end.
Definition deref {HS} (o : option nat) : M HS nat :=
  match o with Some x => ret x | None => fail NullDeref end.

(** Writing through a pointer. *)
Definition upd_p {HS} (p : nat) (f : physical_channel -> physical_channel) : M HS unit := fun w =>
  match w_pchans w !! p with
  | Some x => Ok (tt, set_w_pchans (<[p := f x]> (w_pchans w)) w)
  | None => Fault UseAfterFree
  end.
Definition upd_v {HS} (v : nat) (f : virtual_channel -> virtual_channel) : M HS unit := fun w =>
  match w_vchans w !! v with
  | Some x => Ok (tt, set_w_vchans (<[v := f x]> (w_vchans w)) w)
  | None => Fault UseAfterFree
  end.
Definition upd_c {HS} (c : nat) (f : uhab_context -> uhab_context) : M HS unit := fun w =>
  match w_ctxs w !! c with
  | Some x => Ok (tt, set_w_ctxs (<[c := f x]> (w_ctxs w)) w)
  | None => Fault UseAfterFree
  end.
Definition get_i {HS} (e : nat) : M HS export_desc_super := fun w =>
  match w_imps w !! e with Some x => Ok (x, w) | None => Fault UseAfterFree end.
Definition upd_i {HS} (e : nat) (f : export_desc_super -> export_desc_super) : M HS unit := fun w =>
  match w_imps w !! e with
  | Some x => Ok (tt, set_w_imps (<[e := f x]> (w_imps w)) w)
  | None => Fault UseAfterFree
  end.
Definition upd_e {HS} (e : nat) (f : export_desc_super -> export_desc_super) : M HS unit := fun w =>
  match w_exps w !! e with
  | Some x => Ok (tt, set_w_exps (<[e := f x]> (w_exps w)) w)
  | None => Fault UseAfterFree
  end.
Definition upd_d {HS} (d : nat) (f : hab_device -> hab_device) : M HS unit := fun w =>
  match w_devs w !! d with
  | Some x => Ok (tt, set_w_devs (<[d := f x]> (w_devs w)) w)
  | None => Fault OutOfBounds
  end.

(** ** The platform below the driver *)

(** A dma-buf as the exporter sees it: one of the driver's own, made of pages, or
    a foreign one, whose attachment yields a scatter list of (first pfn, length)
    or fails. *)
(* src/os/linux/hab_mem_linux.c:18-39 pages_list *)
Inductive dma_buf :=
  | DmaPages (pfns : list Z)
  | DmaForeign (sg : option (list (Z * Z))).

(** What the driver asks of the kernel: the start and the file of the mapping that holds
    an address or is the next one after it; [iterate_fd], which calls a function for the
    files of the process with their descriptors until it gives something else than 0,
    and gives that; the dma-buf behind a descriptor or a pointer; the pages it pins of a
    user range, as many as it could, and the page of a kernel address; the dma-buf made
    of a list of pages and a new descriptor of it; whether there is a page of a frame
    number, and how it lies in memory; an address range for pages, and the device
    addresses made of pages, as their number; [sclk_ticks] is
    [msm_timer_get_sclk_ticks] at a time; [node_words] are the two pointers of the list
    node inside an export, as words. *)
Class LinuxCalls := {
  find_vma : Z -> option (Z * option nat);
  iterate_fd : (nat -> Z -> Z) -> Z;
  dma_buf_get : Z -> option dma_buf;
  dmabuf_at : Z -> option dma_buf;
  get_user_pages : Z -> Z -> list Z;
  kernel_page : Z -> Z;
  dma_buf_export : list Z -> option Z;
  dma_buf_fd : Z -> Z;
  pfn_valid : Z -> bool;
  region_intersects : Z -> Z;
  vmap : list Z -> option Z;
  dma_map_sg : list Z -> Z;
  sclk_ticks : Z * Z -> Z;
  node_words : nat -> Z * Z
}.

(** The transport that is linked in (hab_comm.c, hypervisor/virtio/*.c), and the
    kernel.  [phys_send] gives the returned code, the channel's new [sequence_tx]
    and the transport's new state, or [None] when the sender is put to sleep;
    [phys_read] gives the returned count, the bytes laid into the buffer and the
    new state.  The laws are what
    the callers' buffers rely on: an error code of a send is an errno; never more
    bytes than asked for, and while the transport is up, as it is while it delivers
    a message, no error in the count. *)
Class Platform (HS : Type) := {
  kernel_calls :: LinuxCalls;
  phys_send : physical_channel -> HS -> hab_header -> bytes -> option (Z * Z * HS);
  phys_read : physical_channel -> HS -> Z -> Z * bytes * HS;
  phys_up : HS -> bool;
  phys_send_ret : forall pc hs h bs r q hs', phys_send pc hs h bs = Some (r, q, hs') ->
    - 4095 <= r <= 0;
  phys_read_len : forall pc hs n, 0 <= n -> zlen (snd (fst (phys_read pc hs n))) <= n;
  phys_read_ret : forall pc hs n, 0 <= n -> phys_up hs = true ->
    0 <= fst (fst (phys_read pc hs n)) <= n;
  phys_read_up : forall pc hs n, phys_up hs = true -> phys_up (snd (phys_read pc hs n)) = true
}.

(** The id allocator of the kernel: some unused id of a range, or none. *)
Class KernelIdr := {
  idr_pick : gmap Z nat -> Z -> Z -> option Z;
  idr_pick_Some : forall m lo hi i,
    idr_pick m lo hi = Some i -> lo <= i < hi /\ m !! i = None
}.

Section calls.
Context {HS : Type} `{Platform HS}.

(** [physical_channel_send] as the core calls it. *)
Definition physical_channel_send (p : nat) (h : hab_header) (payload : bytes) : M HS Z :=
  fun w =>
    match w_pchans w !! p, w_hyp w !! p with
    | Some pc, Some hs =>
        match phys_send pc hs h payload with
        | Some (r, seq, hs') =>
            Ok (r, set_w_log (w_log w ++ [EvSend p h payload])
                     (set_w_hyp (<[p := hs']> (w_hyp w))
                        (set_w_pchans (<[p := set_pc_sequence_tx seq pc]> (w_pchans w)) w)))
        | None => Blocked
        end
    | _, _ => Fault UseAfterFree
    end.

(** [physical_channel_read] as the core calls it: the count and the bytes. *)
Definition physical_channel_read (p : nat) (n : Z) : M HS (Z * bytes) :=
  fun w =>
    match w_pchans w !! p, w_hyp w !! p with
    | Some pc, Some hs =>
        let '(r, bs, hs') := phys_read pc hs n in
        Ok ((r, bs), set_w_hyp (<[p := hs']> (w_hyp w)) w)
    | _, _ => Fault UseAfterFree
    end.
End calls.

(** A zero-filled buffer of [n] bytes after the first bytes were laid into it. *)
Definition fill_buf (n : Z) (bs : bytes) : bytes :=
  take (Z.to_nat n) (bs ++ repeat 0 (Z.to_nat n)).


(** ** Releasing a received message *)

(** The pages a message of this size has. *)
Definition page_count (sizebytes : Z) : Z :=
  Z.shiftr sizebytes PAGE_SHIFT + (if sizebytes mod PAGE_SIZE =? 0 then 0 else 1).

(** The message has the bytes its size tells, in one chunk or in pages that are full
    but for the last. *)
Definition data_ok (m : hab_message) : bool :=
  let sizes := map zlen (m_data m) in
  (0 <=? m_sizebytes m) && (m_sizebytes m <=? foldr Z.add 0 sizes) &&
  (negb (m_scatter m) || (forallb (Z.eqb PAGE_SIZE) (removelast sizes) && forallb (Z.geb PAGE_SIZE) sizes)).

(** A scattered message records no more bytes than its pages hold. *)
Definition msg_ok (m : hab_message) : bool :=
  (negb (m_scatter m) || (page_count (m_sizebytes m) <=? zlen (m_data m))) && data_ok m.

(** The number of pages is computed from the size recorded in the message. *)
(* src/hab_msg.c:114-132 hab_msg_free *)
Definition hab_msg_free {HS} (m : hab_message) : M HS unit :=
  if m_scatter m && (zlen (m_data m) <? page_count (m_sizebytes m))
  then fail OutOfBounds else ret tt.
