(* ===== verification/Logic.v ===== *)
(** Reasoning about the monad: a weakest-precondition rule per primitive of
    World.v.

    [wp m Q w] says that [m] started in [w] does not fault and that [Q] holds of
    every outcome; a thread that stays asleep ([Blocked]) satisfies it. *)
From S2P Require Import Prelude Header World.

Definition wp {HS A} (m : M HS A) (Q : A -> world HS -> Prop) (w : world HS) : Prop :=
  match m w with
  | Ok (a, w') => Q a w'
  | Fault _ => False
  | Blocked => True
  end.

Section wp_rules.
Context {HS : Type}.
Implicit Types (w : world HS).

Lemma wp_mono {A} (m : M HS A) (Q Q' : A -> world HS -> Prop) w :
  wp m Q w -> (forall a w', Q a w' -> Q' a w') -> wp m Q' w.
Proof. unfold wp. destruct (m w) as [[a w']| |]; auto. Qed.

Lemma wp_returns {A} (m : M HS A) (Q : A -> world HS -> Prop) (R : A -> Prop) w :
  wp m Q w -> (forall a w', m w = Ok (a, w') -> R a) -> wp m (fun a w' => Q a w' /\ R a) w.
Proof. unfold wp. destruct (m w) as [[a w']| |] eqn:Hm; eauto. Qed.

Lemma wp_bind {A B} (m : M HS A) (k : A -> M HS B) Q w :
  wp m (fun a w' => wp (k a) Q w') w -> wp (bind m k) Q w.
Proof. unfold wp, bind. by destruct (m w) as [[a w']| |]. Qed.

(** What a run that is known gives. *)
Lemma wp_ok {A} (m : M HS A) (Q : A -> world HS -> Prop) w a w' : wp m Q w -> m w = Ok (a, w') -> Q a w'.
Proof. unfold wp. intros Hm E. by rewrite E in Hm. Qed.

Lemma wp_ended {A} (m : M HS A) (Q : A -> world HS -> Prop) w :
  wp m Q w -> m w <> Blocked -> exists a w', m w = Ok (a, w') /\ Q a w'.
Proof. unfold wp. destruct (m w) as [[a w']| |]; intros Hm Hb; [by exists a, w'|done|done]. Qed.

Lemma wp_ret {A} (a : A) (Q : A -> world HS -> Prop) w : Q a w -> wp (ret a) Q w.
Proof. done. Qed.

Lemma wp_gets {A} (f : world HS -> A) Q w : Q (f w) w -> wp (gets f) Q w.
Proof. done. Qed.

Lemma wp_modify f (Q : unit -> world HS -> Prop) w : Q tt (f w) -> wp (modify f) Q w.
Proof. done. Qed.

Lemma wp_log e (Q : unit -> world HS -> Prop) w :
  Q tt (set_w_log (w_log w ++ [e]) w) -> wp (log e) Q w.
Proof. done. Qed.

Lemma wp_get_p p pc Q w : w_pchans w !! p = Some pc -> Q pc w -> wp (get_p p) Q w.
Proof. unfold wp, get_p. by intros ->. Qed.
Lemma wp_get_v v vc Q w : w_vchans w !! v = Some vc -> Q vc w -> wp (get_v v) Q w.
Proof. unfold wp, get_v. by intros ->. Qed.
Lemma wp_get_c c cx Q w : w_ctxs w !! c = Some cx -> Q cx w -> wp (get_c c) Q w.
Proof. unfold wp, get_c. by intros ->. Qed.
Lemma wp_get_e e ex Q w : w_exps w !! e = Some ex -> Q ex w -> wp (get_e e) Q w.
Proof. unfold wp, get_e. by intros ->. Qed.
Lemma wp_get_i e ex Q w : w_imps w !! e = Some ex -> Q ex w -> wp (get_i e) Q w.
Proof. unfold wp, get_i. by intros ->. Qed.
Lemma wp_get_d d dv Q w : w_devs w !! d = Some dv -> Q dv w -> wp (get_d d) Q w.
Proof. unfold wp, get_d. by intros ->. Qed.
Lemma wp_deref x (Q : nat -> world HS -> Prop) w : Q x w -> wp (deref (Some x)) Q w.
Proof. done. Qed.

Lemma wp_upd_p p pc f Q w : w_pchans w !! p = Some pc ->
  Q tt (set_w_pchans (<[p := f pc]> (w_pchans w)) w) -> wp (upd_p p f) Q w.
Proof. unfold wp, upd_p. by intros ->. Qed.
Lemma wp_upd_v v vc f Q w : w_vchans w !! v = Some vc ->
  Q tt (set_w_vchans (<[v := f vc]> (w_vchans w)) w) -> wp (upd_v v f) Q w.
Proof. unfold wp, upd_v. by intros ->. Qed.
Lemma wp_upd_c c cx f Q w : w_ctxs w !! c = Some cx ->
  Q tt (set_w_ctxs (<[c := f cx]> (w_ctxs w)) w) -> wp (upd_c c f) Q w.
Proof. unfold wp, upd_c. by intros ->. Qed.
Lemma wp_upd_e e ex f Q w : w_exps w !! e = Some ex ->
  Q tt (set_w_exps (<[e := f ex]> (w_exps w)) w) -> wp (upd_e e f) Q w.
Proof. unfold wp, upd_e. by intros ->. Qed.
Lemma wp_upd_i e ex f Q w : w_imps w !! e = Some ex ->
  Q tt (set_w_imps (<[e := f ex]> (w_imps w)) w) -> wp (upd_i e f) Q w.
Proof. unfold wp, upd_i. by intros ->. Qed.
Lemma wp_upd_d d dv f Q w : w_devs w !! d = Some dv ->
  Q tt (set_w_devs (<[d := f dv]> (w_devs w)) w) -> wp (upd_d d f) Q w.
Proof. unfold wp, upd_d. by intros ->. Qed.

(** An allocation fails and only consumes its outcome, or yields the next address. *)
Lemma wp_kalloc_eq (Q : option nat -> world HS -> Prop) w :
  (forall l, w_alloc w = false :: l -> Q None (set_w_alloc l w)) ->
  (forall l, Q (Some (w_next w)) (set_w_next (S (w_next w)) (set_w_alloc l w))) ->
  wp kalloc Q w.
Proof.
  unfold wp, kalloc. intros HN HS'. destruct (w_alloc w) as [|[] l] eqn:Hl; auto.
  specialize (HS' []). destruct w; simpl in *; subst. done.
Qed.

Lemma wp_kalloc (Q : option nat -> world HS -> Prop) w :
  (forall l, Q None (set_w_alloc l w)) ->
  (forall l, Q (Some (w_next w)) (set_w_next (S (w_next w)) (set_w_alloc l w))) ->
  wp kalloc Q w.
Proof. intros. apply wp_kalloc_eq; auto. Qed.

(** While memory is plentiful. *)
Lemma wp_kalloc_nil (Q : option nat -> world HS -> Prop) w :
  w_alloc w = [] -> Q (Some (w_next w)) (set_w_next (S (w_next w)) (set_w_alloc [] w)) -> wp kalloc Q w.
Proof. unfold wp, kalloc. intros Ha. rewrite Ha. destruct w. simpl in *. by subst. Qed.

Lemma wp_when b m (Q : unit -> world HS -> Prop) w :
  (b = true -> wp m Q w) -> (b = false -> Q tt w) -> wp (when b m) Q w.
Proof. destruct b; intros H1 H2; [by apply H1|by apply H2]. Qed.

(** A loop over a list keeps an invariant indexed by the rest of the list. *)
Lemma wp_for_each {A} (I : list A -> world HS -> Prop) (f : A -> M HS unit) l
    (Q : unit -> world HS -> Prop) w :
  I l w ->
  (forall x l' w', I (x :: l') w' -> wp (f x) (fun _ => I l') w') ->
  (forall w', I [] w' -> Q tt w') ->
  wp (for_each f l) Q w.
Proof.
  intros HI Hf HQ. revert w HI. induction l as [|x l IH]; intros w HI; simpl.
  - by apply wp_ret, HQ.
  - apply wp_bind. eapply wp_mono; [by apply Hf|]. intros [] w' ?. by apply IH.
Qed.

(** *** Equations of the monad *)

Lemma bind_assoc {A B C} (m : M HS A) (k : A -> M HS B) (k' : B -> M HS C) w :
  (let! y := (let! x := m in k x) in k' y) w = (let! x := m in let! y := k x in k' y) w.
Proof. unfold bind. by destruct (m w) as [[x w']| |]. Qed.

Lemma bind_ext {A B} (m : M HS A) (k k' : A -> M HS B) w : (forall a w', k a w' = k' a w') -> bind m k w = bind m k' w.
Proof. intros Hk. unfold bind. destruct (m w) as [[a w']| |]; [apply Hk|done|done]. Qed.

Lemma for_each_app {A} (f : A -> M HS unit) l l' w :
  for_each f (l ++ l') w = (do! for_each f l in for_each f l') w.
Proof. revert w. induction l as [|x l IH]; intros w; [done|]. simpl. rewrite bind_assoc. by apply bind_ext. Qed.

End wp_rules.

(** [wpf F]: as [wp], but the faults of [F] are let through.  It is for the few
    entry points that have a known one. *)
Definition wpf {HS A} (F : fault -> Prop) (m : M HS A) (Q : A -> world HS -> Prop) (w : world HS) : Prop :=
  match m w with
  | Ok (a, w') => Q a w'
  | Fault f => F f
  | Blocked => True
  end.

Section wpf_rules.
Context {HS : Type} (F : fault -> Prop).
Implicit Types (w : world HS).

Lemma wpf_wp {A} (m : M HS A) (Q : A -> world HS -> Prop) w : wp m Q w -> wpf F m Q w.
Proof. unfold wp, wpf. by destruct (m w) as [[a w']| |]. Qed.

Lemma wpf_bind {A B} (m : M HS A) (k : A -> M HS B) Q w :
  wp m (fun a w' => wpf F (k a) Q w') w -> wpf F (bind m k) Q w.
Proof. unfold wp, wpf, bind. by destruct (m w) as [[a w']| |]. Qed.

Lemma wpf_bind_f {A B} (m : M HS A) (k : A -> M HS B) Q w :
  wpf F m (fun a w' => wpf F (k a) Q w') w -> wpf F (bind m k) Q w.
Proof. unfold wpf, bind. by destruct (m w) as [[a w']| |]. Qed.

Lemma wpf_mono {A} (m : M HS A) (Q Q' : A -> world HS -> Prop) w :
  wpf F m Q w -> (forall a w', Q a w' -> Q' a w') -> wpf F m Q' w.
Proof. unfold wpf. destruct (m w) as [[a w']| |]; auto. Qed.

Lemma wpf_weaken {A} (F' : fault -> Prop) (m : M HS A) (Q : A -> world HS -> Prop) w :
  wpf F' m Q w -> (forall f, F' f -> F f) -> wpf F m Q w.
Proof. unfold wpf. destruct (m w) as [[a w']| |]; auto. Qed.

Lemma wpf_ret {A} (a : A) (Q : A -> world HS -> Prop) w : Q a w -> wpf F (ret a) Q w.
Proof. done. Qed.

Lemma wpf_fail {A} f (Q : A -> world HS -> Prop) w : F f -> wpf F (fail f) Q w.
Proof. done. Qed.
End wpf_rules.

(** Step over the head of a sequence with a lemma, leaving the continuation. *)
Ltac wp_apply lem := apply wp_bind; eapply wp_mono; [eapply lem|].

(** Two writes of the same field are the second one. *)
Ltac setters :=
  repeat match goal with
  | |- context [set_w_exps ?a (set_w_exps ?b ?w)] =>
      change (set_w_exps a (set_w_exps b w)) with (set_w_exps a w)
  | |- context [set_w_imps ?a (set_w_imps ?b ?w)] =>
      change (set_w_imps a (set_w_imps b w)) with (set_w_imps a w)
  | |- context [set_w_pchans ?a (set_w_pchans ?b ?w)] =>
      change (set_w_pchans a (set_w_pchans b w)) with (set_w_pchans a w)
  | |- context [set_w_vchans ?a (set_w_vchans ?b ?w)] =>
      change (set_w_vchans a (set_w_vchans b w)) with (set_w_vchans a w)
  | |- context [set_w_ctxs ?a (set_w_ctxs ?b ?w)] =>
      change (set_w_ctxs a (set_w_ctxs b w)) with (set_w_ctxs a w)
  | |- context [set_w_devs ?a (set_w_devs ?b ?w)] =>
      change (set_w_devs a (set_w_devs b w)) with (set_w_devs a w)
  | |- context [set_w_hyp ?a (set_w_hyp ?b ?w)] =>
      change (set_w_hyp a (set_w_hyp b w)) with (set_w_hyp a w)
  | |- context [set_w_log ?a (set_w_log ?b ?w)] =>
      change (set_w_log a (set_w_log b w)) with (set_w_log a w)
  end.
