(* ===== verification/Memory.v ===== *)
(** Shared memory: the export descriptor as it is sent, the page table it carries
    (hab_grantable.h) and the Linux back end (hab_mem_linux.c): a buffer's pages
    are compressed into regions by the exporter and expanded by the importer. *)
From Stdlib Require Import ZifyBool.
From S2P Require Import Prelude Header World Logic.

(** ** The export descriptor on the wire *)

Definition sizeof_export_desc : Z := 89.
Definition sizeof_compressed_pfns : Z := 16.
Definition sizeof_region : Z := 8.

(* src/hab.h:92-92 MAX_EXP_PAYLOAD_COUNT *)
Definition MAX_EXP_PAYLOAD_COUNT : Z := 0xFFFFF.

(** A pointer field as a word, and back. *)
Definition ptr_enc (o : option nat) : bytes :=
  le_enc 8 (match o with Some a => Z.of_nat a | None => 0 end).
Definition ptr_dec (l : bytes) : option nat :=
  let z := le_dec l in if z =? 0 then None else Some (Z.to_nat z).

Definition at_off (off n : nat) (l : bytes) : bytes := take n (drop off l).

(** The packed structure in memory order; [links] is its list node. *)
(* src/hab.h:448-468 export_desc *)
Definition export_desc_enc (links : Z * Z) (d : export_desc) : bytes :=
  le_enc 4 (ed_export_id d) ++ le_enc 4 (ed_readonly d) ++ le_enc 8 (ed_import_index d) ++
  ptr_enc (ed_vchan d) ++ ptr_enc (ed_ctx d) ++ ptr_enc (ed_pchan d) ++
  le_enc 4 (ed_vcid_local d) ++ le_enc 4 (ed_vcid_remote d) ++
  le_enc 4 (ed_domid_local d) ++ le_enc 4 (ed_domid_remote d) ++ le_enc 4 (ed_flags d) ++
  le_enc 8 (links.1) ++ le_enc 8 (links.2) ++ le_enc 8 (ed_kva d) ++
  le_enc 4 (ed_payload_count d) ++ ed_payload d.

(* src/hab.h:448-468 export_desc *)
Definition export_desc_dec (l : bytes) : export_desc :=
  Build_export_desc (le_dec (at_off 0 4 l)) (le_dec_i32 (at_off 4 4 l)) (le_dec (at_off 8 8 l))
    (ptr_dec (at_off 16 8 l)) (ptr_dec (at_off 24 8 l)) (ptr_dec (at_off 32 8 l))
    (le_dec_i32 (at_off 40 4 l)) (le_dec_i32 (at_off 44 4 l))
    (le_dec_i32 (at_off 48 4 l)) (le_dec_i32 (at_off 52 4 l)) (le_dec_i32 (at_off 56 4 l))
    (le_dec (at_off 76 8 l)) (le_dec_i32 (at_off 84 4 l)) (drop 88 l).

(** [nregions] of the [compressed_pfns] that the payload starts with. *)
(* src/hab_grantable.h:13-20 compressed_pfns *)
Definition pfn_nregions (payload : bytes) : Z := le_dec_i32 (at_off 8 4 payload).

Lemma export_desc_enc_len links d : zlen (export_desc_enc links d) = 88 + zlen (ed_payload d).
Proof. unfold export_desc_enc, ptr_enc. rewrite !zlen_app, !le_enc_zlen. lia. Qed.

(** ** Compressing *)

(** A table: the first frame, and the regions as (pages, gap to the next one). *)
(* src/hab_grantable.h:13-20 compressed_pfns *)
Record compressed_pfns := {
  cp_first_pfn : Z;
  cp_region : list (Z * Z)
}.

Definition cp_nregions (t : compressed_pfns) : Z := zlen (cp_region t).

(** In memory order: the regions follow the count without padding. *)
(* src/hab_grantable.h:13-20 compressed_pfns *)
Definition pfns_enc (t : compressed_pfns) : bytes :=
  le_enc 8 (cp_first_pfn t) ++ le_enc 4 (cp_nregions t) ++
  concat ((fun r => le_enc 4 (r.1) ++ le_enc 4 (r.2)) <$> cp_region t).

(** The size that is sent for a table of this many regions. *)
(* src/os/linux/hab_mem_linux.c:426-427 habmem_compress_pfns *)
Definition pfns_data_size (t : compressed_pfns) : Z :=
  u32 (sizeof_compressed_pfns + sizeof_region * cp_nregions t).

(** The pages after [prev], which is the last of a run of [size] pages. *)
(* src/os/linux/hab_mem_linux.c:407-423 habmem_compress_pfns *)
Fixpoint own_regions (prev size : Z) (rest : list Z) : list (Z * Z) :=
  match rest with
  | [] => [(size, 0)]
  | p :: rest =>
      if u64 (p - 1) =? prev then own_regions p (size + 1) rest
      else (size, i32 (p - prev - 1)) :: own_regions p 1 rest
  end.

(** The entries of a scatter list after [pre], the last page taken: the gap to
    that page, the first frame, and the regions.  When the list ends early the
    region begun is left zero. *)
(* src/os/linux/hab_mem_linux.c:366-400 habmem_compress_pfns *)
Fixpoint sg_regions (pre : option Z) (sg : list (Z * Z)) (page_offset page_count : Z) :
    Z * Z * list (Z * Z) :=
  match sg with
  | [] => (0, 0, [(0, 0)])
  | (pfn, len) :: sg =>
      let spage_size := Z.shiftr (u32 len) PAGE_SHIFT in
      if spage_size <=? page_offset then sg_regions pre sg (page_offset - spage_size) page_count
      else
        let gap := match pre with Some q => i32 (pfn - q - 1) | None => 0 end in
        let size := i32 (spage_size - page_offset) in
        if page_count <=? size then (gap, u64 (pfn + page_offset), [(page_count, 0)])
        else
          let '(space, _, l) := sg_regions (Some (pfn + (size - 1))) sg 0 (page_count - size) in
          (gap, u64 (pfn + page_offset), (size, space) :: l)
  end.

(** [None] is an attachment that failed.  The pages of a buffer of the driver's
    own are read up to [page_count], whatever the buffer has. *)
(* src/os/linux/hab_mem_linux.c:319-442 habmem_compress_pfns *)
Definition habmem_compress_pfns (buf : dma_buf) (offset page_count : Z) : res (option compressed_pfns) :=
  match buf with
  | DmaForeign None => Ok None
  | DmaForeign (Some sg) =>
      let '(_, first, l) := sg_regions None sg (Z.shiftr (u64 offset) PAGE_SHIFT) page_count in
      Ok (Some (Build_compressed_pfns first l))
  | DmaPages pages =>
      match pages with
      | [] => Fault OutOfBounds
      | p :: rest =>
          if zlen pages <? page_count then Fault OutOfBounds
          else Ok (Some (Build_compressed_pfns p (own_regions p 1 (take (Z.to_nat (page_count - 1)) rest))))
      end
  end.

(** ** Expanding *)

(** Region [i] of the table in a payload. *)
Definition region_at (payload : bytes) (i : Z) : option (Z * Z) :=
  match mem_read payload (12 + sizeof_region * i) sizeof_region with
  | Some b => Some (le_dec_i32 (take 4 b), le_dec_i32 (drop 4 b))
  | None => None
  end.

(** [None]: the table is refused. *)
(* src/os/linux/hab_mem_linux.c:101-126 pages_list_create *)
Fixpoint expand_regions (k : nat) (payload : bytes) (i pfn total count : Z) : res (option (list Z)) :=
  match k with
  | O => Ok (if total =? u64 count then Some [] else None)
  | S k =>
      match region_at payload i with
      | None => Fault OutOfBounds
      | Some (size, space) =>
          if size <=? 0 then Ok None
          else if u64 count <? u64 (total + size) then Ok None
          else
            let? r := expand_regions k payload (i + 1) (u64 (pfn + i32 (size + space))) (u64 (total + size)) count in
            Ok (match r with Some l => Some (seqZ pfn size ++ l) | None => None end)
      end
  end.

Definition first_pfn (payload : bytes) : Z := le_dec (take 8 payload).

(** A received descriptor has its whole table, and a page count that was checked. *)
Definition table_fits (d : export_desc) : bool :=
  (0 <=? pfn_nregions (ed_payload d)) && (12 + sizeof_region * pfn_nregions (ed_payload d) <=? zlen (ed_payload d)) &&
  (0 <=? ed_payload_count d) && (ed_payload_count d <=? MAX_EXP_PAYLOAD_COUNT).

(** ** Mapping an import *)

(* src/include/linux/habmm.h:248-248 HABMM_EXP_MEM_TYPE_DMA *)
Definition HABMM_EXP_MEM_TYPE_DMA : Z := 0x1.
(* src/include/linux/habmm.h:253-253 HABMM_EXPIMP_FLAGS_FD *)
Definition HABMM_EXPIMP_FLAGS_FD : Z := 0x10000.
(* src/include/linux/habmm.h:254-254 HABMM_EXPIMP_FLAGS_DMABUF *)
Definition HABMM_EXPIMP_FLAGS_DMABUF : Z := 0x20000.

Definition flag (flags f : Z) : bool := negb (Z.land flags f =? 0).

Section ops.
Context {HS : Type} `{Platform HS}.
#[local] Abbreviation M := (World.M HS).

(** An outcome of a pure computation. *)
Definition lift {A} (r : res A) : M A := fun w =>
  match r with Ok a => Ok (a, w) | Fault f => Fault f | Blocked => Blocked end.

(** Only a page that is memory as a whole is one. *)
(* src/os/linux/hab_mem_linux.c:44-62 hab_page_is_valid *)
Definition hab_page_is_valid (pfn : Z) : Z :=
  let ret := region_intersects pfn in
  if ret =? 0 then 1 else if ret =? 2 then 0 else 0.

(** [None] stands for an error pointer; the caller does not tell them apart. *)
(* src/os/linux/hab_mem_linux.c:64-144 pages_list_create *)
Definition pages_list_create (export : export_desc) (userflags : Z) : M (option pages_list) :=
  let payload := ed_payload export in
  let pfn := first_pfn payload in
  if negb (pfn_valid pfn) || (hab_page_is_valid pfn =? 0) then ret None
  else
    let! a := kalloc in
    let! b := (match a with None => ret None | Some _ => kalloc end) in
    match b with
    | None => ret None
    | Some b =>
        let! r := lift (expand_regions (Z.to_nat (pfn_nregions payload)) payload 0 pfn 0 (ed_payload_count export)) in
        match r with
        | None => ret None
        | Some pages =>
            ret (Some (Build_pages_list b pages (ed_payload_count export) userflags
              (ed_export_id export) (ed_vcid_remote export) (ed_pchan export) 1 None))
        end
    end.

(* src/os/linux/hab_mem_linux.c:146-152 pages_list_add *)
Definition pages_list_add (pglist : pages_list) : M unit :=
  modify (fun w => set_w_imp_cnt (w_imp_cnt w + 1) (set_w_imp_list (w_imp_list w ++ [pglist]) w)).

(* src/os/linux/hab_mem_linux.c:154-160 pages_list_remove *)
Definition pages_list_remove (a : nat) : M unit :=
  modify (fun w => set_w_imp_cnt (w_imp_cnt w - 1)
    (set_w_imp_list (filter (fun x => pl_addr x <> a) (w_imp_list w)) w)).

(** The page list of a mapped import with this identity. *)
Definition find_pages (a : nat) (l : list pages_list) : option pages_list :=
  match filter (fun x => pl_addr x = a) l with x :: _ => Some x | [] => None end.

Definition upd_pages (a : nat) (f : pages_list -> pages_list) : M unit :=
  modify (fun w => set_w_imp_list
    ((fun x => if decide (pl_addr x = a) then f x else x) <$> w_imp_list w) w).

(* src/os/linux/hab_mem_linux.c:181-184 pages_list_get *)
Definition pages_list_get (a : nat) : M unit :=
  upd_pages a (fun x => set_pl_refcount (pl_refcount x + 1) x).

(** With its last reference the list leaves the driver's, and what it was mapped to goes
    with it. *)
(* src/os/linux/hab_mem_linux.c:162-189 pages_list_put *)
Definition pages_list_put (a : nat) : M unit :=
  let! l := gets w_imp_list in
  match find_pages a l with
  | None => fail UseAfterFree
  | Some x =>
      if pl_refcount x <=? 0 then fail RefUnderflow
      else
        do! upd_pages a (set_pl_refcount (pl_refcount x - 1)) in
        when (pl_refcount x =? 1) (pages_list_remove a)
  end.

(* src/os/linux/hab_mem_linux.c:191-212 pages_list_lookup *)
Definition pages_list_lookup (export_id : Z) (pchan : option nat) (get_pages_list : bool) : M (option nat) :=
  let! l := gets w_imp_list in
  match filter (fun x => pl_export_id x = export_id /\ pl_pchan x = pchan) l with
  | [] => ret None
  | x :: _ => do! when get_pages_list (pages_list_get (pl_addr x)) in ret (Some (pl_addr x))
  end.

(** The dma-buf and the page list behind it. *)
(* src/os/linux/hab_mem_linux.c:926-954 habmem_import_to_dma_buf *)
Definition habmem_import_to_dma_buf (export : export_desc) (userflags : Z) : M (option (Z * nat)) :=
  let! o := pages_list_create export userflags in
  match o with
  | None => ret None
  | Some pglist =>
      do! pages_list_add pglist in
      match dma_buf_export (pl_pages pglist) with
      | None => do! pages_list_put (pl_addr pglist) in ret None
      | Some buf => ret (Some (buf, pl_addr pglist))
      end
  end.

(** The code, and what [param->kva] is set to.  Putting the dma-buf releases the
    page list. *)
(* src/os/linux/hab_mem_linux.c:956-980 habmem_imp_hyp_map *)
Definition habmem_imp_hyp_map (export : export_desc) (flags : Z) (kernel : bool) : M (Z * option Z) :=
  let! o := habmem_import_to_dma_buf export flags in
  match o with
  | None => ret (- EINVAL, None)
  | Some (buf, a) =>
      if kernel then ret (0, Some buf)
      else
        let fd := dma_buf_fd buf in
        if fd <? 0 then do! pages_list_put a in ret (- EINVAL, None)
        else ret (0, Some (u64 fd))
  end.

(** The kernel client's dma-buf is put, which may release it later. *)
(* src/os/linux/hab_mem_linux.c:982-988 habmm_imp_hyp_unmap *)
Definition habmm_imp_hyp_unmap (export : export_desc) (kernel : bool) : Z := 0.

(* src/os/linux/hab_mem_linux.c:995-1008 habmm_imp_hyp_map_check *)
Definition habmm_imp_hyp_map_check (export : export_desc) : M Z :=
  let! o := pages_list_lookup (ed_export_id export) (ed_pchan export) false in
  ret (match o with Some _ => 1 | None => 0 end).

(* src/os/linux/hab_mem_linux.c:670-673 habmem_hyp_revoke *)
Definition habmem_hyp_revoke (payload : bytes) (count : Z) : Z := 0.
End ops.

(** ** Mapped into a process *)

(** The page given to the fault at [address], or none (SIGBUS). *)
(* src/os/linux/hab_mem_linux.c:753-783 hab_map_fault *)
Definition hab_map_fault (pages : list Z) (npages address vm_start vm_pgoff : Z) : res (option Z) :=
  let offset := u64 (Z.shiftl vm_pgoff PAGE_SHIFT) in
  let page_idx := i32 (Z.shiftr (u64 (address - vm_start + offset)) PAGE_SHIFT) in
  if (page_idx <? 0) || (npages <=? page_idx) then Ok None
  else match pages !! Z.to_nat page_idx with Some p => Ok (Some p) | None => Fault OutOfBounds end.

(* src/os/linux/hab_mem_linux.c:808-839 hab_buffer_fault *)
Definition hab_buffer_fault (pages : list Z) (npages address vm_start : Z) : res (option Z) :=
  let page_offset := Z.shiftr (u64 (address - vm_start)) PAGE_SHIFT in
  if npages <? page_offset then Ok None
  else match pages !! Z.to_nat page_offset with Some p => Ok (Some p) | None => Fault OutOfBounds end.

(* src/os/linux/hab_mem_linux.c:855-881 hab_mem_mmap *)
Definition hab_mem_mmap (npages vm_start vm_end : Z) : Z :=
  if u32 (Z.shiftl npages PAGE_SHIFT) <? u64 (vm_end - vm_start) then - EINVAL else 0.

Lemma fill_buf_all bs : fill_buf (zlen bs) bs = bs.
Proof. unfold fill_buf, zlen. rewrite Nat2Z.id. apply take_app_length. Qed.

Lemma fill_buf_len n bs : 0 <= n -> zlen (fill_buf n bs) = n.
Proof.
  intros Hn. unfold fill_buf. apply zlen_take. rewrite zlen_app. pose proof (zlen_nonneg bs).
  unfold zlen in *. rewrite repeat_length. lia.
Qed.

(** ** The importer gets the exporter's pages *)

Definition region_enc (r : Z * Z) : bytes := le_enc 4 (r.1) ++ le_enc 4 (r.2).

Definition region_ok (r : Z * Z) : Prop := is_i32 (r.1) /\ is_i32 (r.2).

(** The expansion as a function of the regions. *)
Fixpoint expand_list (l : list (Z * Z)) (pfn total count : Z) : option (list Z) :=
  match l with
  | [] => if total =? u64 count then Some [] else None
  | (size, space) :: l =>
      if size <=? 0 then None
      else if u64 count <? u64 (total + size) then None
      else
        match expand_list l (u64 (pfn + i32 (size + space))) (u64 (total + size)) count with
        | Some r => Some (seqZ pfn size ++ r)
        | None => None
        end
  end.

Lemma region_at_head pre r post i :
  0 <= i -> zlen pre = 12 + 8 * i -> region_ok r -> region_at (pre ++ region_enc r ++ post) i = Some r.
Proof.
  intros Hi Hpre [H1 H2]. unfold region_at, sizeof_region. pose proof (zlen_nonneg post).
  assert (Hl : zlen (region_enc r) = 8) by (unfold region_enc; by rewrite zlen_app, !le_enc_zlen).
  rewrite mem_read_Some; [|lia|lia|rewrite !zlen_app, Hl, Hpre; lia].
  replace (take (Z.to_nat 8) (drop (Z.to_nat (12 + 8 * i)) (pre ++ region_enc r ++ post))) with (region_enc r).
  2: { rewrite <- Hpre, drop_app_length' by (unfold zlen; lia). by rewrite take_app_length' by (unfold zlen in Hl; lia). }
  unfold region_enc. rewrite take_app_length', drop_app_length' by (by rewrite le_enc_length).
  rewrite !le_dec_enc_i32 by done. by destruct r.
Qed.

Lemma expand_regions_enc l pre post i pfn total count :
  Forall region_ok l -> 0 <= i -> zlen pre = 12 + 8 * i ->
  expand_regions (length l) (pre ++ concat (region_enc <$> l) ++ post) i pfn total count =
    Ok (expand_list l pfn total count).
Proof.
  intros Hl. revert pre i pfn total. induction Hl as [|[size space] l Hr Hl IH]; intros pre i pfn total Hi Hpre; [done|].
  cbn [length expand_regions expand_list fmap list_fmap concat]. rewrite <- (app_assoc (region_enc _)).
  rewrite region_at_head by done. destruct (size <=? 0); [done|].
  destruct (u64 count <? u64 (total + size)); [done|]. rewrite (app_assoc pre).
  rewrite IH; [by destruct (expand_list _ _ _ _)|lia|]. rewrite zlen_app, Hpre. unfold region_enc.
  rewrite zlen_app, !le_enc_zlen. lia.
Qed.

Lemma u64_range z : 0 <= u64 z < 2 ^ 64.
Proof. by apply Z.mod_pos_bound. Qed.

Lemma u64_id z : 0 <= z < 2 ^ 64 -> u64 z = z.
Proof. intros ?. by apply Z.mod_small. Qed.

(** The runs of a list of pages, expanded, are that list. *)
Lemma own_expand rest : forall prev size start total count,
  Forall (fun p => 0 <= p < 2 ^ 31) rest -> 0 <= start -> prev = start + size - 1 -> prev < 2 ^ 31 ->
  1 <= size -> 0 <= total -> total + size + zlen rest = count -> count < 2 ^ 31 ->
  expand_list (own_regions prev size rest) start total count = Some (seqZ start size ++ rest) /\
  Forall region_ok (own_regions prev size rest).
Proof.
  induction rest as [|p rest IH]; intros prev size start total count Hf Hst -> Hp Hs Ht Hc Hcn.
  - unfold zlen in Hc. simpl in *. unfold u64. rewrite !Z.mod_small by lia. destruct (Z.leb_spec size 0); [lia|].
    destruct (Z.ltb_spec count (total + size)); [lia|].
    destruct (Z.eqb_spec (total + size) count); [|lia]. split; [done|].
    constructor; [|done]. by split; [unfold is_i32; simpl; lia|].
  - apply list.Forall_cons in Hf as [Hp0 Hf].
    assert (Hz : zlen (p :: rest) = 1 + zlen rest) by (unfold zlen; simpl length; lia).
    pose proof (zlen_nonneg rest). cbn [own_regions]. destruct (Z.eqb_spec (u64 (p - 1)) (start + size - 1)) as [He|Hne].
    + assert (p = start + size).
      { destruct (decide (p = 0)) as [->|]; [|rewrite u64_id in He; lia].
        change (u64 (0 - 1)) with (2 ^ 64 - 1) in He. lia. }
      subst p. destruct (IH (start + size) (size + 1) start total count) as [-> ?]; [done|lia|lia|lia|lia|lia|lia|lia|].
      split; [|done]. rewrite seqZ_app by lia. by rewrite <- app_assoc.
    + cbn [expand_list]. unfold u64 at 1 2 4. rewrite !Z.mod_small by lia.
      destruct (Z.leb_spec size 0); [lia|]. destruct (Z.ltb_spec count (total + size)); [lia|].
      rewrite (i32_id (p - (start + size - 1) - 1)) by (unfold is_i32; lia).
      replace (size + (p - (start + size - 1) - 1)) with (p - start) by lia.
      rewrite i32_id by (unfold is_i32; lia). replace (start + (p - start)) with p by lia.
      rewrite u64_id by lia.
      destruct (IH p 1 p (total + size) count) as [-> ?]; [done|lia|lia|lia|lia|lia|lia|lia|]. split; [done|].
      constructor; [|done]. by split; unfold is_i32; simpl; lia.
Qed.

(** The pages of an entry, and of a scatter list. *)
Definition entry_pages (e : Z * Z) : Z := Z.shiftr (u32 (e.2)) PAGE_SHIFT.
Definition sg_pages (sg : list (Z * Z)) : list Z := concat ((fun e => seqZ (e.1) (entry_pages e)) <$> sg).

Lemma entry_pages_range e : 0 <= entry_pages e < 2 ^ 20.
Proof.
  unfold entry_pages, PAGE_SHIFT. rewrite Z.shiftr_div_pow2 by lia. pose proof (u32_range (e.2)).
  split; [apply Z.div_pos; lia|]. apply Z.div_lt_upper_bound; lia.
Qed.

Lemma zlen_seqZ a n : 0 <= n -> zlen (seqZ a n) = n.
Proof. intros ?. unfold zlen. rewrite length_seqZ. lia. Qed.

Lemma take_seqZ a m n : 0 <= m <= n -> take (Z.to_nat m) (seqZ a n) = seqZ a m.
Proof.
  intros ?. replace n with (m + (n - m)) by lia. rewrite seqZ_app by lia.
  rewrite take_app_length'; [done|]. rewrite length_seqZ. lia.
Qed.

(** What expands to the first [cnt] pages. *)
Lemma expand_last pfn cnt total count :
  0 <= total -> 1 <= cnt -> total + cnt = count -> count < 2 ^ 31 ->
  expand_list [(cnt, 0)] pfn total count = Some (seqZ pfn cnt).
Proof.
  intros. cbn [expand_list]. rewrite !(u64_id (total + cnt)), (u64_id count) by lia.
  destruct (Z.leb_spec cnt 0); [lia|]. destruct (Z.ltb_spec count (total + cnt)); [lia|].
  destruct (Z.eqb_spec (total + cnt) count); [|lia]. by rewrite app_nil_r.
Qed.

Lemma expand_step size space l pfn first total count r :
  0 <= total -> 1 <= size -> total + size <= count -> count < 2 ^ 31 ->
  0 <= pfn < 2 ^ 31 -> 0 <= first < 2 ^ 31 -> space = first - pfn - size ->
  expand_list l first (total + size) count = Some r ->
  expand_list ((size, space) :: l) pfn total count = Some (seqZ pfn size ++ r).
Proof.
  intros ? ? ? ? ? ? -> Hr. cbn [expand_list]. rewrite !(u64_id (total + size)), (u64_id count) by lia.
  destruct (Z.leb_spec size 0); [lia|]. destruct (Z.ltb_spec count (total + size)); [lia|].
  replace (size + (first - pfn - size)) with (first - pfn) by lia.
  rewrite i32_id by (unfold is_i32; lia). replace (pfn + (first - pfn)) with first by lia.
  rewrite u64_id by lia. by rewrite Hr.
Qed.

Definition sg_ok (e : Z * Z) : Prop := 0 <= e.1 /\ e.1 + entry_pages e < 2 ^ 31.

Lemma sg_expand sg : forall pre cnt total count,
  Forall sg_ok sg -> 1 <= cnt <= zlen (sg_pages sg) -> 0 <= total -> total + cnt = count -> count < 2 ^ 31 ->
  (forall q, pre = Some q -> 0 <= q < 2 ^ 31) ->
  match sg_regions pre sg 0 cnt with
  | (gap, first, l) =>
      (forall q, pre = Some q -> gap = first - q - 1) /\ 0 <= first < 2 ^ 31 /\
      expand_list l first total count = Some (take (Z.to_nat cnt) (sg_pages sg)) /\ Forall region_ok l
  end.
Proof.
  induction sg as [|[pfn len] sg IH]; intros pre cnt total count Hok Hc Ht Hsum Hcn Hpre.
  { unfold sg_pages, zlen in Hc. simpl in Hc. lia. }
  apply list.Forall_cons in Hok as [[Hp1 Hp2] Hok]. simpl in Hp1, Hp2.
  change (sg_pages ((pfn, len) :: sg)) with (seqZ pfn (entry_pages (pfn, len)) ++ sg_pages sg) in *.
  pose proof (entry_pages_range (pfn, len)). cbn [sg_regions].
  change (Z.shiftr (u32 len) PAGE_SHIFT) with (entry_pages (pfn, len)).
  set (n := entry_pages (pfn, len)) in *. rewrite zlen_app, zlen_seqZ in Hc by lia.
  destruct (Z.leb_spec n 0).
  { assert (n = 0) as -> by lia. change (seqZ pfn 0) with (@nil Z). rewrite app_nil_l.
    change (0 - 0) with 0. by apply IH. }
  rewrite Z.sub_0_r, i32_id, Z.add_0_r, (u64_id pfn) by (unfold is_i32; lia).
  assert (Hgap : forall q, pre = Some q ->
    match pre with Some q => i32 (pfn - q - 1) | None => 0 end = pfn - q - 1).
  { intros q ->. specialize (Hpre q eq_refl). apply i32_id. unfold is_i32. lia. }
  destruct (Z.leb_spec cnt n).
  { split; [exact Hgap|]. split; [lia|]. split.
    - rewrite take_app_le by (rewrite length_seqZ; lia). rewrite take_seqZ by lia. apply expand_last; lia.
    - constructor; [|done]. split; unfold is_i32; simpl; lia. }
  specialize (IH (Some (pfn + (n - 1))) (cnt - n) (total + n) count Hok).
  destruct (sg_regions (Some (pfn + (n - 1))) sg 0 (cnt - n)) as [[space first] l].
  destruct IH as (Hsp & Hf & He & Hl); [lia|lia|lia|lia|intros q [= <-]; lia|].
  specialize (Hsp _ eq_refl). split; [exact Hgap|]. split; [lia|]. split.
  - rewrite take_app_ge by (rewrite length_seqZ; lia). rewrite length_seqZ.
    replace (Z.to_nat cnt - Z.to_nat n)%nat with (Z.to_nat (cnt - n)) by lia.
    eapply expand_step; [lia|lia|lia|lia|lia|exact Hf|lia|exact He].
  - constructor; [|done]. split; unfold is_i32; simpl; lia.
Qed.

(** ** Bounds of the two directions *)

Lemma own_regions_len rest : forall prev size, zlen (own_regions prev size rest) <= 1 + zlen rest.
Proof.
  induction rest as [|p rest IH]; intros prev size; [done|]. cbn [own_regions].
  assert (zlen (p :: rest) = 1 + zlen rest) by (unfold zlen; simpl length; lia).
  destruct (_ =? prev); [pose proof (IH p (size + 1)); lia|]. pose proof (IH p 1).
  assert (zlen ((size, i32 (p - prev - 1)) :: own_regions p 1 rest) = 1 + zlen (own_regions p 1 rest))
    by (unfold zlen; simpl length; lia). lia.
Qed.

Lemma sg_regions_len sg : forall pre off cnt, 0 <= off -> 1 <= cnt ->
  zlen ((sg_regions pre sg off cnt).2) <= cnt.
Proof.
  induction sg as [|[pfn len] sg IH]; intros pre off cnt Ho Hc; cbn [sg_regions]; [exact Hc|].
  pose proof (entry_pages_range (pfn, len)). change (Z.shiftr (u32 len) PAGE_SHIFT) with (entry_pages (pfn, len)).
  set (n := entry_pages (pfn, len)) in *. destruct (Z.leb_spec n off); [apply IH; lia|].
  rewrite i32_id by (unfold is_i32; lia). destruct (Z.leb_spec cnt (n - off)); [exact Hc|].
  pose proof (IH (Some (pfn + (n - off - 1))) 0 (cnt - (n - off))).
  destruct (sg_regions _ sg 0 _) as [[space first] l]. simpl snd in *. unfold zlen in *. simpl length. lia.
Qed.

(** The table never has more regions than the space the exporter made for it. *)
Lemma compress_fits buf offset page_count t :
  1 <= page_count -> habmem_compress_pfns buf offset page_count = Ok (Some t) ->
  cp_nregions t <= page_count.
Proof.
  intros Hc. unfold habmem_compress_pfns, cp_nregions. destruct buf as [[|p rest]|[sg|]]; try done.
  - destruct (_ <? _); [done|]. intros [= <-]. simpl. pose proof (own_regions_len (take (Z.to_nat (page_count - 1)) rest) p 1).
    pose proof (length_take rest (Z.to_nat (page_count - 1))). unfold zlen in *. lia.
  - assert (0 <= Z.shiftr (u64 offset) PAGE_SHIFT).
    { apply Z.shiftr_nonneg, u64_range. }
    pose proof (sg_regions_len sg None (Z.shiftr (u64 offset) PAGE_SHIFT) page_count).
    destruct (sg_regions _ _ _ _) as [[gap first] l]. intros [= <-]. simpl in *. lia.
Qed.

Lemma compress_faults buf offset page_count f :
  habmem_compress_pfns buf offset page_count = Fault f ->
  exists pages, buf = DmaPages pages /\ zlen pages < Z.max 1 page_count.
Proof.
  unfold habmem_compress_pfns. destruct buf as [[|p rest]|[sg|]]; try done.
  - intros _. exists []. split; [done|]. unfold zlen. simpl. lia.
  - destruct (Z.ltb_spec (zlen (p :: rest)) page_count); [|done]. intros _. eexists. split; [done|]. lia.
  - by destruct (sg_regions _ _ _ _) as [[? ?] ?].
Qed.

(** A table that is all there is read without leaving the payload. *)
Lemma expand_regions_total k : forall payload i pfn total count,
  0 <= i -> 12 + 8 * (i + Z.of_nat k) <= zlen payload ->
  exists r, expand_regions k payload i pfn total count = Ok r.
Proof.
  induction k as [|k IH]; intros payload i pfn total count Hi Hl; [by eexists|].
  cbn [expand_regions]. unfold region_at, sizeof_region. rewrite mem_read_Some by lia.
  destruct (_ <=? 0); [by eexists|]. destruct (_ <? _); [by eexists|].
  match goal with |- context [expand_regions k payload (i + 1) ?a ?b count] =>
    destruct (IH payload (i + 1) a b count) as [r Hr]; [lia|lia|] end.
  rewrite Hr. by eexists.
Qed.

Lemma le_dec_i32_range l : is_i32 (le_dec_i32 l).
Proof. apply i32_range. Qed.

(** What it expands to has the number of pages that was announced. *)
Lemma expand_regions_len k : forall payload i pfn total count l,
  0 <= count < 2 ^ 31 -> 0 <= total <= count ->
  expand_regions k payload i pfn total count = Ok (Some l) -> total + zlen l = count.
Proof.
  induction k as [|k IH]; intros payload i pfn total count l Hc Ht; cbn [expand_regions].
  - rewrite u64_id by lia. destruct (Z.eqb_spec total count); [|done]. intros [= <-]. unfold zlen. simpl. lia.
  - unfold region_at. destruct (mem_read _ _ _) as [b|]; [|done].
    pose proof (le_dec_i32_range (take 4 b)) as [_ Hs]. set (size := le_dec_i32 (take 4 b)) in *.
    destruct (Z.leb_spec size 0); [done|]. rewrite (u64_id count), (u64_id (total + size)) by (lia || unfold is_i32 in *; lia).
    destruct (Z.ltb_spec count (total + size)); [done|].
    destruct (expand_regions k _ _ _ _ _) as [[r|]| |] eqn:Hr; try done. intros [= <-].
    apply IH in Hr; [|lia|lia]. rewrite zlen_app, zlen_seqZ by lia. lia.
Qed.

(** The frames behind a buffer, in order; they are frames of a machine whose
    memory has fewer than [2 ^ 31] pages. *)
Definition buf_pages (buf : dma_buf) : list Z :=
  match buf with DmaPages l => l | DmaForeign (Some sg) => sg_pages sg | DmaForeign None => [] end.

Definition buf_ok (buf : dma_buf) : Prop :=
  match buf with
  | DmaPages l => Forall (fun p => 0 <= p < 2 ^ 31) l
  | DmaForeign (Some sg) => Forall sg_ok sg
  | DmaForeign None => True
  end.

Lemma compress_expand buf page_count :
  buf_ok buf -> 1 <= page_count <= zlen (buf_pages buf) -> page_count < 2 ^ 31 ->
  exists t, habmem_compress_pfns buf 0 page_count = Ok (Some t) /\ 0 <= cp_first_pfn t < 2 ^ 31 /\
    Forall region_ok (cp_region t) /\
    expand_list (cp_region t) (cp_first_pfn t) 0 page_count = Some (take (Z.to_nat page_count) (buf_pages buf)).
Proof.
  intros Hok Hc Hcn. destruct buf as [[|p rest]|[sg|]]; simpl in *; try (unfold zlen in Hc; simpl in Hc; lia).
  - apply list.Forall_cons in Hok as [Hp Hok]. destruct (Z.ltb_spec (zlen (p :: rest)) page_count); [lia|].
    set (l := take (Z.to_nat (page_count - 1)) rest).
    assert (Hl : zlen l = page_count - 1).
    { unfold l, zlen in *. rewrite length_take. simpl length in *. lia. }
    destruct (own_expand l p 1 p 0 page_count) as [He Hr]; try lia; [by apply Forall_take|].
    eexists. split; [done|]. simpl. split; [done|]. split; [done|]. rewrite He.
    destruct (Z.to_nat page_count) as [|n] eqn:Hn; [lia|]. cbn [take]. do 2 f_equal. unfold l. f_equal. lia.
  - change (Z.shiftr (u64 0) PAGE_SHIFT) with 0. pose proof (sg_expand sg None page_count 0 page_count Hok) as He.
    destruct (sg_regions None sg 0 page_count) as [[gap first] l].
    destruct He as (_ & Hf & He & Hr); [lia|lia|lia|lia|done|].
    eexists. split; [done|]. split; [exact Hf|]. split; [exact Hr|exact He].
Qed.



(** a buffer exported from an offset inside its first chunk is shared wrongly
    when it spans two chunks: of the frames 101 and 500, the importer maps 101 and
    501, which was never shared. *)
Lemma compress_offset_wrong :
  exists t, habmem_compress_pfns (DmaForeign (Some [(100, 8192); (500, 4096)])) 4096 2 = Ok (Some t) /\
    drop 1 (take 3 (sg_pages [(100, 8192); (500, 4096)])) = [101; 500] /\
    let payload := pfns_enc t in
    expand_regions (Z.to_nat (pfn_nregions payload)) payload 0 (first_pfn payload) 0 2 = Ok (Some [101; 501]).
Proof. eexists. split; [vm_compute; reflexivity|]. split; [reflexivity|]. vm_compute. reflexivity. Qed.

(** Inside a mapping that [mmap] accepted, every page fault finds its page,
    although the fault handler alone lets one index too many through. *)
Theorem mmap_guards_fault (pages : list Z) (vm_start vm_end address : Z) :
  hab_mem_mmap (zlen pages) vm_start vm_end = 0 ->
  0 <= vm_start -> vm_start <= address < vm_end -> vm_end < 2 ^ 64 ->
  exists p, hab_buffer_fault pages (zlen pages) address vm_start = Ok (Some p) /\
    pages !! Z.to_nat (Z.shiftr (address - vm_start) PAGE_SHIFT) = Some p.
Proof.
  intros Hm Hs Ha He. unfold hab_mem_mmap in Hm. rewrite (u64_id (vm_end - vm_start)) in Hm by lia.
  destruct (Z.ltb_spec (u32 (Z.shiftl (zlen pages) PAGE_SHIFT)) (vm_end - vm_start)) as [|Hsz]; [done|].
  pose proof (zlen_nonneg pages). unfold PAGE_SHIFT in *. rewrite Z.shiftl_mul_pow2 in Hsz by lia.
  assert (Hu : u32 (zlen pages * 2 ^ 12) <= zlen pages * 2 ^ 12) by (apply Z.mod_le; lia).
  unfold hab_buffer_fault, PAGE_SHIFT. rewrite u64_id by lia. rewrite !Z.shiftr_div_pow2 by lia.
  assert (Hi : 0 <= (address - vm_start) / 2 ^ 12 < zlen pages).
  { split; [apply Z.div_pos; lia|]. apply Z.div_lt_upper_bound; lia. }
  destruct (Z.ltb_spec (zlen pages) ((address - vm_start) / 2 ^ 12)); [lia|].
  destruct (lookup_lt_is_Some_2 pages (Z.to_nat ((address - vm_start) / 2 ^ 12))) as [q Hq].
  { unfold zlen in *. lia. }
  exists q. by rewrite Hq.
Qed.

Lemma mmap_guards_fault_witness :
  exists p, hab_buffer_fault [70; 71] (zlen [70; 71]) 0x5000 0x4000 = Ok (Some p) /\ p = 71 /\
  hab_buffer_fault [70; 71] 2 0x6000 0x4000 = Fault OutOfBounds.
Proof.
  destruct (mmap_guards_fault [70; 71] 0x4000 0x6000 0x5000) as (p & Hp & Hl); [reflexivity|lia|lia|lia|].
  exists p. split; [exact Hp|]. split; [|reflexivity]. vm_compute in Hl. congruence.
Defined.
