(* ===== verification/Invariant.v ===== *)
(** The well-formedness invariant of the driver's objects, with the references
    that running threads hold, and the steps that keep it: the frames, which
    change only what it does not look at, and the references taken and dropped. *)
From S2P Require Import Prelude Header World Logic Memory.

(** ** The references of the program *)

(** What running threads hold, each pointer once per reference: virtual
    channels, physical channels, contexts, and the exports still being set up
    with the channel they are published on.  [h_o] are the virtual channels being
    opened, each by the thread that will give it to its context; [h_x] is one in
    the middle of its destruction. *)
Record held := {
  h_v : list nat;
  h_p : list nat;
  h_c : list nat;
  h_e : list (nat * nat);
  h_o : list (nat * nat);
  h_x : option nat
}.

Definition held_v v h := Build_held (v :: h_v h) (h_p h) (h_c h) (h_e h) (h_o h) (h_x h).
Definition held_p p h := Build_held (h_v h) (p :: h_p h) (h_c h) (h_e h) (h_o h) (h_x h).
Definition held_c c h := Build_held (h_v h) (h_p h) (c :: h_c h) (h_e h) (h_o h) (h_x h).
Definition held_e e p h := Build_held (h_v h) (h_p h) (h_c h) ((e, p) :: h_e h) (h_o h) (h_x h).
Definition held_o v c h := Build_held (h_v h) (h_p h) (h_c h) (h_e h) ((v, c) :: h_o h) (h_x h).
Definition dying v h := Build_held (h_v h) (h_p h) (h_c h) (h_e h) (h_o h) (Some v).

(** How often a pointer occurs. *)
Fixpoint occ (x : nat) (l : list nat) : Z :=
  match l with
  | [] => 0
  | y :: l => (if decide (y = x) then 1 else 0) + occ x l
  end.

Lemma occ_nonneg x l : 0 <= occ x l.
Proof. induction l; simpl; [done|]. case_decide; lia. Qed.

Lemma occ_cons_same x l : occ x (x :: l) = 1 + occ x l.
Proof. simpl. by rewrite decide_True. Qed.

Lemma occ_pos x l : x ∈ l -> 1 <= occ x l.
Proof.
  induction l as [|y l IH]; [by intros ?%elem_of_nil|].
  intros [->|Hx]%elem_of_cons; simpl.
  - rewrite decide_True by done. pose proof (occ_nonneg y l). lia.
  - specialize (IH Hx). case_decide; lia.
Qed.

Lemma occ_zero x l : occ x l <= 0 -> x ∉ l.
Proof. intros Ho Hx%occ_pos. lia. Qed.

Lemma occ_notin x l : x ∉ l -> occ x l = 0.
Proof.
  induction l as [|y l IH]; [done|]. intros [? ?]%not_elem_of_cons. simpl.
  rewrite decide_False by congruence. by apply IH.
Qed.

Lemma occ_perm x l l' : l ≡ₚ l' -> occ x l = occ x l'.
Proof. induction 1; simpl; lia. Qed.

(** The open requests waiting on any device that refer to [p]. *)
Definition openq_count (p : nat) (l : list hab_open_node) : Z :=
  zlen (filter (fun n => rq_pchan (on_request n) = Some p) l).

Fixpoint openq_refs (p : nat) (devs : list hab_device) : Z :=
  match devs with
  | [] => 0
  | d :: ds => openq_count p (dv_openq_list d) + openq_refs p ds
  end.

Lemma openq_count_nonneg p l : 0 <= openq_count p l.
Proof. unfold openq_count. apply zlen_nonneg. Qed.

Lemma openq_count_app p l l' : openq_count p (l ++ l') = openq_count p l + openq_count p l'.
Proof. unfold openq_count. by rewrite list.filter_app, zlen_app. Qed.

Lemma openq_count_single p n :
  openq_count p [n] = if decide (rq_pchan (on_request n) = Some p) then 1 else 0.
Proof. unfold openq_count. rewrite filter_cons. by case_decide. Qed.

Lemma openq_refs_nonneg p devs : 0 <= openq_refs p devs.
Proof.
  induction devs as [|d ds IH]; simpl; [done|].
  pose proof (openq_count_nonneg p (dv_openq_list d)). lia.
Qed.

Lemma openq_refs_insert p devs d dv dv' :
  devs !! d = Some dv ->
  openq_refs p (<[d := dv']> devs) =
  openq_refs p devs - openq_count p (dv_openq_list dv) + openq_count p (dv_openq_list dv').
Proof.
  revert d. induction devs as [|x ds IH]; intros [|d] Hd; simpl in *; try done.
  - injection Hd as ->. lia.
  - rewrite (IH _ Hd). lia.
Qed.

(** ** The invariant *)

(** What each object relies on, object by object.  A reference count is at
    least the number of references the state shows: the list membership, the
    pointers of other objects, and those that threads hold.  (It may be larger:
    some paths of the code lose a reference, none may lose a count.) *)
Section invariant.
Context {HS : Type}.
Implicit Types (w : world HS) (h : held).

(** The virtual channels that are not being destroyed. *)
Definition vchans_of h w : gmap nat virtual_channel :=
  match h_x h with Some x => delete x (w_vchans w) | None => w_vchans w end.

(** The descriptor's payload has the bytes that a send of it copies. *)
Definition payload_fits (ex : export_desc_super) : bool :=
  (0 <=? es_payload_size ex) && (es_payload_size ex + 1 <=? zlen (ed_payload (es_exp ex))).

(** A virtual channel belongs to a live physical channel, which lists it and
    finds it by its id, and to a live context. *)
Definition vchan_ok h w (v : nat) (vc : virtual_channel) : Prop :=
  exists pc c cx,
    w_pchans w !! vc_pchan vc = Some pc /\
    v ∈ pc_vchannels pc /\
    pc_vchan_idr pc !! HAB_VCID_GET_ID (vc_id vc) = Some v /\
    vc_ctx vc = Some c /\
    w_ctxs w !! c = Some cx /\
    (if decide (v ∈ cx_vchannels cx) then 1 else 0) + occ v (h_v h) + occ v (h_o h).*1
      <= vc_refcount vc /\
    forallb msg_ok (vc_rx_list vc) = true.

(** A physical channel is registered with its device, its lists name live
    objects of its own, and the registration itself counts as a reference. *)
Definition pchan_ok h w (p : nat) (pc : physical_channel) : Prop :=
  (exists dv, w_devs w !! pc_habdev pc = Some dv /\ p ∈ dv_pchannels dv) /\
  is_Some (w_hyp w !! p) /\
  NoDup (pc_vchannels pc) /\
  pc_vcnt pc = zlen (pc_vchannels pc) /\
  (forall v, v ∈ pc_vchannels pc ->
    exists vc, vchans_of h w !! v = Some vc /\ vc_pchan vc = p) /\
  (forall i v, pc_vchan_idr pc !! i = Some v ->
    exists vc, w_vchans w !! v = Some vc /\ vc_pchan vc = p /\
      HAB_VCID_GET_ID (vc_id vc) = i /\ 1 <= i) /\
  (forall i e, pc_expid_idr pc !! i = Some e ->
    exists ex, w_exps w !! e = Some ex /\ ed_export_id (es_exp ex) = i /\
      (ed_pchan (es_exp ex) = None \/ ed_pchan (es_exp ex) = Some p) /\
      (es_exp_state ex = HAB_EXP_SUCCESS -> ed_pchan (es_exp ex) = Some p) /\
      payload_fits ex = true) /\
  1 + count (fun vc => bool_decide (vc_pchan vc = p)) (vchans_of h w) +
    openq_refs p (w_devs w) + occ p (h_p h) <= pc_refcount pc.

(** An export that a context or the reclaim list owns: published under its id,
    complete, and with the one reference that [habmem_add_export] gave it. *)
Definition export_owned w (e : nat) (ex : export_desc_super) : Prop :=
  exists p pc,
    ed_pchan (es_exp ex) = Some p /\
    w_pchans w !! p = Some pc /\
    pc_expid_idr pc !! ed_export_id (es_exp ex) = Some e /\
    es_exp_state ex = HAB_EXP_SUCCESS /\
    es_platform_data ex = true /\
    es_refcount ex = 1.

(** A context lists live virtual channels of its own, owns its exports and the
    nodes of its import tree, and is counted by its virtual channels. *)
Definition ctx_ok h w (c : nat) (cx : uhab_context) : Prop :=
  c ∈ w_uctx_list w /\
  NoDup (cx_vchannels cx) /\
  cx_vcnt cx = zlen (cx_vchannels cx) /\
  (forall v, v ∈ cx_vchannels cx ->
    exists vc, vchans_of h w !! v = Some vc /\ vc_ctx vc = Some c) /\
  NoDup (cx_exp_whse cx) /\
  (forall e, e ∈ cx_exp_whse cx ->
    exists ex, w_exps w !! e = Some ex /\ export_owned w e ex /\
      ed_ctx (es_exp ex) = Some c) /\
  (forall k e, cx_imp_whse cx !! k = Some e ->
    exists ex, w_imps w !! e = Some ex /\
      k.1 = ed_export_id (es_exp ex) /\
      ed_pchan (es_exp ex) = Some k.2 /\
      is_Some (w_pchans w !! k.2)) /\
  count (fun vc => bool_decide (vc_ctx vc = Some c)) (vchans_of h w) + occ c (h_c h)
    <= cx_refcount cx.

(** A device lists live physical channels of its own; every open request that
    waits on it came over a live one. *)
Definition dev_ok w (d : nat) (dv : hab_device) : Prop :=
  NoDup (dv_pchannels dv) /\
  dv_pchan_cnt dv = zlen (dv_pchannels dv) /\
  (forall p, p ∈ dv_pchannels dv ->
    exists pc, w_pchans w !! p = Some pc /\ pc_habdev pc = d) /\
  Forall (fun n => exists p, rq_pchan (on_request n) = Some p /\ is_Some (w_pchans w !! p))
    (dv_openq_list dv).

(** The driver's own lists and what threads hold. *)
Definition driver_ok h w : Prop :=
  NoDup (w_uctx_list w) /\
  (forall c, c ∈ w_uctx_list w -> is_Some (w_ctxs w !! c)) /\
  w_ctx_cnt w = zlen (w_uctx_list w) /\
  NoDup (w_reclaim_list w) /\
  (forall e, e ∈ w_reclaim_list w ->
    exists ex, w_exps w !! e = Some ex /\ export_owned w e ex /\
      forall c cx, w_ctxs w !! c = Some cx -> e ∉ cx_exp_whse cx) /\
  (forall v, v ∈ h_v h -> is_Some (vchans_of h w !! v)) /\
  (forall p, p ∈ h_p h -> is_Some (w_pchans w !! p)) /\
  (forall c, c ∈ h_c h -> is_Some (w_ctxs w !! c)) /\
  NoDup ((h_e h).*1) /\
  (forall e p, (e, p) ∈ h_e h -> exists ex pc, w_exps w !! e = Some ex /\
    w_pchans w !! p = Some pc /\
    pc_expid_idr pc !! ed_export_id (es_exp ex) = Some e /\
    es_exp_state ex = HAB_EXP_EXPORTING /\
    es_platform_data ex = true /\
    es_refcount ex = 1) /\
  (forall c cx k c' cx' k' e,
    w_ctxs w !! c = Some cx -> w_ctxs w !! c' = Some cx' ->
    cx_imp_whse cx !! k = Some e -> cx_imp_whse cx' !! k' = Some e -> c = c').

(** A virtual channel being opened is live, has its context, and is in no
    context's list yet. *)
Definition open_ok h w : Prop :=
  NoDup (h_o h).*1 /\
  forall v c, (v, c) ∈ h_o h ->
    (exists vc, vchans_of h w !! v = Some vc /\ vc_ctx vc = Some c) /\
    forall a ax, w_ctxs w !! a = Some ax -> v ∉ cx_vchannels ax.

(** The page lists of mapped imports are at addresses that were given out. *)
Definition pages_below w : Prop := Forall (fun x => (pl_addr x < w_next w)%nat) (w_imp_list w).

(** Of the two protocols for memory. *)
Definition known_proto (pc : physical_channel) : bool := (pc_mem_proto pc =? 0) || (pc_mem_proto pc =? 1).

(** An export names a context whose address was given out. *)
Definition ctxs_below w : Prop := forall e ex c, w_exps w !! e = Some ex -> ed_ctx (es_exp ex) = Some c -> (c < w_next w)%nat.

(** The addresses not yet given out, the devices, which are fixed, the received
    descriptors, whose tables were checked, and the protocols. *)
Definition fresh_ok w : Prop :=
  (forall a, (w_next w <= a)%nat ->
    w_pchans w !! a = None /\ w_vchans w !! a = None /\ w_ctxs w !! a = None /\
    w_exps w !! a = None /\ w_imps w !! a = None) /\
  (dv_id <$> w_devs w = hab_device_ids /\ pages_below w) /\
  (forall e ex, w_imps w !! e = Some ex -> table_fits (es_exp ex) = true) /\
  (forall p pc, w_pchans w !! p = Some pc -> known_proto pc = true) /\ ctxs_below w.

(** Export ids are those of [idr_alloc_cyclic], an export has one; a successful export that is still
    published belongs to the warehouse of its context, as long as somebody refers
    to that. *)
Definition listed_ok (ps : gmap nat physical_channel) (cs : gmap nat uhab_context)
    (es : gmap nat export_desc_super) : Prop :=
  forall p pc i e, ps !! p = Some pc -> pc_expid_idr pc !! i = Some e ->
    1 <= i < 2 ^ 31 /\
    (forall q qc j, ps !! q = Some qc -> pc_expid_idr qc !! j = Some e -> q = p) /\
    forall ex c cx, es !! e = Some ex ->
      es_exp_state ex = HAB_EXP_SUCCESS -> ed_ctx (es_exp ex) = Some c ->
      cs !! c = Some cx -> 0 < cx_refcount cx -> e ∈ cx_exp_whse cx.

Record wf h w : Prop := {
  wf_v : forall v vc, vchans_of h w !! v = Some vc -> vchan_ok h w v vc;
  wf_p : forall p pc, w_pchans w !! p = Some pc -> pchan_ok h w p pc;
  wf_c : forall c cx, w_ctxs w !! c = Some cx -> ctx_ok h w c cx;
  wf_d : forall d dv, w_devs w !! d = Some dv -> dev_ok w d dv;
  wf_drv : driver_ok h w;
  wf_fresh : fresh_ok w;
  wf_opening : open_ok h w;
  wf_listed : listed_ok (w_pchans w) (w_ctxs w) (w_exps w)
}.

(** *** Frame *)

(** The fields of each object that the invariant looks at. *)
Definition v_view (vc : virtual_channel) := 
  (vc_refcount vc, vc_pchan vc, vc_ctx vc, vc_id vc, forallb msg_ok (vc_rx_list vc)).
Definition p_view (pc : physical_channel) :=
  (pc_refcount pc, pc_habdev pc, pc_vchan_idr pc, pc_expid_idr pc, pc_vchannels pc, pc_vcnt pc,
   known_proto pc).
Definition c_view (cx : uhab_context) :=
  (cx_refcount cx, cx_vchannels cx, cx_vcnt cx, cx_exp_whse cx, cx_imp_whse cx).
Definition e_view (ex : export_desc_super) :=
  (es_refcount ex, es_platform_data ex, es_exp_state ex, ed_export_id (es_exp ex),
   ed_ctx (es_exp ex), ed_pchan (es_exp ex), payload_fits ex).
Definition i_view (ex : export_desc_super) :=
  (ed_export_id (es_exp ex), ed_pchan (es_exp ex), table_fits (es_exp ex)).
Definition d_view (dv : hab_device) :=
  (dv_pchannels dv, dv_pchan_cnt dv, (fun n => rq_pchan (on_request n)) <$> dv_openq_list dv,
   dv_id dv).

Definition same_view {A B} (f : A -> B) (m m' : gmap nat A) : Prop :=
  forall k, f <$> m' !! k = f <$> m !! k.

Lemma same_view_refl {A B} (f : A -> B) m : same_view f m m.
Proof. done. Qed.

Lemma same_view_insert {A B} (f : A -> B) m k x y :
  m !! k = Some x -> f y = f x -> same_view f m (<[k := y]> m).
Proof.
  intros Hk Hf i. rewrite lookup_insert. case_decide; [|done].
  subst. rewrite Hk. simpl. by rewrite Hf.
Qed.

Lemma same_view_Some {A B} (f : A -> B) m m' k x :
  same_view f m m' -> m !! k = Some x -> exists y, m' !! k = Some y /\ f y = f x.
Proof.
  intros Hs Hk. specialize (Hs k). rewrite Hk in Hs.
  destruct (m' !! k) as [y|]; [|done]. injection Hs as Hs. eauto.
Qed.

Lemma same_view_sym {A B} (f : A -> B) m m' : same_view f m m' -> same_view f m' m.
Proof. intros Hs k. by rewrite Hs. Qed.

Lemma count_same_view {A B} (f : A -> B) (g : B -> bool) m m' :
  same_view f m m' -> count (fun x => g (f x)) m' = count (fun x => g (f x)) m.
Proof.
  assert (Hf : forall m0 : gmap nat A, count (fun x => g (f x)) m0 = count g (f <$> m0)).
  { intros m0. unfold count. rewrite map_filter_fmap, map_size_fmap. done. }
  intros Hs. rewrite !Hf. f_equal. apply map_eq. intros k.
  by rewrite !lookup_fmap, Hs.
Qed.

(** [w'] differs from [w] only where the invariant does not look. *)
Record frame w w' : Prop := {
  fr_v : same_view v_view (w_vchans w) (w_vchans w');
  fr_p : same_view p_view (w_pchans w) (w_pchans w');
  fr_c : same_view c_view (w_ctxs w) (w_ctxs w');
  fr_e : same_view e_view (w_exps w) (w_exps w');
  fr_i : same_view i_view (w_imps w) (w_imps w');
  fr_d : d_view <$> w_devs w' = d_view <$> w_devs w;
  fr_hyp : forall p, is_Some (w_hyp w !! p) -> is_Some (w_hyp w' !! p);
  fr_uctx : w_uctx_list w' = w_uctx_list w;
  fr_cnt : w_ctx_cnt w' = w_ctx_cnt w;
  fr_reclaim : w_reclaim_list w' = w_reclaim_list w;
  fr_next : (w_next w <= w_next w')%nat;
  fr_pages : pages_below w -> pages_below w'
}.

Lemma frame_refl w : frame w w.
Proof. constructor; try done; lia. Qed.

Lemma frame_trans w1 w2 w3 : frame w1 w2 -> frame w2 w3 -> frame w1 w3.
Proof.
  intros [] []. constructor; try congruence; try (by auto); try lia.
  all: intros k; etrans; eauto.
Qed.

Lemma frame_dev w w' d dv :
  frame w w' -> w_devs w !! d = Some dv ->
  exists dv', w_devs w' !! d = Some dv' /\ d_view dv' = d_view dv.
Proof.
  intros Hf Hd. pose proof (f_equal (lookup d) (fr_d _ _ Hf)) as He.
  rewrite !list_lookup_fmap, Hd in He.
  destruct (w_devs w' !! d) as [dv'|]; [|done]. apply (inj Some) in He. eauto.
Qed.

Lemma frame_dev_inv w w' d dv :
  frame w w' -> w_devs w' !! d = Some dv ->
  exists dv', w_devs w !! d = Some dv' /\ d_view dv = d_view dv'.
Proof.
  intros Hf Hd. pose proof (f_equal (lookup d) (fr_d _ _ Hf)) as He.
  rewrite !list_lookup_fmap, Hd in He.
  destruct (w_devs w !! d) as [dv'|]; [|done]. apply (inj Some) in He. eauto.
Qed.

Lemma frame_openq w w' p : frame w w' -> openq_refs p (w_devs w') = openq_refs p (w_devs w).
Proof.
  intros Hf. pose proof (fr_d _ _ Hf) as He. revert He.
  generalize (w_devs w) as l, (w_devs w') as l'.
  induction l as [|d l IH]; intros [|d' l'] He; try done. simpl in *.
  injection He as _ _ Hq _ Hl. rewrite (IH _ Hl). f_equal.
  revert Hq. generalize (dv_openq_list d) as q, (dv_openq_list d') as q'.
  induction q as [|n q IHq]; intros [|n' q'] Hq; try done. simpl in Hq.
  injection Hq as Hn Hq. specialize (IHq _ Hq). unfold openq_count in *.
  rewrite !filter_cons, Hn. case_decide; [|done].
  unfold zlen in *. simpl length. lia.
Qed.

Lemma frame_vchans_of h w w' : frame w w' -> same_view v_view (vchans_of h w) (vchans_of h w').
Proof.
  intros Hf k. unfold vchans_of. destruct (h_x h) as [x|]; [|apply Hf].
  rewrite !lookup_delete. case_decide; [done|]. apply Hf.
Qed.

Lemma frame_count_v h w w' (g : Z * nat * option nat * Z * bool -> bool) :
  frame w w' ->
  count (fun x => g (v_view x)) (vchans_of h w') = count (fun x => g (v_view x)) (vchans_of h w).
Proof. intros Hf. by apply count_same_view, frame_vchans_of. Qed.

(** Follow a live object through a frame, with the fields that stay. *)
Ltac frame_to Hf :=
  repeat match goal with
  | H : vchans_of ?h ?w !! ?v = Some ?x |- _ =>
      match type of Hf with frame w _ =>
        let y := fresh "vc" in let He := fresh "Hview" in
        destruct (same_view_Some _ _ _ _ _ (frame_vchans_of h _ _ Hf) H) as (y & ? & He);
        unfold v_view in He; injection He as ?????; clear H
      end
  | H : w_pchans ?w !! ?v = Some ?x |- _ =>
      match type of Hf with frame w _ =>
        let y := fresh "pc" in let He := fresh "Hview" in
        destruct (same_view_Some _ _ _ _ _ (fr_p _ _ Hf) H) as (y & ? & He);
        unfold p_view in He; injection He as ???????; clear H
      end
  | H : w_ctxs ?w !! ?v = Some ?x |- _ =>
      match type of Hf with frame w _ =>
        let y := fresh "cx" in let He := fresh "Hview" in
        destruct (same_view_Some _ _ _ _ _ (fr_c _ _ Hf) H) as (y & ? & He);
        unfold c_view in He; injection He as ?????; clear H
      end
  | H : w_exps ?w !! ?v = Some ?x |- _ =>
      match type of Hf with frame w _ =>
        let y := fresh "ex" in let He := fresh "Hview" in
        destruct (same_view_Some _ _ _ _ _ (fr_e _ _ Hf) H) as (y & ? & He);
        unfold e_view in He; injection He as ???????; clear H
      end
  | H : w_imps ?w !! ?v = Some ?x |- _ =>
      match type of Hf with frame w _ =>
        let y := fresh "ex" in let He := fresh "Hview" in
        destruct (same_view_Some _ _ _ _ _ (fr_i _ _ Hf) H) as (y & ? & He);
        unfold i_view in He; injection He as ??; clear H
      end
  | H : is_Some _ |- _ => destruct H as [??]
  end.

(** Close a goal that only mentions fields that stayed. *)
Ltac by_view :=
  try congruence;
  repeat match goal with H : ?f ?y = ?f ?x |- _ =>
    match goal with |- context [f y] => rewrite H; clear H end end;
  try done; try lia; auto.

Lemma export_owned_frame w w' e ex ex' :
  frame w w' -> e_view ex' = e_view ex -> export_owned w e ex -> export_owned w' e ex'.
Proof.
  intros Hf Hv (p & pc & ? & ? & ? & ? & ? & ?). unfold e_view in Hv. injection Hv as ???????.
  frame_to Hf. exists p, pc0. repeat split; congruence.
Qed.

Lemma vchan_ok_frame h w w' v vc vc' :
  frame w w' -> v_view vc' = v_view vc -> vchan_ok h w v vc -> vchan_ok h w' v vc'.
Proof.
  intros Hf Hv (pc & c & cx & ? & ? & ? & ? & ? & ? & ?).
  unfold v_view in Hv. injection Hv as ?????. frame_to Hf.
  exists pc0, c, cx0. repeat split; by_view.
Qed.

Lemma pchan_ok_frame h w w' p pc pc' :
  frame w w' -> p_view pc' = p_view pc -> pchan_ok h w p pc -> pchan_ok h w' p pc'.
Proof.
  intros Hf Hv ((dv & Hdv & Hp) & Hhyp & Hnd & Hcnt & Hv1 & Hidr & Hexp & Hrc).
  unfold p_view in Hv. injection Hv as E1 E2 E3 E4 E5 E6 _. unfold pchan_ok.
  rewrite E1, E2, E3, E4, E5, E6.
  destruct (frame_dev _ _ _ _ Hf Hdv) as (dv' & ? & Hdd). injection Hdd as Hdd _ _ _.
  split; [exists dv'; by rewrite Hdd|]. split; [by apply Hf|].
  do 2 (split; [done|]). split_and!.
  - intros v Hv. destruct (Hv1 v Hv) as (vc & ? & ?). frame_to Hf. eexists; split; [done|congruence].
  - intros i v Hi. destruct (Hidr i v Hi) as (vc & Hl & ? & ? & ?).
    destruct (same_view_Some _ _ _ _ _ (fr_v _ _ Hf) Hl) as (vc' & ? & Hvc).
    injection Hvc as ?????. exists vc'. split_and!; by_view.
  - intros i e Hi. destruct (Hexp i e Hi) as (ex & ? & ? & ? & ? & ?). frame_to Hf.
    eexists; split; [done|]. split_and!; by_view.
  - rewrite (frame_openq _ _ _ Hf).
    pose proof (frame_count_v h _ _ (fun t => bool_decide (t.1.1.1.2 = p)) Hf) as Hc.
    unfold v_view in Hc. simpl in Hc. rewrite Hc. done.
Qed.

Lemma ctx_ok_frame h w w' c cx cx' :
  frame w w' -> c_view cx' = c_view cx -> ctx_ok h w c cx -> ctx_ok h w' c cx'.
Proof.
  intros Hf Hv (Hu & Hnd & Hcnt & Hvs & Hnd' & Hex & Him & Hrc).
  unfold c_view in Hv. injection Hv as E1 E2 E3 E4 E5. unfold ctx_ok.
  rewrite E1, E2, E3, E4, E5, (fr_uctx _ _ Hf).
  split_and!; try done.
  - intros v Hv. destruct (Hvs v Hv) as (vc & ? & ?). frame_to Hf. eexists; split; [done|congruence].
  - intros e He. destruct (Hex e He) as (ex & Hl & ? & ?).
    destruct (same_view_Some _ _ _ _ _ (fr_e _ _ Hf) Hl) as (ex' & ? & Hee).
    exists ex'. split; [done|]. split; [by eapply export_owned_frame|].
    unfold e_view in Hee. injection Hee as ???????. congruence.
  - intros k e Hk. destruct (Him k e Hk) as (ex & ? & ? & ? & ?). frame_to Hf.
    eexists; split; [done|]. split_and!; [congruence|congruence|eauto].
  - pose proof (frame_count_v h _ _ (fun t => bool_decide (t.1.1.2 = Some c)) Hf) as Hc.
    unfold v_view in Hc. simpl in Hc. rewrite Hc. done.
Qed.

Lemma dev_ok_frame w w' d dv dv' :
  frame w w' -> d_view dv' = d_view dv -> dev_ok w d dv -> dev_ok w' d dv'.
Proof.
  intros Hf Hv (Hnd & Hcnt & Hps & Hq). unfold d_view in Hv. injection Hv as E1 E2 E3 _.
  unfold dev_ok. rewrite E1, E2. split_and!; try done.
  - intros p Hp. destruct (Hps p Hp) as (pc & ? & ?). frame_to Hf. eexists; split; [done|congruence].
  - apply Forall_fmap with (f := fun n => rq_pchan (on_request n))
      (P := fun o => exists p, o = Some p /\ is_Some (w_pchans w' !! p)).
    rewrite E3. apply Forall_fmap. eapply Forall_impl; [|exact Hq].
    intros n (p & ? & ?). frame_to Hf. exists p. split; [done|eauto].
Qed.

Lemma driver_ok_frame h w w' : frame w w' -> driver_ok h w -> driver_ok h w'.
Proof.
  intros Hf (Hnd & Hu & Hcnt & Hndr & Hr & Hv & Hp & Hc & Hnde & He & Hi).
  pose proof Hf as [Fv Fp Fc Fe Fi _ _ Fu Fn Fr _].
  unfold driver_ok. rewrite Fu, Fn, Fr. split_and!; try done.
  - intros c Hin. destruct (Hu c Hin). frame_to Hf. eauto.
  - intros e Hin. destruct (Hr e Hin) as (ex & Hl & Ho & Hn).
    destruct (same_view_Some _ _ _ _ _ Fe Hl) as (ex' & ? & ?).
    exists ex'. split; [done|]. split; [by eapply export_owned_frame|].
    intros c cx Hcx. destruct (same_view_Some _ _ _ _ _ (same_view_sym _ _ _ Fc) Hcx)
      as (cx' & Hcx' & Hview). injection Hview as _ _ _ Hw _. rewrite <- Hw. eauto.
  - intros v Hin. destruct (Hv v Hin). frame_to Hf. eauto.
  - intros p Hin. destruct (Hp p Hin). frame_to Hf. eauto.
  - intros c Hin. destruct (Hc c Hin). frame_to Hf. eauto.
  - intros e p Hin. destruct (He e p Hin) as (ex & pc & ? & ? & ? & ? & ? & ?). frame_to Hf.
    eexists _, _. split; [done|]. split; [done|]. split_and!; congruence.
  - intros c cx k c' cx' k' e H1 H2 Hk Hk'.
    destruct (same_view_Some _ _ _ _ _ (same_view_sym _ _ _ Fc) H1) as (y1 & ? & V1).
    destruct (same_view_Some _ _ _ _ _ (same_view_sym _ _ _ Fc) H2) as (y2 & ? & V2).
    injection V1 as _ _ _ _ V1. injection V2 as _ _ _ _ V2.
    rewrite <- V1 in Hk. rewrite <- V2 in Hk'. eauto.
Qed.

Lemma same_view_None {A B} (f : A -> B) m m' (k : nat) :
  same_view f m m' -> m !! k = None -> m' !! k = None.
Proof. intros Hs Hk. specialize (Hs k). rewrite Hk in Hs. by destruct (m' !! k). Qed.

Lemma ctxs_below_mono w w' :
  same_view e_view (w_exps w) (w_exps w') -> (w_next w <= w_next w')%nat -> ctxs_below w -> ctxs_below w'.
Proof.
  intros He Hn Hcb e ex' c Hl Hc. destruct (same_view_Some _ _ _ _ _ (same_view_sym _ _ _ He) Hl) as (ex & Hex & Hv).
  injection Hv as ???????. assert (c < w_next w)%nat by (eapply (Hcb e ex); [done|congruence]). lia.
Qed.

Lemma ctxs_below_insert w w' e ex :
  w_exps w' = <[e := ex]> (w_exps w) -> w_next w' = w_next w ->
  (forall c, ed_ctx (es_exp ex) = Some c -> (c < w_next w)%nat) -> ctxs_below w -> ctxs_below w'.
Proof.
  intros He Hn Hex Hcb k kx c. rewrite He, Hn. intros [[<- <-]|[_ Hk]]%lookup_insert_Some; [apply Hex|by eapply Hcb].
Qed.

Lemma fresh_ctx_lt w c cx : fresh_ok w -> w_ctxs w !! c = Some cx -> (c < w_next w)%nat.
Proof.
  intros [Hfr _] Hc. destruct (decide (w_next w <= c)%nat) as [Hle|]; [|lia].
  destruct (Hfr c Hle) as (_ & _ & Hn & _). congruence.
Qed.

Lemma fresh_ok_frame w w' : frame w w' -> fresh_ok w -> fresh_ok w'.
Proof.
  intros [? Hp ? Hexs Hi Hd _ _ _ _ Hn Hpg] (Hfr & [Hids Hbelow] & Himp & Hpr & Hcb). split; [|split; [|split; [|split]]]; cycle 1.
  { split; [|by apply Hpg]. rewrite <- Hids. apply (f_equal (fmap snd)) in Hd. by rewrite <- !list_fmap_compose in Hd. }
  { intros e ex' He. destruct (same_view_Some _ _ _ _ _ (same_view_sym _ _ _ Hi) He) as (ex & Hex & Hview).
    injection Hview as _ _ Hview. rewrite <- Hview. by eapply Himp. }
  { intros p pc' Hpc. destruct (same_view_Some _ _ _ _ _ (same_view_sym _ _ _ Hp) Hpc) as (pc & ? & Hview).
    injection Hview as _ _ _ _ _ _ <-. by eapply Hpr. }
  { by eapply ctxs_below_mono. }
  intros a Ha. destruct (Hfr a) as (? & ? & ? & ? & ?); [lia|]. split_and!; by eapply same_view_None.
Qed.

Lemma open_ok_mono h h' w w' :
  h_o h' = h_o h ->
  (forall v vc, vchans_of h w !! v = Some vc ->
    exists vc', vchans_of h' w' !! v = Some vc' /\ vc_ctx vc' = vc_ctx vc) ->
  (forall a ax, w_ctxs w' !! a = Some ax -> exists ay, w_ctxs w !! a = Some ay /\
    forall v, v ∈ cx_vchannels ax -> v ∈ cx_vchannels ay) ->
  open_ok h w -> open_ok h' w'.
Proof.
  intros Eo Hv Hc [Hnd Ho]. split; rewrite Eo; [done|]. intros v c Hin.
  destruct (Ho v c Hin) as [(vc & Hvc & Hx) Hn]. split.
  - destruct (Hv v vc Hvc) as (vc' & ? & ?). exists vc'. split; [done|congruence].
  - intros a ax Hax Hin'. destruct (Hc a ax Hax) as (ay & Hay & Hsub). by eapply Hn, Hsub.
Qed.

Lemma open_ok_frame h w w' : frame w w' -> open_ok h w -> open_ok h w'.
Proof.
  intros Hf. apply open_ok_mono; [done|..].
  - intros v vc Hv. frame_to Hf. eexists; split; [done|congruence].
  - intros a ax Hax. destruct (same_view_Some _ _ _ _ _ (same_view_sym _ _ _ (fr_c _ _ Hf)) Hax)
      as (ay & ? & Hview). injection Hview as _ Hview _ _ _. exists ay. split; [done|]. by rewrite Hview.
Qed.

Lemma listed_ok_mono ps cs es ps' cs' es' :
  (forall p pc' i e, ps' !! p = Some pc' -> pc_expid_idr pc' !! i = Some e ->
    exists pc, ps !! p = Some pc /\ pc_expid_idr pc !! i = Some e) ->
  (forall c cx', cs' !! c = Some cx' -> 0 < cx_refcount cx' -> exists cx, cs !! c = Some cx /\
    0 < cx_refcount cx /\ forall e, e ∈ cx_exp_whse cx -> e ∈ cx_exp_whse cx') ->
  (forall e ex' c, es' !! e = Some ex' -> es_exp_state ex' = HAB_EXP_SUCCESS ->
    ed_ctx (es_exp ex') = Some c -> exists ex, es !! e = Some ex /\
    es_exp_state ex = HAB_EXP_SUCCESS /\ ed_ctx (es_exp ex) = Some c) ->
  listed_ok ps cs es -> listed_ok ps' cs' es'.
Proof.
  intros Hp Hc He Hl p pc' i e Hpc Hi. destruct (Hp _ _ _ _ Hpc Hi) as (pc & Hpc0 & Hi0).
  destruct (Hl p pc i e Hpc0 Hi0) as (Hrng & Hun & Hl'). split; [done|]. split.
  { intros q qc' j Hq Hj. destruct (Hp _ _ _ _ Hq Hj) as (qc & ? & ?). by eapply Hun. }
  intros ex' c cx' Hex Hst Hctx Hcx Hr.
  destruct (He _ _ _ Hex Hst Hctx) as (ex & ? & ? & ?).
  destruct (Hc _ _ Hcx Hr) as (cx & ? & ? & Hsub). by eapply Hsub, Hl'.
Qed.

Lemma listed_ok_pchan ps cs es p pc pc' :
  ps !! p = Some pc ->
  (forall i e, pc_expid_idr pc' !! i = Some e -> pc_expid_idr pc !! i = Some e) ->
  listed_ok ps cs es -> listed_ok (<[p := pc']> ps) cs es.
Proof.
  intros Hpc Hi. apply listed_ok_mono; [|by eauto 10..].
  intros q qc i e. rewrite lookup_insert. case_decide; [|by eauto].
  intros [= <-] ?. subst q. exists pc. split; [done|by apply Hi].
Qed.

Lemma listed_ok_ctx ps cs es c cx cx' :
  cs !! c = Some cx ->
  (0 < cx_refcount cx' -> 0 < cx_refcount cx /\ forall e, e ∈ cx_exp_whse cx -> e ∈ cx_exp_whse cx') ->
  listed_ok ps cs es -> listed_ok ps (<[c := cx']> cs) es.
Proof.
  intros Hcx Hr. apply listed_ok_mono; [by eauto| |by eauto 10].
  intros a ax. rewrite lookup_insert. case_decide; [|by eauto 10].
  intros [= <-] Hpos. subst a. exists cx. split; [done|by apply Hr].
Qed.

Lemma listed_ok_frame w w' :
  frame w w' -> listed_ok (w_pchans w) (w_ctxs w) (w_exps w) ->
  listed_ok (w_pchans w') (w_ctxs w') (w_exps w').
Proof.
  intros Hf. apply listed_ok_mono.
  - intros p pc' i e Hpc Hi.
    destruct (same_view_Some _ _ _ _ _ (same_view_sym _ _ _ (fr_p _ _ Hf)) Hpc) as (pc & ? & Hview).
    injection Hview as _ _ _ Hview _ _. exists pc. by rewrite Hview.
  - intros c cx' Hcx Hr.
    destruct (same_view_Some _ _ _ _ _ (same_view_sym _ _ _ (fr_c _ _ Hf)) Hcx) as (cx & ? & Hview).
    injection Hview as V1 _ _ V2 _. exists cx. rewrite V1, V2. by split_and!.
  - intros e ex' c Hex Hst Hctx.
    destruct (same_view_Some _ _ _ _ _ (same_view_sym _ _ _ (fr_e _ _ Hf)) Hex) as (ex & ? & Hview).
    injection Hview as _ _ V1 _ V2 _ _. exists ex. rewrite V1, V2. by split_and!.
Qed.

(** A frame keeps the invariant. *)
Lemma wf_frame h w w' : frame w w' -> wf h w -> wf h w'.
Proof.
  intros Hf [Hv Hp Hc Hd Hdrv Hfr Hop Hli]. constructor.
  - intros v vc Hl.
    destruct (same_view_Some _ _ _ _ _ (same_view_sym _ _ _ (frame_vchans_of h _ _ Hf)) Hl)
      as (? & ? & ?). eapply vchan_ok_frame; [done|by symmetry|auto].
  - intros p pc Hl.
    destruct (same_view_Some _ _ _ _ _ (same_view_sym _ _ _ (fr_p _ _ Hf)) Hl) as (? & ? & ?).
    eapply pchan_ok_frame; [done|by symmetry|auto].
  - intros c cx Hl.
    destruct (same_view_Some _ _ _ _ _ (same_view_sym _ _ _ (fr_c _ _ Hf)) Hl) as (? & ? & ?).
    eapply ctx_ok_frame; [done|by symmetry|auto].
  - intros d dv Hl. destruct (frame_dev_inv _ _ _ _ Hf Hl) as (? & ? & ?).
    eapply dev_ok_frame; eauto.
  - by eapply driver_ok_frame.
  - by eapply fresh_ok_frame.
  - by eapply open_ok_frame.
  - by eapply listed_ok_frame.
Qed.

(** *** Steps that are frames *)

Lemma frame_log l w : frame w (set_w_log l w).
Proof. constructor; try done. Qed.
Lemma frame_alloc l w : frame w (set_w_alloc l w).
Proof. constructor; try done. Qed.
Lemma frame_next l w : frame w (set_w_next (S (w_next w)) (set_w_alloc l w)).
Proof.
  constructor; try done; [simpl; lia|]. intros Hb. eapply Forall_impl; [|exact Hb]. simpl. lia.
Qed.
Lemma frame_pages l n w :
  pages_below (set_w_imp_list l w) -> frame w (set_w_imp_cnt n (set_w_imp_list l w)).
Proof. by constructor. Qed.
Lemma frame_open_id n w : frame w (set_w_open_id n w).
Proof. constructor; try done. Qed.
Lemma frame_loopback_be n w : frame w (set_w_loopback_be n w).
Proof. constructor; try done. Qed.

Lemma frame_vchan v vc vc' w :
  w_vchans w !! v = Some vc -> v_view vc' = v_view vc ->
  frame w (set_w_vchans (<[v := vc']> (w_vchans w)) w).
Proof. intros. constructor; try done. by eapply same_view_insert. Qed.
Lemma frame_pchan p pc pc' w :
  w_pchans w !! p = Some pc -> p_view pc' = p_view pc ->
  frame w (set_w_pchans (<[p := pc']> (w_pchans w)) w).
Proof. intros. constructor; try done. by eapply same_view_insert. Qed.
Lemma wf_known h w p pc : wf h w -> w_pchans w !! p = Some pc -> known_proto pc = true.
Proof. intros Hwf. by apply (proj1 (proj2 (proj2 (proj2 (wf_fresh _ _ Hwf))))). Qed.
Lemma frame_proto h p pc (b : bool) w :
  wf h w -> w_pchans w !! p = Some pc ->
  frame w (set_w_pchans (<[p := set_pc_mem_proto (if b then 0 else 1) pc]> (w_pchans w)) w).
Proof.
  intros Hwf Hp. eapply frame_pchan; [done|]. unfold p_view. f_equal. rewrite (wf_known h w p pc) by done.
  by destruct b.
Qed.
Lemma frame_ctx c cx cx' w :
  w_ctxs w !! c = Some cx -> c_view cx' = c_view cx ->
  frame w (set_w_ctxs (<[c := cx']> (w_ctxs w)) w).
Proof. intros. constructor; try done. by eapply same_view_insert. Qed.
Lemma frame_exp e ex ex' w :
  w_exps w !! e = Some ex -> e_view ex' = e_view ex ->
  frame w (set_w_exps (<[e := ex']> (w_exps w)) w).
Proof. intros. constructor; try done. by eapply same_view_insert. Qed.
Lemma frame_imp e ex ex' w :
  w_imps w !! e = Some ex -> i_view ex' = i_view ex ->
  frame w (set_w_imps (<[e := ex']> (w_imps w)) w).
Proof. intros. constructor; try done. by eapply same_view_insert. Qed.
Lemma frame_hyp p hs w : frame w (set_w_hyp (<[p := hs]> (w_hyp w)) w).
Proof.
  constructor; try done. intros q Hq. simpl. rewrite lookup_insert. by case_decide.
Qed.

(** *** References taken and dropped *)

Lemma occ_held_v v u h : occ u (h_v (held_v v h)) = (if decide (v = u) then 1 else 0) + occ u (h_v h).
Proof. done. Qed.

Lemma vchans_of_insert h w v vc' :
  h_x h <> Some v ->
  vchans_of h (set_w_vchans (<[v := vc']> (w_vchans w)) w) = <[v := vc']> (vchans_of h w).
Proof.
  intros Hx. unfold vchans_of. destruct (h_x h) as [x|]; [|done]. simpl.
  rewrite delete_insert_ne; [done|congruence].
Qed.

Lemma vchans_of_lookup h w v vc :
  vchans_of h w !! v = Some vc -> w_vchans w !! v = Some vc /\ h_x h <> Some v.
Proof.
  unfold vchans_of. destruct (h_x h) as [x|]; [|done].
  intros [? ?]%lookup_delete_Some. split; congruence.
Qed.

Lemma vchans_of_ext h h' w : h_x h' = h_x h -> vchans_of h' w = vchans_of h w.
Proof. unfold vchans_of. by intros ->. Qed.

(** A virtual channel's count moves by [n], and so do the references held. *)
Lemma wf_vchan_refs h h' w v vc vc' :
  wf h w -> vchans_of h w !! v = Some vc ->
  vc_pchan vc' = vc_pchan vc -> vc_ctx vc' = vc_ctx vc -> vc_id vc' = vc_id vc ->
  occ v (h_v h') - vc_refcount vc' <= occ v (h_v h) - vc_refcount vc ->
  (forall u, u <> v -> occ u (h_v h') = occ u (h_v h)) ->
  (forall u, u ∈ h_v h' -> u ∈ h_v h \/ u = v) ->
  (forallb msg_ok (vc_rx_list vc) = true -> forallb msg_ok (vc_rx_list vc') = true) ->
  h_p h' = h_p h -> h_c h' = h_c h -> h_e h' = h_e h -> h_x h' = h_x h -> h_o h' = h_o h ->
  wf h' (set_w_vchans (<[v := vc']> (w_vchans w)) w).
Proof.
  intros [Hv Hp Hc Hd Hdrv Hfr Hop Hli] Hl Ep Ec Ei Hocc Hoth Hin Hm E1 E2 E3 E4 E5.
  destruct (vchans_of_lookup _ _ _ _ Hl) as [_ Hx].
  assert (Hvs : vchans_of h' (set_w_vchans (<[v := vc']> (w_vchans w)) w) =
    <[v := vc']> (vchans_of h w)).
  { by rewrite (vchans_of_ext h h'), vchans_of_insert. }
  assert (Hcount : forall P : virtual_channel -> bool, P vc' = P vc ->
    count P (<[v := vc']> (vchans_of h w)) = count P (vchans_of h w)).
  { intros P HP. rewrite (count_insert_Some _ _ _ _ _ Hl), HP. lia. }
  assert (Hkeep : forall u uc, vchans_of h w !! u = Some uc -> exists uc',
    <[v := vc']> (vchans_of h w) !! u = Some uc' /\ vc_pchan uc' = vc_pchan uc /\
    vc_ctx uc' = vc_ctx uc /\ vc_id uc' = vc_id uc).
  { intros u uc Hu. rewrite lookup_insert. case_decide; [|eauto].
    subst u. rewrite Hl in Hu. injection Hu as <-. eauto. }
  assert (Hkeep' : forall u uc, w_vchans w !! u = Some uc -> exists uc',
    <[v := vc']> (w_vchans w) !! u = Some uc' /\ vc_pchan uc' = vc_pchan uc /\
    vc_id uc' = vc_id uc).
  { intros u uc Hu. rewrite lookup_insert. case_decide; [|eauto].
    subst u. apply vchans_of_lookup in Hl as [Hl _]. rewrite Hl in Hu. injection Hu as <-. eauto. }
  constructor; rewrite ?Hvs; simpl.
  - intros u uc. simpl. rewrite lookup_insert. case_decide as Hu.
    + subst u. intros [= <-]. destruct (Hv v vc Hl) as (pc & c & cx & ? & ? & ? & ? & ? & ? & ?).
      exists pc, c, cx. rewrite Ep, Ec, Ei, E5. split_and!; try done; [lia|auto].
    + intros Huc. destruct (Hv u uc Huc) as (pc & c & cx & ? & ? & ? & ? & ? & ? & ?).
      exists pc, c, cx. split_and!; try done. rewrite Hoth, E5; [done|congruence].
  - intros p pc Hpc. destruct (Hp p pc Hpc) as (? & ? & ? & ? & H5 & H6 & ? & Hr).
    unfold pchan_ok. rewrite Hvs. split_and!; try done.
    + intros u Hu. destruct (H5 u Hu) as (uc & Huc & ?).
      destruct (Hkeep _ _ Huc) as (uc' & ? & ? & ? & ?). eexists; split; [done|congruence].
    + intros j u Hj. destruct (H6 j u Hj) as (uc & Huc & ? & ? & ?).
      destruct (Hkeep' _ _ Huc) as (uc' & ? & ? & ?). eexists; split; [done|].
      split_and!; congruence.
    + simpl. rewrite Hcount, E1 by (by rewrite Ep). done.
  - intros c cx Hcx. destruct (Hc c cx Hcx) as (? & ? & ? & H4 & ? & ? & ? & Hr).
    unfold ctx_ok. rewrite Hvs. split_and!; try done.
    + intros u Hu. destruct (H4 u Hu) as (uc & Huc & ?).
      destruct (Hkeep _ _ Huc) as (uc' & ? & ? & ? & ?). eexists; split; [done|congruence].
    + simpl. rewrite Hcount, E2 by (by rewrite Ec). done.
  - apply Hd.
  - destruct Hdrv as (? & ? & ? & ? & ? & Hhv & ? & ? & ? & ? & ?).
    unfold driver_ok. rewrite Hvs, E1, E2, E3. split_and!; try done.
    intros u Hu. rewrite lookup_insert. case_decide; [done|].
    destruct (Hin u Hu) as [|]; [auto|congruence].
  - split; [|apply Hfr]. intros a Ha. destruct (proj1 Hfr a Ha) as (? & ? & ? & ? & ?). split_and!; try done. simpl.
    apply vchans_of_lookup in Hl as [Hl _]. rewrite lookup_insert_ne; [done|congruence].
  - apply (open_ok_mono h h' w); [done| |by eauto|done]. intros u uc Hu. rewrite Hvs.
    destruct (Hkeep _ _ Hu) as (uc' & ? & _ & ? & _). by exists uc'.
  - exact Hli.
Qed.

Lemma known_pchan w p pc pc' q qc :
  fresh_ok w -> w_pchans w !! p = Some pc -> known_proto pc' = known_proto pc ->
  <[p := pc']> (w_pchans w) !! q = Some qc -> known_proto qc = true.
Proof.
  intros (_ & _ & _ & Hk & _) Hl Hp. rewrite lookup_insert. case_decide; [|by apply Hk].
  intros [= <-]. rewrite Hp. by eapply Hk.
Qed.

Lemma fresh_pchan w p pc pc' :
  fresh_ok w -> w_pchans w !! p = Some pc -> known_proto pc' = known_proto pc ->
  fresh_ok (set_w_pchans (<[p := pc']> (w_pchans w)) w).
Proof.
  intros Hfr Hl Hp. split; [|split; [apply Hfr|split; [apply Hfr|split; [intros q qc; by eapply known_pchan|apply Hfr]]]].
  intros a Ha. destruct (proj1 Hfr a Ha) as (? & ? & ? & ? & ?). split_and!; try done. simpl.
  rewrite lookup_insert_ne; [done|congruence].
Qed.

(** Liveness and ownership survive a replaced physical channel. *)
Lemma export_owned_pchan w p pc pc' e ex :
  w_pchans w !! p = Some pc -> pc_expid_idr pc' = pc_expid_idr pc ->
  export_owned w e ex -> export_owned (set_w_pchans (<[p := pc']> (w_pchans w)) w) e ex.
Proof.
  intros Hl Hi (q & qc & ? & Hq & ? & ? & ? & ?).
  exists q, (if decide (p = q) then pc' else qc). simpl. rewrite lookup_insert.
  case_decide; [|by split_and!].
  subst q. assert (qc = pc) as -> by congruence. by rewrite Hi.
Qed.

Lemma wf_pchan_refs h h' w p pc pc' :
  wf h w -> w_pchans w !! p = Some pc ->
  pc_habdev pc' = pc_habdev pc -> pc_vchan_idr pc' = pc_vchan_idr pc ->
  pc_expid_idr pc' = pc_expid_idr pc -> pc_vchannels pc' = pc_vchannels pc ->
  pc_vcnt pc' = pc_vcnt pc -> pc_mem_proto pc' = pc_mem_proto pc ->
  occ p (h_p h') - pc_refcount pc' <= occ p (h_p h) - pc_refcount pc ->
  (forall q, q <> p -> occ q (h_p h') = occ q (h_p h)) ->
  (forall q, q ∈ h_p h' -> q ∈ h_p h \/ q = p) ->
  h_v h' = h_v h -> h_c h' = h_c h -> h_e h' = h_e h -> h_x h' = h_x h -> h_o h' = h_o h ->
  wf h' (set_w_pchans (<[p := pc']> (w_pchans w)) w).
Proof.
  intros [Hv Hp Hc Hd Hdrv Hfr Hop Hli] Hl P1 P2 P3 P4 P5 P6 Hocc Hoth Hin E1 E2 E3 E4 E5.
  assert (Hkeep : forall q qc, w_pchans w !! q = Some qc -> exists qc',
    <[p := pc']> (w_pchans w) !! q = Some qc' /\ pc_habdev qc' = pc_habdev qc /\
    pc_vchan_idr qc' = pc_vchan_idr qc /\ pc_expid_idr qc' = pc_expid_idr qc /\
    pc_vchannels qc' = pc_vchannels qc).
  { intros q qc Hq. rewrite lookup_insert. case_decide; [|by eauto 10].
    subst q. rewrite Hl in Hq. injection Hq as <-. eauto 10. }
  assert (Hsome : forall q, is_Some (w_pchans w !! q) ->
    is_Some (<[p := pc']> (w_pchans w) !! q)).
  { intros q [qc Hq]. destruct (Hkeep _ _ Hq) as (? & ? & _). eauto. }
  assert (Hvs : vchans_of h' (set_w_pchans (<[p := pc']> (w_pchans w)) w) = vchans_of h w)
    by exact (vchans_of_ext h h' w E4).
  constructor; rewrite ?Hvs; simpl.
  - intros u uc Huc. destruct (Hv u uc Huc) as (pc0 & c & cx & Hq & ? & ? & ? & ? & ? & ?).
    destruct (Hkeep _ _ Hq) as (qc' & ? & ? & Q2 & ? & Q4).
    exists qc', c, cx. rewrite Q2, Q4, E1, E5. by split_and!.
  - intros q qc. rewrite lookup_insert. case_decide as Hq.
    + subst q. intros [= <-]. destruct (Hp p pc Hl) as (? & ? & ? & ? & ? & ? & ? & ?).
      unfold pchan_ok. rewrite Hvs. simpl. rewrite P1, P2, P3, P4, P5. split_and!; try done. lia.
    + intros Hqc. destruct (Hp q qc Hqc) as (? & ? & ? & ? & ? & ? & ? & ?).
      unfold pchan_ok. rewrite Hvs, Hoth by congruence. by split_and!.
  - intros c cx Hcx. destruct (Hc c cx Hcx) as (? & ? & ? & ? & ? & He & Hi & ?).
    unfold ctx_ok. rewrite Hvs, E2. split_and!; try done.
    + intros e Hin'. destruct (He e Hin') as (ex & ? & ? & ?). exists ex.
      split_and!; try done. by eapply export_owned_pchan.
    + intros k e Hk. destruct (Hi k e Hk) as (ex & ? & ? & ? & ?). exists ex.
      split_and!; try done. by apply Hsome.
  - intros d dv Hdv. destruct (Hd d dv Hdv) as (? & ? & H3 & H4). split_and!; try done.
    + intros q Hq. destruct (H3 q Hq) as (qc & Hqc & ?).
      destruct (Hkeep _ _ Hqc) as (qc' & ? & ? & _). eexists; split; [done|congruence].
    + eapply Forall_impl; [|exact H4]. intros n (q & ? & ?). exists q. split; [done|by apply Hsome].
  - destruct Hdrv as (? & ? & ? & ? & Hr & ? & Hhp & ? & ? & He & ?).
    unfold driver_ok. rewrite Hvs, E1, E2, E3. split_and!; try done.
    + intros e Hin'. destruct (Hr e Hin') as (ex & ? & ? & ?). exists ex.
      split_and!; try done. by eapply export_owned_pchan.
    + intros q Hq. destruct (Hin q Hq) as [?| ->]; [by apply Hsome, Hhp|].
      apply Hsome. eauto.
    + intros e q Hin'. destruct (He e q Hin') as (ex & qc & ? & Hqc & ? & ? & ? & ?).
      destruct (Hkeep _ _ Hqc) as (qc' & ? & ? & ? & ? & ?). exists ex, qc'.
      split_and!; try done; congruence.
  - eapply fresh_pchan; [exact Hfr|exact Hl|]. unfold known_proto. by rewrite P6.
  - apply (open_ok_mono h h' w); [done|rewrite Hvs; by eauto|by eauto|done].
  - eapply listed_ok_pchan; [exact Hl| |exact Hli]. by rewrite P3.
Qed.

(** The lists of the context may also shrink. *)
Lemma wf_ctx_refs h h' w c cx cx' :
  wf h w -> w_ctxs w !! c = Some cx ->
  cx_vchannels cx' = cx_vchannels cx -> cx_vcnt cx' = cx_vcnt cx ->
  (NoDup (cx_exp_whse cx) -> NoDup (cx_exp_whse cx')) ->
  (forall e, e ∈ cx_exp_whse cx' -> e ∈ cx_exp_whse cx) ->
  (forall k e, cx_imp_whse cx' !! k = Some e -> cx_imp_whse cx !! k = Some e) ->
  (0 < cx_refcount cx' -> 0 < cx_refcount cx /\ forall e, e ∈ cx_exp_whse cx -> e ∈ cx_exp_whse cx') ->
  occ c (h_c h') - cx_refcount cx' <= occ c (h_c h) - cx_refcount cx ->
  (forall a, a <> c -> occ a (h_c h') = occ a (h_c h)) ->
  (forall a, a ∈ h_c h' -> a ∈ h_c h \/ a = c) ->
  h_v h' = h_v h -> h_p h' = h_p h -> h_e h' = h_e h -> h_x h' = h_x h -> h_o h' = h_o h ->
  wf h' (set_w_ctxs (<[c := cx']> (w_ctxs w)) w).
Proof.
  intros [Hv Hp Hc Hd Hdrv Hfr Hop Hli] Hl C1 C2 C3 C3' C4 C5 Hocc Hoth Hin E1 E2 E3 E4 E5.
  assert (Hsome : forall a, is_Some (w_ctxs w !! a) -> is_Some (<[c := cx']> (w_ctxs w) !! a)).
  { intros a Ha. rewrite lookup_insert. by case_decide. }
  assert (Hback : forall a ax, <[c := cx']> (w_ctxs w) !! a = Some ax -> exists ay,
    w_ctxs w !! a = Some ay /\ (forall e, e ∈ cx_exp_whse ax -> e ∈ cx_exp_whse ay) /\
    (forall k e, cx_imp_whse ax !! k = Some e -> cx_imp_whse ay !! k = Some e)).
  { intros a ax. rewrite lookup_insert. case_decide; [|by eauto].
    intros [= <-]. subst a. eauto. }
  assert (Hvs : vchans_of h' (set_w_ctxs (<[c := cx']> (w_ctxs w)) w) = vchans_of h w)
    by exact (vchans_of_ext h h' w E4).
  constructor; rewrite ?Hvs; simpl.
  - intros u uc Huc. destruct (Hv u uc Huc) as (pc0 & a & ax & ? & ? & ? & ? & Ha & ? & ?).
    exists pc0, a, (if decide (c = a) then cx' else ax). simpl. rewrite lookup_insert, E1, E5.
    split_and!; try done; destruct (decide (c = a)); try done.
    subst a. replace ax with cx in * by congruence. by rewrite C1.
  - intros p pc Hpc. destruct (Hp p pc Hpc) as (? & ? & ? & ? & ? & ? & ? & ?).
    unfold pchan_ok. rewrite Hvs, E2. by split_and!.
  - intros a ax. rewrite lookup_insert. case_decide as Ha.
    + subst a. intros [= <-]. destruct (Hc c cx Hl) as (? & ? & ? & ? & ? & ? & ? & ?).
      unfold ctx_ok. rewrite Hvs. simpl. rewrite C1, C2. split_and!; try done; try (by eauto). lia.
    + intros Hax. destruct (Hc a ax Hax) as (? & ? & ? & ? & ? & ? & ? & ?).
      unfold ctx_ok. rewrite Hvs, Hoth by congruence. by split_and!.
  - apply Hd.
  - destruct Hdrv as (? & Hu & ? & ? & Hr & ? & ? & Hhc & ? & ? & Hi).
    unfold driver_ok. rewrite Hvs. simpl. rewrite E1, E2, E3. split_and!; try done; try (by eauto).
    + intros e He. destruct (Hr e He) as (ex & ? & ? & Hn). exists ex. split_and!; try done.
      intros a ax Hax. destruct (Hback _ _ Hax) as (ay & ? & Hsub & _). intros Hin'. by eapply Hn, Hsub.
    + intros a Ha. destruct (Hin a Ha) as [?| ->]; [by eauto|]. apply Hsome. eauto.
    + intros a ax k b bx k' e G1 G2 Hk Hk'.
      destruct (Hback _ _ G1) as (ay & ? & _ & ?). destruct (Hback _ _ G2) as (bz & ? & _ & ?).
      eapply (Hi a ay k b bz k' e); eauto.
  - split; [|apply Hfr]. intros a Ha. destruct (proj1 Hfr a Ha) as (? & ? & ? & ? & ?). split_and!; try done. simpl.
    rewrite lookup_insert_ne; [done|congruence].
  - apply (open_ok_mono h h' w); [done|rewrite Hvs; by eauto| |done].
    intros a ax. simpl. rewrite lookup_insert. case_decide; [|by eauto].
    intros [= <-]. subst a. exists cx. rewrite C1. by split.
  - by eapply listed_ok_ctx.
Qed.

(** The references held are given up or change hands; the state stays. *)
Lemma wf_holds h h' w :
  wf h w ->
  (forall u, occ u (h_v h') + occ u (h_o h').*1 <= occ u (h_v h) + occ u (h_o h).*1) ->
  (forall u, occ u (h_p h') <= occ u (h_p h)) -> (forall u, occ u (h_c h') <= occ u (h_c h)) ->
  (forall u, u ∈ h_v h' -> u ∈ h_v h \/ u ∈ (h_o h).*1) ->
  (forall u, u ∈ h_p h' -> u ∈ h_p h) -> (forall u, u ∈ h_c h' -> u ∈ h_c h) ->
  NoDup (h_o h').*1 -> (forall x, x ∈ h_o h' -> x ∈ h_o h) ->
  h_e h' = h_e h -> h_x h' = h_x h ->
  wf h' w.
Proof.
  intros [Hv Hp Hc Hd Hdrv Hfr Hop Hli] Ov Op Oc Iv Ip Ic Ndo Io E1 E2.
  assert (Hvs : vchans_of h' w = vchans_of h w) by exact (vchans_of_ext h h' w E2).
  constructor; rewrite ?Hvs; try done.
  - intros u uc Hu. destruct (Hv u uc Hu) as (pc & c & cx & ? & ? & ? & ? & ? & ? & ?).
    exists pc, c, cx. specialize (Ov u). split_and!; try done. lia.
  - intros p pc Hpc. destruct (Hp p pc Hpc) as (? & ? & ? & ? & ? & ? & ? & ?).
    unfold pchan_ok. rewrite Hvs. specialize (Op p). split_and!; try done. lia.
  - intros c cx Hcx. destruct (Hc c cx Hcx) as (? & ? & ? & ? & ? & ? & ? & ?).
    unfold ctx_ok. rewrite Hvs. specialize (Oc c). split_and!; try done. lia.
  - destruct Hdrv as (? & ? & ? & ? & ? & Hhv & Hhp & Hhc & ? & ? & ?).
    unfold driver_ok. rewrite Hvs, E1. split_and!; try done; [|by auto..].
    intros u Hu. destruct (Iv u Hu) as [?|Hin]; [by auto|].
    apply list_elem_of_fmap in Hin as ([v c] & -> & Hin). destruct (proj2 Hop v c Hin) as [(vc & ? & _) _].
    by eexists.
  - split; [done|]. rewrite Hvs. intros v c Hin. by apply Hop, Io.
Qed.

Lemma wf_drop_p h w p : wf (held_p p h) w -> wf h w.
Proof.
  intros Hwf. eapply wf_holds; [exact Hwf|..]; simpl; try done; try (by intros; lia);
    try (by apply (wf_opening _ _ Hwf)); try (by auto).
  - intros u. case_decide; lia.
  - intros u Hu. by right.
Qed.

Lemma wf_drop_v h w v : wf (held_v v h) w -> wf h w.
Proof.
  intros Hwf. eapply wf_holds; [exact Hwf|..]; simpl; try done; try (by intros; lia);
    try (by apply (wf_opening _ _ Hwf)); try (by auto).
  - intros u. case_decide; lia.
  - intros u Hu. left. by right.
Qed.

(** A virtual channel that will not be opened after all is a plain reference. *)
Lemma wf_abandon h w v c : wf (held_o v c h) w -> wf (held_v v h) w.
Proof.
  intros Hwf. pose proof (proj1 (wf_opening _ _ Hwf)) as Hnd. simpl in Hnd.
  apply list.NoDup_cons in Hnd as [_ Hnd].
  eapply wf_holds; [exact Hwf|..]; simpl; try done; try (by intros; lia).
  - intros u. change (list_fmap _ _ fst (h_o h)) with ((h_o h).*1). case_decide; lia.
  - intros u [->|Hu]%elem_of_cons; [right; by left|by left].
  - intros x Hx. by right.
Qed.

End invariant.

(** ** Sends and reads *)

Section io.
Context {HS : Type} `{Platform HS}.
Implicit Types (w : world HS) (h : held).

(** What a send or a read leaves alone: everything but the sequence counter of
    a channel, the transport's state and the log. *)
Record io_frame w w' : Prop := {
  io_fr : frame w w';
  io_v : w_vchans w' = w_vchans w;
  io_c : w_ctxs w' = w_ctxs w;
  io_e : w_exps w' = w_exps w;
  io_i : w_imps w' = w_imps w;
  io_d : w_devs w' = w_devs w;
  io_next : w_next w' = w_next w;
  io_now : w_now w' = w_now w;
  io_p : forall p pc, w_pchans w !! p = Some pc ->
    exists s, w_pchans w' !! p = Some (set_pc_sequence_tx s pc)
}.

Lemma io_frame_refl w : io_frame w w.
Proof. constructor; try done. intros p [] ?. by eexists. Qed.

Lemma io_frame_trans w1 w2 w3 : io_frame w1 w2 -> io_frame w2 w3 -> io_frame w1 w3.
Proof.
  intros [] []. constructor; try congruence.
  { by eapply frame_trans. }
  intros p pc Hp. destruct (io_p0 p pc Hp) as [s Hs].
  destruct (io_p1 _ _ Hs) as [s' Hs']. by exists s'.
Qed.

(** The transport behind a channel is up. *)
Definition link_up w (p : nat) : Prop :=
  exists hs, w_hyp w !! p = Some hs /\ phys_up hs = true.

Lemma wp_send p hd bs (Q : Z -> world HS -> Prop) w :
  is_Some (w_pchans w !! p) -> is_Some (w_hyp w !! p) ->
  (forall r w', io_frame w w' -> w_log w' = w_log w ++ [EvSend p hd bs] -> Q r w') ->
  wp (physical_channel_send p hd bs) Q w.
Proof.
  intros [pc Hpc] [hs Hhs] HQ. unfold wp, physical_channel_send. rewrite Hpc, Hhs.
  destruct (phys_send pc hs hd bs) as [[[r seq] hs']|]; [|done].
  apply HQ; [|done]. constructor; try done.
  - eapply frame_trans; [by eapply (frame_pchan p pc (set_pc_sequence_tx seq pc))|].
    eapply frame_trans; [apply (frame_hyp p hs')|]. apply (frame_log _ _).
  - intros q qc Hq. simpl. rewrite lookup_insert. case_decide; [|by destruct qc; eexists].
    subst q. exists seq. congruence.
Qed.

Lemma wp_physical_channel_send h p hd bs (Q : Z -> world HS -> Prop) w :
  wf h w -> is_Some (w_pchans w !! p) ->
  (forall r w', io_frame w w' -> w_log w' = w_log w ++ [EvSend p hd bs] -> Q r w') ->
  wp (physical_channel_send p hd bs) Q w.
Proof.
  intros Hwf [pc Hpc] HQ. apply wp_send; [by eexists| |done].
  by destruct (wf_p _ _ Hwf p pc Hpc) as (_ & ? & _).
Qed.

Lemma wp_physical_channel_read h p n (Q : Z * bytes -> world HS -> Prop) w :
  wf h w -> is_Some (w_pchans w !! p) -> 0 <= n ->
  (forall r bs w', zlen bs <= n -> io_frame w w' -> w_log w' = w_log w ->
     (link_up w p -> 0 <= r <= n /\ link_up w' p) -> Q (r, bs) w') ->
  wp (physical_channel_read p n) Q w.
Proof.
  intros Hwf [pc Hpc] Hn HQ. unfold wp, physical_channel_read. rewrite Hpc.
  destruct (wf_p _ _ Hwf p pc Hpc) as (_ & [hs Hhs] & _). rewrite Hhs.
  pose proof (phys_read_len pc hs n Hn) as Hl.
  pose proof (phys_read_ret pc hs n Hn) as Hr.
  pose proof (phys_read_up pc hs n) as Hu.
  destruct (phys_read pc hs n) as [[r bs] hs']. simpl in *. apply HQ; [done| |done|].
  - constructor; try done.
    + apply frame_hyp.
    + intros q [] ?. by eexists.
  - intros (hs0 & Hhs0 & Hup). assert (hs0 = hs) as -> by congruence.
    split; [by apply Hr|]. exists hs'. split; [apply lookup_insert_eq|by apply Hu].
Qed.

(** Sends, reads and allocations, in any order: the objects stay as they are. *)
Record quiet w w' : Prop := {
  q_fr : frame w w';
  q_v : w_vchans w' = w_vchans w;
  q_c : w_ctxs w' = w_ctxs w;
  q_e : w_exps w' = w_exps w;
  q_i : w_imps w' = w_imps w;
  q_d : w_devs w' = w_devs w;
  q_now : w_now w' = w_now w;
  q_p : forall p pc, w_pchans w !! p = Some pc ->
    exists s, w_pchans w' !! p = Some (set_pc_sequence_tx s pc)
}.

Lemma quiet_io w w' : io_frame w w' -> quiet w w'.
Proof. by intros []. Qed.

Lemma quiet_refl w : quiet w w.
Proof. apply quiet_io, io_frame_refl. Qed.

Lemma quiet_trans w1 w2 w3 : quiet w1 w2 -> quiet w2 w3 -> quiet w1 w3.
Proof.
  intros [] []. constructor; try congruence; [by eapply frame_trans|].
  intros p pc Hp. destruct (q_p0 p pc Hp) as [s Hs].
  destruct (q_p1 _ _ Hs) as [s' Hs']. by exists s'.
Qed.

Lemma quiet_alloc l w : quiet w (set_w_alloc l w).
Proof. constructor; try done. intros p [] ?. by eexists. Qed.
Lemma quiet_next l w : quiet w (set_w_next (S (w_next w)) (set_w_alloc l w)).
Proof. constructor; try done; try apply frame_next. intros p [] ?. by eexists. Qed.
Lemma quiet_log l w : quiet w (set_w_log l w).
Proof. constructor; try done. intros p [] ?. by eexists. Qed.

Lemma quiet_pchan w w' p : quiet w w' -> is_Some (w_pchans w !! p) -> is_Some (w_pchans w' !! p).
Proof. intros Hq [pc Hp]. destruct (q_p _ _ Hq p pc Hp) as [s ?]. by eexists. Qed.

Lemma wf_quiet h w w' : quiet w w' -> wf h w -> wf h w'.
Proof. intros []. by apply wf_frame. Qed.

Lemma wf_io_frame h w w' : io_frame w w' -> wf h w -> wf h w'.
Proof. intros []. by apply wf_frame. Qed.
End io.
