(* ===== verification/Pchan.v ===== *)
(** Physical channels (hab_pchan.c): allocation and registration with a device,
    lookup by domain, references. *)
From S2P Require Import Prelude Header World Logic Invariant.

(* src/hab.h:99-99 HABCFG_VMID_DONT_CARE *)
Definition HABCFG_VMID_DONT_CARE : Z := -2.

Section ops.
Context {HS : Type}.
#[local] Abbreviation M := (World.M HS).

(** [hs] is the state the transport starts the channel with. *)
(* src/hab_pchan.c:7-36 hab_pchan_alloc *)
Definition hab_pchan_alloc (habdev : nat) (otherend_id : Z) (hs : HS) : M (option nat) :=
  let! a := kalloc in
  match a with
  | None => ret None
  | Some p =>
      do! modify (fun w => set_w_hyp (<[p := hs]> (w_hyp w)) (set_w_pchans (<[p :=
        Build_physical_channel 1 false habdev ∅ ∅ 0 otherend_id 0 0 true false 0 0 [] 0 0]>
        (w_pchans w)) w)) in
      do! upd_d habdev (fun d =>
        set_dv_pchan_cnt (dv_pchan_cnt d + 1) (set_dv_pchannels (dv_pchannels d ++ [p]) d)) in
      ret (Some p)
  end.

(** The virtual channels still listed are only reported. *)
(* src/hab_pchan.c:38-63 hab_pchan_free *)
Definition hab_pchan_free (p : nat) : M unit :=
  let! pc := get_p p in
  do! upd_d (pc_habdev pc) (fun d =>
    set_dv_pchan_cnt (dv_pchan_cnt d - 1) (set_dv_pchannels (list_del p (dv_pchannels d)) d)) in
  do! for_each (fun v => let! _ := get_v v in ret tt) (pc_vchannels pc) in
  modify (fun w => set_w_pchans (delete p (w_pchans w)) w).

(* src/hab_pchan.c:89-93 hab_pchan_get *)
Definition hab_pchan_get (p : nat) : M unit :=
  upd_p p (fun pc => set_pc_refcount (pc_refcount pc + 1) pc).

(* src/hab_pchan.c:95-99 hab_pchan_put *)
Definition hab_pchan_put (p : nat) : M unit :=
  let! pc := get_p p in
  if pc_refcount pc <=? 0 then fail RefUnderflow
  else
    do! upd_p p (set_pc_refcount (pc_refcount pc - 1)) in
    when (pc_refcount pc =? 1) (hab_pchan_free p).

(** The walk over the device's list, up to the first match. *)
Fixpoint pchan_walk (dom_id : Z) (l : list nat) : M (option nat) :=
  match l with
  | [] => ret None
  | p :: l =>
      let! pc := get_p p in
      if (pc_dom_id pc =? dom_id) || (dom_id =? HABCFG_VMID_DONT_CARE)
      then ret (Some p) else pchan_walk dom_id l
  end.

(** When the walk runs off the list, [pchan] is the list head taken for a
    channel: the code compares a [dom_id] that is not one, and with the wildcard
    or an accidental match it goes on to take a reference on it. *)
(* src/hab_pchan.c:65-87 hab_pchan_find_domid *)
Definition hab_pchan_find_domid (dev : nat) (dom_id : Z) : M (option nat) :=
  let! d := get_d dev in
  let! o := pchan_walk dom_id (dv_pchannels d) in
  match o with
  | None =>
      if (dv_head_word d =? dom_id) || (dom_id =? HABCFG_VMID_DONT_CARE)
      then fail OutOfBounds else ret None
  | Some p =>
      let! pc := get_p p in
      if pc_refcount pc =? 0 then ret None
      else do! hab_pchan_get p in ret (Some p)
  end.
End ops.

(** ** Properties *)

Section props.
Context {HS : Type}.
Implicit Types (w : world HS) (h : held).

Lemma hab_pchan_get_spec h w p :
  wf h w -> is_Some (w_pchans w !! p) ->
  wp (hab_pchan_get p) (fun _ w' => wf (held_p p h) w' /\ exists pc,
    w_pchans w !! p = Some pc /\
    w' = set_w_pchans (<[p := set_pc_refcount (pc_refcount pc + 1) pc]> (w_pchans w)) w) w.
Proof.
  intros Hwf [pc Hpc]. eapply wp_upd_p; [done|]. split; [|eauto].
  eapply wf_pchan_refs; try done; simpl.
  - rewrite decide_True by done. lia.
  - intros q Hq. by rewrite decide_False by congruence.
  - intros q [->|?]%elem_of_cons; auto.
Qed.

(** Dropping a held reference never frees the channel: it stays registered. *)
Lemma hab_pchan_put_spec h w p :
  wf (held_p p h) w ->
  wp (hab_pchan_put p) (fun _ w' => wf h w' /\ exists pc,
    w_pchans w !! p = Some pc /\
    w' = set_w_pchans (<[p := set_pc_refcount (pc_refcount pc - 1) pc]> (w_pchans w)) w) w.
Proof.
  intros Hwf. pose proof Hwf as [_ Hp _ _ Hdrv _].
  destruct Hdrv as (_ & _ & _ & _ & _ & _ & Hhp & _).
  destruct (Hhp p) as [pc Hpc]; [by left|].
  destruct (Hp p pc Hpc) as (_ & _ & _ & _ & _ & _ & _ & Hr). simpl in Hr.
  rewrite decide_True in Hr by done. change (vchans_of (held_p p h) w) with (vchans_of h w) in Hr.
  pose proof (occ_nonneg p (h_p h)). pose proof (openq_refs_nonneg p (w_devs w)).
  pose proof (count_nonneg (fun vc => bool_decide (vc_pchan vc = p)) (vchans_of h w)).
  unfold hab_pchan_put. apply wp_bind. eapply wp_get_p; [done|].
  destruct (Z.leb_spec (pc_refcount pc) 0); [lia|].
  apply wp_bind. eapply wp_upd_p; [done|]. apply wp_when; [intros ?%Z.eqb_eq; lia|].
  intros _. split; [|eauto]. eapply wf_pchan_refs; try done; simpl.
  - rewrite decide_True by done. lia.
  - intros q Hq. by rewrite decide_False by congruence.
  - intros q Hq. left. by right.
Qed.

(** No waiting open request names a channel that does not exist. *)
Lemma openq_refs_dead h w p : wf h w -> w_pchans w !! p = None -> openq_refs p (w_devs w) = 0.
Proof.
  intros Hwf Hp. assert (Hd : forall dv, dv ∈ w_devs w -> openq_count p (dv_openq_list dv) = 0).
  { intros dv [k Hk]%list_elem_of_lookup. destruct (wf_d _ _ Hwf k dv Hk) as (_ & _ & _ & Hq).
    unfold openq_count. rewrite filter_none; [done|]. rewrite list.Forall_forall in Hq |- *.
    intros n Hn Heq. destruct (Hq n Hn) as (q & Hrq & [qc Hqc]). congruence. }
  induction (w_devs w) as [|dv ds IH]; simpl; [done|].
  rewrite Hd by (by left). rewrite IH; [done|]. intros dv' Hin. apply Hd. by right.
Qed.

(** A new channel, registered with its device and used by nobody. *)
Lemma wf_pchan_new h w p d dv pc hs :
  wf h w -> w_devs w !! d = Some dv -> w_pchans w !! p = None -> (p < w_next w)%nat ->
  pc_habdev pc = d -> pc_vchan_idr pc = ∅ -> pc_expid_idr pc = ∅ -> pc_vchannels pc = [] -> pc_vcnt pc = 0 ->
  pc_refcount pc = 1 -> known_proto pc = true ->
  wf h (set_w_devs (<[d := set_dv_pchan_cnt (dv_pchan_cnt dv + 1) (set_dv_pchannels (dv_pchannels dv ++ [p]) dv)]> (w_devs w))
    (set_w_hyp (<[p := hs]> (w_hyp w)) (set_w_pchans (<[p := pc]> (w_pchans w)) w))).
Proof.
  intros [Hv Hp Hc Hd Hdrv Hfr Hop Hli] Hdv Hnew Hlt P1 P2 P3 P4 P5 P6 P7. set (dv' := set_dv_pchan_cnt _ _).
  assert (Hold : forall q qc, w_pchans w !! q = Some qc -> <[p := pc]> (w_pchans w) !! q = Some qc).
  { intros q qc Hq. rewrite lookup_insert_ne; [done|congruence]. }
  assert (Hsome : forall q, is_Some (w_pchans w !! q) -> is_Some (<[p := pc]> (w_pchans w) !! q)).
  { intros q [qc Hq]. exists qc. by apply Hold. }
  assert (Hdevs : forall k kd, w_devs w !! k = Some kd -> exists kd', <[d := dv']> (w_devs w) !! k = Some kd' /\
    (forall q, q ∈ dv_pchannels kd -> q ∈ dv_pchannels kd')).
  { intros k kd Hk. destruct (decide (k = d)) as [->|].
    - exists dv'. rewrite list_lookup_insert_eq by (by eapply lookup_lt_Some). split; [done|].
      assert (kd = dv) as -> by congruence. intros q Hq. simpl. apply elem_of_app. by left.
    - exists kd. by rewrite list_lookup_insert_ne by congruence. }
  assert (Hoq : forall q, openq_refs q (<[d := dv']> (w_devs w)) = openq_refs q (w_devs w)).
  { intros q. rewrite (openq_refs_insert _ _ _ dv) by done. simpl. lia. }
  assert (Hno : forall v vc, vchans_of h w !! v = Some vc -> vc_pchan vc <> p).
  { intros v vc Hvc Heq. destruct (Hv v vc Hvc) as (? & _ & _ & Hq & _). rewrite Heq in Hq. congruence. }
  constructor; simpl; try done.
  - intros v vc Hvc. destruct (Hv v vc Hvc) as (qc & c & cx & Hq & ? & ? & ? & ? & ? & ?).
    exists qc, c, cx. split; [by apply Hold|]. by split_and!.
  - intros q qc. rewrite lookup_insert. case_decide as Hq.
    + intros [= <-]. subst q. unfold pchan_ok. rewrite P1, P2, P3, P4, P5, P6. cbn [w_devs set_w_devs]. rewrite Hoq.
      split_and!; try done; try (by constructor).
      * exists dv'. simpl. rewrite list_lookup_insert_eq by (by eapply lookup_lt_Some). split; [done|]. simpl.
        apply elem_of_app. right. by left.
      * exists hs. apply lookup_insert_eq.
      * by intros v ?%elem_of_nil.
      * assert (count (fun vc => bool_decide (vc_pchan vc = p)) (vchans_of h w) = 0) as Hz.
        { unfold count. apply Nat2Z.inj_iff with (m := 0%nat), map_size_empty_iff, map_empty. intros v.
          apply eq_None_not_Some. intros [vc [Hvc Hb]%map_lookup_filter_Some]. simpl in Hb.
          apply bool_decide_eq_true in Hb. by eapply Hno. }
        unfold vchans_of in Hz |- *. simpl. rewrite Hz.
        rewrite (openq_refs_dead h w p) by done.
        rewrite occ_notin; [lia|]. intros Hin. destruct Hdrv as (_ & _ & _ & _ & _ & _ & Hhp & _). destruct (Hhp p Hin). congruence.
    + intros Hqc. destruct (Hp q qc Hqc) as ((kd & Hk & Hin) & ? & ? & ? & ? & ? & ? & ?). unfold pchan_ok. cbn [w_devs set_w_devs].
      rewrite Hoq. split_and!; try done.
      * destruct (Hdevs _ _ Hk) as (kd' & ? & ?). eauto.
      * simpl. by rewrite lookup_insert_ne.
  - intros c cx Hcx. destruct (Hc c cx Hcx) as (? & ? & ? & ? & ? & He & Hi & ?). split_and!; try done.
    + intros e Hin. destruct (He e Hin) as (ex & ? & (q & qc & ? & ? & ? & ? & ? & ?) & ?). exists ex. split; [done|].
      split; [|done]. exists q, qc. split; [done|]. split; [by apply Hold|]. by split_and!.
    + intros k e Hk. destruct (Hi k e Hk) as (ex & ? & ? & ? & ?). exists ex. split_and!; try done. by apply Hsome.
  - intros k kd. rewrite list_lookup_insert. case_decide as Hk; [destruct Hk as [<- Hk]|].
    + intros [= <-]. destruct (Hd d dv Hdv) as (H1 & H2 & H3 & H4). split_and!; simpl.
      * apply list.NoDup_app. split; [done|]. split; [|apply NoDup_singleton].
        intros q Hq ->%list_elem_of_singleton. destruct (H3 p Hq) as (? & ? & _). congruence.
      * rewrite zlen_app, H2. done.
      * intros q [Hq| ->%list_elem_of_singleton]%elem_of_app.
        -- destruct (H3 q Hq) as (qc & ? & ?). eauto.
        -- exists pc. by rewrite lookup_insert_eq.
      * eapply list.Forall_impl; [exact H4|]. intros n (q & ? & ?). eauto.
    + intros Hkd. destruct (Hd k kd Hkd) as (H1 & H2 & H3 & H4). split_and!; try done.
      * intros q Hq. destruct (H3 q Hq) as (qc & ? & ?). eauto.
      * eapply list.Forall_impl; [exact H4|]. intros n (q & ? & ?). eauto.
  - destruct Hdrv as (D1 & D2 & D3 & D4 & D5 & D6 & D7 & D8 & D9 & D10 & D11). split_and!; try done; simpl.
    + intros e He. destruct (D5 e He) as (ex & ? & (q & qc & ? & ? & ? & ? & ? & ?) & ?). exists ex.
      split; [done|]. split; [|done]. exists q, qc. split; [done|]. split; [by apply Hold|]. by split_and!.
    + intros q Hq. by apply Hsome, D7.
    + intros e q Heq. destruct (D10 e q Heq) as (ex & qc & ? & ? & ? & ? & ? & ?). exists ex, qc.
      split; [done|]. split; [by apply Hold|]. by split_and!.
  - destruct Hfr as (F1 & (F2 & F3) & F4 & F5 & F6). split_and!; try done; simpl.
    + intros a Ha. rewrite lookup_insert_ne by lia. by apply F1.
    + rewrite list_fmap_insert, F2. simpl. apply list_insert_id. rewrite <- F2, list_lookup_fmap, Hdv. done.
    + intros q qc. rewrite lookup_insert. case_decide; [by intros [= <-]|apply F5].
  - intros q qc i e. rewrite lookup_insert. case_decide; [intros [= <-]; by rewrite P3, lookup_empty|].
    intros Hq Hi. destruct (Hli q qc i e Hq Hi) as (L1 & L2 & L3). split_and!; try done; try apply L1.
    intros q' qc' j. rewrite lookup_insert. case_decide; [intros [= <-]; by rewrite P3, lookup_empty|apply L2].
Qed.

Lemma pchan_walk_spec dom_id l w (Q : option nat -> world HS -> Prop) :
  Forall (fun p => is_Some (w_pchans w !! p)) l ->
  (forall l1 p l2 pc, l = l1 ++ p :: l2 -> w_pchans w !! p = Some pc ->
     (pc_dom_id pc =? dom_id) || (dom_id =? HABCFG_VMID_DONT_CARE) = true ->
     Forall (fun q => exists qc, w_pchans w !! q = Some qc /\ pc_dom_id qc <> dom_id) l1 ->
     Q (Some p) w) ->
  (Forall (fun q => exists qc, w_pchans w !! q = Some qc /\ pc_dom_id qc <> dom_id) l ->
     (l <> [] -> dom_id <> HABCFG_VMID_DONT_CARE) -> Q None w) ->
  wp (pchan_walk dom_id l) Q w.
Proof.
  induction l as [|p l IH] in Q |- *; intros Hl HS_ HN; simpl.
  - by apply wp_ret, HN.
  - apply list.Forall_cons in Hl as [[pc Hpc] Hl].
    apply wp_bind. eapply wp_get_p; [done|].
    destruct ((pc_dom_id pc =? dom_id) || (dom_id =? HABCFG_VMID_DONT_CARE)) eqn:Hb.
    + apply wp_ret. by apply (HS_ [] p l pc).
    + apply orb_false_iff in Hb as [Hb1%Z.eqb_neq Hb2%Z.eqb_neq]. apply IH; [done|..].
      * intros l1 q l2 qc -> ? ? ?. apply (HS_ (p :: l1) q l2 qc); try done.
        constructor; eauto.
      * intros ? _. apply HN; [constructor; eauto|done].
Qed.
Lemma wf_dev_pchannels h w d dv :
  wf h w -> w_devs w !! d = Some dv ->
  Forall (fun p => is_Some (w_pchans w !! p)) (dv_pchannels dv).
Proof.
  intros Hwf Hd. apply Forall_forall. intros p Hp. apply list_elem_of_In in Hp.
  destruct (wf_d _ _ Hwf d dv Hd) as (_ & _ & H3 & _).
  destruct (H3 p Hp) as (pc & ? & _). eauto.
Qed.

(** A live channel has at least its registration's reference. *)
Lemma wf_pchan_ref_pos h w p pc : wf h w -> w_pchans w !! p = Some pc -> 1 <= pc_refcount pc.
Proof.
  intros Hwf Hpc. destruct (wf_p _ _ Hwf p pc Hpc) as (_ & _ & _ & _ & _ & _ & _ & Hr).
  pose proof (occ_nonneg p (h_p h)). pose proof (openq_refs_nonneg p (w_devs w)).
  pose proof (count_nonneg (fun vc => bool_decide (vc_pchan vc = p)) (vchans_of h w)). lia.
Qed.

(** The lookup on a device that has a channel, or for a named domain. *)
Lemma hab_pchan_find_domid_spec h w d dv dom_id (Q : option nat -> world HS -> Prop) :
  wf h w -> w_devs w !! d = Some dv ->
  (dv_pchannels dv <> [] \/ dom_id <> HABCFG_VMID_DONT_CARE) ->
  dv_head_word dv <> dom_id ->
  (forall p pc, w_pchans w !! p = Some pc ->
     wf (held_p p h) (set_w_pchans (<[p := set_pc_refcount (pc_refcount pc + 1) pc]> (w_pchans w)) w) ->
     pc_habdev pc = d ->
     pc_dom_id pc = dom_id \/ dom_id = HABCFG_VMID_DONT_CARE ->
     Q (Some p) (set_w_pchans (<[p := set_pc_refcount (pc_refcount pc + 1) pc]> (w_pchans w)) w)) ->
  (dom_id <> HABCFG_VMID_DONT_CARE -> Q None w) ->
  wp (hab_pchan_find_domid d dom_id) Q w.
Proof.
  intros Hwf Hd Hne Hhead HS_ HN. unfold hab_pchan_find_domid.
  apply wp_bind. eapply wp_get_d; [done|]. apply wp_bind.
  apply pchan_walk_spec; [by eapply wf_dev_pchannels|..].
  - intros l1 p l2 pc Hl Hpc Hm _. apply wp_bind. eapply wp_get_p; [done|].
    pose proof (wf_pchan_ref_pos _ _ _ _ Hwf Hpc).
    destruct (Z.eqb_spec (pc_refcount pc) 0); [lia|]. apply wp_bind.
    eapply wp_mono; [by eapply hab_pchan_get_spec|].
    intros [] w' (Hwf' & pc' & Hpc' & ->). apply wp_ret.
    assert (pc' = pc) as -> by congruence. apply HS_; try done.
    + destruct (wf_d _ _ Hwf d dv Hd) as (_ & _ & H3 & _).
      destruct (H3 p) as (qc & ? & ?); [|congruence].
      rewrite Hl. apply elem_of_app. right. by left.
    + apply orb_true_iff in Hm as [?%Z.eqb_eq|?%Z.eqb_eq]; auto.
  - intros _ Hw. assert (dom_id <> HABCFG_VMID_DONT_CARE) by (destruct Hne; auto).
    destruct (Z.eqb_spec (dv_head_word dv) dom_id); [done|].
    destruct (Z.eqb_spec dom_id HABCFG_VMID_DONT_CARE); [done|]. by apply wp_ret, HN.
Qed.

End props.
