(* ===== verification/Exports.v ===== *)
(** Exports (the reference counting half of hab_mimex.c): an export node is
    published in its channel's id table, owned by a context or by the reclaim
    list, and destroyed with its last reference. *)
From S2P Require Import Prelude Header World Logic Invariant Pchan.

Section ops.
Context {HS : Type}.
#[local] Abbreviation M := (World.M HS).

(** The platform data is released with the buffer it names; the node must have one. *)
(* src/os/linux/hab_mem_linux.c:643-668 habmem_exp_release *)
Definition habmem_exp_release (e : nat) : M unit :=
  let! ex := get_e e in
  if es_platform_data ex then upd_e e (set_es_platform_data false) else fail NullDeref.

(* src/hab_mimex.c:200-215 habmem_export_destroy *)
Definition habmem_export_destroy (e : nat) : M unit :=
  do! habmem_exp_release e in
  modify (fun w => set_w_exps (delete e (w_exps w)) w).

(* src/hab_mimex.c:293-296 habmem_export_get *)
Definition habmem_export_get (e : nat) : M unit :=
  upd_e e (fun ex => set_es_refcount (es_refcount ex + 1) ex).

(* src/hab_mimex.c:298-301 habmem_export_put *)
Definition habmem_export_put (e : nat) : M unit :=
  let! ex := get_e e in
  if es_refcount ex <=? 0 then fail RefUnderflow
  else
    do! upd_e e (set_es_refcount (es_refcount ex - 1)) in
    when (es_refcount ex =? 1) (habmem_export_destroy e).

(* src/hab_mimex.c:174-198 habmem_remove_export *)
Definition habmem_remove_export (e : nat) : M unit :=
  let! ex := get_e e in
  match ed_ctx (es_exp ex) with
  | None => ret tt
  | Some c =>
      do! upd_c c (fun cx => set_cx_export_total (u32 (cx_export_total cx - 1)) cx) in
      do! upd_e e (fun ex => set_es_exp (set_ed_ctx None (es_exp ex)) ex) in
      habmem_export_put e
  end.

(** [idr_remove] of an export id under the channel's lock. *)
Definition expid_remove (p : nat) (i : Z) : M unit :=
  upd_p p (fun pc => set_pc_expid_idr (delete i (pc_expid_idr pc)) pc).
End ops.

(** ** Ownership steps *)

Section lemmas.
Context {HS : Type}.
Implicit Types (w : world HS) (h : held).

(** Nothing refers to the export any more. *)
Definition unref h w (e : nat) : Prop :=
  (forall p pc i, w_pchans w !! p = Some pc -> pc_expid_idr pc !! i <> Some e) /\
  (forall c cx, w_ctxs w !! c = Some cx -> e ∉ cx_exp_whse cx) /\
  (e ∉ w_reclaim_list w) /\ (e ∉ (h_e h).*1).

Lemma held_e_fst (l : list (nat * nat)) e p : (e, p) ∈ l -> e ∈ l.*1.
Proof. intros Hin. apply list_elem_of_fmap. by exists (e, p). Qed.

(** Such a node may be rewritten or freed. *)
Lemma wf_exp_unref h w e m' :
  wf h w -> unref h w e -> is_Some (w_exps w !! e) ->
  (forall k, k <> e -> m' !! k = w_exps w !! k) ->
  (forall ex c, m' !! e = Some ex -> ed_ctx (es_exp ex) = Some c -> (c < w_next w)%nat) ->
  wf h (set_w_exps m' w).
Proof.
  intros [Hv Hp Hc Hd Hdrv Hfr Hop Hli] (U1 & U2 & U3 & U4) [ex He] Hm Hmc. constructor; simpl.
  - apply Hv.
  - intros p pc Hpc. destruct (Hp p pc Hpc) as (? & ? & ? & ? & ? & ? & Hi & ?).
    split_and!; try done. intros i e' Hi'. simpl. rewrite Hm; [by apply Hi|].
    intros ->. by apply (U1 p pc i).
  - intros c cx Hcx. destruct (Hc c cx Hcx) as (? & ? & ? & ? & ? & Hw & ? & ?).
    split_and!; try done. intros e' He'. simpl. rewrite Hm; [by apply Hw|].
    intros ->. by apply (U2 c cx).
  - apply Hd.
  - destruct Hdrv as (? & ? & ? & ? & Hr & ? & ? & ? & ? & Hh & ?).
    split_and!; try done.
    + intros e' He'. simpl. rewrite Hm by (intros ->; done). by apply Hr.
    + intros e' p He'. simpl. rewrite Hm; [by apply Hh|]. intros ->. apply U4.
      by eapply held_e_fst.
  - destruct Hfr as (F1 & F2 & F3 & F4 & F5). split_and!; try apply F2; try done.
    + intros a Ha. destruct (F1 a Ha) as (? & ? & ? & ? & ?). split_and!; try done. simpl. rewrite Hm; congruence.
    + intros k kx c Hk. simpl in *. destruct (decide (k = e)) as [->|]; [by eapply Hmc|].
      rewrite Hm in Hk by done. by eapply F5.
  - exact Hop.
  - intros p pc i e' Hpc Hi. destruct (Hli p pc i e' Hpc Hi) as (Hrng & Hun & Hl). split; [done|]. split; [exact Hun|].
    intros ex' c cx Hex. simpl in Hex. rewrite Hm in Hex; [by apply Hl|].
    intros ->. by apply (U1 p pc i).
Qed.

(** A context without the export in its warehouse. *)
Definition forget_exp (e : nat) (cx : uhab_context) : uhab_context :=
  set_cx_exp_whse (list_del e (cx_exp_whse cx)) cx.

(** An export may leave the id table and the warehouses at once. *)
Lemma wf_exp_forget h w p pc i e :
  wf h w -> w_pchans w !! p = Some pc -> pc_expid_idr pc !! i = Some e ->
  e ∉ w_reclaim_list w -> e ∉ (h_e h).*1 ->
  wf h (set_w_ctxs (forget_exp e <$> w_ctxs w)
    (set_w_pchans (<[p := set_pc_expid_idr (delete i (pc_expid_idr pc)) pc]> (w_pchans w)) w)).
Proof.
  intros Hwf Hpc Hi U3 U4. pose proof Hwf as [Hv Hp Hc Hd Hdrv Hfr Hop Hli].
  set (pc' := set_pc_expid_idr _ pc). set (w' := set_w_ctxs _ _).
  (* the entries of the others stay *)
  assert (Hent : forall q qc j e', w_pchans w !! q = Some qc -> pc_expid_idr qc !! j = Some e' ->
    e' <> e -> exists qc', <[p := pc']> (w_pchans w) !! q = Some qc' /\
      pc_expid_idr qc' !! j = Some e').
  { intros q qc j e' Hq Hj Hne. rewrite lookup_insert. case_decide; [|eauto].
    subst q. assert (qc = pc) as -> by congruence. eexists; split; [done|]. simpl.
    rewrite lookup_delete_ne; [done|]. intros ->. congruence. }
  assert (Hown : forall e' ex, e' <> e -> export_owned w e' ex ->
    export_owned w' e' ex).
  { intros e' ex Hne (q & qc & ? & Hq & Hj & ? & ? & ?).
    destruct (Hent _ _ _ _ Hq Hj Hne) as (qc' & ? & ?). exists q, qc'. by split_and!. }
  assert (Hsome : forall q, is_Some (w_pchans w !! q) ->
    is_Some (<[p := pc']> (w_pchans w) !! q)).
  { intros q ?. rewrite lookup_insert. by case_decide. }
  assert (Hback : forall a ax, (forget_exp e <$> w_ctxs w) !! a = Some ax ->
    exists ay, w_ctxs w !! a = Some ay /\ ax = forget_exp e ay).
  { intros a ax. rewrite lookup_fmap. destruct (w_ctxs w !! a) as [ay|]; [|done].
    intros [= <-]. by exists ay. }
  assert (Hcsome : forall a, is_Some (w_ctxs w !! a) -> is_Some ((forget_exp e <$> w_ctxs w) !! a)).
  { intros a ?. by rewrite lookup_fmap, fmap_is_Some. }
  constructor; simpl.
  - intros u uc Huc. destruct (Hv u uc Huc) as (pc0 & c & cx & Hq & ? & ? & ? & Hcx & ? & ?).
    exists (if decide (p = vc_pchan uc) then pc' else pc0), c, (forget_exp e cx). simpl.
    rewrite lookup_insert, lookup_fmap, Hcx.
    destruct (decide (p = vc_pchan uc)) as [->|]; [|by split_and!].
    assert (pc0 = pc) as -> by congruence. by split_and!.
  - intros q qc. rewrite lookup_insert. case_decide as Hq; [|apply Hp].
    subst q. intros [= <-]. destruct (Hp p pc Hpc) as (? & ? & ? & ? & ? & ? & He & ?).
    split_and!; try done. intros j e' Hj. simpl in Hj.
    apply lookup_delete_Some in Hj as [_ Hj]. by apply He.
  - intros c ax Hax. destruct (Hback _ _ Hax) as (cx & Hcx & ->).
    destruct (Hc c cx Hcx) as (? & ? & ? & ? & ? & He & Him & ?).
    split_and!; try done.
    + by apply NoDup_list_del.
    + intros e' [Hin Hne]%elem_of_list_del. destruct (He e' Hin) as (ex & ? & ? & ?). exists ex.
      split_and!; try done. by apply Hown.
    + intros k e' Hk. destruct (Him k e' Hk) as (ex & ? & ? & ? & ?). exists ex.
      split_and!; try done. by apply Hsome.
  - intros d dv Hdv. destruct (Hd d dv Hdv) as (? & ? & H3 & H4). split_and!; try done.
    + intros q Hq. destruct (H3 q Hq) as (qc & ? & ?). simpl. rewrite lookup_insert.
      case_decide; [|by eauto]. subst q. exists pc'. split; [done|]. simpl. congruence.
    + eapply Forall_impl; [|exact H4]. intros n (q & ? & ?). exists q. split; [done|by apply Hsome].
  - destruct Hdrv as (? & Hu & ? & ? & Hr & ? & Hhp & Hhc & ? & He & Hi2).
    split_and!; try done.
    + intros a Ha. by apply Hcsome, Hu.
    + intros e' Hin. destruct (Hr e' Hin) as (ex & ? & ? & Hn). exists ex. split_and!; try done.
      * apply Hown; [|done]. intros ->. done.
      * intros a ax Hax. destruct (Hback _ _ Hax) as (ay & Hay & ->).
        intros [Hin' _]%elem_of_list_del. by eapply Hn.
    + intros q Hq. by apply Hsome, Hhp.
    + intros a Ha. by apply Hcsome, Hhc.
    + intros e' q Hin. destruct (He e' q Hin) as (ex & qc & ? & Hqc & Hj & ? & ? & ?).
      assert (e' <> e). { intros ->. apply U4. by eapply held_e_fst. }
      destruct (Hent _ _ _ _ Hqc Hj) as (qc' & ? & ?); [done|]. exists ex, qc'. by split_and!.
    + intros a ax k b bx k' e' Ga Gb. destruct (Hback _ _ Ga) as (ay & ? & ->).
      destruct (Hback _ _ Gb) as (bz & ? & ->). simpl. intros. eapply (Hi2 a ay k b bz k'); done.
  - split; [|split; [apply Hfr|split; [apply Hfr|split; [intros ? ?; by eapply known_pchan|apply Hfr]]]].
    intros a Ha. destruct (proj1 Hfr a Ha) as (? & ? & ? & ? & ?). split_and!; try done; simpl.
    + rewrite lookup_insert_ne; [done|congruence].
    + by rewrite lookup_fmap, fmap_None.
  - apply (open_ok_mono h h w); [done|by eauto| |done].
    intros a ax Hax. destruct (Hback _ _ Hax) as (ay & ? & ->). by exists ay.
  - assert (Hold : forall q qc j e', <[p := pc']> (w_pchans w) !! q = Some qc -> pc_expid_idr qc !! j = Some e' ->
      exists qc0, w_pchans w !! q = Some qc0 /\ pc_expid_idr qc0 !! j = Some e').
    { intros q qc j e' Hqc Hj. rewrite lookup_insert in Hqc. case_decide as Hq; [|by eauto].
      injection Hqc as <-. subst q. simpl in Hj. apply lookup_delete_Some in Hj as [_ Hj]. eauto. }
    intros q qc j e' Hqc Hj. destruct (Hold _ _ _ _ Hqc Hj) as (qc0 & Hq0 & Hj0).
    destruct (Hli q qc0 j e' Hq0 Hj0) as (Hrng & Hun & Hl). split; [done|]. split.
    { intros q' qc' j' Hq' Hj'. destruct (Hold _ _ _ _ Hq' Hj') as (? & ? & ?). by eapply Hun. }
    intros ex c ax Hex Hst Hctx Hax Hr. destruct (Hback _ _ Hax) as (cx & Hcx & ->).
    simpl in *. apply elem_of_list_del. split; [by eapply Hl|].
    rewrite lookup_insert in Hqc. case_decide as Hq.
    + injection Hqc as <-. simpl in Hj. apply lookup_delete_Some in Hj as [Hne Hj]. subst q. intros ->.
      destruct (Hp p pc Hpc) as (_ & _ & _ & _ & _ & _ & Hx & _).
      destruct (Hx _ _ Hi) as (e1 & ? & ? & _). destruct (Hx _ _ Hj) as (e2 & ? & ? & _). congruence.
    + intros ->.
      destruct (Hp p pc Hpc) as (_ & _ & _ & _ & _ & _ & Hx & _).
      destruct (Hp q qc Hqc) as (_ & _ & _ & _ & _ & _ & Hy & _).
      destruct (Hx _ _ Hi) as (e1 & ? & _ & _ & S1 & _). destruct (Hy _ _ Hj) as (e2 & ? & _ & _ & S2 & _).
      assert (e1 = ex) as -> by congruence. assert (e2 = ex) as -> by congruence.
      specialize (S1 Hst). specialize (S2 Hst). congruence.
Qed.

(** One that no warehouse has leaves them as they are. *)
(** Then nothing refers to it. *)
Lemma unref_forget h w p pc i e :
  wf h w -> w_pchans w !! p = Some pc -> pc_expid_idr pc !! i = Some e ->
  e ∉ w_reclaim_list w -> e ∉ (h_e h).*1 ->
  unref h (set_w_ctxs (forget_exp e <$> w_ctxs w)
    (set_w_pchans (<[p := set_pc_expid_idr (delete i (pc_expid_idr pc)) pc]> (w_pchans w)) w)) e.
Proof.
  intros Hwf Hpc Hi Hr Hh. split; [|split; [|by split]]; simpl.
  - intros q qc j Hq Hj. rewrite lookup_insert in Hq. case_decide as Hpq.
    + injection Hq as <-. simpl in Hj. apply lookup_delete_Some in Hj as [Hne Hj].
      destruct (wf_p _ _ Hwf p pc Hpc) as (_ & _ & _ & _ & _ & _ & Hx & _).
      destruct (Hx i e Hi) as (ex & He & Ei & _). destruct (Hx j e Hj) as (ex' & He' & Ej & _). congruence.
    + destruct (wf_listed _ _ Hwf p pc i e Hpc Hi) as (_ & Hone & _). by apply Hpq, eq_sym, (Hone q qc j).
  - intros c cx Hc. rewrite lookup_fmap in Hc. destruct (w_ctxs w !! c) as [cy|] eqn:Hcy; [|done].
    injection Hc as <-. simpl. destruct (wf_c _ _ Hwf c cy Hcy) as (_ & _ & _ & _ & Hnd & _).
    unfold forget_exp. simpl. intros [_ Hne]%elem_of_list_del. by apply Hne.
Qed.

Lemma wf_expid_remove h w p pc i e :
  wf h w -> w_pchans w !! p = Some pc -> pc_expid_idr pc !! i = Some e ->
  (forall c cx, w_ctxs w !! c = Some cx -> e ∉ cx_exp_whse cx) ->
  e ∉ w_reclaim_list w -> e ∉ (h_e h).*1 ->
  wf h (set_w_pchans (<[p := set_pc_expid_idr (delete i (pc_expid_idr pc)) pc]> (w_pchans w)) w).
Proof.
  intros Hwf Hpc Hi U2 U3 U4. pose proof (wf_exp_forget h w p pc i e Hwf Hpc Hi U3 U4) as Hw.
  assert (Hid : forget_exp e <$> w_ctxs w = w_ctxs w).
  { apply map_eq. intros a. rewrite lookup_fmap. destruct (w_ctxs w !! a) as [ax|] eqn:Ha; [|done].
    simpl. f_equal. unfold forget_exp. rewrite list_del_notin by (by eapply U2). by destruct ax. }
  rewrite Hid in Hw. by destruct w.
Qed.
(** The last reference destroys the node. *)
Lemma habmem_export_put_last h w e ex :
  wf h w -> unref h w e -> w_exps w !! e = Some ex ->
  es_refcount ex = 1 -> es_platform_data ex = true ->
  wp (habmem_export_put e) (fun _ w' => wf h w' /\
    w' = set_w_exps (delete e (w_exps w)) w) w.
Proof.
  intros Hwf Hun He Hr Hpd. unfold habmem_export_put.
  apply wp_bind. eapply wp_get_e; [done|]. rewrite Hr. simpl.
  apply wp_bind. eapply wp_upd_e; [done|]. unfold when, habmem_export_destroy.
  apply wp_bind. unfold habmem_exp_release. apply wp_bind.
  eapply wp_get_e; [apply lookup_insert_eq|]. simpl. rewrite Hpd.
  eapply wp_upd_e; [apply lookup_insert_eq|]. apply wp_modify. simpl.
  rewrite !delete_insert_eq. setters. split; [|done]. eapply wf_exp_unref; [done|done|eauto|..].
  - intros k Hk. by rewrite lookup_delete_ne.
  - intros ? ?. by rewrite lookup_delete_eq.
Qed.

Lemma unref_same h w w' e :
  w_pchans w' = w_pchans w -> w_reclaim_list w' = w_reclaim_list w ->
  same_view c_view (w_ctxs w) (w_ctxs w') -> unref h w e -> unref h w' e.
Proof.
  intros E1 E2 Hs (U1 & U2 & U3 & U4). unfold unref. rewrite E1, E2. split_and!; try done.
  intros c cx Hcx.
  destruct (same_view_Some _ _ _ _ _ (same_view_sym _ _ _ Hs) Hcx) as (cx' & Hl & Hview).
  injection Hview as _ _ _ <- _. by eapply U2.
Qed.

Lemma habmem_remove_export_spec h w e ex c cx :
  wf h w -> unref h w e -> w_exps w !! e = Some ex ->
  es_refcount ex = 1 -> es_platform_data ex = true ->
  ed_ctx (es_exp ex) = Some c -> w_ctxs w !! c = Some cx ->
  wp (habmem_remove_export e) (fun _ w' => wf h w' /\
    w' = set_w_exps (delete e (w_exps w))
          (set_w_ctxs (<[c := set_cx_export_total (u32 (cx_export_total cx - 1)) cx]> (w_ctxs w)) w)) w.
Proof.
  intros Hwf Hun He Hr Hpd Hc Hcx. unfold habmem_remove_export.
  apply wp_bind. eapply wp_get_e; [done|]. rewrite Hc.
  apply wp_bind. eapply wp_upd_c; [done|].
  pose proof (frame_ctx c cx (set_cx_export_total (u32 (cx_export_total cx - 1)) cx) w Hcx eq_refl)
    as Hf. pose proof (wf_frame _ _ _ Hf Hwf) as Hwf1.
  apply wp_bind. eapply wp_upd_e; [done|]. simpl.
  eapply wp_mono.
  - eapply (habmem_export_put_last h); [|..].
    + eapply (wf_exp_unref _ _ e); [exact Hwf1| |simpl; eauto|..].
      * eapply unref_same; [..|exact Hun]; try done. apply Hf.
      * intros k Hk. simpl. by rewrite lookup_insert_ne.
      * intros kx a. simpl. rewrite lookup_insert_eq. by intros [= <-].
    + eapply unref_same; [..|exact Hun]; try done. simpl. apply Hf.
    + apply lookup_insert_eq.
    + done.
    + done.
  - simpl. intros _ w' (? & ->). split; [done|]. simpl. setters. by rewrite delete_insert_eq.
Qed.

(** An owned export whose owner has let go of it leaves its id table, after
    which nothing refers to it. *)
Lemma expid_remove_spec h w e ex p :
  wf h w -> w_exps w !! e = Some ex -> export_owned w e ex ->
  ed_pchan (es_exp ex) = Some p ->
  (forall c cx, w_ctxs w !! c = Some cx -> e ∉ cx_exp_whse cx) ->
  e ∉ w_reclaim_list w -> e ∉ (h_e h).*1 ->
  wp (expid_remove p (ed_export_id (es_exp ex))) (fun _ w' => wf h w' /\ unref h w' e /\
    exists pc, w_pchans w !! p = Some pc /\
      w' = set_w_pchans (<[p := set_pc_expid_idr
        (delete (ed_export_id (es_exp ex)) (pc_expid_idr pc)) pc]> (w_pchans w)) w) w.
Proof.
  intros Hwf He (p' & pc & Hp' & Hpc & Hi & _) Hp U2 U3 U4.
  assert (p' = p) as -> by congruence. unfold expid_remove.
  eapply wp_upd_p; [done|]. split; [by eapply wf_expid_remove|]. split; [|by eauto].
  split_and!; try done. intros q qc j. simpl. rewrite lookup_insert. case_decide as Hq.
  - subst q. intros [= <-]. simpl. intros [Hne Hj]%lookup_delete_Some.
    destruct (wf_p _ _ Hwf p pc Hpc) as (_ & _ & _ & _ & _ & _ & Hx & _).
    destruct (Hx j e Hj) as (ex' & ? & ? & _). congruence.
  - intros Hqc Hj. destruct (wf_p _ _ Hwf q qc Hqc) as (_ & _ & _ & _ & _ & _ & Hx & _).
    destruct (Hx j e Hj) as (ex' & ? & ? & [?|?] & _); congruence.
Qed.

(** The owned export is not one still being set up. *)
Lemma owned_not_held h w e ex :
  wf h w -> w_exps w !! e = Some ex -> es_exp_state ex = HAB_EXP_SUCCESS -> e ∉ (h_e h).*1.
Proof.
  intros Hwf He Hs Hin. apply list_elem_of_fmap in Hin as ([e' p] & -> & Hin).
  destruct (wf_drv _ _ Hwf) as (_ & _ & _ & _ & _ & _ & _ & _ & _ & Hh & _).
  destruct (Hh _ _ Hin) as (ex' & pc & ? & _ & _ & ? & _). simpl in *. congruence.
Qed.

(** What a thread that sets up an export knows of it. *)
Lemma wf_held_e h w e p :
  wf h w -> (e, p) ∈ h_e h -> exists ex pc, w_exps w !! e = Some ex /\ w_pchans w !! p = Some pc /\
    pc_expid_idr pc !! ed_export_id (es_exp ex) = Some e /\ es_exp_state ex = HAB_EXP_EXPORTING /\
    es_platform_data ex = true /\ es_refcount ex = 1.
Proof. intros Hwf Hin. destruct (wf_drv _ _ Hwf) as (_ & _ & _ & _ & _ & _ & _ & _ & _ & Hh & _). by apply Hh. Qed.

(** It may leave it where it is. *)
Lemma wf_drop_e h w e p : wf (held_e e p h) w -> wf h w.
Proof.
  intros [Hv Hp Hc Hd Hdrv Hfr Hop Hli]. constructor; try done.
  destruct Hdrv as (? & ? & ? & ? & ? & ? & ? & ? & Hnd & Hh & ?). split_and!; try done.
  - simpl in Hnd. by apply list.NoDup_cons in Hnd as [_ ?].
  - intros e' q Hin. apply Hh. by right.
Qed.

(** A new export gets an unused id. *)
Lemma wf_export_new h w p pc pc' e i ex :
  wf h w -> w_pchans w !! p = Some pc -> pc_expid_idr pc !! i = None -> 1 <= i < 2 ^ 31 ->
  w_exps w !! e = None -> (e < w_next w)%nat ->
  p_view pc' = p_view (set_pc_expid_idr (<[i := e]> (pc_expid_idr pc)) pc) ->
  ed_export_id (es_exp ex) = i -> (ed_pchan (es_exp ex) = None \/ ed_pchan (es_exp ex) = Some p) ->
  (forall c, ed_ctx (es_exp ex) = Some c -> (c < w_next w)%nat) ->
  es_exp_state ex = HAB_EXP_EXPORTING -> es_platform_data ex = true -> es_refcount ex = 1 ->
  payload_fits ex = true ->
  wf (held_e e p h) (set_w_exps (<[e := ex]> (w_exps w)) (set_w_pchans (<[p := pc']> (w_pchans w)) w)).
Proof.
  intros Hwf Hpc Hi Hr He Hlt Hview E1 E2 Ectx E3 E4 E5 E6. pose proof Hwf as [Hv Hp Hc Hd Hdrv Hfr Hop Hli].
  injection Hview as V1 V2 V3 V4 V5 V6. set (w' := set_w_exps _ _).
  assert (Hnew : forall q qc j, w_pchans w !! q = Some qc -> pc_expid_idr qc !! j <> Some e).
  { intros q qc j Hq Hj. destruct (Hp q qc Hq) as (_ & _ & _ & _ & _ & _ & Hx & _).
    destruct (Hx j e Hj) as (? & ? & _). congruence. }
  assert (Hent : forall q qc j e', w_pchans w !! q = Some qc -> pc_expid_idr qc !! j = Some e' ->
    exists qc', <[p := pc']> (w_pchans w) !! q = Some qc' /\ pc_expid_idr qc' !! j = Some e').
  { intros q qc j e' Hq Hj. rewrite lookup_insert. case_decide as Hpq; [|eauto].
    subst q. assert (qc = pc) as -> by congruence. eexists; split; [done|]. rewrite V4.
    rewrite lookup_insert_ne; [done|]. intros ->. congruence. }
  assert (Hold : forall e' ex', w_exps w !! e' = Some ex' -> w_exps w' !! e' = Some ex').
  { intros e' ex' He'. simpl. rewrite lookup_insert_ne; [done|]. intros ->. congruence. }
  assert (Hown : forall e' ex', export_owned w e' ex' -> export_owned w' e' ex').
  { intros e' ex' (q & qc & ? & Hq & Hj & ? & ? & ?). destruct (Hent _ _ _ _ Hq Hj) as (qc' & ? & ?).
    exists q, qc'. by split_and!. }
  assert (Hsome : forall q, is_Some (w_pchans w !! q) -> is_Some (w_pchans w' !! q)).
  { intros q ?. simpl. rewrite lookup_insert. by case_decide. }
  constructor; simpl.
  - intros u uc Huc. destruct (Hv u uc Huc) as (pc0 & c & cx & Hq & ? & ? & ? & ? & ? & ?).
    exists (if decide (p = vc_pchan uc) then pc' else pc0), c, cx. simpl. rewrite lookup_insert.
    destruct (decide (p = vc_pchan uc)) as [->|]; [|by split_and!].
    assert (pc0 = pc) as -> by congruence. rewrite V3, V5. by split_and!.
  - intros q qc. rewrite lookup_insert. case_decide as Hq.
    + subst q. intros [= <-]. destruct (Hp p pc Hpc) as (? & ? & ? & ? & ? & ? & Hx & ?).
      unfold pchan_ok. rewrite V1, V2, V3, V4, V5, V6. split_and!; try done.
      intros j e'. simpl. intros [[<- <-]|[Hne Hj]]%lookup_insert_Some.
      * exists ex. rewrite lookup_insert_eq. split_and!; try done. rewrite E3. by intros [=].
      * destruct (Hx j e' Hj) as (ex' & ? & ?). exists ex'. split; [by apply Hold|done].
    + intros Hqc. destruct (Hp q qc Hqc) as (? & ? & ? & ? & ? & ? & Hx & ?). split_and!; try done.
      intros j e' Hj. destruct (Hx j e' Hj) as (ex' & ? & ?). exists ex'. split; [by apply Hold|done].
  - intros c cx Hcx. destruct (Hc c cx Hcx) as (? & ? & ? & ? & ? & Hw & Him & ?). split_and!; try done.
    + intros e' Hin. destruct (Hw e' Hin) as (ex' & ? & ? & ?). exists ex'. split_and!; auto.
    + intros k e' Hk. destruct (Him k e' Hk) as (ex' & ? & ? & ? & ?). exists ex'. split_and!; auto.
  - intros d dv Hdv. destruct (Hd d dv Hdv) as (? & ? & H3 & H4). split_and!; try done.
    + intros q Hq. destruct (H3 q Hq) as (qc & ? & ?). simpl. rewrite lookup_insert.
      case_decide; [|by eauto]. subst q. exists pc'. split; [done|]. congruence.
    + eapply Forall_impl; [|exact H4]. intros n (q & ? & ?). exists q. split; [done|by apply Hsome].
  - destruct Hdrv as (? & ? & ? & ? & Hrl & ? & Hhp & ? & Hnd & Hh & ?). split_and!; try done.
    + intros e' Hin. destruct (Hrl e' Hin) as (ex' & ? & ? & ?). exists ex'. split_and!; auto.
    + intros q Hq. by apply Hsome, Hhp.
    + simpl. apply list.NoDup_cons. split; [|done]. intros ([a q] & Ha & Hin)%list_elem_of_fmap.
      simpl in Ha. subst a. destruct (Hh _ _ Hin) as (? & ? & ? & _). congruence.
    + intros e' q [[= -> ->]|Hin]%elem_of_cons.
      * exists ex, pc'. simpl. rewrite !lookup_insert_eq, V4, E1, lookup_insert_eq. by split_and!.
      * destruct (Hh e' q Hin) as (ex' & qc & ? & Hqc & Hj & ? & ? & ?).
        destruct (Hent _ _ _ _ Hqc Hj) as (qc' & ? & ?). exists ex', qc'. split_and!; auto.
  - split; [|split; [apply Hfr|split; [apply Hfr|split; [intros ? ?; by eapply known_pchan|]]]]; cycle 1.
    { eapply (ctxs_below_insert w); [done|done|exact Ectx|apply Hfr]. }
    intros a Ha. destruct (proj1 Hfr a Ha) as (? & ? & ? & ? & ?). split_and!; try done; simpl.
    + rewrite lookup_insert_ne; [done|congruence].
    + rewrite lookup_insert_ne; [done|]. simpl in Ha. lia.
  - exact Hop.
  - assert (Hcase : forall q qc j e', <[p := pc']> (w_pchans w) !! q = Some qc -> pc_expid_idr qc !! j = Some e' ->
      (q = p /\ j = i /\ e' = e) \/
      (e' <> e /\ exists qc0, w_pchans w !! q = Some qc0 /\ pc_expid_idr qc0 !! j = Some e')).
    { intros q qc j e' Hq Hj. rewrite lookup_insert in Hq. case_decide as Hpq.
      - injection Hq as <-. subst q. rewrite V4 in Hj. apply lookup_insert_Some in Hj as [[<- <-]|[Hne Hj]]; [by left|].
        right. split; [|by eauto]. intros ->. by apply (Hnew p pc j).
      - right. split; [|by eauto]. intros ->. by apply (Hnew q qc j). }
    intros q qc j e' Hq Hj. destruct (Hcase _ _ _ _ Hq Hj) as [(-> & -> & ->)|(Hne & qc0 & Hq0 & Hj0)].
    + split; [done|]. split.
      { intros q' qc' j' Hq' Hj'. by destruct (Hcase _ _ _ _ Hq' Hj') as [(-> & _)|(? & _)]. }
      intros ex' c cx. rewrite lookup_insert_eq. intros [= <-]. rewrite E3. by intros [=].
    + destruct (Hli q qc0 j e' Hq0 Hj0) as (Hrng & Hun & Hl). split; [done|]. split.
      { intros q' qc' j' Hq' Hj'. destruct (Hcase _ _ _ _ Hq' Hj') as [(_ & _ & ?)|(_ & qc1 & ? & ?)]; [done|].
        by eapply Hun. }
      intros ex' c cx. rewrite lookup_insert_ne by done. apply Hl.
Qed.

(** An export that is complete goes to its context's warehouse. *)
Lemma wf_export_own h w e p c cx ex ex' :
  wf (held_e e p h) w -> w_exps w !! e = Some ex -> w_ctxs w !! c = Some cx ->
  ed_export_id (es_exp ex') = ed_export_id (es_exp ex) -> ed_pchan (es_exp ex') = Some p ->
  ed_ctx (es_exp ex') = Some c -> es_exp_state ex' = HAB_EXP_SUCCESS ->
  es_platform_data ex' = true -> es_refcount ex' = 1 -> payload_fits ex' = true ->
  wf h (set_w_exps (<[e := ex']> (w_exps w))
    (set_w_ctxs (<[c := set_cx_export_total (u32 (cx_export_total cx + 1))
       (set_cx_exp_whse (cx_exp_whse cx ++ [e]) cx)]> (w_ctxs w)) w)).
Proof.
  intros Hwf0 Hex Hcx E1 E2 E3 E4 E5 E6 E7.
  destruct (wf_held_e _ _ e p Hwf0) as (ex0 & pc & Hex0 & Hpc & Hi & Hst & Hpd & Hrc); [by left|].
  assert (ex0 = ex) as -> by congruence. clear Hex0.
  assert (Hnd0 : e ∉ (h_e h).*1).
  { destruct (wf_drv _ _ Hwf0) as (_ & _ & _ & _ & _ & _ & _ & _ & Hnd & _). simpl in Hnd.
    by apply list.NoDup_cons in Hnd as [? _]. }
  pose proof (wf_drop_e _ _ _ _ Hwf0) as Hwf. destruct Hwf as [Hv Hp Hc Hd Hdrv Hfr Hop Hli].
  set (cx' := set_cx_export_total _ _). set (w' := set_w_exps _ _).
  assert (Hno : forall a ax, w_ctxs w !! a = Some ax -> e ∉ cx_exp_whse ax).
  { intros a ax Hax Hin. destruct (Hc a ax Hax) as (_ & _ & _ & _ & _ & Hw & _).
    destruct (Hw e Hin) as (ey & ? & (? & ? & ? & ? & ? & ? & _) & _). congruence. }
  assert (Hnr : e ∉ w_reclaim_list w).
  { intros Hin. destruct Hdrv as (_ & _ & _ & _ & Hr & _).
    destruct (Hr e Hin) as (ey & ? & (? & ? & ? & ? & ? & ? & _) & _). congruence. }
  assert (Hold : forall e' ey, e' <> e -> w_exps w !! e' = Some ey -> w_exps w' !! e' = Some ey).
  { intros e' ey Hne He'. simpl. by rewrite lookup_insert_ne. }
  assert (Hback : forall a ax, <[c := cx']> (w_ctxs w) !! a = Some ax -> exists ay, w_ctxs w !! a = Some ay /\
    cx_vchannels ax = cx_vchannels ay /\ cx_imp_whse ax = cx_imp_whse ay /\ cx_refcount ax = cx_refcount ay /\
    (forall x, x ∈ cx_exp_whse ax -> x ∈ cx_exp_whse ay \/ x = e) /\
    (forall x, x ∈ cx_exp_whse ay -> x ∈ cx_exp_whse ax)).
  { intros a ax. rewrite lookup_insert. case_decide; [|by eauto 10]. intros [= <-]. subst a. exists cx.
    split_and!; try done; simpl; intros x; rewrite elem_of_app, ?list_elem_of_singleton; tauto. }
  assert (Hsome : forall a, is_Some (w_ctxs w !! a) -> is_Some (<[c := cx']> (w_ctxs w) !! a)).
  { intros a ?. rewrite lookup_insert. by case_decide. }
  assert (Howned : export_owned w' e ex').
  { exists p, pc. split_and!; try done. by rewrite E1. }
  constructor; simpl.
  - intros u uc Huc. destruct (Hv u uc Huc) as (pc0 & a & ax & ? & ? & ? & ? & Ha & ? & ?).
    exists pc0, a, (if decide (c = a) then cx' else ax). simpl. rewrite lookup_insert.
    split_and!; try done; destruct (decide (c = a)); try done.
    subst a. by replace ax with cx in * by congruence.
  - intros q qc Hqc. destruct (Hp q qc Hqc) as (? & ? & ? & ? & ? & ? & Hx & ?). split_and!; try done.
    intros j e' Hj. destruct (Hx j e' Hj) as (ey & Hey & Hid & Hch & ?). simpl. rewrite lookup_insert.
    case_decide as Hee; [|by exists ey]. subst e'. assert (ey = ex) as -> by congruence.
    destruct (Hli p pc _ e Hpc Hi) as (_ & Hun & _). assert (q = p) as -> by (by eapply Hun).
    exists ex'. split_and!; try done; [congruence|by right].
  - intros a ax. rewrite lookup_insert. case_decide as Ha.
    + subst a. intros [= <-]. destruct (Hc c cx Hcx) as (? & ? & ? & ? & Hnd & Hw & Him & ?). split_and!; try done.
      * simpl. apply list.NoDup_app. split; [done|]. split; [|apply NoDup_singleton].
        intros x Hx ->%list_elem_of_singleton. by eapply Hno.
      * intros x [Hx| ->%list_elem_of_singleton]%elem_of_app.
        -- assert (x <> e) by (intros ->; by eapply Hno). destruct (Hw x Hx) as (ey & ? & ? & ?).
           exists ey. split_and!; auto.
        -- exists ex'. simpl. rewrite lookup_insert_eq. by split_and!.
    + intros Hax. destruct (Hc a ax Hax) as (? & ? & ? & ? & Hnd & Hw & Him & ?). split_and!; try done.
      intros x Hx. assert (x <> e) by (intros ->; by eapply Hno). destruct (Hw x Hx) as (ey & ? & ? & ?).
      exists ey. split_and!; auto.
  - exact Hd.
  - destruct Hdrv as (? & Hu & ? & ? & Hr & ? & ? & Hhc & ? & Hh & Hi2). split_and!; try done.
    + intros a Ha. by apply Hsome, Hu.
    + intros x Hx. destruct (Hr x Hx) as (ey & ? & ? & Hn). exists ey.
      assert (x <> e) by (by intros ->). split_and!; auto.
      intros a ax Hax. destruct (Hback _ _ Hax) as (ay & ? & _ & _ & _ & Hsub & _).
      intros [?| ->]%Hsub; [by eapply Hn|done].
    + intros a Ha. by apply Hsome, Hhc.
    + intros x q Hin. destruct (Hh x q Hin) as (ey & qc & ? & ? & ? & ?). exists ey, qc.
      assert (x <> e). { intros ->. apply Hnd0. by eapply held_e_fst. } split_and!; auto; tauto.
    + intros a ax k b bx k' x Ga Gb. destruct (Hback _ _ Ga) as (ay & ? & _ & -> & _).
      destruct (Hback _ _ Gb) as (bz & ? & _ & -> & _). eauto.
  - pose proof (fresh_ctx_lt _ _ _ Hfr Hcx) as Hlt. destruct Hfr as (F1 & F2 & F3 & F4 & F5).
    split_and!; try apply F2; try done; cycle 1.
    { eapply (ctxs_below_insert w _ e ex'); [done|done|congruence|done]. }
    intros a Ha. destruct (F1 a Ha) as (? & ? & ? & ? & ?). split_and!; try done; simpl.
    + rewrite lookup_insert_ne; [done|congruence].
    + rewrite lookup_insert_ne; [done|congruence].
  - apply (open_ok_mono h h w); [done|by eauto| |done].
    intros a ax Hax. destruct (Hback _ _ Hax) as (ay & ? & -> & _). by exists ay.
  - intros q qc j x Hq Hj. destruct (Hli q qc j x Hq Hj) as (Hrng & Hun & Hl). split; [exact Hrng|]. split; [exact Hun|].
    intros ey a ax Hey Hsy Hcy Hax Hr. destruct (Hback _ _ Hax) as (ay & Hay & _ & _ & Hra & _ & Hsub).
    rewrite lookup_insert in Hey. case_decide as Hxe.
    + injection Hey as <-. subst x. assert (a = c) as -> by congruence.
      rewrite lookup_insert_eq in Hax. injection Hax as <-. simpl. apply elem_of_app. right. by left.
    + apply Hsub. eapply Hl; [done|done|done|done|lia].
Qed.
End lemmas.
