(* ===== verification/Context.v ===== *)
(** Contexts (hab.c; hab.h for the reference counting; the reclaim worker of
    hab_linux.c): a client's virtual channels, exports and imports, collected
    when the last reference goes. *)
From stdpp Require Import sorting.
From S2P Require Import Prelude Header World Logic Memory Invariant Pchan Exports.

Section ops.
Context {HS : Type} `{Platform HS}.
#[local] Abbreviation M := (World.M HS).

(** The second allocation is the importer context of [habmem_imp_hyp_open]. *)
(* src/hab.c:71-119 hab_ctx_alloc *)
Definition hab_ctx_alloc (kernel : bool) : M (option nat) :=
  let! a := kalloc in
  match a with
  | None => ret None
  | Some c =>
      let! i := kalloc in
      match i with
      | None => ret None
      | Some _ =>
          do! modify (fun w =>
            set_w_loopback_be (Z.lnot (w_loopback_be w))
              (set_w_ctx_cnt (w_ctx_cnt w + 1)
                (set_w_uctx_list (w_uctx_list w ++ [c])
                  (set_w_ctxs (<[c := Build_uhab_context 1 [] 0 [] 0 [] ∅ 0 [] [] 0 [] false
                                        kernel 0 (w_loopback_be w)]> (w_ctxs w)) w)))) in
          ret (Some c)
      end
  end.

(* src/hab.h:678-682 hab_ctx_get *)
Definition hab_ctx_get (c : nat) : M unit :=
  upd_c c (fun cx => set_cx_refcount (cx_refcount cx + 1) cx).

(** One turn of the loop over the export warehouse. *)
(* src/hab.c:150-177 hab_ctx_free *)
Definition ctx_free_export (c e : nat) : M unit :=
  do! upd_c c (fun cx => set_cx_exp_whse (list_del e (cx_exp_whse cx)) cx) in
  let! ex := get_e e in
  let! still :=
    (if es_remote_imported ex =? 0 then ret false
     else
       let! p := deref (ed_pchan (es_exp ex)) in
       let! pc := get_p p in
       ret (pc_mem_proto pc =? 1)) in
  if (still : bool) then
    do! modify (fun w => set_w_reclaim_list (w_reclaim_list w ++ [e]) w) in
    log EvReclaimWork
  else
    let! p := deref (ed_pchan (es_exp ex)) in
    do! expid_remove p (ed_export_id (es_exp ex)) in
    habmem_remove_export e.

(** The 4 bytes of an export id. *)
Definition export_id_bytes (i : Z) : bytes := le_enc 4 i.

(** One turn of the loop over the import tree; [k] is the key of the node. *)
(* src/hab.c:179-208 hab_ctx_free *)
Definition ctx_free_import (c : nat) (kernel : bool) (k : Z * nat) (e : nat) : M unit :=
  do! upd_c c (fun cx =>
    set_cx_import_total (u32 (cx_import_total cx - 1))
      (set_cx_imp_whse (delete k (cx_imp_whse cx)) cx)) in
  let! ex := get_i e in
  let r := habmm_imp_hyp_unmap (es_exp ex) kernel in
  let! p := deref (ed_pchan (es_exp ex)) in
  let! pc := get_p p in
  do! when ((pc_mem_proto pc =? 1) && (r =? 0))
    (do! physical_channel_send p
       (mk_header 4 HAB_PAYLOAD_TYPE_UNIMPORT HAB_VCID_UNIMPORT HAB_SESSIONID_UNIMPORT)
       (export_id_bytes (ed_export_id (es_exp ex))) in ret tt) in
  modify (fun w => set_w_imps (delete e (w_imps w)) w).

(** The order of the import tree: export id first, then channel. *)
Definition imp_le (a b : Z * nat * nat) : Prop :=
  a.1.1 < b.1.1 \/ (a.1.1 = b.1.1 /\ (a.1.2 <= b.1.2)%nat).

#[export] Instance imp_le_dec a b : Decision (imp_le a b).
Proof. unfold imp_le. apply _. Defined.

Definition imp_sorted (m : gmap (Z * nat) nat) : list (Z * nat * nat) :=
  merge_sort imp_le (map_to_list m).

(** Reading a virtual channel for a report. *)
Definition touch_v (v : nat) : M unit := let! _ := get_v v in ret tt.

(* src/hab.c:122-288 hab_ctx_free *)
Definition hab_ctx_free (c : nat) : M unit :=
  do! upd_c c (set_cx_forbidden []) in
  let! cx := get_c c in
  do! for_each (ctx_free_export c) (cx_exp_whse cx) in
  let! cx := get_c c in
  do! for_each (fun ke => ctx_free_import c (cx_kernel cx) (ke.1) (ke.2))
    (imp_sorted (cx_imp_whse cx)) in
  do! upd_c c (fun cx => set_cx_exp_rxq [] (set_cx_imp_rxq [] cx)) in
  do! modify (fun w =>
    set_w_uctx_list (list_del c (w_uctx_list w)) (set_w_ctx_cnt (w_ctx_cnt w - 1) w)) in
  let! cx := get_c c in
  do! for_each touch_v (cx_vchannels cx) in
  let! devs := gets w_devs in
  do! for_each (fun d => for_each (fun p =>
         let! pc := get_p p in for_each touch_v (pc_vchannels pc)) (dv_pchannels d)) devs in
  modify (fun w => set_w_ctxs (delete c (w_ctxs w)) w).

(* src/hab.h:684-688 hab_ctx_put *)
Definition hab_ctx_put (c : nat) : M unit :=
  let! cx := get_c c in
  if cx_refcount cx <=? 0 then fail RefUnderflow
  else
    do! upd_c c (set_cx_refcount (cx_refcount cx - 1)) in
    when (cx_refcount cx =? 1) (hab_ctx_free c).

(** The two halves of the reclaim worker: the entries that are free to go move
    off the list, then each is released. *)
(* src/hab_linux.c:334-338 reclaim_cleanup *)
Fixpoint reclaim_pick (l : list nat) : M (list nat) :=
  match l with
  | [] => ret []
  | e :: l =>
      let! ex := get_e e in
      if es_remote_imported ex =? 0 then
        do! modify (fun w => set_w_reclaim_list (list_del e (w_reclaim_list w)) w) in
        let! r := reclaim_pick l in
        ret (e :: r)
      else reclaim_pick l
  end.

(* src/hab_linux.c:341-350 reclaim_cleanup *)
Definition reclaim_one (e : nat) : M unit :=
  let! ex := get_e e in
  let! p := deref (ed_pchan (es_exp ex)) in
  do! expid_remove p (ed_export_id (es_exp ex)) in
  habmem_export_put e.

(* src/hab_linux.c:325-351 reclaim_cleanup *)
Definition reclaim_cleanup : M unit :=
  let! l := gets w_reclaim_list in
  let! free_list := reclaim_pick l in
  for_each reclaim_one free_list.

(** The first virtual channel of the context with this id, unless it is closed. *)
Fixpoint vcid_walk (vcid : Z) (ignore_remote : bool) (l : list nat) : M (option nat) :=
  match l with
  | [] => ret None
  | v :: l =>
      let! vc := get_v v in
      if vcid =? vc_id vc then
        if (negb ignore_remote && vc_otherend_closed vc) || vc_closed vc
           || (vc_refcount vc =? 0)
        then ret None
        else
          do! upd_v v (set_vc_refcount (vc_refcount vc + 1)) in
          ret (Some v)
      else vcid_walk vcid ignore_remote l
  end.

(* src/hab.c:290-318 hab_get_vchan_fromvcid *)
Definition hab_get_vchan_fromvcid (vcid : Z) (c : nat) (ignore_remote : bool) : M (option nat) :=
  let! cx := get_c c in
  vcid_walk vcid ignore_remote (cx_vchannels cx).
End ops.

(** ** Collecting a context *)

Section lemmas.
Context {HS : Type} `{Platform HS}.
Implicit Types (w : world HS) (h : held).

Lemma wf_whse_owned h w c cx e :
  wf h w -> w_ctxs w !! c = Some cx -> e ∈ cx_exp_whse cx ->
  exists ex, w_exps w !! e = Some ex /\ export_owned w e ex /\ ed_ctx (es_exp ex) = Some c.
Proof. intros Hwf Hcx He. destruct (wf_c _ _ Hwf c cx Hcx) as (_ & _ & _ & _ & _ & Hx & _). auto. Qed.

(** An export sits in one warehouse only, and then not on the reclaim list. *)
Lemma wf_whse_unique h w c cx c' cx' e :
  wf h w -> w_ctxs w !! c = Some cx -> w_ctxs w !! c' = Some cx' ->
  e ∈ cx_exp_whse cx -> e ∈ cx_exp_whse cx' -> c = c'.
Proof.
  intros Hwf H1 H2 E1 E2.
  destruct (wf_whse_owned _ _ _ _ _ Hwf H1 E1) as (ex & ? & _ & ?).
  destruct (wf_whse_owned _ _ _ _ _ Hwf H2 E2) as (ex' & ? & _ & ?). congruence.
Qed.

Lemma wf_whse_not_reclaimed h w c cx e :
  wf h w -> w_ctxs w !! c = Some cx -> e ∈ cx_exp_whse cx -> e ∉ w_reclaim_list w.
Proof.
  intros Hwf Hcx He Hr. destruct (wf_drv _ _ Hwf) as (_ & _ & _ & _ & Hrl & _).
  destruct (Hrl e Hr) as (_ & _ & _ & Hn). by eapply Hn.
Qed.

(** A context that nobody refers to any more lets go of an export. *)
Lemma wf_whse_del h w c cx e :
  wf h w -> w_ctxs w !! c = Some cx -> cx_refcount cx <= 0 -> e ∈ cx_exp_whse cx ->
  let w' := set_w_ctxs (<[c := set_cx_exp_whse (list_del e (cx_exp_whse cx)) cx]> (w_ctxs w)) w in
  wf h w' /\ (forall a ax, w_ctxs w' !! a = Some ax -> e ∉ cx_exp_whse ax).
Proof.
  intros Hwf Hcx Hr0 He. simpl. split.
  - eapply wf_ctx_refs; try done; simpl.
    + apply NoDup_list_del.
    + by intros e' [? _]%elem_of_list_del.
    + lia.
    + auto.
  - intros a ax. rewrite lookup_insert. case_decide.
    + intros [= <-]. simpl. rewrite elem_of_list_del. by intros [_ []].
    + intros Hax Hin. by apply (wf_whse_unique _ _ _ _ _ _ _ Hwf Hcx Hax He) in Hin.
Qed.

(** An owned export that is in no warehouse may wait on the reclaim list. *)
Lemma wf_reclaim_push h w e ex :
  wf h w -> w_exps w !! e = Some ex -> export_owned w e ex ->
  (forall a ax, w_ctxs w !! a = Some ax -> e ∉ cx_exp_whse ax) -> e ∉ w_reclaim_list w ->
  wf h (set_w_reclaim_list (w_reclaim_list w ++ [e]) w).
Proof.
  intros [Hv Hp Hc Hd Hdrv Hfr Hop Hli] He Ho Hn Hr. constructor; try done.
  destruct Hdrv as (D1 & D2 & D3 & Hnd & Hrl & Hrest).
  do 3 (split; [done|]). split; [|split; [|exact Hrest]]; simpl.
  - apply list.NoDup_app. split; [done|]. split; [|apply NoDup_singleton].
    intros x Hx ->%list_elem_of_singleton. done.
  - intros e' [?| ->%list_elem_of_singleton]%elem_of_app; [by apply Hrl|].
    exists ex. by split_and!.
Qed.

(** Collecting contexts and exports leaves the virtual channels and their ids. *)
Definition keeps w w' : Prop :=
  w_vchans w' = w_vchans w /\ same_view pc_vchan_idr (w_pchans w) (w_pchans w').

Lemma keeps_refl w : keeps w w.
Proof. by split. Qed.

Lemma keeps_trans w1 w2 w3 : keeps w1 w2 -> keeps w2 w3 -> keeps w1 w3.
Proof. intros [? S1] [? S2]. split; [congruence|]. intros k. by rewrite (S2 k), (S1 k). Qed.

Lemma keeps_io w w' : io_frame w w' -> keeps w w'.
Proof.
  intros Hio. split; [apply Hio|]. intros k.
  pose proof (fr_p _ _ (io_fr _ _ Hio) k) as Hk.
  destruct (w_pchans w !! k), (w_pchans w' !! k); try done.
  injection Hk as _ _ Hk _ _ _. simpl. by rewrite Hk.
Qed.

Definition ctx_left w (c : nat) (l : list nat) w0 : Prop :=
  keeps w0 w /\ exists cx, w_ctxs w !! c = Some cx /\ cx_exp_whse cx = l /\ cx_refcount cx <= 0.

Lemma ctx_free_export_spec h w c e l w0 :
  wf h w -> ctx_left w c (e :: l) w0 ->
  wp (ctx_free_export c e) (fun _ w' => wf h w' /\ ctx_left w' c l w0) w.
Proof.
  intros Hwf (Hvs & cx & Hcx & Hl & Hr0). assert (He : e ∈ cx_exp_whse cx) by (rewrite Hl; by left).
  assert (Hdel : list_del e (cx_exp_whse cx) = l).
  { destruct (wf_c _ _ Hwf c cx Hcx) as (_ & _ & _ & _ & Hnd & _). rewrite Hl in *.
    apply list.NoDup_cons in Hnd as [Hnd _]. unfold list_del. rewrite filter_cons.
    rewrite decide_False by auto. by apply list_del_notin. }
  destruct (wf_whse_owned _ _ _ _ _ Hwf Hcx He) as (ex & Hex & Ho & Hctx).
  pose proof (wf_whse_not_reclaimed _ _ _ _ _ Hwf Hcx He) as Hnr.
  destruct (wf_whse_del _ _ _ _ _ Hwf Hcx Hr0 He) as [Hwf1 Hn1]. rewrite Hdel in *.
  pose proof Ho as (p & pc & Hp & Hpc & _ & Hst & Hpd & Hrc).
  unfold ctx_free_export. apply wp_bind. eapply wp_upd_c; [done|]. rewrite Hdel.
  apply wp_bind. eapply wp_get_e; [done|].
  apply wp_bind. apply (wp_mono _ (fun _ w' => w' =
    set_w_ctxs (<[c := set_cx_exp_whse l cx]> (w_ctxs w)) w)).
  { destruct (Z.eqb_spec (es_remote_imported ex) 0); [done|]. rewrite Hp. apply wp_bind, wp_deref.
    apply wp_bind. by eapply wp_get_p. }
  intros still w1 ->. destruct still.
  - apply wp_bind, wp_modify, wp_log. split.
    + eapply wf_frame; [apply frame_log|]. by eapply wf_reclaim_push.
    + split; [exact Hvs|]. eexists. split; [apply lookup_insert_eq|done].
  - rewrite Hp. apply wp_bind, wp_deref. apply wp_bind. eapply wp_mono.
    + eapply (expid_remove_spec h); try done. by eapply owned_not_held.
    + intros [] w2 (Hwf2 & Hun & pc1 & Hpc1 & ->). simpl in Hpc1. eapply wp_mono.
      * eapply habmem_remove_export_spec; try done. apply lookup_insert_eq.
      * intros [] w3 (Hwf3 & ->). split; [done|]. split.
        { eapply keeps_trans; [exact Hvs|]. split; [done|].
          by eapply same_view_insert. }
        eexists. split; [apply lookup_insert_eq|done].
Qed.
(** An import node that is in no tree may be rewritten or freed. *)
Lemma wf_imp_unref h w e m' :
  wf h w -> is_Some (w_imps w !! e) ->
  (forall ex, m' !! e = Some ex -> table_fits (es_exp ex) = true) ->
  (forall c cx k, w_ctxs w !! c = Some cx -> cx_imp_whse cx !! k <> Some e) ->
  (forall k, k <> e -> m' !! k = w_imps w !! k) ->
  wf h (set_w_imps m' w).
Proof.
  intros [Hv Hp Hc Hd Hdrv Hfr Hop Hli] [ex He] Ht Hn Hm. constructor; try done; simpl.
  - intros c cx Hcx. destruct (Hc c cx Hcx) as (? & ? & ? & ? & ? & ? & Hi & ?).
    split_and!; try done. intros k e' Hk. simpl. rewrite Hm; [by apply Hi|].
    intros ->. by apply (Hn c cx k).
  - destruct Hfr as (Hfr & Hids & Himp & Hk). split; [|split; [done|split; [|done]]].
    + intros a Ha. destruct (Hfr a Ha) as (? & ? & ? & ? & ?). split_and!; try done. simpl.
      rewrite Hm; congruence.
    + intros e' ex' He'. simpl in He'. destruct (decide (e' = e)) as [->|]; [by apply Ht|].
      rewrite Hm in He' by done. by eapply Himp.
Qed.

Definition ctx_imports w (c : nat) (l : list (Z * nat * nat)) w0 :=
  keeps w0 w /\ NoDup l.*1 /\
  exists cx, w_ctxs w !! c = Some cx /\ cx_exp_whse cx = [] /\
    forall k e, cx_imp_whse cx !! k = Some e <-> (k, e) ∈ l.

(** The context lets go of an import node. *)
Lemma wf_imp_del h w c cx k e :
  wf h w -> w_ctxs w !! c = Some cx -> cx_imp_whse cx !! k = Some e ->
  let cx' := set_cx_import_total (u32 (cx_import_total cx - 1))
      (set_cx_imp_whse (delete k (cx_imp_whse cx)) cx) in
  let w' := set_w_ctxs (<[c := cx']> (w_ctxs w)) w in
  wf h w' /\ (forall a ax j, w_ctxs w' !! a = Some ax -> cx_imp_whse ax !! j <> Some e).
Proof.
  intros Hwf Hcx Hk. simpl. split.
  - eapply wf_ctx_refs; try done; simpl.
    + by intros j x [_ ?]%lookup_delete_Some.
    + auto.
  - intros a ax j. rewrite lookup_insert.
    destruct (wf_c _ _ Hwf c cx Hcx) as (_ & _ & _ & _ & _ & _ & Hi & _).
    destruct (Hi k e Hk) as (ex & Hex & E1 & E2 & _).
    case_decide as Ha.
    + intros [= <-]. simpl. intros [Hne Hj]%lookup_delete_Some.
      destruct (Hi j e Hj) as (ex' & Hex' & F1 & F2 & _). apply Hne.
      destruct k, j; simpl in *. f_equal; congruence.
    + intros Hax Hj. apply Ha.
      destruct (wf_drv _ _ Hwf) as (_ & _ & _ & _ & _ & _ & _ & _ & _ & _ & Hu). eauto.
Qed.

Lemma ctx_free_import_spec h w c kernel k e l w0 :
  wf h w -> ctx_imports w c ((k, e) :: l) w0 ->
  wp (ctx_free_import c kernel k e) (fun _ w' => wf h w' /\ ctx_imports w' c l w0) w.
Proof.
  intros Hwf (Hvs & Hnd & cx & Hcx & Hwh & Hl).
  assert (Hk : cx_imp_whse cx !! k = Some e) by (apply Hl; by left).
  destruct (wf_c _ _ Hwf c cx Hcx) as (_ & _ & _ & _ & _ & _ & Hi & _).
  destruct (Hi k e Hk) as (ex & Hex & _ & Hp & [pc Hpc]).
  destruct (wf_imp_del _ _ _ _ _ _ Hwf Hcx Hk) as [Hwf1 Hn1].
  unfold ctx_free_import. apply wp_bind. eapply wp_upd_c; [done|].
  apply wp_bind. eapply wp_get_i; [done|]. cbv zeta. rewrite Hp. apply wp_bind, wp_deref.
  apply wp_bind. eapply wp_get_p; [done|]. apply wp_bind.
  set (w1 := set_w_ctxs _ w) in *.
  apply (wp_mono _ (fun _ w' => io_frame w1 w')).
  { apply wp_when; [intros _|intros _; apply io_frame_refl]. apply wp_bind.
    eapply wp_physical_channel_send; [done|by eexists|]. by intros r w' Hio _. }
  intros _ w2 Hio. apply wp_modify.
  simpl in Hnd. apply list.NoDup_cons in Hnd as [Hnd1 Hnd2]. split.
  - eapply (wf_imp_unref _ _ e);
      [by eapply wf_io_frame|rewrite (io_i _ _ Hio); by eexists|by intros ?; rewrite lookup_delete_eq| |].
    + intros a ax j. rewrite (io_c _ _ Hio). apply Hn1.
    + intros j Hj. by rewrite lookup_delete_ne.
  - split; [eapply keeps_trans; [exact Hvs|exact (keeps_io w1 w2 Hio)]|]. split; [done|]. simpl. rewrite (io_c _ _ Hio).
    eexists. split; [apply lookup_insert_eq|]. split; [done|]. simpl. intros j x.
    rewrite lookup_delete_Some, Hl, elem_of_cons. split.
    + intros (Hne & [[=]|?]); [congruence|done].
    + intros Hin. split; [|by right]. intros <-. apply Hnd1.
      apply list_elem_of_fmap. by exists (k, x).
Qed.

Lemma touch_all w l :
  Forall (fun v => is_Some (w_vchans w !! v)) l -> wp (for_each touch_v l) (fun _ w' => w' = w) w.
Proof.
  intros Hl. apply (wp_for_each (fun l' w' => w' = w /\
    Forall (fun v => is_Some (w_vchans w !! v)) l')); [done| |by intros w' [-> _]].
  intros v l' w' [-> Hf]. apply list.Forall_cons in Hf as [[vc Hv] Hf].
  apply wp_bind. eapply wp_get_v; [done|]. by apply wp_ret.
Qed.

Lemma wf_pchan_vchans h w p pc :
  wf h w -> w_pchans w !! p = Some pc ->
  Forall (fun v => is_Some (w_vchans w !! v)) (pc_vchannels pc).
Proof.
  intros Hwf Hpc. apply Forall_forall. intros v Hv. apply list_elem_of_In in Hv.
  destruct (wf_p _ _ Hwf p pc Hpc) as (_ & _ & _ & _ & Hx & _).
  destruct (Hx v Hv) as (vc & [? _]%vchans_of_lookup & _). by eexists.
Qed.

Lemma wf_ctx_vchans h w c cx :
  wf h w -> w_ctxs w !! c = Some cx ->
  Forall (fun v => is_Some (w_vchans w !! v)) (cx_vchannels cx).
Proof.
  intros Hwf Hcx. apply Forall_forall. intros v Hv. apply list_elem_of_In in Hv.
  destruct (wf_c _ _ Hwf c cx Hcx) as (_ & _ & _ & Hx & _).
  destruct (Hx v Hv) as (vc & [? _]%vchans_of_lookup & _). by eexists.
Qed.

(** A context that owns nothing and that nobody refers to may be freed. *)
Lemma wf_ctx_delete h w c cx :
  wf h w -> w_ctxs w !! c = Some cx ->
  cx_exp_whse cx = [] -> cx_imp_whse cx = ∅ ->
  (forall v vc, vchans_of h w !! v = Some vc -> vc_ctx vc <> Some c) -> c ∉ h_c h ->
  wf h (set_w_ctxs (delete c (w_ctxs w))
    (set_w_uctx_list (list_del c (w_uctx_list w)) (set_w_ctx_cnt (w_ctx_cnt w - 1) w))).
Proof.
  intros [Hv Hp Hc Hd Hdrv Hfr Hop Hli] Hcx Hw Him Hnv Hnh.
  assert (Hkeep : forall a ax, w_ctxs w !! a = Some ax -> a <> c ->
    delete c (w_ctxs w) !! a = Some ax) by (intros; by rewrite lookup_delete_ne).
  constructor; simpl.
  - intros v vc Hl. destruct (Hv v vc Hl) as (pc & a & ax & ? & ? & ? & Ha & ? & ? & ?).
    exists pc, a, ax. split_and!; try done. simpl. apply Hkeep; [done|]. intros ->. by eapply Hnv.
  - apply Hp.
  - intros a ax [Hne Hax]%lookup_delete_Some.
    destruct (Hc a ax Hax) as (? & ? & ? & ? & ? & ? & ? & ?). split_and!; try done. simpl.
    by apply elem_of_list_del.
  - apply Hd.
  - destruct Hdrv as (Hnd & Hu & Hcnt & ? & Hr & ? & ? & Hhc & ? & ? & Hi).
    destruct (Hc c cx Hcx) as (Hin & _). unfold driver_ok. simpl. split_and!; try done.
    + by apply NoDup_list_del.
    + intros a [Ha Hne]%elem_of_list_del. destruct (Hu a Ha) as [ax ?]. exists ax. by apply Hkeep.
    + rewrite Hcnt. unfold zlen. rewrite (list_del_length c (w_uctx_list w)) by done. lia.
    + intros e He. destruct (Hr e He) as (ex & ? & ? & Hn). exists ex. split_and!; try done.
      intros a ax [_ Hax]%lookup_delete_Some. eauto.
    + intros a Ha. destruct (Hhc a Ha) as [ax ?]. exists ax. apply Hkeep; [done|]. by intros ->.
    + intros a ax k b bx k' e [_ G1]%lookup_delete_Some [_ G2]%lookup_delete_Some. eauto.
  - split; [|apply Hfr]. intros a Ha. destruct (proj1 Hfr a Ha) as (? & ? & ? & ? & ?). split_and!; try done. simpl.
    by apply lookup_delete_None; right.
  - apply (open_ok_mono h h w); [done|by eauto| |done].
    intros a ax. simpl. intros [_ Hax]%lookup_delete_Some. eauto.
  - apply (listed_ok_mono (w_pchans w) (w_ctxs w) (w_exps w)); [by eauto| |by eauto 10|done].
    intros a ax [_ Hax]%lookup_delete_Some. eauto.
Qed.

Lemma imp_sorted_perm m : imp_sorted m ≡ₚ map_to_list m.
Proof. apply merge_sort_Permutation. Qed.

Lemma touch_devices h w (devs : list hab_device) :
  Forall (fun d => Forall (fun p => is_Some (w_pchans w !! p)) (dv_pchannels d)) devs ->
  (forall p pc, w_pchans w !! p = Some pc ->
    Forall (fun v => is_Some (w_vchans w !! v)) (pc_vchannels pc)) ->
  wp (for_each (fun d => for_each (fun p =>
        let! pc := get_p p in for_each touch_v (pc_vchannels pc)) (dv_pchannels d)) devs)
    (fun _ w' => w' = w) w.
Proof.
  intros Hd Hp. apply (wp_for_each (fun l' w' => w' = w /\
    Forall (fun d => Forall (fun p => is_Some (w_pchans w !! p)) (dv_pchannels d)) l'));
    [done| |by intros w' [-> _]].
  intros d l' w' [-> Hf]. apply list.Forall_cons in Hf as [Hd1 Hf].
  apply (wp_mono _ (fun _ w' => w' = w)); [|by intros [] w' ->].
  apply (wp_for_each (fun l' w' => w' = w /\ Forall (fun p => is_Some (w_pchans w !! p)) l'));
    [done| |by intros w' [-> _]].
  intros p l'' w' [-> Hf']. apply list.Forall_cons in Hf' as [[pc Hpc] Hf'].
  apply wp_bind. eapply wp_get_p; [done|].
  eapply wp_mono; [apply touch_all; eauto|]. by intros [] w' ->.
Qed.

Lemma hab_ctx_free_spec h w c cx :
  wf h w -> w_ctxs w !! c = Some cx -> cx_refcount cx <= 0 ->
  (forall v vc, vchans_of h w !! v = Some vc -> vc_ctx vc <> Some c) -> c ∉ h_c h ->
  wp (hab_ctx_free c) (fun _ w' => wf h w' /\ keeps w w') w.
Proof.
  intros Hwf Hcx Hr0 Hnv Hnh. unfold hab_ctx_free.
  apply wp_bind. eapply wp_upd_c; [done|].
  set (w1 := set_w_ctxs _ w). assert (Hwf1 : wf h w1).
  { eapply wf_frame; [|done]. by eapply frame_ctx. }
  apply wp_bind. eapply wp_get_c; [apply lookup_insert_eq|]. simpl cx_exp_whse.
  apply wp_bind. apply (wp_for_each (fun l w' => wf h w' /\ ctx_left w' c l w)).
  { split; [done|]. split; [exact (keeps_refl w)|]. eexists. split; [apply lookup_insert_eq|done]. }
  { intros e l w' [? ?]. by apply ctx_free_export_spec. }
  intros w2 [Hwf2 (Hvs2 & cx2 & Hcx2 & Hw2 & _)].
  apply wp_bind. eapply wp_get_c; [done|]. apply wp_bind.
  apply (wp_for_each (fun l w' => wf h w' /\ ctx_imports w' c l w)).
  { split; [done|]. split; [done|]. split.
    - rewrite imp_sorted_perm. apply NoDup_fst_map_to_list.
    - exists cx2. split; [done|]. split; [done|]. intros k e.
      by rewrite imp_sorted_perm, elem_of_map_to_list. }
  { intros [k e] l w' [? ?]. by apply ctx_free_import_spec. }
  intros w3 [Hwf3 (Hvs3 & _ & cx3 & Hcx3 & Hw3 & Hi3)].
  apply wp_bind. eapply wp_upd_c; [done|]. set (w4 := set_w_ctxs _ w3).
  assert (Hwf4 : wf h w4).
  { eapply wf_frame; [|done]. by eapply frame_ctx. }
  apply wp_bind, wp_modify. apply wp_bind. eapply wp_get_c; [apply lookup_insert_eq|].
  apply wp_bind. eapply wp_mono; [apply touch_all; exact (wf_ctx_vchans h w3 c cx3 Hwf3 Hcx3)|].
  intros _ w5 ->. apply wp_bind, wp_gets. apply wp_bind.
  eapply wp_mono; [apply (touch_devices h)|].
  { apply Forall_forall. intros d Hd%list_elem_of_In. simpl in Hd.
    apply list_elem_of_lookup in Hd as [i Hd]. exact (wf_dev_pchannels h w3 i d Hwf3 Hd). }
  { intros p pc Hpc. exact (wf_pchan_vchans h w3 p pc Hwf3 Hpc). }
  intros _ w6 ->. apply wp_modify. split; [|exact Hvs3].
  apply (wf_ctx_delete h w4 c (set_cx_exp_rxq [] (set_cx_imp_rxq [] cx3))); try done.
  - apply lookup_insert_eq.
  - apply map_eq. intros k. rewrite lookup_empty. simpl.
    destruct (cx_imp_whse cx3 !! k) as [e|] eqn:Hk; [|done].
    apply Hi3, elem_of_nil in Hk. done.
  - intros v vc Hl. apply (Hnv v vc). unfold vchans_of in *. simpl in Hl. by rewrite (proj1 Hvs3) in Hl.
Qed.

(** Dropping a held reference; the last one collects the context. *)
Lemma hab_ctx_put_spec h w c :
  wf (held_c c h) w ->
  wp (hab_ctx_put c) (fun _ w' => wf h w' /\ keeps w w') w.
Proof.
  intros Hwf. destruct (wf_drv _ _ Hwf) as (_ & _ & _ & _ & _ & _ & _ & Hhc & _).
  destruct (Hhc c) as [cx Hcx]; [by left|].
  destruct (wf_c _ _ Hwf c cx Hcx) as (_ & _ & _ & _ & _ & _ & _ & Hr).
  simpl in Hr. rewrite decide_True in Hr by done.
  change (vchans_of (held_c c h) w) with (vchans_of h w) in Hr.
  pose proof (occ_nonneg c (h_c h)).
  pose proof (count_nonneg (fun vc => bool_decide (vc_ctx vc = Some c)) (vchans_of h w)).
  unfold hab_ctx_put. apply wp_bind. eapply wp_get_c; [done|].
  destruct (Z.leb_spec (cx_refcount cx) 0); [lia|].
  apply wp_bind. eapply wp_upd_c; [done|].
  assert (Hwf1 : wf h (set_w_ctxs (<[c := set_cx_refcount (cx_refcount cx - 1) cx]> (w_ctxs w)) w)).
  { eapply wf_ctx_refs; try done; simpl.
    - rewrite decide_True by done. lia.
    - intros a Ha. by rewrite decide_False by congruence.
    - intros a Ha. left. by right. }
  apply wp_when; [|by intros _].
  intros Heq%Z.eqb_eq. eapply wp_mono; [eapply hab_ctx_free_spec; [done|apply lookup_insert_eq|simpl; lia|..]|].
  - intros v vc Hl Hc.
    pose proof (count_pos (fun vc => bool_decide (vc_ctx vc = Some c)) _ _ _ Hl) as Hpos.
    simpl in Hpos. rewrite bool_decide_eq_true_2 in Hpos by done. specialize (Hpos eq_refl).
    change (vchans_of h (set_w_ctxs _ w)) with (vchans_of h w) in Hpos. lia.
  - apply occ_zero. lia.
  - intros _ w' [? Hv]. by split.
Qed.

(** A context that a thread holds has a reference. *)
Lemma wf_ctx_held h w c :
  wf h w -> c ∈ h_c h -> exists cx, w_ctxs w !! c = Some cx /\ 1 <= cx_refcount cx.
Proof.
  intros Hwf Hin. destruct (wf_drv _ _ Hwf) as (_ & _ & _ & _ & _ & _ & _ & Hhc & _).
  destruct (Hhc c Hin) as [cx Hcx]. exists cx. split; [done|].
  destruct (wf_c _ _ Hwf c cx Hcx) as (_ & _ & _ & _ & _ & _ & _ & Hr).
  pose proof (occ_pos _ _ Hin). pose proof (count_nonneg (fun vc => bool_decide (vc_ctx vc = Some c)) (vchans_of h w)).
  lia.
Qed.

Lemma hab_ctx_get_spec h w c :
  wf h w -> c ∈ h_c h ->
  wp (hab_ctx_get c) (fun _ w' => wf (held_c c h) w' /\ exists cx, w_ctxs w !! c = Some cx /\
    w' = set_w_ctxs (<[c := set_cx_refcount (cx_refcount cx + 1) cx]> (w_ctxs w)) w) w.
Proof.
  intros Hwf Hin. destruct (wf_ctx_held _ _ _ Hwf Hin) as (cx & Hcx & Hr).
  eapply wp_upd_c; [done|]. split; [|by eauto].
  eapply wf_ctx_refs; try done; simpl.
  - intros _. split; [lia|done].
  - rewrite decide_True by done. lia.
  - intros a Ha. by rewrite decide_False by congruence.
  - intros a [->|?]%elem_of_cons; auto.
Qed.

(** A reference taken on a live virtual channel. *)
Lemma wf_vchan_take h w v vc :
  wf h w -> vchans_of h w !! v = Some vc ->
  wf (held_v v h) (set_w_vchans (<[v := set_vc_refcount (vc_refcount vc + 1) vc]> (w_vchans w)) w).
Proof.
  intros Hwf Hv. eapply wf_vchan_refs; try done; simpl.
  - rewrite decide_True by done. lia.
  - intros u Hu. by rewrite decide_False by congruence.
  - intros u [->|?]%elem_of_cons; auto.
Qed.

(** What a successful lookup by vcid tells. *)
Definition found_vchan (h : held) (w : world HS) (c : nat) (vcid : Z) (ignore_remote : bool)
    (v : nat) (vc : virtual_channel) : Prop :=
  vchans_of h w !! v = Some vc /\ vc_ctx vc = Some c /\ vc_id vc = vcid /\
  vc_closed vc = false /\ (ignore_remote = false -> vc_otherend_closed vc = false).

Lemma vcid_walk_spec h w c vcid ign l (Q : option nat -> world HS -> Prop) :
  wf h w ->
  Forall (fun v => exists vc, vchans_of h w !! v = Some vc /\ vc_ctx vc = Some c) l ->
  Q None w ->
  (forall v vc, found_vchan h w c vcid ign v vc -> v ∈ l ->
     wf (held_v v h) (set_w_vchans (<[v := set_vc_refcount (vc_refcount vc + 1) vc]> (w_vchans w)) w) ->
     Q (Some v) (set_w_vchans (<[v := set_vc_refcount (vc_refcount vc + 1) vc]> (w_vchans w)) w)) ->
  wp (vcid_walk vcid ign l) Q w.
Proof.
  intros Hwf Hl HN HS_. induction l as [|v l IH]; simpl; [by apply wp_ret|].
  apply list.Forall_cons in Hl as [(vc & Hv & Hc) Hl].
  pose proof (vchans_of_lookup _ _ _ _ Hv) as [Hv' _].
  apply wp_bind. eapply wp_get_v; [done|]. destruct (Z.eqb_spec vcid (vc_id vc)).
  - destruct ((negb ign && vc_otherend_closed vc) || vc_closed vc || (vc_refcount vc =? 0)) eqn:Hb;
      [by apply wp_ret|].
    apply orb_false_iff in Hb as [[Hb1 Hb2]%orb_false_iff _].
    apply wp_bind. eapply wp_upd_v; [done|]. apply wp_ret. apply HS_; [|by left|by apply wf_vchan_take].
    split_and!; try done. intros ->. by destruct (vc_otherend_closed vc).
  - apply IH; [done|]. intros u uc ? ?. apply HS_; [done|by right].
Qed.

(** The lookup by vcid on a list whose first channel of that id is [v]. *)
Lemma hab_get_vchan_fromvcid_eq w c cx l1 v l2 vc vcid ign :
  w_ctxs w !! c = Some cx -> cx_vchannels cx = l1 ++ v :: l2 ->
  Forall (fun u => exists uc, w_vchans w !! u = Some uc /\ vc_id uc <> vcid) l1 ->
  w_vchans w !! v = Some vc -> vc_id vc = vcid -> vc_closed vc = false -> 1 <= vc_refcount vc ->
  (ign = false -> vc_otherend_closed vc = false) ->
  hab_get_vchan_fromvcid vcid c ign w =
    Ok (Some v, set_w_vchans (<[v := set_vc_refcount (vc_refcount vc + 1) vc]> (w_vchans w)) w).
Proof.
  intros Hc Hl Hl1 Hv Hid Hcl Href Hign. unfold hab_get_vchan_fromvcid, bind, get_c. rewrite Hc, Hl.
  clear Hl. induction Hl1 as [|u l1 (uc & Hu & Hne) _ IH]; simpl; unfold bind, get_v, upd_v, ret.
  - rewrite Hv, Hid, Z.eqb_refl, Hcl, orb_false_r.
    replace (negb ign && vc_otherend_closed vc) with false.
    2: { destruct ign; [done|]. by rewrite Hign. }
    destruct (Z.eqb_spec (vc_refcount vc) 0); [lia|]. cbn. by rewrite Hv.
  - rewrite Hu. destruct (Z.eqb_spec vcid (vc_id uc)); [by destruct Hne|]. exact IH.
Qed.

Lemma hab_get_vchan_fromvcid_spec h w c vcid ign (Q : option nat -> world HS -> Prop) :
  wf h w -> is_Some (w_ctxs w !! c) ->
  Q None w ->
  (forall v vc, found_vchan h w c vcid ign v vc ->
     wf (held_v v h) (set_w_vchans (<[v := set_vc_refcount (vc_refcount vc + 1) vc]> (w_vchans w)) w) ->
     Q (Some v) (set_w_vchans (<[v := set_vc_refcount (vc_refcount vc + 1) vc]> (w_vchans w)) w)) ->
  wp (hab_get_vchan_fromvcid vcid c ign) Q w.
Proof.
  intros Hwf [cx Hcx] HN HS_. unfold hab_get_vchan_fromvcid.
  apply wp_bind. eapply wp_get_c; [done|]. eapply vcid_walk_spec; [done| |done|by eauto].
  apply Forall_forall. intros v Hv%list_elem_of_In.
  destruct (wf_c _ _ Hwf c cx Hcx) as (_ & _ & _ & Hx & _). eauto.
Qed.

(** An owned export that is on no list. *)
Definition off_list w (e : nat) : Prop :=
  (exists ex, w_exps w !! e = Some ex /\ export_owned w e ex) /\
  (forall c cx, w_ctxs w !! c = Some cx -> e ∉ cx_exp_whse cx) /\ (e ∉ w_reclaim_list w).

Lemma wf_reclaim_del h w e :
  wf h w -> e ∈ w_reclaim_list w ->
  let w' := set_w_reclaim_list (list_del e (w_reclaim_list w)) w in
  wf h w' /\ off_list w' e.
Proof.
  intros [Hv Hp Hc Hd Hdrv Hfr Hop Hli] He. destruct Hdrv as (D1 & D2 & D3 & Hnd & Hrl & Hrest).
  destruct (Hrl e He) as (ex & Hex & Ho & Hn). simpl. split.
  - constructor; try done. do 3 (split; [done|]). split; [by apply NoDup_list_del|].
    split; [|exact Hrest]. intros e' [? _]%elem_of_list_del. by apply Hrl.
  - split; [by exists ex|]. split; [done|]. simpl. rewrite elem_of_list_del. by intros [_ []].
Qed.

Lemma reclaim_pick_spec h l w :
  wf h w -> NoDup l -> (forall e, e ∈ l -> e ∈ w_reclaim_list w) ->
  wp (reclaim_pick l) (fun r w' => wf h w' /\ NoDup r /\
    w_vchans w' = w_vchans w /\ w_exps w' = w_exps w /\ w_pchans w' = w_pchans w /\
    w_ctxs w' = w_ctxs w /\
    (forall e, e ∈ w_reclaim_list w' -> e ∈ w_reclaim_list w) /\
    (forall e, e ∈ r -> e ∈ l) /\ (forall e, e ∈ r -> off_list w' e)) w.
Proof.
  revert w. induction l as [|e l IH]; intros w Hwf Hnd Hl; cbn [reclaim_pick].
  { apply wp_ret. split_and!; try done. by intros e ?%elem_of_nil. }
  apply list.NoDup_cons in Hnd as [Hne Hnd].
  assert (He : e ∈ w_reclaim_list w) by (apply Hl; by left).
  destruct (wf_drv _ _ Hwf) as (_ & _ & _ & _ & Hrl & _).
  destruct (Hrl e He) as (ex & Hex & _ & _).
  apply wp_bind. eapply wp_get_e; [done|]. destruct (es_remote_imported ex =? 0).
  - apply wp_bind, wp_modify. destruct (wf_reclaim_del _ _ _ Hwf He) as [Hwf1 Hoff].
    apply wp_bind. eapply wp_mono; [apply IH; [done|done|]|].
    + intros e' Hin. apply elem_of_list_del. split; [apply Hl; by right|by intros ->].
    + intros r w' (Hwf' & Hndr & E1 & E2 & E3 & E4 & Hr & Hsub & Ho). apply wp_ret.
      split_and!; try done.
      * apply list.NoDup_cons. split; [|done]. by intros ?%Hsub.
      * by intros e' [? _]%Hr%elem_of_list_del.
      * intros e' [->|?]%elem_of_cons; [by left|right; auto].
      * intros e' [->|?]%elem_of_cons; [|auto]. destruct Hoff as ((ex0 & ? & ?) & Hn & Hnr).
        unfold off_list, export_owned in *. rewrite E2, E3, E4. simpl in *.
        split_and!; [by eauto|done|]. intros ?%Hr. done.
  - eapply wp_mono; [apply IH; [done|done|]|].
    + intros e' Hin. apply Hl. by right.
    + intros r w' (? & ? & ? & ? & ? & ? & ? & Hsub & ?). split_and!; try done.
      intros e' ?. right. auto.
Qed.

Lemma reclaim_one_spec h w e l :
  wf h w -> NoDup (e :: l) -> (forall e', e' ∈ e :: l -> off_list w e') ->
  wp (reclaim_one e) (fun _ w' => wf h w' /\ w_vchans w' = w_vchans w /\
    forall e', e' ∈ l -> off_list w' e') w.
Proof.
  intros Hwf [Hne _]%list.NoDup_cons Hall.
  destruct (Hall e) as ((ex & Hex & Ho) & Hn & Hnr); [by left|].
  pose proof Ho as (p & pc & Hp & Hpc & Hi & Hst & Hpd & Hrc).
  unfold reclaim_one. apply wp_bind. eapply wp_get_e; [done|]. rewrite Hp.
  apply wp_bind, wp_deref. apply wp_bind. eapply wp_mono.
  { eapply (expid_remove_spec h); try done. by eapply owned_not_held. }
  intros [] w1 (Hwf1 & Hun & pc1 & Hpc1 & ->). assert (pc1 = pc) as -> by congruence.
  eapply wp_mono; [by eapply habmem_export_put_last|].
  intros [] w2 (Hwf2 & ->). split; [done|]. split; [done|]. intros e' He'.
  destruct (Hall e') as ((ex' & Hex' & q & qc & Hq & Hqc & Hj & ?) & ? & ?); [by right|].
  assert (e' <> e) by (by intros ->). split; [|by split]. exists ex'. simpl.
  split; [by rewrite lookup_delete_ne|]. exists q. simpl. rewrite lookup_insert.
  destruct (decide (p = q)) as [<-|]; [|by exists qc].
  assert (qc = pc) as -> by congruence. eexists. split; [done|]. split; [done|]. simpl.
  split; [|done]. rewrite lookup_delete_ne; [done|]. intros Heq. rewrite Heq in Hi. congruence.
Qed.

Lemma reclaim_cleanup_spec h w :
  wf h w -> wp reclaim_cleanup (fun _ w' => wf h w' /\ w_vchans w' = w_vchans w) w.
Proof.
  intros Hwf. unfold reclaim_cleanup. apply wp_bind, wp_gets. apply wp_bind.
  eapply wp_mono; [eapply reclaim_pick_spec; [done| |done]|].
  { by destruct (wf_drv _ _ Hwf) as (_ & _ & _ & ? & _). }
  intros r w1 (Hwf1 & Hnd & Hvs & _ & _ & _ & _ & _ & Hoff).
  apply (wp_for_each (fun l w' => NoDup l /\ wf h w' /\ w_vchans w' = w_vchans w /\
    forall e, e ∈ l -> off_list w' e)); [done| |tauto].
  intros e l w' (Hnd' & ? & Hv' & ?). eapply wp_mono; [by eapply reclaim_one_spec|].
  intros [] w'' (? & Hv'' & ?). apply list.NoDup_cons in Hnd' as [_ ?].
  split_and!; try done. congruence.
Qed.

End lemmas.
