(* ===== verification/RbTree.v ===== *)
(** The import tree of a context as hab_linux.c keeps it: a red-black tree walked by
    hand, with the kernel's rebalancing underneath.  It implements the finite map
    [cx_imp_whse] that the other files work on. *)
From Stdlib Require Import Sorted.
From stdpp Require Import sorting.
From S2P Require Import Prelude Header World Logic Memory Invariant Pchan Exports Context.

(** Export id and channel, the channel compared by its address; a node's value is its
    own address. *)
Definition key : Type := Z * nat.

Inductive rb_tree :=
  | RbLeaf
  | RbNode (rb_left : rb_tree) (rb_key : key) (exp_super : nat) (rb_right : rb_tree).

Definition key_lt (a b : key) : Prop := a.1 < b.1 \/ (a.1 = b.1 /\ (a.2 < b.2)%nat).

(* src/hab_linux.c:353-356 hab_rb_init *)
Definition hab_rb_init : rb_tree := RbLeaf.

(* src/hab_linux.c:358-380 hab_rb_exp_find *)
Fixpoint hab_rb_exp_find (t : rb_tree) (k : key) : option nat :=
  match t with
  | RbLeaf => None
  | RbNode l x v r =>
      if k.1 <? x.1 then hab_rb_exp_find l k
      else if x.1 <? k.1 then hab_rb_exp_find r k
      else if (k.2 <? x.2)%nat then hab_rb_exp_find l k
      else if (x.2 <? k.2)%nat then hab_rb_exp_find r k
      else Some v
  end.

(** The walk to the link where the node goes, or the node that has the key already. *)
(* src/hab_linux.c:382-403 hab_rb_exp_insert *)
Fixpoint rb_link (t : rb_tree) (k : key) (v : nat) : nat + rb_tree :=
  match t with
  | RbLeaf => inr (RbNode RbLeaf k v RbLeaf)
  | RbNode l x y r =>
      let left := match rb_link l k v with inl e => inl e | inr l => inr (RbNode l x y r) end in
      let right := match rb_link r k v with inl e => inl e | inr r => inr (RbNode l x y r) end in
      if k.1 <? x.1 then left
      else if x.1 <? k.1 then right
      else if (k.2 <? x.2)%nat then left
      else if (x.2 <? k.2)%nat then right
      else inl y
  end.

(** The nodes in the order of the keys. *)
Fixpoint elements (t : rb_tree) : list (key * nat) :=
  match t with
  | RbLeaf => []
  | RbNode l x v r => elements l ++ (x, v) :: elements r
  end.

(** The kernel's side: recolouring after an insertion and taking out a node keep the
    other nodes in order. *)
Class KernelRb := {
  rb_insert_color : key -> rb_tree -> rb_tree;
  rb_erase : key -> rb_tree -> rb_tree;
  rb_insert_color_elements : forall k t, elements (rb_insert_color k t) = elements t;
  rb_erase_elements : forall k t, elements (rb_erase k t) = filter (fun x => x.1 <> k) (elements t)
}.

(* src/hab_linux.c:382-409 hab_rb_exp_insert *)
Definition hab_rb_exp_insert `{KernelRb} (t : rb_tree) (k : key) (v : nat) : option nat * rb_tree :=
  match rb_link t k v with
  | inl e => (Some e, t)
  | inr t => (None, rb_insert_color k t)
  end.

(* src/hab_os.h:50-50 hab_rb_remove *)
Definition hab_rb_remove `{KernelRb} (t : rb_tree) (k : key) : rb_tree := rb_erase k t.

(* src/hab_os.h:51-51 hab_rb_min *)
Fixpoint hab_rb_min (t : rb_tree) : option (key * nat) :=
  match t with
  | RbLeaf => None
  | RbNode l x v _ => match hab_rb_min l with Some m => Some m | None => Some (x, v) end
  end.

(** ** Search trees *)

(** In order, with every key once. *)
Definition rb_ok (t : rb_tree) : Prop := StronglySorted key_lt (elements t).*1.

(** The map it stands for. *)
Definition rb_map (t : rb_tree) : gmap key nat := list_to_map (elements t).

Lemma key_lt_irrefl a : ~ key_lt a a.
Proof. unfold key_lt. lia. Qed.
Lemma key_lt_trans a b c : key_lt a b -> key_lt b c -> key_lt a c.
Proof. unfold key_lt. lia. Qed.

(** What the comparisons of the code decide. *)
Lemma key_cmp {A} (k x : key) (l r e : A) (P : A -> Prop) :
  (key_lt k x -> P l) -> (key_lt x k -> P r) -> (k = x -> P e) ->
  P (if k.1 <? x.1 then l else if x.1 <? k.1 then r
     else if (k.2 <? x.2)%nat then l else if (x.2 <? k.2)%nat then r else e).
Proof.
  unfold key_lt. intros Hl Hr He. destruct (Z.ltb_spec (k.1) (x.1)); [apply Hl; lia|].
  destruct (Z.ltb_spec (x.1) (k.1)); [apply Hr; lia|]. destruct (Nat.ltb_spec (k.2) (x.2)); [apply Hl; lia|].
  destruct (Nat.ltb_spec (x.2) (k.2)); [apply Hr; lia|]. apply He. destruct k, x. simpl in *. f_equal; lia.
Qed.

Lemma sorted_app (l1 l2 : list key) x :
  StronglySorted key_lt (l1 ++ x :: l2) <->
  StronglySorted key_lt l1 /\ StronglySorted key_lt l2 /\
  Forall (fun y => key_lt y x) l1 /\ Forall (key_lt x) l2.
Proof.
  induction l1 as [|y l1 IH]; simpl.
  - split; [intros Hs; apply StronglySorted_inv in Hs as [? ?]|intros (_ & ? & _ & ?)]; [|by constructor].
    split_and!; try done; constructor.
  - split.
    + intros Hs. apply StronglySorted_inv in Hs as [Hs Hy]. apply IH in Hs as (H1 & H2 & H3 & H4).
      apply Forall_app in Hy as [Hy1 Hy2]. apply list.Forall_cons in Hy2 as [? ?]. split_and!; try done; by constructor.
    + intros (H1 & H2 & H3 & H4). apply StronglySorted_inv in H1 as [? ?]. apply list.Forall_cons in H3 as [Hyx ?].
      constructor; [by apply IH|]. apply Forall_app. split; [done|]. constructor; [done|].
      eapply Forall_impl; [|exact H4]. intros z. by apply key_lt_trans.
Qed.

Lemma rb_ok_node l x v r :
  rb_ok (RbNode l x v r) <->
  rb_ok l /\ rb_ok r /\ Forall (fun y => key_lt y x) (elements l).*1 /\ Forall (key_lt x) (elements r).*1.
Proof. unfold rb_ok. simpl. rewrite fmap_app. simpl. apply sorted_app. Qed.

Lemma sorted_NoDup l : StronglySorted key_lt l -> NoDup l.
Proof.
  induction 1 as [|x l Hs IH Hx]; constructor; [|done]. intros Hin.
  rewrite list.Forall_forall in Hx. by apply (key_lt_irrefl x), Hx.
Qed.

Lemma rb_map_lookup t k v : rb_ok t -> rb_map t !! k = Some v <-> (k, v) ∈ elements t.
Proof. intros Ht. symmetry. apply elem_of_list_to_map. by apply sorted_NoDup. Qed.

Lemma elements_keys_lt t x (k : key) v : Forall (fun y => key_lt y x) (elements t).*1 -> (k, v) ∈ elements t -> key_lt k x.
Proof. intros Hf Hin. rewrite list.Forall_forall in Hf. apply Hf, list_elem_of_fmap. by exists (k, v). Qed.

Lemma elements_keys_gt t x (k : key) v : Forall (key_lt x) (elements t).*1 -> (k, v) ∈ elements t -> key_lt x k.
Proof. intros Hf Hin. rewrite list.Forall_forall in Hf. apply Hf, list_elem_of_fmap. by exists (k, v). Qed.

(** The walk finds what is in the tree. *)
Lemma find_elements t k v : rb_ok t -> hab_rb_exp_find t k = Some v <-> (k, v) ∈ elements t.
Proof.
  induction t as [|l IHl x y r IHr]; [by split; [|intros ?%elem_of_nil]|].
  intros (Hl & Hr & Fl & Fr)%rb_ok_node. simpl. rewrite elem_of_app, elem_of_cons.
  apply (key_cmp k x _ _ _ (fun o => o = Some v <-> _)).
  - intros Hk. rewrite IHl by done. split; [by left|]. intros [?|[[= -> ->]|Hin]]; [done| |].
    + by apply key_lt_irrefl in Hk.
    + pose proof (elements_keys_gt _ _ _ _ Fr Hin). by destruct (key_lt_irrefl k (key_lt_trans _ _ _ Hk H)).
  - intros Hk. rewrite IHr by done. split; [by right; right|]. intros [Hin|[[= -> ->]|?]]; [| |done].
    + pose proof (elements_keys_lt _ _ _ _ Fl Hin). by destruct (key_lt_irrefl k (key_lt_trans _ _ _ H Hk)).
    + by apply key_lt_irrefl in Hk.
  - intros ->. split; [intros [= ->]; by right; left|]. intros [Hin|[[= ->]|Hin]]; [|done|].
    + by destruct (key_lt_irrefl x (elements_keys_lt _ _ _ _ Fl Hin)).
    + by destruct (key_lt_irrefl x (elements_keys_gt _ _ _ _ Fr Hin)).
Qed.

(** The walk for an insertion ends at the node with the key, or at the one place
    where the key fits. *)
Definition linked (t : rb_tree) (k : key) (v : nat) (o : nat + rb_tree) : Prop :=
  match o with
  | inl e => (k, e) ∈ elements t
  | inr t' => rb_ok t' /\ exists l1 l2, elements t = l1 ++ l2 /\ elements t' = l1 ++ (k, v) :: l2
  end.

Lemma rb_link_spec t k v : rb_ok t -> linked t k v (rb_link t k v).
Proof.
  induction t as [|l IHl x y r IHr].
  { intros _. split; [unfold rb_ok; simpl; by repeat constructor|]. by exists [], []. }
  intros (Hl & Hr & Fl & Fr)%rb_ok_node. specialize (IHl Hl). specialize (IHr Hr). cbn [rb_link]. cbv zeta.
  apply (key_cmp k x _ _ _ (linked (RbNode l x y r) k v)).
  - intros Hk. destruct (rb_link l k v) as [e|l'].
    + simpl. apply elem_of_app. by left.
    + destruct IHl as (Hl' & l1 & l2 & E1 & E2). split.
      * apply rb_ok_node. split_and!; try done. rewrite E2. rewrite E1 in Fl.
        rewrite fmap_app in Fl |- *. apply Forall_app in Fl as [? ?]. apply Forall_app. split; [done|]. by constructor.
      * exists l1, (l2 ++ (x, y) :: elements r). simpl. rewrite E1, E2, <- !app_assoc. by simpl.
  - intros Hk. destruct (rb_link r k v) as [e|r'].
    + simpl. apply elem_of_app. right. by right.
    + destruct IHr as (Hr' & l1 & l2 & E1 & E2). split.
      * apply rb_ok_node. split_and!; try done. rewrite E2. rewrite E1 in Fr.
        rewrite fmap_app in Fr |- *. apply Forall_app in Fr as [? ?]. apply Forall_app. split; [done|]. by constructor.
      * exists (elements l ++ (x, y) :: l1), l2. simpl. rewrite E1, E2, <- !app_assoc. by simpl.
  - intros ->. simpl. apply elem_of_app. right. by left.
Qed.

Lemma rb_map_spec t t' m :
  rb_ok t -> rb_ok t' -> (forall k v, (k, v) ∈ elements t' <-> m !! k = Some v) -> rb_map t' = m.
Proof.
  intros Ht Ht' Hm. apply map_eq. intros k. apply option_eq. intros v. by rewrite rb_map_lookup, Hm.
Qed.

(** ** The operations on the map *)

Section ops.
Context `{KernelRb}.

Lemma insert_color_ok k t : rb_ok t -> rb_ok (rb_insert_color k t).
Proof. unfold rb_ok. by rewrite rb_insert_color_elements. Qed.

Lemma insert_refines t k v : rb_ok t ->
  match hab_rb_exp_insert t k v with
  | (Some e, t') => rb_map t !! k = Some e /\ t' = t
  | (None, t') => rb_map t !! k = None /\ rb_ok t' /\ rb_map t' = <[k := v]> (rb_map t)
  end.
Proof.
  intros Ht. unfold hab_rb_exp_insert. pose proof (rb_link_spec t k v Ht) as Hs.
  destruct (rb_link t k v) as [e|t']; [split; [by apply rb_map_lookup|done]|].
  destruct Hs as (Ht' & l1 & l2 & E1 & E2).
  assert (Hk : rb_map t !! k = None).
  { apply not_elem_of_list_to_map_1. rewrite E1, fmap_app. unfold rb_ok in Ht'. rewrite E2, fmap_app in Ht'.
    apply sorted_NoDup in Ht'. simpl in Ht'. rewrite list.NoDup_app in Ht'. destruct Ht' as (_ & Hd & Hn).
    apply list.NoDup_cons in Hn as [Hn _]. rewrite elem_of_app. intros [Hin|Hin]; [|done].
    apply (Hd k Hin). by left. }
  split; [exact Hk|]. split; [by apply insert_color_ok|].
  apply (rb_map_spec t); [done|by apply insert_color_ok|]. intros j u. rewrite rb_insert_color_elements, E2.
  assert (Hno : forall a, (k, a) ∉ l1 ++ l2).
  { intros a Ha. rewrite <- E1 in Ha. apply rb_map_lookup in Ha; [congruence|done]. }
  rewrite lookup_insert_Some, rb_map_lookup by done. rewrite E1. rewrite !elem_of_app in *. setoid_rewrite elem_of_app in Hno.
  rewrite elem_of_cons. split.
  - intros [Hin|[[= -> ->]|Hin]]; [right|by left|right]; (split; [intros ->; apply (Hno u)|]; auto).
  - intros [[-> ->]|[_ [?|?]]]; auto.
Qed.

Lemma remove_refines t k : rb_ok t -> rb_ok (hab_rb_remove t k) /\ rb_map (hab_rb_remove t k) = delete k (rb_map t).
Proof.
  intros Ht. unfold hab_rb_remove.
  assert (Hok : rb_ok (rb_erase k t)).
  { unfold rb_ok in *. rewrite rb_erase_elements. induction (elements t) as [|x l IH]; [done|].
    simpl in Ht. apply StronglySorted_inv in Ht as [Hs Hx]. rewrite filter_cons. case_decide; [|by apply IH].
    simpl. constructor; [by apply IH|]. rewrite list.Forall_forall in Hx |- *. intros y Hy. apply Hx.
    apply list_elem_of_fmap in Hy as (z & -> & [_ Hz]%list_elem_of_filter). apply list_elem_of_fmap. by exists z. }
  split; [exact Hok|]. apply (rb_map_spec t); [done|done|]. intros j u.
  rewrite rb_erase_elements, list_elem_of_filter, lookup_delete_Some, rb_map_lookup by done. simpl. split; intros [Hne ?]; (split; [by intros ->|done]).
Qed.

Lemma find_refines t k : rb_ok t -> hab_rb_exp_find t k = rb_map t !! k.
Proof. intros Ht. apply option_eq. intros v. by rewrite find_elements, rb_map_lookup. Qed.
End ops.

(** The walk over the tree is the walk over the map in the order of the keys. *)
Lemma min_head t : hab_rb_min t = head (elements t).
Proof.
  induction t as [|l IHl x v r _]; [done|]. simpl. rewrite IHl. by destruct (elements l).
Qed.

Lemma elements_sorted t : rb_ok t -> StronglySorted imp_le (elements t).
Proof.
  unfold rb_ok. induction (elements t) as [|x l IH]; intros Hs; constructor.
  - simpl in Hs. apply StronglySorted_inv in Hs as [Hs _]. by apply IH.
  - simpl in Hs. apply StronglySorted_inv in Hs as [_ Hx]. rewrite list.Forall_forall in Hx. apply list.Forall_forall. intros y Hy.
    assert (Hk : key_lt (x.1) (y.1)) by (apply Hx, list_elem_of_fmap; by exists y). destruct x as [[] ?], y as [[] ?]. unfold key_lt, imp_le in *. simpl in *. lia.
Qed.

#[export] Instance imp_le_total : Total imp_le.
Proof. intros x y. unfold imp_le. lia. Qed.
#[export] Instance imp_le_trans : Transitive imp_le.
Proof. intros x y z. unfold imp_le. lia. Qed.

Lemma elements_imp_sorted t : rb_ok t -> elements t = imp_sorted (rb_map t).
Proof.
  intros Ht. assert (Hnd : NoDup (elements t).*1) by (by apply sorted_NoDup).
  assert (Hp : imp_sorted (rb_map t) ≡ₚ elements t).
  { rewrite imp_sorted_perm. unfold rb_map. by apply map_to_list_to_map. }
  apply (StronglySorted_unique_strong imp_le).
  - intros x y Hx Hy H1 H2. rewrite Hp in Hy. destruct x as [kx ex], y as [ky ey].
    assert (kx = ky) as ->.
    { unfold imp_le in *. simpl in *. destruct kx, ky. simpl in *. f_equal; lia. }
    f_equal. apply (rb_map_lookup t) in Hx, Hy; [congruence|done..].
  - by apply elements_sorted.
  - apply Sorted_StronglySorted; [apply _|]. apply Sorted_merge_sort. apply _.
  - by symmetry.
Qed.

(** ** Refinement *)

(** What the driver does with the tree. *)
Inductive rb_op := RbInsert (k : key) (v : nat) | RbFind (k : key) | RbRemove (k : key) | RbMin.

Definition rb_step `{KernelRb} (t : rb_tree) (o : rb_op) : option (key * nat) * rb_tree :=
  match o with
  | RbInsert k v => let '(r, t) := hab_rb_exp_insert t k v in ((fun e => (k, e)) <$> r, t)
  | RbFind k => ((fun e => (k, e)) <$> hab_rb_exp_find t k, t)
  | RbRemove k => (None, hab_rb_remove t k)
  | RbMin => (hab_rb_min t, t)
  end.

(** The same on a finite map: an insertion keeps what is there. *)
Definition map_step (m : gmap key nat) (o : rb_op) : option (key * nat) * gmap key nat :=
  match o with
  | RbInsert k v => match m !! k with Some e => (Some (k, e), m) | None => (None, <[k := v]> m) end
  | RbFind k => ((fun e => (k, e)) <$> m !! k, m)
  | RbRemove k => (None, delete k m)
  | RbMin => (head (imp_sorted m), m)
  end.

Fixpoint rb_run {S} (step : S -> rb_op -> option (key * nat) * S) (s : S) (l : list rb_op) :
    list (option (key * nat)) * S :=
  match l with
  | [] => ([], s)
  | o :: l => let '(r, s) := step s o in let '(rs, s) := rb_run step s l in (r :: rs, s)
  end.

Section refinement.
Context `{KernelRb}.

Lemma rb_step_refines t o : rb_ok t ->
  rb_ok ((rb_step t o).2) /\ map_step (rb_map t) o = ((rb_step t o).1, rb_map ((rb_step t o).2)).
Proof.
  intros Ht. destruct o as [k v|k|k|]; cbn [rb_step map_step].
  - pose proof (insert_refines t k v Ht) as Hi. destruct (hab_rb_exp_insert t k v) as [[e|] t'].
    + destruct Hi as [-> ->]. by split.
    + destruct Hi as (-> & ? & Hm). split; [done|]. simpl. by rewrite Hm.
  - rewrite find_refines by done. by split.
  - destruct (remove_refines t k Ht) as [? Hm]. split; [done|]. simpl. by rewrite Hm.
  - rewrite min_head, elements_imp_sorted by done. by split.
Qed.

Lemma rb_run_refines l t : rb_ok t ->
  (rb_run map_step (rb_map t) l).1 = (rb_run rb_step t l).1 /\
  rb_map ((rb_run rb_step t l).2) = (rb_run map_step (rb_map t) l).2 /\ rb_ok ((rb_run rb_step t l).2).
Proof.
  revert t. induction l as [|o l IH]; intros t Ht; [done|]. destruct (rb_step_refines t o Ht) as [Ht' Hm].
  cbn [rb_run]. rewrite Hm. destruct (rb_step t o) as [r t'] eqn:He. simpl in *. specialize (IH t' Ht').
  destruct (rb_run rb_step t' l) as [rs t1], (rb_run map_step (rb_map t') l) as [rs' m1]. simpl in *.
  destruct IH as (-> & ? & ?). by split_and!.
Qed.

(** C30: the import tree behaves as a finite map: any sequence of insertions,
    searches, removals and minima, from the empty tree, gives the answers the map
    gives, and the tree stays a search tree over the same bindings. *)
Theorem rb_refines_map (l : list rb_op) :
  let '(answers, t) := rb_run rb_step hab_rb_init l in
  let '(expected, m) := rb_run map_step ∅ l in
  answers = expected /\ rb_map t = m /\ elements t = imp_sorted m.
Proof.
  assert (Hi : rb_ok hab_rb_init) by constructor. destruct (rb_run_refines l hab_rb_init Hi) as (E1 & E2 & Hok).
  change (rb_map hab_rb_init) with (∅ : gmap key nat) in *.
  destruct (rb_run rb_step hab_rb_init l) as [rs t], (rb_run map_step ∅ l) as [rs' m]. simpl in *.
  split; [done|]. split; [done|]. rewrite elements_imp_sorted by done. by rewrite E2.
Qed.
End refinement.

(** Trees that are never rebalanced; a removal rebuilds the tree as a list. *)
Fixpoint spine (l : list (key * nat)) : rb_tree :=
  match l with [] => RbLeaf | (k, v) :: l => RbNode RbLeaf k v (spine l) end.

Lemma spine_elements l : elements (spine l) = l.
Proof. induction l as [|[k v] l IH]; [done|]. simpl. by rewrite IH. Qed.

Definition plain_rb : KernelRb.
Proof.
  refine {| rb_insert_color := fun _ t => t;
            rb_erase := fun k t => spine (filter (fun x => x.1 <> k) (elements t)) |}.
  - done.
  - intros k t. apply spine_elements.
Defined.

Lemma rb_refines_map_witness :
  let l := [RbInsert (9, 4%nat) 1%nat; RbInsert (3, 8%nat) 2%nat; RbInsert (9, 2%nat) 3%nat; RbInsert (9, 4%nat) 7%nat;
            RbMin; RbRemove (3, 8%nat); RbMin; RbFind (9, 4%nat)] in
  (rb_run (rb_step (H := plain_rb)) hab_rb_init l).1 =
    [None; None; None; Some (9, 4%nat, 1%nat); Some (3, 8%nat, 2%nat); None; Some (9, 2%nat, 3%nat); Some (9, 4%nat, 1%nat)] /\
  (rb_run map_step ∅ l).1 = (rb_run (rb_step (H := plain_rb)) hab_rb_init l).1.
Proof.
  intros l. pose proof (rb_refines_map (H := plain_rb) l) as Hr.
  split; [vm_compute; reflexivity|]. destruct (rb_run _ hab_rb_init l) as [rs t], (rb_run map_step ∅ l) as [rs' m].
  symmetry. exact (proj1 Hr).
Defined.
