(* ===== verification/Vchan.v ===== *)
(** Virtual channels (hab_vchan.c, and the two notifications of hab.c): one end
    of a conversation, found by its id and session on a physical channel, with a
    reference per user and destroyed with the last one. *)
From S2P Require Import Prelude Header World Logic Invariant Pchan Exports Context.

Section ops.
Context {HS : Type} `{Platform HS} `{KernelIdr}.
#[local] Abbreviation M := (World.M HS).

(** The id word: the slot, the device and the domain, packed into an [int]. *)
(* src/hab_vchan.c:45-49 hab_vchan_alloc *)
Definition vchan_id_word (id devid dom_id : Z) : Z :=
  i32 (Z.lor (Z.lor
    (Z.land (Z.shiftl id HAB_VCID_ID_SHIFT) HAB_VCID_ID_MASK)
    (Z.land (Z.shiftl devid HAB_VCID_MMID_SHIFT) HAB_VCID_MMID_MASK))
    (Z.land (Z.shiftl dom_id HAB_VCID_DOMID_SHIFT) HAB_VCID_DOMID_MASK)).

(* src/hab_vchan.c:8-61 hab_vchan_alloc *)
Definition hab_vchan_alloc (c p : nat) (openid : Z) : M (option nat) :=
  let! a := kalloc in
  match a with
  | None => ret None
  | Some v =>
      let! pc := get_p p in
      match idr_pick (pc_vchan_idr pc) 1 (Z.shiftr HAB_VCID_ID_MASK HAB_VCID_ID_SHIFT + 1) with
      | None => ret None
      | Some id =>
          do! upd_p p (fun pc => set_pc_vchan_idr (<[id := v]> (pc_vchan_idr pc)) pc) in
          do! hab_pchan_get p in
          do! upd_p p (fun pc =>
            set_pc_vcnt (pc_vcnt pc + 1) (set_pc_vchannels (pc_vchannels pc ++ [v]) pc)) in
          let! d := get_d (pc_habdev pc) in
          do! modify (fun w => set_w_vchans (<[v :=
            Build_virtual_channel 1 p None [] (vchan_id_word id (dv_id d) (pc_dom_id pc)) 0
              (pc_closed pc) (u32 openid) false 0 0 false]> (w_vchans w)) w) in
          do! hab_ctx_get c in
          do! upd_v v (set_vc_ctx (Some c)) in
          ret (Some v)
      end
  end.

(* src/hab_vchan.c:63-104 hab_vchan_free *)
Definition hab_vchan_free (v : nat) : M unit :=
  let! vc := get_v v in
  let p := vc_pchan vc in
  do! for_each hab_msg_free (vc_rx_list vc) in
  do! upd_v v (set_vc_rx_list []) in
  do! upd_p p (fun pc =>
    if decide (v ∈ pc_vchannels pc)
    then set_pc_vcnt (pc_vcnt pc - 1) (set_pc_vchannels (list_del v (pc_vchannels pc)) pc)
    else pc) in
  do! (match vc_ctx vc with Some c => hab_ctx_put c | None => ret tt end) in
  do! upd_p p (fun pc =>
    set_pc_vchan_idr (delete (HAB_VCID_GET_ID (vc_id vc)) (pc_vchan_idr pc)) pc) in
  do! hab_pchan_put p in
  modify (fun w => set_w_vchans (delete v (w_vchans w)) w).

(* src/hab_vchan.c:288-292 hab_vchan_put *)
Definition hab_vchan_put (v : nat) : M unit :=
  let! vc := get_v v in
  if vc_refcount vc <=? 0 then fail RefUnderflow
  else
    do! upd_v v (set_vc_refcount (vc_refcount vc - 1)) in
    when (vc_refcount vc =? 1) (hab_vchan_free v).

(* src/hab_vchan.c:106-163 hab_vchan_get *)
Definition hab_vchan_get (p : nat) (h : hab_header) : M (option nat) :=
  let! pc := get_p p in
  match pc_vchan_idr pc !! HAB_VCID_GET_ID (HAB_HEADER_GET_ID h) with
  | None => ret None
  | Some v =>
      let! vc := get_v v in
      if negb (vc_session_id vc =? HAB_HEADER_GET_SESSION_ID h) then ret None
      else if vc_otherend_id vc =? 0 then ret None
      else if vc_otherend_closed vc || vc_closed vc then ret None
      else if vc_refcount vc =? 0 then ret None
      else
        do! upd_v v (set_vc_refcount (vc_refcount vc + 1)) in
        ret (Some v)
  end.

(* src/hab_vchan.c:166-179 hab_vchan_stop *)
Definition hab_vchan_stop (v : nat) : M unit :=
  do! upd_v v (set_vc_otherend_closed true) in
  do! log (EvWakeRx v) in
  let! vc := get_v v in
  match vc_ctx vc with
  | None => ret tt
  | Some c =>
      let! pc := get_p (vc_pchan vc) in
      let! _ := get_c c in
      log (if pc_mem_proto pc =? 1 then EvWakeImp c else EvWakeExp c)
  end.

(* src/hab_vchan.c:181-190 hab_vchans_stop *)
Definition hab_vchans_stop (p : nat) : M unit :=
  let! pc := get_p p in
  for_each hab_vchan_stop (pc_vchannels pc).

(* src/hab.c:906-917 hab_send_close_msg *)
Definition hab_send_close_msg (v : nat) : M unit :=
  let! vc := get_v v in
  when (negb (vc_otherend_closed vc))
    (do! physical_channel_send (vc_pchan vc)
       (mk_header 0 HAB_PAYLOAD_TYPE_CLOSE (vc_otherend_id vc) (vc_session_id vc)) [] in
     ret tt).

(* src/hab.c:919-930 hab_send_unimport_msg *)
Definition hab_send_unimport_msg (v : nat) (exp_id : Z) : M unit :=
  let! vc := get_v v in
  do! physical_channel_send (vc_pchan vc)
    (mk_header 4 HAB_PAYLOAD_TYPE_UNIMPORT (vc_otherend_id vc) (vc_session_id vc))
    (export_id_bytes exp_id) in
  ret tt.

(* src/hab_vchan.c:193-197 hab_vchan_stop_notify *)
Definition hab_vchan_stop_notify (v : nat) : M unit :=
  do! hab_send_close_msg v in
  hab_vchan_stop v.

(** How many of the channels listed are not yet paired. *)
Fixpoint unpaired (l : list nat) : M Z :=
  match l with
  | [] => ret 0
  | v :: l =>
      let! vc := get_v v in
      let! n := unpaired l in
      ret (n + if vc_session_id vc =? 0 then 1 else 0)
  end.

(* src/hab_vchan.c:199-227 hab_vchans_per_pchan_empty *)
Definition hab_vchans_per_pchan_empty (p : nat) : M bool :=
  let! pc := get_p p in
  match pc_vchannels pc with
  | [] => ret true
  | l =>
      let! n := unpaired l in
      ret (pc_vcnt pc - n =? 0)
  end.

(** The inner walk stops at the first channel of the VM that is not empty. *)
(* src/hab_vchan.c:229-253 hab_vchans_empty *)
Fixpoint pchans_empty (vmid : Z) (l : list nat) : M bool :=
  match l with
  | [] => ret true
  | p :: l =>
      let! pc := get_p p in
      if pc_vmid_remote pc =? vmid then
        let! e := hab_vchans_per_pchan_empty p in
        if (e : bool) then pchans_empty vmid l else ret false
      else pchans_empty vmid l
  end.

(* src/hab_vchan.c:229-253 hab_vchans_empty *)
Fixpoint hab_vchans_empty (vmid : Z) (devs : list hab_device) : M bool :=
  match devs with
  | [] => ret true
  | d :: ds =>
      let! e := pchans_empty vmid (dv_pchannels d) in
      let! e' := hab_vchans_empty vmid ds in
      ret (e && e')
  end.

(* src/hab_vchan.c:283-286 hab_vchan_find_domid *)
Definition hab_vchan_find_domid (v : option nat) : M Z :=
  match v with
  | None => ret (-1)
  | Some v =>
      let! vc := get_v v in
      let! pc := get_p (vc_pchan vc) in
      ret (pc_dom_id pc)
  end.
End ops.

(** ** Destroying a virtual channel *)

Section lemmas.
Context {HS : Type} `{Platform HS} `{KernelIdr}.
Implicit Types (w : world HS) (h : held).

Definition unlink (v : nat) (pc : physical_channel) : physical_channel :=
  set_pc_vcnt (pc_vcnt pc - 1) (set_pc_vchannels (list_del v (pc_vchannels pc)) pc).

(** Off the channel's list, the dying object still counts its pointers. *)
Lemma wf_vchan_unlink h w v vc pc c :
  wf h w -> h_x h = None -> w_vchans w !! v = Some vc ->
  w_pchans w !! vc_pchan vc = Some pc -> vc_ctx vc = Some c ->
  (forall a ax, w_ctxs w !! a = Some ax -> v ∉ cx_vchannels ax) -> v ∉ h_v h -> v ∉ (h_o h).*1 ->
  wf (dying v (held_p (vc_pchan vc) (held_c c h)))
    (set_w_pchans (<[vc_pchan vc := unlink v pc]> (w_pchans w)) w).
Proof.
  intros Hwf Hx Hv Hpc Hc Hn1 Hn2 Hn3. set (p := vc_pchan vc) in *.
  assert (Hof : vchans_of h w = w_vchans w) by (unfold vchans_of; by rewrite Hx).
  destruct Hwf as [Wv Wp Wc Wd Wdrv Wf Wo Wl]. rewrite Hof in *.
  set (h' := dying v _). set (w' := set_w_pchans _ w).
  assert (Hof' : vchans_of h' w' = delete v (w_vchans w)) by done.
  assert (Hcount : forall P : virtual_channel -> bool,
    count P (delete v (w_vchans w)) = count P (w_vchans w) - (if P vc then 1 else 0)).
  { intros P. by apply count_delete. }
  assert (Hown : forall e ex, export_owned w e ex -> export_owned w' e ex).
  { intros e ex. by apply (export_owned_pchan w p pc). }
  assert (Hsome : forall q, is_Some (w_pchans w !! q) -> is_Some (w_pchans w' !! q)).
  { intros q ?. simpl. rewrite lookup_insert. by case_decide. }
  constructor; rewrite ?Hof'.
  - intros u uc [Hne Hu]%lookup_delete_Some. destruct (Wv u uc Hu) as (qc & a & ax & Hq & ? & ? & ? & ? & ? & ?).
    exists (if decide (p = vc_pchan uc) then unlink v pc else qc), a, ax. simpl. rewrite lookup_insert.
    destruct (decide (p = vc_pchan uc)) as [Hpu|]; [|by split_and!].
    rewrite <- Hpu in Hq. assert (qc = pc) as -> by congruence. split_and!; try done.
    simpl. apply elem_of_list_del. by split.
  - intros q qc. simpl. rewrite lookup_insert. case_decide as Hq.
    + intros [= <-]. subst q. destruct (Wp p pc Hpc) as (? & ? & Hnd & Hcnt & H5 & H6 & ? & Hr).
      destruct (Wv v vc Hv) as (pc0 & ? & ? & Hp0 & Hin & _). fold p in Hp0.
      assert (pc0 = pc) as -> by congruence.
      unfold pchan_ok. rewrite Hof'. simpl. rewrite Hcount. rewrite bool_decide_eq_true_2 by done.
      rewrite decide_True by done. rewrite Hof in Hr, H5. split_and!; try done.
      * by apply NoDup_list_del.
      * rewrite Hcnt. unfold zlen. rewrite (list_del_length v (pc_vchannels pc)) by done. lia.
      * intros u [Hu Hne]%elem_of_list_del. destruct (H5 u Hu) as (uc & ? & ?).
        exists uc. by rewrite lookup_delete_ne.
      * lia.
    + intros Hqc. destruct (Wp q qc Hqc) as (? & ? & ? & ? & H5 & ? & ? & Hr).
      unfold pchan_ok. rewrite Hof'. simpl. rewrite Hcount.
      rewrite bool_decide_eq_false_2 by exact Hq. rewrite decide_False by done.
      rewrite Hof in Hr, H5. split_and!; try done.
      * intros u Hu. destruct (H5 u Hu) as (uc & ? & ?). exists uc.
        rewrite lookup_delete_ne; [done|]. intros <-. apply Hq. unfold p. congruence.
      * lia.
  - intros a ax Hax. destruct (Wc a ax Hax) as (? & ? & ? & H4 & ? & He & Hi & Hr).
    unfold ctx_ok. rewrite Hof'. rewrite Hof in H4, Hr. split_and!; try done.
    + intros u Hu. destruct (H4 u Hu) as (uc & ? & ?). exists uc.
      rewrite lookup_delete_ne; [done|]. intros <-. by apply (Hn1 a ax).
    + intros e Hin. destruct (He e Hin) as (ex & ? & ? & ?). exists ex. split_and!; auto.
    + intros k e Hk. destruct (Hi k e Hk) as (ex & ? & ? & ? & ?). exists ex. split_and!; auto.
    + rewrite Hcount. simpl. rewrite Hc. case_decide as Hca.
      * subst a. rewrite bool_decide_eq_true_2 by done. lia.
      * rewrite bool_decide_eq_false_2 by congruence. lia.
  - intros d dv Hd. destruct (Wd d dv Hd) as (? & ? & H3 & H4). split_and!; try done.
    + intros q Hq. destruct (H3 q Hq) as (qc & ? & ?). simpl. rewrite lookup_insert.
      case_decide; [|by eauto]. subst q. eexists; split; [done|]. simpl. congruence.
    + eapply Forall_impl; [|exact H4]. intros n (q & ? & ?). exists q. split; auto.
  - destruct Wdrv as (? & ? & ? & ? & Hr & Hhv & Hhp & Hhc & ? & He & ?).
    unfold driver_ok. rewrite Hof'. rewrite Hof in Hhv. split_and!; try done.
    + intros e Hin. destruct (Hr e Hin) as (ex & ? & ? & ?). exists ex. split_and!; auto.
    + intros u Hu. rewrite lookup_delete_ne; [by apply Hhv|]. by intros <-.
    + intros q [->|Hq]%elem_of_cons; apply Hsome; [by eexists|by apply Hhp].
    + intros a [->|Ha]%elem_of_cons; [|by apply Hhc].
      destruct (Wv v vc Hv) as (? & a & ax & _ & _ & _ & ? & ? & _ & _).
      assert (a = c) as -> by congruence. by exists ax.
    + intros e q Hin. destruct (He e q Hin) as (ex & qc & ? & Hqc & ? & ? & ? & ?).
      exists ex, (if decide (p = q) then unlink v pc else qc). simpl. rewrite lookup_insert.
      destruct (decide (p = q)) as [<-|]; split_and!; try done. simpl. congruence.
  - split; [|split; [apply Wf|split; [apply Wf|split; [intros ? ?; by eapply known_pchan|apply Wf]]]]. intros a Ha. destruct (proj1 Wf a Ha) as (? & ? & ? & ? & ?). split_and!; try done. simpl.
    rewrite lookup_insert_ne; [done|congruence].
  - split; [apply Wo|]. simpl. intros u a Hin. destruct (proj2 Wo u a Hin) as [(uc & Hu & ?) ?].
    rewrite Hof in Hu. split; [|done]. exists uc. rewrite Hof'. rewrite lookup_delete_ne; [done|].
    intros <-. apply Hn3. by eapply held_e_fst.
  - by eapply listed_ok_pchan.
Qed.
(** Its id is given back, and then nothing maps to it. *)
Lemma wf_vchan_idr_remove h w v vc p pc :
  wf h w -> h_x h = Some v -> w_vchans w !! v = Some vc -> vc_pchan vc = p ->
  w_pchans w !! p = Some pc -> pc_vchan_idr pc !! HAB_VCID_GET_ID (vc_id vc) = Some v ->
  let pc' := set_pc_vchan_idr (delete (HAB_VCID_GET_ID (vc_id vc)) (pc_vchan_idr pc)) pc in
  let w' := set_w_pchans (<[p := pc']> (w_pchans w)) w in
  wf h w' /\ (forall q qc i, w_pchans w' !! q = Some qc -> pc_vchan_idr qc !! i <> Some v).
Proof.
  intros [Wv Wp Wc Wd Wdrv Wf Wo Wl] Hx Hv Hpv Hpc Hi. simpl. set (pc' := set_pc_vchan_idr _ pc).
  set (w' := set_w_pchans _ w).
  assert (Hof : vchans_of h w' = vchans_of h w) by done.
  assert (Hkeep : forall q qc, w_pchans w !! q = Some qc -> exists qc',
    w_pchans w' !! q = Some qc' /\ pc_expid_idr qc' = pc_expid_idr qc /\
    pc_habdev qc' = pc_habdev qc).
  { intros q qc Hq. simpl. rewrite lookup_insert. case_decide; [|by eauto].
    subst q. exists pc'. split_and!; try done; simpl; congruence. }
  assert (Hown : forall e ex, export_owned w e ex -> export_owned w' e ex).
  { intros e ex. by apply (export_owned_pchan w p pc). }
  assert (Hsome : forall q, is_Some (w_pchans w !! q) -> is_Some (w_pchans w' !! q)).
  { intros q [qc Hq]. destruct (Hkeep _ _ Hq) as (? & ? & _). by eexists. }
  split; [constructor|].
  - intros u uc Hu. rewrite Hof in Hu.
    destruct (Wv u uc Hu) as (qc & a & ax & Hq & ? & Hid & ? & ? & ? & ?).
    exists (if decide (p = vc_pchan uc) then pc' else qc), a, ax. simpl. rewrite lookup_insert.
    destruct (decide (p = vc_pchan uc)) as [Hpu|]; [|by split_and!].
    rewrite <- Hpu in Hq. assert (qc = pc) as -> by congruence. split_and!; try done.
    simpl. rewrite lookup_delete_ne; [done|]. intros Heq. rewrite Heq in Hi.
    assert (u = v) as -> by congruence. apply vchans_of_lookup in Hu as [_ Hu]. done.
  - intros q qc. simpl. rewrite lookup_insert. case_decide as Hq; [|apply Wp].
    intros [= <-]. subst q. destruct (Wp p pc Hpc) as (? & ? & ? & ? & ? & H6 & ? & ?).
    split_and!; try done. unfold pc'. simpl. intros j u [_ Hj]%lookup_delete_Some. by apply H6.
  - intros a ax Hax. destruct (Wc a ax Hax) as (? & ? & ? & ? & ? & He & Hm & ?).
    split_and!; try done.
    + intros e Hin. destruct (He e Hin) as (ex & ? & ? & ?). exists ex. split_and!; auto.
    + intros k e Hk. destruct (Hm k e Hk) as (ex & ? & ? & ? & ?). exists ex. split_and!; auto.
  - intros d dv Hd. destruct (Wd d dv Hd) as (? & ? & H3 & H4). split_and!; try done.
    + intros q Hq. destruct (H3 q Hq) as (qc & Hqc & ?).
      destruct (Hkeep _ _ Hqc) as (qc' & ? & _ & ?). exists qc'. split; [done|congruence].
    + eapply Forall_impl; [|exact H4]. intros n (q & ? & ?). exists q. split; auto.
  - destruct Wdrv as (? & ? & ? & ? & Hr & ? & Hhp & ? & ? & He & ?). split_and!; try done.
    + intros e Hin. destruct (Hr e Hin) as (ex & ? & ? & ?). exists ex. split_and!; auto.
    + intros q Hq. by apply Hsome, Hhp.
    + intros e q Hin. destruct (He e q Hin) as (ex & qc & ? & Hqc & ? & ? & ? & ?).
      destruct (Hkeep _ _ Hqc) as (qc' & ? & ? & _). exists ex, qc'. split_and!; try done. congruence.
  - split; [|split; [apply Wf|split; [apply Wf|split; [intros ? ?; by eapply known_pchan|apply Wf]]]]. intros a Ha. destruct (proj1 Wf a Ha) as (? & ? & ? & ? & ?). split_and!; try done. simpl.
    rewrite lookup_insert_ne; [done|congruence].
  - exact Wo.
  - by eapply listed_ok_pchan.
  - intros q qc j. simpl. rewrite lookup_insert. case_decide as Hq.
    + intros [= <-]. unfold pc'. simpl. intros [Hne Hj]%lookup_delete_Some.
      destruct (Wp p pc Hpc) as (_ & _ & _ & _ & _ & H6 & _).
      destruct (H6 j v Hj) as (uc & ? & _ & ? & _). congruence.
    + intros Hqc Hj. destruct (Wp q qc Hqc) as (_ & _ & _ & _ & _ & H6 & _).
      destruct (H6 j v Hj) as (uc & ? & ? & _). congruence.
Qed.

(** The object itself goes. *)
Lemma wf_vchan_forget h w v :
  wf (dying v h) w -> h_x h = None ->
  (forall q qc i, w_pchans w !! q = Some qc -> pc_vchan_idr qc !! i <> Some v) ->
  wf h (set_w_vchans (delete v (w_vchans w)) w).
Proof.
  intros [Wv Wp Wc Wd Wdrv Wf Wo Wl] Hx Hn. set (w' := set_w_vchans _ w).
  assert (Hof : vchans_of h w' = vchans_of (dying v h) w) by (unfold vchans_of; by rewrite Hx).
  constructor; rewrite ?Hof.
  - apply Wv.
  - intros p pc Hpc. destruct (Wp p pc Hpc) as (? & ? & ? & ? & ? & H6 & ? & ?).
    unfold pchan_ok. rewrite Hof. split_and!; try done.
    intros i u Hi. destruct (H6 i u Hi) as (uc & ? & ?). exists uc. split; [|done].
    simpl. rewrite lookup_delete_ne; [done|]. intros <-. by apply (Hn p pc i).
  - intros c cx Hcx. unfold ctx_ok. rewrite Hof. by apply Wc.
  - apply Wd.
  - unfold driver_ok. rewrite Hof. apply Wdrv.
  - split; [|apply Wf]. intros a Ha. destruct (proj1 Wf a Ha) as (? & ? & ? & ? & ?). split_and!; try done. simpl.
    apply lookup_delete_None. by right.
  - split; [apply Wo|]. rewrite Hof. apply Wo.
  - exact Wl.
Qed.

Lemma hab_msgs_free_spec (l : list hab_message) w :
  forallb msg_ok l = true -> wp (for_each hab_msg_free l) (fun _ w' => w' = w) w.
Proof.
  intros Hm. apply (wp_for_each (fun l' w' => w' = w /\ forallb msg_ok l' = true)); [done| |tauto].
  intros m l' w' [-> Hml]. simpl in Hml. apply andb_true_iff in Hml as [Hm1 Hml].
  unfold hab_msg_free. unfold msg_ok in Hm1. apply andb_true_iff in Hm1 as [Hm1 _]. apply orb_true_iff in Hm1.
  destruct (m_scatter m && (zlen (m_data m) <? page_count (m_sizebytes m))) eqn:Hb; [|by apply wp_ret].
  apply andb_true_iff in Hb as [Hb1 Hb2%Z.ltb_lt]. rewrite Hb1 in Hm1.
  destruct Hm1 as [|Hm1%Z.leb_le]; [done|lia].
Qed.

Lemma hab_vchan_free_spec h w v vc :
  wf h w -> h_x h = None -> w_vchans w !! v = Some vc ->
  (forall a ax, w_ctxs w !! a = Some ax -> v ∉ cx_vchannels ax) -> v ∉ h_v h -> v ∉ (h_o h).*1 ->
  wp (hab_vchan_free v) (fun _ w' => wf h w') w.
Proof.
  intros Hwf Hx Hv Hn1 Hn2 Hn3. set (p := vc_pchan vc).
  assert (Hv' : vchans_of h w !! v = Some vc) by (unfold vchans_of; by rewrite Hx).
  destruct (wf_v _ _ Hwf v vc Hv') as (pc & c & cx & Hpc & Hin & Hid & Hc & Hcx & _ & Hm).
  unfold hab_vchan_free. apply wp_bind. eapply wp_get_v; [done|]. cbv zeta.
  apply wp_bind. eapply wp_mono; [by apply hab_msgs_free_spec|]. intros [] w0 ->.
  apply wp_bind. eapply wp_upd_v; [done|]. set (w1 := set_w_vchans _ w).
  assert (Hwf1 : wf h w1).
  { eapply wf_frame; [eapply (frame_vchan v vc (set_vc_rx_list [] vc)); [done|]|done].
    unfold v_view. simpl. by rewrite Hm. }
  assert (Hv1 : w_vchans w1 !! v = Some (set_vc_rx_list [] vc)) by apply lookup_insert_eq.
  apply wp_bind. eapply wp_upd_p; [done|]. rewrite decide_True by done. fold (unlink v pc).
  pose proof (wf_vchan_unlink h w1 v _ pc c Hwf1 Hx Hv1 Hpc Hc Hn1 Hn2 Hn3) as Hwf2.
  simpl vc_pchan in Hwf2. fold p in Hwf2 |- *. set (w2 := set_w_pchans _ w1) in *.
  rewrite Hc. apply wp_bind. eapply wp_mono.
  { by apply (hab_ctx_put_spec (dying v (held_p p h)) w2 c). }
  intros [] w3 (Hwf3 & Hvs & Hidr).
  destruct (same_view_Some _ _ _ p (unlink v pc) Hidr) as (pc3 & Hpc3 & Hid3).
  { apply lookup_insert_eq. }
  apply wp_bind. eapply wp_upd_p; [done|].
  destruct (wf_vchan_idr_remove _ w3 v (set_vc_rx_list [] vc) p pc3 Hwf3) as [Hwf4 Hno]; try done.
  { by rewrite Hvs. }
  { rewrite Hid3. done. }
  simpl vc_id in *. set (w4 := set_w_pchans _ w3) in *.
  apply wp_bind. eapply wp_mono; [by apply (hab_pchan_put_spec (dying v h) w4 p)|].
  intros [] w5 (Hwf5 & pc4 & Hpc4 & ->). apply wp_modify.
  apply wf_vchan_forget; [done|done|]. intros q qc i. simpl. rewrite lookup_insert.
  case_decide; [|by apply Hno]. intros [= <-]. subst q. by apply (Hno p pc4).
Qed.

(** Dropping a held reference; the last one destroys the virtual channel. *)
(** A put that is not the last one only counts down. *)
Lemma hab_vchan_put_kept w v vc :
  w_vchans w !! v = Some vc -> 2 <= vc_refcount vc ->
  hab_vchan_put v w = Ok (tt, set_w_vchans (<[v := set_vc_refcount (vc_refcount vc - 1) vc]> (w_vchans w)) w).
Proof.
  intros Hv Hr. unfold hab_vchan_put, bind, get_v, upd_v, when, ret. rewrite Hv.
  destruct (Z.leb_spec (vc_refcount vc) 0); [lia|]. rewrite Hv.
  by destruct (Z.eqb_spec (vc_refcount vc) 1); [lia|].
Qed.

Lemma hab_vchan_put_spec h w v :
  wf (held_v v h) w -> h_x h = None -> wp (hab_vchan_put v) (fun _ w' => wf h w') w.
Proof.
  intros Hwf Hx. destruct (wf_drv _ _ Hwf) as (_ & _ & _ & _ & _ & Hhv & _).
  destruct (Hhv v) as [vc Hv]; [by left|].
  destruct (wf_v _ _ Hwf v vc Hv) as (pc & c & cx & Hpc & Hin & Hid & Hc & Hcx & Hr & Hm).
  change (h_v (held_v v h)) with (v :: h_v h) in Hr. rewrite occ_cons_same in Hr. pose proof (occ_nonneg v (h_v h)).
  pose proof (occ_nonneg v (h_o h).*1) as Hon. change (h_o (held_v v h)) with (h_o h) in Hr.
  assert (0 <= if decide (v ∈ cx_vchannels cx) then 1 else 0) by (by case_decide).
  destruct (vchans_of_lookup _ _ _ _ Hv) as [Hv' _].
  unfold hab_vchan_put. apply wp_bind. eapply wp_get_v; [done|].
  destruct (Z.leb_spec (vc_refcount vc) 0); [lia|].
  apply wp_bind. eapply wp_upd_v; [done|].
  assert (Hwf1 : wf h (set_w_vchans (<[v := set_vc_refcount (vc_refcount vc - 1) vc]> (w_vchans w)) w)).
  { eapply wf_vchan_refs; try done; simpl.
    - rewrite decide_True by done. lia.
    - intros u Hu. by rewrite decide_False by congruence.
    - intros u Hu. left. by right. }
  apply wp_when; [|by intros _]. intros Heq%Z.eqb_eq.
  eapply hab_vchan_free_spec; [done|done|apply lookup_insert_eq|..].
  - intros a ax Hax Hin'. simpl in Hax. destruct (wf_c _ _ Hwf a ax Hax) as (_ & _ & _ & H4 & _).
    destruct (H4 v Hin') as (uc & Hu & Ha). assert (a = c) as -> by congruence.
    assert (ax = cx) as -> by congruence.
    rewrite decide_True in Hr by done. lia.
  - apply occ_zero. lia.
  - apply occ_zero. lia.
Qed.

(** ** Creating one *)

Definition link (id : Z) (v : nat) (pc : physical_channel) : physical_channel :=
  set_pc_vcnt (pc_vcnt pc + 1) (set_pc_vchannels (pc_vchannels pc ++ [v])
    (set_pc_vchan_idr (<[id := v]> (pc_vchan_idr pc)) pc)).

(** The new object takes over a reference on its channel and on its context, and
    belongs to the thread that opens it. *)
Lemma wf_vchan_link h w p pc c id v vc :
  wf (held_p p (held_c c h)) w -> h_x h = None ->
  w_pchans w !! p = Some pc -> pc_vchan_idr pc !! id = None -> 1 <= id ->
  (w_vchans w !! v = None) -> (forall a, (w_next w <= a)%nat -> v <> a) ->
  (forall a ax, w_ctxs w !! a = Some ax -> v ∉ cx_vchannels ax) -> v ∉ h_v h -> v ∉ (h_o h).*1 ->
  vc_pchan vc = p -> vc_ctx vc = Some c -> HAB_VCID_GET_ID (vc_id vc) = id ->
  vc_refcount vc = 1 -> vc_rx_list vc = [] ->
  wf (held_o v c h) (set_w_vchans (<[v := vc]> (w_vchans w))
    (set_w_pchans (<[p := link id v pc]> (w_pchans w)) w)).
Proof.
  intros [Wv Wp Wc Wd Wdrv Wf Wo Wl] Hx Hpc Hid Hpos Hv Hnext Hn1 Hn2 Hn3 Vp Vc Vi Vr Vm.
  set (w' := set_w_vchans _ _).
  assert (Hof : vchans_of (held_p p (held_c c h)) w = w_vchans w) by (unfold vchans_of; simpl; by rewrite Hx).
  assert (Hof' : vchans_of (held_o v c h) w' = <[v := vc]> (w_vchans w)) by (unfold vchans_of; simpl; by rewrite Hx).
  rewrite Hof in *.
  assert (Hcount : forall P : virtual_channel -> bool,
    count P (<[v := vc]> (w_vchans w)) = count P (w_vchans w) + (if P vc then 1 else 0)).
  { intros P. by apply count_insert_None. }
  assert (Hl : forall u uc, w_vchans w !! u = Some uc -> <[v := vc]> (w_vchans w) !! u = Some uc).
  { intros u uc Hu. rewrite lookup_insert_ne; [done|]. by intros <-; congruence. }
  assert (Hown : forall e ex, export_owned w e ex -> export_owned w' e ex).
  { intros e ex. by apply (export_owned_pchan w p pc). }
  assert (Hsome : forall q, is_Some (w_pchans w !! q) -> is_Some (w_pchans w' !! q)).
  { intros q ?. simpl. rewrite lookup_insert. by case_decide. }
  assert (Hcx : exists cx, w_ctxs w !! c = Some cx).
  { destruct Wdrv as (_ & _ & _ & _ & _ & _ & _ & Hhc & _). apply Hhc. by left. }
  destruct Hcx as [cx Hcx].
  constructor; rewrite ?Hof'.
  - intros u uc. rewrite lookup_insert. case_decide as Hu.
    + intros [= <-]. subst u. exists (link id v pc), c, cx. rewrite Vp, Vi, Vc, Vr, Vm. simpl.
      rewrite !lookup_insert_eq. split_and!; try done.
      * apply elem_of_app. right. by left.
      * rewrite (decide_False (P := v ∈ cx_vchannels cx)) by (by apply (Hn1 c)).
        rewrite decide_True by done. change (list_fmap _ _ fst (h_o h)) with ((h_o h).*1).
        rewrite !occ_notin by done. done.
    + intros Hu'. destruct (Wv u uc Hu') as (qc & a & ax & Hq & Hin & Hj & ? & ? & ? & ?).
      exists (if decide (p = vc_pchan uc) then link id v pc else qc), a, ax. simpl.
      rewrite lookup_insert. rewrite !(decide_False (P := v = u)) by done.
      destruct (decide (p = vc_pchan uc)) as [Hpu|]; [|by split_and!].
      rewrite <- Hpu in Hq. assert (qc = pc) as -> by congruence. split_and!; try done; simpl.
      * apply elem_of_app. by left.
      * rewrite lookup_insert_ne; [done|]. intros Heq. rewrite <- Heq in Hj. congruence.
  - intros q qc. simpl. rewrite lookup_insert. case_decide as Hq.
    + intros [= <-]. subst q. destruct (Wp p pc Hpc) as (? & ? & Hnd & Hcnt & H5 & H6 & ? & Hr).
      rewrite Hof in H5, Hr. unfold pchan_ok. rewrite Hof', Hcount. simpl.
      rewrite bool_decide_eq_true_2 by done. simpl in Hr. rewrite decide_True in Hr by done.
      split_and!; try done.
      * apply list.NoDup_app. split; [done|]. split; [|apply NoDup_singleton].
        intros u Hu ->%list_elem_of_singleton. destruct (H5 v Hu) as (? & ? & _). congruence.
      * rewrite Hcnt, zlen_app. done.
      * intros u [Hu| ->%list_elem_of_singleton]%elem_of_app.
        -- destruct (H5 u Hu) as (uc & ? & ?). exists uc. split; [by apply Hl|done].
        -- exists vc. by rewrite lookup_insert_eq.
      * intros j u [[-> ->]|[Hne Hj]]%lookup_insert_Some.
        -- exists vc. rewrite lookup_insert_eq. by split_and!.
        -- destruct (H6 j u Hj) as (uc & ? & ?). exists uc. split; [by apply Hl|done].
      * lia.
    + intros Hqc. destruct (Wp q qc Hqc) as (? & ? & ? & ? & H5 & H6 & ? & Hr).
      rewrite Hof in H5, Hr. unfold pchan_ok. rewrite Hof', Hcount. simpl.
      rewrite bool_decide_eq_false_2 by congruence. simpl in Hr. rewrite decide_False in Hr by done.
      split_and!; try done; [| |lia].
      * intros u Hu. destruct (H5 u Hu) as (uc & ? & ?). exists uc. split; [by apply Hl|done].
      * intros j u Hj. destruct (H6 j u Hj) as (uc & ? & ?). exists uc. split; [by apply Hl|done].
  - intros a ax Hax. destruct (Wc a ax Hax) as (? & ? & ? & H4 & ? & He & Hi & Hr).
    rewrite Hof in H4, Hr. unfold ctx_ok. rewrite Hof', Hcount. split_and!; try done.
    + intros u Hu. destruct (H4 u Hu) as (uc & ? & ?). exists uc. split; [by apply Hl|done].
    + intros e Hin. destruct (He e Hin) as (ex & ? & ? & ?). exists ex. split_and!; auto.
    + intros k e Hk. destruct (Hi k e Hk) as (ex & ? & ? & ? & ?). exists ex. split_and!; auto.
    + rewrite Vc. simpl in *. case_decide as Hca.
      * subst a. rewrite bool_decide_eq_true_2 by done. lia.
      * rewrite bool_decide_eq_false_2 by congruence. lia.
  - intros d dv Hd. destruct (Wd d dv Hd) as (? & ? & H3 & H4). split_and!; try done.
    + intros q Hq. destruct (H3 q Hq) as (qc & ? & ?). simpl. rewrite lookup_insert.
      case_decide; [|by eauto]. subst q. eexists; split; [done|]. simpl. congruence.
    + eapply Forall_impl; [|exact H4]. intros n (q & ? & ?). exists q. split; auto.
  - destruct Wdrv as (? & ? & ? & ? & Hr & Hhv & Hhp & Hhc & ? & He & ?).
    rewrite Hof in Hhv. unfold driver_ok. rewrite Hof'. split_and!; try done.
    + intros e Hin. destruct (Hr e Hin) as (ex & ? & ? & ?). exists ex. split_and!; auto.
    + intros u Hu. destruct (Hhv u Hu) as [uc ?]. exists uc. by apply Hl.
    + intros q Hq. apply Hsome, Hhp. by right.
    + intros a Ha. apply Hhc. by right.
    + intros e q Hin. destruct (He e q Hin) as (ex & qc & ? & Hqc & ? & ? & ? & ?).
      exists ex, (if decide (p = q) then link id v pc else qc). simpl. rewrite lookup_insert.
      destruct (decide (p = q)) as [<-|]; split_and!; try done. simpl. congruence.
  - split; [|split; [apply Wf|split; [apply Wf|split; [intros ? ?; by eapply known_pchan|apply Wf]]]]. intros a Ha. destruct (proj1 Wf a Ha) as (? & ? & ? & ? & ?). split_and!; try done; simpl.
    + rewrite lookup_insert_ne; [done|congruence].
    + rewrite lookup_insert_ne; [done|]. by apply Hnext.
  - split; simpl.
    + apply list.NoDup_cons. split; [done|apply Wo].
    + rewrite Hof'. intros u a [[= -> ->]|Hin]%elem_of_cons.
      * split; [|done]. exists vc. by rewrite lookup_insert_eq.
      * destruct (proj2 Wo u a Hin) as [(uc & Hu & ?) ?]. rewrite Hof in Hu. split; [|done].
        exists uc. split; [by apply Hl|done].
  - by eapply listed_ok_pchan.
Qed.

(** The slot can be read back from the packed word. *)
Lemma vchan_id_word_id id devid dom_id :
  0 <= id < 4096 -> HAB_VCID_GET_ID (vchan_id_word id devid dom_id) = id.
Proof.
  intros Hid. rewrite vcid_get_id_mod. unfold vchan_id_word, i32.
  set (x := Z.lor _ _).
  assert (Hx : x mod 2 ^ 12 = id).
  { unfold x. rewrite <- Z.land_ones by lia. rewrite !Z.land_lor_distr_l, <- !Z.land_assoc.
    unfold HAB_VCID_ID_SHIFT. rewrite Z.shiftl_0_r.
    change (Z.land HAB_VCID_ID_MASK (Z.ones 12)) with (Z.ones 12).
    change (Z.land HAB_VCID_MMID_MASK (Z.ones 12)) with 0.
    change (Z.land HAB_VCID_DOMID_MASK (Z.ones 12)) with 0.
    rewrite !Z.land_0_r, !Z.lor_0_r, Z.land_ones by lia. apply Z.mod_small. lia. }
  rewrite Zminus_mod, Z.mod_mod_divide by (exists (2 ^ 20); reflexivity).
  change (2 ^ 31 mod 2 ^ 12) with 0. rewrite Z.sub_0_r, Z.mod_mod by lia.
  rewrite Zplus_mod, Hx. change (2 ^ 31 mod 2 ^ 12) with 0. rewrite Z.add_0_r.
  apply Z.mod_small. lia.
Qed.

Lemma wf_next_fresh h w v : wf h w -> v = w_next w ->
  w_vchans w !! v = None /\ w_ctxs w !! v = None /\ w_pchans w !! v = None /\
  (forall a ax, w_ctxs w !! a = Some ax -> v ∉ cx_vchannels ax) /\
  (h_x h = None -> (v ∉ h_v h) /\ v ∉ (h_o h).*1).
Proof.
  intros Hwf ->. destruct (proj1 (wf_fresh _ _ Hwf) (w_next w)) as (? & Hn & ? & ? & ?); [lia|].
  split_and!; try done.
  - intros a ax Hax Hin. destruct (wf_c _ _ Hwf a ax Hax) as (_ & _ & _ & Hvs & _).
    destruct (Hvs _ Hin) as (vc & [? _]%vchans_of_lookup & _). congruence.
  - intros _. split.
    { intros Hin. destruct (wf_drv _ _ Hwf) as (_ & _ & _ & _ & _ & Hhv & _).
      destruct (Hhv _ Hin) as [vc [? _]%vchans_of_lookup]. congruence. }
    intros ([u b] & Hu & Hin)%list_elem_of_fmap. simpl in Hu. subst u.
    destruct (proj2 (wf_opening _ _ Hwf) _ _ Hin) as [(vc & [? _]%vchans_of_lookup & _) _]. congruence.
Qed.

(** A new virtual channel comes with one reference, its channel and context
    still have the ones they had. *)
Lemma hab_vchan_alloc_spec h w c p openid (Q : option nat -> world HS -> Prop) :
  wf h w -> h_x h = None -> c ∈ h_c h -> is_Some (w_pchans w !! p) ->
  (forall w', frame w w' -> Q None w') ->
  (forall v w' vc, wf (held_o v c h) w' -> w_vchans w' !! v = Some vc ->
     vc_pchan vc = p -> vc_ctx vc = Some c -> vc_otherend_id vc = 0 ->
     vc_session_id vc = u32 openid -> vc_closed vc = false ->
     w_devs w' = w_devs w -> Q (Some v) w') ->
  wp (hab_vchan_alloc c p openid) Q w.
Proof.
  intros Hwf Hx Hc [pc Hpc] HN HS_. destruct (wf_ctx_held _ _ _ Hwf Hc) as (cx & Hcx & Hr).
  unfold hab_vchan_alloc.
  apply wp_bind. apply wp_kalloc; intros l; [by apply wp_ret, HN, frame_alloc|].
  set (v := w_next w). destruct (wf_next_fresh h w v Hwf eq_refl) as (Hv & Hvc & Hvp & Hn1 & Hn2).
  set (w1 := set_w_next (S v) _).
  assert (Hwf1 : wf h w1) by (eapply wf_frame; [apply frame_next|done]).
  apply wp_bind. eapply wp_get_p; [done|].
  destruct (idr_pick _ _ _) as [id|] eqn:Hid; [|by apply wp_ret, HN, frame_next].
  apply idr_pick_Some in Hid as [Hrange Hid].
  change (Z.shiftr HAB_VCID_ID_MASK HAB_VCID_ID_SHIFT + 1) with 4096 in Hrange.
  assert (0 <= id < 4096) as Hid' by lia.
  destruct (wf_p _ _ Hwf p pc Hpc) as ((d & Hd & _) & _).
  assert (Hwf2 : wf (held_p p h)
    (set_w_pchans (<[p := set_pc_refcount (pc_refcount pc + 1) pc]> (w_pchans w1)) w1)).
  { eapply wf_pchan_refs; try done; simpl.
    - rewrite decide_True by done. lia.
    - intros q Hq. by rewrite decide_False by congruence.
    - intros q [->|?]%elem_of_cons; auto. }
  set (w2 := set_w_pchans _ w1) in Hwf2.
  assert (Hwf3 : wf (held_p p (held_c c h))
    (set_w_ctxs (<[c := set_cx_refcount (cx_refcount cx + 1) cx]> (w_ctxs w2)) w2)).
  { eapply (wf_ctx_refs (held_p p h)); try done; simpl; try (by auto).
    - intros _. split; [lia|done].
    - rewrite decide_True by done. lia.
    - intros a Ha. by rewrite decide_False by congruence.
    - intros a [->|?]%elem_of_cons; auto. }
  set (w3 := set_w_ctxs _ w2) in Hwf3.
  set (vc := Build_virtual_channel 1 p (Some c) [] (vchan_id_word id (dv_id d) (pc_dom_id pc)) 0
    (pc_closed pc) (u32 openid) false 0 0 false).
  pose proof (wf_vchan_link h w3 p (set_pc_refcount (pc_refcount pc + 1) pc) c id v vc Hwf3 Hx) as Hwf4.
  apply wp_bind. eapply wp_upd_p; [done|].
  apply wp_bind. unfold hab_pchan_get. eapply wp_upd_p; [apply lookup_insert_eq|].
  apply wp_bind. eapply wp_upd_p; [apply lookup_insert_eq|].
  apply wp_bind. eapply wp_get_d; [exact Hd|].
  apply wp_bind, wp_modify. apply wp_bind. unfold hab_ctx_get. eapply wp_upd_c; [exact Hcx|].
  apply wp_bind. eapply wp_upd_v; [apply lookup_insert_eq|]. apply wp_ret. simpl.
  rewrite !insert_insert_eq. apply (HS_ v _ vc); try done; [|apply lookup_insert_eq].
  simpl in Hwf4. rewrite !insert_insert_eq in Hwf4. apply Hwf4; try done.
  - apply lookup_insert_eq.
  - lia.
  - intros a Ha. lia.
  - intros a ax. simpl. rewrite lookup_insert. case_decide; [|by apply Hn1].
    intros [= <-]. exact (Hn1 _ cx Hcx).
  - by apply Hn2.
  - by apply Hn2.
  - by apply vchan_id_word_id.
Qed.

(** ** Lookup and stopping *)

(** A virtual channel that may receive a message of this id and session. *)
Definition receives (vc : virtual_channel) (hd : hab_header) : bool :=
  (vc_session_id vc =? HAB_HEADER_GET_SESSION_ID hd) && negb (vc_otherend_id vc =? 0) &&
  negb (vc_otherend_closed vc) && negb (vc_closed vc) && negb (vc_refcount vc =? 0).

(** [hab_vchan_get] on each outcome. *)
Lemma hab_vchan_get_eq p hd w pc :
  w_pchans w !! p = Some pc ->
  (forall v, pc_vchan_idr pc !! HAB_VCID_GET_ID (HAB_HEADER_GET_ID hd) = Some v ->
     is_Some (w_vchans w !! v)) ->
  hab_vchan_get p hd w =
    match pc_vchan_idr pc !! HAB_VCID_GET_ID (HAB_HEADER_GET_ID hd) with
    | Some v =>
        match w_vchans w !! v with
        | Some vc =>
            if receives vc hd
            then Ok (Some v, set_w_vchans (<[v := set_vc_refcount (vc_refcount vc + 1) vc]> (w_vchans w)) w)
            else Ok (None, w)
        | None => Fault UseAfterFree
        end
    | None => Ok (None, w)
    end.
Proof.
  intros Hpc Hlive. unfold hab_vchan_get, bind, get_p. rewrite Hpc.
  destruct (pc_vchan_idr pc !! _) as [v|] eqn:Hi; [|done].
  destruct (Hlive v eq_refl) as [vc Hv]. unfold get_v. rewrite Hv. unfold receives.
  destruct (vc_session_id vc =? _); simpl; [|done].
  destruct (vc_otherend_id vc =? 0); simpl; [done|].
  destruct (vc_otherend_closed vc); simpl; [done|].
  destruct (vc_closed vc); simpl; [done|].
  destruct (vc_refcount vc =? 0); simpl; [done|].
  unfold upd_v. by rewrite Hv.
Qed.

Lemma hab_vchan_get_spec h w p hd (Q : option nat -> world HS -> Prop) :
  wf h w -> h_x h = None -> is_Some (w_pchans w !! p) ->
  Q None w ->
  (forall v vc, w_vchans w !! v = Some vc -> vc_pchan vc = p -> receives vc hd = true ->
     let w' := set_w_vchans (<[v := set_vc_refcount (vc_refcount vc + 1) vc]> (w_vchans w)) w in
     wf (held_v v h) w' -> Q (Some v) w') ->
  wp (hab_vchan_get p hd) Q w.
Proof.
  intros Hwf Hx [pc Hpc] HN HS_. unfold wp.
  destruct (wf_p _ _ Hwf p pc Hpc) as (_ & _ & _ & _ & _ & Hid & _).
  rewrite (hab_vchan_get_eq p hd w pc Hpc).
  - destruct (pc_vchan_idr pc !! _) as [v|] eqn:Hi; [|done].
    destruct (Hid _ v Hi) as (vc & Hv & ? & _). rewrite Hv.
    destruct (receives vc hd) eqn:Hr; [|done]. apply HS_; try done.
    apply wf_vchan_take; [done|]. unfold vchans_of. by rewrite Hx.
  - intros v Hi. destruct (Hid _ v Hi) as (vc & Hv & _). by eexists.
Qed.

Lemma hab_vchan_stop_spec h w v :
  wf h w -> h_x h = None -> is_Some (w_vchans w !! v) ->
  wp (hab_vchan_stop v) (fun _ w' => frame w w' /\ w_ctxs w' = w_ctxs w /\
    w_pchans w' = w_pchans w) w.
Proof.
  intros Hwf Hx [vc Hv]. unfold hab_vchan_stop.
  assert (Hv' : vchans_of h w !! v = Some vc) by (unfold vchans_of; by rewrite Hx).
  destruct (wf_v _ _ Hwf v vc Hv') as (pc & c & cx & Hpc & _ & _ & Hc & Hcx & _).
  apply wp_bind. eapply wp_upd_v; [done|]. apply wp_bind, wp_log.
  apply wp_bind. eapply wp_get_v; [apply lookup_insert_eq|]. simpl. rewrite Hc.
  apply wp_bind. eapply wp_get_p; [exact Hpc|]. apply wp_bind. eapply wp_get_c; [exact Hcx|].
  apply wp_log. split; [|done]. eapply frame_trans;
    [by apply (frame_vchan v vc (set_vc_otherend_closed true vc))|].
  eapply frame_trans; [apply frame_log|]. apply (frame_log _ _).
Qed.

Lemma hab_vchans_stop_spec h w p :
  wf h w -> h_x h = None -> is_Some (w_pchans w !! p) ->
  wp (hab_vchans_stop p) (fun _ w' => frame w w') w.
Proof.
  intros Hwf Hx [pc Hpc]. unfold hab_vchans_stop. apply wp_bind. eapply wp_get_p; [done|].
  apply (wp_for_each (fun l w' => frame w w' /\ forall v, v ∈ l -> is_Some (w_vchans w' !! v))).
  - split; [apply frame_refl|]. intros v Hv.
    destruct (wf_p _ _ Hwf p pc Hpc) as (_ & _ & _ & _ & Hl & _).
    destruct (Hl v Hv) as (vc & [? _]%vchans_of_lookup & _). by eexists.
  - intros v l w' [Hf Hl]. eapply wp_mono.
    { eapply hab_vchan_stop_spec; [by eapply wf_frame|done|]. apply Hl. by left. }
    intros [] w'' (Hf' & _). split; [by eapply frame_trans|]. intros u Hu.
    destruct (Hl u) as [uc Huc]; [by right|].
    destruct (same_view_Some _ _ _ _ _ (fr_v _ _ Hf') Huc) as (? & ? & _). by eexists.
  - by intros w' [? _].
Qed.

Lemma hab_send_close_msg_spec h w v :
  wf h w -> h_x h = None -> is_Some (w_vchans w !! v) ->
  wp (hab_send_close_msg v) (fun _ w' => io_frame w w') w.
Proof.
  intros Hwf Hx [vc Hv]. unfold hab_send_close_msg.
  assert (Hv' : vchans_of h w !! v = Some vc) by (unfold vchans_of; by rewrite Hx).
  destruct (wf_v _ _ Hwf v vc Hv') as (pc & c & cx & Hpc & _).
  apply wp_bind. eapply wp_get_v; [done|].
  apply wp_when; intros _; [|apply io_frame_refl]. apply wp_bind.
  eapply wp_physical_channel_send; [done|by eexists|]. by intros r w' Hio _.
Qed.

Lemma hab_send_unimport_msg_spec h w v i :
  wf h w -> h_x h = None -> is_Some (w_vchans w !! v) ->
  wp (hab_send_unimport_msg v i) (fun _ w' => io_frame w w') w.
Proof.
  intros Hwf Hx [vc Hv]. unfold hab_send_unimport_msg.
  assert (Hv' : vchans_of h w !! v = Some vc) by (unfold vchans_of; by rewrite Hx).
  destruct (wf_v _ _ Hwf v vc Hv') as (pc & c & cx & Hpc & _).
  apply wp_bind. eapply wp_get_v; [done|]. apply wp_bind.
  eapply wp_physical_channel_send; [done|by eexists|]. by intros r w' Hio _.
Qed.

Lemma hab_vchan_stop_notify_spec h w v :
  wf h w -> h_x h = None -> is_Some (w_vchans w !! v) ->
  wp (hab_vchan_stop_notify v) (fun _ w' => frame w w') w.
Proof.
  intros Hwf Hx Hv. unfold hab_vchan_stop_notify. apply wp_bind.
  eapply wp_mono; [by eapply hab_send_close_msg_spec|]. intros [] w1 Hio.
  eapply wp_mono; [eapply hab_vchan_stop_spec; [by eapply wf_io_frame|done|by rewrite (io_v _ _ Hio)]|].
  intros [] w2 (Hf & _). eapply frame_trans; [apply Hio|done].
Qed.

End lemmas.
