(* ===== verification/Wait.v ===== *)
(** Sleeping: [wait_event] and its timed and interruptible forms.  A sleeper is
    given the sequence of what happens to it while it sleeps ([wake]): another
    thread runs and wakes it, a signal arrives, the timeout elapses.  When the
    sequence ends before the condition holds the sleeper stays [Blocked]. *)
From S2P Require Import Prelude Header World Logic Invariant.

Inductive wake (HS : Type) :=
  | WakeRun (m : M HS unit)
  | WakeSignal
  | WakeTimeout.
Arguments WakeRun {HS} m.
Arguments WakeSignal {HS}.
Arguments WakeTimeout {HS}.

Inductive wait_result := WaitDone | WaitElapsed | WaitInterrupted.

#[export] Instance wait_result_eq_dec : EqDecision wait_result.
Proof. solve_decision. Defined.

(** The value of the macro: 1 stands for the remaining jiffies, of which the
    driver only asks whether they are positive. *)
Definition wait_ret (timed : bool) (r : wait_result) : Z :=
  match r with
  | WaitDone => if timed then 1 else 0
  | WaitElapsed => 0
  | WaitInterrupted => - ERESTARTSYS
  end.

Section ops.
Context {HS A : Type}.
#[local] Abbreviation M := (World.M HS).

(** [cond] is the condition; [a] is what it writes through pointers of the
    sleeper.  It is tested on entry and after every wake-up, the fatal ones
    included. *)
Fixpoint wait_event (interruptible timed : bool) (cond : A -> M (bool * A)) (a : A)
    (s : list (wake HS)) : M (wait_result * A * list (wake HS)) :=
  let! r := cond a in
  if (r.1 : bool) then ret (WaitDone, r.2, s)
  else
    match s with
    | [] => fun _ => Blocked
    | WakeRun m :: s => do! m in wait_event interruptible timed cond (r.2) s
    | WakeSignal :: s =>
        if interruptible then
          let! r := cond (r.2) in
          ret (if (r.1 : bool) then WaitDone else WaitInterrupted, r.2, s)
        else wait_event interruptible timed cond (r.2) s
    | WakeTimeout :: s =>
        if timed then
          let! r := cond (r.2) in
          ret (if (r.1 : bool) then WaitDone else WaitElapsed, r.2, s)
        else wait_event interruptible timed cond (r.2) s
    end.
End ops.

(** What other threads may do while one sleeps: whatever keeps the invariant,
    for all references that are held. *)
Definition run_ok {HS} (m : M HS unit) : Prop :=
  forall h w, wf h w -> h_x h = None -> wp m (fun _ w' => wf h w') w.

Definition wake_ok {HS} (k : wake HS) : Prop :=
  match k with WakeRun m => run_ok m | _ => True end.

Definition sched_ok {HS} (s : list (wake HS)) : Prop := Forall wake_ok s.

(** While the condition is false the sleeper's invariant [I] holds, which the
    condition and the others keep; when it turns true it gives [C]. *)
Lemma wp_wait_event {HS A} (I C : A -> world HS -> Prop) intr timed (cond : A -> M HS (bool * A)) a s
    (Q : wait_result * A * list (wake HS) -> world HS -> Prop) w :
  (forall a w, I a w ->
     wp (cond a) (fun r w' => if (r.1 : bool) then C (r.2) w' else I (r.2) w') w) ->
  (forall m a w, wake_ok (WakeRun m) -> I a w -> wp m (fun _ w' => I a w') w) ->
  sched_ok s -> I a w ->
  (forall r a s' w', (if decide (r = WaitDone) then C a w' else I a w') -> sched_ok s' ->
     (length s' <= length s)%nat -> (r <> WaitDone -> (length s' < length s)%nat) ->
     Q (r, a, s') w') ->
  wp (wait_event intr timed cond a s) Q w.
Proof.
  intros Hcond Hrun. revert a w Q. induction s as [|k s IH]; intros a w Q Hs HI HQ; cbn [wait_event];
    apply wp_bind; (eapply wp_mono; [by apply Hcond|]); intros [b a1] w1 HI1; simpl in *;
    (destruct b; [apply wp_ret, HQ; try done; simpl; auto|]).
  - done.
  - apply list.Forall_cons in Hs as [Hk Hs].
    assert (Hrec : wp (wait_event intr timed cond a1 s) Q w1).
    { apply IH; [done|done|]. intros. apply HQ; simpl; auto with lia. }
    destruct k as [m| |].
    + apply wp_bind. eapply wp_mono; [by apply (Hrun m a1)|]. intros [] w2 HI2.
      apply IH; [done|done|]. intros. apply HQ; simpl; auto with lia.
    + destruct intr; [|done]. apply wp_bind. eapply wp_mono; [by apply Hcond|].
      intros [b a2] w2 HI2. simpl in *. apply wp_ret, HQ; [by destruct b|done|simpl; lia|simpl; lia].
    + destruct timed; [|done]. apply wp_bind. eapply wp_mono; [by apply Hcond|].
      intros [b a2] w2 HI2. simpl in *. apply wp_ret, HQ; [by destruct b|done|simpl; lia|simpl; lia].
Qed.
