(* ===== verification/Open.v ===== *)
(** The open handshake (hab_open.c; [hab_is_forbidden] of hab.c): the requests a
    device has received and not yet served, the search a waiting opener makes,
    cancellation, and the opens a context has pending. *)
From S2P Require Import Prelude Header World Logic Invariant Pchan Exports Context Vchan Wait.

(* src/hab_open.c:8-8 HAB_OPEN_REQ_EXPIRE_TIME_S *)
Definition HAB_OPEN_REQ_EXPIRE_TIME_S : Z := 3600 * 10.

Definition NSEC_PER_SEC : Z := 1000000000.

(** The seconds the code compares ages with. *)
Definition now_sec (t : Z * Z) : Z := t.1 + t.2 / NSEC_PER_SEC.

(** [hab_open_request_init] fills in all but the two version words. *)
(* src/hab_open.c:10-23 hab_open_request_init *)
Definition hab_open_request_init (request : hab_open_request) (type : Z) (pchan : option nat)
    (vchan_id' sub_id' open_id' : Z) : hab_open_request :=
  Build_hab_open_request type pchan
    (Build_hab_open_send_data vchan_id' sub_id' open_id' (ver_fe (rq_xdata request))
       (ver_be (rq_xdata request)) HAB_VER_PROT).

Definition set_ver_fe (v : Z) (r : hab_open_request) : hab_open_request :=
  set_rq_xdata (let d := rq_xdata r in
    Build_hab_open_send_data (vchan_id d) (sub_id d) (open_id d) v (ver_be d) (ver_proto d)) r.
Definition set_ver_be (v : Z) (r : hab_open_request) : hab_open_request :=
  set_rq_xdata (let d := rq_xdata r in
    Build_hab_open_send_data (vchan_id d) (sub_id d) (open_id d) (ver_fe d) v (ver_proto d)) r.

(** The header of an open request: size and type, no id, no session. *)
Definition open_header (type : Z) : hab_header :=
  HAB_HEADER_SET_TYPE (HAB_HEADER_SET_SIZE HAB_HEADER_INITIALIZER sizeof_hab_open_send_data) type.

(** Does a received request answer [listen]?  A cancel answers any type. *)
(* src/hab_open.c:100-106 hab_open_request_find *)
Definition request_matches (listen r : hab_open_request) : bool :=
  ((rq_type r =? rq_type listen) || (rq_type r =? payload_code HAB_PAYLOAD_TYPE_INIT_CANCEL)) &&
  (sub_id (rq_xdata r) =? sub_id (rq_xdata listen)) &&
  ((open_id (rq_xdata listen) =? 0) || (open_id (rq_xdata r) =? open_id (rq_xdata listen))) &&
  match rq_pchan listen with
  | None => true
  | Some p => bool_decide (rq_pchan r = Some p)
  end.

(** The walk over the queue: the match, what stays, and what expired before it. *)
(* src/hab_open.c:98-120 hab_open_request_find *)
Fixpoint openq_scan (listen : hab_open_request) (now : Z) (l : list hab_open_node) :
    option hab_open_request * list hab_open_node * list hab_open_node :=
  match l with
  | [] => (None, [], [])
  | n :: l =>
      if request_matches listen (on_request n) then (Some (on_request n), l, [])
      else
        let '(found, kept, expired) := openq_scan listen now l in
        if on_age n <? now then (found, kept, n :: expired) else (found, n :: kept, expired)
  end.

(** The un-serviced request that a received cancel names. *)
(* src/hab_open.c:215-219 hab_open_receive_cancel *)
Definition cancel_matches (d : hab_open_send_data) (n : hab_open_node) : bool :=
  let r := on_request n in
  ((rq_type r =? payload_code HAB_PAYLOAD_TYPE_INIT) ||
   (rq_type r =? payload_code HAB_PAYLOAD_TYPE_INIT_ACK)) &&
  (sub_id (rq_xdata r) =? sub_id d) && (open_id (rq_xdata r) =? open_id d) &&
  (vchan_id (rq_xdata r) =? vchan_id d).

(* src/hab_open.c:299-307 hab_open_pending_exit *)
Definition pending_same (a b : hab_open_request) : bool :=
  (rq_type a =? rq_type b) && bool_decide (rq_pchan a = rq_pchan b) &&
  (vchan_id (rq_xdata a) =? vchan_id (rq_xdata b)) &&
  (sub_id (rq_xdata a) =? sub_id (rq_xdata b)) &&
  (open_id (rq_xdata a) =? open_id (rq_xdata b)).

Section ops.
Context {HS : Type} `{Platform HS} `{KernelIdr}.
#[local] Abbreviation M := (World.M HS).

(* src/hab_open.c:25-33 hab_open_request_send *)
Definition hab_open_request_send (request : hab_open_request) : M Z :=
  let! p := deref (rq_pchan request) in
  physical_channel_send p (open_header (rq_type request)) (open_data_enc (rq_xdata request)).

(* src/hab_open.c:40-73 hab_open_request_add *)
Definition hab_open_request_add (p : nat) (sizebytes request_type : Z) : M Z :=
  let! pc := get_p p in
  let! a := kalloc in
  match a with
  | None => ret (- ENOMEM)
  | Some _ =>
      let! rd := physical_channel_read p sizebytes in
      if negb (rd.1 =? sizebytes) then ret (- EIO)
      else
        let! t := gets w_now in
        let node := Build_hab_open_node
          (Build_hab_open_request request_type (Some p)
             (open_data_dec (fill_buf sizeof_hab_open_send_data (rd.2))))
          (t.1 + HAB_OPEN_REQ_EXPIRE_TIME_S + t.2 / NSEC_PER_SEC) in
        do! hab_pchan_get p in
        do! upd_d (pc_habdev pc) (fun d =>
          set_dv_openq_cnt (dv_openq_cnt d + 1) (set_dv_openq_list (dv_openq_list d ++ [node]) d)) in
        ret 0
  end.

(* src/hab.c:812-832 hab_is_forbidden *)
Definition hab_is_forbidden (c : nat) (dev : option nat) (sub : Z) : M bool :=
  match dev with
  | None => ret false
  | Some d =>
      let! cx := get_c c in
      let! dv := get_d d in
      ret (existsb (fun mmid =>
        (HAB_MMID_GET_MAJOR mmid =? dv_id dv) && (HAB_MMID_GET_MINOR mmid =? sub))
        (cx_forbidden cx))
  end.

(** The nodes freed in passing drop the reference on their channel. *)
(* src/hab_open.c:131-138 hab_open_request_free *)
Definition hab_open_request_free (request : option hab_open_request) : M unit :=
  match request with
  | None => ret tt
  | Some r => match rq_pchan r with Some p => hab_pchan_put p | None => ret tt end
  end.

(** The condition of the wait; the second component is [*recv_request]. *)
(* src/hab_open.c:76-129 hab_open_request_find *)
Definition hab_open_request_find (c d : nat) (listen : hab_open_request)
    (recv : option hab_open_request) : M (bool * option hab_open_request) :=
  let! cx := get_c c in
  let! gone :=
    (if cx_closing cx then ret true
     else match rq_pchan listen with
          | Some p => let! pc := get_p p in ret (pc_closed pc)
          | None => ret false
          end) in
  if (gone : bool) then ret (true, None)
  else
    let! dv := get_d d in
    let! t := gets w_now in
    let '(found, kept, expired) := openq_scan listen (now_sec t) (dv_openq_list dv) in
    do! upd_d d (fun dv =>
      set_dv_openq_cnt (dv_openq_cnt dv - match found with Some _ => 1 | None => 0 end)
        (set_dv_openq_list kept dv)) in
    do! for_each (fun n => hab_open_request_free (Some (on_request n))) expired in
    let! forb := hab_is_forbidden c (Some d) (sub_id (rq_xdata listen)) in
    ret (match found with Some _ => true | None => forb end,
         match found with Some r => Some r | None => recv end).

(** The answer, the request received, and the rest of the schedule. *)
(* src/hab_open.c:140-190 hab_open_listen *)
Definition hab_open_listen (c d : nat) (listen : hab_open_request) (ms_timeout : Z)
    (s : list (wake HS)) : M (Z * option hab_open_request * list (wake HS)) :=
  let timed := 0 <? ms_timeout in
  let! r := wait_event true timed (hab_open_request_find c d listen) None s in
  let '(res, recv, s) := r in
  let rv := wait_ret timed res in
  let! cx := get_c c in
  let! forb := hab_is_forbidden c (Some d) (sub_id (rq_xdata listen)) in
  let code :=
    if timed then
      if rv =? 0 then - EAGAIN
      else if rv =? - ERESTARTSYS then - EINTR
      else if (forb : bool) then - ENXIO
      else if 0 <? rv then 0 else rv
    else
      if cx_closing cx then - ENODEV
      else if rv =? - ERESTARTSYS then - EINTR
      else if (forb : bool) then - ENXIO else rv in
  ret (code, recv, s).

(** A request that was not served yet is dropped; otherwise the cancel itself is
    queued for the opener that waits. *)
(* src/hab_open.c:197-265 hab_open_receive_cancel *)
Definition hab_open_receive_cancel (p : nat) (sizebytes : Z) : M Z :=
  let! pc := get_p p in
  let! rd := physical_channel_read p sizebytes in
  if negb (rd.1 =? sizebytes) then ret (- EIO)
  else
    let data := open_data_dec (fill_buf sizeof_hab_open_send_data (rd.2)) in
    let d := pc_habdev pc in
    let! dv := get_d d in
    match list_take_first (cancel_matches data) (dv_openq_list dv) with
    | Some (_, rest) =>
        do! upd_d d (fun dv =>
          set_dv_openq_cnt (dv_openq_cnt dv - 1) (set_dv_openq_list rest dv)) in
        ret 0
    | None =>
        let! a := kalloc in
        match a with
        | None => ret (- ENOMEM)
        | Some _ =>
            let! t := gets w_now in
            let node := Build_hab_open_node
              (Build_hab_open_request (payload_code HAB_PAYLOAD_TYPE_INIT_CANCEL) (Some p)
                (Build_hab_open_send_data (vchan_id data) (sub_id data) (open_id data)
                   (ver_fe data) (ver_be data) 0))
              (t.1 + HAB_OPEN_REQ_EXPIRE_TIME_S + t.2 / NSEC_PER_SEC) in
            do! hab_pchan_get p in
            do! upd_d d (fun dv =>
              set_dv_openq_cnt (dv_openq_cnt dv + 1)
                (set_dv_openq_list (dv_openq_list dv ++ [node]) dv)) in
            do! log (EvWakeOpenq d) in
            ret 0
        end
    end.

(* src/hab_open.c:267-276 hab_open_cancel_notify *)
Definition hab_open_cancel_notify (request : hab_open_request) : M Z :=
  let! p := deref (rq_pchan request) in
  physical_channel_send p (open_header (payload_code HAB_PAYLOAD_TYPE_INIT_CANCEL))
    (open_data_enc (rq_xdata request)).

(* src/hab_open.c:278-288 hab_open_pending_enter *)
Definition hab_open_pending_enter (c : nat) (pending : hab_open_request) : M Z :=
  do! upd_c c (fun cx =>
    set_cx_pending_cnt (cx_pending_cnt cx + 1)
      (set_cx_pending_open (cx_pending_open cx ++ [pending]) cx)) in
  ret 0.

(* src/hab_open.c:290-316 hab_open_pending_exit *)
Definition hab_open_pending_exit (c : nat) (pending : hab_open_request) : M Z :=
  let! cx := get_c c in
  let gone := filter (fun r => pending_same r pending = true) (cx_pending_open cx) in
  do! upd_c c (fun cx =>
    set_cx_pending_cnt (cx_pending_cnt cx - zlen gone)
      (set_cx_pending_open
        (filter (fun r => pending_same r pending = false) (cx_pending_open cx)) cx)) in
  ret (match gone with [] => - ENOENT | _ => 0 end).
End ops.

(** ** References held by the queue *)

Section lemmas.
Context {HS : Type} `{Platform HS} `{KernelIdr}.
Implicit Types (w : world HS) (h : held).

(** The queue of a device is replaced: the references of the nodes that left it
    are held instead, and those of new nodes come from held ones. *)
Lemma wf_openq h h' w d dv dv' :
  wf h w -> w_devs w !! d = Some dv ->
  dv_pchannels dv' = dv_pchannels dv -> dv_pchan_cnt dv' = dv_pchan_cnt dv -> dv_id dv' = dv_id dv ->
  (forall p, occ p (h_p h') + openq_count p (dv_openq_list dv') <=
             occ p (h_p h) + openq_count p (dv_openq_list dv)) ->
  Forall (fun n => exists p, rq_pchan (on_request n) = Some p /\ is_Some (w_pchans w !! p))
    (dv_openq_list dv') ->
  (forall p, p ∈ h_p h' -> is_Some (w_pchans w !! p)) ->
  h_v h' = h_v h -> h_c h' = h_c h -> h_e h' = h_e h -> h_x h' = h_x h -> h_o h' = h_o h ->
  wf h' (set_w_devs (<[d := dv']> (w_devs w)) w).
Proof.
  intros [Wv Wp Wc Wd Wdrv Wf Wo Wl] Hd D1 D2 D3 Hocc Hq Hhp E1 E2 E3 E4 E5.
  assert (Hvs : vchans_of h' (set_w_devs (<[d := dv']> (w_devs w)) w) = vchans_of h w)
    by exact (vchans_of_ext h h' w E4).
  constructor; rewrite ?Hvs; simpl.
  - intros v vc Hv. destruct (Wv v vc Hv) as (pc & c & cx & Hl). exists pc, c, cx. by rewrite E1, E5.
  - intros p pc Hpc. destruct (Wp p pc Hpc) as ((dd & Hdd & Hin) & ? & ? & ? & ? & ? & ? & Hr).
    unfold pchan_ok. rewrite Hvs. split_and!; try done.
    + simpl. exists (if decide (d = pc_habdev pc) then dv' else dd).
      destruct (decide (d = pc_habdev pc)) as [->|].
      * rewrite list_lookup_insert_eq by (by eapply lookup_lt_Some). split; [done|].
        rewrite D1. congruence.
      * by rewrite list_lookup_insert_ne.
    + simpl. rewrite (openq_refs_insert _ _ _ _ _ Hd). specialize (Hocc p). lia.
  - intros c cx Hcx. destruct (Wc c cx Hcx) as (? & ? & ? & ? & ? & ? & ? & ?).
    unfold ctx_ok. rewrite Hvs, E2. by split_and!.
  - intros i dd Hi. destruct (decide (d = i)) as [<-|Hne].
    + rewrite list_lookup_insert_eq in Hi by (by eapply lookup_lt_Some). injection Hi as <-.
      destruct (Wd d dv Hd) as (? & ? & ? & ?). unfold dev_ok. rewrite D1, D2. by split_and!.
    + rewrite list_lookup_insert_ne in Hi by done. by apply (Wd i dd).
  - destruct Wdrv as (? & ? & ? & ? & ? & ? & ? & ? & ? & ? & ?).
    unfold driver_ok. rewrite Hvs, E1, E2, E3. by split_and!.
  - destruct Wf as (Wf & Hids & Himp). split; [done|]. split; [|exact Himp]. simpl. rewrite list_fmap_insert, D3.
    rewrite list_insert_id; [done|]. by rewrite list_lookup_fmap, Hd.
  - apply (open_ok_mono h h' w); [done|rewrite Hvs; by eauto|by eauto|done].
  - exact Wl.
Qed.

Fixpoint node_pchans (l : list hab_open_node) : list nat :=
  match l with
  | [] => []
  | n :: l =>
      match rq_pchan (on_request n) with Some p => p :: node_pchans l | None => node_pchans l end
  end.

Lemma occ_node_pchans p l : occ p (node_pchans l) = openq_count p l.
Proof.
  unfold openq_count. induction l as [|n l IH]; [done|]. rewrite filter_cons. simpl. destruct (rq_pchan (on_request n)) as [q|] eqn:Hq.
  - simpl. rewrite IH. destruct (decide (q = p)) as [->|].
    + rewrite decide_True by done. unfold zlen. simpl length. lia.
    + rewrite decide_False by congruence. done.
  - rewrite decide_False by done. done.
Qed.

Lemma occ_app p l l' : occ p (l ++ l') = occ p l + occ p l'.
Proof. induction l; simpl; lia. Qed.

(** The walk moves every reference of the queue to one of its three results. *)
Lemma openq_scan_count listen now l found kept expired p :
  openq_scan listen now l = (found, kept, expired) ->
  openq_count p l = (match found with
                     | Some r => if decide (rq_pchan r = Some p) then 1 else 0
                     | None => 0
                     end) + openq_count p kept + openq_count p expired.
Proof.
  revert found kept expired. induction l as [|n l IH]; intros found kept expired; simpl.
  - by intros [= <- <- <-].
  - assert (Hn : forall l', openq_count p (n :: l') =
      (if decide (rq_pchan (on_request n) = Some p) then 1 else 0) + openq_count p l').
    { intros l'. change (n :: l') with ([n] ++ l'). by rewrite openq_count_app, openq_count_single. }
    rewrite Hn. destruct (request_matches listen (on_request n)).
    + intros [= <- <- <-]. change (openq_count p []) with 0. simpl. lia.
    + destruct (openq_scan listen now l) as [[f k] x]. specialize (IH _ _ _ eq_refl).
      destruct (on_age n <? now); intros [= <- <- <-]; rewrite Hn; lia.
Qed.

Lemma openq_scan_sub listen now l found kept expired :
  openq_scan listen now l = (found, kept, expired) ->
  (forall n, n ∈ kept -> n ∈ l) /\ (forall n, n ∈ expired -> n ∈ l) /\
  (forall r, found = Some r -> exists n, n ∈ l /\ on_request n = r /\ request_matches listen r = true).
Proof.
  revert found kept expired. induction l as [|n l IH]; intros found kept expired; simpl.
  - intros [= <- <- <-]. by split_and!; try done; intros ? ?%elem_of_nil.
  - destruct (request_matches listen (on_request n)) eqn:Hm.
    + intros [= <- <- <-]. split_and!.
      * intros ? ?. by right.
      * by intros ? ?%elem_of_nil.
      * intros r [= <-]. exists n. split_and!; try done. by left.
    + destruct (openq_scan listen now l) as [[f k] x].
      destruct (IH _ _ _ eq_refl) as (I1 & I2 & I3).
      assert (Hf : forall r, f = Some r -> exists n', n' ∈ n :: l /\ on_request n' = r /\
        request_matches listen r = true).
      { intros r Hr. destruct (I3 r Hr) as (n' & ? & ? & ?). exists n'. split_and!; try done. by right. }
      destruct (on_age n <? now); intros [= <- <- <-]; split_and!; try done; intros n';
        rewrite ?elem_of_cons; intuition auto.
Qed.
(** ** The operations keep the invariant *)

Lemma wf_devs_some h w d : wf h w -> (d < 30)%nat -> is_Some (w_devs w !! d).
Proof.
  intros Hwf Hd. apply lookup_lt_is_Some.
  pose proof (f_equal length (proj1 (proj1 (proj2 (wf_fresh _ _ Hwf))))) as Hl.
  rewrite length_fmap in Hl. rewrite Hl. exact Hd.
Qed.

Lemma wf_habdev h w p pc : wf h w -> w_pchans w !! p = Some pc -> is_Some (w_devs w !! pc_habdev pc).
Proof. intros Hwf Hpc. destruct (wf_p _ _ Hwf p pc Hpc) as ((dv & Hd & _) & _). by eexists. Qed.

Lemma hab_open_request_send_spec h w r p :
  wf h w -> rq_pchan r = Some p -> is_Some (w_pchans w !! p) ->
  wp (hab_open_request_send r) (fun _ w' => io_frame w w') w.
Proof.
  intros Hwf Hr Hp. unfold hab_open_request_send. rewrite Hr. apply wp_bind, wp_deref.
  eapply wp_physical_channel_send; [done|done|]. by intros ? ? Hio _.
Qed.

(** A node that came over a channel joins the queue of the channel's device. *)
Lemma openq_push_spec h w p pc node n :
  wf h w -> w_pchans w !! p = Some pc -> rq_pchan (on_request node) = Some p ->
  wp (do! hab_pchan_get p in
      upd_d (pc_habdev pc) (fun d =>
        set_dv_openq_cnt (n d) (set_dv_openq_list (dv_openq_list d ++ [node]) d)))
    (fun _ w' => wf h w') w.
Proof.
  intros Hwf Hpc Hnode. destruct (wf_habdev _ _ _ _ Hwf Hpc) as [dv Hd].
  apply wp_bind. eapply wp_mono; [by eapply hab_pchan_get_spec|].
  intros [] w1 (Hwf1 & pc1 & Hpc1 & ->). eapply wp_upd_d; [exact Hd|].
  eapply (wf_openq (held_p p h) h); try done; simpl.
  - intros q. rewrite openq_count_app, openq_count_single, Hnode.
    destruct (decide (p = q)) as [->|]; [rewrite decide_True by done|rewrite decide_False by congruence]; lia.
  - apply Forall_app. split.
    + destruct (wf_d _ _ Hwf1 _ _ Hd) as (_ & _ & _ & Hq). exact Hq.
    + apply Forall_singleton. exists p. split; [done|]. simpl. rewrite lookup_insert_eq. by eexists.
  - intros q Hq. simpl. rewrite lookup_insert. case_decide; [by eexists|].
    destruct (wf_drv _ _ Hwf) as (_ & _ & _ & _ & _ & _ & Hhp & _). by apply Hhp.
Qed.

Lemma wp_assoc {A B C} (m : M HS A) (k : A -> M HS B) (k' : B -> M HS C) Q w :
  wp (let! x := (let! a := m in k a) in k' x) Q w -> wp (let! a := m in let! x := k a in k' x) Q w.
Proof. unfold wp, bind. by destruct (m w) as [[a w']| |]. Qed.

Lemma hab_open_request_add_spec h w p n t :
  wf h w -> is_Some (w_pchans w !! p) -> 0 <= n ->
  wp (hab_open_request_add p n t) (fun _ w' => wf h w') w.
Proof.
  intros Hwf [pc Hpc] Hn. unfold hab_open_request_add. apply wp_bind. eapply wp_get_p; [done|].
  apply wp_bind. apply wp_kalloc; intros l.
  { apply wp_ret. eapply wf_frame; [apply frame_alloc|done]. }
  set (w1 := set_w_next _ _). assert (Hwf1 : wf h w1) by (eapply wf_frame; [apply frame_next|done]).
  apply wp_bind. eapply wp_physical_channel_read; [exact Hwf1|by eexists|done|].
  intros r bs w2 _ Hio _ _. pose proof (wf_io_frame _ _ _ Hio Hwf1) as Hwf2. simpl.
  destruct (negb (r =? n)); [by apply wp_ret|].
  destruct (io_p _ _ Hio p pc Hpc) as [s Hpc2].
  apply wp_bind, wp_gets. apply wp_assoc, wp_bind.
  apply (wp_mono _ (fun _ w' => wf h w')); [|done].
  refine (openq_push_spec h w2 p _
    (Build_hab_open_node (Build_hab_open_request _ (Some p) _) _) (fun d => dv_openq_cnt d + 1)
    Hwf2 Hpc2 eq_refl).
Qed.

Lemma list_take_first_openq (f : hab_open_node -> bool) l n rest p :
  list_take_first f l = Some (n, rest) -> openq_count p rest <= openq_count p l /\
  forall x, x ∈ rest -> x ∈ l.
Proof.
  intros (l1 & l2 & -> & -> & _)%list_take_first_Some.
  rewrite !openq_count_app. change (n :: l2) with ([n] ++ l2). rewrite openq_count_app.
  pose proof (openq_count_nonneg p [n]). split; [lia|].
  intros x. rewrite !elem_of_app. tauto.
Qed.

Lemma hab_open_receive_cancel_spec h w p n :
  wf h w -> is_Some (w_pchans w !! p) -> 0 <= n ->
  wp (hab_open_receive_cancel p n) (fun _ w' => wf h w') w.
Proof.
  intros Hwf [pc Hpc] Hn. unfold hab_open_receive_cancel. apply wp_bind. eapply wp_get_p; [done|].
  apply wp_bind. eapply wp_physical_channel_read; [done|by eexists|done|].
  intros r bs w1 _ Hio _ _. pose proof (wf_io_frame _ _ _ Hio Hwf) as Hwf1. simpl.
  destruct (negb (r =? n)); [by apply wp_ret|].
  destruct (io_p _ _ Hio p pc Hpc) as [s Hpc1].
  destruct (wf_habdev _ _ _ _ Hwf1 Hpc1) as [dv Hd].
  apply wp_bind. eapply wp_get_d; [exact Hd|].
  set (data := open_data_dec _). destruct (list_take_first _ _) as [[x rest]|] eqn:Htf.
  - apply wp_bind. eapply wp_upd_d; [exact Hd|]. apply wp_ret.
    eapply (wf_openq h h); try done; simpl.
    + intros q. destruct (list_take_first_openq _ _ _ _ q Htf) as [? _]. lia.
    + destruct (wf_d _ _ Hwf1 _ _ Hd) as (_ & _ & _ & Hq). rewrite Forall_forall in Hq |- *.
      intros y Hy%list_elem_of_In. apply Hq, list_elem_of_In.
      by apply (list_take_first_openq _ _ _ _ p Htf).
    + by destruct (wf_drv _ _ Hwf1) as (_ & _ & _ & _ & _ & _ & ? & _).
  - apply wp_bind. apply wp_kalloc; intros l.
    { apply wp_ret. eapply wf_frame; [apply frame_alloc|done]. }
    set (w2 := set_w_next _ _). assert (Hwf2 : wf h w2) by (eapply wf_frame; [apply frame_next|done]).
    apply wp_bind, wp_gets. apply wp_assoc, wp_bind.
    apply (wp_mono _ (fun _ w' => wf h w')).
    + refine (openq_push_spec h w2 p _
    (Build_hab_open_node (Build_hab_open_request _ (Some p) _) _) (fun d => dv_openq_cnt d + 1)
        Hwf2 Hpc1 eq_refl).
    + intros [] w3 Hwf3. apply wp_bind, wp_log, wp_ret. eapply wf_frame; [apply frame_log|done].
Qed.

(** Freeing a request gives back the reference on its channel. *)
Definition held_ps (ps : list nat) h := Build_held (h_v h) (ps ++ h_p h) (h_c h) (h_e h) (h_o h) (h_x h).

Definition held_req (r : option hab_open_request) h : held :=
  match r with
  | Some r => match rq_pchan r with Some p => held_p p h | None => h end
  | None => h
  end.

Lemma hab_open_request_free_spec h w r :
  wf (held_req (Some r) h) w ->
  wp (hab_open_request_free (Some r)) (fun _ w' => wf h w' /\
    w_ctxs w' = w_ctxs w /\ w_devs w' = w_devs w) w.
Proof.
  unfold held_req, hab_open_request_free. destruct (rq_pchan r) as [p|]; intros Hwf.
  - eapply wp_mono; [by apply (hab_pchan_put_spec h)|]. by intros [] w' (? & pc & _ & ->).
  - by apply wp_ret.
Qed.

Lemma free_expired_spec h w l :
  wf (held_ps (node_pchans l) h) w ->
  wp (for_each (fun n => hab_open_request_free (Some (on_request n))) l) (fun _ w' => wf h w' /\
    w_ctxs w' = w_ctxs w /\ w_devs w' = w_devs w) w.
Proof.
  intros Hwf. apply (wp_for_each (fun l' w' => wf (held_ps (node_pchans l') h) w' /\
    w_ctxs w' = w_ctxs w /\ w_devs w' = w_devs w)); [done| |].
  - intros n l' w' (Hwf' & E1 & E2). eapply wp_mono.
    + apply (hab_open_request_free_spec (held_ps (node_pchans l') h)).
      unfold held_req. simpl in Hwf'. by destruct (rq_pchan (on_request n)).
    + intros [] w'' (? & F1 & F2). split; [done|]. split; congruence.
  - intros w' (? & ? & ?). by destruct h.
Qed.

Lemma hab_is_forbidden_spec h w c d sub (Q : bool -> world HS -> Prop) :
  wf h w -> is_Some (w_ctxs w !! c) -> is_Some (w_devs w !! d) ->
  (forall b, Q b w) -> wp (hab_is_forbidden c (Some d) sub) Q w.
Proof.
  intros Hwf [cx Hcx] [dv Hd] HQ. apply wp_bind. eapply wp_get_c; [done|].
  apply wp_bind. eapply wp_get_d; [done|]. by apply wp_ret.
Qed.

(** What the opener gets: no request, or one that answers it, with the reference
    on the request's channel. *)
Lemma hab_open_request_find_spec h w c d listen :
  wf h w -> is_Some (w_ctxs w !! c) -> (d < 30)%nat ->
  (forall p, rq_pchan listen = Some p -> is_Some (w_pchans w !! p)) ->
  wp (hab_open_request_find c d listen None) (fun r w' =>
    wf (held_req (r.2) h) w' /\ (r.1 = false -> r.2 = None) /\
    (forall q, r.2 = Some q -> request_matches listen q = true /\
      exists p, rq_pchan q = Some p)) w.
Proof.
  intros Hwf [cx Hcx] Hd30 Hp. destruct (wf_devs_some _ _ d Hwf Hd30) as [dv Hd].
  unfold hab_open_request_find. apply wp_bind. eapply wp_get_c; [done|].
  apply wp_bind. apply (wp_mono _ (fun _ w' => w' = w)).
  { destruct (cx_closing cx); [by apply wp_ret|]. destruct (rq_pchan listen) as [p|]; [|by apply wp_ret].
    destruct (Hp p eq_refl) as [pc Hpc]. apply wp_bind. eapply wp_get_p; [done|]. by apply wp_ret. }
  intros gone w0 ->. destruct gone; [apply wp_ret; by split_and!|].
  apply wp_bind. eapply wp_get_d; [done|]. apply wp_bind, wp_gets.
  destruct (openq_scan listen (now_sec (w_now w)) (dv_openq_list dv)) as [[found kept] expired] eqn:Hscan.
  apply wp_bind. eapply wp_upd_d; [done|].
  destruct (openq_scan_sub _ _ _ _ _ _ Hscan) as (S1 & S2 & S3).
  destruct (wf_d _ _ Hwf _ _ Hd) as (_ & _ & _ & Hq). rewrite Forall_forall in Hq.
  assert (Hlive : forall n, n ∈ dv_openq_list dv -> exists p, rq_pchan (on_request n) = Some p /\
    is_Some (w_pchans w !! p)) by (intros n Hn; by apply Hq, list_elem_of_In).
  set (w1 := set_w_devs _ w).
  assert (Hwf1 : wf (held_ps (node_pchans expired) (held_req found h)) w1).
  { eapply (wf_openq h); try done; try (by unfold held_req; destruct found as [[? [|]]|]); simpl.
    - intros p. rewrite (openq_scan_count _ _ _ _ _ _ p Hscan), occ_app, occ_node_pchans.
      unfold held_req. destruct found as [r|]; [|simpl; lia].
      destruct (rq_pchan r) as [q|]; simpl; [|lia].
      destruct (decide (q = p)) as [->|]; [rewrite decide_True by done|rewrite decide_False by congruence]; lia.
    - apply Forall_forall. intros n Hn%list_elem_of_In. by apply Hlive, S1.
    - destruct (wf_drv _ _ Hwf) as (_ & _ & _ & _ & _ & _ & Hhp & _).
      intros q [Hin|Hin]%elem_of_app.
      + assert (Hsub : exists n, n ∈ expired /\ rq_pchan (on_request n) = Some q).
        { clear -Hin. induction expired as [|n l IH]; simpl in Hin; [by apply elem_of_nil in Hin|].
          destruct (rq_pchan (on_request n)) as [x|] eqn:Hx.
          - apply elem_of_cons in Hin as [->|Hin].
            + exists n. split; [by left|done].
            + destruct (IH Hin) as (n' & ? & ?). exists n'. split; [by right|done].
          - destruct (IH Hin) as (n' & ? & ?). exists n'. split; [by right|done]. }
        destruct Hsub as (n & Hn & Hnq). destruct (Hlive n (S2 n Hn)) as (p' & ? & ?). congruence.
      + unfold held_req in Hin. destruct found as [r|]; [|by apply Hhp].
        destruct (S3 r eq_refl) as (n & Hn & <- & _). destruct (Hlive n Hn) as (p' & Hp' & ?).
        rewrite Hp' in Hin. simpl in Hin. apply elem_of_cons in Hin as [->|?]; [done|by apply Hhp]. }
  apply wp_bind. eapply wp_mono; [by apply (free_expired_spec (held_req found h))|].
  intros [] w2 (Hwf2 & E1 & E2). apply wp_bind.
  eapply hab_is_forbidden_spec; [done|rewrite E1; by eexists|by eapply wf_devs_some|].
  intros forb. apply wp_ret. destruct found as [r|]; simpl; split_and!; try done.
  intros q [= <-]. destruct (S3 r eq_refl) as (n & Hn & <- & Hm). split; [done|].
  destruct (Hlive n Hn) as (p' & ? & _). by exists p'.
Qed.

Lemma wf_held_c h w c : wf h w -> c ∈ h_c h -> is_Some (w_ctxs w !! c).
Proof. intros Hwf. destruct (wf_drv _ _ Hwf) as (_ & _ & _ & _ & _ & _ & _ & Hhc & _). auto. Qed.
Lemma wf_held_p h w p : wf h w -> p ∈ h_p h -> is_Some (w_pchans w !! p).
Proof. intros Hwf. destruct (wf_drv _ _ Hwf) as (_ & _ & _ & _ & _ & _ & Hhp & _). auto. Qed.
Lemma wf_held_v h w v : wf h w -> h_x h = None -> v ∈ h_v h -> is_Some (w_vchans w !! v).
Proof.
  intros Hwf Hx Hv. destruct (wf_drv _ _ Hwf) as (_ & _ & _ & _ & _ & Hhv & _).
  specialize (Hhv v Hv). unfold vchans_of in Hhv. by rewrite Hx in Hhv.
Qed.

Lemma held_req_c r h : h_c (held_req r h) = h_c h.
Proof. destruct r as [r|]; [|done]. simpl. by destruct (rq_pchan r). Qed.

Lemma hab_open_listen_spec h w c d listen ms s
    (Q : Z * option hab_open_request * list (wake HS) -> world HS -> Prop) :
  wf h w -> h_x h = None -> c ∈ h_c h -> (d < 30)%nat ->
  (forall p, rq_pchan listen = Some p -> p ∈ h_p h) -> sched_ok s ->
  (forall code recv s' w', wf (held_req recv h) w' ->
     (forall q, recv = Some q -> request_matches listen q = true /\ exists p, rq_pchan q = Some p) ->
     sched_ok s' -> (length s' <= length s)%nat ->
     (code = - EAGAIN -> recv = None /\ (length s' < length s)%nat) ->
     - 4095 <= code <= 0 -> Q (code, recv, s') w') ->
  wp (hab_open_listen c d listen ms s) Q w.
Proof.
  intros Hwf Hx Hc Hd Hp Hs HQ. unfold hab_open_listen. cbv zeta. apply wp_bind.
  eapply (wp_wait_event (fun a w' => a = None /\ wf h w') (fun a w' => wf (held_req a h) w' /\
    forall q, a = Some q -> request_matches listen q = true /\ exists p, rq_pchan q = Some p)).
  - intros a w1 [-> Hwf1]. eapply wp_mono; [eapply (hab_open_request_find_spec h w1 c d listen Hwf1)|].
    + by eapply wf_held_c.
    + done.
    + intros p ?. eapply wf_held_p; eauto.
    + intros [b a] w2 (Hwf2 & Hn & Hm). simpl in *. destruct b; [by split|].
      specialize (Hn eq_refl) as ->. by split.
  - intros m a w1 Hm [-> Hwf1]. eapply wp_mono; [by eapply Hm|]. by intros [] w2 ?.
  - done.
  - by split.
  - intros r a s' w1 Hres Hs' Hlen Hlt.
    assert (Hwf1 : wf (held_req a h) w1 /\
      forall q, a = Some q -> request_matches listen q = true /\ exists p, rq_pchan q = Some p).
    { destruct (decide (r = WaitDone)); [done|]. destruct Hres as [-> ?]. by split. }
    destruct Hwf1 as [Hwf1 Hm].
    assert (Hcl : is_Some (w_ctxs w1 !! c)).
    { eapply wf_held_c; [done|]. by rewrite held_req_c. }
    destruct Hcl as [cx Hcx]. apply wp_bind. eapply wp_get_c; [done|]. apply wp_bind.
    eapply hab_is_forbidden_spec; [done|by eexists|by eapply wf_devs_some|].
    intros forb. apply wp_ret, HQ; [done..| |].
    + intros Hcode. assert (Hr : r <> WaitDone).
      { intros ->. revert Hcode. simpl. by destruct (0 <? ms), forb, (cx_closing cx). }
      split; [|auto]. rewrite decide_False in Hres by done. apply Hres.
    + by destruct r, (0 <? ms), forb, (cx_closing cx).
Qed.

End lemmas.
