(* ===== verification/Loopback.v ===== *)
(** The loopback transport (hab_comm.c): what is sent on a channel is queued in
    memory, and the channel's thread hands it back to the same driver.  It is one
    implementation of the platform interface of World.v. *)
From S2P Require Import Prelude Header World.

(* src/hab_comm.c:8-13 loopback_msg *)
Record loopback_msg := {
  lm_payload_size : Z;
  lm_header : hab_header;
  lm_payload : bytes
}.

(** [lb_alloc] are the outcomes of the coming allocations, [lb_now] the clock,
    [lb_locked] whether the device's thread holds [io_lock] and [lb_stop] whether the
    thread is told to stop. *)
(* src/hab_comm.c:21-29 loopback_dev *)
Record loopback_dev := {
  lb_msg_list : list loopback_msg;
  lb_msg_cnt : Z;
  lb_current_msg : option loopback_msg;
  lb_alloc : list bool;
  lb_now : Z * Z;
  lb_locked : bool;
  lb_stop : bool
}.

(* src/hab_comm.c:31-39 lb_thread_queue_empty *)
Definition lb_thread_queue_empty (dev : loopback_dev) : bool :=
  match lb_msg_list dev with [] => true | _ => false end.

(** A profiling message carries its send time in its first two words. *)
(* src/hab_comm.c:105-112 physical_channel_send *)
Definition stamp_tx (header : hab_header) (now : Z * Z) (payload : bytes) : res bytes :=
  if HAB_HEADER_GET_TYPE header =? payload_code HAB_PAYLOAD_TYPE_PROFILE
  then of_opt OutOfBounds (mem_write payload 0 (le_enc 8 (now.1) ++ le_enc 8 (now.2 / 1000)))
  else Ok payload.

Lemma stamp_tx_len h now p : (HAB_HEADER_GET_TYPE h = payload_code HAB_PAYLOAD_TYPE_PROFILE -> 16 <= zlen p) ->
  exists p', stamp_tx h now p = Ok p' /\ zlen p' = zlen p /\
    (HAB_HEADER_GET_TYPE h <> payload_code HAB_PAYLOAD_TYPE_PROFILE -> p' = p).
Proof.
  intros Hp. unfold stamp_tx. destruct (Z.eqb_spec (HAB_HEADER_GET_TYPE h) (payload_code HAB_PAYLOAD_TYPE_PROFILE)) as [He|He]; [|by exists p].
  assert (Hz : zlen (le_enc 8 now.1 ++ le_enc 8 (now.2 / 1000)) = 16) by (by rewrite zlen_app, !le_enc_zlen).
  rewrite mem_write_Some by (rewrite ?Hz; specialize (Hp He); lia). eexists. split; [reflexivity|]. split; [|done].
  eapply mem_write_len. apply mem_write_Some; rewrite ?Hz; specialize (Hp He); lia.
Qed.

(** The message is queued under [io_lock]: while the device's thread holds it, the
    sender spins. *)
(* src/hab_comm.c:88-125 physical_channel_send *)
Definition lb_send (dev : loopback_dev) (header : hab_header) (payload : bytes) :
    res (Z * loopback_dev) :=
  let size := i32 (HAB_HEADER_GET_SIZE header) in
  let dev' := Build_loopback_dev (lb_msg_list dev) (lb_msg_cnt dev) (lb_current_msg dev) (tail (lb_alloc dev))
                (lb_now dev) (lb_locked dev) (lb_stop dev) in
  match lb_alloc dev with
  | false :: _ => Ok (- ENOMEM, dev')
  | _ =>
      let? data :=
        (if size =? 0 then Ok []
         else
           let? payload := stamp_tx header (lb_now dev) payload in
           of_opt OutOfBounds (mem_read payload 0 size)) in
      if lb_locked dev then Blocked
      else
        Ok (0, Build_loopback_dev (lb_msg_list dev ++ [Build_loopback_msg size header data]) (lb_msg_cnt dev + 1)
                 (lb_current_msg dev) (tail (lb_alloc dev)) (lb_now dev) (lb_locked dev) (lb_stop dev))
  end.

(** The requested count is returned even when the message is shorter. *)
(* src/hab_comm.c:127-148 physical_channel_read *)
Definition lb_read (dev : loopback_dev) (read_size : Z) : res (Z * bytes) :=
  if read_size =? 0 then Ok (0, [])
  else
    match lb_current_msg dev with
    | None => Fault NullDeref
    | Some msg =>
        let n := if read_size =? lm_payload_size msg then read_size
                 else Z.min (i32 read_size) (lm_payload_size msg) in
        let? bs := of_opt OutOfBounds (mem_read (lm_payload msg) 0 n) in
        Ok (i32 read_size, bs)
    end.

(** The message being delivered holds the payload it announces. *)
Definition lb_up (dev : loopback_dev) : bool :=
  match lb_current_msg dev with
  | Some m => (0 <=? lm_payload_size m) && (lm_payload_size m =? zlen (lm_payload m))
  | None => false
  end.

(** ** As a platform

    A read outside a delivery, or for a size no message can have, does not happen
    in the driver; the interface gives it no bytes. *)
Definition lb_phys_read (pc : physical_channel) (dev : loopback_dev) (n : Z) :
    Z * bytes * loopback_dev :=
  match lb_read dev n with
  | Ok (r, bs) =>
      if (r <=? n) && (zlen bs <=? n) && (0 <=? r) then (r, bs, dev) else (0, [], dev)
  | _ => (0, [], dev)
  end.

Definition lb_phys_send (pc : physical_channel) (dev : loopback_dev) (h : hab_header) (bs : bytes) :
    option (Z * Z * loopback_dev) :=
  match lb_send dev h bs with
  | Ok (r, dev') => Some (r, pc_sequence_tx pc, dev')
  | _ => None
  end.

Lemma lb_phys_read_bounds pc dev n :
  0 <= n -> 0 <= (lb_phys_read pc dev n).1.1 <= n /\ zlen (lb_phys_read pc dev n).1.2 <= n.
Proof.
  intros Hn. unfold lb_phys_read. destruct (lb_read dev n) as [[r bs]| |]; simpl; try done.
  destruct (_ && _) eqn:Hb; simpl; [|done]. bool_hyps. lia.
Qed.

(** The kernel stays a parameter. *)
Section platform.
Context (kernel : LinuxCalls).

Definition loopback_platform : Platform loopback_dev.
Proof.
  refine {| phys_send := lb_phys_send; phys_read := lb_phys_read; phys_up := lb_up;
            kernel_calls := kernel |}.
  - intros pc hs h bs r q hs'. unfold lb_phys_send, lb_send.
    destruct (lb_alloc hs) as [|[] l].
    3: by intros [= <- <- <-].
    all: destruct (if _ =? 0 then _ else _) as [d| |]; simpl; try done; destruct (lb_locked hs); try done;
      by intros [= <- <- <-].
  - intros pc hs n Hn. by apply lb_phys_read_bounds.
  - intros pc hs n Hn _. by apply lb_phys_read_bounds.
  - intros pc hs n Hup. unfold lb_phys_read. destruct (lb_read hs n) as [[r bs]| |]; try done.
    by destruct (_ && _).
Defined.
End platform.

(** A platform whose transport is the loopback one. *)
Class Loopback `{Platform loopback_dev} := {
  loopback_send : forall pc hs h bs, phys_send pc hs h bs = lb_phys_send pc hs h bs;
  loopback_read : forall pc hs n, phys_read pc hs n = lb_phys_read pc hs n;
  loopback_up : forall hs, phys_up hs = lb_up hs
}.
