(* ===== verification/Sample.v ===== *)
(** A small concrete driver on the loopback transport: one device has a channel,
    on which one context has two virtual channels paired with each other, an
    export of its own and an import.  It is well-formed. *)
From S2P Require Import Prelude Header World Logic Invariant Pchan Exports Context Vchan Wait Open Loopback.

(** The lowest id that is free. *)
Fixpoint first_free (m : gmap Z nat) (lo : Z) (n : nat) : option Z :=
  match n with
  | O => None
  | S n => match m !! lo with None => Some lo | Some _ => first_free m (lo + 1) n end
  end.

Lemma first_free_Some m lo n i :
  first_free m lo n = Some i -> lo <= i < lo + Z.of_nat n /\ m !! i = None.
Proof.
  revert lo. induction n as [|n IH]; intros lo; simpl; [done|].
  destruct (m !! lo) eqn:Hl; [|intros [= <-]; split; [lia|done]].
  intros Hi. apply IH in Hi as [? ?]. split; [lia|done].
Qed.

#[export] Instance lowest_idr : KernelIdr.
Proof.
  refine {| idr_pick := fun m lo hi => first_free m lo (Z.to_nat (Z.min (hi - lo) (1 + Z.of_nat (size m)))) |}.
  intros m lo hi i Hi. apply first_free_Some in Hi as [? ?]. split; [lia|done].
Defined.

(** A kernel whose frame numbers are all of memory and where the pages of an
    address range are its own frames. *)
Definition sample_calls : LinuxCalls :=
  {| find_vma := fun _ => None; iterate_fd := fun _ => 0; dma_buf_get := fun _ => None; dmabuf_at := fun _ => None;
     get_user_pages := fun a n => seqZ (Z.shiftr a PAGE_SHIFT) n; kernel_page := fun a => Z.shiftr a PAGE_SHIFT;
     dma_buf_export := fun pages => Some (hd 0 pages); dma_buf_fd := fun _ => 3; pfn_valid := fun _ => true;
     region_intersects := fun _ => 0; vmap := fun pages => Some (hd 0 pages); dma_map_sg := fun pages => zlen pages;
     sclk_ticks := fun t => t.1; node_words := fun _ => (0, 0) |}.

#[export] Instance sample_platform : Platform loopback_dev :=
  loopback_platform sample_calls.

#[export] Instance sample_loopback : Loopback.
Proof. by constructor. Qed.

Definition sample_vchan (id other : Z) : virtual_channel :=
  Build_virtual_channel 1 0 (Some 1%nat) [] id other false 7 false 0 0 false.

Definition sample_export : export_desc :=
  Build_export_desc 1 0 0 (Some 2%nat) (Some 1%nat) (Some 0%nat) 1 2 0 0 0 0 1 (repeat 0 25).

Definition sample_import : export_desc :=
  Build_export_desc 9 0 0 None None (Some 0%nat) 1 2 0 0 0 0 1 (repeat 0 25).

Definition sample_pchan : physical_channel :=
  Build_physical_channel 3 false 0 (<[1 := 2%nat]> (<[2 := 3%nat]> ∅)) {[1 := 4%nat]} 1
    0xFF 0 0 false false 0 0 [2%nat; 3%nat] 2 1.

Definition sample_ctx : uhab_context :=
  Build_uhab_context 3 [2%nat; 3%nat] 2 [4%nat] 1 [] {[(9, 0%nat) := 5%nat]} 1 [] [] 0 []
    false false 0 0.

Definition sample_devs : list hab_device :=
  match (fun i => Build_hab_device i [] 0 0 [] 0) <$> hab_device_ids with
  | d :: ds => Build_hab_device (dv_id d) [0%nat] 1 0 [] 0 :: ds
  | [] => []
  end.

(** [lb] is the transport's state of the channel. *)
Definition sample {HS} (lb : HS) : world HS :=
  Build_world 6 {[0%nat := sample_pchan]} {[0%nat := lb]}
    (<[2%nat := sample_vchan 1 2]> (<[3%nat := sample_vchan 2 1]> ∅))
    {[1%nat := sample_ctx]}
    {[4%nat := Build_export_desc_super 1 true 0 0 EXP_DESC_INIT HAB_EXP_SUCCESS 0 sample_export]}
    {[5%nat := Build_export_desc_super 0 false 0 0 EXP_DESC_IMPORTED HAB_EXP_EXPORTING 0 sample_import]}
    sample_devs [1%nat] 1 [] true 0 5 [] 0 (100, 0) [] [].

(** Nobody holds anything. *)
Definition idle : held := Build_held [] [] [] [] [] None.

(** The thread of the client holds its context. *)
Definition client : held := held_c 1 idle.

(** Case analysis on a lookup in a map written out. *)
Ltac lookups :=
  repeat match goal with
  | H : <[_ := _]> _ !! _ = Some _ |- _ => apply lookup_insert_Some in H as [[? ?]|[? ?]]
  | H : {[_ := _]} !! _ = Some _ |- _ => apply lookup_singleton_Some in H as [? ?]
  | H : ∅ !! _ = Some _ |- _ => by rewrite lookup_empty in H
  end; simplify_eq.

Section wf.
Context {HS : Type}.
Implicit Types (lb : HS).

Lemma sample_dev lb d dv :
  w_devs (sample lb) !! d = Some dv ->
  dv_openq_list dv = [] /\
  ((d = 0%nat /\ dv_pchannels dv = [0%nat] /\ dv_pchan_cnt dv = 1) \/
   (dv_pchannels dv = [] /\ dv_pchan_cnt dv = 0)).
Proof.
  intros Hd. do 30 (destruct d as [|d]; [injection Hd as <-; split; [done|by auto]|]). done.
Qed.

Lemma sample_openq lb p : openq_refs p (w_devs (sample lb)) = 0.
Proof. done. Qed.

Lemma sample_vchan_ok lb v vc :
  vchans_of client (sample lb) !! v = Some vc -> vchan_ok client (sample lb) v vc.
Proof.
  unfold vchans_of. simpl. intros Hv. lookups; exists sample_pchan, 1%nat, sample_ctx;
    split_and!; try done; set_solver.
Qed.

Lemma sample_pchan_ok lb : pchan_ok client (sample lb) 0 sample_pchan.
Proof.
  split; [eexists; split; [done|]; by left|]. split; [by eexists|]. split_and!.
  - by apply (bool_decide_eq_true_1 _).
  - done.
  - intros v Hv. simpl in Hv. apply elem_of_cons in Hv as [->|Hv%list_elem_of_singleton]; subst; by eexists.
  - intros i v Hi. simpl in Hi. lookups; by eexists.
  - intros i e Hi. simpl in Hi. lookups. eexists; split; [done|]. split_and!; try done. by right.
  - done.
Qed.

Lemma sample_ctx_ok lb : ctx_ok client (sample lb) 1 sample_ctx.
Proof.
  split_and!.
  - by left.
  - by apply (bool_decide_eq_true_1 _).
  - done.
  - intros v Hv. simpl in Hv. apply elem_of_cons in Hv as [->|Hv%list_elem_of_singleton]; subst; by eexists.
  - by apply (bool_decide_eq_true_1 _).
  - intros e He. simpl in He. apply list_elem_of_singleton in He as ->. eexists; split; [done|].
    split; [|done]. exists 0%nat, sample_pchan. by split_and!.
  - intros k e Hk. simpl in Hk. lookups. eexists; split; [done|]. split_and!; try done.
  - done.
Qed.

Lemma sample_wf_client lb : wf client (sample lb).
Proof.
  constructor.
  - apply sample_vchan_ok.
  - intros p pc Hp. simpl in Hp. lookups. apply sample_pchan_ok.
  - intros c cx Hc. simpl in Hc. lookups. apply sample_ctx_ok.
  - intros d dv Hd. destruct (sample_dev lb d dv Hd) as (Hq & Hps). unfold dev_ok. rewrite Hq.
    destruct Hps as [(-> & -> & ->)|(-> & ->)]; split_and!; try done.
    + by apply (bool_decide_eq_true_1 _).
    + intros p ->%list_elem_of_singleton. by exists sample_pchan.
    + by constructor.
    + by intros p ?%elem_of_nil.
  - unfold driver_ok. split_and!; try (by constructor); try (by intros ? ?%elem_of_nil);
      try (by intros ? ? ?%elem_of_nil).
    + apply NoDup_singleton.
    + intros c ->%list_elem_of_singleton. by eexists.
    + intros c ->%list_elem_of_singleton. by eexists.
    + intros c cx k c' cx' k' e Hc Hc' _ _. simpl in *. by lookups.
  - split; [|split; [split; [done|apply (list.Forall_nil_2 _)]|split; [intros e ex He|split; [intros p pc Hp|intros e ex c He Hc; simpl in *; lookups; simpl in Hc; injection Hc as <-; lia]]]; simpl in *; by lookups].
    intros a Ha. simpl in *. split_and!; rewrite ?lookup_insert_ne, ?lookup_singleton_ne by lia; done.
  - split; [constructor|]. by intros v c ?%elem_of_nil.
  - intros p pc i e Hp Hi. simpl in *. lookups. simpl in Hi. lookups. split; [lia|].
    split; [intros q qc j Hq _; by lookups|]. intros ex c cx He _ _ Hc _. lookups. by left.
Qed.

Lemma sample_wf lb : wf idle (sample lb).
Proof.
  eapply wf_holds; [apply (sample_wf_client lb)|..]; simpl; try done; try (by intros; lia); try (by constructor).
  - intros u. case_decide; lia.
Qed.
End wf.

(** The same driver while its transport works for the channel and holds it. *)
Definition busy_pchan : physical_channel := set_pc_refcount 4 sample_pchan.
Definition busy_held : held := held_p 0 idle.
Definition busy {HS} (lb : HS) : world HS := set_w_pchans {[0%nat := busy_pchan]} (sample lb).

Lemma busy_wf {HS} (lb : HS) : wf busy_held (busy lb).
Proof.
  destruct (wp_ok _ _ _ tt (busy lb) (hab_pchan_get_spec idle (sample lb) 0 (sample_wf _) ltac:(by eexists)))
    as [Hwf _]; [|exact Hwf].
  unfold hab_pchan_get, upd_p. cbn. do 2 f_equal.
Qed.
