(* ===== verification/Msg.v ===== *)
(** Messages (hab_msg.c): what arrives on a physical channel is given to the
    virtual channel, the open queue or the memory-sharing protocol it is for; what
    a virtual channel has received is taken from its queue. *)
From S2P Require Import Prelude Header World Logic Memory Invariant Pchan Exports Context Vchan Wait Open Loopback Sample.

(* src/include/linux/habmm.h:169-169 HABMM_SOCKET_RECV_FLAGS_NON_BLOCKING *)
Definition HABMM_SOCKET_RECV_FLAGS_NON_BLOCKING : Z := 1.
(* src/include/linux/habmm.h:174-174 HABMM_SOCKET_RECV_FLAGS_UNINTERRUPTIBLE *)
Definition HABMM_SOCKET_RECV_FLAGS_UNINTERRUPTIBLE : Z := 2.
(* src/include/linux/habmm.h:182-182 HABMM_SOCKET_RECV_FLAGS_TIMEOUT *)
Definition HABMM_SOCKET_RECV_FLAGS_TIMEOUT : Z := 4.



Definition UINT_MAX : Z := 2 ^ 32 - 1.
Definition SIZE_MAX : Z := 2 ^ 64 - 1.
Definition NSEC_PER_USEC : Z := 1000.

(* src/include/linux/habmm.h:131-136 habmm_xing_vm_stat *)
Record habmm_xing_vm_stat := {
  tx_sec : Z;
  tx_usec : Z;
  rx_sec : Z;
  rx_usec : Z
}.

Definition sizeof_xing_vm_stat : Z := 32.

(** ** Receiving *)

Section ops.
Context {HS : Type} `{Platform HS} `{KernelIdr}.
#[local] Abbreviation M := (World.M HS).

(* src/hab_msg.c:10-20 hab_rx_queue_empty *)
Definition hab_rx_queue_empty (v : nat) : M bool :=
  let! vc := get_v v in
  ret (match vc_rx_list vc with [] => true | _ => false end).

(** The sizes of the buffers of a scattered message. *)
(* src/hab_msg.c:32-37 hab_scatter_msg_alloc *)
Definition scatter_sizes (sizebytes : Z) : list Z :=
  repeat PAGE_SIZE (Z.to_nat (Z.shiftr sizebytes PAGE_SHIFT)) ++
  (if sizebytes mod PAGE_SIZE =? 0 then [] else [sizebytes mod PAGE_SIZE]).

(** One allocation per buffer, until one fails. *)
(* src/hab_msg.c:51-65 hab_scatter_msg_alloc *)
Fixpoint scatter_alloc (sizes : list Z) : M bool :=
  match sizes with
  | [] => ret true
  | _ :: l =>
      let! a := kalloc in
      match a with None => ret false | Some _ => scatter_alloc l end
  end.

(** One read per buffer; the counts are summed up in [sizebytes]. *)
(* src/hab_msg.c:68-73 hab_scatter_msg_alloc *)
Fixpoint scatter_read (p : nat) (sizes : list Z) (sizebytes : Z) : M (Z * list bytes) :=
  match sizes with
  | [] => ret (sizebytes, [])
  | n :: l =>
      let! rd := physical_channel_read p n in
      let! r := scatter_read p l (u64 (sizebytes + rd.1)) in
      ret (r.1, fill_buf n (rd.2) :: r.2)
  end.

(* src/hab_msg.c:22-84 hab_scatter_msg_alloc *)
Definition hab_scatter_msg_alloc (p : nat) (sizebytes : Z) : M (option hab_message) :=
  if sizebytes <=? PAGE_SIZE then ret None
  else
    let! a := kalloc in
    match a with
    | None => ret None
    | Some _ =>
        let! ok := scatter_alloc (scatter_sizes sizebytes) in
        if (ok : bool) then
          let! r := scatter_read p (scatter_sizes sizebytes) 0 in
          let! pc := get_p p in
          ret (Some (Build_hab_message (r.1) true (pc_sequence_rx pc) (r.2)))
        else ret None
    end.

(** The count of a failed read becomes a huge [size_t]. *)
(* src/hab_msg.c:86-112 hab_msg_alloc *)
Definition hab_msg_alloc (p : nat) (sizebytes : Z) : M (option hab_message) :=
  if HAB_HEADER_SIZE_MAX <? sizebytes then ret None
  else
    let! a := kalloc in
    match a with
    | None => hab_scatter_msg_alloc p sizebytes
    | Some _ =>
        let! rd := physical_channel_read p sizebytes in
        let! pc := get_p p in
        ret (Some (Build_hab_message (u64 (rd.1)) false (pc_sequence_rx pc)
                     [fill_buf sizebytes (rd.2)]))
    end.

(** The result is the code, the message taken, and [*rsize].  The sleep can only
    elapse when the caller asked for a timeout that is one: [msecs_to_jiffies]
    takes a negative [int] for no limit. *)
(* src/hab_msg.c:134-228 hab_msg_dequeue *)
Definition hab_msg_dequeue (v : nat) (rsize timeout flags : Z) (s : list (wake HS)) :
    M (Z * option hab_message * Z * list (wake HS)) :=
  let wait := negb (flag flags HABMM_SOCKET_RECV_FLAGS_NON_BLOCKING) in
  let interruptible := negb (flag flags HABMM_SOCKET_RECV_FLAGS_UNINTERRUPTIBLE) in
  let timeout := if flag flags HABMM_SOCKET_RECV_FLAGS_TIMEOUT then timeout else UINT_MAX in
  let! empty := hab_rx_queue_empty v in
  let! r :=
    (if wait && empty then
       let! r := wait_event interruptible (0 <=? i32 timeout) (fun _ : unit =>
         let! e := hab_rx_queue_empty v in
         let! vc := get_v v in
         ret (negb e || vc_otherend_closed vc, tt)) tt s in
       ret (wait_ret true (r.1.1), r.2)
     else ret (- EAGAIN, s)) in
  let! vc := get_v v in
  match vc_rx_list vc with
  | m :: l =>
      if m_sizebytes m <=? u64 rsize then
        do! upd_v v (set_vc_rx_list l) in
        ret (0, Some m, i32 (m_sizebytes m), r.2)
      else ret (- EOVERFLOW, None, i32 (m_sizebytes m), r.2)
  | [] =>
      ret ((if vc_otherend_closed vc then - ENODEV
            else if r.1 =? - ERESTARTSYS then - EINTR
            else if r.1 =? 0 then - ETIMEDOUT
            else - EAGAIN), None, 0, r.2)
  end.

(* src/hab_msg.c:230-242 hab_msg_queue *)
Definition hab_msg_queue (v : nat) (m : hab_message) : M unit :=
  do! upd_v v (fun vc => set_vc_rx_list (vc_rx_list vc ++ [m]) vc) in
  log (EvWakeRx v).

(** The import tree is keyed by export id and channel. *)
Definition imp_key (ex : export_desc_super) : Z * nat :=
  (ed_export_id (es_exp ex), default 0%nat (ed_pchan (es_exp ex))).

(* src/hab_msg.c:244-262 hab_export_enqueue *)
Definition hab_export_enqueue (v a : nat) (ex : export_desc_super) : M Z :=
  let! vc := get_v v in
  let! c := deref (vc_ctx vc) in
  let! cx := get_c c in
  match cx_imp_whse cx !! imp_key ex with
  | Some _ => ret (- EINVAL)
  | None =>
      do! modify (fun w => set_w_imps (<[a := ex]> (w_imps w)) w) in
      do! upd_c c (fun cx =>
        set_cx_import_total (u32 (cx_import_total cx + 1))
          (set_cx_imp_whse (<[imp_key ex := a]> (cx_imp_whse cx)) cx)) in
      ret 0
  end.

(* src/hab_msg.c:268-280 hab_send_import_ack_fail *)
Definition hab_send_import_ack_fail (v : nat) (exp_id : Z) : M Z :=
  let! vc := get_v v in
  physical_channel_send (vc_pchan vc)
    (mk_header 4 HAB_PAYLOAD_TYPE_IMPORT_ACK_FAIL (vc_otherend_id vc) (vc_session_id vc))
    (export_id_bytes exp_id).

Definition set_ed_owner (v c p : option nat) (ex : export_desc_super) : export_desc_super :=
  set_es_exp (set_ed_pchan p (set_ed_vchan v (set_ed_ctx c (es_exp ex)))) ex.

(** The pointers are cleared for the send and then set to the requester's. *)
(* src/hab_msg.c:282-313 hab_send_import_ack *)
Definition hab_send_import_ack (v e : nat) : M Z :=
  let! ex := get_e e in
  let! vc := get_v v in
  let sizebytes := u32 (sizeof_export_desc + es_payload_size ex) in
  do! upd_e e (set_ed_owner None None None) in
  let! ex := get_e e in
  match mem_read (export_desc_enc (node_words e) (es_exp ex)) 0 sizebytes with
  | None => fail OutOfBounds
  | Some bs =>
      let! r := physical_channel_send (vc_pchan vc)
        (mk_header sizebytes HAB_PAYLOAD_TYPE_IMPORT_ACK (vc_otherend_id vc) (vc_session_id vc)) bs in
      do! upd_e e (set_ed_owner (Some v) (vc_ctx vc) (Some (vc_pchan vc))) in
      ret r
  end.

Definition imp_rxq_add (c : nat) (ack : hab_import_ack) : M unit :=
  upd_c c (fun cx => set_cx_imp_rxq (cx_imp_rxq cx ++ [Build_hab_import_ack_recvd ack 0]) cx).

(* src/hab_msg.c:316-332 hab_create_invalid_ack *)
Definition hab_create_invalid_ack (v : nat) (export_id : Z) : M unit :=
  let! a := kalloc in
  match a with
  | None => ret tt
  | Some _ =>
      let! vc := get_v v in
      let! c := deref (vc_ctx vc) in
      imp_rxq_add c (Build_hab_import_ack export_id (vc_id vc) (vc_otherend_id vc) 0)
  end.

(* src/hab_msg.c:334-357 hab_receive_import_ack_fail *)
Definition hab_receive_import_ack_fail (p v : nat) : M Z :=
  let! rd := physical_channel_read p 4 in
  let exp_id := le_dec (fill_buf 4 (rd.2)) in
  let! a := kalloc in
  match a with
  | None => ret (- ENOMEM)
  | Some _ =>
      let! vc := get_v v in
      let! c := deref (vc_ctx vc) in
      do! imp_rxq_add c (Build_hab_import_ack exp_id (vc_id vc) (vc_otherend_id vc) 0) in
      ret 0
  end.

(* src/hab_msg.c:359-376 hab_send_export_ack *)
Definition hab_send_export_ack (v p : nat) (ed : export_desc) : M Z :=
  let! vc := get_v v in
  physical_channel_send p
    (mk_header sizeof_hab_export_ack HAB_PAYLOAD_TYPE_EXPORT_ACK (ed_vcid_local ed) (vc_session_id vc))
    (export_ack_enc (Build_hab_export_ack (ed_export_id ed) (ed_vcid_local ed) (ed_vcid_remote ed))).

(* src/hab_msg.c:378-427 hab_receive_create_export_ack *)
Definition hab_receive_create_export_ack (p c : nat) (sizebytes : Z) : M Z :=
  let! a := kalloc in
  match a with
  | None => ret (- ENOMEM)
  | Some _ =>
      if sizeof_hab_export_ack <? sizebytes then ret (- EINVAL)
      else
        let! rd := physical_channel_read p sizebytes in
        if negb (rd.1 =? sizebytes) then ret (- EIO)
        else if sizebytes =? sizeof_hab_export_ack then
          do! upd_c c (fun cx => set_cx_exp_rxq (cx_exp_rxq cx ++
            [Build_hab_export_ack_recvd (export_ack_dec (fill_buf sizebytes (rd.2))) 0]) cx) in
          ret 0
        else ret (- EINVAL)
  end.

(** What the receiver writes over the descriptor it was sent. *)
(* src/hab_msg.c:468-479 hab_receive_export_desc *)
Definition localise_desc (p : nat) (pc : physical_channel) (vc_id' : Z) (d : export_desc) : export_desc :=
  let d := set_ed_pchan (Some p)
    (set_ed_domid_local (pc_vmid_local pc) (set_ed_domid_remote (pc_vmid_remote pc) d)) in
  if pc_mem_proto pc =? 1
  then set_ed_vcid_local vc_id' (set_ed_vcid_remote (ed_vcid_local d) d) else d.

(** The checks on the size of the page table it carries. *)
(* src/hab_msg.c:489-519 hab_receive_export_desc *)
Definition export_desc_valid (sizebytes : Z) (d : export_desc) : bool :=
  let expected := sizeof_export_desc + sizeof_compressed_pfns in
  let nregions := pfn_nregions (ed_payload d) in
  negb ((nregions <=? 0) || (SIZE_MAX / sizeof_region <? nregions) ||
        (SIZE_MAX - expected <? nregions * sizeof_region)) &&
  negb (ed_payload_count d <? nregions) &&
  negb (MAX_EXP_PAYLOAD_COUNT <? ed_payload_count d) &&
  (sizebytes =? expected + nregions * sizeof_region).

(** [err_imp]: the waiting importer is told, and so is the other side. *)
(* src/hab_msg.c:547-555 hab_receive_export_desc *)
Definition export_desc_err (v : nat) (new_proto : bool) (export_id r : Z) : M Z :=
  do! when new_proto
    (do! hab_create_invalid_ack v export_id in hab_send_unimport_msg v export_id) in
  ret r.

(* src/hab_msg.c:429-556 hab_receive_export_desc *)
Definition hab_receive_export_desc (p v : nat) (sizebytes : Z) : M Z :=
  if (HAB_HEADER_SIZE_MAX <? sizebytes) || (sizebytes <? sizeof_export_desc + sizeof_compressed_pfns)
  then ret (- EINVAL)
  else
    let! a := kalloc in
    match a with
    | None => ret (- ENOMEM)
    | Some a =>
        let! rd := physical_channel_read p sizebytes in
        if negb (rd.1 =? sizebytes) then ret (- EIO)
        else
          let! pc := get_p p in
          let! vc := get_v v in
          let d := localise_desc p pc (vc_id vc) (export_desc_dec (fill_buf sizebytes (rd.2))) in
          let new_proto := pc_mem_proto pc =? 1 in
          if negb (export_desc_valid sizebytes d)
          then export_desc_err v new_proto (ed_export_id d) (- EINVAL)
          else
            let! ack := (if new_proto then kalloc else ret (Some 0%nat)) in
            match ack with
            | None => export_desc_err v new_proto (ed_export_id d) (- ENOMEM)
            | Some _ =>
                let! r := hab_export_enqueue v a
                  (Build_export_desc_super 0 false 0 0 EXP_DESC_INIT HAB_EXP_EXPORTING 0 d) in
                do! (if new_proto then
                       let! c := deref (vc_ctx vc) in
                       imp_rxq_add c (Build_hab_import_ack (ed_export_id d) (ed_vcid_local d)
                         (ed_vcid_remote d) (if r =? 0 then 1 else 0))
                     else let! _ := hab_send_export_ack v p d in ret tt) in
                ret r
            end
    end.

(* src/hab_msg.c:558-573 hab_msg_drop *)
Definition hab_msg_drop (p : nat) (sizebytes : Z) : M unit :=
  if HAB_HEADER_SIZE_MAX <? sizebytes then ret tt
  else
    let! a := kalloc in
    match a with
    | None => ret tt
    | Some _ => let! _ := physical_channel_read p sizebytes in ret tt
    end.

(* src/hab_msg.c:575-610 hab_recv_unimport_msg *)
Definition hab_recv_unimport_msg (p : nat) (vchan_exist : bool) : M unit :=
  let! rd := physical_channel_read p 4 in
  let exp_id := le_dec (fill_buf 4 (rd.2)) in
  let! pc := get_p p in
  do! (match pc_expid_idr pc !! exp_id with
       | None => ret tt
       | Some e =>
           let! ex := get_e e in
           when ((exp_id =? ed_export_id (es_exp ex)) && bool_decide (ed_pchan (es_exp ex) = Some p)
                 && negb (es_remote_imported ex =? 0))
             (upd_e e (set_es_remote_imported 0))
       end) in
  when (negb vchan_exist) (log EvReclaimWork).

(** The receive time is stored into the message's data: over the bytes received,
    or, in a scattered message, over the page pointers kept there. *)
Definition stamp_msg (off : Z) (stamp : bytes) (m : hab_message) : M hab_message :=
  match m_scatter m, m_data m with
  | false, [d] =>
      match mem_write d off stamp with
      | Some d' => ret (set_m_data [d'] m)
      | None => fail OutOfBounds
      end
  | _, _ => fail OutOfBounds
  end.

(** [alloc], stamp and queue: the profiling messages. *)
(* src/hab_msg.c:766-779 hab_msg_recv *)
Definition recv_stamped (p v : nat) (sizebytes off : Z) (stamp : bytes) : M unit :=
  let! o := hab_msg_alloc p sizebytes in
  match o with
  | None => ret tt
  | Some m => let! m := stamp_msg off stamp m in hab_msg_queue v m
  end.

(* src/hab_msg.c:802-832 hab_msg_recv *)
Definition recv_import (p v : nat) : M unit :=
  let! rd := physical_channel_read p sizeof_hab_import_data in
  if negb (rd.1 =? sizeof_hab_import_data) then ret tt
  else
    let d := import_data_dec (fill_buf sizeof_hab_import_data (rd.2)) in
    let! pc := get_p p in
    let refuse := (let! _ := hab_send_import_ack_fail v (id_exp_id d) in ret tt) in
    match pc_expid_idr pc !! id_exp_id d with
    | None => refuse
    | Some e =>
        let! ex := get_e e in
        if (id_page_cnt d =? u32 (ed_payload_count (es_exp ex))) &&
           bool_decide (es_exp_state ex = HAB_EXP_SUCCESS)
        then
          do! upd_e e (set_es_remote_imported 1) in
          let! _ := hab_send_import_ack v e in ret tt
        else refuse
    end.

(** The messages that need a virtual channel. *)
(* src/hab_msg.c:701-862 hab_msg_recv *)
Definition recv_on_vchan (p v : nat) (sizebytes : Z) (t : option hab_payload_type) : M Z :=
  let! vc := get_v v in
  match t with
  | Some (HAB_PAYLOAD_TYPE_MSG | HAB_PAYLOAD_TYPE_SCHE_RESULT_REQ | HAB_PAYLOAD_TYPE_SCHE_RESULT_RSP) =>
      let! o := hab_msg_alloc p sizebytes in
      match o with
      | None => ret 0
      | Some m => do! hab_msg_queue v m in ret 0
      end
  | Some HAB_PAYLOAD_TYPE_EXPORT => hab_receive_export_desc p v sizebytes
  | Some HAB_PAYLOAD_TYPE_EXPORT_ACK =>
      let! c := deref (vc_ctx vc) in
      let! r := hab_receive_create_export_ack p c sizebytes in
      do! when (r =? 0) (log (EvWakeExp c)) in
      ret r
  | Some HAB_PAYLOAD_TYPE_CLOSE => do! hab_vchan_stop v in ret 0
  | Some HAB_PAYLOAD_TYPE_PROFILE =>
      let! ts := gets w_now in
      if sizebytes <? sizeof_xing_vm_stat then ret 0
      else
        do! recv_stamped p v sizebytes 16 (le_enc 8 (ts.1) ++ le_enc 8 (ts.2 / NSEC_PER_USEC)) in
        ret 0
  | Some (HAB_PAYLOAD_TYPE_SCHE_MSG | HAB_PAYLOAD_TYPE_SCHE_MSG_ACK) =>
      if sizebytes <? 8 then ret 0
      else
        let! ts := gets w_now in
        do! recv_stamped p v sizebytes 0 (le_enc 8 (sclk_ticks ts)) in
        ret 0
  | Some HAB_PAYLOAD_TYPE_IMPORT => do! recv_import p v in ret 0
  | Some HAB_PAYLOAD_TYPE_IMPORT_ACK =>
      let! r := hab_receive_export_desc p v sizebytes in
      let! c := deref (vc_ctx vc) in
      do! log (EvWakeImp c) in
      ret r
  | Some HAB_PAYLOAD_TYPE_IMPORT_ACK_FAIL =>
      let! r := hab_receive_import_ack_fail p v in
      let! c := deref (vc_ctx vc) in
      do! log (EvWakeImp c) in
      ret r
  | Some HAB_PAYLOAD_TYPE_UNIMPORT => do! hab_recv_unimport_msg p true in ret 0
  | _ => ret 0
  end.

(* src/hab_msg.c:633-636 hab_msg_recv *)
Definition is_open_type (t : Z) : bool :=
  (t =? payload_code HAB_PAYLOAD_TYPE_INIT) || (t =? payload_code HAB_PAYLOAD_TYPE_INIT_ACK) ||
  (t =? payload_code HAB_PAYLOAD_TYPE_INIT_DONE) || (t =? payload_code HAB_PAYLOAD_TYPE_INIT_CANCEL).

(** The open handshake. *)
(* src/hab_msg.c:683-730 hab_msg_recv *)
Definition recv_open (p : nat) (sizebytes type : Z) : M Z :=
  let! pc := get_p p in
  if negb (sizebytes =? sizeof_hab_open_send_data) then
    do! when (negb (sizebytes =? 0)) (hab_msg_drop p sizebytes) in
    ret (- ENODEV)
  else if type =? payload_code HAB_PAYLOAD_TYPE_INIT_CANCEL then hab_open_receive_cancel p sizebytes
  else
    let! r := hab_open_request_add p sizebytes type in
    do! when (r =? 0) (log (EvWakeOpenq (pc_habdev pc))) in
    ret r.

(* src/hab_msg.c:612-865 hab_msg_recv *)
Definition hab_msg_recv (p : nat) (header : hab_header) : M Z :=
  let sizebytes := HAB_HEADER_GET_SIZE header in
  let payload_type := HAB_HEADER_GET_TYPE header in
  if is_open_type payload_type then recv_open p sizebytes payload_type
  else
    let! o := hab_vchan_get p header in
    match o with
    | None =>
        if payload_type =? payload_code HAB_PAYLOAD_TYPE_UNIMPORT then
          do! hab_recv_unimport_msg p false in ret 0
        else
          do! when (negb (sizebytes =? 0)) (hab_msg_drop p sizebytes) in
          ret (- EINVAL)
    | Some v =>
        let! vc := get_v v in
        if vc_otherend_closed vc then
          do! hab_vchan_put v in
          do! when (negb (sizebytes =? 0)) (hab_msg_drop p sizebytes) in
          ret (- ENODEV)
        else
          let! r := recv_on_vchan p v sizebytes (payload_of_code payload_type) in
          do! hab_vchan_put v in
          ret r
    end.
End ops.

(** ** What arrives keeps the driver well-formed *)

Lemma page_count_mono a b : 0 <= a <= b -> page_count a <= page_count b.
Proof.
  intros Hab. unfold page_count. rewrite !Z.shiftr_div_pow2 by done.
  change (2 ^ PAGE_SHIFT) with PAGE_SIZE. pose proof (Z.div_le_mono a b PAGE_SIZE eq_refl ltac:(lia)).
  destruct (Z.eq_dec (a / PAGE_SIZE) (b / PAGE_SIZE)) as [He|Hn].
  - rewrite He. pose proof (Z.div_mod a PAGE_SIZE ltac:(done)) as Ha.
    pose proof (Z.div_mod b PAGE_SIZE ltac:(done)) as Hb. rewrite He in Ha.
    pose proof (Z.mod_pos_bound a PAGE_SIZE eq_refl).
    destruct (Z.eqb_spec (a mod PAGE_SIZE) 0), (Z.eqb_spec (b mod PAGE_SIZE) 0); lia.
  - destruct (a mod PAGE_SIZE =? 0), (b mod PAGE_SIZE =? 0); lia.
Qed.

Lemma scatter_sizes_length n : 0 <= n -> zlen (scatter_sizes n) = page_count n.
Proof.
  intros Hn. unfold scatter_sizes, page_count. rewrite zlen_app. unfold zlen at 1.
  rewrite repeat_length, Z2Nat.id by (apply Z.shiftr_nonneg; lia).
  by destruct (n mod PAGE_SIZE =? 0).
Qed.

(** The buffers hold exactly the message. *)
Definition zsum (l : list Z) : Z := foldr Z.add 0 l.

Lemma scatter_sizes_sum n : 0 <= n ->
  zsum (scatter_sizes n) = n /\ Forall (fun z => 0 <= z <= PAGE_SIZE) (scatter_sizes n).
Proof.
  intros Hn. unfold scatter_sizes. rewrite Z.shiftr_div_pow2 by done.
  change (2 ^ PAGE_SHIFT) with PAGE_SIZE.
  pose proof (Z.div_pos n PAGE_SIZE Hn eq_refl).
  pose proof (Z.div_mod n PAGE_SIZE ltac:(done)).
  pose proof (Z.mod_pos_bound n PAGE_SIZE eq_refl).
  assert (Hrep : forall k l, zsum (repeat PAGE_SIZE k ++ l) = PAGE_SIZE * Z.of_nat k + zsum l).
  { induction k as [|k IH]; intros l; [simpl; lia|]. cbn [repeat app zsum foldr].
    fold (zsum (repeat PAGE_SIZE k ++ l)). rewrite IH. lia. }
  split.
  - rewrite Hrep, Z2Nat.id by done. destruct (Z.eqb_spec (n mod PAGE_SIZE) 0); simpl; lia.
  - apply Forall_app. split.
    + apply Forall_forall. intros z Hz%repeat_spec. subst z. done.
    + destruct (n mod PAGE_SIZE =? 0); [done|]. apply Forall_singleton. lia.
Qed.

(** The messages that the two ways of reading make have their bytes. *)
Lemma chunk_ok r q d n : 0 <= r <= n -> zlen d = n -> msg_ok (Build_hab_message r false q [d]) = true.
Proof.
  intros Hr Hd. unfold msg_ok, data_ok. simpl. rewrite Hd. lia.
Qed.

Lemma pages_ok r q l n : 0 <= n -> 0 <= r <= 0 + zsum (scatter_sizes n) -> map zlen l = scatter_sizes n ->
  msg_ok (Build_hab_message r true q l) = true.
Proof.
  intros Hn Hr Hl. destruct (scatter_sizes_sum n Hn) as [Hsum Hall]. unfold msg_ok, data_ok. cbn [m_scatter m_sizebytes m_data negb orb].
  rewrite Hl. fold (zsum (scatter_sizes n)). rewrite Hsum in *.
  assert (zlen l = page_count n) as -> by (rewrite <- (scatter_sizes_length n), <- Hl by done; unfold zlen; by rewrite length_map).
  pose proof (page_count_mono r n ltac:(lia)) as Hm.
  assert (forallb (Z.eqb PAGE_SIZE) (removelast (scatter_sizes n)) = true) as ->.
  { unfold scatter_sizes. apply forallb_forall. intros z Hz. destruct (n mod PAGE_SIZE =? 0).
    - rewrite app_nil_r in Hz. assert (Hin : In z (repeat PAGE_SIZE (Z.to_nat (Z.shiftr n PAGE_SHIFT)))).
      { clear -Hz. induction (repeat _ _) as [|x l IH]; [done|]. simpl in Hz. destruct l; [done|]. destruct Hz as [->|Hz]; [by left|].
        right. by apply IH. }
      apply repeat_spec in Hin. by subst.
    - rewrite removelast_last in Hz. apply repeat_spec in Hz. by subst. }
  assert (forallb (Z.geb PAGE_SIZE) (scatter_sizes n) = true) as ->.
  { apply forallb_forall. intros z Hz%list_elem_of_In. rewrite list.Forall_forall in Hall. specialize (Hall z Hz). lia. }
  lia.
Qed.

Section lemmas.
Context {HS : Type} `{Platform HS} `{KernelIdr}.
Implicit Types (w : world HS) (h : held).

Lemma scatter_alloc_spec sizes w :
  wp (scatter_alloc sizes) (fun _ w' => quiet w w' /\ w_hyp w' = w_hyp w) w.
Proof.
  revert w. induction sizes as [|z l IH]; intros w; simpl; [apply wp_ret; split; [apply quiet_refl|done]|].
  apply wp_bind, wp_kalloc; intros al.
  - apply wp_ret. split; [apply quiet_alloc|done].
  - eapply wp_mono; [apply IH|]. intros ok w' [Hq Hh]. split; [|done].
    eapply quiet_trans; [apply quiet_next|done].
Qed.

Lemma scatter_read_spec h p sizes n w :
  wf h w -> is_Some (w_pchans w !! p) -> link_up w p ->
  Forall (fun z => 0 <= z <= PAGE_SIZE) sizes -> 0 <= n -> n + zsum sizes < 2 ^ 64 ->
  wp (scatter_read p sizes n) (fun r w' => quiet w w' /\ link_up w' p /\
    n <= r.1 <= n + zsum sizes /\ map zlen (r.2) = sizes) w.
Proof.
  revert n w. induction sizes as [|z l IH]; intros n w Hwf Hp Hup Hl Hn Hs; cbn [scatter_read].
  - apply wp_ret. simpl in *. split_and!; try done; [apply quiet_refl|lia..].
  - apply list.Forall_cons in Hl as [Hz Hl]. cbn [zsum foldr] in Hs. fold (zsum l) in Hs.
    assert (0 <= zsum l).
    { clear -Hl. induction Hl as [|y l Hy Hl IH]; [done|]. cbn [zsum foldr]. fold (zsum l). lia. }
    apply wp_bind. eapply wp_physical_channel_read; [done|done|lia|].
    intros r bs w1 _ Hio _ Hr. destruct (Hr Hup) as [Hr1 Hup1]. simpl.
    pose proof (quiet_io _ _ Hio) as Hq. apply wp_bind. eapply wp_mono.
    { apply IH; [by eapply wf_quiet|by eapply quiet_pchan|done|done|..].
      - unfold u64. rewrite Z.mod_small; lia.
      - unfold u64. rewrite Z.mod_small; lia. }
    intros r' w2 (Hq2 & Hup2 & Hr2 & Hlen). apply wp_ret. cbn [zsum foldr fst snd]. fold (zsum l).
    unfold u64 in Hr2. rewrite Z.mod_small in Hr2 by lia.
    split_and!; [by eapply quiet_trans|done|lia|lia|]. cbn [map]. by rewrite fill_buf_len, Hlen by lia.
Qed.

(** The message that an arriving payload becomes. *)
Lemma hab_msg_alloc_spec h p n w (Q : option hab_message -> world HS -> Prop) :
  wf h w -> is_Some (w_pchans w !! p) -> link_up w p -> 0 <= n ->
  (forall w', quiet w w' -> Q None w') ->
  (forall m w', quiet w w' -> msg_ok m = true ->
     (PAGE_SIZE < n /\ (exists l, w_alloc w = false :: l) \/
      m_scatter m = false /\ exists d, m_data m = [d] /\ zlen d = n) -> Q (Some m) w') ->
  wp (hab_msg_alloc p n) Q w.
Proof.
  intros Hwf Hp Hup Hn HN HS_. unfold hab_msg_alloc.
  destruct (Z.ltb_spec HAB_HEADER_SIZE_MAX n) as [|Hmax]; [apply wp_ret, HN, quiet_refl|].
  apply wp_bind, wp_kalloc_eq; [intros al Hal|intros al].
  2: { pose proof (quiet_next al w) as Hq1. apply wp_bind.
    eapply wp_physical_channel_read; [by eapply wf_quiet|by eapply quiet_pchan|done|].
    intros r bs w2 _ Hio _ Hr. pose proof (quiet_trans _ _ _ Hq1 (quiet_io _ _ Hio)) as Hq2.
    destruct (quiet_pchan _ _ _ Hq2 Hp) as [pc Hpc]. apply wp_bind. eapply wp_get_p; [done|].
    destruct (Hr Hup) as [Hrn _]. apply wp_ret, HS_; [done| |right; split; [done|]; eexists; split; [done|by apply fill_buf_len]].
    apply (chunk_ok _ _ _ n); [|by apply fill_buf_len]. unfold u64. cbn [fst]. change HAB_HEADER_SIZE_MAX with 512000 in Hmax. rewrite Z.mod_small; lia. }
  pose proof (quiet_alloc al w) as Hq0. unfold hab_scatter_msg_alloc.
  destruct (Z.leb_spec n PAGE_SIZE) as [|Hbig]; [by apply wp_ret, HN|].
  apply wp_bind, wp_kalloc; intros al'; [apply wp_ret, HN; eapply quiet_trans; [done|apply quiet_alloc]|].
  pose proof (quiet_trans _ _ _ Hq0 (quiet_next al' _)) as Hq1. simpl in Hq1.
  apply wp_bind. eapply wp_mono; [apply scatter_alloc_spec|]. intros ok w2 [Hq2 Hh2].
  pose proof (quiet_trans _ _ _ Hq1 Hq2) as Hq3. destruct ok; [|by apply wp_ret, HN].
  destruct (scatter_sizes_sum n Hn) as [Hsum Hall].
  change HAB_HEADER_SIZE_MAX with 512000 in Hmax.
  apply wp_bind. eapply wp_mono.
  { apply (scatter_read_spec h); [by eapply wf_quiet|by eapply quiet_pchan| |done|done|lia].
    unfold link_up. rewrite Hh2. exact Hup. }
  intros r w3 (Hq4 & _ & Hr & Hlen). pose proof (quiet_trans _ _ _ Hq3 Hq4) as Hq5.
  destruct (quiet_pchan _ _ _ Hq5 Hp) as [pc Hpc]. apply wp_bind. eapply wp_get_p; [done|].
  apply wp_ret, HS_; [done| |by left; eauto]. by apply (pages_ok _ _ _ n).
Qed.

Lemma hab_msg_queue_spec v vc m w (Q : unit -> world HS -> Prop) :
  w_vchans w !! v = Some vc -> msg_ok m = true ->
  (forall w', frame w w' -> Q tt w') ->
  wp (hab_msg_queue v m) Q w.
Proof.
  intros Hv Hm HQ. unfold hab_msg_queue. apply wp_bind. eapply wp_upd_v; [done|].
  apply wp_log, HQ. eapply frame_trans; [eapply (frame_vchan v vc); [done|]|apply frame_log].
  unfold v_view. simpl. rewrite forallb_app. simpl. by rewrite Hm, !andb_true_r.
Qed.

(** A received descriptor enters the import tree of a context. *)
Lemma wf_imp_insert h w c cx a ex p :
  wf h w -> w_ctxs w !! c = Some cx -> w_imps w !! a = None -> (a < w_next w)%nat ->
  ed_pchan (es_exp ex) = Some p -> is_Some (w_pchans w !! p) -> table_fits (es_exp ex) = true ->
  wf h (set_w_ctxs (<[c := set_cx_import_total (u32 (cx_import_total cx + 1))
          (set_cx_imp_whse (<[imp_key ex := a]> (cx_imp_whse cx)) cx)]> (w_ctxs w))
        (set_w_imps (<[a := ex]> (w_imps w)) w)).
Proof.
  intros [Hv Hp Hc Hd Hdrv Hfr Hop Hli] Hcx Ha Hlt Hpx Hpl Hfit.
  set (cx' := set_cx_import_total _ _).
  assert (Hno : forall b bx k, w_ctxs w !! b = Some bx -> cx_imp_whse bx !! k <> Some a).
  { intros b bx k Hb Hk. destruct (Hc b bx Hb) as (_ & _ & _ & _ & _ & _ & Hi & _).
    destruct (Hi k a Hk) as (? & ? & _). congruence. }
  assert (Himp : forall b k e, (exists bx, w_ctxs w !! b = Some bx /\ cx_imp_whse bx !! k = Some e) ->
    <[a := ex]> (w_imps w) !! e = w_imps w !! e).
  { intros b k e (bx & Hb & Hk). rewrite lookup_insert_ne; [done|]. intros <-. by eapply Hno. }
  assert (Hback : forall b bx k e, <[c := cx']> (w_ctxs w) !! b = Some bx -> cx_imp_whse bx !! k = Some e ->
    (e = a /\ b = c) \/ exists by', w_ctxs w !! b = Some by' /\ cx_imp_whse by' !! k = Some e).
  { intros b bx k e. rewrite lookup_insert. case_decide; [|by eauto].
    intros [= <-]. subst b. simpl. intros [[_ ->]|[_ ?]]%lookup_insert_Some; [by left|]. right. eauto. }
  constructor; simpl.
  - intros u uc Huc. destruct (Hv u uc Huc) as (pc0 & b & bx & ? & ? & ? & ? & Hb & ? & ?).
    exists pc0, b, (if decide (c = b) then cx' else bx). simpl. rewrite lookup_insert.
    split_and!; try done; destruct (decide (c = b)); try done.
    subst b. replace bx with cx in * by congruence. done.
  - apply Hp.
  - intros b bx. rewrite lookup_insert. case_decide as Hb.
    + subst b. intros [= <-]. destruct (Hc c cx Hcx) as (? & ? & ? & ? & ? & ? & Hi & ?).
      split_and!; try done. intros k e. simpl. intros [[<- <-]|[Hne Hk]]%lookup_insert_Some.
      * exists ex. rewrite lookup_insert_eq. unfold imp_key. simpl. rewrite Hpx. by split_and!.
      * rewrite (Himp c k) by eauto. by apply Hi.
    + intros Hbx. destruct (Hc b bx Hbx) as (? & ? & ? & ? & ? & ? & Hi & ?).
      split_and!; try done. intros k e Hk. simpl. rewrite (Himp b k) by eauto. by apply Hi.
  - apply Hd.
  - destruct Hdrv as (? & Hu & ? & ? & Hr & ? & ? & Hhc & ? & ? & Hi).
    assert (Hsome : forall b, is_Some (w_ctxs w !! b) -> is_Some (<[c := cx']> (w_ctxs w) !! b)).
    { intros b Hb. rewrite lookup_insert. by case_decide. }
    unfold driver_ok. simpl. split_and!; try done; try (by eauto).
    + intros e He. destruct (Hr e He) as (ex0 & ? & ? & Hn). exists ex0. split_and!; try done.
      intros b bx. rewrite lookup_insert. case_decide; [|by apply Hn].
      intros [= <-]. simpl. by eapply Hn.
    + intros b bx k b' bx' k' e G1 G2 Hk Hk'.
      destruct (Hback _ _ _ _ G1 Hk) as [[-> ->]|(y & ? & ?)];
        destruct (Hback _ _ _ _ G2 Hk') as [[E ->]|(y' & ? & ?)]; try done.
      * exfalso. by eapply Hno.
      * subst e. exfalso. by eapply Hno.
      * eauto.
  - destruct Hfr as (Hfr & Hids & Hft & Hk). split; [|split; [done|split; [|done]]].
    + intros b Hb. destruct (Hfr b Hb) as (? & ? & ? & ? & ?). split_and!; try done; simpl.
      * rewrite lookup_insert_ne; [done|congruence].
      * rewrite lookup_insert_ne; [done|]. simpl in Hb. lia.
    + intros e0 ex0. simpl. intros [[_ <-]|[_ ?]]%lookup_insert_Some; [done|by eapply Hft].
  - apply (open_ok_mono h h w); [done|by eauto| |done].
    intros b bx. simpl. rewrite lookup_insert. case_decide; [|by eauto].
    intros [= <-]. subst b. exists cx. by split.
  - by eapply listed_ok_ctx.
Qed.

Lemma vchans_of_None h w : h_x h = None -> vchans_of h w = w_vchans w.
Proof. unfold vchans_of. by intros ->. Qed.

Lemma wf_vchan_ctx h w v vc :
  wf h w -> h_x h = None -> w_vchans w !! v = Some vc ->
  exists pc c cx, w_pchans w !! vc_pchan vc = Some pc /\ vc_ctx vc = Some c /\ w_ctxs w !! c = Some cx.
Proof.
  intros Hwf Hx Hv. destruct (wf_v _ _ Hwf v vc) as (pc & c & cx & ? & _ & _ & ? & ? & _).
  - by rewrite vchans_of_None.
  - by exists pc, c, cx.
Qed.

Lemma hab_export_enqueue_spec h v vc a ex p w (Q : Z -> world HS -> Prop) :
  wf h w -> h_x h = None -> w_vchans w !! v = Some vc ->
  w_imps w !! a = None -> (a < w_next w)%nat ->
  ed_pchan (es_exp ex) = Some p -> is_Some (w_pchans w !! p) -> table_fits (es_exp ex) = true ->
  (forall r w', wf h w' -> w_vchans w' = w_vchans w -> w_pchans w' = w_pchans w ->
     w_hyp w' = w_hyp w -> w_devs w' = w_devs w -> Q r w') ->
  wp (hab_export_enqueue v a ex) Q w.
Proof.
  intros Hwf Hx Hv Ha Hlt Hpx Hpl Hfit HQ. destruct (wf_vchan_ctx _ _ _ _ Hwf Hx Hv) as (pc & c & cx & _ & Hc & Hcx).
  unfold hab_export_enqueue. apply wp_bind. eapply wp_get_v; [done|]. rewrite Hc.
  apply wp_bind, wp_deref. apply wp_bind. eapply wp_get_c; [done|].
  destruct (cx_imp_whse cx !! imp_key ex); [by apply wp_ret, HQ|].
  apply wp_bind, wp_modify. apply wp_bind. eapply wp_upd_c; [exact Hcx|]. apply wp_ret, HQ; try done.
  exact (wf_imp_insert h w c cx a ex p Hwf Hcx Ha Hlt Hpx Hpl Hfit).
Qed.

Lemma imp_rxq_add_spec c cx ack w (Q : unit -> world HS -> Prop) :
  w_ctxs w !! c = Some cx ->
  (forall w', frame w w' -> w_vchans w' = w_vchans w -> Q tt w') -> wp (imp_rxq_add c ack) Q w.
Proof.
  intros Hc HQ. unfold imp_rxq_add. eapply wp_upd_c; [done|]. apply HQ; [|done]. by eapply frame_ctx.
Qed.

Lemma hab_create_invalid_ack_spec h v vc i w (Q : unit -> world HS -> Prop) :
  wf h w -> h_x h = None -> w_vchans w !! v = Some vc ->
  (forall w', frame w w' -> w_vchans w' = w_vchans w -> Q tt w') -> wp (hab_create_invalid_ack v i) Q w.
Proof.
  intros Hwf Hx Hv HQ. destruct (wf_vchan_ctx _ _ _ _ Hwf Hx Hv) as (pc & c & cx & _ & Hc & Hcx).
  unfold hab_create_invalid_ack. apply wp_bind, wp_kalloc; intros l;
    [by apply wp_ret, HQ; [apply frame_alloc|]|].
  apply wp_bind. eapply wp_get_v; [exact Hv|]. rewrite Hc. apply wp_bind, wp_deref.
  eapply imp_rxq_add_spec; [exact Hcx|]. intros w' Hf ?. apply HQ; [|done].
  eapply frame_trans; [apply frame_next|done].
Qed.

Lemma export_desc_err_spec h v vc np i r w (Q : Z -> world HS -> Prop) :
  wf h w -> h_x h = None -> w_vchans w !! v = Some vc ->
  (forall w', frame w w' -> w_vchans w' = w_vchans w -> Q r w') ->
  wp (export_desc_err v np i r) Q w.
Proof.
  intros Hwf Hx Hv HQ. unfold export_desc_err. apply wp_bind.
  apply wp_when; intros _; [|by apply wp_ret, HQ; [apply frame_refl|]].
  apply wp_bind. eapply hab_create_invalid_ack_spec; [done|done|done|]. intros w1 Hf Hv1.
  eapply wp_mono; [eapply (hab_send_unimport_msg_spec h); [by eapply wf_frame|done|rewrite Hv1; by eexists]|].
  intros [] w2 Hio. apply wp_ret, HQ; [eapply frame_trans; [done|apply Hio]|].
  by rewrite (io_v _ _ Hio).
Qed.
(** Any descriptor the other side sends. *)
(** The checks on a received descriptor make its table readable. *)
Lemma localise_fits p pc i n bs :
  0 <= n -> let d := localise_desc p pc i (export_desc_dec (fill_buf n bs)) in
  export_desc_valid n d = true -> table_fits d = true.
Proof.
  intros Hn d Hv. assert (Hd : ed_payload d = drop 88 (fill_buf n bs)).
  { unfold d, localise_desc. by destruct (pc_mem_proto pc =? 1). }
  assert (Hl : zlen (fill_buf n bs) = n) by (by apply fill_buf_len).
  unfold export_desc_valid in Hv. rewrite !andb_true_iff, !negb_true_iff, !orb_false_iff, Z.eqb_eq in Hv.
  destruct Hv as (((((H1%Z.leb_gt & _) & _) & H2%Z.ltb_ge) & H3%Z.ltb_ge) & H4).
  unfold table_fits, sizeof_export_desc, sizeof_compressed_pfns, sizeof_region in *.
  rewrite Hd in *. change 88%nat with (Z.to_nat 88) in *.
  assert (zlen (drop (Z.to_nat 88) (fill_buf n bs)) = n - 88) as -> by (rewrite zlen_drop; lia). lia.
Qed.

Lemma hab_receive_export_desc_spec h p v vc n w (Q : Z -> world HS -> Prop) :
  wf h w -> h_x h = None -> is_Some (w_pchans w !! p) -> w_vchans w !! v = Some vc -> 0 <= n ->
  (forall r w', wf h w' -> is_Some (w_vchans w' !! v) -> Q r w') ->
  wp (hab_receive_export_desc p v n) Q w.
Proof.
  intros Hwf Hx Hp Hv Hn HQ. assert (HvS : is_Some (w_vchans w !! v)) by (by eexists).
  unfold hab_receive_export_desc.
  destruct ((HAB_HEADER_SIZE_MAX <? n) || (n <? sizeof_export_desc + sizeof_compressed_pfns));
    [by apply wp_ret, HQ|].
  apply wp_bind, wp_kalloc; intros l; [apply wp_ret, HQ; [|done]; by eapply wf_frame; [apply frame_alloc|]|].
  set (a := w_next w). set (w1 := set_w_next (S a) _).
  assert (Hq1 : quiet w w1) by apply quiet_next. assert (Hwf1 : wf h w1) by (by eapply wf_quiet).
  assert (Ha1 : w_imps w1 !! a = None) by (apply (proj1 (wf_fresh _ _ Hwf)); done).
  apply wp_bind. eapply wp_physical_channel_read; [exact Hwf1|exact Hp|done|].
  intros r bs w2 _ Hio _ _. simpl. pose proof (wf_io_frame _ _ _ Hio Hwf1) as Hwf2.
  assert (Hq2 : quiet w w2) by (eapply quiet_trans; [done|by apply quiet_io]).
  assert (Hv2 : w_vchans w2 !! v = Some vc) by (by rewrite (q_v _ _ Hq2)).
  destruct (negb (r =? n)); [apply wp_ret, HQ; [done|by eexists]|].
  destruct (quiet_pchan _ _ _ Hq2 Hp) as [pc Hpc].
  apply wp_bind. eapply wp_get_p; [done|]. apply wp_bind. eapply wp_get_v; [done|].
  set (d := localise_desc p pc (vc_id vc) _).
  assert (Hdp : ed_pchan d = Some p) by (unfold d, localise_desc; by destruct (pc_mem_proto pc =? 1)).
  destruct (negb (export_desc_valid n d)) eqn:Hvalid.
  { eapply export_desc_err_spec; [exact Hwf2|done|exact Hv2|]. intros w3 Hf Hv3. apply HQ; [by eapply wf_frame|].
    rewrite Hv3. by eexists. }
  apply wp_bind. apply (wp_mono _ (fun _ w3 => quiet w2 w3)).
  { destruct (pc_mem_proto pc =? 1); [|apply wp_ret, quiet_refl].
    apply wp_kalloc; intros; [apply quiet_alloc|apply quiet_next]. }
  intros ack w3 Hq3. pose proof (wf_quiet _ _ _ Hq3 Hwf2) as Hwf3.
  assert (Hv3 : w_vchans w3 !! v = Some vc) by (by rewrite (q_v _ _ Hq3)).
  destruct ack as [?|].
  2: { eapply export_desc_err_spec; [exact Hwf3|done|exact Hv3|]. intros w4 Hf Hv4. apply HQ; [by eapply wf_frame|].
    rewrite Hv4. by eexists. }
  apply wp_bind. eapply (hab_export_enqueue_spec h v vc a _ p); [done|done|done|..].
  { rewrite (q_i _ _ Hq3), (q_i _ _ (quiet_io _ _ Hio)). done. }
  { pose proof (fr_next _ _ (q_fr _ _ Hq3)). pose proof (fr_next _ _ (io_fr _ _ Hio)). simpl in *. unfold a. lia. }
  { done. }
  { by eapply quiet_pchan. }
  { apply localise_fits, negb_false_iff; [done|exact Hvalid]. }
  intros r' w4 Hwf4 Hvs4 Hps4 _ _. assert (Hv4 : w_vchans w4 !! v = Some vc) by congruence.
  apply wp_bind. apply (wp_mono _ (fun _ w5 => wf h w5 /\ w_vchans w5 = w_vchans w4)).
  { destruct (pc_mem_proto pc =? 1).
    - destruct (wf_vchan_ctx _ _ _ _ Hwf4 Hx Hv4) as (? & c & cx & _ & Hc & Hcx). rewrite Hc.
      apply wp_bind, wp_deref. eapply imp_rxq_add_spec; [done|]. intros w5 Hf ?. split; [by eapply wf_frame|done].
    - apply wp_bind. unfold hab_send_export_ack. apply wp_bind. eapply wp_get_v; [done|].
      eapply wp_physical_channel_send; [exact Hwf4|rewrite Hps4; by eapply quiet_pchan|].
      intros r'' w5 Hio5 _. apply wp_ret. split; [by eapply wf_io_frame|apply Hio5]. }
  intros [] w5 [Hwf5 Hv5]. apply wp_ret, HQ; [done|]. rewrite Hv5, Hv4. by eexists.
Qed.

Lemma hab_receive_create_export_ack_spec h p c n w (Q : Z -> world HS -> Prop) :
  wf h w -> is_Some (w_pchans w !! p) -> is_Some (w_ctxs w !! c) -> 0 <= n ->
  (forall r w', frame w w' -> Q r w') ->
  wp (hab_receive_create_export_ack p c n) Q w.
Proof.
  intros Hwf Hp [cx Hc] Hn HQ. unfold hab_receive_create_export_ack.
  apply wp_bind, wp_kalloc; intros l; [apply wp_ret, HQ, frame_alloc|].
  destruct (sizeof_hab_export_ack <? n); [apply wp_ret, HQ, frame_next|].
  pose proof (wf_frame _ _ _ (frame_next l w) Hwf) as Hwf1.
  apply wp_bind. eapply wp_physical_channel_read; [exact Hwf1|exact Hp|done|].
  intros r bs w2 _ Hio _ _. simpl. pose proof (frame_trans _ _ _ (frame_next l w) (io_fr _ _ Hio)) as Hf.
  destruct (negb (r =? n)); [by apply wp_ret, HQ|].
  destruct (n =? sizeof_hab_export_ack); [|by apply wp_ret, HQ].
  apply wp_bind. eapply wp_upd_c; [rewrite (io_c _ _ Hio); exact Hc|]. apply wp_ret, HQ.
  eapply frame_trans; [done|]. eapply (frame_ctx c cx); [by rewrite (io_c _ _ Hio)|done].
Qed.

Lemma hab_receive_import_ack_fail_spec h p v vc w (Q : Z -> world HS -> Prop) :
  wf h w -> h_x h = None -> is_Some (w_pchans w !! p) -> w_vchans w !! v = Some vc ->
  (forall r w', frame w w' -> w_vchans w' = w_vchans w -> Q r w') ->
  wp (hab_receive_import_ack_fail p v) Q w.
Proof.
  intros Hwf Hx Hp Hv HQ. unfold hab_receive_import_ack_fail.
  destruct (wf_vchan_ctx _ _ _ _ Hwf Hx Hv) as (? & c & cx & _ & Hc & Hcx).
  apply wp_bind. eapply wp_physical_channel_read; [done|done|done|].
  intros r bs w1 _ Hio _ _. simpl. apply wp_bind, wp_kalloc; intros l.
  - apply wp_ret, HQ; [|apply Hio]. eapply frame_trans; [apply Hio|apply frame_alloc].
  - apply wp_bind. eapply wp_get_v; [simpl; rewrite (io_v _ _ Hio); exact Hv|]. rewrite Hc.
    apply wp_bind, wp_deref. apply wp_bind.
    eapply imp_rxq_add_spec; [simpl; rewrite (io_c _ _ Hio); exact Hcx|].
    intros w2 Hf Hv2. apply wp_ret, HQ; [|rewrite Hv2; apply Hio].
    eapply frame_trans; [apply Hio|]. eapply frame_trans; [apply frame_next|done].
Qed.

Lemma hab_msg_drop_spec h p n w (Q : unit -> world HS -> Prop) :
  wf h w -> is_Some (w_pchans w !! p) -> 0 <= n ->
  (forall w', quiet w w' -> Q tt w') -> wp (hab_msg_drop p n) Q w.
Proof.
  intros Hwf Hp Hn HQ. unfold hab_msg_drop.
  destruct (HAB_HEADER_SIZE_MAX <? n); [apply wp_ret, HQ, quiet_refl|].
  apply wp_bind, wp_kalloc; intros l; [apply wp_ret, HQ, quiet_alloc|].
  apply wp_bind. eapply wp_physical_channel_read; [eapply wf_frame; [apply frame_next|exact Hwf]|exact Hp|done|].
  intros r bs w1 _ Hio _ _. apply wp_ret, HQ. eapply quiet_trans; [apply quiet_next|by apply quiet_io].
Qed.
Lemma wf_expid_live h w p pc i e :
  wf h w -> w_pchans w !! p = Some pc -> pc_expid_idr pc !! i = Some e ->
  exists ex, w_exps w !! e = Some ex /\ payload_fits ex = true /\
    (es_exp_state ex = HAB_EXP_SUCCESS -> ed_pchan (es_exp ex) = Some p).
Proof.
  intros Hwf Hp Hi. destruct (wf_p _ _ Hwf p pc Hp) as (_ & _ & _ & _ & _ & _ & He & _).
  destruct (He i e Hi) as (ex & ? & _ & _ & ? & ?). by exists ex.
Qed.

Lemma hab_recv_unimport_msg_spec h p ve w (Q : unit -> world HS -> Prop) :
  wf h w -> is_Some (w_pchans w !! p) ->
  (forall w', frame w w' -> w_vchans w' = w_vchans w -> Q tt w') -> wp (hab_recv_unimport_msg p ve) Q w.
Proof.
  intros Hwf Hp HQ. unfold hab_recv_unimport_msg.
  apply wp_bind. eapply wp_physical_channel_read; [done|done|done|].
  intros r bs w1 _ Hio _ _. simpl. pose proof (wf_io_frame _ _ _ Hio Hwf) as Hwf1.
  destruct (quiet_pchan _ _ _ (quiet_io _ _ Hio) Hp) as [pc Hpc].
  apply wp_bind. eapply wp_get_p; [done|]. apply wp_bind.
  apply (wp_mono _ (fun _ w2 => frame w w2 /\ w_vchans w2 = w_vchans w)).
  - destruct (pc_expid_idr pc !! _) as [e|] eqn:Hi; [|apply wp_ret; split; apply Hio].
    destruct (wf_expid_live _ _ _ _ _ _ Hwf1 Hpc Hi) as (ex & Hex & _).
    apply wp_bind. eapply wp_get_e; [done|]. apply wp_when; intros _; [|split; apply Hio].
    eapply wp_upd_e; [done|]. split; [|apply Hio]. eapply frame_trans; [apply Hio|].
    by eapply frame_exp.
  - intros [] w2 [Hf Hv]. apply wp_when; intros _; [|by apply HQ]. apply wp_log, HQ; [|done].
    eapply frame_trans; [done|apply frame_log].
Qed.

Lemma u32_le z : 0 <= z -> u32 z <= z.
Proof. intros. unfold u32. by apply Z.mod_le. Qed.


(** The acknowledgement makes no difference to an export that the requester's
    context owns. *)
Lemma hab_send_import_ack_spec h v vc e ex w (Q : Z -> world HS -> Prop) :
  wf h w -> h_x h = None -> w_vchans w !! v = Some vc -> w_exps w !! e = Some ex ->
  payload_fits ex = true -> ed_ctx (es_exp ex) = vc_ctx vc ->
  ed_pchan (es_exp ex) = Some (vc_pchan vc) ->
  (forall r w', frame w w' -> w_vchans w' = w_vchans w -> Q r w') ->
  wp (hab_send_import_ack v e) Q w.
Proof.
  intros Hwf Hx Hv He Hfit Hc Hp HQ. unfold hab_send_import_ack.
  destruct (wf_vchan_ctx _ _ _ _ Hwf Hx Hv) as (pc & _ & _ & Hpc & _).
  apply wp_bind. eapply wp_get_e; [done|]. apply wp_bind. eapply wp_get_v; [done|]. cbv zeta.
  apply wp_bind. eapply wp_upd_e; [done|]. set (w1 := set_w_exps _ w).
  apply wp_bind. eapply wp_get_e; [apply lookup_insert_eq|].
  unfold payload_fits in Hfit. apply andb_true_iff in Hfit as [Hf1%Z.leb_le Hf2%Z.leb_le].
  rewrite mem_read_Some; [|done|apply u32_range|]; cycle 1.
  { rewrite export_desc_enc_len. pose proof (u32_le (sizeof_export_desc + es_payload_size ex)).
    unfold sizeof_export_desc in *. simpl ed_payload in *. lia. }
  apply wp_bind. apply wp_send; [by eexists| |].
  { by destruct (wf_p _ _ Hwf _ pc Hpc) as (_ & ? & _). }
  intros r w2 Hio _. apply wp_bind.
  eapply wp_upd_e; [rewrite (io_e _ _ Hio); apply lookup_insert_eq|].
  apply wp_ret. setters. rewrite (io_e _ _ Hio). apply HQ; [|apply Hio].
  destruct Hio as [[F1 F2 F3 F4 F5 F6 F7 F8 F9 F10 F11] ? ? ? ? ? ? ? ?].
  constructor; simpl; try done. rewrite insert_insert_eq. eapply same_view_insert; [done|].
  unfold e_view, payload_fits. simpl. by rewrite Hc, Hp.
Qed.

(** The exports that the other side may ask for are of the asking side's context. *)
Definition exports_of w (p : nat) (o : option nat) : Prop :=
  forall pc i e ex, w_pchans w !! p = Some pc -> pc_expid_idr pc !! i = Some e ->
    w_exps w !! e = Some ex -> es_exp_state ex = HAB_EXP_SUCCESS -> ed_ctx (es_exp ex) = o.

Lemma exports_of_quiet w w' p o : quiet w w' -> exports_of w p o -> exports_of w' p o.
Proof.
  intros Hq Ho pc i e ex Hp Hi He. rewrite (q_e _ _ Hq) in He.
  destruct (same_view_Some _ _ _ _ _ (same_view_sym _ _ _ (fr_p _ _ (q_fr _ _ Hq))) Hp) as (pc' & Hpc' & Hview).
  injection Hview as _ _ _ Hview _ _. eapply Ho; [exact Hpc'| |exact He]. by rewrite Hview.
Qed.

Lemma recv_import_spec h p v vc w (Q : unit -> world HS -> Prop) :
  wf h w -> h_x h = None -> w_vchans w !! v = Some vc -> vc_pchan vc = p ->
  exports_of w p (vc_ctx vc) ->
  (forall w', frame w w' -> w_vchans w' = w_vchans w -> Q tt w') -> wp (recv_import p v) Q w.
Proof.
  intros Hwf Hx Hv Hvp Hown HQ. destruct (wf_vchan_ctx _ _ _ _ Hwf Hx Hv) as (pc0 & _ & _ & Hp & _).
  rewrite Hvp in Hp. unfold recv_import.
  apply wp_bind. eapply wp_physical_channel_read; [done|by eexists|done|].
  intros r bs w1 _ Hio _ _. cbn [fst snd]. pose proof (quiet_io _ _ Hio) as Hq.
  pose proof (wf_io_frame _ _ _ Hio Hwf) as Hwf1. pose proof (exports_of_quiet _ _ _ _ Hq Hown) as Hown1.
  assert (Hv1 : w_vchans w1 !! v = Some vc) by (by rewrite (q_v _ _ Hq)).
  destruct (negb (r =? sizeof_hab_import_data)); [apply wp_ret, HQ; apply Hq|].
  destruct (quiet_pchan _ _ p Hq) as [pc Hpc]; [by eexists|].
  apply wp_bind. eapply wp_get_p; [done|]. cbv zeta. set (dd := import_data_dec _).
  set (refuse := bind (hab_send_import_ack_fail _ _) _).
  assert (Hrefuse : wp refuse Q w1).
  { unfold refuse, hab_send_import_ack_fail. apply wp_bind, wp_bind. eapply wp_get_v; [done|].
    eapply wp_physical_channel_send; [done|rewrite Hvp; by eexists|]. intros r' w2 Hio' _. apply wp_ret, HQ.
    - eapply frame_trans; [apply Hq|apply Hio'].
    - rewrite (io_v _ _ Hio'). apply Hq. }
  destruct (pc_expid_idr pc !! id_exp_id dd) as [e|] eqn:Hi; [|done].
  destruct (wf_expid_live _ _ _ _ _ _ Hwf1 Hpc Hi) as (ex & Hex & Hfit & Hst).
  apply wp_bind. eapply wp_get_e; [done|].
  destruct (_ && bool_decide _) eqn:Hb; [|done].
  apply andb_true_iff in Hb as [_ Hb%bool_decide_eq_true]. apply wp_bind. eapply wp_upd_e; [done|].
  set (w2 := set_w_exps _ w1). assert (Hf2 : frame w1 w2) by (by eapply frame_exp).
  apply wp_bind. eapply (hab_send_import_ack_spec h v vc e (set_es_remote_imported 1 ex));
    [by eapply wf_frame|done|exact Hv1|apply lookup_insert_eq|exact Hfit|exact (Hown1 pc _ e ex Hpc Hi Hex Hb)| |].
  { rewrite Hvp. by apply Hst. }
  intros r' w3 Hf3 Hv3. apply wp_ret, HQ.
  - eapply frame_trans; [apply Hq|]. by eapply frame_trans.
  - rewrite Hv3. apply Hq.
Qed.
(** Large messages that carry a receive stamp must find a contiguous buffer. *)
Definition stamp_fits w (n : Z) : Prop :=
  PAGE_SIZE < n -> forall l, w_alloc w <> false :: l.

Lemma recv_stamped_spec h p v vc n off stamp w (Q : unit -> world HS -> Prop) :
  wf h w -> is_Some (w_pchans w !! p) -> link_up w p -> w_vchans w !! v = Some vc ->
  0 <= off -> off + zlen stamp <= n -> stamp_fits w n ->
  (forall w', frame w w' -> Q tt w') -> wp (recv_stamped p v n off stamp) Q w.
Proof.
  intros Hwf Hp Hup Hv Hoff Hn Hfit HQ. pose proof (zlen_nonneg stamp).
  unfold recv_stamped. apply wp_bind. eapply (hab_msg_alloc_spec h); [done|done|done|lia|..].
  - intros w1 Hq. apply wp_ret, HQ, Hq.
  - intros m w1 Hq Hm [[Hbig [l Hl]]|(Hs & d & Hd & Hlen)]; [by destruct (Hfit Hbig l)|].
    unfold stamp_msg. rewrite Hs, Hd.
    destruct (mem_write d off stamp) as [d'|] eqn:Hw; [|by rewrite mem_write_Some in Hw by lia].
    apply wp_bind, wp_ret.
    eapply (hab_msg_queue_spec v vc); [by rewrite (q_v _ _ Hq)| |].
    + unfold msg_ok, data_ok in Hm |- *. simpl. rewrite Hs, Hd in *. simpl in *.
      rewrite (mem_write_len _ _ _ _ Hw). exact Hm.
    + intros w2 Hf. apply HQ. eapply frame_trans; [apply Hq|done].
Qed.

Lemma frame_live_v w w' v : frame w w' -> is_Some (w_vchans w !! v) -> is_Some (w_vchans w' !! v).
Proof. intros Hf [vc Hv]. destruct (same_view_Some _ _ _ _ _ (fr_v _ _ Hf) Hv) as (? & ? & _). by eexists. Qed.

(** The types whose handler stores a receive time into the message. *)
Definition is_stamped (t : option hab_payload_type) : bool :=
  match t with
  | Some (HAB_PAYLOAD_TYPE_PROFILE | HAB_PAYLOAD_TYPE_SCHE_MSG | HAB_PAYLOAD_TYPE_SCHE_MSG_ACK) => true
  | _ => false
  end.

Lemma recv_on_vchan_spec h p v vc n t w (Q : Z -> world HS -> Prop) :
  wf h w -> h_x h = None -> link_up w p -> w_vchans w !! v = Some vc -> vc_pchan vc = p -> 0 <= n ->
  (t = Some HAB_PAYLOAD_TYPE_IMPORT -> exports_of w p (vc_ctx vc)) ->
  (is_stamped t = true -> stamp_fits w n) ->
  (forall r w', wf h w' -> Q r w') ->
  wp (recv_on_vchan p v n t) Q w.
Proof.
  intros Hwf Hx Hup Hv Hvp Hn Himp Hst HQ.
  destruct (wf_vchan_ctx _ _ _ _ Hwf Hx Hv) as (pc & c & cx & Hpc & Hc & Hcx). rewrite Hvp in Hpc.
  assert (Hp : is_Some (w_pchans w !! p)) by (by eexists).
  assert (HQf : forall r w', frame w w' -> Q r w') by (intros; apply HQ; by eapply wf_frame).
  assert (Hwake : forall r w', wf h w' -> is_Some (w_vchans w' !! v) -> Q r w') by auto.
  unfold recv_on_vchan. apply wp_bind. eapply wp_get_v; [done|].
  assert (Hmsg : wp (let! o := hab_msg_alloc p n in
    match o with None => ret 0 | Some m => do! hab_msg_queue v m in ret 0 end) Q w).
  { apply wp_bind. eapply (hab_msg_alloc_spec h); [done..| |].
    - intros w1 Hq. apply wp_ret, HQf, Hq.
    - intros m w1 Hq Hm _. apply wp_bind. eapply (hab_msg_queue_spec v vc); [by rewrite (q_v _ _ Hq)|done|].
      intros w2 Hf. apply wp_ret, HQf. eapply frame_trans; [apply Hq|done]. }
  rewrite Hc. destruct t as [[]|]; try exact Hmsg; try (by apply wp_ret, HQ).
  - eapply hab_receive_export_desc_spec; eauto.
  - apply wp_bind, wp_deref. apply wp_bind.
    eapply (hab_receive_create_export_ack_spec h); [done|done|by eexists|done|].
    intros r w1 Hf. apply wp_bind. apply wp_when; intros _; [|by apply wp_ret, HQf].
    apply wp_log, wp_ret, HQf. eapply frame_trans; [done|apply frame_log].
  - apply wp_bind, wp_gets. destruct (Z.ltb_spec n sizeof_xing_vm_stat) as [|Hge]; [by apply wp_ret, HQ|].
    unfold sizeof_xing_vm_stat in Hge. apply wp_bind. eapply (recv_stamped_spec h);
      [done|done|done|done|lia|rewrite ?zlen_app, !le_enc_zlen; lia|by apply Hst|].
    intros w1 Hf. by apply wp_ret, HQf.
  - apply wp_bind. eapply wp_mono; [eapply (hab_vchan_stop_spec h); [done|done|by eexists]|].
    intros [] w1 (Hf & _). by apply wp_ret, HQf.
  - destruct (Z.ltb_spec n 8) as [|Hge]; [by apply wp_ret, HQ|]. apply wp_bind, wp_gets. apply wp_bind.
    eapply (recv_stamped_spec h);
      [done|done|done|done|lia|rewrite le_enc_zlen; lia|by apply Hst|].
    intros w1 Hf. by apply wp_ret, HQf.
  - destruct (Z.ltb_spec n 8) as [|Hge]; [by apply wp_ret, HQ|]. apply wp_bind, wp_gets. apply wp_bind.
    eapply (recv_stamped_spec h);
      [done|done|done|done|lia|rewrite le_enc_zlen; lia|by apply Hst|].
    intros w1 Hf. by apply wp_ret, HQf.
  - apply wp_bind. eapply (recv_import_spec h); [done|done|done|done|by apply Himp|].
    intros w1 Hf _. by apply wp_ret, HQf.
  - apply wp_bind. eapply (hab_receive_export_desc_spec h); [done|done|done|done|done|].
    intros r w1 Hwf1 Hv1. apply wp_bind, wp_deref. apply wp_bind, wp_log, wp_ret, HQ.
    eapply wf_frame; [apply frame_log|done].
  - apply wp_bind. eapply (hab_receive_import_ack_fail_spec h); [done|done|done|done|].
    intros r w1 Hf _. apply wp_bind, wp_deref. apply wp_bind, wp_log, wp_ret, HQf.
    eapply frame_trans; [done|apply frame_log].
  - apply wp_bind. eapply (hab_recv_unimport_msg_spec h); [done|done|].
    intros w1 Hf _. by apply wp_ret, HQf.
Qed.
Lemma recv_open_spec h p n type w (Q : Z -> world HS -> Prop) :
  wf h w -> is_Some (w_pchans w !! p) -> 0 <= n ->
  (forall r w', wf h w' -> Q r w') -> wp (recv_open p n type) Q w.
Proof.
  intros Hwf [pc Hpc] Hn HQ. unfold recv_open. apply wp_bind. eapply wp_get_p; [done|].
  destruct (negb (n =? sizeof_hab_open_send_data)).
  { apply wp_bind. apply wp_when; intros _; [|by apply wp_ret, HQ].
    eapply hab_msg_drop_spec; [done|by eexists|done|]. intros w1 Hq. apply wp_ret, HQ.
    by eapply wf_quiet. }
  destruct (type =? payload_code HAB_PAYLOAD_TYPE_INIT_CANCEL).
  { eapply wp_mono; [apply hab_open_receive_cancel_spec; [done|by eexists|done]|]. auto. }
  apply wp_bind. eapply wp_mono; [apply (hab_open_request_add_spec h); [done|by eexists|done]|].
  intros r w1 Hwf1. apply wp_bind. apply wp_when; intros _; [|by apply wp_ret, HQ].
  apply wp_log, wp_ret, HQ. eapply wf_frame; [apply frame_log|done].
Qed.

(** What the handler relies on beyond the invariant: the transport that delivers
    is up; an import request is for exports of the context it reaches; a large
    profiling message finds a contiguous buffer. *)
Definition recv_pre w (p : nat) (hd : hab_header) : Prop :=
  is_Some (w_pchans w !! p) /\ link_up w p /\ 0 <= payload_size hd /\
  (payload_of_code (HAB_HEADER_GET_TYPE hd) = Some HAB_PAYLOAD_TYPE_IMPORT ->
   forall v vc, w_vchans w !! v = Some vc -> vc_pchan vc = p -> receives vc hd = true ->
     exports_of w p (vc_ctx vc)) /\
  (is_stamped (payload_of_code (HAB_HEADER_GET_TYPE hd)) = true -> stamp_fits w (payload_size hd)).

Lemma hab_msg_recv_spec h p hd w :
  wf h w -> h_x h = None -> recv_pre w p hd ->
  wp (hab_msg_recv p hd) (fun _ w' => wf h w') w.
Proof.
  intros Hwf Hx (Hp & Hup & Hn & Himp & Hst). unfold hab_msg_recv. cbv zeta.
  change (HAB_HEADER_GET_SIZE hd) with (payload_size hd).
  destruct (is_open_type _); [by apply (recv_open_spec h)|].
  apply wp_bind. eapply (hab_vchan_get_spec h); [done|done|done| |].
  - destruct (_ =? payload_code HAB_PAYLOAD_TYPE_UNIMPORT).
    + apply wp_bind. eapply (hab_recv_unimport_msg_spec h); [done|done|]. intros w1 Hf _.
      apply wp_ret. by eapply wf_frame.
    + apply wp_bind. apply wp_when; intros _; [|by apply wp_ret].
      eapply (hab_msg_drop_spec h); [done|done|done|]. intros w1 Hq. apply wp_ret. by eapply wf_quiet.
  - intros v vc Hv Hvp Hrec w1 Hwf1. set (vc1 := set_vc_refcount (vc_refcount vc + 1) vc) in *.
    assert (Hv1 : w_vchans w1 !! v = Some vc1) by apply lookup_insert_eq.
    apply wp_bind. eapply wp_get_v; [exact Hv1|].
    assert (vc_otherend_closed vc1 = false) as ->.
    { unfold receives in Hrec. simpl. destruct (vc_otherend_closed vc); [|done].
      by rewrite andb_false_r, ?andb_false_l in Hrec. }
    apply wp_bind. eapply (recv_on_vchan_spec (held_v v h) p v vc1);
      [done|done|exact Hup|exact Hv1|done|done|..].
    + intros Ht. exact (Himp Ht v vc Hv Hvp Hrec).
    + intros Ht. exact (Hst Ht).
    + intros r w2 Hwf2. apply wp_bind. eapply wp_mono; [by apply (hab_vchan_put_spec h)|].
      intros [] w3 Hwf3. by apply wp_ret.
Qed.

(** Taking a message: what each outcome leaves. *)
Lemma hab_msg_dequeue_spec h v rsize timeout flags s w
    (Q : Z * option hab_message * Z * list (wake HS) -> world HS -> Prop) :
  wf h w -> h_x h = None -> v ∈ h_v h -> sched_ok s ->
  (forall vc m l s' w' w1, wf h w1 -> w_vchans w1 !! v = Some vc -> vc_rx_list vc = m :: l ->
     m_sizebytes m <= u64 rsize -> wf h w' -> sched_ok s' ->
     w' = set_w_vchans (<[v := set_vc_rx_list l vc]> (w_vchans w1)) w1 ->
     Q (0, Some m, i32 (m_sizebytes m), s') w') ->
  (forall vc m l s' w', wf h w' -> w_vchans w' !! v = Some vc -> vc_rx_list vc = m :: l ->
     u64 rsize < m_sizebytes m -> sched_ok s' ->
     Q (- EOVERFLOW, None, i32 (m_sizebytes m), s') w') ->
  (forall code vc s' w', wf h w' -> w_vchans w' !! v = Some vc -> vc_rx_list vc = [] ->
     code < 0 -> (vc_otherend_closed vc = true <-> code = - ENODEV) -> sched_ok s' ->
     Q (code, None, 0, s') w') ->
  wp (hab_msg_dequeue v rsize timeout flags s) Q w.
Proof.
  intros Hwf Hx Hv Hs HQ1 HQ2 HQ3. unfold hab_msg_dequeue. cbv zeta.
  destruct (wf_held_v _ _ _ Hwf Hx Hv) as [vc0 Hvc0].
  apply wp_bind. unfold hab_rx_queue_empty at 1. apply wp_bind. eapply wp_get_v; [done|]. apply wp_ret.
  apply wp_bind. apply (wp_mono _ (fun r w' => wf h w' /\ sched_ok (r.2) /\
    r.1 ∈ [1; 0; - ERESTARTSYS; - EAGAIN])).
  - destruct (_ && _); [|apply wp_ret; split_and!; [done|done|set_solver]].
    apply wp_bind. apply (wp_wait_event (fun _ w' => wf h w') (fun _ w' => wf h w')).
    + intros [] w1 Hwf1. destruct (wf_held_v _ _ _ Hwf1 Hx Hv) as [vc1 Hvc1].
      unfold hab_rx_queue_empty. apply wp_bind, wp_bind. eapply wp_get_v; [done|].
      apply wp_ret, wp_bind. eapply wp_get_v; [done|]. apply wp_ret. by destruct (_ || _).
    + intros m a w1 Hm Hwf1. by apply Hm.
    + done.
    + done.
    + intros r a s' w1 Hr Hs' _ _. apply wp_ret. split_and!; [by destruct (decide _)|done|].
      destruct r; simpl; set_solver.
  - intros [rv s'] w1 (Hwf1 & Hs' & Hrv). simpl in *.
    destruct (wf_held_v _ _ _ Hwf1 Hx Hv) as [vc Hvc].
    apply wp_bind. eapply wp_get_v; [done|]. destruct (vc_rx_list vc) as [|m l] eqn:Hrx.
    + apply wp_ret. destruct (vc_otherend_closed vc) eqn:Hcl.
      { by eapply HQ3. }
      assert (Hc : (if rv =? - ERESTARTSYS then - EINTR else if rv =? 0 then - ETIMEDOUT else - EAGAIN)
        ∈ [- EINTR; - ETIMEDOUT; - EAGAIN]).
      { destruct (_ =? _); [by left|]. destruct (_ =? _); [by right; left|by right; right; left]. }
      set (code := if rv =? - ERESTARTSYS then _ else _) in *. clearbody code.
      eapply HQ3; [done|done|done| | |done]; rewrite ?Hcl.
      * repeat (apply elem_of_cons in Hc as [->|Hc]; [done|]). by apply elem_of_nil in Hc.
      * split; [done|]. intros ->. repeat (apply elem_of_cons in Hc as [?|Hc]; [done|]).
        by apply elem_of_nil in Hc.
    + destruct (Z.leb_spec (m_sizebytes m) (u64 rsize)); [|by apply wp_ret; eapply HQ2].
      apply wp_bind. eapply wp_upd_v; [done|]. apply wp_ret. eapply HQ1; try done.
      eapply wf_frame; [eapply (frame_vchan v vc); [done|]|done].
      assert (Hv' : vchans_of h w1 !! v = Some vc) by (by rewrite vchans_of_None).
      destruct (wf_v _ _ Hwf1 v vc Hv') as (_ & _ & _ & _ & _ & _ & _ & _ & _ & Hm).
      unfold v_view. simpl. rewrite Hrx in Hm |- *. simpl in Hm. apply andb_true_iff in Hm as [Hm1 Hm2].
      simpl. by rewrite Hm1, Hm2.
Qed.


(** What the delivery of a message leaves alone. *)
Definition only_vchans w w' : Prop :=
  w_pchans w' = w_pchans w /\ w_ctxs w' = w_ctxs w /\ w_exps w' = w_exps w /\ w_imps w' = w_imps w /\ w_devs w' = w_devs w /\
  w_alloc w' = tail (w_alloc w).

(** The message in one chunk that the bytes of a read make. *)
Definition read_msg (pc : physical_channel) (n r : Z) (bs : bytes) : hab_message :=
  Build_hab_message (u64 r) false (pc_sequence_rx pc) [fill_buf n bs].

Lemma hab_msg_alloc_eq w p pc hs hs' n r bs :
  w_pchans w !! p = Some pc -> w_hyp w !! p = Some hs -> n <= HAB_HEADER_SIZE_MAX ->
  (forall l, w_alloc w <> false :: l) -> phys_read pc hs n = (r, bs, hs') ->
  exists w', hab_msg_alloc p n w = Ok (Some (read_msg pc n r bs), w') /\ w_vchans w' = w_vchans w /\
    w_hyp w' = <[p := hs']> (w_hyp w) /\ w_log w' = w_log w /\ only_vchans w w'.
Proof.
  intros Hp Hh Hn Hal Hrd. unfold hab_msg_alloc, bind, kalloc, physical_channel_read, get_p, ret.
  rewrite (proj2 (Z.ltb_ge _ _)) by done. cbn [orb].
  destruct (w_alloc w) as [|[] l] eqn:Hl; [| |by destruct (Hal l)]; simpl;
    rewrite Hp, Hh, Hrd; simpl; rewrite Hp; eexists; (split; [reflexivity|]); repeat split; simpl; by rewrite ?Hl.
Qed.

Lemma hab_msg_queue_eq w v vc m :
  w_vchans w !! v = Some vc ->
  hab_msg_queue v m w = Ok (tt, set_w_log (w_log w ++ [EvWakeRx v])
    (set_w_vchans (<[v := set_vc_rx_list (vc_rx_list vc ++ [m]) vc]> (w_vchans w)) w)).
Proof. intros Hv. unfold hab_msg_queue, bind, upd_v, log, modify. by rewrite Hv. Qed.

(** The messages that only carry data. *)
Definition data_type (t : hab_payload_type) : Prop :=
  t = HAB_PAYLOAD_TYPE_MSG \/ t = HAB_PAYLOAD_TYPE_SCHE_RESULT_REQ \/ t = HAB_PAYLOAD_TYPE_SCHE_RESULT_RSP.

Lemma recv_on_vchan_data w p pc v vc hs hs' n r bs t :
  w_pchans w !! p = Some pc -> w_hyp w !! p = Some hs -> w_vchans w !! v = Some vc -> data_type t ->
  n <= HAB_HEADER_SIZE_MAX -> (forall l, w_alloc w <> false :: l) -> phys_read pc hs n = (r, bs, hs') ->
  exists w', recv_on_vchan p v n (Some t) w = Ok (0, w') /\
    w_vchans w' = <[v := set_vc_rx_list (vc_rx_list vc ++ [read_msg pc n r bs]) vc]> (w_vchans w) /\
    w_hyp w' = <[p := hs']> (w_hyp w) /\ w_log w' = w_log w ++ [EvWakeRx v] /\ only_vchans w w'.
Proof.
  intros Hp Hh Hv Ht Hn Hal Hrd. destruct (hab_msg_alloc_eq w p pc hs hs' n r bs Hp Hh Hn Hal Hrd)
    as (w2 & He & E1 & E2 & E3 & E4).
  assert (Hq : (do! hab_msg_queue v (read_msg pc n r bs) in ret 0) w2 = Ok (0, set_w_log (w_log w2 ++ [EvWakeRx v])
    (set_w_vchans (<[v := set_vc_rx_list (vc_rx_list vc ++ [read_msg pc n r bs]) vc]> (w_vchans w2)) w2))).
  { unfold bind at 1. by rewrite (hab_msg_queue_eq w2 v vc) by congruence. }
  eexists. split.
  - unfold recv_on_vchan. unfold bind at 1, get_v at 1. rewrite Hv.
    destruct Ht as [->|[->| ->]]; unfold bind at 1; rewrite He; exact Hq.
  - simpl. rewrite E1, E2, E3. split_and!; try done; apply E4.
Qed.

Lemma recv_data_eq w p v pc vc hs hs' hd t r bs :
  w_pchans w !! p = Some pc -> w_hyp w !! p = Some hs ->
  pc_vchan_idr pc !! HAB_VCID_GET_ID (HAB_HEADER_GET_ID hd) = Some v ->
  w_vchans w !! v = Some vc -> receives vc hd = true -> 1 <= vc_refcount vc ->
  HAB_HEADER_GET_TYPE hd = payload_code t -> data_type t ->
  payload_size hd <= HAB_HEADER_SIZE_MAX -> (forall l, w_alloc w <> false :: l) ->
  phys_read pc hs (payload_size hd) = (r, bs, hs') ->
  exists w', hab_msg_recv p hd w = Ok (0, w') /\
    w_vchans w' = <[v := set_vc_rx_list (vc_rx_list vc ++ [read_msg pc (payload_size hd) r bs]) vc]> (w_vchans w) /\
    w_hyp w' = <[p := hs']> (w_hyp w) /\ w_log w' = w_log w ++ [EvWakeRx v] /\ only_vchans w w'.
Proof.
  intros Hp Hh Hi Hv Hrec Href Ht Hm Hn Hal Hrd. unfold hab_msg_recv. cbv zeta.
  change (HAB_HEADER_GET_SIZE hd) with (payload_size hd). rewrite Ht.
  assert (is_open_type (payload_code t) = false) as -> by (by destruct Hm as [->|[->| ->]]).
  unfold bind at 1. rewrite (hab_vchan_get_eq p hd w pc Hp).
  2: { intros v' Hv'. assert (v' = v) as -> by congruence. by eexists. }
  rewrite Hi, Hv, Hrec. set (vc1 := set_vc_refcount _ _). set (w1 := set_w_vchans _ w).
  assert (Hv1 : w_vchans w1 !! v = Some vc1) by apply lookup_insert_eq.
  unfold bind at 1, get_v at 1. rewrite Hv1.
  assert (vc_otherend_closed vc1 = false) as ->.
  { unfold receives in Hrec. simpl. destruct (vc_otherend_closed vc); [|done].
    by rewrite andb_false_r, ?andb_false_l in Hrec. }
  rewrite payload_of_code_code.
  destruct (recv_on_vchan_data w1 p pc v vc1 hs hs' (payload_size hd) r bs t) as (w2 & He & F1 & F2 & F3 & F4); try done.
  unfold bind at 1. rewrite He. unfold bind at 1, hab_vchan_put, bind, get_v, upd_v, when.
  rewrite F1, lookup_insert_eq. simpl.
  destruct (Z.leb_spec (vc_refcount vc + 1) 0); [lia|]. rewrite F1, lookup_insert_eq.
  destruct (Z.eqb_spec (vc_refcount vc + 1) 1); [lia|]. eexists. split; [done|]. simpl.
  split_and!; try done; try apply F4. rewrite ?insert_insert_eq. f_equal. unfold vc1. destruct vc. simpl.
  unfold set_vc_refcount, set_vc_rx_list. simpl. f_equal. lia.
Qed.

(** C2: a data message for an open virtual channel is read once from the
    transport and appended, whole, to that channel's receive queue, whose waiters
    are woken; nothing else changes. *)
Theorem hab_msg_recv_delivers (w : world HS) (p v : nat) (pc : physical_channel)
    (vc : virtual_channel) (hs hs' : HS) (hd : hab_header) (t : hab_payload_type) (r : Z) (bs : bytes) :
  w_pchans w !! p = Some pc -> w_hyp w !! p = Some hs ->
  pc_vchan_idr pc !! HAB_VCID_GET_ID (HAB_HEADER_GET_ID hd) = Some v ->
  w_vchans w !! v = Some vc -> receives vc hd = true -> 1 <= vc_refcount vc ->
  HAB_HEADER_GET_TYPE hd = payload_code t ->
  t = HAB_PAYLOAD_TYPE_MSG \/ t = HAB_PAYLOAD_TYPE_SCHE_RESULT_REQ \/ t = HAB_PAYLOAD_TYPE_SCHE_RESULT_RSP ->
  payload_size hd <= HAB_HEADER_SIZE_MAX -> (forall l, w_alloc w <> false :: l) ->
  phys_read pc hs (payload_size hd) = (r, bs, hs') ->
  exists w', hab_msg_recv p hd w = Ok (0, w') /\
    w_vchans w' = <[v := set_vc_rx_list (vc_rx_list vc ++
      [Build_hab_message (u64 r) false (pc_sequence_rx pc) [fill_buf (payload_size hd) bs]]) vc]> (w_vchans w) /\
    w_hyp w' = <[p := hs']> (w_hyp w) /\ w_log w' = w_log w ++ [EvWakeRx v] /\
    w_pchans w' = w_pchans w /\ w_ctxs w' = w_ctxs w /\ w_exps w' = w_exps w /\
    w_imps w' = w_imps w /\ w_devs w' = w_devs w.
Proof.
  intros. destruct (recv_data_eq w p v pc vc hs hs' hd t r bs) as (w' & ? & ? & ? & ? & ? & ? & ? & ? & ? & _); try done.
  exists w'. by split_and!.
Qed.

Lemma dequeue_eq (w : world HS) (v : nat) (vc : virtual_channel) (m : hab_message)
    (l : list hab_message) (rsize timeout flags : Z) (s : list (wake HS)) :
  w_vchans w !! v = Some vc -> vc_rx_list vc = m :: l ->
  hab_msg_dequeue v rsize timeout flags s w =
    if m_sizebytes m <=? u64 rsize
    then Ok ((0, Some m, i32 (m_sizebytes m), s),
             set_w_vchans (<[v := set_vc_rx_list l vc]> (w_vchans w)) w)
    else Ok ((- EOVERFLOW, None, i32 (m_sizebytes m), s), w).
Proof.
  intros Hv Hl. unfold hab_msg_dequeue, hab_rx_queue_empty, bind, get_v, ret, upd_v. rewrite Hv, Hl.
  rewrite andb_false_r, Hv, Hl. destruct (m_sizebytes m <=? u64 rsize); [|done]. by rewrite Hv.
Qed.

(** C3: the receive queue is a FIFO with a size test: its oldest message is taken
    when it fits, and is kept, with its size reported, when it does not. *)
Theorem hab_msg_dequeue_fifo (w : world HS) (v : nat) (vc : virtual_channel) (m : hab_message)
    (l : list hab_message) (rsize timeout flags : Z) (s : list (wake HS)) :
  w_vchans w !! v = Some vc -> vc_rx_list vc = m :: l ->
  hab_msg_dequeue v rsize timeout flags s w =
    if m_sizebytes m <=? u64 rsize
    then Ok ((0, Some m, i32 (m_sizebytes m), s),
             set_w_vchans (<[v := set_vc_rx_list l vc]> (w_vchans w)) w)
    else Ok ((- EOVERFLOW, None, i32 (m_sizebytes m), s), w).
Proof. exact (dequeue_eq w v vc m l rsize timeout flags s). Qed.
End lemmas.

(** A message of the loopback device that is being delivered. *)
Definition delivering (hd : hab_header) (bs : bytes) : loopback_dev :=
  Build_loopback_dev [] 0 (Some (Build_loopback_msg (zlen bs) hd bs)) [] (100, 0) false false.

(** The loopback device with nothing in it. *)
Definition quiet_lb : loopback_dev := delivering HAB_HEADER_INITIALIZER [].


Lemma hab_msg_recv_delivers_witness :
  exists w', hab_msg_recv 0 (mk_header 3 HAB_PAYLOAD_TYPE_MSG 1 7)
    (sample (delivering (mk_header 3 HAB_PAYLOAD_TYPE_MSG 1 7) [9; 8; 7])) = Ok (0, w') /\
  (vc_rx_list <$> w_vchans w' !! 2%nat) = Some [Build_hab_message 3 false 0 [[9; 8; 7]]].
Proof.
  destruct (hab_msg_recv_delivers
    (sample (delivering (mk_header 3 HAB_PAYLOAD_TYPE_MSG 1 7) [9; 8; 7])) 0 2
    sample_pchan (sample_vchan 1 2) (delivering (mk_header 3 HAB_PAYLOAD_TYPE_MSG 1 7) [9; 8; 7])
    (delivering (mk_header 3 HAB_PAYLOAD_TYPE_MSG 1 7) [9; 8; 7])
    (mk_header 3 HAB_PAYLOAD_TYPE_MSG 1 7) HAB_PAYLOAD_TYPE_MSG 3 [9; 8; 7])
    as (w' & He & Hv & _); try reflexivity; try done; [by left|].
  exists w'. split; [exact He|]. rewrite Hv. reflexivity.
Defined.

(** A queue of one message of 4 bytes, taken with room for 4 bytes and for 3. *)
Lemma hab_msg_dequeue_fifo_witness :
  let m := Build_hab_message 4 false 0 [[1; 2; 3; 4]] in
  let w := set_w_vchans {[2%nat := set_vc_rx_list [m] (sample_vchan 1 2)]} (sample (delivering HAB_HEADER_INITIALIZER [])) in
  hab_msg_dequeue 2 4 0 0 [] w =
    Ok ((0, Some m, 4, []), set_w_vchans {[2%nat := sample_vchan 1 2]} w) /\
  hab_msg_dequeue 2 3 0 0 [] w = Ok ((- EOVERFLOW, None, 4, []), w).
Proof.
  intros m w. split.
  - rewrite (hab_msg_dequeue_fifo w 2 (set_vc_rx_list [m] (sample_vchan 1 2)) m [] 4 0 0 [] eq_refl eq_refl).
    reflexivity.
  - exact (hab_msg_dequeue_fifo w 2 (set_vc_rx_list [m] (sample_vchan 1 2)) m [] 3 0 0 [] eq_refl eq_refl).
Defined.
