(* ===== verification/Mimex.v ===== *)
(** Memory export and import (hab_mimex.c, and the granting half of
    os/linux/hab_mem_linux.c): a buffer is published under an export id and
    offered to the other side, or asked for by it; an import is claimed, mapped and
    given back.  What the reference counts of exports need is in Exports.v, what
    arrives from the other side is in Msg.v. *)
From Stdlib Require Import ZifyBool.
From S2P Require Import Prelude Header World Logic Memory Invariant Pchan Exports Context Vchan Wait Open Loopback Sample Msg.

(* src/hab.h:48-48 Q_AGE_THRESHOLD *)
Definition Q_AGE_THRESHOLD : Z := 1000000.

(** The first match leaves the queue; the entries before it age, and the old ones
    are dropped. *)
(* src/hab_mimex.c:17-32 hab_import_ack_find *)
Fixpoint ack_scan {A} (matches old : A -> bool) (older : A -> A) (l : list A) : option A * list A :=
  match l with
  | [] => (None, [])
  | x :: l =>
      if matches x then (Some x, l)
      else
        let '(o, l) := ack_scan matches old older l in
        (o, if old (older x) then l else older x :: l)
  end.

Definition import_ack_same (a e : hab_import_ack) : bool :=
  (ia_export_id a =? ia_export_id e) && (ia_vcid_local a =? ia_vcid_local e) &&
  (ia_vcid_remote a =? ia_vcid_remote e).

Definition export_ack_same (a e : hab_export_ack) : bool :=
  (ea_export_id a =? ea_export_id e) && (ea_vcid_local a =? ea_vcid_local e) &&
  (ea_vcid_remote a =? ea_vcid_remote e).

(** [idr_alloc_cyclic] from 1: after the last id given out, then from the start. *)
(* src/hab_mimex.c:148-149 habmem_add_export *)
Definition idr_alloc_cyclic `{KernelIdr} (m : gmap Z nat) (next : Z) : option Z :=
  match idr_pick m (Z.max 1 next) (2 ^ 31) with
  | Some i => Some i
  | None => if 1 <? next then idr_pick m 1 (2 ^ 31) else None
  end.

(** The sizes of the structures in the kernel's layout; the payload of an export
    starts [sizeof_exp_super - 8] bytes into its object. *)
Definition sizeof_exp_super : Z := 160.

Section ops.
Context {HS : Type} `{Platform HS} `{KernelIdr}.
#[local] Abbreviation M := (World.M HS).
#[local] Abbreviation sched := (list (wake HS)).

(** ** Waiting for the other side *)

(* src/hab_mimex.c:9-42 hab_import_ack_find *)
Definition hab_import_ack_find (c v : nat) (expect : hab_import_ack) (scan : Z) : M (bool * Z) :=
  let! cx := get_c c in
  let '(o, l) := ack_scan (fun a => import_ack_same (iar_ack a) expect)
    (fun a => Q_AGE_THRESHOLD <? iar_age a) (fun a => set_iar_age (i32 (iar_age a + 1)) a) (cx_imp_rxq cx) in
  do! upd_c c (set_cx_imp_rxq l) in
  match o with
  | Some a => ret (true, ia_imp_whse_added (iar_ack a))
  | None => let! vc := get_v v in ret (vc_otherend_closed vc, scan)
  end.

(** What either wait makes of the result of the macro. *)
(* src/hab_mimex.c:53-60 hab_import_ack_wait *)
Definition ack_code (r : Z) (otherend_closed : bool) : Z :=
  if (r =? 0) || (r =? - ERESTARTSYS) then - EAGAIN
  else if otherend_closed then - ENODEV
  else if 0 <? r then 0 else r.

(* src/hab_mimex.c:44-61 hab_import_ack_wait *)
Definition hab_import_ack_wait (c v : nat) (import_ack : hab_import_ack) (s : sched) : M (Z * Z * sched) :=
  let! r := wait_event true true (hab_import_ack_find c v import_ack) 0 s in
  let '(r, scan, s) := r in
  let! vc := get_v v in
  ret (ack_code (wait_ret true r) (vc_otherend_closed vc), scan, s).

(** When the other end is closed any entry is taken. *)
(* src/hab_mimex.c:77-105 hab_export_ack_find *)
Definition hab_export_ack_find (c v : nat) (expect : hab_export_ack) : M bool :=
  let! cx := get_c c in
  let! vc := get_v v in
  let '(o, l) := ack_scan (fun a => export_ack_same (ear_ack a) expect || vc_otherend_closed vc)
    (fun a => Q_AGE_THRESHOLD <? ear_age a) (fun a => set_ear_age (i32 (ear_age a + 1)) a) (cx_exp_rxq cx) in
  do! upd_c c (set_cx_exp_rxq l) in
  ret (match o with Some _ => true | None => false end).

(* src/hab_mimex.c:107-124 hab_export_ack_wait *)
Definition hab_export_ack_wait (c v : nat) (expect : hab_export_ack) (s : sched) : M (Z * sched) :=
  let! r := wait_event true true
    (fun a : unit => let! b := hab_export_ack_find c v expect in ret (b, a)) tt s in
  let '(r, _, s) := r in
  let! vc := get_v v in
  ret (ack_code (wait_ret true r) (vc_otherend_closed vc), s).

(** ** Exporting *)

(** The new object has no platform data and no reference yet; a failed id
    allocation goes unnoticed and leaves the error as the id. *)
(* src/hab_mimex.c:131-172 habmem_add_export *)
Definition habmem_add_export (v : nat) (sizebytes flags : Z) : M (option nat) :=
  if sizebytes =? 0 then ret None
  else
    let! a := kalloc in
    match a with
    | None => ret None
    | Some e =>
        let! vc := get_v v in
        let p := vc_pchan vc in
        let! pc := get_p p in
        let id := idr_alloc_cyclic (pc_expid_idr pc) (pc_expid_next pc) in
        do! (match id with
             | Some i => upd_p p (fun pc =>
                 set_pc_expid_next (i + 1) (set_pc_expid_idr (<[i := e]> (pc_expid_idr pc)) pc))
             | None => ret tt
             end) in
        let new := pc_mem_proto pc =? 1 in
        let payload := repeat 0 (Z.to_nat (sizebytes - (sizeof_exp_super - 8))) in
        do! modify (fun w => set_w_exps (<[e :=
          Build_export_desc_super 0 false 0 0 EXP_DESC_INIT HAB_EXP_EXPORTING 0
            (Build_export_desc (match id with Some i => i | None => u32 (- ENOSPC) end)
               (i32 flags) 0 (if new then Some v else None) (if new then vc_ctx vc else None)
               (if new then Some p else None) (vc_id vc) (vc_otherend_id vc)
               (pc_vmid_local pc) (pc_vmid_remote pc) 0 0 0 payload)]> (w_exps w)) w) in
        ret (Some e)
    end.

(** The code, the payload size and the export id, once the object exists.  The error
    paths lock through [export->pchan]: [export] is not set yet when the platform
    data cannot be had, and its channel is not set in the old protocol. *)
(* src/os/linux/hab_mem_linux.c:459-512 habmem_add_export_compress *)
Definition fill_export (v e : nat) (off n : Z) (buf : dma_buf) : M (Z * Z * Z) :=
  let! a := kalloc in
  match a with
  | None => fail NullDeref
  | Some _ =>
      do! upd_e e (fun ex => set_es_refcount 1 (set_es_platform_data true (set_es_offset (u64 off)
        (set_es_exp (set_ed_payload_count n (es_exp ex)) ex)))) in
      let! t := lift (habmem_compress_pfns buf off n) in
      let! ex := get_e e in
      match t with
      | None =>
          let! p := deref (ed_pchan (es_exp ex)) in
          let! vc := get_v v in
          do! expid_remove (vc_pchan vc) (ed_export_id (es_exp ex)) in
          do! modify (fun w => set_w_exps (delete e (w_exps w)) w) in
          ret (- EBADF, 0, 0)
      | Some t =>
          match mem_write (ed_payload (es_exp ex)) 0 (pfns_enc t) with
          | None => fail OutOfBounds
          | Some payload =>
              do! upd_e e (fun ex => set_es_exp (set_ed_payload payload (es_exp ex)) ex) in
              ret (0, pfns_data_size t, ed_export_id (es_exp ex))
          end
      end
  end.

(* src/os/linux/hab_mem_linux.c:444-512 habmem_add_export_compress *)
Definition habmem_add_export_compress (v : nat) (offset page_count : Z) (buf : dma_buf) (flags : Z) :
    M (Z * Z * Z) :=
  let sizebytes := u32 (sizeof_exp_super + sizeof_compressed_pfns + page_count * sizeof_region) in
  let! o := habmem_add_export v (i32 sizebytes) flags in
  match o with
  | None => ret (- ENOMEM, 0, 0)
  | Some e => fill_export v e offset page_count buf
  end.

(** The pages that could be pinned are taken for all of them. *)
(* src/os/linux/hab_mem_linux.c:259-317 habmem_get_dma_buf_from_uva *)
Definition habmem_get_dma_buf_from_uva (address page_count : Z) : M (option dma_buf) :=
  let! a := kalloc in
  let! b := (match a with None => ret None | Some _ => kalloc end) in
  match b with
  | None => ret None
  | Some _ =>
      match get_user_pages address page_count with
      | [] => ret None
      | pages => ret (match dma_buf_export pages with Some _ => Some (DmaPages pages) | None => None end)
      end
  end.

(* src/os/linux/hab_mem_linux.c:208-215 match_file *)
Definition match_file (p file : nat) (fd : Z) : Z := if (p =? file)%nat then fd + 1 else 0.

(** The dma-buf that is mapped at an address, and the offset into it; [None] is any of
    the errors. *)
(* src/os/linux/hab_mem_linux.c:217-255 habmem_get_dma_buf_from_va *)
Definition habmem_get_dma_buf_from_va (address : Z) : option (dma_buf * Z) :=
  match find_vma address with
  | Some (vm_start, Some vm_file) =>
      let fd := iterate_fd (match_file vm_file) in
      if fd =? 0 then None
      else match dma_buf_get (fd - 1) with Some b => Some (b, u64 (address - vm_start)) | None => None end
  | _ => None
  end.

(* src/os/linux/hab_mem_linux.c:520-556 habmem_hyp_grant_user *)
Definition habmem_hyp_grant_user (v : nat) (address page_count flags : Z) : M (Z * Z * Z) :=
  let! o :=
    (if flag flags HABMM_EXP_MEM_TYPE_DMA then ret (habmem_get_dma_buf_from_va address)
     else if flag flags HABMM_EXPIMP_FLAGS_FD then
       ret (match dma_buf_get (i32 address) with Some b => Some (b, 0) | None => None end)
     else
       let! b := habmem_get_dma_buf_from_uva address page_count in
       ret (match b with Some b => Some (b, 0) | None => None end)) in
  match o with
  | None => ret (- EINVAL, 0, 0)
  | Some (buf, off) => habmem_add_export_compress v off page_count buf flags
  end.

(** The pages of a kernel address range. *)
(* src/os/linux/hab_mem_linux.c:585-619 habmem_hyp_grant *)
Definition dma_buf_from_kva (address page_count : Z) : M (Z * option dma_buf) :=
  let! a := kalloc in
  let! b := (match a with None => ret None | Some _ => kalloc end) in
  match b with
  | None => ret (- ENOMEM, None)
  | Some _ =>
      let pages := (fun i => kernel_page (u64 (address + i * PAGE_SIZE))) <$> seqZ 0 page_count in
      ret (- EINVAL, match dma_buf_export pages with Some _ => Some (DmaPages pages) | None => None end)
  end.

(* src/os/linux/hab_mem_linux.c:563-641 habmem_hyp_grant *)
Definition habmem_hyp_grant (v : nat) (address page_count flags : Z) : M (Z * Z * Z) :=
  let! o :=
    (if flag flags HABMM_EXPIMP_FLAGS_DMABUF then ret (- EINVAL, dmabuf_at address)
     else if flag flags HABMM_EXPIMP_FLAGS_FD then ret (- EINVAL, dma_buf_get (i32 address))
     else dma_buf_from_kva address page_count) in
  match o with
  | (r, None) => ret (r, 0, 0)
  | (_, Some buf) => habmem_add_export_compress v 0 page_count buf flags
  end.

(** [uninit] is what the result variable holds before it is set. *)
(* src/hab_mimex.c:222-291 habmem_export_vchan *)
Definition habmem_export_vchan (c v : nat) (payload_size export_id uninit : Z) (s : sched) : M (Z * sched) :=
  let sizebytes := u32 (sizeof_export_desc + payload_size) in
  if HAB_HEADER_SIZE_MAX <? sizebytes then ret (- EINVAL, s)
  else
    let! vc := get_v v in
    let! pc := get_p (vc_pchan vc) in
    match pc_expid_idr pc !! export_id with
    | None => ret (- EINVAL, s)
    | Some e =>
        let! r :=
          (if pc_mem_proto pc =? 0 then
             let! ex := get_e e in
             match mem_read (export_desc_enc (node_words e) (es_exp ex)) 0 sizebytes with
             | None => fail OutOfBounds
             | Some bs =>
                 let! r := physical_channel_send (vc_pchan vc)
                   (mk_header sizebytes HAB_PAYLOAD_TYPE_EXPORT (vc_otherend_id vc) (vc_session_id vc)) bs in
                 if negb (r =? 0) then ret (inl r, s)
                 else
                   let! w := hab_export_ack_wait c v (Build_hab_export_ack (ed_export_id (es_exp ex))
                     (ed_vcid_local (es_exp ex)) (ed_vcid_remote (es_exp ex))) s in
                   if negb (w.1 =? 0) then ret (inl (w.1), w.2)
                   else do! upd_e e (set_ed_owner (Some v) (Some c) (Some (vc_pchan vc))) in ret (inr 0, w.2)
             end
           else ret (inr uninit, s)) in
        match r with
        | (inl r, s) => ret (r, s)
        | (inr r, s) =>
            do! upd_c c (fun cx => set_cx_export_total (u32 (cx_export_total cx + 1))
              (set_cx_exp_whse (cx_exp_whse cx ++ [e]) cx)) in
            do! upd_e e (set_es_exp_state HAB_EXP_SUCCESS) in
            ret (r, s)
        end
    end.

(** The code, and the export id when it is written. *)
(* src/hab_mimex.c:303-364 hab_mem_export *)
Definition hab_mem_export (c : nat) (kernel : bool) (buffer vcid sizebytes flags uninit : Z) (s : sched) :
    M (Z * option Z * sched) :=
  if (sizebytes =? 0) || negb (sizebytes mod PAGE_SIZE =? 0) ||
     ((buffer =? 0) && negb (flag flags HABMM_EXPIMP_FLAGS_FD))
  then ret (- EINVAL, None, s)
  else
    let! o := hab_get_vchan_fromvcid vcid c false in
    match o with
    | None => ret (- ENODEV, Some 0, s)
    | Some v =>
        let page_count := i32 (sizebytes / PAGE_SIZE) in
        let! g := (if kernel then habmem_hyp_grant v buffer page_count flags
                   else habmem_hyp_grant_user v buffer page_count flags) in
        let '(r, payload_size, export_id) := g in
        if r <? 0 then do! hab_vchan_put v in ret (r, Some 0, s)
        else
          let! x := habmem_export_vchan c v payload_size export_id uninit s in
          do! hab_vchan_put v in
          ret (x.1, Some export_id, x.2)
    end.

(* src/hab_mimex.c:366-426 hab_mem_unexport *)
Definition hab_mem_unexport (c : nat) (vcid exportid : Z) : M Z :=
  let! o := hab_get_vchan_fromvcid vcid c true in
  match o with
  | None => ret (- ENODEV)
  | Some v =>
      let! vc := get_v v in
      let! pc := get_p (vc_pchan vc) in
      match pc_expid_idr pc !! exportid with
      | None => do! hab_vchan_put v in ret (- EINVAL)
      | Some e =>
          let! ex := get_e e in
          if bool_decide (es_exp_state ex = HAB_EXP_SUCCESS) && bool_decide (ed_ctx (es_exp ex) = Some c) &&
             (es_remote_imported ex =? 0)
          then
            do! expid_remove (vc_pchan vc) exportid in
            do! upd_c c (fun cx => set_cx_exp_whse (list_del e (cx_exp_whse cx)) cx) in
            let r := habmem_hyp_revoke (ed_payload (es_exp ex)) (ed_payload_count (es_exp ex)) in
            do! (if negb (r =? 0) then ret tt else habmem_remove_export e) in
            do! hab_vchan_put v in
            ret r
          else
            do! hab_vchan_put v in
            ret (if es_remote_imported ex =? 0 then - EINVAL else - EBUSY)
      end
  end.

(** ** Importing *)

(** The new protocol asks the other side for the descriptor first. *)
(* src/hab_mimex.c:457-489 hab_mem_import *)
Definition import_request (c v : nat) (exportid sizebytes : Z) (s : sched) : M (Z * sched) :=
  let! vc := get_v v in
  let! pc := get_p (vc_pchan vc) in
  if pc_mem_proto pc =? 1 then
    let! r := physical_channel_send (vc_pchan vc)
      (mk_header sizeof_hab_import_data HAB_PAYLOAD_TYPE_IMPORT (vc_otherend_id vc) (vc_session_id vc))
      (import_data_enc (Build_hab_import_data exportid (Z.shiftr sizebytes PAGE_SHIFT) 0)) in
    if negb (r =? 0) then ret (r, s)
    else
      let! x := hab_import_ack_wait c v (Build_hab_import_ack exportid (vc_id vc) (vc_otherend_id vc) 0) s in
      let '(r, scan, s) := x in
      if negb (r =? 0) then ret (r, s)
      else if scan =? 0 then ret (- EINVAL, s)
      else ret (0, s)
  else ret (0, s).

(** One thread at a time may import a descriptor: whoever finds it in its first
    state.  [inr] is the node claimed. *)
(* src/hab_mimex.c:491-524 hab_mem_import *)
Definition import_claim (c p : nat) (exportid : Z) : M (Z + nat) :=
  let! cx := get_c c in
  match cx_imp_whse cx !! (exportid, p) with
  | None => ret (inl (- ENODEV))
  | Some e =>
      let! ex := get_i e in
      if negb (bool_decide (es_import_state ex = EXP_DESC_INIT)) then ret (inl (- EINVAL))
      else do! upd_i e (set_es_import_state EXP_DESC_IMPORTING) in ret (inr e)
  end.

(** The claimed node is mapped, or back in its first state. *)
(* src/hab_mimex.c:526-548 hab_mem_import *)
Definition import_map (e : nat) (kernel : bool) (index sizebytes flags : Z) : M (Z * option Z) :=
  let! ex := get_i e in
  if negb (u32 (i32 (Z.shiftl (ed_payload_count (es_exp ex)) PAGE_SHIFT)) =? sizebytes) then
    do! upd_i e (set_es_import_state EXP_DESC_INIT) in ret (- EINVAL, None)
  else
    let! m := habmem_imp_hyp_map (es_exp ex) flags kernel in
    if negb (m.1 =? 0) then
      do! upd_i e (set_es_import_state EXP_DESC_INIT) in ret m
    else
      do! upd_i e (fun ex => set_es_import_state EXP_DESC_IMPORTED
        (set_es_exp (set_ed_import_index index
          (set_ed_kva (if kernel then default 0 (m.2) else 0) (es_exp ex))) ex)) in
      ret m.

(** The node leaves the tree and is freed. *)
(* src/hab_mimex.c:622-626 hab_mem_unimport *)
Definition import_drop (c e : nat) : M unit :=
  let! ex := get_i e in
  do! upd_c c (fun cx => set_cx_import_total (u32 (cx_import_total cx - 1))
    (set_cx_imp_whse (delete (imp_key ex) (cx_imp_whse cx)) cx)) in
  modify (fun w => set_w_imps (delete e (w_imps w)) w).

(** The code, and what [param->kva] is set to. *)
(* src/hab_mimex.c:428-566 hab_mem_import *)
Definition hab_mem_import (c : nat) (kernel : bool) (index vcid sizebytes exportid flags : Z) (s : sched) :
    M (Z * option Z * sched) :=
  if negb (sizebytes mod PAGE_SIZE =? 0) then ret (- EINVAL, None, s)
  else
    let! o := hab_get_vchan_fromvcid vcid c false in
    match o with
    | None => ret (- ENODEV, None, s)
    | Some v =>
        let! r := import_request c v exportid sizebytes s in
        let '(r, s) := r in
        if negb (r =? 0) then do! hab_vchan_put v in ret (r, None, s)
        else
          let! vc := get_v v in
          let! cl := import_claim c (vc_pchan vc) exportid in
          match cl with
          | inl r => do! hab_vchan_put v in ret (r, None, s)
          | inr e =>
              let! m := import_map e kernel index sizebytes flags in
              let! pc := get_p (vc_pchan vc) in
              let! ex := get_i e in
              do! when ((pc_mem_proto pc =? 1) && negb (m.1 =? 0))
                (do! hab_send_unimport_msg v (ed_export_id (es_exp ex)) in import_drop c e) in
              do! hab_vchan_put v in
              ret (m.1, m.2, s)
          end
    end.

(** Only a mapped node can be given back, and by one thread. *)
(* src/hab_mimex.c:586-605 hab_mem_unimport *)
Definition unimport_claim (c p : nat) (exportid : Z) : M (option nat) :=
  let! cx := get_c c in
  match cx_imp_whse cx !! (exportid, p) with
  | None => ret None
  | Some e =>
      let! ex := get_i e in
      if bool_decide (es_import_state ex = EXP_DESC_IMPORTED) then
        do! upd_i e (set_es_import_state EXP_DESC_UNIMPORTING) in ret (Some e)
      else ret None
  end.

(** The code, and what [param->kva] is set to. *)
(* src/hab_mimex.c:568-633 hab_mem_unimport *)
Definition hab_mem_unimport (c : nat) (kernel : bool) (vcid exportid : Z) : M (Z * option Z) :=
  let! o := hab_get_vchan_fromvcid vcid c true in
  match o with
  | None => ret (- ENODEV, None)
  | Some v =>
      let! vc := get_v v in
      let! cl := unimport_claim c (vc_pchan vc) exportid in
      match cl with
      | None => do! hab_vchan_put v in ret (- EINVAL, None)
      | Some e =>
          let! ex := get_i e in
          let r := habmm_imp_hyp_unmap (es_exp ex) kernel in
          if negb (r =? 0) then
            do! upd_i e (set_es_import_state EXP_DESC_IMPORTED) in
            do! hab_vchan_put v in ret (r, None)
          else
            let! pc := get_p (vc_pchan vc) in
            do! when (pc_mem_proto pc =? 1) (hab_send_unimport_msg v (ed_export_id (es_exp ex))) in
            do! import_drop c e in
            do! hab_vchan_put v in
            ret (0, Some (ed_kva (es_exp ex)))
      end
  end.
End ops.

(** ** The operations keep the driver well-formed *)

Section lemmas.
Context {HS : Type} `{Platform HS} `{KernelIdr}.
Implicit Types (w : world HS) (h : held).
#[local] Abbreviation sched := (list (wake HS)).

Lemma hab_import_ack_find_spec h c v e scan w :
  wf h w -> h_x h = None -> c ∈ h_c h -> v ∈ h_v h ->
  wp (hab_import_ack_find c v e scan) (fun _ w' => wf h w') w.
Proof.
  intros Hwf Hx Hc Hv. destruct (wf_held_c _ _ _ Hwf Hc) as [cx Hcx]. destruct (wf_held_v _ _ _ Hwf Hx Hv) as [vc Hvc].
  unfold hab_import_ack_find. apply wp_bind. eapply wp_get_c; [done|].
  destruct (ack_scan _ _ _ _) as [o l]. apply wp_bind. eapply wp_upd_c; [done|].
  assert (wf h (set_w_ctxs (<[c := set_cx_imp_rxq l cx]> (w_ctxs w)) w)).
  { eapply wf_frame; [by eapply frame_ctx|done]. }
  destruct o; [by apply wp_ret|]. apply wp_bind. by eapply wp_get_v.
Qed.

Lemma hab_export_ack_find_spec h c v e w :
  wf h w -> h_x h = None -> c ∈ h_c h -> v ∈ h_v h ->
  wp (hab_export_ack_find c v e) (fun _ w' => wf h w') w.
Proof.
  intros Hwf Hx Hc Hv. destruct (wf_held_c _ _ _ Hwf Hc) as [cx Hcx]. destruct (wf_held_v _ _ _ Hwf Hx Hv) as [vc Hvc].
  unfold hab_export_ack_find. apply wp_bind. eapply wp_get_c; [done|]. apply wp_bind. eapply wp_get_v; [done|].
  destruct (ack_scan _ _ _ _) as [o l]. apply wp_bind. eapply wp_upd_c; [done|]. apply wp_ret.
  eapply wf_frame; [by eapply frame_ctx|done].
Qed.

Lemma ack_code_range r closed :
  - 4095 <= r <= 1 -> - 4095 <= ack_code r closed <= 0.
Proof.
  intros ?. unfold ack_code, EAGAIN, ENODEV. destruct (_ || _); [lia|]. destruct closed; [lia|].
  destruct (Z.ltb_spec 0 r); lia.
Qed.

Lemma wait_ret_range timed r : - 4095 <= wait_ret timed r <= 1.
Proof. by destruct r, timed. Qed.

Lemma hab_import_ack_wait_spec h c v a s w :
  wf h w -> h_x h = None -> c ∈ h_c h -> v ∈ h_v h -> sched_ok s ->
  wp (hab_import_ack_wait c v a s) (fun r w' => wf h w' /\ sched_ok (r.2) /\ - 4095 <= r.1.1 <= 0) w.
Proof.
  intros Hwf Hx Hc Hv Hs. unfold hab_import_ack_wait. apply wp_bind.
  apply (wp_wait_event (fun _ w' => wf h w') (fun _ w' => wf h w')).
  - intros x w1 Hwf1. eapply wp_mono; [by eapply hab_import_ack_find_spec|]. intros [b y] w2 ?. by destruct b.
  - intros m x w1 Hm Hwf1. by apply Hm.
  - done.
  - done.
  - intros r x s' w1 Hr Hs' _ _. assert (Hwf1 : wf h w1) by (by destruct (decide _)).
    destruct (wf_held_v _ _ _ Hwf1 Hx Hv) as [vc Hvc]. apply wp_bind. eapply wp_get_v; [done|]. apply wp_ret.
    split; [done|]. split; [done|]. apply ack_code_range, wait_ret_range.
Qed.

Lemma hab_export_ack_wait_spec h c v a s w :
  wf h w -> h_x h = None -> c ∈ h_c h -> v ∈ h_v h -> sched_ok s ->
  wp (hab_export_ack_wait c v a s) (fun r w' => wf h w' /\ sched_ok (r.2) /\ - 4095 <= r.1 <= 0) w.
Proof.
  intros Hwf Hx Hc Hv Hs. unfold hab_export_ack_wait. apply wp_bind.
  apply (wp_wait_event (fun _ w' => wf h w') (fun _ w' => wf h w')).
  - intros x w1 Hwf1. apply wp_bind. eapply wp_mono; [by eapply hab_export_ack_find_spec|].
    intros b w2 ?. apply wp_ret. by destruct b.
  - intros m x w1 Hm Hwf1. by apply Hm.
  - done.
  - done.
  - intros r x s' w1 Hr Hs' _ _. assert (Hwf1 : wf h w1) by (by destruct (decide _)).
    destruct (wf_held_v _ _ _ Hwf1 Hx Hv) as [vc Hvc]. apply wp_bind. eapply wp_get_v; [done|]. apply wp_ret.
    split; [done|]. split; [done|]. apply ack_code_range, wait_ret_range.
Qed.

(** ** Granting *)

(** A buffer of the driver's own has the pages that are asked for. *)
Definition covers (buf : dma_buf) (page_count : Z) : Prop :=
  forall pages, buf = DmaPages pages -> page_count <= zlen pages.

Lemma pfns_enc_len t : zlen (pfns_enc t) = 12 + 8 * cp_nregions t.
Proof.
  unfold pfns_enc. rewrite !zlen_app, !le_enc_zlen. unfold cp_nregions.
  assert (zlen (concat ((fun r => le_enc 4 (r.1) ++ le_enc 4 (r.2)) <$> cp_region t)) = 8 * zlen (cp_region t)); [|lia].
  induction (cp_region t) as [|r l IH]; [done|]. cbn [fmap list_fmap concat].
  rewrite !zlen_app, !le_enc_zlen, IH. unfold zlen. simpl length. lia.
Qed.

Lemma idr_alloc_cyclic_Some m next i :
  idr_alloc_cyclic m next = Some i -> 1 <= i < 2 ^ 31 /\ m !! i = None.
Proof.
  unfold idr_alloc_cyclic. destruct (idr_pick m _ _) as [j|] eqn:Hj.
  - intros [= <-]. apply idr_pick_Some in Hj as [? ?]. split; [lia|done].
  - destruct (1 <? next); [|done]. intros Hi. by apply idr_pick_Some in Hi.
Qed.

(** The size of the object for [n] pages, and the payload bytes that it has. *)
Lemma export_size n : 1 <= n <= 2 ^ 20 ->
  i32 (u32 (sizeof_exp_super + sizeof_compressed_pfns + n * sizeof_region)) =
  sizeof_exp_super - 8 + (24 + 8 * n).
Proof.
  intros ?. unfold sizeof_exp_super, sizeof_compressed_pfns, sizeof_region.
  rewrite u32_id, i32_id; unfold is_u32, is_i32; lia.
Qed.

(** What a grant leaves: an error and nothing; or an export with its id and the size
    of its table; or, when there was no id, an object that nothing refers to. *)
Definition granted h (c v p : nat) w (r : Z * Z * Z) w' : Prop :=
  w_vchans w' = w_vchans w /\
  ((r.1.1 < 0 /\ wf h w') \/
   (r.1.1 = 0 /\ r.2 = u32 (- ENOSPC) /\ wf h w') \/
   (r.1.1 = 0 /\ exists e ex pc, wf (held_e e p h) w' /\ w_exps w' !! e = Some ex /\
     w_pchans w' !! p = Some pc /\ pc_expid_idr pc !! r.2 = Some e /\
     (pc_mem_proto pc = 1 -> ed_ctx (es_exp ex) = Some c /\ ed_pchan (es_exp ex) = Some p) /\
     0 <= r.1.2 /\ r.1.2 + 1 <= zlen (ed_payload (es_exp ex)))).

Lemma wf_new_object h w e ex :
  wf h w -> w_exps w !! e = None -> (e < w_next w)%nat ->
  (forall c, ed_ctx (es_exp ex) = Some c -> (c < w_next w)%nat) ->
  wf h (set_w_exps (<[e := ex]> (w_exps w)) w).
Proof.
  intros [Hv Hp Hc Hd Hdrv Hfr Hop Hli] He Hlt Hctx.
  assert (Hold : forall k kx, w_exps w !! k = Some kx -> <[e := ex]> (w_exps w) !! k = Some kx).
  { intros k kx Hk. rewrite lookup_insert_ne; [done|]. congruence. }
  constructor; simpl; try done.
  - intros p pc Hpc. destruct (Hp p pc Hpc) as (? & ? & ? & ? & ? & ? & Hx & ?). split_and!; try done.
    intros j k Hj. destruct (Hx j k Hj) as (kx & ? & ?). exists kx. split; [by apply Hold|done].
  - intros c cx Hcx. destruct (Hc c cx Hcx) as (? & ? & ? & ? & ? & Hw & ? & ?). split_and!; try done.
    intros k Hk. destruct (Hw k Hk) as (kx & ? & ?). exists kx. split; [by apply Hold|done].
  - destruct Hdrv as (? & ? & ? & ? & Hr & ? & ? & ? & ? & Hh & ?). split_and!; try done.
    + intros k Hk. destruct (Hr k Hk) as (kx & ? & ?). exists kx. split; [by apply Hold|done].
    + intros k q Hk. destruct (Hh k q Hk) as (kx & kc & ? & ?). exists kx, kc. split; [by apply Hold|done].
  - destruct Hfr as (F1 & F2 & F3 & F4 & F5). split_and!; try apply F2; try done.
    + intros a Ha. destruct (F1 a Ha) as (? & ? & ? & ? & ?). split_and!; try done. simpl.
      rewrite lookup_insert_ne; [done|]. simpl in Ha. lia.
    + by eapply (ctxs_below_insert w).
  - intros p pc j k Hpc Hj. destruct (Hli p pc j k Hpc Hj) as (? & ? & Hl). split; [done|]. split; [done|].
    intros kx a ax Hk. destruct (Hp p pc Hpc) as (_ & _ & _ & _ & _ & _ & Hx & _).
    destruct (Hx j k Hj) as (ky & Hky & _). rewrite (Hold _ _ Hky) in Hk. injection Hk as <-. by apply Hl.
Qed.

Lemma wp_lift {A} (r : res A) (Q : A -> world HS -> Prop) w :
  match r with Ok a => Q a w | Fault _ => False | Blocked => True end -> wp (lift r) Q w.
Proof. unfold wp, lift. by destruct r. Qed.

(** The object that [habmem_add_export_compress] fills in. *)
Definition new_export (v p : nat) (vc : virtual_channel) (pc : physical_channel) (id flags off n : Z)
    (payload : bytes) : export_desc_super :=
  let new := pc_mem_proto pc =? 1 in
  Build_export_desc_super 1 true (u64 off) 0 EXP_DESC_INIT HAB_EXP_EXPORTING 0
    (Build_export_desc id (i32 flags) 0 (if new then Some v else None) (if new then vc_ctx vc else None)
       (if new then Some p else None) (vc_id vc) (vc_otherend_id vc)
       (pc_vmid_local pc) (pc_vmid_remote pc) 0 0 n payload).

Lemma fill_export_spec v e vc off n buf ex w (Q : Z * Z * Z -> world HS -> Prop) :
  w_vchans w !! v = Some vc -> w_exps w !! e = Some ex -> is_Some (w_pchans w !! vc_pchan vc) ->
  1 <= n <= 2 ^ 20 -> covers buf n -> zlen (ed_payload (es_exp ex)) = 24 + 8 * n ->
  (forall pc l w', w_pchans w !! vc_pchan vc = Some pc ->
     w' = set_w_exps (delete e (w_exps w))
       (set_w_pchans (<[vc_pchan vc := set_pc_expid_idr (delete (ed_export_id (es_exp ex)) (pc_expid_idr pc)) pc]> (w_pchans w))
         (set_w_next (S (w_next w)) (set_w_alloc l w))) -> Q (- EBADF, 0, 0) w') ->
  (forall t payload l w', zlen payload = 24 + 8 * n -> 0 <= pfns_data_size t -> pfns_data_size t <= 16 + 8 * n ->
     w' = set_w_exps (<[e := set_es_refcount 1 (set_es_platform_data true (set_es_offset (u64 off)
         (set_es_exp (set_ed_payload payload (set_ed_payload_count n (es_exp ex))) ex)))]> (w_exps w))
       (set_w_next (S (w_next w)) (set_w_alloc l w)) ->
     Q (0, pfns_data_size t, ed_export_id (es_exp ex)) w') ->
  wpf (eq NullDeref) (fill_export v e off n buf) Q w.
Proof.
  intros Hv He [pc Hpc] Hn Hcov Hpl HQ1 HQ2. unfold fill_export.
  apply wpf_bind, wp_kalloc; intros l; [by apply wpf_fail|].
  apply wpf_bind. eapply wp_upd_e; [exact He|]. apply wpf_bind, wp_lift.
  destruct (habmem_compress_pfns buf off n) as [t|f|] eqn:Ht; [|exfalso|done].
  2: { apply compress_faults in Ht as (pages & Hb & Hs). specialize (Hcov pages Hb). lia. }
  apply wpf_bind. eapply wp_get_e; [apply lookup_insert_eq|]. destruct t as [t|].
  - assert (Hk : cp_nregions t <= n) by (eapply compress_fits; [|exact Ht]; lia).
    assert (Hk0 : 0 <= cp_nregions t) by apply zlen_nonneg.
    simpl es_exp. simpl ed_payload. rewrite mem_write_Some by (rewrite ?pfns_enc_len, ?Hpl; lia).
    set (payload := _ ++ _ ++ _).
    assert (Hz : zlen payload = 24 + 8 * n).
    { rewrite <- Hpl. eapply (mem_write_len _ 0 (pfns_enc t)). apply mem_write_Some; rewrite ?pfns_enc_len, ?Hpl; lia. }
    apply wpf_bind. eapply wp_upd_e; [apply lookup_insert_eq|]. apply wpf_ret.
    assert (Hd : pfns_data_size t = 16 + 8 * cp_nregions t).
    { unfold pfns_data_size, sizeof_compressed_pfns, sizeof_region. apply u32_id. unfold is_u32. lia. }
    eapply (HQ2 t payload l); [done|lia|lia|]. setters. simpl. rewrite !insert_insert_eq. reflexivity.
  - simpl es_exp. simpl ed_pchan. destruct (ed_pchan (es_exp ex)) as [q|]; [|by apply wpf_bind_f, wpf_fail].
    apply wpf_bind, wp_deref. apply wpf_bind. eapply wp_get_v; [exact Hv|].
    apply wpf_bind. eapply wp_upd_p; [exact Hpc|]. apply wpf_bind, wp_modify. apply wpf_ret.
    eapply (HQ1 pc l); [done|]. setters. simpl. by rewrite delete_insert_eq.
Qed.

Lemma fits_new n ex : zlen (ed_payload (es_exp ex)) = 24 + 8 * n -> 0 <= n -> es_payload_size ex = 0 ->
  payload_fits ex = true.
Proof. intros Hz ? Hs. unfold payload_fits. rewrite Hs, Hz. lia. Qed.

Lemma repeat_zlen {A} (x : A) n : 0 <= n -> zlen (repeat x (Z.to_nat n)) = n.
Proof. intros ?. unfold zlen. rewrite repeat_length. lia. Qed.


Lemma wf_next h l w : wf h w -> wf h (set_w_next (S (w_next w)) (set_w_alloc l w)).
Proof. apply wf_frame, frame_next. Qed.

Lemma habmem_add_export_compress_spec h c v p vc pc off n buf flags w :
  wf h w -> w_vchans w !! v = Some vc -> vc_pchan vc = p -> vc_ctx vc = Some c -> h_x h = None ->
  w_pchans w !! p = Some pc -> 1 <= n <= 2 ^ 20 -> covers buf n ->
  wpf (eq NullDeref) (habmem_add_export_compress v off n buf flags) (granted h c v p w) w.
Proof.
  intros Hwf Hv Hp Hc Hx Hpc Hn Hcov. destruct (wf_vchan_ctx _ _ _ _ Hwf Hx Hv) as (_ & a & cx & _ & Hc' & Hcx).
  rewrite Hc in Hc'. injection Hc' as <-. pose proof (fresh_ctx_lt _ _ _ (wf_fresh _ _ Hwf) Hcx) as Hclt.
  unfold habmem_add_export_compress, habmem_add_export.
  rewrite export_size by done. destruct (Z.eqb_spec (sizeof_exp_super - 8 + (24 + 8 * n)) 0) as [Hz|_].
  { unfold sizeof_exp_super in Hz. lia. }
  replace (sizeof_exp_super - 8 + (24 + 8 * n) - (sizeof_exp_super - 8)) with (24 + 8 * n) by lia.
  apply wpf_bind. apply wp_bind, wp_kalloc; intros l.
  { apply wp_ret, wpf_ret. split; [done|]. left. split; [done|]. eapply wf_frame; [apply frame_alloc|done]. }
  assert (Hfr : w_exps w !! w_next w = None) by (by apply (proj1 (wf_fresh _ _ Hwf))).
  assert (Hwf0 : wf h (set_w_next (S (w_next w)) (set_w_alloc l w))) by (eapply wf_frame; [apply frame_next|done]).
  set (e := w_next w) in *. set (w0 := set_w_next (S e) (set_w_alloc l w)) in *.
  apply wp_bind. eapply wp_get_v; [exact Hv|]. apply wp_bind. eapply wp_get_p; [rewrite Hp; exact Hpc|].
  rewrite Hp.
  destruct (idr_alloc_cyclic (pc_expid_idr pc) (pc_expid_next pc)) as [i|] eqn:Hi.
  - apply idr_alloc_cyclic_Some in Hi as [Hi Hni].
    apply wp_bind. eapply wp_upd_p; [exact Hpc|]. apply wp_bind, wp_modify, wp_ret.
    eapply (fill_export_spec v e vc off n buf); try (simpl; done).
    + simpl. apply lookup_insert_eq.
    + simpl. rewrite Hp, lookup_insert_eq. by eexists.
    + simpl. by rewrite repeat_zlen by lia.
    + intros qc l' w'. rewrite Hp. simpl. rewrite lookup_insert_eq. intros [= <-] ->. setters. simpl.
      rewrite insert_insert_eq, delete_insert_eq, (delete_id (w_exps w)) by done.
      split; [done|]. left. split; [done|]. 
      match goal with |- context [<[p := ?x]> (w_pchans w)] =>
        apply (wf_next h l' (set_w_pchans (<[p := x]> (w_pchans w0)) w0)) end.
      eapply wf_frame; [|exact Hwf0]. eapply frame_pchan; [exact Hpc|].
      unfold p_view. simpl. by rewrite delete_insert_id.
    + intros t payload l' w' Hpl Ht0 Ht ->. setters. simpl.
      split; [done|]. right. right. split; [done|].
      eexists e, _, _. split; [|split; [apply lookup_insert_eq|split; [apply lookup_insert_eq|]]].
      * rewrite insert_insert_eq.
        match goal with |- wf _ (set_w_exps ?m (set_w_next _ (set_w_alloc _ (set_w_exps _ (set_w_pchans ?k _))))) =>
          apply (wf_next _ l' (set_w_exps m (set_w_pchans k w0))) end.
        eapply (wf_export_new h w0 p pc); try done; simpl; try lia.
        -- destruct (pc_mem_proto pc =? 1); [right|left]; done.
        -- destruct (pc_mem_proto pc =? 1); [|done]. intros a Ha. assert (a = c) as -> by congruence. lia.
        -- by apply (fits_new n); [|lia|].
      * simpl. split; [by rewrite lookup_insert_eq|]. split; [|lia].
        intros ->. simpl. by rewrite Hc.
  - apply wp_bind, wp_ret. apply wp_bind, wp_modify, wp_ret.
    assert (Hid : pc_expid_idr pc !! u32 (- ENOSPC) = None).
    { destruct (pc_expid_idr pc !! u32 (- ENOSPC)) as [k|] eqn:Hk; [|done].
      destruct (wf_listed _ _ Hwf p pc _ k Hpc Hk) as [Hr _]. destruct Hr as [_ Hr]. by vm_compute in Hr. }
    eapply (fill_export_spec v e vc off n buf); try (simpl; done).
    + simpl. apply lookup_insert_eq.
    + simpl. rewrite Hp. by eexists.
    + simpl. by rewrite repeat_zlen by lia.
    + intros qc l' w'. rewrite Hp. simpl. rewrite Hpc. intros [= <-] ->. setters. simpl.
      rewrite delete_insert_eq, (delete_id (w_exps w)) by done.
      split; [done|]. left. split; [done|]. 
      match goal with |- context [<[p := ?x]> (w_pchans w)] =>
        apply (wf_next h l' (set_w_pchans (<[p := x]> (w_pchans w0)) w0)) end.
      eapply wf_frame; [|exact Hwf0]. eapply frame_pchan; [exact Hpc|].
      unfold p_view. simpl. by rewrite delete_id.
    + intros t payload l' w' Hpl Ht0 Ht ->. setters. simpl.
      split; [done|]. right. left. split; [done|]. split; [done|].
      rewrite insert_insert_eq.
      match goal with |- wf _ (set_w_exps ?m _) => apply (wf_next _ l' (set_w_exps m w0)) end.
      apply (wf_new_object h w0); [done|done|simpl; lia|]. simpl.
      destruct (pc_mem_proto pc =? 1); [|done]. intros a Ha. assert (a = c) as -> by congruence. lia.
Qed.

(** ** Publishing *)

(** The export that has its owner joins the warehouse of the context. *)
Lemma export_owned_spec h c e p ex ex' (r : Z) s w :
  wf (held_e e p h) w -> c ∈ h_c h -> w_exps w !! e = Some ex -> sched_ok s ->
  e_view ex' = (es_refcount ex, es_platform_data ex, es_exp_state ex, ed_export_id (es_exp ex),
    Some c, Some p, payload_fits ex) ->
  wp (do! upd_c c (fun cx => set_cx_export_total (u32 (cx_export_total cx + 1))
        (set_cx_exp_whse (cx_exp_whse cx ++ [e]) cx)) in
      do! upd_e e (set_es_exp_state HAB_EXP_SUCCESS) in ret (r, s))
    (fun (x : Z * sched) w' => wf h w' /\ sched_ok (x.2)) (set_w_exps (<[e := ex']> (w_exps w)) w).
Proof.
  intros Hwf Hc He Hs [= E1 E2 E3 E4 E5 E6 E7]. destruct (wf_held_c _ _ c Hwf) as [cx Hcx]; [done|].
  destruct (wf_held_e _ _ e p Hwf) as (ex0 & pc & He0 & Hpc & Hid & Hst & Hpl & Hr); [by left|].
  assert (ex0 = ex) as -> by congruence.
  destruct (wf_p _ _ Hwf p pc Hpc) as (_ & _ & _ & _ & _ & _ & Hx & _).
  destruct (Hx _ _ Hid) as (ex1 & He1 & _ & _ & _ & Hfit). assert (ex1 = ex) as -> by congruence.
  apply wp_bind. eapply wp_upd_c; [done|]. apply wp_bind. eapply wp_upd_e; [apply lookup_insert_eq|]. apply wp_ret.
  split; [|done]. simpl. rewrite insert_insert_eq.
  apply (wf_export_own h w e p c cx ex); simpl; try congruence. change (payload_fits ex' = true). congruence.
Qed.

Lemma wf_no_error_id h w p pc : wf h w -> w_pchans w !! p = Some pc -> pc_expid_idr pc !! u32 (- ENOSPC) = None.
Proof.
  intros Hwf Hpc. destruct (pc_expid_idr pc !! u32 (- ENOSPC)) as [k|] eqn:Hk; [|done].
  destruct (wf_listed _ _ Hwf p pc _ k Hpc Hk) as [[_ Hr] _]. by vm_compute in Hr.
Qed.

Lemma habmem_export_vchan_spec h c v p g w0 w uninit s :
  granted h c v p w0 g w -> g.1.1 = 0 -> h_x h = None -> c ∈ h_c h -> v ∈ h_v h -> sched_ok s ->
  (forall vc, w_vchans w0 !! v = Some vc -> vc_pchan vc = p) ->
  wp (habmem_export_vchan c v (g.1.2) (g.2) uninit s) (fun r w' => wf h w' /\ sched_ok (r.2)) w.
Proof.
  intros [Hvs Hg] Hr0 Hx Hc Hv Hs Hp. unfold habmem_export_vchan. cbv zeta.
  destruct Hg as [[? _]|[(_ & Hid & Hwf)|(_ & e & ex & pc & Hwf & He & Hpc & Hid & Hown & Hn & Hfit)]]; [lia|..].
  - destruct (HAB_HEADER_SIZE_MAX <? _); [by apply wp_ret|].
    destruct (wf_held_v _ _ _ Hwf Hx Hv) as [vc Hvc]. apply wp_bind. eapply wp_get_v; [done|].
    destruct (wf_vchan_ctx _ _ _ _ Hwf Hx Hvc) as (pc & _ & _ & Hpc & _). apply wp_bind. eapply wp_get_p; [done|].
    rewrite Hid, (wf_no_error_id _ _ _ _ Hwf Hpc). by apply wp_ret.
  - pose proof (wf_drop_e _ _ _ _ Hwf) as Hwf'.
    destruct (HAB_HEADER_SIZE_MAX <? _); [by apply wp_ret|].
    destruct (wf_held_v _ _ _ Hwf' Hx Hv) as [vc Hvc]. apply wp_bind. eapply wp_get_v; [done|].
    rewrite Hvs in Hvc. rewrite (Hp vc Hvc). apply wp_bind. eapply wp_get_p; [done|]. rewrite Hid.
    pose proof (wf_known _ _ _ _ Hwf Hpc) as Hk. unfold known_proto in Hk. apply wp_bind.
    destruct (Z.eqb_spec (pc_mem_proto pc) 0) as [|Hne].
    + apply wp_bind. eapply wp_get_e; [done|].
      assert (Hu : 0 <= u32 (sizeof_export_desc + g.1.2) <= sizeof_export_desc + g.1.2).
      { unfold u32, sizeof_export_desc. split; [apply Z.mod_pos_bound|apply Z.mod_le]; lia. }
      rewrite mem_read_Some by (rewrite ?export_desc_enc_len; unfold sizeof_export_desc in *; lia).
      apply wp_bind. eapply (wp_physical_channel_send _ _ _ _ _ _ Hwf); [by eexists|]. intros r w1 Hio _.
      pose proof (wf_io_frame _ _ _ Hio Hwf) as Hwf1.
      destruct (negb (r =? 0)); [apply wp_ret, wp_ret; split; [by eapply wf_drop_e|done]|].
      apply wp_bind. eapply wp_mono; [by eapply hab_export_ack_wait_spec|].
      intros [x s'] w2 (Hwf2 & Hs' & _). simpl fst. simpl snd.
      destruct (negb (x =? 0)); [apply wp_ret, wp_ret; split; [by eapply wf_drop_e|done]|].
      destruct (wf_held_e _ _ e p Hwf2) as (ex2 & pc2 & He2 & _); [by left|].
      apply wp_bind. eapply wp_upd_e; [done|]. apply wp_ret.
      by eapply (export_owned_spec _ _ _ p).
    + destruct (Z.eqb_spec (pc_mem_proto pc) 1) as [H1|]; [|done]. destruct (Hown H1) as [? ?].
      apply wp_ret. pose proof (export_owned_spec h c e p ex ex uninit s w Hwf Hc He Hs) as Hk1.
      rewrite insert_id in Hk1 by done. destruct w. apply Hk1. unfold e_view. congruence.
Qed.

(** Whatever buffer the arguments name has the pages asked for, if it is one of the
    driver's own. *)
Definition covered (kernel : bool) (address flags n : Z) : Prop :=
  if kernel then
    if flag flags HABMM_EXPIMP_FLAGS_DMABUF then forall b, dmabuf_at address = Some b -> covers b n
    else if flag flags HABMM_EXPIMP_FLAGS_FD then forall b, dma_buf_get (i32 address) = Some b -> covers b n
    else True
  else
    if flag flags HABMM_EXP_MEM_TYPE_DMA then forall b off, habmem_get_dma_buf_from_va address = Some (b, off) -> covers b n
    else if flag flags HABMM_EXPIMP_FLAGS_FD then forall b, dma_buf_get (i32 address) = Some b -> covers b n
    else get_user_pages address n = [] \/ n <= zlen (get_user_pages address n).

(** Two allocations, of which the second is for when the first happens. *)
Lemma wp_kalloc2 {A} h (k : option nat -> World.M HS A) (Q : A -> world HS -> Prop) w :
  wf h w ->
  (forall o w', wf h w' -> w_vchans w' = w_vchans w -> w_pchans w' = w_pchans w -> wp (k o) Q w') ->
  wp (let! a := kalloc in let! b := (match a with None => ret None | Some _ => kalloc end) in k b) Q w.
Proof.
  intros Hwf HQ. apply wp_bind, wp_kalloc; intros l; apply wp_bind.
  - apply wp_ret, HQ; [|done..]. eapply wf_frame; [apply frame_alloc|exact Hwf].
  - pose proof (wf_next _ l _ Hwf) as Hwf1. apply wp_kalloc; intros l2; (apply HQ; [|done..]).
    + eapply wf_frame; [apply frame_alloc|exact Hwf1].
    + by apply wf_next.
Qed.

Lemma grant_spec h c v p vc pc kernel address flags n w :
  wf h w -> w_vchans w !! v = Some vc -> vc_pchan vc = p -> vc_ctx vc = Some c -> h_x h = None -> w_pchans w !! p = Some pc ->
  1 <= n <= 2 ^ 20 -> covered kernel address flags n ->
  wpf (eq NullDeref) (if kernel then habmem_hyp_grant v address n flags
                      else habmem_hyp_grant_user v address n flags) (granted h c v p w) w.
Proof.
  intros Hwf Hv Hp Hc Hx Hpc Hn Hcov.
  assert (Hadd : forall off buf w1, wf h w1 -> w_vchans w1 = w_vchans w -> w_pchans w1 = w_pchans w -> covers buf n ->
    wpf (eq NullDeref) (habmem_add_export_compress v off n buf flags) (granted h c v p w) w1).
  { intros off buf w1 Hwf1 E1 E2 Hb. eapply wpf_mono.
    - eapply (habmem_add_export_compress_spec h c v p vc pc); rewrite ?E1, ?E2; done.
    - intros r w2 [E Hg]. split; [congruence|exact Hg]. }
  assert (Herr : forall r w1, r < 0 -> wf h w1 -> w_vchans w1 = w_vchans w -> granted h c v p w (r, 0, 0) w1)
    by (intros; split; [done|]; by left).
  destruct kernel; unfold covered in Hcov.
  - unfold habmem_hyp_grant. apply wpf_bind. destruct (flag flags HABMM_EXPIMP_FLAGS_DMABUF).
    { apply wp_ret. destruct (dmabuf_at address); [by apply Hadd; auto|by apply wpf_ret, Herr]. }
    destruct (flag flags HABMM_EXPIMP_FLAGS_FD).
    { apply wp_ret. destruct (dma_buf_get _); [by apply Hadd; auto|by apply wpf_ret, Herr]. }
    apply (wp_kalloc2 h); [done|]. intros [a|] w1 Hwf1 E1 E2; [|by apply wp_ret, wpf_ret, Herr].
    apply wp_ret. destruct (dma_buf_export _); [|by apply wpf_ret, Herr]. apply Hadd; [done..|].
    intros pages [= <-]. unfold zlen. rewrite length_fmap, length_seqZ. lia.
  - unfold habmem_hyp_grant_user. apply wpf_bind. destruct (flag flags HABMM_EXP_MEM_TYPE_DMA).
    { apply wp_ret. destruct (habmem_get_dma_buf_from_va address) as [[b off]|]; [by apply Hadd; eauto|by apply wpf_ret, Herr]. }
    destruct (flag flags HABMM_EXPIMP_FLAGS_FD).
    { apply wp_ret. destruct (dma_buf_get _); [by apply Hadd; auto|by apply wpf_ret, Herr]. }
    apply wp_bind, (wp_kalloc2 h); [done|]. intros [a|] w1 Hwf1 E1 E2; [|by apply wp_ret, wp_ret, wpf_ret, Herr].
    destruct (get_user_pages address n) as [|x pages] eqn:Hg; [by apply wp_ret, wp_ret, wpf_ret, Herr|].
    apply wp_ret, wp_ret. destruct (dma_buf_export _); [|by apply wpf_ret, Herr]. apply Hadd; [done..|].
    intros pages' [= <-]. by destruct Hcov.
Qed.

Lemma page_count_range sizebytes :
  0 <= sizebytes < 2 ^ 32 -> sizebytes <> 0 -> sizebytes mod PAGE_SIZE = 0 ->
  1 <= i32 (sizebytes / PAGE_SIZE) <= 2 ^ 20.
Proof.
  unfold PAGE_SIZE. intros ? ? Hm. pose proof (Z.div_mod sizebytes 4096). assert (sizebytes / 4096 < 2 ^ 20) by (apply Z.div_lt_upper_bound; lia).
  rewrite i32_id; unfold is_i32; lia.
Qed.

Lemma hab_mem_export_spec h c kernel buffer vcid sizebytes flags uninit s w :
  wf h w -> h_x h = None -> c ∈ h_c h -> sched_ok s -> 0 <= sizebytes < 2 ^ 32 ->
  covered kernel buffer flags (i32 (sizebytes / PAGE_SIZE)) ->
  wpf (eq NullDeref) (hab_mem_export c kernel buffer vcid sizebytes flags uninit s)
    (fun r w' => wf h w' /\ sched_ok (r.2)) w.
Proof.
  intros Hwf Hx Hc Hs Hsz Hcov. unfold hab_mem_export.
  destruct (Z.eqb_spec sizebytes 0); [by apply wpf_ret|].
  destruct (Z.eqb_spec (sizebytes mod PAGE_SIZE) 0); [|by apply wpf_ret].
  destruct (_ || _); [by apply wpf_ret|]. pose proof (page_count_range sizebytes) as Hn.
  apply wpf_bind. eapply (hab_get_vchan_fromvcid_spec h); [done|by eapply wf_held_c|by apply wpf_ret|].
  intros v vc (Hv & Hvc & _) Hwf1. rewrite vchans_of_None in Hv by done.
  set (w1 := set_w_vchans _ _) in *. cbv zeta. set (vc1 := set_vc_refcount _ vc) in *.
  assert (Hv1 : w_vchans w1 !! v = Some vc1) by apply lookup_insert_eq.
  destruct (wf_vchan_ctx _ _ _ _ Hwf1 Hx Hv1) as (pc & _ & _ & Hpc & _).
  apply wpf_bind_f. eapply wpf_mono; [eapply (grant_spec (held_v v h) c v _ vc1); eauto|].
  intros [[r n'] id] w2 Hg. destruct (Z.ltb_spec r 0) as [Hr|Hr].
  - destruct Hg as [_ [[_ Hwf2]|[(? & _)|(? & _)]]]; simpl in *; [|lia..].
    apply wpf_bind. eapply wp_mono; [by eapply hab_vchan_put_spec|]. intros [] w3 Hwf3. by apply wpf_ret.
  - assert (Hr0 : r = 0) by (destruct Hg as [_ [[? _]|[(? & _)|(? & _)]]]; simpl in *; lia).
    apply wpf_bind. eapply wp_mono.
    { apply (habmem_export_vchan_spec (held_v v h) c v (vc_pchan vc1) (r, n', id) w1); try done.
      - by left.
      - intros vc' Hv'. congruence. }
    intros x w3 [Hwf3 Hs3]. apply wpf_bind. eapply wp_mono; [by eapply hab_vchan_put_spec|].
    intros [] w4 Hwf4. by apply wpf_ret.
Qed.

(** An export of a live context is in the warehouse of that context only. *)
Lemma forget_owned h w c cx e ex :
  wf h w -> w_ctxs w !! c = Some cx -> w_exps w !! e = Some ex -> ed_ctx (es_exp ex) = Some c ->
  forget_exp e <$> w_ctxs w = <[c := forget_exp e cx]> (w_ctxs w).
Proof.
  intros Hwf Hc He Ho. apply map_eq. intros a. rewrite lookup_fmap, lookup_insert. case_decide as Ha.
  - subst a. by rewrite Hc.
  - destruct (w_ctxs w !! a) as [ax|] eqn:Hax; [|done]. simpl. f_equal. unfold forget_exp.
    rewrite list_del_notin; [by destruct ax|]. intros Hin.
    destruct (wf_c _ _ Hwf a ax Hax) as (_ & _ & _ & _ & _ & Hw & _).
    destruct (Hw e Hin) as (ex' & He' & _ & Hc'). congruence.
Qed.

Lemma hab_mem_unexport_spec h c vcid exportid w :
  wf h w -> h_x h = None -> c ∈ h_c h ->
  wp (hab_mem_unexport c vcid exportid) (fun _ w' => wf h w') w.
Proof.
  intros Hwf Hx Hc. unfold hab_mem_unexport.
  apply wp_bind. eapply (hab_get_vchan_fromvcid_spec h); [done|by eapply wf_held_c|by apply wp_ret|].
  intros v vc (Hv & _) Hwf1. rewrite vchans_of_None in Hv by done. set (w1 := set_w_vchans _ _) in *.
  set (vc1 := set_vc_refcount _ vc) in *.
  assert (Hv1 : w_vchans w1 !! v = Some vc1) by apply lookup_insert_eq.
  destruct (wf_vchan_ctx _ _ _ _ Hwf1 Hx Hv1) as (pc & _ & _ & Hpc & _).
  apply wp_bind. eapply wp_get_v; [done|]. apply wp_bind. eapply wp_get_p; [done|].
  assert (Hput : forall r w2, wf (held_v v h) w2 -> wp (do! hab_vchan_put v in ret r) (fun (_ : Z) w' => wf h w') w2).
  { intros r w2 Hwf2. apply wp_bind. eapply wp_mono; [by eapply hab_vchan_put_spec|]. intros [] w3 ?. by apply wp_ret. }
  destruct (pc_expid_idr pc !! exportid) as [e|] eqn:Hid; [|by apply Hput].
  destruct (wf_p _ _ Hwf1 _ pc Hpc) as (_ & _ & _ & _ & _ & _ & Hxp & _).
  destruct (Hxp _ _ Hid) as (ex & He & _). apply wp_bind. eapply wp_get_e; [done|].
  destruct (bool_decide_reflect (es_exp_state ex = HAB_EXP_SUCCESS)) as [Hst|]; [|by apply Hput].
  destruct (bool_decide_reflect (ed_ctx (es_exp ex) = Some c)) as [Ho|]; [|by apply Hput].
  destruct (es_remote_imported ex =? 0); [|by apply Hput].
  destruct (wf_ctx_held _ _ c Hwf1) as (cx & Hcx & Href); [done|].
  assert (Hin : e ∈ cx_exp_whse cx).
  { destruct (wf_listed _ _ Hwf1 _ _ _ _ Hpc Hid) as (_ & _ & Hl). eapply (Hl ex c cx); [done..|lia]. }
  destruct (wf_c _ _ Hwf1 c cx Hcx) as (_ & _ & _ & _ & _ & Hw & _).
  destruct (Hw e Hin) as (ex' & He' & Hown & _). assert (ex' = ex) as -> by congruence.
  pose proof (owned_not_held _ _ _ _ Hwf1 He Hst) as Hnh.
  assert (Hnr : e ∉ w_reclaim_list w1).
  { intros Hr. destruct (wf_drv _ _ Hwf1) as (_ & _ & _ & _ & Hrl & _).
    destruct (Hrl e Hr) as (? & _ & _ & Hn). by apply (Hn c cx Hcx). }
  pose proof (wf_exp_forget _ _ _ _ _ _ Hwf1 Hpc Hid Hnr Hnh) as Hwf2.
  pose proof (unref_forget _ _ _ _ _ _ Hwf1 Hpc Hid Hnr Hnh) as Hun.
  rewrite (forget_owned _ _ _ _ _ _ Hwf1 Hcx He Ho) in Hwf2, Hun.
  cbn [andb]. apply wp_bind. unfold expid_remove. eapply wp_upd_p; [done|].
  apply wp_bind. eapply wp_upd_c; [done|]. cbv zeta. apply wp_bind.
  apply (wp_mono _ (fun _ w' => wf (held_v v h) w')); [|intros [] w3; by apply Hput].
  destruct (negb _); [by apply wp_ret|]. destruct Hown as (q & qc & _ & _ & _ & _ & Hpl & Hr).
  eapply wp_mono; [eapply (habmem_remove_export_spec (held_v v h)); [exact Hwf2|exact Hun|exact He|done..|]|].
  - apply lookup_insert_eq.
  - by intros [] w3 [? _].
Qed.

(** ** Mapping *)

Lemma pages_below_filter (P : pages_list -> Prop) `{forall x, Decision (P x)} l w :
  pages_below (set_w_imp_list l w) -> pages_below (set_w_imp_list (filter P l) w).
Proof.
  unfold pages_below. simpl. rewrite !list.Forall_forall. intros Hl x [_ Hx]%list_elem_of_filter. by apply Hl.
Qed.

Lemma pages_below_upd a f l w :
  (forall x, pl_addr (f x) = pl_addr x) ->
  pages_below (set_w_imp_list l w) ->
  pages_below (set_w_imp_list ((fun x => if decide (pl_addr x = a) then f x else x) <$> l) w).
Proof.
  intros Hf. unfold pages_below. simpl. rewrite !list.Forall_forall.
  intros Hl x (y & -> & Hy)%list_elem_of_fmap. specialize (Hl y Hy). case_decide; [by rewrite Hf|done].
Qed.

Lemma pages_list_put_spec a x w :
  find_pages a (w_imp_list w) = Some x -> 1 <= pl_refcount x ->
  wp (pages_list_put a) (fun _ w' => frame w w') w.
Proof.
  intros Hf Hr. unfold pages_list_put. apply wp_bind, wp_gets. rewrite Hf. destruct (Z.leb_spec (pl_refcount x) 0); [lia|].
  apply wp_bind, wp_modify. set (l := _ <$> _).
  assert (Hl : frame w (set_w_imp_list l w)).
  { constructor; try done. intros Hb. apply (pages_below_upd a _ _ w); [done|exact Hb]. }
  apply wp_when; [intros _|by intros _]. apply wp_modify. eapply frame_trans; [exact Hl|].
  constructor; try done. apply (pages_below_filter (fun y => pl_addr y <> a) l w).
Qed.

(** A new page list: at an address of its own. *)
Lemma pages_list_create_spec ex flags w :
  table_fits ex = true -> pages_below w ->
  wp (pages_list_create ex flags) (fun o w' => frame w w' /\ w_imp_list w' = w_imp_list w /\
    forall x, o = Some x -> pl_refcount x = 1 /\ (pl_addr x < w_next w')%nat /\
      Forall (fun y => pl_addr y <> pl_addr x) (w_imp_list w)) w.
Proof.
  intros Hfit Hb. unfold pages_list_create. cbv zeta. destruct (negb _ || _); [by apply wp_ret; split; [apply frame_refl|]|].
  apply wp_bind, wp_kalloc; intros l; apply wp_bind.
  { apply wp_ret, wp_ret. split; [apply frame_alloc|done]. }
  apply wp_kalloc; intros l2.
  { apply wp_ret. split; [|done]. eapply frame_trans; [apply (frame_next l)|]. apply (frame_alloc l2). }
  assert (Hf : frame w (set_w_next (S (S (w_next w))) (set_w_alloc l2 w))).
  { eapply frame_trans; [apply (frame_next l)|]. apply (frame_next l2 (set_w_next (S (w_next w)) (set_w_alloc l w))). }
  apply wp_bind, wp_lift. unfold table_fits, sizeof_region in Hfit.
  destruct (expand_regions_total (Z.to_nat (pfn_nregions (ed_payload ex))) (ed_payload ex) 0
    (first_pfn (ed_payload ex)) 0 (ed_payload_count ex)) as [[pages|] ->]; [lia|lia|..]; apply wp_ret.
  - split; [exact Hf|]. split; [done|]. intros x [= <-]. split; [done|]. split; [simpl; lia|].
    eapply Forall_impl; [|exact Hb]. simpl. lia.
  - by split; [exact Hf|].
Qed.

Lemma habmem_imp_hyp_map_spec ex flags kernel w :
  table_fits ex = true -> pages_below w ->
  wp (habmem_imp_hyp_map ex flags kernel) (fun _ w' => frame w w') w.
Proof.
  intros Hfit Hb. unfold habmem_imp_hyp_map, habmem_import_to_dma_buf.
  apply wp_bind. apply wp_bind. eapply wp_mono; [by apply pages_list_create_spec|].
  intros [x|] w1 (Hf & Hl & Hx); [|by apply wp_ret, wp_ret]. destruct (Hx x eq_refl) as (Hr & Hlt & Hne).
  unfold pages_list_add. apply wp_bind, wp_modify. set (w2 := set_w_imp_cnt _ _).
  assert (Hf2 : frame w w2).
  { eapply frame_trans; [exact Hf|]. apply (frame_pages _ _ w1). unfold pages_below. simpl.
    apply Forall_app. split; [by apply (fr_pages _ _ Hf)|by constructor]. }
  assert (Hfind : find_pages (pl_addr x) (w_imp_list w2) = Some x).
  { simpl. rewrite Hl. unfold find_pages. rewrite list.filter_app.
    assert (filter (fun y => pl_addr y = pl_addr x) (w_imp_list w) = []) as ->.
    { by apply filter_none. }
    by rewrite app_nil_l, filter_cons, decide_True. }
  assert (Hput : forall (A : Type) (a : A), wp (do! pages_list_put (pl_addr x) in ret a) (fun _ w' => frame w w') w2).
  { intros A a. apply wp_bind. eapply wp_mono; [eapply pages_list_put_spec; [exact Hfind|lia]|].
    intros [] w3 Hf3. apply wp_ret. by eapply frame_trans. }
  destruct (dma_buf_export _) as [buf|].
  - apply wp_ret. destruct kernel; [by apply wp_ret|]. cbv zeta. destruct (_ <? 0); [apply Hput|by apply wp_ret].
  - apply wp_bind. eapply wp_mono; [eapply pages_list_put_spec; [exact Hfind|lia]|].
    intros [] w3 Hf3. apply wp_ret, wp_ret. by eapply frame_trans.
Qed.

Lemma wf_pages h w : wf h w -> pages_below w.
Proof. intros Hwf. apply (proj2 (proj1 (proj2 (wf_fresh _ _ Hwf)))). Qed.

Lemma wf_table h w e ex : wf h w -> w_imps w !! e = Some ex -> table_fits (es_exp ex) = true.
Proof. intros Hwf. apply (proj1 (proj2 (proj2 (wf_fresh _ _ Hwf)))). Qed.

Lemma frame_imp_Some w w' e : frame w w' -> is_Some (w_imps w !! e) -> is_Some (w_imps w' !! e).
Proof. intros Hf [ex He]. destruct (same_view_Some _ _ _ _ _ (fr_i _ _ Hf) He) as (? & ? & _). by eexists. Qed.

Lemma import_map_spec h e kernel index sizebytes flags w :
  wf h w -> is_Some (w_imps w !! e) ->
  wp (import_map e kernel index sizebytes flags) (fun _ w' => frame w w') w.
Proof.
  intros Hwf [ex He]. unfold import_map. apply wp_bind. eapply wp_get_i; [done|]. destruct (negb _).
  { apply wp_bind. eapply wp_upd_i; [done|]. apply wp_ret. by eapply frame_imp. }
  apply wp_bind. eapply wp_mono; [apply habmem_imp_hyp_map_spec; [by eapply wf_table|by eapply wf_pages]|].
  intros m w1 Hf. destruct (frame_imp_Some _ _ e Hf) as [ex1 He1]; [by eexists|].
  destruct (negb _); apply wp_bind; (eapply wp_upd_i; [done|]); apply wp_ret;
    (eapply frame_trans; [exact Hf|]); by eapply frame_imp.
Qed.

(** ** Importing *)

(** The node [e] is in the context's tree. *)
Definition imported (c e : nat) w : Prop :=
  exists cx k, w_ctxs w !! c = Some cx /\ cx_imp_whse cx !! k = Some e.

Lemma imported_frame c e w w' : frame w w' -> imported c e w -> imported c e w'.
Proof.
  intros Hf (cx & k & Hc & Hk). destruct (same_view_Some _ _ _ _ _ (fr_c _ _ Hf) Hc) as (cx' & Hc' & Hv).
  injection Hv as _ _ _ _ Hv. exists cx', k. by rewrite Hv.
Qed.

Lemma imported_node h c e w :
  wf h w -> imported c e w -> exists cx ex, w_ctxs w !! c = Some cx /\ w_imps w !! e = Some ex /\
    cx_imp_whse cx !! imp_key ex = Some e.
Proof.
  intros Hwf (cx & [i p] & Hc & Hk). destruct (wf_c _ _ Hwf c cx Hc) as (_ & _ & _ & _ & _ & _ & Hi & _).
  destruct (Hi _ _ Hk) as (ex & He & E1 & E2 & _). exists cx, ex. unfold imp_key. rewrite E2, <- E1. by split_and!.
Qed.

Lemma import_drop_spec h c e w :
  wf h w -> imported c e w -> wp (import_drop c e) (fun _ w' => wf h w') w.
Proof.
  intros Hwf Hi. destruct (imported_node _ _ _ _ Hwf Hi) as (cx & ex & Hc & He & Hk). unfold import_drop.
  apply wp_bind. eapply wp_get_i; [done|]. apply wp_bind. eapply wp_upd_c; [done|]. apply wp_modify.
  destruct (wf_imp_del _ _ _ _ _ _ Hwf Hc Hk) as [Hwf1 Hn].
  apply (wf_imp_unref h _ e); [exact Hwf1|by eexists| |exact Hn|].
  - intros ex'. by rewrite lookup_delete_eq.
  - intros k ?. simpl. by rewrite lookup_delete_ne.
Qed.

Lemma import_request_spec h c v exportid sizebytes s w :
  wf h w -> h_x h = None -> c ∈ h_c h -> v ∈ h_v h -> sched_ok s ->
  wp (import_request c v exportid sizebytes s) (fun r w' => wf h w' /\ sched_ok (r.2)) w.
Proof.
  intros Hwf Hx Hc Hv Hs. unfold import_request. destruct (wf_held_v _ _ _ Hwf Hx Hv) as [vc Hvc].
  destruct (wf_vchan_ctx _ _ _ _ Hwf Hx Hvc) as (pc & _ & _ & Hpc & _).
  apply wp_bind. eapply wp_get_v; [done|]. apply wp_bind. eapply wp_get_p; [done|].
  destruct (pc_mem_proto pc =? 1); [|by apply wp_ret]. apply wp_bind.
  eapply wp_physical_channel_send; [exact Hwf|by eexists|]. intros r w1 Hio _.
  pose proof (wf_io_frame _ _ _ Hio Hwf) as Hwf1. destruct (negb _); [by apply wp_ret|].
  apply wp_bind. eapply wp_mono; [by eapply hab_import_ack_wait_spec|]. intros [[x scan] s'] w2 (Hwf2 & Hs' & _).
  destruct (negb _); [by apply wp_ret|]. by destruct (scan =? 0); apply wp_ret.
Qed.

Lemma import_claim_spec h c p exportid w :
  wf h w -> c ∈ h_c h ->
  wp (import_claim c p exportid) (fun r w' => frame w w' /\ forall e, r = inr e -> imported c e w') w.
Proof.
  intros Hwf Hc. destruct (wf_held_c _ _ c Hwf Hc) as [cx Hcx]. unfold import_claim.
  apply wp_bind. eapply wp_get_c; [done|]. destruct (cx_imp_whse cx !! _) as [e|] eqn:Hk; [|by apply wp_ret].
  destruct (wf_c _ _ Hwf c cx Hcx) as (_ & _ & _ & _ & _ & _ & Hi & _). destruct (Hi _ _ Hk) as (ex & He & _).
  apply wp_bind. eapply wp_get_i; [done|]. destruct (negb _); [by apply wp_ret|].
  apply wp_bind. eapply wp_upd_i; [done|]. apply wp_ret. split; [by eapply frame_imp|].
  intros e' [= <-]. by exists cx, (exportid, p).
Qed.

Lemma unimport_claim_spec h c p exportid w :
  wf h w -> c ∈ h_c h ->
  wp (unimport_claim c p exportid) (fun r w' => frame w w' /\ forall e, r = Some e -> imported c e w') w.
Proof.
  intros Hwf Hc. destruct (wf_held_c _ _ c Hwf Hc) as [cx Hcx]. unfold unimport_claim.
  apply wp_bind. eapply wp_get_c; [done|]. destruct (cx_imp_whse cx !! _) as [e|] eqn:Hk; [|by apply wp_ret].
  destruct (wf_c _ _ Hwf c cx Hcx) as (_ & _ & _ & _ & _ & _ & Hi & _). destruct (Hi _ _ Hk) as (ex & He & _).
  apply wp_bind. eapply wp_get_i; [done|]. destruct (bool_decide _); [|by apply wp_ret].
  apply wp_bind. eapply wp_upd_i; [done|]. apply wp_ret. split; [by eapply frame_imp|].
  intros e' [= <-]. by exists cx, (exportid, p).
Qed.

(** The last step of either operation. *)
Lemma put_ret_spec {A} h v (r : A) w :
  wf (held_v v h) w -> h_x h = None -> wp (do! hab_vchan_put v in ret r) (fun x w' => wf h w' /\ x = r) w.
Proof.
  intros Hwf Hx. apply wp_bind. eapply wp_mono; [by eapply hab_vchan_put_spec|]. intros [] w1 ?. by apply wp_ret.
Qed.

(** The other side is told, and the node is dropped. *)
Lemma unimport_drop_spec h c v e i w :
  wf h w -> h_x h = None -> v ∈ h_v h -> imported c e w ->
  wp (do! hab_send_unimport_msg v i in import_drop c e) (fun _ w' => wf h w') w.
Proof.
  intros Hwf Hx Hv Hi. apply wp_bind. eapply wp_mono; [by eapply hab_send_unimport_msg_spec; [..|by eapply wf_held_v]|].
  intros [] w1 Hio. eapply import_drop_spec; [by eapply wf_io_frame|]. by eapply imported_frame; [apply Hio|].
Qed.

Lemma hab_mem_import_spec h c kernel index vcid sizebytes exportid flags s w :
  wf h w -> h_x h = None -> c ∈ h_c h -> sched_ok s ->
  wp (hab_mem_import c kernel index vcid sizebytes exportid flags s) (fun r w' => wf h w' /\ sched_ok (r.2)) w.
Proof.
  intros Hwf Hx Hc Hs. unfold hab_mem_import. destruct (negb _); [by apply wp_ret|].
  apply wp_bind. eapply (hab_get_vchan_fromvcid_spec h); [done|by eapply wf_held_c|by apply wp_ret|].
  intros v vc _ Hwf1. set (w1 := set_w_vchans _ _) in *. set (h1 := held_v v h) in *.
  assert (Hv : v ∈ h_v h1) by (by left).
  assert (Hput : forall r s' w', wf h1 w' -> sched_ok s' -> wp (do! hab_vchan_put v in ret (r, s'))
    (fun (x : Z * option Z * sched) w' => wf h w' /\ sched_ok (x.2)) w').
  { intros r s' w' Hw' Hs'. eapply wp_mono; [by apply (put_ret_spec h)|]. by intros x w2 [? ->]. }
  apply wp_bind. eapply wp_mono; [by apply (import_request_spec h1)|]. intros [r s'] w2 [Hwf2 Hs2].
  destruct (negb _); [by apply Hput|]. destruct (wf_held_v _ _ _ Hwf2 Hx Hv) as [vc2 Hvc2].
  apply wp_bind. eapply wp_get_v; [done|]. apply wp_bind.
  eapply wp_mono; [by apply (import_claim_spec h1)|]. intros [r'|e] w3 [Hf3 Hi3];
    pose proof (wf_frame _ _ _ Hf3 Hwf2) as Hwf3; [by apply Hput|]. specialize (Hi3 e eq_refl).
  destruct (imported_node _ _ _ _ Hwf3 Hi3) as (_ & ex3 & _ & He3 & _).
  apply wp_bind. eapply wp_mono; [eapply (import_map_spec h1); [done|by eexists]|]. intros m w4 Hf4.
  pose proof (wf_frame _ _ _ Hf4 Hwf3) as Hwf4. pose proof (imported_frame _ _ _ _ Hf4 Hi3) as Hi4.
  destruct (imported_node _ _ _ _ Hwf4 Hi4) as (_ & ex4 & _ & He4 & _).
  destruct (wf_vchan_ctx _ _ _ _ Hwf2 Hx Hvc2) as (pc & _ & _ & Hpc & _).
  destruct (same_view_Some _ _ _ _ _ (fr_p _ _ (frame_trans _ _ _ Hf3 Hf4)) Hpc) as (pc4 & Hpc4 & _).
  apply wp_bind. eapply wp_get_p; [done|]. apply wp_bind. eapply wp_get_i; [done|]. apply wp_bind.
  apply (wp_mono _ (fun _ w' => wf h1 w')); [|intros [] w5 ?; by apply Hput].
  apply wp_when; [intros _|by intros _]. by apply unimport_drop_spec.
Qed.

Lemma hab_mem_unimport_spec h c kernel vcid exportid w :
  wf h w -> h_x h = None -> c ∈ h_c h ->
  wp (hab_mem_unimport c kernel vcid exportid) (fun _ w' => wf h w') w.
Proof.
  intros Hwf Hx Hc. unfold hab_mem_unimport.
  apply wp_bind. eapply (hab_get_vchan_fromvcid_spec h); [done|by eapply wf_held_c|by apply wp_ret|].
  intros v vc _ Hwf1. set (w1 := set_w_vchans _ _) in *. set (h1 := held_v v h) in *.
  assert (Hv : v ∈ h_v h1) by (by left).
  assert (Hput : forall (r : Z * option Z) w', wf h1 w' -> wp (do! hab_vchan_put v in ret r) (fun _ w' => wf h w') w').
  { intros r w' Hw'. eapply wp_mono; [by apply (put_ret_spec h)|]. by intros x w2 [? _]. }
  destruct (wf_held_v _ _ _ Hwf1 Hx Hv) as [vc1 Hvc1]. apply wp_bind. eapply wp_get_v; [done|]. apply wp_bind.
  eapply wp_mono; [by apply (unimport_claim_spec h1)|]. intros [e|] w2 [Hf2 Hi2];
    pose proof (wf_frame _ _ _ Hf2 Hwf1) as Hwf2; [|by apply Hput]. specialize (Hi2 e eq_refl).
  destruct (imported_node _ _ _ _ Hwf2 Hi2) as (_ & ex2 & _ & He2 & _).
  apply wp_bind. eapply wp_get_i; [done|]. cbv zeta. cbn [habmm_imp_hyp_unmap]. change (negb (0 =? 0)) with false. cbv iota.
  destruct (wf_vchan_ctx _ _ _ _ Hwf1 Hx Hvc1) as (pc & _ & _ & Hpc & _).
  destruct (same_view_Some _ _ _ _ _ (fr_p _ _ Hf2) Hpc) as (pc2 & Hpc2 & _).
  apply wp_bind. eapply wp_get_p; [done|]. apply wp_bind.
  apply (wp_mono _ (fun _ w' => frame w2 w')).
  { apply wp_when; [intros _|by intros _]. eapply wp_mono; [eapply (hab_send_unimport_msg_spec h1); [done..|by eapply wf_held_v]|].
    intros [] w3 Hio. apply Hio. }
  intros [] w3 Hf3. apply wp_bind. eapply wp_mono.
  { eapply (import_drop_spec h1); [by eapply wf_frame|by eapply imported_frame]. }
  intros [] w4 Hwf4. by apply Hput.
Qed.

(** ** What the client gets *)


(** C27: taking an export back never faults: an id that is still published is an
    object that is alive, complete and the context's own, whose last reference
    goes with it. *)
Theorem hab_mem_unexport_safe (h : held) (w : world HS) (c : nat) (vcid exportid : Z) :
  wf h w -> h_x h = None -> c ∈ h_c h ->
  match hab_mem_unexport c vcid exportid w with
  | Ok (_, w') => wf h w'
  | Fault _ => False
  | Blocked => True
  end.
Proof. intros Hwf Hx Hc. exact (hab_mem_unexport_spec h c vcid exportid w Hwf Hx Hc). Qed.

(** C25: importing a descriptor, whatever the other side put into it, reads no
    byte outside of it and keeps the driver well-formed, with other threads running
    while it waits for the descriptor. *)
Theorem hab_mem_import_safe (h : held) (w : world HS) (c : nat) (kernel : bool)
    (index vcid sizebytes exportid flags : Z) (s : sched) :
  wf h w -> h_x h = None -> c ∈ h_c h -> sched_ok s ->
  match hab_mem_import c kernel index vcid sizebytes exportid flags s w with
  | Ok (_, w') => wf h w'
  | Fault _ => False
  | Blocked => True
  end.
Proof.
  intros Hwf Hx Hc Hs.
  pose proof (hab_mem_import_spec h c kernel index vcid sizebytes exportid flags s w Hwf Hx Hc Hs) as Hsp.
  unfold wp in Hsp. destruct (hab_mem_import _ _ _ _ _ _ _ _ _) as [[r w']| |]; [by destruct Hsp|done|done].
Qed.
(** C28: giving an import back never faults: only a mapped descriptor is given back,
    once, and its node is alive until it leaves the tree. *)
Theorem hab_mem_unimport_safe (h : held) (w : world HS) (c : nat) (kernel : bool) (vcid exportid : Z) :
  wf h w -> h_x h = None -> c ∈ h_c h ->
  match hab_mem_unimport c kernel vcid exportid w with
  | Ok (_, w') => wf h w'
  | Fault _ => False
  | Blocked => True
  end.
Proof. intros Hwf Hx Hc. exact (hab_mem_unimport_spec h c kernel vcid exportid w Hwf Hx Hc). Qed.
End lemmas.

(** ** On the example driver *)


Lemma hab_mem_unexport_safe_witness :
  exists w', hab_mem_unexport 1 1 1 (sample quiet_lb) = Ok (0, w') /\ wf client w' /\ w_exps w' = ∅.
Proof.
  pose proof (hab_mem_unexport_safe client (sample quiet_lb) 1 1 1 (sample_wf_client _)
    eq_refl ltac:(by left)) as Hs.
  destruct (hab_mem_unexport _ _ _ _) as [[r w']| |] eqn:He; vm_compute in He; [|done|done].
  injection He as <- <-. eexists. split; [reflexivity|]. split; [exact Hs|reflexivity].
Defined.

(** The descriptor 9, of the page 70, has been received and its request answered. *)
Definition sample_desc : export_desc :=
  set_ed_payload (pfns_enc (Build_compressed_pfns 70 [(1, 0)]) ++ repeat 0 5) sample_import.

Definition sample_answered : world loopback_dev :=
  let w := sample quiet_lb in
  set_w_ctxs (<[1%nat := set_cx_imp_rxq [Build_hab_import_ack_recvd (Build_hab_import_ack 9 1 2 1) 0] sample_ctx]>
    (w_ctxs w)) w.

Definition sample_received : world loopback_dev :=
  set_w_imps (<[5%nat := Build_export_desc_super 0 false 0 0 EXP_DESC_INIT HAB_EXP_EXPORTING 0 sample_desc]>
    (w_imps sample_answered)) sample_answered.

Lemma sample_received_wf : wf client sample_received.
Proof.
  apply (wf_frame _ (sample quiet_lb)); [|apply sample_wf_client].
  apply (frame_trans _ sample_answered); [by eapply frame_ctx|by eapply frame_imp].
Qed.

Lemma hab_mem_import_safe_witness :
  exists w', hab_mem_import 1 false 3 1 4096 9 0 [] sample_received = Ok ((0, Some 3, []), w') /\
  wf client w' /\ (pl_pages <$> w_imp_list w') = [[70]].
Proof.
  pose proof (hab_mem_import_safe client sample_received 1 false 3 1 4096 9 0 [] sample_received_wf
    eq_refl ltac:(by left) ltac:(constructor)) as Hs.
  destruct (hab_mem_import _ _ _ _ _ _ _ _ _) as [[r w']| |] eqn:He; vm_compute in He; [|done|done].
  injection He as <- <-. eexists. split; [reflexivity|]. split; [exact Hs|reflexivity].
Defined.

Lemma hab_mem_unimport_safe_witness :
  exists w', hab_mem_unimport 1 false 1 9 (sample quiet_lb) = Ok ((0, Some 0), w') /\ wf client w' /\ w_imps w' = ∅.
Proof.
  pose proof (hab_mem_unimport_safe client (sample quiet_lb) 1 false 1 9 (sample_wf_client _)
    eq_refl ltac:(by left)) as Hs.
  destruct (hab_mem_unimport _ _ _ _ _) as [[r w']| |] eqn:He; vm_compute in He; [|done|done].
  injection He as <- <-. eexists. split; [reflexivity|]. split; [exact Hs|reflexivity].
Defined.

(** in the protocol where the other side asks, the code of a successful export
    is whatever the result variable held: it is never set. *)
Lemma export_code_unset :
  forall uninit, exists w', hab_mem_export 1 true 0x7000 1 8192 0 uninit [] (sample quiet_lb) =
    Ok ((uninit, Some 2, []), w').
Proof. intros uninit. eexists. vm_compute. reflexivity. Qed.

(** A kernel where every descriptor is a buffer of the driver's own, of one page. *)
Definition short_platform : Platform loopback_dev :=
  loopback_platform
    {| find_vma := fun _ => None; iterate_fd := fun _ => 0; dma_buf_get := fun _ => Some (DmaPages [5]); dmabuf_at := fun _ => None;
       get_user_pages := fun _ _ => []; kernel_page := fun a => a; dma_buf_export := fun _ => None; dma_buf_fd := fun _ => 3;
       pfn_valid := fun _ => true; region_intersects := fun _ => 0; vmap := fun _ => None; dma_map_sg := fun _ => 0;
       sclk_ticks := fun t => t.1; node_words := fun _ => (0, 0) |}.

(** a process that exports a descriptor of a buffer of the driver's own under a
    larger size makes the driver read past the buffer's page array. *)
Lemma export_short_buffer_overrun :
  hab_mem_export (H := short_platform) 1 false 4 1 8192 HABMM_EXPIMP_FLAGS_FD 0 [] (sample quiet_lb) = Fault OutOfBounds.
Proof. vm_compute. reflexivity. Qed.

(** when the platform data of an export cannot be allocated, the error path
    locks through the export pointer that is still NULL. *)
Theorem export_alloc_crash :
  hab_mem_export (H := short_platform) 1 false 4 1 4096 HABMM_EXPIMP_FLAGS_FD 0 []
    (set_w_alloc [true; false] (sample quiet_lb)) = Fault NullDeref.
Proof. vm_compute. reflexivity. Qed.
