(* ===== verification/Dmabuf.v ===== *)
(** The dma-buf made of an import (os/linux/hab_mem_linux.c): what its users ask of it,
    devices that map it and kernel clients that want an address, until its release. *)
From S2P Require Import Prelude Header World Logic Memory Invariant Loopback Sample Msg Mimex.

(** ** Operations *)

(** An entry of a scatter list: a page, a length and an offset. *)
Record sg_entry := { sg_page : Z; sg_len : Z; sg_off : Z }.

Section ops.
Context {HS : Type} `{Platform HS}.
#[local] Abbreviation M := (World.M HS).

(** The page list behind the buffer. *)
Definition get_pages (a : nat) : M pages_list :=
  let! l := gets w_imp_list in
  match find_pages a l with Some x => ret x | None => fail UseAfterFree end.

(* src/os/linux/hab_mem_linux.c:718-720 hab_mem_map_dma_buf *)
Fixpoint sg_fill (n i : nat) (pages : list Z) : res (list sg_entry) :=
  match n with
  | O => Ok []
  | S n =>
      let? p := of_opt OutOfBounds (pages !! i) in
      let? l := sg_fill n (S i) pages in
      Ok (Build_sg_entry p PAGE_SIZE 0 :: l)
  end.

(** An error code, the table or NULL. *)
(* src/os/linux/hab_mem_linux.c:696-739 hab_mem_map_dma_buf *)
Definition hab_mem_map_dma_buf (a : nat) (vfio : bool) : M (Z + option (list sg_entry)) :=
  let! pglist := get_pages a in
  let! sgt := kalloc in
  match sgt with
  | None => ret (inl (- ENOMEM))
  | Some _ =>
      let! sgl := kalloc in
      match sgl with
      | None => ret (inl (- ENOMEM))
      | Some _ =>
          let! l := lift (sg_fill (Z.to_nat (pl_npages pglist)) 0 (pl_pages pglist)) in
          if vfio && (dma_map_sg (sg_page <$> l) =? 0) then ret (inr None) else ret (inr (Some l))
      end
  end.

(** A mapping of the list into a process refers to it. *)
(* src/os/linux/hab_mem_linux.c:786-792 hab_map_open *)
Definition hab_map_open (vm_private_data : option nat) : M unit :=
  let! a := deref vm_private_data in pages_list_get a.

(* src/os/linux/hab_mem_linux.c:794-801 hab_map_close *)
Definition hab_map_close (vm_private_data : option nat) : M (option nat) :=
  let! a := deref vm_private_data in do! pages_list_put a in ret None.

(* src/os/linux/hab_mem_linux.c:879-884 hab_mem_dma_buf_release *)
Definition hab_mem_dma_buf_release (a : nat) : M unit := pages_list_put a.

(** The code and the address. *)
(* src/os/linux/hab_mem_linux.c:886-902 hab_mem_dma_buf_vmap *)
Definition hab_mem_dma_buf_vmap (a : nat) : M (Z * option Z) :=
  let! pglist := get_pages a in
  match pl_vmapping pglist with
  | Some va => ret (0, Some va)
  | None =>
      match vmap (pl_pages pglist) with
      | None => ret (- ENOMEM, None)
      | Some va => do! upd_pages a (set_pl_vmapping (Some va)) in ret (0, Some va)
      end
  end.

(* src/os/linux/hab_mem_linux.c:904-918 hab_mem_dma_buf_vunmap *)
Definition hab_mem_dma_buf_vunmap (a : nat) : M unit :=
  let! pglist := get_pages a in
  when (bool_decide (is_Some (pl_vmapping pglist))) (upd_pages a (set_pl_vmapping None)).

(* src/os/linux/hab_mem_linux.c:675-684 habmem_imp_hyp_open *)
Definition habmem_imp_hyp_open : M (option nat) := kalloc.

(** What the users of a buffer do with it. *)
(* src/os/linux/hab_mem_linux.c:920-928 dma_buf_ops *)
Inductive dma_buf_op :=
  | OpMapDmaBuf (vfio : bool)
  | OpMmap (vm_start vm_end : Z)
  | OpVmap
  | OpVunmap.

Inductive dma_buf_out :=
  | OutSg (r : Z + option (list sg_entry))
  | OutMmap (r vm_start vm_end : Z) (pages : list Z)
  | OutVmap (r : Z * option Z)
  | OutNone.

Definition dma_buf_call (a : nat) (op : dma_buf_op) : M dma_buf_out :=
  match op with
  | OpMapDmaBuf vfio => let! r := hab_mem_map_dma_buf a vfio in ret (OutSg r)
  | OpMmap s e => let! x := get_pages a in ret (OutMmap (hab_mem_mmap (pl_npages x) s e) s e (pl_pages x))
  | OpVmap => let! r := hab_mem_dma_buf_vmap a in ret (OutVmap r)
  | OpVunmap => do! hab_mem_dma_buf_vunmap a in ret OutNone
  end.

Fixpoint dma_buf_calls (a : nat) (ops : list dma_buf_op) : M (list dma_buf_out) :=
  match ops with
  | [] => ret []
  | op :: ops => let! o := dma_buf_call a op in let! l := dma_buf_calls a ops in ret (o :: l)
  end.
End ops.

(** ** The life of the buffer *)

Section life.
Context {HS : Type} `{Platform HS}.
Implicit Types (w : world HS).

(** The last page list is that of the buffer [a]: the pages [P], and it is mapped nowhere
    or to the kernel's address of them. *)
Definition has_pages w (l : list pages_list) (cnt : Z) (a : nat) (P : list Z) : Prop :=
  exists x, w_imp_list w = l ++ [x] /\ w_imp_cnt w = cnt /\ pl_addr x = a /\ pl_pages x = P /\ pl_npages x = zlen P /\
    pl_refcount x = 1 /\ Forall (fun y => pl_addr y <> a) l /\ (forall va, pl_vmapping x = Some va -> vmap P = Some va).

Lemma find_last l x : Forall (fun y => pl_addr y <> pl_addr x) l -> find_pages (pl_addr x) (l ++ [x]) = Some x.
Proof.
  intros Hl. unfold find_pages. rewrite list.filter_app, filter_none by done.
  by rewrite app_nil_l, filter_cons, decide_True.
Qed.

Lemma upd_last f l x : Forall (fun y => pl_addr y <> pl_addr x) l ->
  (fun y => if decide (pl_addr y = pl_addr x) then f y else y) <$> (l ++ [x]) = l ++ [f x].
Proof.
  intros Hl. rewrite fmap_app. cbn [fmap list_fmap]. rewrite decide_True by done. f_equal.
  induction Hl as [|y l Hy Hl IH]; [done|]. cbn [fmap list_fmap]. rewrite decide_False by done. f_equal. exact IH.
Qed.

Lemma wp_get_pages a l x (Q : pages_list -> world HS -> Prop) w :
  w_imp_list w = l ++ [x] -> pl_addr x = a -> Forall (fun y => pl_addr y <> a) l -> Q x w -> wp (get_pages a) Q w.
Proof. intros Hw <- Hl HQ. apply wp_bind, wp_gets. rewrite Hw, find_last by done. exact HQ. Qed.

Lemma sg_fill_all P : forall n i, (i + n = length P)%nat ->
  sg_fill n i P = Ok ((fun p => Build_sg_entry p PAGE_SIZE 0) <$> drop i P).
Proof.
  induction n as [|n IH]; intros i Hi; cbn [sg_fill].
  - by rewrite drop_ge by lia.
  - destruct (lookup_lt_is_Some_2 P i) as [p Hp]; [lia|]. rewrite Hp. cbn [of_opt res_bind].
    rewrite IH by lia. cbn [res_bind]. by rewrite (drop_S P p i Hp).
Qed.

(** What a user may be told: the pages and nothing else. *)
Definition out_ok (P : list Z) (o : dma_buf_out) : Prop :=
  match o with
  | OutSg (inl e) => e = - ENOMEM
  | OutSg (inr None) => dma_map_sg P = 0
  | OutSg (inr (Some l)) => l = (fun p => Build_sg_entry p PAGE_SIZE 0) <$> P
  | OutMmap r s e pages => pages = P /\ (r = - EINVAL \/
      r = 0 /\ (0 <= s -> e < 2 ^ 64 -> forall x, s <= x < e -> exists p,
        hab_buffer_fault pages (zlen pages) x s = Ok (Some p) /\ P !! Z.to_nat (Z.shiftr (x - s) PAGE_SHIFT) = Some p))
  | OutVmap (r, va) => if r =? 0 then va = vmap P /\ is_Some va else r = - ENOMEM
  | OutNone => True
  end.

(** A new list: its pages are what the table expands to. *)
Lemma create_pages ex flags w :
  table_fits ex = true -> pages_below w ->
  wp (pages_list_create ex flags) (fun o w' => w_imp_list w' = w_imp_list w /\ w_imp_cnt w' = w_imp_cnt w /\
      forall x, o = Some x ->
      expand_regions (Z.to_nat (pfn_nregions (ed_payload ex))) (ed_payload ex) 0 (first_pfn (ed_payload ex)) 0 (ed_payload_count ex)
        = Ok (Some (pl_pages x)) /\
      pl_npages x = ed_payload_count ex /\ pl_refcount x = 1 /\ pl_vmapping x = None /\
      Forall (fun y => pl_addr y <> pl_addr x) (w_imp_list w)) w.
Proof.
  intros Hfit Hb. unfold pages_list_create. cbv zeta. destruct (negb _ || _); [by apply wp_ret|].
  apply wp_bind, wp_kalloc; intros l; apply wp_bind; [by apply wp_ret, wp_ret|].
  apply wp_kalloc; intros l2; [by apply wp_ret|]. apply wp_bind, wp_lift. unfold table_fits, sizeof_region in Hfit.
  destruct (expand_regions_total (Z.to_nat (pfn_nregions (ed_payload ex))) (ed_payload ex) 0
    (first_pfn (ed_payload ex)) 0 (ed_payload_count ex)) as [[pages|] He]; [lia|lia|..]; rewrite He; apply wp_ret; [|done].
  split; [done|]. split; [done|]. intros x [= <-]. split_and!; try done.
  eapply Forall_impl; [|exact Hb]. simpl. lia.
Qed.

Lemma has_pages_alloc w l cnt a P k b :
  has_pages w l cnt a P -> has_pages (set_w_next k (set_w_alloc b w)) l cnt a P /\ has_pages (set_w_alloc b w) l cnt a P.
Proof. by intros Hp. Qed.

Lemma map_dma_buf_spec vfio l cnt a P w :
  has_pages w l cnt a P -> wp (hab_mem_map_dma_buf a vfio) (fun r w' => out_ok P (OutSg r) /\ has_pages w' l cnt a P) w.
Proof.
  intros Hp. pose proof Hp as (x & Hw & _ & Ha & HP & Hn & _ & Hl & _). apply wp_bind. eapply wp_get_pages; [done..|].
  apply wp_bind, wp_kalloc; intros b1; [by apply wp_ret|].
  apply wp_bind, wp_kalloc; intros b2; [by apply wp_ret|].
  apply wp_bind, wp_lift. rewrite Hn, HP, sg_fill_all by (unfold zlen; lia). rewrite drop_0.
  destruct (vfio && _) eqn:Hv; apply wp_ret; (split; [|done]); cbn [out_ok]; [|done].
  bool_hyps. rewrite <- list_fmap_compose in *. rewrite (list_fmap_ext _ id P) in * by done. by rewrite list_fmap_id in *.
Qed.

Lemma vmap_spec l cnt a P w :
  has_pages w l cnt a P -> wp (hab_mem_dma_buf_vmap a) (fun r w' => out_ok P (OutVmap r) /\ has_pages w' l cnt a P) w.
Proof.
  intros Hp. pose proof Hp as (x & Hw & Hc & Ha & HP & Hn & Hr & Hl & Hv). apply wp_bind. eapply wp_get_pages; [done..|].
  destruct (pl_vmapping x) as [va|] eqn:Hx.
  { apply wp_ret. split; [|done]. cbn. rewrite (Hv va eq_refl). by split. }
  rewrite HP. destruct (vmap P) as [va|] eqn:Hm; [|by apply wp_ret].
  apply wp_bind, wp_modify, wp_ret. split; [by split|]. exists (set_pl_vmapping (Some va) x). cbn [w_imp_list set_w_imp_list w_imp_cnt].
  rewrite Hw. rewrite <- Ha in Hl |- *. rewrite upd_last by done. split_and!; try done. by intros ? [= <-].
Qed.

Lemma vunmap_spec l cnt a P w :
  has_pages w l cnt a P -> wp (hab_mem_dma_buf_vunmap a) (fun _ w' => has_pages w' l cnt a P) w.
Proof.
  intros Hp. pose proof Hp as (x & Hw & Hc & Ha & HP & Hn & Hr & Hl & Hv). apply wp_bind. eapply wp_get_pages; [done..|].
  apply wp_when; intros _; [|done]. apply wp_modify. exists (set_pl_vmapping None x). cbn [w_imp_list set_w_imp_list w_imp_cnt].
  rewrite Hw. rewrite <- Ha in Hl |- *. rewrite upd_last by done. by split_and!.
Qed.

Lemma call_spec op l cnt a P w :
  has_pages w l cnt a P -> wp (dma_buf_call a op) (fun o w' => out_ok P o /\ has_pages w' l cnt a P) w.
Proof.
  intros Hp. destruct op as [vfio|s e| |]; cbn [dma_buf_call]; apply wp_bind.
  - eapply wp_mono; [by apply map_dma_buf_spec|]. intros r w' Hr. by apply wp_ret.
  - pose proof Hp as (x & Hw & _ & Ha & HP & Hn & _ & Hl & _). eapply wp_get_pages; [done..|]. apply wp_ret.
    split; [|done]. rewrite Hn, HP. cbn [out_ok]. split; [done|].
    assert (Hm : hab_mem_mmap (zlen P) s e = - EINVAL \/ hab_mem_mmap (zlen P) s e = 0).
    { unfold hab_mem_mmap. destruct (_ <? _); [by left|by right]. }
    destruct Hm as [Hm|Hm]; rewrite Hm; [by left|]. right. split; [done|]. intros Hs He y Hy.
    by apply (mmap_guards_fault P s e).
  - eapply wp_mono; [by apply vmap_spec|]. intros r w' Hr. by apply wp_ret.
  - eapply wp_mono; [by apply vunmap_spec|]. intros r w' Hr. by apply wp_ret.
Qed.

Lemma calls_spec ops : forall l cnt a P w,
  has_pages w l cnt a P -> wp (dma_buf_calls a ops) (fun os w' => Forall (out_ok P) os /\ has_pages w' l cnt a P) w.
Proof.
  induction ops as [|op ops IH]; intros l cnt a P w Hp; cbn [dma_buf_calls]; [by apply wp_ret|].
  apply wp_bind. eapply wp_mono; [by apply call_spec|]. intros o w1 [Ho Hp1].
  apply wp_bind. eapply wp_mono; [by apply IH|]. intros os w2 [Hos Hp2]. apply wp_ret. split; [by constructor|done].
Qed.

Lemma release_spec l cnt a P w :
  has_pages w l cnt a P -> wp (hab_mem_dma_buf_release a) (fun _ w' => w_imp_list w' = l /\ w_imp_cnt w' = cnt - 1) w.
Proof.
  intros (x & Hw & Hc & <- & HP & Hn & Hr & Hl & Hv). apply wp_bind, wp_gets. rewrite Hw, find_last by done. rewrite Hr.
  change (1 <=? 0) with false. apply wp_bind, wp_modify. apply wp_when; [|done]. intros _. apply wp_modify.
  cbn [w_imp_list w_imp_cnt set_w_imp_list set_w_imp_cnt]. rewrite Hw, upd_last by done. split; [|lia].
  rewrite list.filter_app, filter_cons, decide_False by (cbn; auto). rewrite filter_nil, app_nil_r.
  by apply filter_all.
Qed.

(** C37: A buffer that is made of an import gives its users, whatever they ask of it and
    in whatever order, exactly the pages that the descriptor's table lists: a device gets
    them in order and whole, a mapping into a process finds one for every fault, the
    kernel's address is one of them; when it is released the driver's list of imported
    pages and its count are as before the import. *)
Theorem import_buffer_life (ex : export_desc) (flags : Z) (ops : list dma_buf_op) w :
  table_fits ex = true -> pages_below w ->
  wp (habmem_import_to_dma_buf ex flags)
    (fun r w1 => match r with
     | None => w_imp_list w1 = w_imp_list w /\ w_imp_cnt w1 = w_imp_cnt w
     | Some (buf, a) => exists P,
         expand_regions (Z.to_nat (pfn_nregions (ed_payload ex))) (ed_payload ex) 0 (first_pfn (ed_payload ex)) 0 (ed_payload_count ex)
           = Ok (Some P) /\ zlen P = ed_payload_count ex /\
         wp (dma_buf_calls a ops) (fun os w2 => Forall (out_ok P) os /\
           wp (hab_mem_dma_buf_release a) (fun _ w3 => w_imp_list w3 = w_imp_list w /\ w_imp_cnt w3 = w_imp_cnt w) w2) w1
     end) w.
Proof.
  intros Hfit Hb. unfold habmem_import_to_dma_buf. apply wp_bind. eapply wp_mono; [by apply create_pages|].
  intros [x|] w1 (Hl & Hc & Hx); [|by apply wp_ret]. destruct (Hx x eq_refl) as (He & Hn & Hr & Hv & Hne).
  apply wp_bind, wp_modify. set (w2 := set_w_imp_cnt _ _).
  assert (Hlen : zlen (pl_pages x) = ed_payload_count ex).
  { unfold table_fits in Hfit. bool_hyps. apply (expand_regions_len _ _ _ _ _ _ _) in He; unfold MAX_EXP_PAYLOAD_COUNT in *; lia. }
  assert (Hp : has_pages w2 (w_imp_list w) (w_imp_cnt w + 1) (pl_addr x) (pl_pages x)).
  { exists x. cbn. rewrite Hl, Hc. split_and!; try done; [congruence|]. intros va Hva. congruence. }
  destruct (dma_buf_export _) as [buf|].
  - apply wp_ret. exists (pl_pages x). split; [done|]. split; [done|]. eapply wp_mono; [by apply calls_spec|].
    intros os w3 [Hos Hp3]. split; [done|]. eapply wp_mono; [eapply release_spec; exact Hp3|]. intros _ w4 [Hl4 Hc4]. split; [done|lia].
  - apply wp_bind. eapply wp_mono; [eapply release_spec; exact Hp|]. intros _ w3 [Hl3 Hc3]. apply wp_ret. split; [done|lia].
Qed.
End life.

(** An import of two pages, for which the kernel is asked for an address and that a
    device maps. *)
Definition two_pages : export_desc :=
  set_ed_payload_count 2 (set_ed_payload (le_enc 8 70 ++ le_enc 4 1 ++ le_enc 4 2 ++ le_enc 4 0) sample_import).

Lemma two_pages_imported : habmem_import_to_dma_buf two_pages 0 (sample quiet_lb) <> Blocked.
Proof. vm_compute. discriminate. Qed.

Lemma import_buffer_life_witness :
  exists r w1, habmem_import_to_dma_buf two_pages 0 (sample quiet_lb) = Ok (r, w1) /\
    match r with
    | None => False
    | Some (buf, a) => exists P, zlen P = 2 /\
        wp (dma_buf_calls a [OpVmap; OpMapDmaBuf false]) (fun os w2 => Forall (out_ok P) os /\
          wp (hab_mem_dma_buf_release a) (fun _ w3 => w_imp_list w3 = [] /\ w_imp_cnt w3 = 0) w2) w1
    end.
Proof.
  pose proof (import_buffer_life two_pages 0 [OpVmap; OpMapDmaBuf false] (sample quiet_lb) eq_refl ltac:(by constructor)) as Hl.
  apply wp_ended in Hl; [|apply two_pages_imported]. destruct Hl as (r & w1 & He & Hr). exists r, w1. split; [exact He|].
  destruct r as [[buf a]|].
  - destruct Hr as (P & _ & Hz & Hw). exists P. split; [exact Hz|exact Hw].
  - vm_compute in He. discriminate He.
Defined.
