(* ===== verification/Progress.v ===== *)
(** What the operations that wait for nobody are built from: steps on the driver's
    own objects, sends and reads.  From that follow, for all of them at once, that
    they return or fault unless the transport puts a sender to sleep, and that they
    change the transport's state only as sends and reads do.  With the specifications
    of the other files, which exclude the faults, they return. *)
From S2P Require Import Prelude Header World Logic Memory Invariant Pchan Exports Context Vchan Wait Open Loopback Sample Msg Mimex.

(** A step that does not sleep and leaves the transport alone. *)
Definition local {HS A} (m : M HS A) : Prop := forall w,
  match m w with Ok (_, w') => w_hyp w' = w_hyp w | Fault _ => True | Blocked => False end.

(** An operation made of local steps, sends and reads. *)
Inductive built {HS} `{Platform HS} : forall {A}, M HS A -> Prop :=
  | built_bind {A B} (m : M HS A) (k : A -> M HS B) : built m -> (forall a, built (k a)) -> built (bind m k)
  | built_local {A} (m : M HS A) : local m -> built m
  | built_send p h bs : built (physical_channel_send p h bs)
  | built_read p n : built (physical_channel_read p n).

(** The operation is never left asleep. *)
Definition runs {HS A} (m : M HS A) : Prop := forall w, m w <> Blocked.

(** A transport that puts no sender to sleep. *)
Definition awake {HS} `{Platform HS} : Prop := forall pc hs h bs, phys_send pc hs h bs <> None.

Lemma built_runs {HS} `{Platform HS} {A} (m : M HS A) : awake -> built m -> runs m.
Proof.
  intros Ha. induction 1 as [A B m k _ IHm _ IHk|A m Hl|p h bs|p n]; intros w.
  - unfold bind. specialize (IHm w). destruct (m w) as [[a w']| |]; [apply IHk|done|done].
  - specialize (Hl w). by destruct (m w).
  - unfold physical_channel_send. destruct (w_pchans w !! p) as [pc|], (w_hyp w !! p) as [hs|]; try done.
    pose proof (Ha pc hs h bs). by destruct (phys_send pc hs h bs) as [[[r q] hs']|].
  - unfold physical_channel_read. destruct (w_pchans w !! p) as [pc|], (w_hyp w !! p) as [hs|]; try done.
    by destruct (phys_read pc hs n) as [[r bs] hs'].
Qed.

(** What every send and read keeps of the transport's state, the operation keeps. *)
Section keeps.
Context {HS : Type} `{Platform HS} (R : HS -> HS -> Prop) `{!PreOrder R}.

Definition hyp_keeps (w w' : world HS) : Prop :=
  forall p hs, w_hyp w !! p = Some hs -> exists hs', w_hyp w' !! p = Some hs' /\ R hs hs'.

Lemma hyp_keeps_refl w w' : w_hyp w' = w_hyp w -> hyp_keeps w w'.
Proof. intros He p hs Hp. exists hs. by rewrite He. Qed.

Lemma hyp_keeps_insert w w' p hs hs' :
  w_hyp w !! p = Some hs -> R hs hs' -> w_hyp w' = <[p := hs']> (w_hyp w) -> hyp_keeps w w'.
Proof.
  intros Hp HR He q qs Hq. rewrite He, lookup_insert. case_decide; [|by exists qs]. subst q.
  assert (qs = hs) as -> by congruence. by exists hs'.
Qed.

Lemma built_keeps {A} (m : M HS A) :
  (forall pc hs h bs r q hs', phys_send pc hs h bs = Some (r, q, hs') -> R hs hs') ->
  (forall pc hs n, R hs (phys_read pc hs n).2) ->
  built m -> forall w a w', m w = Ok (a, w') -> hyp_keeps w w'.
Proof.
  intros Hs Hr. induction 1 as [A B m k _ IHm _ IHk|A m Hl|p h bs|p n]; intros w a w' He.
  - unfold bind in He. destruct (m w) as [[x w1]| |] eqn:E1; try done. intros p hs Hp.
    destruct (IHm _ _ _ E1 p hs Hp) as (hs1 & Hp1 & HR1). destruct (IHk _ _ _ _ He p hs1 Hp1) as (hs2 & Hp2 & HR2).
    exists hs2. split; [done|]. by etrans.
  - specialize (Hl w). rewrite He in Hl. by apply hyp_keeps_refl.
  - unfold physical_channel_send in He. destruct (w_pchans w !! p) as [pc|], (w_hyp w !! p) as [hs|] eqn:Hp; try done.
    destruct (phys_send pc hs h bs) as [[[r q] hs']|] eqn:E; [|done]. injection He as _ <-.
    eapply hyp_keeps_insert; [done|by eapply Hs|done].
  - unfold physical_channel_read in He. destruct (w_pchans w !! p) as [pc|], (w_hyp w !! p) as [hs|] eqn:Hp; try done.
    pose proof (Hr pc hs n) as HR. destruct (phys_read pc hs n) as [[r bs] hs']. injection He as _ <-.
    by eapply hyp_keeps_insert.
Qed.
End keeps.

Lemma wf_held_pchan {HS} h (w : world HS) p : wf h w -> p ∈ h_p h -> is_Some (w_pchans w !! p).
Proof. intros [_ _ _ _ (_ & _ & _ & _ & _ & _ & Hhp & _) _]. apply Hhp. Qed.

(** What holds of every run that returns, besides its specification. *)
Lemma wp_run {HS A} (m : M HS A) Q (R : world HS -> Prop) w :
  wp m Q w -> (forall a w', m w = Ok (a, w') -> R w') -> wp m (fun a w' => Q a w' /\ R w') w.
Proof. unfold wp. destruct (m w) as [[a w']| |]; eauto. Qed.

Create HintDb built.

Section rules.
Context {HS : Type} `{Platform HS}.

Lemma built_ret {A} (a : A) : built (HS := HS) (ret a).
Proof. apply built_local. intros w. simpl. reflexivity || exact I. Qed.
Lemma built_fail {A} f : built (HS := HS) (A := A) (fail f).
Proof. apply built_local. intros w. simpl. reflexivity || exact I. Qed.
Lemma built_gets {A} (f : world HS -> A) : built (gets f).
Proof. apply built_local. intros w. simpl. reflexivity || exact I. Qed.
Lemma built_modify (f : world HS -> world HS) : (forall w, w_hyp (f w) = w_hyp w) -> built (modify f).
Proof. intros Hf. apply built_local. intros w. apply Hf. Qed.
Lemma built_when b (m : M HS unit) : built m -> built (when b m).
Proof. destruct b; [done|]. intros _. apply built_ret. Qed.
Lemma built_for_each {A} (f : A -> M HS unit) l : (forall x, built (f x)) -> built (for_each f l).
Proof. intros Hf. induction l; simpl; [apply built_ret|]. by apply built_bind. Qed.
Lemma built_deref (o : option nat) : built (HS := HS) (deref o).
Proof. destruct o; [apply built_ret|apply built_fail]. Qed.
Lemma built_log ev : built (HS := HS) (log ev).
Proof. apply built_local. intros w. simpl. reflexivity || exact I. Qed.
Lemma built_kalloc : built (HS := HS) kalloc.
Proof. apply built_local. intros w. unfold kalloc. by destruct (w_alloc w) as [|[] ?]. Qed.
Lemma built_get_p x : built (HS := HS) (get_p x).
Proof. apply built_local. intros w. unfold get_p. by destruct (_ !! x). Qed.
Lemma built_get_v x : built (HS := HS) (get_v x).
Proof. apply built_local. intros w. unfold get_v. by destruct (_ !! x). Qed.
Lemma built_get_c x : built (HS := HS) (get_c x).
Proof. apply built_local. intros w. unfold get_c. by destruct (_ !! x). Qed.
Lemma built_get_e x : built (HS := HS) (get_e x).
Proof. apply built_local. intros w. unfold get_e. by destruct (_ !! x). Qed.
Lemma built_get_i x : built (HS := HS) (get_i x).
Proof. apply built_local. intros w. unfold get_i. by destruct (_ !! x). Qed.
Lemma built_get_d x : built (HS := HS) (get_d x).
Proof. apply built_local. intros w. unfold get_d. by destruct (_ !! x). Qed.
Lemma built_upd_p x f : built (HS := HS) (upd_p x f).
Proof. apply built_local. intros w. unfold upd_p. by destruct (_ !! x). Qed.
Lemma built_upd_v x f : built (HS := HS) (upd_v x f).
Proof. apply built_local. intros w. unfold upd_v. by destruct (_ !! x). Qed.
Lemma built_upd_c x f : built (HS := HS) (upd_c x f).
Proof. apply built_local. intros w. unfold upd_c. by destruct (_ !! x). Qed.
Lemma built_upd_e x f : built (HS := HS) (upd_e x f).
Proof. apply built_local. intros w. unfold upd_e. by destruct (_ !! x). Qed.
Lemma built_upd_i x f : built (HS := HS) (upd_i x f).
Proof. apply built_local. intros w. unfold upd_i. by destruct (_ !! x). Qed.
Lemma built_upd_d x f : built (HS := HS) (upd_d x f).
Proof. apply built_local. intros w. unfold upd_d. by destruct (_ !! x). Qed.
Lemma built_msg_free m : built (HS := HS) (hab_msg_free m).
Proof. unfold hab_msg_free. destruct (_ && _); [apply built_fail|apply built_ret]. Qed.
End rules.

#[export] Hint Resolve built_ret built_fail built_gets built_send built_read built_deref built_log built_kalloc built_get_p
  built_get_v built_get_c built_get_e built_get_i built_get_d built_upd_p built_upd_v built_upd_c built_upd_e built_upd_i
  built_upd_d built_msg_free : built.

(** Down through the sequences and the branches, to the calls. *)
Ltac built :=
  repeat match goal with
  | |- built (bind _ _) => apply built_bind; [|intros ?]
  | |- built (when _ _) => apply built_when
  | |- built (for_each _ _) => apply built_for_each; intros ?
  | |- built (modify _) => apply built_modify; done
  | |- built (match ?x with _ => _ end) => destruct x
  | |- built (let _ := _ in _) => cbv zeta
  | |- _ => solve [auto with built]
  end.

Section operations.
Context {HS : Type} `{Platform HS} `{KernelIdr}.
#[local] Abbreviation built := (@Progress.built HS _ _).

Lemma built_pchan_put p : built (hab_pchan_put p).
Proof. unfold hab_pchan_put, hab_pchan_free. built. Qed.
Lemma built_pchan_get p : built (hab_pchan_get p).
Proof. unfold hab_pchan_get. built. Qed.
Lemma built_export_put e : built (habmem_export_put e).
Proof. unfold habmem_export_put, habmem_export_destroy, habmem_exp_release. built. Qed.
Lemma built_expid_remove p i : built (expid_remove p i).
Proof. unfold expid_remove. built. Qed.
#[local] Hint Resolve built_pchan_put built_pchan_get built_export_put built_expid_remove : built.
Lemma built_remove_export e : built (habmem_remove_export e).
Proof. unfold habmem_remove_export. built. Qed.
#[local] Hint Resolve built_remove_export : built.

Lemma built_free_export c e : built (ctx_free_export c e).
Proof. unfold ctx_free_export. built. Qed.
Lemma built_free_import c kernel k e : built (ctx_free_import c kernel k e).
Proof. unfold ctx_free_import. built. Qed.
Lemma built_touch v : built (touch_v v).
Proof. unfold touch_v. built. Qed.
#[local] Hint Resolve built_free_export built_free_import built_touch : built.
Lemma built_ctx_put c : built (hab_ctx_put c).
Proof. unfold hab_ctx_put, hab_ctx_free. built. Qed.
#[local] Hint Resolve built_ctx_put : built.
Lemma built_vchan_put v : built (hab_vchan_put v).
Proof. unfold hab_vchan_put, hab_vchan_free. built. Qed.
Lemma built_vchan_get p h : built (hab_vchan_get p h).
Proof. unfold hab_vchan_get. built. Qed.
Lemma built_vchan_stop v : built (hab_vchan_stop v).
Proof. unfold hab_vchan_stop. built. Qed.
Lemma built_unimport_msg v i : built (hab_send_unimport_msg v i).
Proof. unfold hab_send_unimport_msg. built. Qed.
#[local] Hint Resolve built_vchan_put built_vchan_get built_vchan_stop built_unimport_msg : built.
Lemma built_vcid_walk vcid ign l : built (vcid_walk vcid ign l).
Proof. induction l; simpl; built. Qed.
#[local] Hint Resolve built_vcid_walk : built.
Lemma built_fromvcid vcid c ign : built (hab_get_vchan_fromvcid vcid c ign).
Proof. unfold hab_get_vchan_fromvcid. built. Qed.
#[local] Hint Resolve built_fromvcid : built.

(** *** What arrives *)

Lemma built_scatter_alloc l : built (scatter_alloc l).
Proof. induction l; simpl; built. Qed.
Lemma built_scatter_read p l n : built (scatter_read p l n).
Proof. revert n. induction l; intros n; simpl; built. Qed.
#[local] Hint Resolve built_scatter_alloc built_scatter_read : built.
Lemma built_msg_alloc p n : built (hab_msg_alloc p n).
Proof. unfold hab_msg_alloc, hab_scatter_msg_alloc. built. Qed.
Lemma built_msg_queue v m : built (hab_msg_queue v m).
Proof. unfold hab_msg_queue. built. Qed.
Lemma built_msg_drop p n : built (hab_msg_drop p n).
Proof. unfold hab_msg_drop. built. Qed.
Lemma built_stamp off st m : built (stamp_msg off st m).
Proof. unfold stamp_msg. built. Qed.
#[local] Hint Resolve built_msg_alloc built_msg_queue built_msg_drop built_stamp : built.
Lemma built_recv_stamped p v n off st : built (recv_stamped p v n off st).
Proof. unfold recv_stamped. built. Qed.
Lemma built_invalid_ack v i : built (hab_create_invalid_ack v i).
Proof. unfold hab_create_invalid_ack, imp_rxq_add. built. Qed.
#[local] Hint Resolve built_recv_stamped built_invalid_ack : built.
Lemma built_desc_err v b i r : built (export_desc_err v b i r).
Proof. unfold export_desc_err. built. Qed.
Lemma built_enqueue v a ex : built (hab_export_enqueue v a ex).
Proof. unfold hab_export_enqueue. built. Qed.
Lemma built_send_export_ack v p d : built (hab_send_export_ack v p d).
Proof. unfold hab_send_export_ack. built. Qed.
#[local] Hint Resolve built_desc_err built_enqueue built_send_export_ack : built.
Lemma built_receive_desc p v n : built (hab_receive_export_desc p v n).
Proof. unfold hab_receive_export_desc, imp_rxq_add. built. Qed.
Lemma built_create_ack p c n : built (hab_receive_create_export_ack p c n).
Proof. unfold hab_receive_create_export_ack. built. Qed.
Lemma built_ack_fail p v : built (hab_receive_import_ack_fail p v).
Proof. unfold hab_receive_import_ack_fail, imp_rxq_add. built. Qed.
Lemma built_send_import_ack v e : built (hab_send_import_ack v e).
Proof. unfold hab_send_import_ack. built. Qed.
Lemma built_send_ack_fail v i : built (hab_send_import_ack_fail v i).
Proof. unfold hab_send_import_ack_fail. built. Qed.
Lemma built_recv_unimport p b : built (hab_recv_unimport_msg p b).
Proof. unfold hab_recv_unimport_msg. built. Qed.
#[local] Hint Resolve built_receive_desc built_create_ack built_ack_fail built_send_import_ack built_send_ack_fail
  built_recv_unimport : built.
Lemma built_recv_import p v : built (recv_import p v).
Proof. unfold recv_import. built. Qed.
#[local] Hint Resolve built_recv_import : built.
Lemma built_recv_on_vchan p v n t : built (recv_on_vchan p v n t).
Proof. unfold recv_on_vchan. built. Qed.
Lemma built_request_add p n t : built (hab_open_request_add p n t).
Proof. unfold hab_open_request_add. built. Qed.
Lemma built_receive_cancel p n : built (hab_open_receive_cancel p n).
Proof. unfold hab_open_receive_cancel. built. Qed.
#[local] Hint Resolve built_recv_on_vchan built_request_add built_receive_cancel : built.
Lemma built_msg_recv p hd : built (hab_msg_recv p hd).
Proof. unfold hab_msg_recv, recv_open. built. Qed.

(** *** What a client takes back *)

Lemma built_unexport c vcid i : built (hab_mem_unexport c vcid i).
Proof. unfold hab_mem_unexport. built. Qed.
Lemma built_unimport c kernel vcid i : built (hab_mem_unimport c kernel vcid i).
Proof. unfold hab_mem_unimport, unimport_claim, import_drop. built. Qed.
End operations.

(** A specification without faults, of an operation that is not left asleep. *)
Lemma wp_runs {HS A} (m : M HS A) (Q : A -> world HS -> Prop) w :
  wp m Q w -> runs m -> exists a w', m w = Ok (a, w') /\ Q a w'.
Proof. intros Hw Hr. specialize (Hr w). unfold wp in Hw. destruct (m w) as [[a w']| |]; [by eexists _, _|done|done]. Qed.

Section returns.
Context {HS : Type} `{Platform HS} `{KernelIdr}.
#[local] Abbreviation sched := (list (wake HS)).


End returns.

(** A kernel without memory to share. *)
Definition no_memory : LinuxCalls :=
  {| find_vma := fun _ => None; iterate_fd := fun _ => 0; dma_buf_get := fun _ => None; dmabuf_at := fun _ => None;
     get_user_pages := fun _ _ => []; kernel_page := fun a => a; dma_buf_export := fun _ => None; dma_buf_fd := fun _ => 3;
     pfn_valid := fun _ => true; region_intersects := fun _ => 0; vmap := fun _ => None; dma_map_sg := fun _ => 0;
     sclk_ticks := fun t => t.1; node_words := fun _ => (0, 0) |}.

(** A transport that takes every message and delivers as the loopback one. *)
Definition sink_platform : Platform loopback_dev.
Proof.
  refine {| phys_send := fun pc hs _ _ => Some (0, pc_sequence_tx pc, hs);
            phys_read := lb_phys_read; phys_up := lb_up;
            kernel_calls := no_memory |}.
  - by intros pc hs h bs r q hs' [= <- <- <-].
  - intros pc hs n Hn. by apply lb_phys_read_bounds.
  - intros pc hs n Hn _. by apply lb_phys_read_bounds.
  - exact (@phys_read_up _ sample_platform).
Defined.

Lemma sink_awake : @awake _ sink_platform.
Proof. done. Qed.


