(* ===== verification/Virtio.v ===== *)
(** The virtio transport of a guest (hypervisor/virtio/hab_virtio.c), the data path:
    the buffer pools of a channel, its two virtqueues, sending, the return of sent
    buffers and reception.  It is a second implementation of the platform interface of
    World.v.  The kernel's virtqueue is an interface of its own. *)
From S2P Require Import Prelude Header World Logic Memory Invariant Pchan Exports Context Vchan Wait Open Loopback Sample Msg Mimex Progress.

(** ** Buffers *)

(* src/hypervisor/virtio/hab_virtio.c:43-49 pool_type_t *)
Inductive pool_type_t := PT_OUT_SMALL | PT_OUT_MEDIUM | PT_OUT_LARGE | PT_IN.

#[export] Instance pool_type_eq_dec : EqDecision pool_type_t.
Proof. solve_decision. Defined.

(* src/hypervisor/virtio/hab_virtio.c:51-51 GUARD_BAND_SZ *)
Definition GUARD_BAND_SZ : Z := 20.

(** The address of the buffer is its offset in the memory of its pool. *)
(* src/hypervisor/virtio/hab_virtio.c:53-62 vh_buf_header *)
Record vh_buf_header := {
  hd_buf : Z;
  hd_size : Z;
  hd_pool_type : pool_type_t;
  hd_index : Z;
  hd_payload_size : Z
}.

Definition set_hd_buf (x : Z) (r : vh_buf_header) : vh_buf_header :=
  Build_vh_buf_header x (hd_size r) (hd_pool_type r) (hd_index r) (hd_payload_size r).
Definition set_hd_size (x : Z) (r : vh_buf_header) : vh_buf_header :=
  Build_vh_buf_header (hd_buf r) x (hd_pool_type r) (hd_index r) (hd_payload_size r).
Definition set_hd_pool_type (x : pool_type_t) (r : vh_buf_header) : vh_buf_header :=
  Build_vh_buf_header (hd_buf r) (hd_size r) x (hd_index r) (hd_payload_size r).
Definition set_hd_index (x : Z) (r : vh_buf_header) : vh_buf_header :=
  Build_vh_buf_header (hd_buf r) (hd_size r) (hd_pool_type r) x (hd_payload_size r).
Definition set_hd_payload_size (x : Z) (r : vh_buf_header) : vh_buf_header :=
  Build_vh_buf_header (hd_buf r) (hd_size r) (hd_pool_type r) (hd_index r) x.


(** The size of the structure: a pointer, four words, a list node and the padding,
    rounded up to 8. *)
Definition sizeof_vh_buf_header : Z := 64.

(* src/hypervisor/virtio/hab_virtio.c:64-67 IN_BUF_SIZE *)
Definition buf_size (t : pool_type_t) : Z :=
  match t with PT_OUT_SMALL => 512 | PT_OUT_MEDIUM => 5120 | PT_OUT_LARGE => 51200 | PT_IN => 5120 end.

(* src/hypervisor/virtio/hab_virtio.c:69-72 IN_BUF_NUM *)
Definition buf_num (t : pool_type_t) : Z :=
  match t with PT_OUT_SMALL => 200 | PT_OUT_MEDIUM => 100 | PT_OUT_LARGE => 10 | PT_IN => 100 end.

(* src/hypervisor/virtio/hab_virtio.c:74-85 IN_BUF_POOL_SLOT *)
Definition buf_slot (t : pool_type_t) : Z := GUARD_BAND_SZ + sizeof_vh_buf_header + buf_size t.

(* src/hypervisor/virtio/hab_virtio.c:87-90 IN_POOL_SIZE *)
Definition pool_size (t : pool_type_t) : Z := buf_slot t * buf_num t.

(** The headers of a pool from the [i]-th on, and their number. *)
(* src/hypervisor/virtio/hab_virtio.c:284-294 init_pool_list *)
Fixpoint init_pool_from (buf_size : Z) (t : pool_type_t) (i : Z) (n : nat) (ptr : Z) : list vh_buf_header :=
  match n with
  | O => []
  | S n =>
      let hd := Build_vh_buf_header (ptr + GUARD_BAND_SZ + sizeof_vh_buf_header) buf_size t i 0 in
      hd :: init_pool_from buf_size t (i + 1) n (hd_buf hd + buf_size)
  end.

(* src/hypervisor/virtio/hab_virtio.c:270-295 init_pool_list *)
Definition init_pool_list (buf_size buf_num : Z) (t : pool_type_t) (cnt : Z) : list vh_buf_header * Z :=
  let l := init_pool_from buf_size t 0 (Z.to_nat buf_num) 0 in (l, cnt + zlen l).

(** ** The kernel's virtqueue

    [vq_held] are the buffers that were added and not yet handed back.  A buffer comes
    back with the length that the device says it wrote and what its memory then
    holds; the device writes no more than the buffer. *)
Class Virtqueue (VQ : Type) := {
  vq_held : VQ -> list vh_buf_header;
  virtqueue_add_outbuf : VQ -> vh_buf_header -> bytes -> Z * VQ;
  virtqueue_add_inbuf : VQ -> vh_buf_header -> Z * VQ;
  virtqueue_get_buf : VQ -> option (vh_buf_header * Z * bytes) * VQ;
  virtqueue_kick : VQ -> bool * VQ;
  vq_add_out_held : forall q hd bs r q', virtqueue_add_outbuf q hd bs = (r, q') ->
    vq_held q' ≡ₚ (if r =? 0 then [hd] else []) ++ vq_held q;
  vq_add_in_held : forall q hd r q', virtqueue_add_inbuf q hd = (r, q') ->
    vq_held q' ≡ₚ (if r =? 0 then [hd] else []) ++ vq_held q;
  vq_get_held : forall q hd len bs q', virtqueue_get_buf q = (Some (hd, len, bs), q') ->
    vq_held q ≡ₚ hd :: vq_held q' /\ zlen bs = hd_size hd;
  vq_get_none : forall q q', virtqueue_get_buf q = (None, q') -> vq_held q' ≡ₚ vq_held q;
  vq_kick_held : forall q r q', virtqueue_kick q = (r, q') -> vq_held q' ≡ₚ vq_held q
}.

(** ** A channel's side of the device *)

(** [vp_read_data] is the received buffer that is being handled, [vp_task] whether
    the tasklet that handles the others is scheduled. *)
(* src/hypervisor/virtio/hab_virtio.h:18-52 vq_pchan *)
Record vq_pchan (VQ : Type) := {
  vp_mmid : Z;
  vp_pchan : option nat;
  vp_vhab : option nat;
  vp_tx : VQ;
  vp_rx : VQ;
  vp_s_pool : option bytes;
  vp_s_list : list vh_buf_header;
  vp_s_cnt : Z;
  vp_m_pool : option bytes;
  vp_m_list : list vh_buf_header;
  vp_m_cnt : Z;
  vp_l_pool : option bytes;
  vp_l_list : list vh_buf_header;
  vp_l_cnt : Z;
  vp_in_list : list vh_buf_header;
  vp_in_cnt : Z;
  vp_read_data : option bytes;
  vp_read_size : Z;
  vp_read_offset : Z;
  vp_pchan_ready : bool;
  vp_task : bool
}.
Arguments Build_vq_pchan {VQ}.
Arguments vp_mmid {VQ} _.
Arguments vp_pchan {VQ} _.
Arguments vp_vhab {VQ} _.
Arguments vp_tx {VQ} _.
Arguments vp_rx {VQ} _.
Arguments vp_s_pool {VQ} _.
Arguments vp_s_list {VQ} _.
Arguments vp_s_cnt {VQ} _.
Arguments vp_m_pool {VQ} _.
Arguments vp_m_list {VQ} _.
Arguments vp_m_cnt {VQ} _.
Arguments vp_l_pool {VQ} _.
Arguments vp_l_list {VQ} _.
Arguments vp_l_cnt {VQ} _.
Arguments vp_in_list {VQ} _.
Arguments vp_in_cnt {VQ} _.
Arguments vp_read_data {VQ} _.
Arguments vp_read_size {VQ} _.
Arguments vp_read_offset {VQ} _.
Arguments vp_pchan_ready {VQ} _.
Arguments vp_task {VQ} _.

Definition set_vp_mmid {VQ} (x : Z) (r : vq_pchan VQ) : vq_pchan VQ :=
  Build_vq_pchan x (vp_pchan r) (vp_vhab r) (vp_tx r) (vp_rx r) (vp_s_pool r) (vp_s_list r) (vp_s_cnt r) (vp_m_pool r) (vp_m_list r) (vp_m_cnt r) (vp_l_pool r) (vp_l_list r) (vp_l_cnt r) (vp_in_list r) (vp_in_cnt r) (vp_read_data r) (vp_read_size r) (vp_read_offset r) (vp_pchan_ready r) (vp_task r).
Definition set_vp_pchan {VQ} (x : option nat) (r : vq_pchan VQ) : vq_pchan VQ :=
  Build_vq_pchan (vp_mmid r) x (vp_vhab r) (vp_tx r) (vp_rx r) (vp_s_pool r) (vp_s_list r) (vp_s_cnt r) (vp_m_pool r) (vp_m_list r) (vp_m_cnt r) (vp_l_pool r) (vp_l_list r) (vp_l_cnt r) (vp_in_list r) (vp_in_cnt r) (vp_read_data r) (vp_read_size r) (vp_read_offset r) (vp_pchan_ready r) (vp_task r).
Definition set_vp_vhab {VQ} (x : option nat) (r : vq_pchan VQ) : vq_pchan VQ :=
  Build_vq_pchan (vp_mmid r) (vp_pchan r) x (vp_tx r) (vp_rx r) (vp_s_pool r) (vp_s_list r) (vp_s_cnt r) (vp_m_pool r) (vp_m_list r) (vp_m_cnt r) (vp_l_pool r) (vp_l_list r) (vp_l_cnt r) (vp_in_list r) (vp_in_cnt r) (vp_read_data r) (vp_read_size r) (vp_read_offset r) (vp_pchan_ready r) (vp_task r).
Definition set_vp_tx {VQ} (x : VQ) (r : vq_pchan VQ) : vq_pchan VQ :=
  Build_vq_pchan (vp_mmid r) (vp_pchan r) (vp_vhab r) x (vp_rx r) (vp_s_pool r) (vp_s_list r) (vp_s_cnt r) (vp_m_pool r) (vp_m_list r) (vp_m_cnt r) (vp_l_pool r) (vp_l_list r) (vp_l_cnt r) (vp_in_list r) (vp_in_cnt r) (vp_read_data r) (vp_read_size r) (vp_read_offset r) (vp_pchan_ready r) (vp_task r).
Definition set_vp_rx {VQ} (x : VQ) (r : vq_pchan VQ) : vq_pchan VQ :=
  Build_vq_pchan (vp_mmid r) (vp_pchan r) (vp_vhab r) (vp_tx r) x (vp_s_pool r) (vp_s_list r) (vp_s_cnt r) (vp_m_pool r) (vp_m_list r) (vp_m_cnt r) (vp_l_pool r) (vp_l_list r) (vp_l_cnt r) (vp_in_list r) (vp_in_cnt r) (vp_read_data r) (vp_read_size r) (vp_read_offset r) (vp_pchan_ready r) (vp_task r).
Definition set_vp_s_pool {VQ} (x : option bytes) (r : vq_pchan VQ) : vq_pchan VQ :=
  Build_vq_pchan (vp_mmid r) (vp_pchan r) (vp_vhab r) (vp_tx r) (vp_rx r) x (vp_s_list r) (vp_s_cnt r) (vp_m_pool r) (vp_m_list r) (vp_m_cnt r) (vp_l_pool r) (vp_l_list r) (vp_l_cnt r) (vp_in_list r) (vp_in_cnt r) (vp_read_data r) (vp_read_size r) (vp_read_offset r) (vp_pchan_ready r) (vp_task r).
Definition set_vp_s_list {VQ} (x : list vh_buf_header) (r : vq_pchan VQ) : vq_pchan VQ :=
  Build_vq_pchan (vp_mmid r) (vp_pchan r) (vp_vhab r) (vp_tx r) (vp_rx r) (vp_s_pool r) x (vp_s_cnt r) (vp_m_pool r) (vp_m_list r) (vp_m_cnt r) (vp_l_pool r) (vp_l_list r) (vp_l_cnt r) (vp_in_list r) (vp_in_cnt r) (vp_read_data r) (vp_read_size r) (vp_read_offset r) (vp_pchan_ready r) (vp_task r).
Definition set_vp_s_cnt {VQ} (x : Z) (r : vq_pchan VQ) : vq_pchan VQ :=
  Build_vq_pchan (vp_mmid r) (vp_pchan r) (vp_vhab r) (vp_tx r) (vp_rx r) (vp_s_pool r) (vp_s_list r) x (vp_m_pool r) (vp_m_list r) (vp_m_cnt r) (vp_l_pool r) (vp_l_list r) (vp_l_cnt r) (vp_in_list r) (vp_in_cnt r) (vp_read_data r) (vp_read_size r) (vp_read_offset r) (vp_pchan_ready r) (vp_task r).
Definition set_vp_m_pool {VQ} (x : option bytes) (r : vq_pchan VQ) : vq_pchan VQ :=
  Build_vq_pchan (vp_mmid r) (vp_pchan r) (vp_vhab r) (vp_tx r) (vp_rx r) (vp_s_pool r) (vp_s_list r) (vp_s_cnt r) x (vp_m_list r) (vp_m_cnt r) (vp_l_pool r) (vp_l_list r) (vp_l_cnt r) (vp_in_list r) (vp_in_cnt r) (vp_read_data r) (vp_read_size r) (vp_read_offset r) (vp_pchan_ready r) (vp_task r).
Definition set_vp_m_list {VQ} (x : list vh_buf_header) (r : vq_pchan VQ) : vq_pchan VQ :=
  Build_vq_pchan (vp_mmid r) (vp_pchan r) (vp_vhab r) (vp_tx r) (vp_rx r) (vp_s_pool r) (vp_s_list r) (vp_s_cnt r) (vp_m_pool r) x (vp_m_cnt r) (vp_l_pool r) (vp_l_list r) (vp_l_cnt r) (vp_in_list r) (vp_in_cnt r) (vp_read_data r) (vp_read_size r) (vp_read_offset r) (vp_pchan_ready r) (vp_task r).
Definition set_vp_m_cnt {VQ} (x : Z) (r : vq_pchan VQ) : vq_pchan VQ :=
  Build_vq_pchan (vp_mmid r) (vp_pchan r) (vp_vhab r) (vp_tx r) (vp_rx r) (vp_s_pool r) (vp_s_list r) (vp_s_cnt r) (vp_m_pool r) (vp_m_list r) x (vp_l_pool r) (vp_l_list r) (vp_l_cnt r) (vp_in_list r) (vp_in_cnt r) (vp_read_data r) (vp_read_size r) (vp_read_offset r) (vp_pchan_ready r) (vp_task r).
Definition set_vp_l_pool {VQ} (x : option bytes) (r : vq_pchan VQ) : vq_pchan VQ :=
  Build_vq_pchan (vp_mmid r) (vp_pchan r) (vp_vhab r) (vp_tx r) (vp_rx r) (vp_s_pool r) (vp_s_list r) (vp_s_cnt r) (vp_m_pool r) (vp_m_list r) (vp_m_cnt r) x (vp_l_list r) (vp_l_cnt r) (vp_in_list r) (vp_in_cnt r) (vp_read_data r) (vp_read_size r) (vp_read_offset r) (vp_pchan_ready r) (vp_task r).
Definition set_vp_l_list {VQ} (x : list vh_buf_header) (r : vq_pchan VQ) : vq_pchan VQ :=
  Build_vq_pchan (vp_mmid r) (vp_pchan r) (vp_vhab r) (vp_tx r) (vp_rx r) (vp_s_pool r) (vp_s_list r) (vp_s_cnt r) (vp_m_pool r) (vp_m_list r) (vp_m_cnt r) (vp_l_pool r) x (vp_l_cnt r) (vp_in_list r) (vp_in_cnt r) (vp_read_data r) (vp_read_size r) (vp_read_offset r) (vp_pchan_ready r) (vp_task r).
Definition set_vp_l_cnt {VQ} (x : Z) (r : vq_pchan VQ) : vq_pchan VQ :=
  Build_vq_pchan (vp_mmid r) (vp_pchan r) (vp_vhab r) (vp_tx r) (vp_rx r) (vp_s_pool r) (vp_s_list r) (vp_s_cnt r) (vp_m_pool r) (vp_m_list r) (vp_m_cnt r) (vp_l_pool r) (vp_l_list r) x (vp_in_list r) (vp_in_cnt r) (vp_read_data r) (vp_read_size r) (vp_read_offset r) (vp_pchan_ready r) (vp_task r).
Definition set_vp_in_list {VQ} (x : list vh_buf_header) (r : vq_pchan VQ) : vq_pchan VQ :=
  Build_vq_pchan (vp_mmid r) (vp_pchan r) (vp_vhab r) (vp_tx r) (vp_rx r) (vp_s_pool r) (vp_s_list r) (vp_s_cnt r) (vp_m_pool r) (vp_m_list r) (vp_m_cnt r) (vp_l_pool r) (vp_l_list r) (vp_l_cnt r) x (vp_in_cnt r) (vp_read_data r) (vp_read_size r) (vp_read_offset r) (vp_pchan_ready r) (vp_task r).
Definition set_vp_in_cnt {VQ} (x : Z) (r : vq_pchan VQ) : vq_pchan VQ :=
  Build_vq_pchan (vp_mmid r) (vp_pchan r) (vp_vhab r) (vp_tx r) (vp_rx r) (vp_s_pool r) (vp_s_list r) (vp_s_cnt r) (vp_m_pool r) (vp_m_list r) (vp_m_cnt r) (vp_l_pool r) (vp_l_list r) (vp_l_cnt r) (vp_in_list r) x (vp_read_data r) (vp_read_size r) (vp_read_offset r) (vp_pchan_ready r) (vp_task r).
Definition set_vp_read_data {VQ} (x : option bytes) (r : vq_pchan VQ) : vq_pchan VQ :=
  Build_vq_pchan (vp_mmid r) (vp_pchan r) (vp_vhab r) (vp_tx r) (vp_rx r) (vp_s_pool r) (vp_s_list r) (vp_s_cnt r) (vp_m_pool r) (vp_m_list r) (vp_m_cnt r) (vp_l_pool r) (vp_l_list r) (vp_l_cnt r) (vp_in_list r) (vp_in_cnt r) x (vp_read_size r) (vp_read_offset r) (vp_pchan_ready r) (vp_task r).
Definition set_vp_read_size {VQ} (x : Z) (r : vq_pchan VQ) : vq_pchan VQ :=
  Build_vq_pchan (vp_mmid r) (vp_pchan r) (vp_vhab r) (vp_tx r) (vp_rx r) (vp_s_pool r) (vp_s_list r) (vp_s_cnt r) (vp_m_pool r) (vp_m_list r) (vp_m_cnt r) (vp_l_pool r) (vp_l_list r) (vp_l_cnt r) (vp_in_list r) (vp_in_cnt r) (vp_read_data r) x (vp_read_offset r) (vp_pchan_ready r) (vp_task r).
Definition set_vp_read_offset {VQ} (x : Z) (r : vq_pchan VQ) : vq_pchan VQ :=
  Build_vq_pchan (vp_mmid r) (vp_pchan r) (vp_vhab r) (vp_tx r) (vp_rx r) (vp_s_pool r) (vp_s_list r) (vp_s_cnt r) (vp_m_pool r) (vp_m_list r) (vp_m_cnt r) (vp_l_pool r) (vp_l_list r) (vp_l_cnt r) (vp_in_list r) (vp_in_cnt r) (vp_read_data r) (vp_read_size r) x (vp_pchan_ready r) (vp_task r).
Definition set_vp_pchan_ready {VQ} (x : bool) (r : vq_pchan VQ) : vq_pchan VQ :=
  Build_vq_pchan (vp_mmid r) (vp_pchan r) (vp_vhab r) (vp_tx r) (vp_rx r) (vp_s_pool r) (vp_s_list r) (vp_s_cnt r) (vp_m_pool r) (vp_m_list r) (vp_m_cnt r) (vp_l_pool r) (vp_l_list r) (vp_l_cnt r) (vp_in_list r) (vp_in_cnt r) (vp_read_data r) (vp_read_size r) (vp_read_offset r) x (vp_task r).
Definition set_vp_task {VQ} (x : bool) (r : vq_pchan VQ) : vq_pchan VQ :=
  Build_vq_pchan (vp_mmid r) (vp_pchan r) (vp_vhab r) (vp_tx r) (vp_rx r) (vp_s_pool r) (vp_s_list r) (vp_s_cnt r) (vp_m_pool r) (vp_m_list r) (vp_m_cnt r) (vp_l_pool r) (vp_l_list r) (vp_l_cnt r) (vp_in_list r) (vp_in_cnt r) (vp_read_data r) (vp_read_size r) (vp_read_offset r) (vp_pchan_ready r) x.


(** The transport's state of a channel; [ln_now] is the clock. *)
(* src/hypervisor/virtio/hab_virtio.h:84-89 virtio_pchan_link *)
Record virtio_pchan_link (VQ : Type) := {
  ln_mmid : Z;
  ln_vpc : option (vq_pchan VQ);
  ln_vhab : option nat;
  ln_now : Z * Z
}.
Arguments Build_virtio_pchan_link {VQ}.
Arguments ln_mmid {VQ} _.
Arguments ln_vpc {VQ} _.
Arguments ln_vhab {VQ} _.
Arguments ln_now {VQ} _.

Definition set_ln_mmid {VQ} (x : Z) (r : virtio_pchan_link VQ) : virtio_pchan_link VQ :=
  Build_virtio_pchan_link x (ln_vpc r) (ln_vhab r) (ln_now r).
Definition set_ln_vpc {VQ} (x : option (vq_pchan VQ)) (r : virtio_pchan_link VQ) : virtio_pchan_link VQ :=
  Build_virtio_pchan_link (ln_mmid r) x (ln_vhab r) (ln_now r).
Definition set_ln_vhab {VQ} (x : option nat) (r : virtio_pchan_link VQ) : virtio_pchan_link VQ :=
  Build_virtio_pchan_link (ln_mmid r) (ln_vpc r) x (ln_now r).
Definition set_ln_now {VQ} (x : Z * Z) (r : virtio_pchan_link VQ) : virtio_pchan_link VQ :=
  Build_virtio_pchan_link (ln_mmid r) (ln_vpc r) (ln_vhab r) x.


Section path.
Context {VQ : Type} `{Virtqueue VQ}.
Implicit Types (vpc : vq_pchan VQ) (ln : virtio_pchan_link VQ).

(** The list, the counter and the memory of a pool for sending. *)
Definition vp_list (t : pool_type_t) vpc : list vh_buf_header :=
  match t with PT_OUT_SMALL => vp_s_list vpc | PT_OUT_MEDIUM => vp_m_list vpc | PT_OUT_LARGE => vp_l_list vpc | PT_IN => vp_in_list vpc end.
Definition vp_cnt (t : pool_type_t) vpc : Z :=
  match t with PT_OUT_SMALL => vp_s_cnt vpc | PT_OUT_MEDIUM => vp_m_cnt vpc | PT_OUT_LARGE => vp_l_cnt vpc | PT_IN => vp_in_cnt vpc end.
Definition vp_pool (t : pool_type_t) vpc : option bytes :=
  match t with PT_OUT_SMALL => vp_s_pool vpc | PT_OUT_MEDIUM => vp_m_pool vpc | PT_OUT_LARGE => vp_l_pool vpc | PT_IN => None end.
Definition set_free (t : pool_type_t) (l : list vh_buf_header) (n : Z) vpc : vq_pchan VQ :=
  match t with
  | PT_OUT_SMALL => set_vp_s_cnt n (set_vp_s_list l vpc)
  | PT_OUT_MEDIUM => set_vp_m_cnt n (set_vp_m_list l vpc)
  | PT_OUT_LARGE => set_vp_l_cnt n (set_vp_l_list l vpc)
  | PT_IN => vpc
  end.
Definition set_pool (t : pool_type_t) (m : bytes) vpc : vq_pchan VQ :=
  match t with
  | PT_OUT_SMALL => set_vp_s_pool (Some m) vpc
  | PT_OUT_MEDIUM => set_vp_m_pool (Some m) vpc
  | PT_OUT_LARGE => set_vp_l_pool (Some m) vpc
  | PT_IN => vpc
  end.

(** *** Sending *)

(** The first free buffer; the sender sleeps while there is none.  The list's head is
    only initialised once the pools have their memory. *)
(* src/hypervisor/virtio/hab_virtio.c:908-927 get_vh_buf_header *)
Definition get_vh_buf_header (t : pool_type_t) vpc : res (vh_buf_header * vq_pchan VQ) :=
  let? _ := of_opt NullDeref (vp_pool t vpc) in
  match vp_list t vpc with
  | [] => Blocked
  | hd :: l => Ok (hd, set_free t l (vp_cnt t vpc - 1) vpc)
  end.

(** The test for a medium buffer is against the number of them. *)
(* src/hypervisor/virtio/hab_virtio.c:958-970 physical_channel_send *)
Definition send_pool (sizebytes : Z) : pool_type_t :=
  if sizebytes <=? buf_size PT_OUT_SMALL then PT_OUT_SMALL
  else if sizebytes <=? buf_num PT_OUT_MEDIUM then PT_OUT_MEDIUM
  else PT_OUT_LARGE.

(** Header and payload are laid one after the other into the buffer, which is as long
    as a payload may be. *)
(* src/hypervisor/virtio/hab_virtio.c:989-990 physical_channel_send *)
Definition fill_outbuf (pool : bytes) (hd : vh_buf_header) (header : hab_header) (payload : bytes) (sizebytes : Z) :
    res (bytes * bytes) :=
  let? pool := of_opt OutOfBounds (mem_write pool (hd_buf hd) (header_enc header)) in
  let? bs := of_opt OutOfBounds (mem_read payload 0 sizebytes) in
  let? pool := of_opt OutOfBounds (mem_write pool (hd_buf hd + sizeof_hab_header) bs) in
  Ok (pool, header_enc header ++ bs).

(** The code, the channel's last sequence number and the state; what became of the
    buffer is not told: the code is 0 even when the channel is not ready. *)
(* src/hypervisor/virtio/hab_virtio.c:929-1010 physical_channel_send *)
Definition virtio_send (sequence_tx : Z) ln (header : hab_header) (payload : bytes) :
    res (Z * Z * virtio_pchan_link VQ) :=
  let sizebytes := HAB_HEADER_GET_SIZE header in
  match ln_vpc ln with
  | None => Ok (- ENODEV, sequence_tx, ln)
  | Some vpc =>
      if buf_size PT_OUT_LARGE <? sizebytes then Ok (- EINVAL, sequence_tx, ln)
      else if vp_pchan_ready vpc then
        let t := send_pool sizebytes in
        let? r := get_vh_buf_header t vpc in
        let '(hd, vpc) := r in
        let? payload := stamp_tx header (ln_now ln) payload in
        let seq := u32 (sequence_tx + 1) in
        let header := Build_hab_header (id_type header) (payload_size header) (session_id header) HAB_HEAD_SIGNATURE seq in
        let? pool := of_opt NullDeref (vp_pool t vpc) in
        let? f := fill_outbuf pool hd header payload sizebytes in
        let vpc := set_pool t (f.1) vpc in
        let a := virtqueue_add_outbuf (vp_tx vpc) (set_hd_payload_size sizebytes hd) (f.2) in
        let q := (if a.1 =? 0 then (virtqueue_kick (a.2)).2 else a.2) in
        Ok (0, seq, set_ln_vpc (Some (set_vp_tx q vpc)) ln)
      else Ok (0, sequence_tx, ln)
  end.

(** *** The return of sent buffers *)

(** A buffer goes back to the list of its pool; one of no pool for sending is lost. *)
(* src/hypervisor/virtio/hab_virtio.c:142-176 virthab_recv_txq *)
Definition return_outbuf (hd : vh_buf_header) vpc : vq_pchan VQ :=
  let t := hd_pool_type hd in
  set_free t (vp_list t vpc ++ [set_hd_payload_size 0 hd]) (vp_cnt t vpc + 1) vpc.

(* src/hypervisor/virtio/hab_virtio.c:135-178 virthab_recv_txq *)
Fixpoint txq_loop (n : nat) vpc : res (vq_pchan VQ) :=
  match n with
  | O => Fault OutOfFuel
  | S n =>
      let r := virtqueue_get_buf (vp_tx vpc) in
      let vpc := set_vp_tx (r.2) vpc in
      match r.1 with
      | None => Ok vpc
      | Some (hd, _, _) => txq_loop n (return_outbuf hd vpc)
      end
  end.

(** No more buffers come back than were added. *)
(* src/hypervisor/virtio/hab_virtio.c:121-182 virthab_recv_txq *)
Definition virthab_recv_txq vpc : res (vq_pchan VQ) :=
  if vp_pchan_ready vpc then txq_loop (S (length (vq_held (vp_tx vpc)))) vpc else Ok vpc.

(** *** Reading the buffer at hand *)

(** The count and the bytes.  The sizes are of type [size_t], the offset is an [int]. *)
(* src/hypervisor/virtio/hab_virtio.c:1013-1049 physical_channel_read *)
Definition virtio_read ln (read_size : Z) : res (Z * bytes * virtio_pchan_link VQ) :=
  match ln_vpc ln with
  | None => Ok (- ENODEV, [], ln)
  | Some vpc =>
      match vp_read_data vpc with
      | None => Ok (0, [], ln)
      | Some data =>
          let off := vp_read_offset vpc in
          let n := if vp_read_size vpc <? u64 (read_size + sizeof_hab_header + off)
                   then u64 (vp_read_size vpc - off - sizeof_hab_header) else read_size in
          if read_size <? n then Fault OutOfBounds
          else
            let? bs := of_opt OutOfBounds (mem_read data (sizeof_hab_header + off) n) in
            Ok (i32 n, bs, set_ln_vpc (Some (set_vp_read_offset (i32 (off + i32 n)) vpc)) ln)
      end
  end.

(** The buffer at hand holds a header, and the length that the device gave it is one of
    the buffer. *)
Definition virtio_up ln : bool :=
  match ln_vpc ln with
  | Some vpc =>
      match vp_read_data vpc with
      | Some data => (0 <=? vp_read_offset vpc) && (sizeof_hab_header + vp_read_offset vpc <=? vp_read_size vpc) &&
                     (vp_read_size vpc <=? zlen data) && (zlen data =? buf_size PT_IN)
      | None => false
      end
  | None => false
  end.

(** ** As a platform *)

Definition virtio_phys_send (pc : physical_channel) ln (h : hab_header) (bs : bytes) : option (Z * Z * virtio_pchan_link VQ) :=
  match virtio_send (pc_sequence_tx pc) ln h bs with
  | Ok r => Some r
  | _ => None
  end.

(** A read outside of reception, or one that would leave the buffer, gets nothing. *)
Definition virtio_phys_read (pc : physical_channel) ln (n : Z) : Z * bytes * virtio_pchan_link VQ :=
  match virtio_read ln n with
  | Ok (r, bs, ln') => if (r <=? n) && (zlen bs <=? n) then (r, bs, ln') else (0, [], ln)
  | _ => (0, [], ln)
  end.
End path.

(** ** The platform and its laws *)

Section instance.
Context {VQ : Type} `{Virtqueue VQ}.
Implicit Types (vpc : vq_pchan VQ) (ln : virtio_pchan_link VQ).

Lemma virtio_send_ret pc ln h bs r q ln' : virtio_phys_send pc ln h bs = Some (r, q, ln') -> - 4095 <= r <= 0.
Proof.
  unfold virtio_phys_send, virtio_send. destruct (ln_vpc ln) as [vpc|]; [|by intros [= <- _ _]].
  destruct (_ <? _); [by intros [= <- _ _]|]. destruct (vp_pchan_ready vpc); [|by intros [= <- _ _]].
  destruct (get_vh_buf_header _ _) as [[hd vpc']| |]; try done. simpl.
  destruct (stamp_tx _ _ _) as [p| |]; try done. simpl. destruct (vp_pool _ _) as [m|]; [|done]. simpl.
  destruct (fill_outbuf _ _ _ _ _) as [f| |]; try done. by intros [= <- _ _].
Qed.

Lemma virtio_up_inv ln : virtio_up ln = true ->
  exists vpc data, ln_vpc ln = Some vpc /\ vp_read_data vpc = Some data /\ zlen data = buf_size PT_IN /\
    0 <= vp_read_offset vpc /\ sizeof_hab_header + vp_read_offset vpc <= vp_read_size vpc <= buf_size PT_IN.
Proof.
  unfold virtio_up. destruct (ln_vpc ln) as [vpc|]; [|done]. destruct (vp_read_data vpc) as [data|] eqn:Hd; [|done].
  intros Hb. bool_hyps. exists vpc, data. split_and!; try done; lia.
Qed.

(** What is read of a good buffer: as much as was asked for, or what is left. *)
Lemma virtio_read_eq ln vpc data n :
  virtio_up ln = true -> ln_vpc ln = Some vpc -> vp_read_data vpc = Some data -> 0 <= n < 2 ^ 63 ->
  let k := Z.min n (vp_read_size vpc - sizeof_hab_header - vp_read_offset vpc) in
  virtio_read ln n = Ok (k, take (Z.to_nat k) (drop (Z.to_nat (sizeof_hab_header + vp_read_offset vpc)) data),
    set_ln_vpc (Some (set_vp_read_offset (vp_read_offset vpc + k) vpc)) ln).
Proof.
  intros Hup Hv Hd Hn k. destruct (virtio_up_inv _ Hup) as (vpc' & data' & Hv' & Hd' & Hz & Ho & Hs).
  rewrite Hv in Hv'. injection Hv' as <-. rewrite Hd in Hd'. injection Hd' as <-.
  unfold virtio_read. rewrite Hv, Hd. unfold sizeof_hab_header, buf_size in *. set (off := vp_read_offset vpc) in *.
  rewrite (u64_id (n + 20 + off)) by lia. rewrite (u64_id (vp_read_size vpc - off - 20)) by lia.
  assert (Hk : (if vp_read_size vpc <? n + 20 + off then vp_read_size vpc - off - 20 else n) = k).
  { unfold k. destruct (Z.ltb_spec (vp_read_size vpc) (n + 20 + off)); lia. }
  cbv zeta. rewrite Hk. destruct (Z.ltb_spec n k) as [|_]; [unfold k in *; lia|].
  rewrite mem_read_Some by (unfold k; lia). cbn [of_opt res_bind].
  rewrite (i32_id k) by (unfold is_i32, k; lia). rewrite i32_id by (unfold is_i32, k; lia). done.
Qed.

Lemma virtio_read_cases ln vpc data n :
  virtio_up ln = true -> ln_vpc ln = Some vpc -> vp_read_data vpc = Some data -> 0 <= n ->
  let k := Z.min n (vp_read_size vpc - sizeof_hab_header - vp_read_offset vpc) in
  virtio_read ln n = Fault OutOfBounds \/
  virtio_read ln n = Ok (k, take (Z.to_nat k) (drop (Z.to_nat (sizeof_hab_header + vp_read_offset vpc)) data),
    set_ln_vpc (Some (set_vp_read_offset (vp_read_offset vpc + k) vpc)) ln).
Proof.
  intros Hup Hv Hd Hn k. destruct (decide (n < 2 ^ 63)); [right; by apply virtio_read_eq|].
  destruct (virtio_up_inv _ Hup) as (vpc' & data' & Hv' & Hd' & Hz & Ho & Hs).
  rewrite Hv in Hv'. injection Hv' as <-. rewrite Hd in Hd'. injection Hd' as <-.
  unfold virtio_read. rewrite Hv, Hd. unfold sizeof_hab_header, buf_size in *. set (off := vp_read_offset vpc) in *. cbv zeta.
  rewrite (u64_id (vp_read_size vpc - off - 20)) by lia. destruct (_ <? u64 _).
  - right. assert (k = vp_read_size vpc - off - 20) as Hk by (unfold k; lia). rewrite <- Hk.
    destruct (Z.ltb_spec n k) as [|_]; [lia|].
    rewrite mem_read_Some by lia. cbn [of_opt res_bind].
    rewrite (i32_id k) by (unfold is_i32; lia). by rewrite i32_id by (unfold is_i32; lia).
  - left. rewrite Z.ltb_irrefl. unfold mem_read. rewrite (proj2 (Z.leb_gt (20 + off + n) (zlen data))) by lia.
    by rewrite !andb_false_r.
Qed.

(** A read of a good buffer leaves it good. *)
Lemma virtio_phys_read_up pc ln n : 0 <= n -> virtio_up ln = true ->
  0 <= (virtio_phys_read pc ln n).1.1 <= n /\ virtio_up (virtio_phys_read pc ln n).2 = true.
Proof.
  intros Hn Hup. destruct (virtio_up_inv _ Hup) as (vpc & data & Hv & Hd & Hz & Ho & Hs). unfold virtio_phys_read.
  destruct (virtio_read_cases ln vpc data n Hup Hv Hd Hn) as [->| ->]; [by simpl|].
  unfold sizeof_hab_header, buf_size in *. set (k := Z.min _ _).
  assert (Hk : 0 <= k <= n) by (unfold k; lia). destruct (_ && _); [|done]. simpl. split; [done|].
  unfold virtio_up. cbn [ln_vpc set_ln_vpc vp_read_data set_vp_read_offset vp_read_offset vp_read_size]. rewrite Hd.
  unfold sizeof_hab_header, buf_size. repeat (apply andb_true_intro; split); lia.
Qed.

Lemma virtio_read_bounds pc ln n : 0 <= n -> zlen (virtio_phys_read pc ln n).1.2 <= n.
Proof.
  intros Hn. unfold virtio_phys_read. destruct (virtio_read ln n) as [[[r bs] ln']| |]; try done.
  destruct (_ && _) eqn:Hb; [|done]. bool_hyps. simpl. lia.
Qed.

Context (kernel : LinuxCalls).

Definition virtio_platform : Platform (virtio_pchan_link VQ).
Proof.
  refine {| phys_send := virtio_phys_send; phys_read := virtio_phys_read; phys_up := virtio_up;
            kernel_calls := kernel |}.
  - intros pc hs h bs r q hs'. apply virtio_send_ret.
  - intros pc hs n. apply virtio_read_bounds.
  - intros pc hs n Hn Hup. by apply virtio_phys_read_up.
  - intros pc hs n Hup. destruct (decide (0 <= n)); [by apply virtio_phys_read_up|].
    destruct (virtio_up_inv _ Hup) as (vpc & data & Hv & Hd & _). unfold virtio_phys_read.
    destruct (virtio_read hs n) as [[[r bs] hs']| |]; [|done|done].
    pose proof (zlen_nonneg bs). by replace (zlen bs <=? n) with false by lia; rewrite andb_false_r.
Defined.
End instance.
