(* ===== verification/Pools.v ===== *)
(** The buffer pools of the virtio transport: no buffer is in two places, sent buffers
    come back, and what a send writes stays in its pool but for the last buffer. *)
From S2P Require Import Prelude Header World Logic Memory Invariant Pchan Exports Context Vchan Wait Open Loopback Sample Msg Mimex Progress Virtio.

(** Which buffer a header stands for. *)
Definition hd_id (hd : vh_buf_header) : pool_type_t * Z := (hd_pool_type hd, hd_index hd).

(** A header as [init_pool_list] makes it. *)
Definition hd_ok (hd : vh_buf_header) : Prop :=
  let t := hd_pool_type hd in
  hd_size hd = buf_size t /\ 0 <= hd_index hd < buf_num t /\
  hd_buf hd = hd_index hd * buf_slot t + GUARD_BAND_SZ + sizeof_vh_buf_header.

Lemma init_pool_from_ok t n : forall i ptr, 0 <= i -> i + Z.of_nat n <= buf_num t -> ptr = i * buf_slot t ->
  Forall (fun hd => hd_pool_type hd = t /\ hd_ok hd /\ i <= hd_index hd) (init_pool_from (buf_size t) t i n ptr).
Proof.
  induction n as [|n IH]; intros i ptr Hi Hn Hp; cbn [init_pool_from]; constructor.
  - unfold hd_ok. cbn [hd_pool_type hd_size hd_index hd_buf]. split_and!; try done; lia.
  - eapply list.Forall_impl; [apply IH; cbn [hd_buf]|].
    + lia.
    + lia.
    + unfold buf_slot in *. lia.
    + intros hd (? & ? & ?). split_and!; try done. lia.
Qed.

Lemma init_pool_from_NoDup t n : forall i ptr, 0 <= i -> i + Z.of_nat n <= buf_num t -> ptr = i * buf_slot t ->
  NoDup (hd_id <$> init_pool_from (buf_size t) t i n ptr).
Proof.
  induction n as [|n IH]; intros i ptr Hi Hn Hp; cbn [init_pool_from]; [constructor|].
  rewrite fmap_cons. apply list.NoDup_cons. split.
  - intros (hd & He & Hin)%list_elem_of_fmap. unfold hd_id in He. cbn [hd_pool_type hd_index] in He. injection He as _ He.
    pose proof (init_pool_from_ok t n (i + 1) (i * buf_slot t + GUARD_BAND_SZ + sizeof_vh_buf_header + buf_size t)) as Hok.
    cbn [hd_buf] in Hin. rewrite Hp in Hin. rewrite list.Forall_forall in Hok.
    destruct (Hok ltac:(lia) ltac:(lia) ltac:(unfold buf_slot; lia) hd Hin) as (_ & _ & ?). lia.
  - apply IH; cbn [hd_buf]; [lia|lia|unfold buf_slot in *; lia].
Qed.

Section pools.
Context {VQ : Type} `{Virtqueue VQ}.
Implicit Types (vpc : vq_pchan VQ) (ln : virtio_pchan_link VQ).

(** Every buffer for sending: the free ones and the ones with the device. *)
Definition out_bufs vpc : list vh_buf_header :=
  vp_s_list vpc ++ vp_m_list vpc ++ vp_l_list vpc ++ vq_held (vp_tx vpc).

(** The buffers without what was last put into them. *)
Definition core (hd : vh_buf_header) : vh_buf_header := set_hd_payload_size 0 hd.
Definition cores vpc : list vh_buf_header := core <$> out_bufs vpc.

(** The pools have their memory, the lists have the buffers of their pool and are
    counted, and no buffer is in two places. *)
Record vpc_ok vpc : Prop := {
  vo_pool : forall t, t <> PT_IN -> exists m, vp_pool t vpc = Some m /\ zlen m = pool_size t;
  vo_list : forall t, t <> PT_IN -> Forall (fun hd => hd_pool_type hd = t) (vp_list t vpc);
  vo_cnt : forall t, t <> PT_IN -> vp_cnt t vpc = zlen (vp_list t vpc);
  vo_bufs : Forall (fun hd => hd_ok hd /\ hd_pool_type hd <> PT_IN) (cores vpc);
  vo_ids : NoDup (hd_id <$> cores vpc)
}.

Lemma out_bufs_free t l n vpc hd : t <> PT_IN -> vp_list t vpc ≡ₚ hd :: l ->
  out_bufs vpc ≡ₚ hd :: out_bufs (set_free t l n vpc).
Proof.
  intros Ht Hl. unfold out_bufs. destruct t; simpl in *; try done; rewrite Hl; cbn [app].
  - done.
  - by rewrite <- Permutation_middle.
  - rewrite <- Permutation_middle. by rewrite (Permutation_middle (vp_s_list vpc)).
Qed.

Lemma out_bufs_tx q vpc : out_bufs (set_vp_tx q vpc) ++ vq_held (vp_tx vpc) ≡ₚ out_bufs vpc ++ vq_held q.
Proof. unfold out_bufs. simpl. solve_Permutation. Qed.


Lemma vp_list_free t u l n vpc : t <> PT_IN -> vp_list u (set_free t l n vpc) = if decide (t = u) then l else vp_list u vpc.
Proof. by destruct t, u. Qed.
Lemma vp_cnt_free t u l n vpc : t <> PT_IN -> vp_cnt u (set_free t l n vpc) = if decide (t = u) then n else vp_cnt u vpc.
Proof. by destruct t, u. Qed.
Lemma vp_pool_free t u l n vpc : vp_pool u (set_free t l n vpc) = vp_pool u vpc.
Proof. by destruct t, u. Qed.
Lemma vp_tx_free t l n vpc : vp_tx (set_free t l n vpc) = vp_tx vpc.
Proof. by destruct t. Qed.
Lemma ready_free t l n vpc : vp_pchan_ready (set_free t l n vpc) = vp_pchan_ready vpc.
Proof. by destruct t. Qed.

Lemma hd_ok_core hd : hd_ok (core hd) <-> hd_ok hd.
Proof. done. Qed.

(** A change of one list and of the queue that moves a buffer, or loses one. *)
Lemma vpc_ok_move t l n q vpc lost :
  vpc_ok vpc -> t <> PT_IN -> Forall (fun hd => hd_pool_type hd = t) l -> n = zlen l ->
  lost ++ cores (set_vp_tx q (set_free t l n vpc)) ≡ₚ cores vpc ->
  vpc_ok (set_vp_tx q (set_free t l n vpc)).
Proof.
  intros [Hp Hl Hc Hb Hi] Ht Hlt -> Hperm. constructor.
  - intros u Hu. destruct (Hp u Hu) as (m & Hm & ?). exists m. split; [|done]. rewrite <- Hm. by destruct t, u.
  - intros u Hu. replace (vp_list u (set_vp_tx _ _)) with (vp_list u (set_free t l (zlen l) vpc)) by by destruct u.
    rewrite vp_list_free by done. case_decide; [by subst|by apply Hl].
  - intros u Hu. replace (vp_list u (set_vp_tx _ _)) with (vp_list u (set_free t l (zlen l) vpc)) by by destruct u.
    replace (vp_cnt u (set_vp_tx _ _)) with (vp_cnt u (set_free t l (zlen l) vpc)) by by destruct u.
    rewrite vp_list_free, vp_cnt_free by done. case_decide; [done|by apply Hc].
  - rewrite <- Hperm in Hb. by apply Forall_app in Hb as [_ ?].
  - rewrite <- Hperm in Hi. rewrite fmap_app in Hi. by apply list.NoDup_app in Hi as (_ & _ & ?).
Qed.

(** *** The return of sent buffers *)

Lemma return_outbuf_ok q hd vpc :
  vpc_ok vpc -> vq_held (vp_tx vpc) ≡ₚ hd :: vq_held q ->
  vpc_ok (return_outbuf hd (set_vp_tx q vpc)) /\ cores (return_outbuf hd (set_vp_tx q vpc)) ≡ₚ cores vpc /\
  vp_tx (return_outbuf hd (set_vp_tx q vpc)) = q.
Proof.
  intros Hok Hheld. pose proof Hok as [Hp Hl Hc Hb Hi]. unfold return_outbuf. set (t := hd_pool_type hd).
  assert (Ht : t <> PT_IN).
  { rewrite list.Forall_forall in Hb. apply (Hb (core hd)). unfold cores, out_bufs. apply list_elem_of_fmap. exists hd. split; [done|].
    rewrite !elem_of_app, Hheld. right. right. right. by left. }
  set (l := vp_list t _ ++ _). set (n := vp_cnt t _ + 1).
  assert (Hcomm : set_free t l n (set_vp_tx q vpc) = set_vp_tx q (set_free t l n vpc)) by by destruct t.
  assert (Hl0 : vp_list t (set_vp_tx q vpc) = vp_list t vpc) by by destruct t.
  assert (Hc0 : vp_cnt t (set_vp_tx q vpc) = vp_cnt t vpc) by by destruct t.
  assert (Hperm : cores (set_vp_tx q (set_free t l n vpc)) ≡ₚ cores vpc).
  { unfold cores. pose proof (out_bufs_free t (vp_list t vpc) (vp_cnt t vpc) (set_vp_tx q (set_free t l n vpc)) (core hd) Ht) as Hf.
    assert (Hb' : set_free t (vp_list t vpc) (vp_cnt t vpc) (set_vp_tx q (set_free t l n vpc)) = set_vp_tx q vpc) by (destruct t, vpc; done).
    rewrite Hb' in Hf. rewrite Hf.
    2: { replace (vp_list t (set_vp_tx q (set_free t l n vpc))) with l by by destruct t. unfold l. rewrite Hl0. by rewrite Permutation_app_comm. }
    rewrite fmap_cons. change (core (core hd)) with (core hd). unfold out_bufs. simpl. rewrite Hheld, !fmap_app, fmap_cons. solve_Permutation. }
  rewrite Hcomm. split; [|done]. apply (vpc_ok_move t l n q vpc []); try done.
  - unfold l. rewrite Hl0. apply Forall_app. split; [by apply Hl|by constructor].
  - unfold n, l. rewrite Hc0, Hl0, Hc by done. by rewrite zlen_app.
Qed.

Lemma txq_loop_ok n : forall vpc, vpc_ok vpc -> (length (vq_held (vp_tx vpc)) < n)%nat ->
  exists vpc', txq_loop n vpc = Ok vpc' /\ vpc_ok vpc' /\ cores vpc' ≡ₚ cores vpc.
Proof.
  induction n as [|n IH]; intros vpc Hok Hn; [lia|]. cbn [txq_loop].
  destruct (virtqueue_get_buf (vp_tx vpc)) as [[[[hd len] bs]|] q] eqn:Hg; cbn [fst snd].
  - apply vq_get_held in Hg as [Hheld _]. destruct (return_outbuf_ok q hd vpc Hok Hheld) as (Hok1 & Hc1 & Htx1).
    destruct (IH _ Hok1) as (vpc' & He & Hok' & Hc').
    + rewrite Htx1. rewrite Hheld in Hn. simpl in Hn. lia.
    + exists vpc'. split; [done|]. split; [done|]. by etrans.
  - apply vq_get_none in Hg. exists (set_vp_tx q vpc). split; [done|].
    assert (Hperm : cores (set_vp_tx q vpc) ≡ₚ cores vpc).
    { unfold cores, out_bufs. simpl. by rewrite Hg. }
    split; [|done]. pose proof (vpc_ok_move PT_OUT_SMALL (vp_s_list vpc) (vp_s_cnt vpc) q vpc [] Hok) as Hm.
    assert (Hb : set_free PT_OUT_SMALL (vp_s_list vpc) (vp_s_cnt vpc) vpc = vpc) by by destruct vpc.
    rewrite Hb in Hm. apply Hm; [done| | |done].
    + by apply (vo_list _ Hok PT_OUT_SMALL).
    + by apply (vo_cnt _ Hok PT_OUT_SMALL).
Qed.
(** *** Sending *)

Lemma vpc_ok_pool t m vpc : vpc_ok vpc -> zlen m = pool_size t -> vpc_ok (set_pool t m vpc) /\ cores (set_pool t m vpc) = cores vpc.
Proof.
  intros [Hp Hl Hc Hb Hi] Hm. assert (He : cores (set_pool t m vpc) = cores vpc) by by destruct t.
  split; [|done]. constructor; rewrite ?He; try done.
  - intros u Hu. destruct (decide (t = u)) as [->|].
    + exists m. split; [|done]. by destruct u.
    + destruct (Hp u Hu) as (x & ? & ?). exists x. split; [|done]. by destruct t, u.
  - intros u Hu. replace (vp_list u (set_pool t m vpc)) with (vp_list u vpc) by by destruct t, u. by apply Hl.
  - intros u Hu. replace (vp_list u (set_pool t m vpc)) with (vp_list u vpc) by by destruct t, u.
    replace (vp_cnt u (set_pool t m vpc)) with (vp_cnt u vpc) by by destruct t, u. by apply Hc.
Qed.

Lemma send_pool_out n : send_pool n <> PT_IN.
Proof. unfold send_pool. by destruct (_ <=? _); [|destruct (_ <=? _)]. Qed.

Lemma send_pool_fits n : n <= buf_size PT_OUT_LARGE -> n <= buf_size (send_pool n).
Proof.
  intros Hn. unfold send_pool. destruct (Z.leb_spec n (buf_size PT_OUT_SMALL)); [done|].
  destruct (Z.leb_spec n (buf_num PT_OUT_MEDIUM)); [|done]. simpl in *. lia.
Qed.

(** The last buffer of a pool has no room after it for the header. *)
Definition overflows (hd : vh_buf_header) (n : Z) : bool :=
  (hd_index hd =? buf_num (hd_pool_type hd) - 1) && (buf_size (hd_pool_type hd) - sizeof_hab_header <? n).

Lemma fill_outbuf_eq t m hd h payload n :
  hd_ok hd -> hd_pool_type hd = t -> zlen m = pool_size t -> 0 <= n <= zlen payload -> n <= buf_size t ->
  if overflows hd n then fill_outbuf m hd h payload n = Fault OutOfBounds
  else exists m', fill_outbuf m hd h payload n = Ok (m', header_enc h ++ take (Z.to_nat n) payload) /\ zlen m' = pool_size t.
Proof.
  intros (Hsz & Hi & Hb) <- Hm Hn Hle. unfold fill_outbuf, overflows. set (t := hd_pool_type hd) in *.
  pose proof (header_enc_zlen h) as Hh. unfold sizeof_hab_header, pool_size, buf_slot, GUARD_BAND_SZ, sizeof_vh_buf_header in *.
  assert (Hbs : 512 <= buf_size t) by (by destruct t).
  assert (Hroom : hd_buf hd + buf_size t <= zlen m) by (rewrite Hm, Hb; nia).
  rewrite (mem_write_Some m) by lia. cbn [of_opt res_bind]. set (m1 := take _ m ++ _).
  assert (H1 : zlen m1 = zlen m) by (apply (mem_write_len m (hd_buf hd) (header_enc h)); apply mem_write_Some; lia).
  rewrite mem_read_Some by lia. cbn [of_opt res_bind]. change (drop (Z.to_nat 0) payload) with payload.
  set (bs := take (Z.to_nat n) payload). assert (Hbz : zlen bs = n) by (unfold bs, zlen in *; rewrite length_firstn; lia).
  destruct (Z.eqb_spec (hd_index hd) (buf_num t - 1)) as [He|Hne]; cbn [andb].
  - destruct (Z.ltb_spec (buf_size t - 20) n).
    + unfold mem_write. rewrite (proj2 (Z.leb_gt _ (zlen m1))) by (rewrite H1, Hm, Hb, Hbz; nia). by rewrite andb_false_r.
    + rewrite mem_write_Some by (rewrite ?H1, ?Hm; nia). eexists. split; [reflexivity|]. rewrite <- Hm, <- H1.
      eapply mem_write_len. apply mem_write_Some; rewrite ?H1, ?Hm; nia.
  - rewrite mem_write_Some by (rewrite ?H1, ?Hm; nia). eexists. split; [reflexivity|]. rewrite <- Hm, <- H1.
    eapply mem_write_len. apply mem_write_Some; rewrite ?H1, ?Hm; nia.
Qed.

(** What a send on a channel that is ready does with the first free buffer. *)
Lemma virtio_send_eq seq ln vpc h payload hd l :
  let n := HAB_HEADER_GET_SIZE h in let t := send_pool n in
  ln_vpc ln = Some vpc -> vpc_ok vpc -> vp_pchan_ready vpc = true -> 0 <= n <= buf_size PT_OUT_LARGE -> n <= zlen payload ->
  (HAB_HEADER_GET_TYPE h = payload_code HAB_PAYLOAD_TYPE_PROFILE -> 16 <= zlen payload) ->
  vp_list t vpc = hd :: l ->
  if overflows hd n then virtio_send seq ln h payload = Fault OutOfBounds
  else exists m p', zlen m = pool_size t /\ stamp_tx h (ln_now ln) payload = Ok p' /\
    let a := virtqueue_add_outbuf (vp_tx vpc) (set_hd_payload_size n hd)
               (header_enc (sent_header h (u32 (seq + 1))) ++ take (Z.to_nat n) p') in
    virtio_send seq ln h payload = Ok (0, u32 (seq + 1),
      set_ln_vpc (Some (set_vp_tx (if a.1 =? 0 then (virtqueue_kick a.2).2 else a.2)
        (set_pool t m (set_free t l (vp_cnt t vpc - 1) vpc)))) ln).
Proof.
  intros n t Hv Hok Hr Hn Hpz Hprof Hl. pose proof Hok as [Hp Hlist _ Hb _]. pose proof (send_pool_out n) as Ht. fold t in Ht.
  assert (Hhd : hd_ok hd /\ hd_pool_type hd = t).
  { split; [|by specialize (Hlist t Ht); rewrite Hl in Hlist; apply list.Forall_cons in Hlist as [? _]].
    rewrite list.Forall_forall in Hb. apply (hd_ok_core hd), (Hb (core hd)). apply list_elem_of_fmap. exists hd. split; [done|].
    pose proof (out_bufs_free t l 0 vpc hd Ht ltac:(by rewrite Hl)) as Hperm. rewrite Hperm. by left. }
  destruct Hhd as [Hhd Hhdt]. destruct (stamp_tx_len h (ln_now ln) payload Hprof) as (p' & Hst & Hz & _).
  destruct (Hp t Ht) as (m & Hm & Hmz). pose proof (send_pool_fits n ltac:(lia)) as Hfit. fold t in Hfit.
  pose proof (fill_outbuf_eq t m hd (sent_header h (u32 (seq + 1))) p' n Hhd Hhdt Hmz ltac:(lia) Hfit) as Hfill.
  unfold virtio_send. rewrite Hv. cbv zeta. fold n t. destruct (Z.ltb_spec (buf_size PT_OUT_LARGE) n); [lia|]. rewrite Hr.
  unfold get_vh_buf_header. rewrite Hm. cbn [of_opt res_bind]. rewrite Hl. cbn [res_bind]. rewrite Hst. cbn [res_bind].
  rewrite vp_pool_free, Hm. cbn [of_opt res_bind]. fold (sent_header h (u32 (seq + 1))).
  destruct (overflows hd n); [by rewrite Hfill|]. destruct Hfill as (m' & -> & Hm').
  exists m', p'. split; [done|]. split; [done|]. cbn [res_bind fst snd].
  replace (vp_tx (set_pool t m' (set_free t l (vp_cnt t vpc - 1) vpc))) with (vp_tx vpc) by by destruct t. done.
Qed.
End pools.

(** ** What holds of the buffers *)

Section claims.
Context {VQ : Type} `{Virtqueue VQ}.
Implicit Types (vpc : vq_pchan VQ) (ln : virtio_pchan_link VQ).

End claims.

Section claims2.
Context {VQ : Type} `{Virtqueue VQ}.
Implicit Types (vpc : vq_pchan VQ) (ln peer : virtio_pchan_link VQ).

(** A send stays inside the memory of its pool except in the last buffer of the
    pool, and there exactly when header and payload together are longer than the
    buffer. *)
Theorem virtio_send_bounds vpc ln (seq : Z) (h : hab_header) (payload : bytes) (hd : vh_buf_header) (l : list vh_buf_header) :
  vpc_ok vpc -> ln_vpc ln = Some vpc -> vp_pchan_ready vpc = true ->
  0 <= HAB_HEADER_GET_SIZE h <= buf_size PT_OUT_LARGE -> HAB_HEADER_GET_SIZE h <= zlen payload ->
  (HAB_HEADER_GET_TYPE h = payload_code HAB_PAYLOAD_TYPE_PROFILE -> 16 <= zlen payload) ->
  vp_list (send_pool (HAB_HEADER_GET_SIZE h)) vpc = hd :: l ->
  if overflows hd (HAB_HEADER_GET_SIZE h) then virtio_send seq ln h payload = Fault OutOfBounds
  else exists ln', virtio_send seq ln h payload = Ok (0, u32 (seq + 1), ln').
Proof.
  intros Hok Hv Hr Hn Hz Hprof Hl. pose proof (virtio_send_eq seq ln vpc h payload hd l Hv Hok Hr Hn Hz Hprof Hl) as Hs.
  destruct (overflows hd _); [done|]. destruct Hs as (m & p' & _ & _ & Hs). by eexists.
Qed.

(** A link whose buffer at hand is one that the device filled with these bytes. *)
Definition arrived peer (bs : bytes) : Prop :=
  exists vpc pad, ln_vpc peer = Some vpc /\ vp_read_data vpc = Some (bs ++ pad) /\ vp_read_size vpc = zlen bs /\
    vp_read_offset vpc = 0 /\ zlen (bs ++ pad) = buf_size PT_IN.

(** Such a buffer with a message in it: its header, and a read gets exactly its
    payload. *)
Lemma arrived_frame peer (h : hab_header) (seq : Z) (payload : bytes) :
  header_ok h -> is_u32 seq -> zlen payload = HAB_HEADER_GET_SIZE h ->
  arrived peer (header_enc (sent_header h seq) ++ payload) ->
  (header_dec <$> (ln_vpc peer ≫= vp_read_data)) = Some (sent_header h seq) /\
  exists peer', virtio_read peer (HAB_HEADER_GET_SIZE h) = Ok (HAB_HEADER_GET_SIZE h, payload, peer').
Proof.
  intros Hh Hseq Hz (v & pad & Hpv & Hpd & Hps & Hpo & Hpz). set (n := HAB_HEADER_GET_SIZE h) in *. pose proof (zlen_nonneg payload).
  assert (Hsent : header_ok (sent_header h seq)).
  { destruct Hh as (?&?&?&?&?). unfold header_ok, sent_header. by cbn; split_and!. }
  pose proof (header_enc_zlen (sent_header h seq)) as Hez.
  split.
  { rewrite Hpv. unfold mbind, option_bind. rewrite Hpd. apply (f_equal Some). by rewrite <- app_assoc, header_dec_app. }
  rewrite zlen_app, Hez, Hz in Hps. rewrite !zlen_app, Hez, Hz in Hpz. pose proof (zlen_nonneg pad). unfold sizeof_hab_header, buf_size in *.
  rewrite (virtio_read_eq peer v ((header_enc (sent_header h seq) ++ payload) ++ pad) n); [|unfold virtio_up; rewrite Hpv, Hpd|done|done|lia].
  - rewrite Hps, Hpo. unfold sizeof_hab_header. rewrite Z.min_l by lia. eexists. do 3 f_equal.
    rewrite <- app_assoc. change (20 + 0) with 20. unfold zlen in *. rewrite drop_app_ge by lia.
    replace (Z.to_nat 20 - length (header_enc (sent_header h seq)))%nat with 0%nat by lia.
    rewrite drop_0, take_app_le by lia. rewrite take_ge by lia. done.
  - rewrite Hpo, Hps, !zlen_app, Hez, Hz. unfold buf_size, sizeof_hab_header. repeat (apply andb_true_intro; split); lia.
Qed.

(** The device is given the header with its signature and the next sequence number and
    then the payload. *)
Lemma virtio_crosses vpc ln (seq : Z) (h : hab_header) (payload : bytes) (hd : vh_buf_header) (l : list vh_buf_header) :
  vpc_ok vpc -> ln_vpc ln = Some vpc -> vp_pchan_ready vpc = true ->
  0 <= HAB_HEADER_GET_SIZE h <= buf_size PT_OUT_LARGE -> zlen payload = HAB_HEADER_GET_SIZE h ->
  HAB_HEADER_GET_TYPE h <> payload_code HAB_PAYLOAD_TYPE_PROFILE ->
  vp_list (send_pool (HAB_HEADER_GET_SIZE h)) vpc = hd :: l -> overflows hd (HAB_HEADER_GET_SIZE h) = false ->
  exists ln' vpc', virtio_send seq ln h payload = Ok (0, u32 (seq + 1), ln') /\ ln_vpc ln' = Some vpc' /\
    vp_tx vpc' = (let a := virtqueue_add_outbuf (vp_tx vpc) (set_hd_payload_size (HAB_HEADER_GET_SIZE h) hd)
                             (header_enc (sent_header h (u32 (seq + 1))) ++ payload) in
                  if a.1 =? 0 then (virtqueue_kick a.2).2 else a.2).
Proof.
  intros Hok Hv Hr Hn Hz Hprof Hl Hov. pose proof (virtio_send_eq seq ln vpc h payload hd l Hv Hok Hr Hn ltac:(lia) ltac:(done) Hl) as Hs.
  set (n := HAB_HEADER_GET_SIZE h) in *. rewrite Hov in Hs. destruct Hs as (m & p' & _ & Hst & Hs). cbv zeta in Hs.
  destruct (stamp_tx_len h (ln_now ln) payload ltac:(done)) as (p2 & Hst2 & _ & Hp2). rewrite Hst in Hst2. injection Hst2 as <-.
  rewrite Hp2 in Hs by done. rewrite (take_ge payload) in Hs by (unfold zlen in *; lia).
  eexists _, _. split; [exact Hs|]. by split.
Qed.
End claims2.

(** ** A queue and a channel

    The device remembers what it was sent, and answers in order with what it is told
    to. *)
Record sample_queue := { sq_held : list vh_buf_header; sq_sent : list bytes; sq_answers : list (Z * bytes) }.

#[export] Instance sample_virtqueue : Virtqueue sample_queue.
Proof.
  refine {| vq_held := sq_held;
    virtqueue_add_outbuf := fun q hd bs => (0, Build_sample_queue (sq_held q ++ [hd]) (sq_sent q ++ [bs]) (sq_answers q));
    virtqueue_add_inbuf := fun q hd => (0, Build_sample_queue (sq_held q ++ [hd]) (sq_sent q) (sq_answers q));
    virtqueue_get_buf := fun q =>
      match sq_held q, sq_answers q with
      | hd :: l, (len, bs) :: r =>
          if zlen bs =? hd_size hd then (Some (hd, len, bs), Build_sample_queue l (sq_sent q) r) else (None, q)
      | _, _ => (None, q)
      end;
    virtqueue_kick := fun q => (true, q) |}.
  - intros q hd bs r q' [= <- <-]. simpl. by rewrite Permutation_app_comm.
  - intros q hd r q' [= <- <-]. simpl. by rewrite Permutation_app_comm.
  - intros q hd len bs q'. destruct (sq_held q) as [|x l]; [done|]. destruct (sq_answers q) as [|[n b] rest]; [done|].
    destruct (Z.eqb_spec (zlen b) (hd_size x)); [|done]. by intros [= <- <- <- <-].
  - intros q q'. destruct (sq_held q) as [|x l] eqn:Hh; [by intros [= <-]; rewrite Hh|].
    destruct (sq_answers q) as [|[n b] rest]; [by intros [= <-]; rewrite Hh|].
    destruct (_ =? _); [done|by intros [= <-]; rewrite Hh].
  - by intros q r q' [= _ <-].
Defined.

Definition pool_hds (t : pool_type_t) : list vh_buf_header := (init_pool_list (buf_size t) (buf_num t) t 0).1.
Definition pool_mem (t : pool_type_t) : option bytes := Some (repeat 0 (Z.to_nat (pool_size t))).

(** A channel after the probe, whose last small buffers are free. *)
Definition sample_vpc (small : list vh_buf_header) : vq_pchan sample_queue :=
  Build_vq_pchan 101 (Some 0%nat) (Some 50%nat) (Build_sample_queue [] [] []) (Build_sample_queue (pool_hds PT_IN) [] [])
    (pool_mem PT_OUT_SMALL) small (zlen small) (pool_mem PT_OUT_MEDIUM) [] 0 (pool_mem PT_OUT_LARGE) [] 0
    [] 0 None 0 0 true false.

Lemma sample_vpc_ok small :
  forallb (fun hd => (hd_size hd =? 512) && (0 <=? hd_index hd) && (hd_index hd <? 200) &&
    (hd_buf hd =? hd_index hd * 596 + 84) && (hd_payload_size hd =? 0) && bool_decide (hd_pool_type hd = PT_OUT_SMALL)) small = true ->
  NoDup (hd_index <$> small) -> vpc_ok (sample_vpc small).
Proof.
  intros Hs Hnd. rewrite forallb_forall in Hs.
  assert (Hall : Forall (fun hd => hd_ok hd /\ core hd = hd /\ hd_pool_type hd = PT_OUT_SMALL) small).
  { apply list.Forall_forall. intros hd Hin%list_elem_of_In. specialize (Hs hd Hin). bool_hyps.
    match goal with H : bool_decide _ = true |- _ => apply bool_decide_eq_true in H as Ht end.
    unfold hd_ok. rewrite Ht. split_and!; try done; try (unfold buf_slot, GUARD_BAND_SZ, sizeof_vh_buf_header; simpl; lia); simpl; try lia.
    destruct hd. simpl in *. unfold core, set_hd_payload_size. simpl. f_equal. lia. }
  assert (Hc : cores (sample_vpc small) = small).
  { unfold cores, out_bufs. simpl. rewrite app_nil_r. clear -Hall. induction Hall as [|hd l (? & Hcore & ?) _ IH]; [done|].
    rewrite fmap_cons, Hcore. by f_equal. }
  constructor.
  - intros t Ht. destruct t; try done; (eexists; split; [reflexivity|]); rewrite repeat_zlen; done.
  - intros t Ht. destruct t; try done; simpl; try constructor. eapply list.Forall_impl; [exact Hall|]. by intros hd (_ & _ & ?).
  - by intros [].
  - rewrite Hc. eapply list.Forall_impl; [exact Hall|]. intros hd (? & _ & Ht). by rewrite Ht.
  - rewrite Hc. apply (NoDup_fmap_1 snd). rewrite <- list_fmap_compose. exact Hnd.
Qed.

Definition small_buf (i : Z) : vh_buf_header := Build_vh_buf_header (i * 596 + 84) 512 PT_OUT_SMALL i 0.
Definition sample_link (small : list vh_buf_header) : virtio_pchan_link sample_queue :=
  Build_virtio_pchan_link 101 (Some (sample_vpc small)) (Some 50%nat) (100, 0).
Definition three : hab_header := mk_header 3 HAB_PAYLOAD_TYPE_MSG 2 7.


Definition full_buffer : hab_header := mk_header 512 HAB_PAYLOAD_TYPE_MSG 2 7.

Definition ones : bytes := repeat 1 512.

(** A message of 512 bytes in the last small buffer. *)
Lemma virtio_send_bounds_witness :
  virtio_send 0 (sample_link [small_buf 199]) full_buffer ones = Fault OutOfBounds.
Proof.
  assert (Hok : vpc_ok (sample_vpc [small_buf 199])).
  { apply sample_vpc_ok; [by vm_compute|apply (bool_decide_eq_true_1 _); by vm_compute]. }
  pose proof (virtio_send_bounds (sample_vpc [small_buf 199]) (sample_link [small_buf 199]) 0 full_buffer ones (small_buf 199) []
    Hok eq_refl eq_refl) as Hb.
  apply Hb.
  - split; intros Hx; vm_compute in Hx; discriminate Hx.
  - intros Hx. vm_compute in Hx. discriminate Hx.
  - intros Hx. vm_compute in Hx. discriminate Hx.
  - vm_compute. reflexivity.
Defined.
