(* ===== verification/VirtioRx.v ===== *)
(** The reception of the virtio transport (hypervisor/virtio/hab_virtio.c): the buffers
    that the device has filled are taken off the receive queue, their messages handled,
    and the buffers given back.  The driver stays well-formed whatever the device
    sends, every buffer goes back, and a message that was sent arrives whole. *)
From S2P Require Import Prelude Header World Logic Memory Invariant Pchan Exports Context Vchan Wait Open Loopback Sample Msg Mimex Progress Virtio Pools.

Section ops.
Context {VQ : Type} `{Virtqueue VQ} `{Platform (virtio_pchan_link VQ)} `{KernelIdr}.
#[local] Abbreviation M := (World.M (virtio_pchan_link VQ)).
Implicit Types (vpc : vq_pchan VQ).

(** The transport's state of a channel, and the device's side of it. *)
Definition get_ln (p : nat) : M (virtio_pchan_link VQ) := fun w =>
  match w_hyp w !! p with Some ln => Ok (ln, w) | None => Fault NullDeref end.
Definition put_ln (p : nat) (ln : virtio_pchan_link VQ) : M unit :=
  modify (fun w => set_w_hyp (<[p := ln]> (w_hyp w)) w).
Definition get_vpc (p : nat) : M (vq_pchan VQ) :=
  let! ln := get_ln p in
  match ln_vpc ln with Some vpc => ret vpc | None => fail NullDeref end.
Definition put_vpc (p : nat) vpc : M unit :=
  let! ln := get_ln p in put_ln p (set_ln_vpc (Some vpc) ln).

(* src/hypervisor/virtio/hab_virtio.c:207-213 virthab_recv_rxq *)
Definition inbuf_corrupted (hd : vh_buf_header) : bool :=
  (hd_index hd <? 0) || (buf_num PT_IN <? hd_index hd) || negb (bool_decide (hd_pool_type hd = PT_IN)) ||
  negb (hd_size hd =? buf_size PT_IN).

(** The buffer [hd], in which the device left [bs], is the one at hand. *)
(* src/hypervisor/virtio/hab_virtio.c:222-224 virthab_recv_rxq *)
Definition rx_at_hand (len : Z) (bs : bytes) vpc : vq_pchan VQ :=
  set_vp_read_offset 0 (set_vp_read_size len (set_vp_read_data (Some bs) vpc)).

(** The buffer goes back to the device; it is counted as there even when the queue
    does not take it. *)
(* src/hypervisor/virtio/hab_virtio.c:240-256 virthab_recv_rxq *)
Definition rx_give_back (hd : vh_buf_header) vpc : vq_pchan VQ :=
  if vp_pchan_ready vpc then
    set_vp_rx (virtqueue_kick (virtqueue_add_inbuf (vp_rx vpc) hd).2).2 (set_vp_in_cnt (vp_in_cnt vpc + 1) vpc)
  else vpc.

(** One buffer.  [false] when the loop ends: there is none, or it is corrupted, and
    then it is neither handled nor given back. *)
(* src/hypervisor/virtio/hab_virtio.c:203-258 virthab_recv_rxq *)
Definition rx_one (p : nat) : M bool :=
  let! vpc := get_vpc p in
  let r := virtqueue_get_buf (vp_rx vpc) in
  let vpc := set_vp_rx (r.2) vpc in
  match r.1 with
  | None => do! put_vpc p vpc in ret false
  | Some (hd, len, bs) =>
      let vpc := set_vp_in_cnt (vp_in_cnt vpc - 1) vpc in
      if inbuf_corrupted hd then do! put_vpc p vpc in ret false
      else
        do! put_vpc p (rx_at_hand len bs vpc) in
        let hdr := header_dec bs in
        let! _ := hab_msg_recv p hdr in
        do! upd_p p (set_pc_sequence_rx (sequence hdr)) in
        let! vpc := get_vpc p in
        do! put_vpc p (rx_give_back (set_hd_payload_size 0 hd) vpc) in
        ret true
  end.

(** At most [n] buffers: a device that fills buffers as fast as they are given back
    keeps the loop going.  [true] when it has ended.  [p] is the channel of the queue's
    [vq_pchan]. *)
(* src/hypervisor/virtio/hab_virtio.c:185-260 virthab_recv_rxq *)
Fixpoint virthab_recv_rxq (n : nat) (p : nat) : M bool :=
  match n with
  | O => ret false
  | S n => let! more := rx_one p in if more then virthab_recv_rxq n p else ret true
  end.

(* src/hypervisor/virtio/hab_virtio.c:262-268 virthab_recv_rxq_task *)
Definition virthab_recv_rxq_task (p : nat) : M unit :=
  let! vpc := get_vpc p in put_vpc p (set_vp_task true vpc).

(* src/hypervisor/virtio/hab_virtio.c:1053-1066 physical_channel_rx_dispatch *)
Definition virtio_rx_dispatch (p : nat) : M unit :=
  let! ln := get_ln p in
  match ln_vpc ln with
  | None => ret tt
  | Some _ => virthab_recv_rxq_task p
  end.
End ops.

(** ** Properties *)

Section props.
Context {VQ : Type} `{Virtqueue VQ} `{KernelIdr}.
Context (kernel : LinuxCalls).
#[local] Instance virtio : Platform (virtio_pchan_link VQ) :=
  virtio_platform kernel.
Implicit Types (vpc : vq_pchan VQ) (ln : virtio_pchan_link VQ) (w : world (virtio_pchan_link VQ)) (h : held).

(** Sends and reads leave the receiving side of a channel alone. *)
Definition rx_same ln ln' : Prop :=
  match ln_vpc ln, ln_vpc ln' with
  | Some v, Some v' => vp_rx v' = vp_rx v /\ vp_in_cnt v' = vp_in_cnt v /\ vp_pchan_ready v' = vp_pchan_ready v
  | None, None => True
  | _, _ => False
  end.

#[local] Instance rx_same_pre : PreOrder rx_same.
Proof.
  split.
  - intros ln. unfold rx_same. by destruct (ln_vpc ln).
  - intros a b c. unfold rx_same. destruct (ln_vpc a), (ln_vpc b), (ln_vpc c); try done. intuition congruence.
Qed.

Lemma send_rx_same pc ln hd bs r q ln' : phys_send pc ln hd bs = Some (r, q, ln') -> rx_same ln ln'.
Proof.
  cbn [phys_send virtio virtio_platform]. unfold virtio_phys_send, virtio_send, rx_same. destruct (ln_vpc ln) as [vpc|] eqn:Hv.
  2: { intros [= <- <- <-]. by rewrite Hv. }
  destruct (_ <? _); [intros [= <- <- <-]; by rewrite Hv|]. destruct (vp_pchan_ready vpc) eqn:Hr; [|intros [= <- <- <-]; by rewrite Hv].
  unfold get_vh_buf_header. set (t := send_pool _). destruct (vp_pool t vpc) as [m0|]; [|done]. cbn [of_opt res_bind].
  destruct (vp_list t vpc) as [|b l]; [done|]. cbn [res_bind]. destruct (stamp_tx _ _ _) as [pl| |]; try done. cbn [res_bind].
  destruct (vp_pool t _) as [m|]; [|done]. cbn [of_opt res_bind]. destruct (fill_outbuf _ _ _ _ _) as [f| |]; try done. cbn [res_bind].
  intros [= <- <- <-]. cbn [ln_vpc set_ln_vpc]. by destruct t.
Qed.

Lemma read_rx_same pc ln n : rx_same ln (phys_read pc ln n).2.
Proof.
  cbn [phys_read virtio virtio_platform]. unfold virtio_phys_read, virtio_read.
  destruct (ln_vpc ln) as [vpc|] eqn:Hv; [|by destruct (_ && _)].
  destruct (vp_read_data vpc) as [d|]; [|by destruct (_ && _)]. cbv zeta. destruct (_ <? _); [reflexivity|].
  destruct (mem_read _ _ _) as [bs|]; [|reflexivity]. cbn [of_opt res_bind]. destruct (_ && _); [|reflexivity].
  cbn [snd]. unfold rx_same. rewrite Hv. by cbn.
Qed.

Lemma recv_rx_same p hdr w r w' : hab_msg_recv p hdr w = Ok (r, w') -> hyp_keeps rx_same w w'.
Proof.
  intros He. refine (built_keeps rx_same _ send_rx_same _ (built_msg_recv p hdr) w r w' He). apply read_rx_same.
Qed.
(** A message whose handling relies on nothing but the driver's invariant: it is no
    import request, and no stamped message of more than a page. *)
Definition frame_good (len : Z) (bs : bytes) : Prop :=
  let hdr := header_dec bs in
  sizeof_hab_header <= len <= buf_size PT_IN /\ zlen bs = buf_size PT_IN /\ bytes_ok bs /\
  payload_of_code (HAB_HEADER_GET_TYPE hdr) <> Some HAB_PAYLOAD_TYPE_IMPORT /\
  (is_stamped (payload_of_code (HAB_HEADER_GET_TYPE hdr)) = true -> payload_size hdr <= PAGE_SIZE).

(** The device: it fills buffers with such messages and tells their length, the queue
    takes back a buffer that came off it, and [left] bounds the buffers it has still to
    fill. *)
Record device_ok (good : VQ -> Prop) (left : VQ -> nat) : Prop := {
  do_get : forall q hd len bs q', good q -> virtqueue_get_buf q = (Some (hd, len, bs), q') ->
    good q' /\ frame_good len bs /\ (left q' < left q)%nat;
  do_none : forall q q', good q -> virtqueue_get_buf q = (None, q') -> good q' /\ (left q' <= left q)%nat;
  do_add : forall q hd, good q -> let a := virtqueue_add_inbuf q hd in a.1 = 0 /\ good a.2 /\ (left a.2 <= left q)%nat;
  do_kick : forall q, good q -> let k := virtqueue_kick q in good k.2 /\ (left k.2 <= left q)%nat
}.

(** A buffer for reception as the pool has it. *)
Definition inbuf_ok (hd : vh_buf_header) : Prop := hd_ok hd /\ hd_pool_type hd = PT_IN.

Lemma inbuf_ok_sound hd : inbuf_ok hd -> inbuf_corrupted hd = false.
Proof.
  intros [Hok Ht]. unfold hd_ok in Hok. rewrite Ht in Hok. destruct Hok as (Hs & Hi & _).
  unfold inbuf_corrupted. rewrite Ht, Hs, Z.eqb_refl, bool_decide_eq_true_2 by done.
  destruct (Z.ltb_spec (hd_index hd) 0), (Z.ltb_spec (buf_num PT_IN) (hd_index hd)); try done; lia.
Qed.

(** The receiving side of a ready channel, whose device has the buffers [l]. *)
Definition rx_ok (good : VQ -> Prop) (l : list vh_buf_header) vpc : Prop :=
  good (vp_rx vpc) /\ Forall inbuf_ok (vq_held (vp_rx vpc)) /\ vp_pchan_ready vpc = true /\ core <$> vq_held (vp_rx vpc) ≡ₚ l.

Definition rx_chan good (l : list vh_buf_header) w p vpc : Prop :=
  exists ln, w_hyp w !! p = Some ln /\ ln_vpc ln = Some vpc /\ rx_ok good l vpc.

Lemma recv_keeps h p hdr w : wf h w -> h_x h = None -> recv_pre w p hdr ->
  wp (hab_msg_recv p hdr) (fun _ w' => wf h w' /\ hyp_keeps rx_same w w') w.
Proof.
  intros Hwf Hx Hpre. apply (wp_run _ (fun _ w' => wf h w') (hyp_keeps rx_same w)); [by apply hab_msg_recv_spec|].
  intros r w' He. by eapply recv_rx_same.
Qed.

Lemma rx_ok_perm good l l' vpc : l ≡ₚ l' -> rx_ok good l' vpc -> rx_ok good l vpc.
Proof. intros Hl (?&?&?&Hc). split; [done|]. split; [done|]. split; [done|]. by rewrite Hl. Qed.

Section receive.
Context (good : VQ -> Prop) (left : VQ -> nat) (Hdev : device_ok good left).

Lemma wp_get_vpc p vpc good' l (Q : vq_pchan VQ -> world _ -> Prop) w : rx_chan good' l w p vpc -> Q vpc w -> wp (get_vpc p) Q w.
Proof. intros (ln & Hl & Hv & _) HQ. unfold wp, get_vpc, get_ln, bind. rewrite Hl, Hv. exact HQ. Qed.

Lemma wp_put_vpc p vpc vpc' good' l (Q : unit -> world _ -> Prop) w : rx_chan good' l w p vpc ->
  (forall w', frame w w' -> w_pchans w' = w_pchans w -> w_vchans w' = w_vchans w -> w_alloc w' = w_alloc w ->
     (exists ln, w_hyp w' !! p = Some ln /\ ln_vpc ln = Some vpc') -> Q tt w') -> wp (put_vpc p vpc') Q w.
Proof.
  intros (ln & Hl & _) HQ. unfold wp, put_vpc, get_ln, put_ln, bind, modify. rewrite Hl. apply HQ; try done.
  - apply frame_hyp.
  - eexists. split; [apply lookup_insert_eq|done].
Qed.

(** The buffer at hand of a good frame is one that reads rely on. *)
Lemma at_hand_up ln vpc len bs : ln_vpc ln = Some (rx_at_hand len bs vpc) -> frame_good len bs -> virtio_up ln = true.
Proof.
  intros Hv (Hl & Hz & _). unfold virtio_up, rx_at_hand. rewrite Hv. cbn. unfold sizeof_hab_header, buf_size in *.
  repeat (apply andb_true_intro; split); lia.
Qed.

(** What giving a buffer back makes of the receive queue. *)
Lemma rx_give_back_ok vpc hd l :
  rx_ok good l vpc -> inbuf_ok hd ->
  rx_ok good (core hd :: l) (rx_give_back hd vpc) /\ vp_in_cnt (rx_give_back hd vpc) = vp_in_cnt vpc + 1 /\
  (left (vp_rx (rx_give_back hd vpc)) <= left (vp_rx vpc))%nat.
Proof.
  intros (Hg & Hall & Hr & Hc) Hhd. unfold rx_give_back. rewrite Hr.
  destruct (virtqueue_add_inbuf (vp_rx vpc) hd) as [rc q1] eqn:Ha. pose proof (vq_add_in_held _ _ _ _ Ha) as Hq1.
  pose proof (do_add _ _ Hdev (vp_rx vpc) hd Hg) as Hadd. rewrite Ha in Hadd. destruct Hadd as (Hrc & Hg1 & Hl1). cbn [fst snd] in *.
  rewrite Hrc in Hq1. cbn [Z.eqb] in Hq1.
  destruct (virtqueue_kick q1) as [k q2] eqn:Hk. pose proof (vq_kick_held _ _ _ Hk) as Hq2.
  pose proof (do_kick _ _ Hdev q1 Hg1) as Hkk. rewrite Hk in Hkk. destruct Hkk as (Hg2 & Hl2). cbn [fst snd] in *.
  split; [|split; [done|cbn; lia]]. unfold rx_ok. cbn [vp_rx set_vp_rx set_vp_in_cnt vp_pchan_ready]. split; [done|].
  split; [rewrite Hq2, Hq1; by constructor|]. split; [done|]. rewrite Hq2, Hq1. cbn [app]. rewrite fmap_cons. by rewrite Hc.
Qed.

(** A buffer that comes off the receive queue, or none. *)
Lemma rx_get_ok vpc l :
  rx_ok good l vpc ->
  match virtqueue_get_buf (vp_rx vpc) with
  | (Some (hd, len, bs), q) => exists l', l ≡ₚ core hd :: l' /\ rx_ok good l' (set_vp_rx q vpc) /\ inbuf_ok hd /\
      frame_good len bs /\ (left q < left (vp_rx vpc))%nat
  | (None, q) => rx_ok good l (set_vp_rx q vpc)
  end.
Proof.
  intros (Hg & Hall & Hr & Hc). destruct (virtqueue_get_buf (vp_rx vpc)) as [[[[hd len] bs]|] q] eqn:Hget.
  - destruct (vq_get_held _ _ _ _ _ Hget) as [Hheld _]. destruct (do_get _ _ Hdev _ _ _ _ _ Hg Hget) as (Hg' & Hf & Hlt).
    rewrite Hheld in Hall, Hc. apply list.Forall_cons in Hall as [Hhd Hall]. rewrite fmap_cons in Hc.
    exists (core <$> vq_held q). by rewrite <- Hc.
  - pose proof (vq_get_none _ _ Hget) as Hheld. destruct (do_none _ _ Hdev _ _ Hg Hget) as [Hg' _]. split; [done|].
    cbn [vp_rx set_vp_rx vp_pchan_ready]. by rewrite Hheld.
Qed.

Lemma rx_chan_same w w' p vpc l :
  hyp_keeps rx_same w w' -> rx_chan good l w p vpc ->
  exists vpc', rx_chan good l w' p vpc' /\ vp_rx vpc' = vp_rx vpc /\ vp_in_cnt vpc' = vp_in_cnt vpc.
Proof.
  intros Hk (ln & Hl & Hv & Hg & Hall & Hr & Hc). destruct (Hk p ln Hl) as (ln' & Hl' & Hs). unfold rx_same in Hs.
  rewrite Hv in Hs. destruct (ln_vpc ln') as [v'|] eqn:Hv'; [|done]. destruct Hs as (E1 & E2 & E3).
  exists v'. split; [|done]. exists ln'. unfold rx_ok. by rewrite E1, E3.
Qed.

Lemma rx_one_spec h w p vpc l :
  wf h w -> h_x h = None -> p ∈ h_p h -> rx_chan good l w p vpc ->
  wp (rx_one p) (fun more w' => wf h w' /\ exists vpc', rx_chan good l w' p vpc' /\
    vp_in_cnt vpc' = vp_in_cnt vpc /\ (more = true -> (left (vp_rx vpc') < left (vp_rx vpc))%nat)) w.
Proof.
  intros Hwf Hx Hp Hc. pose proof Hc as (ln & Hl & Hv & Hrx). unfold rx_one.
  apply wp_bind. eapply wp_get_vpc; [exact Hc|]. cbv zeta.
  pose proof (rx_get_ok vpc l Hrx) as Hget. destruct (virtqueue_get_buf (vp_rx vpc)) as [[[[hd len] bs]|] q]; cbn [fst snd].
  2: { apply wp_bind. eapply wp_put_vpc; [exact Hc|]. intros w1 Hf Hp1 _ _ (ln1 & Hl1 & Hv1). apply wp_ret.
       split; [by eapply wf_frame|]. exists (set_vp_rx q vpc). split; [by exists ln1|]. by split. }
  destruct Hget as (l' & Hperm & Hrx' & Hhd & Hfg & Hlt). rewrite (inbuf_ok_sound hd Hhd).
  apply wp_bind. eapply wp_put_vpc; [exact Hc|]. intros w1 Hf Hp1 Hv1 Ha1 (ln1 & Hl1 & Hvpc1).
  assert (Hwf1 : wf h w1) by by eapply wf_frame. set (vpc1 := rx_at_hand _ _ _) in *.
  assert (Hc1 : rx_chan good l' w1 p vpc1) by by exists ln1.
  assert (Hpre : recv_pre w1 p (header_dec bs)).
  { pose proof Hfg as (_ & _ & Hb & Hni & Hst). split; [by eapply wf_held_pchan|]. split.
    - exists ln1. split; [done|]. exact (at_hand_up ln1 _ len bs Hvpc1 Hfg).
    - split; [by apply header_dec_size|]. split; [by intros ?|]. intros Hs Hn. specialize (Hst Hs). lia. }
  apply wp_bind. eapply wp_mono; [exact (recv_keeps h p (header_dec bs) w1 Hwf1 Hx Hpre)|]. intros r w2 [Hwf2 Hk]. destruct (rx_chan_same _ _ _ _ _ Hk Hc1) as (vpc2 & Hc2 & Er & Ei).
  destruct (wf_held_pchan h w2 p Hwf2 Hp) as [pc2 Hpc2].
  apply wp_bind. eapply wp_upd_p; [exact Hpc2|]. set (w3 := set_w_pchans _ w2).
  assert (Hf3 : frame w2 w3) by by eapply frame_pchan.
  assert (Hc3 : rx_chan good l' w3 p vpc2) by exact Hc2.
  apply wp_bind. eapply wp_get_vpc; [exact Hc3|].
  pose proof Hc3 as (_ & _ & _ & Hrx2).
  destruct (rx_give_back_ok vpc2 (set_hd_payload_size 0 hd) l' Hrx2 Hhd) as (Hrx3 & Ei3 & Hl3).
  apply wp_bind. eapply wp_put_vpc; [exact Hc3|]. intros w4 Hf4 _ _ _ (ln4 & Hl4 & Hv4). apply wp_ret.
  split; [eapply wf_frame; [exact Hf4|]; by eapply wf_frame|].
  eexists. split; [exists ln4; split; [exact Hl4|]; split; [exact Hv4|]; exact (rx_ok_perm _ _ _ _ Hperm Hrx3)|].
  split; [rewrite Ei3, Ei; cbn; lia|]. intros _. rewrite Er in Hl3. cbn in Hl3. lia.
Qed.

End receive.

(** A length of less than a header wraps around, and the read leaves the buffer. *)
Lemma short_frame_overruns ln vpc data n : ln_vpc ln = Some vpc -> vp_read_data vpc = Some data -> vp_read_offset vpc = 0 ->
  0 <= vp_read_size vpc < sizeof_hab_header -> 0 <= n < 2 ^ 32 -> virtio_read ln n = Fault OutOfBounds.
Proof.
  intros Hv Hd Ho Hs Hn. unfold virtio_read. rewrite Hv, Hd, Ho. cbv zeta. unfold sizeof_hab_header in *. rewrite (u64_id (n + 20 + 0)) by lia.
  destruct (Z.ltb_spec (vp_read_size vpc) (n + 20 + 0)); [|lia]. replace (u64 (vp_read_size vpc - 0 - 20)) with (2 ^ 64 + vp_read_size vpc - 20).
  - destruct (Z.ltb_spec n (2 ^ 64 + vp_read_size vpc - 20)); [done|lia].
  - unfold u64. rewrite <- (Z.mod_add _ 1) by done. symmetry. rewrite Z.mod_small; lia.
Qed.

(** *** From one end to the other *)

(** The channel [p], whose side of the device is [vpc], is connected to the open virtual
    channel [v] that the header [hd] is for. *)
Record rx_end w (p v : nat) (pc : physical_channel) (vc : virtual_channel) ln vpc (hd : hab_header) : Prop := {
  re_p : w_pchans w !! p = Some pc;
  re_ln : w_hyp w !! p = Some ln;
  re_vpc : ln_vpc ln = Some vpc;
  re_ready : vp_pchan_ready vpc = true;
  re_id : pc_vchan_idr pc !! HAB_VCID_GET_ID (HAB_HEADER_GET_ID hd) = Some v;
  re_v : w_vchans w !! v = Some vc;
  re_open : receives vc hd = true;
  re_refs : 1 <= vc_refcount vc;
  re_mem : forall l, w_alloc w <> false :: l
}.

Lemma get_vpc_eq w p ln vpc : w_hyp w !! p = Some ln -> ln_vpc ln = Some vpc -> get_vpc p w = Ok (vpc, w).
Proof. intros Hl Hv. unfold get_vpc, get_ln, bind. by rewrite Hl, Hv. Qed.

Lemma put_vpc_eq w p ln vpc : w_hyp w !! p = Some ln ->
  put_vpc p vpc w = Ok (tt, set_w_hyp (<[p := set_ln_vpc (Some vpc) ln]> (w_hyp w)) w).
Proof. intros Hl. unfold put_vpc, get_ln, put_ln, bind, modify. by rewrite Hl. Qed.

(** A buffer with a data message of the length that its header tells. *)
Lemma rx_one_data w p v pc vc ln vpc hd (mh : hab_header) bs pad q payload t :
  rx_end w p v pc vc ln vpc mh -> header_dec (bs ++ pad) = mh ->
  HAB_HEADER_GET_TYPE mh = payload_code t -> data_type t -> payload_size mh <= HAB_HEADER_SIZE_MAX ->
  inbuf_ok hd -> virtqueue_get_buf (vp_rx vpc) = (Some (hd, zlen bs, bs ++ pad), q) -> zlen (bs ++ pad) = buf_size PT_IN ->
  0 <= payload_size mh -> zlen payload = payload_size mh ->
  (forall peer : virtio_pchan_link VQ, arrived peer bs -> exists peer', virtio_read peer (payload_size mh) = Ok (payload_size mh, payload, peer')) ->
  exists w', rx_one p w = Ok (true, w') /\
    w_vchans w' = <[v := set_vc_rx_list (vc_rx_list vc ++ [Build_hab_message (payload_size mh) false (pc_sequence_rx pc) [payload]]) vc]>
      (w_vchans w) /\
    w_pchans w' = <[p := set_pc_sequence_rx (sequence mh) pc]> (w_pchans w) /\
    exists vpc', (ln_vpc <$> w_hyp w' !! p) = Some (Some vpc') /\
      vp_rx vpc' = (virtqueue_kick (virtqueue_add_inbuf q (set_hd_payload_size 0 hd)).2).2 /\ vp_in_cnt vpc' = vp_in_cnt vpc.
Proof.
  intros [Hp Hl Hv Hr Hi Hvc Hrec Href Hmem] Hh Ht Hm Hsz Hhd Hget Hz Hn Hpz Hread.
  set (vpc1 := rx_at_hand (zlen bs) (bs ++ pad) (set_vp_in_cnt (vp_in_cnt vpc - 1) (set_vp_rx q vpc))).
  set (ln1 := set_ln_vpc (Some vpc1) ln). set (w1 := set_w_hyp (<[p := ln1]> (w_hyp w)) w).
  destruct (Hread ln1) as (ln2 & Hrd); [by exists vpc1, pad|].
  assert (Hphys : phys_read pc ln1 (payload_size mh) = (payload_size mh, payload, ln2)).
  { cbn [phys_read virtio virtio_platform]. unfold virtio_phys_read. rewrite Hrd.
    by rewrite (proj2 (Z.leb_le (payload_size mh) (payload_size mh))), (proj2 (Z.leb_le (zlen payload) (payload_size mh))) by lia. }
  pose proof (read_rx_same pc ln1 (payload_size mh)) as Hsame. rewrite Hphys in Hsame. cbn [snd] in Hsame.
  unfold rx_same in Hsame. cbn [ln_vpc set_ln_vpc ln1] in Hsame. destruct (ln_vpc ln2) as [vpc2|] eqn:Hv2; [|done].
  destruct Hsame as (Er & Ei & Ey).
  assert (Hl1 : w_hyp w1 !! p = Some ln1) by apply lookup_insert_eq.
  destruct (recv_data_eq w1 p v pc vc ln1 ln2 mh t (payload_size mh) payload Hp Hl1 Hi Hvc Hrec Href Ht Hm Hsz Hmem Hphys)
    as (w2 & He & Hvs & Hhy & _ & Ho). destruct Ho as (Hps & _).
  unfold read_msg in Hvs. rewrite u64_id in Hvs by (unfold HAB_HEADER_SIZE_MAX in *; lia). rewrite <- Hpz, fill_buf_all, Hpz in Hvs.
  assert (Hl2 : w_hyp w2 !! p = Some ln2) by (rewrite Hhy; apply lookup_insert_eq).
  assert (Hp2 : w_pchans w2 !! p = Some pc) by by rewrite Hps.
  eexists. split.
  - unfold rx_one. unfold bind at 1. rewrite (get_vpc_eq w p ln vpc Hl Hv). cbv zeta. rewrite Hget. cbn [fst snd].
    rewrite (inbuf_ok_sound hd Hhd). unfold bind at 1. rewrite (put_vpc_eq w p ln _ Hl).
    change (set_w_hyp _ w) with w1. rewrite Hh. unfold bind at 1. rewrite He. unfold bind at 1, upd_p at 1. rewrite Hp2.
    set (w3 := set_w_pchans _ w2). unfold bind at 1. rewrite (get_vpc_eq w3 p ln2 vpc2 Hl2 Hv2).
    unfold bind at 1. rewrite (put_vpc_eq w3 p ln2 _ Hl2). reflexivity.
  - cbn. split; [exact Hvs|]. split; [by rewrite Hps|]. rewrite lookup_insert_eq. eexists. split; [reflexivity|].
    assert (Hr2 : vp_pchan_ready vpc2 = true) by by rewrite Ey.
    unfold rx_give_back. rewrite Hr2. cbn. rewrite Er, Ei. cbn. split; [done|lia].
Qed.

(** A buffer with a message as it is sent. *)
Lemma rx_one_frame w p v pc vc ln vpc hd (mh : hab_header) seq pad q payload t :
  rx_end w p v pc vc ln vpc mh -> header_ok mh -> is_u32 seq -> HAB_HEADER_GET_TYPE mh = payload_code t -> data_type t ->
  zlen payload = HAB_HEADER_GET_SIZE mh -> HAB_HEADER_GET_SIZE mh <= HAB_HEADER_SIZE_MAX -> inbuf_ok hd ->
  let bs := header_enc (sent_header mh seq) ++ payload in
  zlen (bs ++ pad) = buf_size PT_IN -> virtqueue_get_buf (vp_rx vpc) = (Some (hd, zlen bs, bs ++ pad), q) ->
  exists w', rx_one p w = Ok (true, w') /\
    w_vchans w' = <[v := set_vc_rx_list (vc_rx_list vc ++
      [Build_hab_message (HAB_HEADER_GET_SIZE mh) false (pc_sequence_rx pc) [payload]]) vc]> (w_vchans w) /\
    w_pchans w' = <[p := set_pc_sequence_rx seq pc]> (w_pchans w) /\
    exists vpc', (ln_vpc <$> w_hyp w' !! p) = Some (Some vpc') /\
      vp_rx vpc' = (virtqueue_kick (virtqueue_add_inbuf q (set_hd_payload_size 0 hd)).2).2 /\ vp_in_cnt vpc' = vp_in_cnt vpc.
Proof.
  intros Hend Hh Hseq Ht Hm Hz Hle Hhd bs Hpad Hget. pose proof (zlen_nonneg payload).
  assert (Hdec : header_dec (bs ++ pad) = sent_header mh seq).
  { destruct (arrived_frame (set_ln_vpc (Some (rx_at_hand (zlen bs) (bs ++ pad) vpc)) ln) mh seq payload Hh Hseq Hz) as [Hd _].
    - by exists (rx_at_hand (zlen bs) (bs ++ pad) vpc), pad.
    - exact (Some_inj _ _ Hd). }
  apply (rx_one_data w p v pc vc ln vpc hd (sent_header mh seq) bs pad q payload t); try done.
  - by destruct Hend.
  - change (payload_size (sent_header mh seq)) with (HAB_HEADER_GET_SIZE mh). lia.
  - intros peer Hp. exact (proj2 (arrived_frame peer mh seq payload Hh Hseq Hz Hp)).
Qed.

(** C8: A message goes from one end to the other whole: the sender gives the device one
    buffer, with the bytes [bs], and a receiver whose device fills a buffer with [bs]
    takes it off the queue, appends exactly the payload to the open virtual channel that
    the header names, records the sequence number and gives the buffer back. *)
Theorem virtio_transfer vpc ln (seq : Z) (mh : hab_header) (payload : bytes) (hd : vh_buf_header) (l : list vh_buf_header)
    (t : hab_payload_type) :
  vpc_ok vpc -> ln_vpc ln = Some vpc -> vp_pchan_ready vpc = true -> header_ok mh ->
  HAB_HEADER_GET_TYPE mh = payload_code t -> data_type t ->
  zlen payload = HAB_HEADER_GET_SIZE mh -> HAB_HEADER_GET_SIZE mh <= buf_size PT_OUT_LARGE ->
  vp_list (send_pool (HAB_HEADER_GET_SIZE mh)) vpc = hd :: l -> overflows hd (HAB_HEADER_GET_SIZE mh) = false ->
  exists bs ln' vpc', virtio_send seq ln mh payload = Ok (0, u32 (seq + 1), ln') /\ ln_vpc ln' = Some vpc' /\
    vp_tx vpc' = (let a := virtqueue_add_outbuf (vp_tx vpc) (set_hd_payload_size (HAB_HEADER_GET_SIZE mh) hd) bs in
                  if a.1 =? 0 then (virtqueue_kick a.2).2 else a.2) /\
    forall w p v pc vc ln2 vpc2 hd2 pad q,
      rx_end w p v pc vc ln2 vpc2 mh -> inbuf_ok hd2 -> zlen (bs ++ pad) = buf_size PT_IN ->
      virtqueue_get_buf (vp_rx vpc2) = (Some (hd2, zlen bs, bs ++ pad), q) ->
      exists w', rx_one p w = Ok (true, w') /\
        w_vchans w' = <[v := set_vc_rx_list (vc_rx_list vc ++
          [Build_hab_message (HAB_HEADER_GET_SIZE mh) false (pc_sequence_rx pc) [payload]]) vc]> (w_vchans w) /\
        w_pchans w' = <[p := set_pc_sequence_rx (u32 (seq + 1)) pc]> (w_pchans w) /\
        exists vpc'', (ln_vpc <$> w_hyp w' !! p) = Some (Some vpc'') /\
          vp_rx vpc'' = (virtqueue_kick (virtqueue_add_inbuf q (set_hd_payload_size 0 hd2)).2).2 /\ vp_in_cnt vpc'' = vp_in_cnt vpc2.
Proof.
  intros Hok Hv Hr Hh Ht Hm Hz Hle Hl Hov. pose proof (zlen_nonneg payload).
  destruct (virtio_crosses vpc ln seq mh payload hd l Hok Hv Hr ltac:(lia) Hz) as (ln' & vpc' & He & Hv' & Htx); [|done|done|].
  { rewrite Ht. by destruct Hm as [->|[->| ->]]. }
  eexists _, ln', vpc'. split; [exact He|]. split; [exact Hv'|]. split; [exact Htx|].
  intros w p v pc vc ln2 vpc2 hd2 pad q Hend Hhd Hpad Hget.
  eapply rx_one_frame; try done; [apply u32_range|unfold buf_size, HAB_HEADER_SIZE_MAX in *; lia].
Qed.
End props.

(** ** Two ends *)

#[export] Instance sample_virtio : Platform (virtio_pchan_link sample_queue) :=
  virtio sample_calls.

(** The buffer for reception of this index, and a receiving end whose device has one
    and answers like this. *)
Definition in_buf (i : Z) : vh_buf_header := Build_vh_buf_header (i * 5204 + 84) 5120 PT_IN i 0.
Definition rx_vpc (answers : list (Z * bytes)) : vq_pchan sample_queue :=
  set_vp_rx (Build_sample_queue [in_buf 4] [] answers) (sample_vpc []).
Definition rx_link (answers : list (Z * bytes)) : virtio_pchan_link sample_queue :=
  Build_virtio_pchan_link 101 (Some (rx_vpc answers)) (Some 50%nat) (100, 0).

Definition rx_world (answers : list (Z * bytes)) : world (virtio_pchan_link sample_queue) := busy (rx_link answers).

(** The bytes of the message of three bytes, and the rest of the buffer. *)
Definition three_bytes : bytes := header_enc (sent_header three 1) ++ [1; 2; 3].
Definition three_pad : bytes := repeat 0 (Z.to_nat 5097).

Definition good_answers (q : sample_queue) : Prop := Forall (fun a => frame_good a.1 a.2) (sq_answers q).

Lemma sample_device : device_ok good_answers (fun q => length (sq_answers q)).
Proof.
  constructor.
  - intros q hd len bs q' Hg. cbn [virtqueue_get_buf sample_virtqueue]. destruct (sq_held q) as [|x l]; [done|].
    destruct (sq_answers q) as [|[n b] rest] eqn:Ha; [done|]. destruct (_ =? _); [|done]. intros [= <- <- <- <-].
    unfold good_answers in *. rewrite Ha in Hg. apply list.Forall_cons in Hg as [? ?]. split; [done|]. split; [done|]. simpl. lia.
  - intros q q' Hg He. assert (Hq : q' = q).
    { revert He. cbn [virtqueue_get_buf sample_virtqueue]. destruct (sq_held q) as [|x l]; [by intros [= <-]|].
      destruct (sq_answers q) as [|[n b] rest]; [by intros [= <-]|]. destruct (_ =? _); [done|]. by intros [= <-]. }
    subst q'. split; [exact Hg|apply Nat.le_refl].
  - intros q hd Hg. split; [reflexivity|]. split; [exact Hg|apply Nat.le_refl].
  - intros q Hg. split; [exact Hg|apply Nat.le_refl].
Qed.

Lemma three_good : frame_good 23 (three_bytes ++ three_pad).
Proof.
  split; [unfold sizeof_hab_header, buf_size; lia|]. split; [vm_compute; reflexivity|]. split.
  - apply list.Forall_forall. intros x Hx. assert (Hb : forallb (fun b => (0 <=? b) && (b <? 256)) (three_bytes ++ three_pad) = true) by (vm_compute; reflexivity).
    rewrite forallb_forall in Hb. apply list_elem_of_In in Hx. specialize (Hb x Hx). lia.
  - split; intros Hx; vm_compute in Hx; discriminate Hx.
Qed.

Lemma rx_run : match virthab_recv_rxq 2 0 (rx_world [(23, three_bytes ++ three_pad)]) with Ok (b, _) => b = true | _ => False end.
Proof. vm_compute. reflexivity. Qed.

Lemma in_buf_ok i : 0 <= i < 100 -> inbuf_ok (in_buf i).
Proof.
  intros Hi. split; [|reflexivity]. unfold hd_ok, in_buf. cbn [hd_size hd_index hd_buf hd_pool_type buf_size buf_num].
  unfold buf_slot, GUARD_BAND_SZ, sizeof_vh_buf_header, buf_size. lia.
Qed.

Lemma rx_chan_sample answers : Forall (fun a => frame_good a.1 a.2) answers ->
  rx_chan good_answers [in_buf 4] (rx_world answers) 0 (rx_vpc answers).
Proof.
  intros Ha. exists (rx_link answers). split; [reflexivity|]. split; [reflexivity|]. split; [exact Ha|].
  split; [|split; reflexivity]. apply list.Forall_cons. split; [by apply in_buf_ok|by apply list.Forall_nil].
Qed.


(** What the sender of three bytes gives to its device. *)
Lemma three_sent :
  match virtio_send 0 (sample_link [small_buf 7]) three [1; 2; 3] with
  | Ok (_, _, x) => (sq_sent <$> (vp_tx <$> ln_vpc x)) = Some [three_bytes]
  | _ => False
  end.
Proof. vm_compute. reflexivity. Qed.

Definition end_queue : sample_queue := Build_sample_queue [] [] [].

Lemma three_end :
  rx_end (rx_world [(23, three_bytes ++ three_pad)]) 0 3 busy_pchan (sample_vchan 2 1) (rx_link [(23, three_bytes ++ three_pad)])
    (rx_vpc [(23, three_bytes ++ three_pad)]) three.
Proof. constructor; try reflexivity; done. Qed.

Lemma three_comes :
  zlen (three_bytes ++ three_pad) = buf_size PT_IN /\
  virtqueue_get_buf (vp_rx (rx_vpc [(23, three_bytes ++ three_pad)])) =
    (Some (in_buf 4, zlen three_bytes, three_bytes ++ three_pad), end_queue).
Proof. split; vm_compute; reflexivity. Qed.

Lemma virtio_transfer_witness :
  exists ln' w', virtio_send 0 (sample_link [small_buf 7]) three [1; 2; 3] = Ok (0, 1, ln') /\
    (sq_sent <$> (vp_tx <$> ln_vpc ln')) = Some [three_bytes] /\
    rx_one 0 (rx_world [(23, three_bytes ++ three_pad)]) = Ok (true, w') /\
    (vc_rx_list <$> w_vchans w' !! 3%nat) = Some [Build_hab_message 3 false 0 [[1; 2; 3]]].
Proof.
  assert (Hok : vpc_ok (sample_vpc [small_buf 7])).
  { apply sample_vpc_ok; [by vm_compute|apply (bool_decide_eq_true_1 _); by vm_compute]. }
  destruct (virtio_transfer sample_calls
    (sample_vpc [small_buf 7]) (sample_link [small_buf 7]) 0 three [1; 2; 3] (small_buf 7) [] HAB_PAYLOAD_TYPE_MSG Hok eq_refl eq_refl)
    as (bs & ln' & vpc' & He & Hv & Htx & Hrx).
  { unfold three, header_ok. vm_compute. by split_and!. }
  { reflexivity. }
  { by left. }
  { vm_compute. reflexivity. }
  { intros Hx. vm_compute in Hx. discriminate Hx. }
  { vm_compute. reflexivity. }
  { vm_compute. reflexivity. }
  assert (Hsq : sq_sent (vp_tx vpc') = [bs]) by (rewrite Htx; reflexivity).
  pose proof three_sent as Hrun. rewrite He in Hrun. rewrite Hv in Hrun. cbn [fmap option_fmap option_map] in Hrun. rewrite Hsq in Hrun.
  injection Hrun as Hbs. subst bs. destruct three_comes as [Hz Hget].
  destruct (Hrx _ 0%nat 3%nat _ _ _ _ (in_buf 4) three_pad end_queue three_end (in_buf_ok 4 ltac:(lia)) Hz Hget)
    as (w' & Hw' & Hvs & _).
  exists ln', w'. split; [exact He|]. split; [rewrite Hv; cbn [fmap option_fmap option_map]; rewrite Hsq; reflexivity|].
  split; [exact Hw'|]. rewrite Hvs. reflexivity.
Defined.
