(* ===== verification/VHost.v ===== *)
(** The vhost transport of a host (hypervisor/virtio/hab_vhost.c), the data path: the
    messages that wait for a guest's buffers, the worker that hands them over, the
    worker that takes the guest's messages, sending and reading.  It is a third
    implementation of the platform interface of World.v.  The kernel's side of a
    virtqueue is an interface of its own. *)
From S2P Require Import Prelude Header World Logic Memory Invariant Pchan Exports Context Vchan Wait Open Loopback Sample Msg Mimex Progress.

(* src/hypervisor/virtio/hab_vhost.c:23-26 VHOST_HAB_WEIGHT *)
Definition VHOST_HAB_WEIGHT : Z := 0x80000.

(* src/hypervisor/virtio/hab_vhost.c:34-38 IN_BUF_SIZE *)
Definition IN_BUF_SIZE : Z := 5120.

(** A message that waits, as it lies in memory: the payload follows the header. *)
(* src/hypervisor/virtio/hab_vhost.c:63-67 vhost_hab_send_node *)
Record vhost_hab_send_node := { sn_header : hab_header; sn_payload : bytes }.

(** ** The kernel's side of a virtqueue

    A descriptor that the guest offers: the lengths of its segments for the host to
    read, what reading them gives (it ends early at memory that is not there), and the
    lengths of those to write. *)
Record vdesc := { de_out : list Z; de_data : bytes; de_in : list Z }.

Definition iov_length (l : list Z) : Z := foldr Z.add 0 l.

(** [vhost_get_vq_desc] gives the head of the next descriptor, an errno, or the number of
    descriptors when there is none; [copy_to_iter] writes at the start of the segments
    of a head and tells how much it wrote.  [vq_given] are the contents of the buffers
    that were filled and handed to the guest, in order: a buffer that was written whole
    and that [vhost_add_used] takes with that length.  A turn is cut off when its bytes
    reach the weight that the device was set up with. *)
Class VhostQueue (VQ : Type) := {
  vq_num : VQ -> Z;
  vq_given : VQ -> list bytes;
  vhost_get_vq_desc : VQ -> Z * vdesc * VQ;
  vhost_enable_notify : VQ -> bool * VQ;
  vhost_disable_notify : VQ -> VQ;
  copy_to_iter : VQ -> Z -> bytes -> Z * VQ;
  vhost_add_used : VQ -> Z -> Z -> Z * VQ;
  vhost_signal : VQ -> VQ;
  vhost_exceeds_weight : VQ -> Z -> bool * VQ;
  vhost_vq_work_queue : VQ -> VQ;
  vhost_vq_avail_empty : VQ -> bool;
  vq_get_given : forall q, vq_given (vhost_get_vq_desc q).2 = vq_given q;
  vq_enable_given : forall q, vq_given (vhost_enable_notify q).2 = vq_given q;
  vq_disable_given : forall q, vq_given (vhost_disable_notify q) = vq_given q;
  vq_copy_given : forall q head bs, vq_given (copy_to_iter q head bs).2 = vq_given q;
  vq_signal_given : forall q, vq_given (vhost_signal q) = vq_given q;
  vq_weight_given : forall q n, vq_given (vhost_exceeds_weight q n).2 = vq_given q;
  vq_weight : forall q n, (vhost_exceeds_weight q n).1 = (VHOST_HAB_WEIGHT <=? n);
  vq_used_given : forall q head bs, (copy_to_iter q head bs).1 = zlen bs ->
    let u := vhost_add_used (copy_to_iter q head bs).2 head (zlen bs) in
    vq_given u.2 = vq_given q ++ (if u.1 =? 0 then [bs] else [])
}.

(** ** A channel's side of the device *)

(** [vh_dev] is the open device that the queues belong to.  There are the two queues with
    whether each is started ([private_data]), the message of the guest that is being read
    ([vh_out_iter]) and the messages that wait. *)
(* src/hypervisor/virtio/hab_vhost.c:46-61 vhost_hab_pchannel *)
Record vhost_hab_pchannel (VQ : Type) := {
  vh_habdev : nat;
  vh_dev : option nat;
  vh_tx : VQ;
  vh_tx_on : bool;
  vh_rx : VQ;
  vh_rx_on : bool;
  vh_out_iter : bytes;
  vh_send_list : list vhost_hab_send_node;
  vh_tx_empty : bool;
  vh_rx_empty : bool
}.
Arguments Build_vhost_hab_pchannel {VQ}.
Arguments vh_habdev {VQ} _.
Arguments vh_dev {VQ} _.
Arguments vh_tx {VQ} _.
Arguments vh_tx_on {VQ} _.
Arguments vh_rx {VQ} _.
Arguments vh_rx_on {VQ} _.
Arguments vh_out_iter {VQ} _.
Arguments vh_send_list {VQ} _.
Arguments vh_tx_empty {VQ} _.
Arguments vh_rx_empty {VQ} _.

Definition set_vh_habdev {VQ} (x : nat) (r : vhost_hab_pchannel VQ) : vhost_hab_pchannel VQ :=
  Build_vhost_hab_pchannel x (vh_dev r) (vh_tx r) (vh_tx_on r) (vh_rx r) (vh_rx_on r) (vh_out_iter r) (vh_send_list r) (vh_tx_empty r) (vh_rx_empty r).
Definition set_vh_dev {VQ} (x : option nat) (r : vhost_hab_pchannel VQ) : vhost_hab_pchannel VQ :=
  Build_vhost_hab_pchannel (vh_habdev r) x (vh_tx r) (vh_tx_on r) (vh_rx r) (vh_rx_on r) (vh_out_iter r) (vh_send_list r) (vh_tx_empty r) (vh_rx_empty r).
Definition set_vh_tx {VQ} (x : VQ) (r : vhost_hab_pchannel VQ) : vhost_hab_pchannel VQ :=
  Build_vhost_hab_pchannel (vh_habdev r) (vh_dev r) x (vh_tx_on r) (vh_rx r) (vh_rx_on r) (vh_out_iter r) (vh_send_list r) (vh_tx_empty r) (vh_rx_empty r).
Definition set_vh_tx_on {VQ} (x : bool) (r : vhost_hab_pchannel VQ) : vhost_hab_pchannel VQ :=
  Build_vhost_hab_pchannel (vh_habdev r) (vh_dev r) (vh_tx r) x (vh_rx r) (vh_rx_on r) (vh_out_iter r) (vh_send_list r) (vh_tx_empty r) (vh_rx_empty r).
Definition set_vh_rx {VQ} (x : VQ) (r : vhost_hab_pchannel VQ) : vhost_hab_pchannel VQ :=
  Build_vhost_hab_pchannel (vh_habdev r) (vh_dev r) (vh_tx r) (vh_tx_on r) x (vh_rx_on r) (vh_out_iter r) (vh_send_list r) (vh_tx_empty r) (vh_rx_empty r).
Definition set_vh_rx_on {VQ} (x : bool) (r : vhost_hab_pchannel VQ) : vhost_hab_pchannel VQ :=
  Build_vhost_hab_pchannel (vh_habdev r) (vh_dev r) (vh_tx r) (vh_tx_on r) (vh_rx r) x (vh_out_iter r) (vh_send_list r) (vh_tx_empty r) (vh_rx_empty r).
Definition set_vh_out_iter {VQ} (x : bytes) (r : vhost_hab_pchannel VQ) : vhost_hab_pchannel VQ :=
  Build_vhost_hab_pchannel (vh_habdev r) (vh_dev r) (vh_tx r) (vh_tx_on r) (vh_rx r) (vh_rx_on r) x (vh_send_list r) (vh_tx_empty r) (vh_rx_empty r).
Definition set_vh_send_list {VQ} (x : list vhost_hab_send_node) (r : vhost_hab_pchannel VQ) : vhost_hab_pchannel VQ :=
  Build_vhost_hab_pchannel (vh_habdev r) (vh_dev r) (vh_tx r) (vh_tx_on r) (vh_rx r) (vh_rx_on r) (vh_out_iter r) x (vh_tx_empty r) (vh_rx_empty r).
Definition set_vh_tx_empty {VQ} (x : bool) (r : vhost_hab_pchannel VQ) : vhost_hab_pchannel VQ :=
  Build_vhost_hab_pchannel (vh_habdev r) (vh_dev r) (vh_tx r) (vh_tx_on r) (vh_rx r) (vh_rx_on r) (vh_out_iter r) (vh_send_list r) x (vh_rx_empty r).
Definition set_vh_rx_empty {VQ} (x : bool) (r : vhost_hab_pchannel VQ) : vhost_hab_pchannel VQ :=
  Build_vhost_hab_pchannel (vh_habdev r) (vh_dev r) (vh_tx r) (vh_tx_on r) (vh_rx r) (vh_rx_on r) (vh_out_iter r) (vh_send_list r) (vh_tx_empty r) x.


(** The transport's state of a channel: [hyp_data], the outcomes of the coming
    allocations of the send path and the clock. *)
Record vhost_link (VQ : Type) := {
  vl_hyp : option (vhost_hab_pchannel VQ);
  vl_alloc : list bool;
  vl_now : Z * Z
}.
Arguments Build_vhost_link {VQ}.
Arguments vl_hyp {VQ} _.
Arguments vl_alloc {VQ} _.
Arguments vl_now {VQ} _.

Definition set_vl_hyp {VQ} (x : option (vhost_hab_pchannel VQ)) (r : vhost_link VQ) : vhost_link VQ :=
  Build_vhost_link x (vl_alloc r) (vl_now r).
Definition set_vl_alloc {VQ} (x : list bool) (r : vhost_link VQ) : vhost_link VQ :=
  Build_vhost_link (vl_hyp r) x (vl_now r).
Definition set_vl_now {VQ} (x : Z * Z) (r : vhost_link VQ) : vhost_link VQ :=
  Build_vhost_link (vl_hyp r) (vl_alloc r) x.


Section path.
Context {VQ : Type} `{VhostQueue VQ}.
Implicit Types (vh : vhost_hab_pchannel VQ) (vl : vhost_link VQ).

(** *** Sending: the message waits *)

(* src/hypervisor/virtio/hab_vhost.c:997-1050 physical_channel_send *)
Definition vhost_send (otherend_closed : bool) vl (header : hab_header) (payload : bytes) : res (Z * vhost_link VQ) :=
  let sizebytes := HAB_HEADER_GET_SIZE header in
  match vl_hyp vl with
  | None => Ok (- ENODEV, vl)
  | Some vh =>
      if otherend_closed then Ok (- ENODEV, vl)
      else if IN_BUF_SIZE - sizeof_hab_header <? sizebytes then Ok (- EINVAL, vl)
      else
        let vl' := set_vl_alloc (tail (vl_alloc vl)) vl in
        match vl_alloc vl with
        | false :: _ => Ok (- ENOMEM, vl')
        | _ =>
            let? data := of_opt OutOfBounds (mem_read payload 0 sizebytes) in
            let vh := set_vh_send_list (vh_send_list vh ++ [Build_vhost_hab_send_node header data]) vh in
            Ok (0, set_vl_hyp (Some (set_vh_rx (vhost_vq_work_queue (vh_rx vh)) vh)) vl')
        end
  end.

(** *** Reading the message at hand *)

(* src/hypervisor/virtio/hab_vhost.c:1052-1070 physical_channel_read *)
Definition vhost_read vl (read_size : Z) : Z * bytes * vhost_link VQ :=
  match vl_hyp vl with
  | None => (- ENODEV, [], vl)
  | Some vh =>
      let bs := take (Z.to_nat read_size) (vh_out_iter vh) in
      (zlen bs, bs, set_vl_hyp (Some (set_vh_out_iter (drop (Z.to_nat read_size) (vh_out_iter vh)) vh)) vl)
  end.

(** *** Handing a message over *)

(** A buffer of the guest to write to: its head and the bytes it has for reading and
    writing. *)
Record rx_buf := { rb_head : Z; rb_out : Z; rb_in : Z }.

(** The test for whether new buffers came in between is repeated as often as it says
    so. *)
(* src/hypervisor/virtio/hab_vhost.c:770-829 get_rx_buf_locked *)
Fixpoint get_rx_buf_locked (n : nat) (q : VQ) : res (Z * rx_buf * VQ) :=
  match n with
  | O => Fault OutOfFuel
  | S n =>
      let '(head, d, q) := vhost_get_vq_desc q in
      if head <? 0 then Ok (- EIO, Build_rx_buf head 0 0, q)
      else if head =? vq_num q then
        let '(more, q) := vhost_enable_notify q in
        if more then get_rx_buf_locked n (vhost_disable_notify q)
        else Ok (- EAGAIN, Build_rx_buf head 0 0, q)
      else
        let b := Build_rx_buf head (iov_length (de_out d)) (iov_length (de_in d)) in
        Ok (match de_in d with [] => - EBUSY | _ => if 0 <? rb_in b then 0 else - EIO end, b, q)
  end.

(** The bytes of the node from [off] on that fit; the code and how many they were. *)
(* src/hypervisor/virtio/hab_vhost.c:831-854 fill_rx_buf *)
Definition fill_rx_buf (q : VQ) (head : Z) (mem : bytes) (off remain_size in_len : Z) : res (Z * Z * VQ) :=
  let copy_size := if in_len <? remain_size then in_len else remain_size in
  let? bs := of_opt OutOfBounds (mem_read mem off copy_size) in
  let '(r, q) := copy_to_iter q head bs in
  if negb (r =? copy_size) then Ok (- EFAULT, copy_size, q) else Ok (0, copy_size, q).

(** The header of a node in a buffer: every buffer takes a number of its own. *)
(* src/hypervisor/virtio/hab_vhost.c:889-903 rx_send_one_node_locked *)
Definition stamp_node (now : Z * Z) (seq : Z) (node : vhost_hab_send_node) : res vhost_hab_send_node :=
  let h := sn_header node in
  let? payload := stamp_tx h now (sn_payload node) in
  Ok (Build_vhost_hab_send_node (Build_hab_header (id_type h) (payload_size h) (session_id h) HAB_HEAD_SIGNATURE seq) payload).

Definition node_bytes (node : vhost_hab_send_node) : bytes := header_enc (sn_header node) ++ sn_payload node.

(** What the loop works on: the queue, the channel's last number, the node and how many
    buffers were handed over. *)
Record rx_state := { rs_q : VQ; rs_seq : Z; rs_node : vhost_hab_send_node; rs_added : Z }.

(** [n] bounds the repeated tests, [k] the buffers.  The code breaks the loop with an
    error that it returns. *)
(* src/hypervisor/virtio/hab_vhost.c:873-933 rx_send_one_node_locked *)
Fixpoint rx_send_loop (n k : nat) (now : Z * Z) (s : rx_state) (off remain_size total_len : Z) : res (Z * rx_state) :=
  if negb (0 <? remain_size) then Ok (0, s)
  else
    match k with
    | O => Fault OutOfFuel
    | S k =>
        let? r := get_rx_buf_locked n (rs_q s) in
        let '(e, b, q) := r in
        if negb (e =? 0) then Ok (e, Build_rx_state q (rs_seq s) (rs_node s) (rs_added s))
        else
          let total_len := total_len + rb_in b + rb_out b in
          let seq := u32 (rs_seq s + 1) in
          let? node := stamp_node now seq (rs_node s) in
          let? f := fill_rx_buf q (rb_head b) (node_bytes node) off remain_size (rb_in b) in
          let '(e, filled, q) := f in
          if negb (e =? 0) then Ok (e, Build_rx_state q seq node (rs_added s))
          else
            let '(e, q) := vhost_add_used q (rb_head b) filled in
            if negb (e =? 0) then Ok (e, Build_rx_state q seq node (rs_added s))
            else
              let '(over, q) := vhost_exceeds_weight q total_len in
              let s := Build_rx_state q seq node (rs_added s + 1) in
              if over then Ok (- EINVAL, s)
              else rx_send_loop n k now s (off + filled) (remain_size - filled) total_len
    end.

(** A buffer takes at least one byte. *)
(* src/hypervisor/virtio/hab_vhost.c:857-934 rx_send_one_node_locked *)
Definition rx_send_one_node_locked (n : nat) (now : Z * Z) (s : rx_state) : res (Z * rx_state) :=
  let remain_size := sizeof_hab_header + HAB_HEADER_GET_SIZE (sn_header (rs_node s)) in
  rx_send_loop n (Z.to_nat remain_size) now s 0 remain_size 0.

(** The waiting messages, oldest first; one that could not be handed over whole stays,
    with the number and the time it last got. *)
(* src/hypervisor/virtio/hab_vhost.c:964-984 rx_worker *)
Fixpoint rx_send_all (n : nat) (now : Z * Z) (q : VQ) (seq added : Z) (l : list vhost_hab_send_node) :
    res (VQ * Z * Z * list vhost_hab_send_node) :=
  match l with
  | [] => Ok (q, seq, added, [])
  | node :: l =>
      let? r := rx_send_one_node_locked n now (Build_rx_state q seq node added) in
      let '(e, s) := r in
      if negb (e =? 0) then Ok (rs_q s, rs_seq s, rs_added s, rs_node s :: l)
      else rx_send_all n now (rs_q s) (rs_seq s) (rs_added s) l
  end.

(** On the channel and its last sequence number. *)
(* src/hypervisor/virtio/hab_vhost.c:954-992 rx_worker *)
Definition rx_turn (n : nat) (now : Z * Z) (seq : Z) vh : res (Z * vhost_hab_pchannel VQ) :=
  if vh_rx_on vh then
    let? r := rx_send_all n now (vhost_disable_notify (vh_rx vh)) seq 0 (vh_send_list vh) in
    let '(q, seq, added, l) := r in
    let q := (if negb (added =? 0) then vhost_signal q else q) in
    Ok (seq, set_vh_send_list l (set_vh_rx q vh))
  else Ok (seq, vh).

(** *** As a platform *)

Definition vhost_phys_send (pc : physical_channel) vl (h : hab_header) (bs : bytes) : option (Z * Z * vhost_link VQ) :=
  match vhost_send (pc_otherend_closed pc) vl h bs with
  | Ok (r, vl') => Some (r, pc_sequence_tx pc, vl')
  | _ => None
  end.

Definition vhost_up vl : bool := bool_decide (is_Some (vl_hyp vl)).
End path.

(** ** The platform and its laws *)

Section instance.
Context {VQ : Type} `{VhostQueue VQ}.
Implicit Types (vh : vhost_hab_pchannel VQ) (vl : vhost_link VQ).

(** The count is returned as an [int]; what would not fit is no message of the driver
    and gets nothing. *)
Definition vhost_phys_read (pc : physical_channel) vl (n : Z) : Z * bytes * vhost_link VQ :=
  let r := vhost_read vl n in
  if zlen (r.1.2) <? 2 ^ 31 then r else (0, [], vl).

Lemma vhost_read_len vl n : 0 <= n -> zlen (vhost_read vl n).1.2 <= n.
Proof.
  intros Hn. unfold vhost_read. destruct (vl_hyp vl) as [vh|]; [|done]. cbn [fst snd]. unfold zlen. rewrite length_firstn. lia.
Qed.

Lemma vhost_read_ret vl n : vhost_up vl = true -> (vhost_read vl n).1.1 = zlen (vhost_read vl n).1.2.
Proof. unfold vhost_up, vhost_read. intros Hu%bool_decide_eq_true. destruct (vl_hyp vl); [done|]. by destruct Hu. Qed.

Lemma vhost_read_up vl n : vhost_up vl = true -> vhost_up (vhost_read vl n).2 = true.
Proof. unfold vhost_up, vhost_read. intros Hu%bool_decide_eq_true. destruct (vl_hyp vl); [done|]. by destruct Hu. Qed.

Lemma vhost_send_ret closed vl h bs r vl' : vhost_send closed vl h bs = Ok (r, vl') -> - 4095 <= r <= 0.
Proof.
  unfold vhost_send. cbv zeta. destruct (vl_hyp vl) as [vh|]; [|by intros [= <- _]]. destruct closed; [by intros [= <- _]|].
  destruct (_ <? _); [by intros [= <- _]|]. destruct (vl_alloc vl) as [|[] l].
  1,2: destruct (mem_read _ _ _); [|done]; by intros [= <- _].
  by intros [= <- _].
Qed.

Context (kernel : LinuxCalls).

Definition vhost_platform : Platform (vhost_link VQ).
Proof.
  refine {| phys_send := vhost_phys_send; phys_read := vhost_phys_read; phys_up := vhost_up;
            kernel_calls := kernel |}.
  - intros pc hs h bs r q hs'. unfold vhost_phys_send. destruct (vhost_send _ _ _ _) as [[r' vl']| |] eqn:He; try done.
    intros [= <- _ _]. by eapply vhost_send_ret.
  - intros pc hs n Hn. unfold vhost_phys_read. cbv zeta. destruct (_ <? _); [by apply vhost_read_len|done].
  - intros pc hs n Hn Hup. unfold vhost_phys_read. cbv zeta. destruct (_ <? _); [|done].
    rewrite vhost_read_ret by done. pose proof (vhost_read_len hs n Hn). pose proof (zlen_nonneg (vhost_read hs n).1.2). lia.
  - intros pc hs n Hup. unfold vhost_phys_read. cbv zeta. destruct (_ <? _); [by apply vhost_read_up|done].
Defined.
End instance.

(** ** The messages go over in order *)

(** A message that is sent has the size that its header tells and fits a buffer. *)
Definition node_ok (node : vhost_hab_send_node) : Prop :=
  zlen (sn_payload node) = HAB_HEADER_GET_SIZE (sn_header node) /\
  HAB_HEADER_GET_SIZE (sn_header node) <= IN_BUF_SIZE - sizeof_hab_header /\
  (HAB_HEADER_GET_TYPE (sn_header node) = payload_code HAB_PAYLOAD_TYPE_PROFILE -> 16 <= zlen (sn_payload node)).

(** The same message, but for its number and the time it is stamped with. *)
Definition same_msg (a b : vhost_hab_send_node) : Prop :=
  id_type (sn_header b) = id_type (sn_header a) /\ payload_size (sn_header b) = payload_size (sn_header a) /\
  session_id (sn_header b) = session_id (sn_header a) /\ zlen (sn_payload b) = zlen (sn_payload a) /\
  (HAB_HEADER_GET_TYPE (sn_header a) <> payload_code HAB_PAYLOAD_TYPE_PROFILE -> sn_payload b = sn_payload a).

(** What the guest finds in its buffers for these messages, numbered from [seq]. *)
Fixpoint frames (now : Z * Z) (seq : Z) (l : list vhost_hab_send_node) : list bytes :=
  match l with
  | [] => []
  | node :: l =>
      match stamp_node now (u32 (seq + 1)) node with
      | Ok node' => node_bytes node' :: frames now (u32 (seq + 1)) l
      | _ => []
      end
  end.

Section fifo.
Context {VQ : Type} `{VhostQueue VQ}.
Implicit Types (vh : vhost_hab_pchannel VQ) (q : VQ).

(** A guest whose buffers are as large as the transport expects, and for which the test
    for new buffers comes out positive a bounded number of times. *)
Record rx_guest (good : VQ -> Prop) (left : VQ -> nat) : Prop := {
  rg_get : forall q, good q -> let r := vhost_get_vq_desc q in
    good r.2 /\ (left r.2 <= left q)%nat /\
    (0 <= r.1.1 -> r.1.1 <> vq_num r.2 -> IN_BUF_SIZE <= iov_length (de_in (r.1.2)) /\
       iov_length (de_in (r.1.2)) + iov_length (de_out (r.1.2)) < VHOST_HAB_WEIGHT);
  rg_enable : forall q, good q -> let r := vhost_enable_notify q in
    good r.2 /\ (left r.2 + (if r.1 then 1 else 0) <= left q)%nat;
  rg_disable : forall q, good q -> good (vhost_disable_notify q) /\ (left (vhost_disable_notify q) <= left q)%nat;
  rg_copy : forall q head bs, good q -> let r := copy_to_iter q head bs in good r.2 /\ (left r.2 <= left q)%nat;
  rg_used : forall q head len, good q -> let r := vhost_add_used q head len in good r.2 /\ (left r.2 <= left q)%nat;
  rg_weight : forall q len, good q -> let r := vhost_exceeds_weight q len in good r.2 /\ (left r.2 <= left q)%nat;
  rg_signal : forall q, good q -> good (vhost_signal q) /\ (left (vhost_signal q) <= left q)%nat
}.

Context (good : VQ -> Prop) (left : VQ -> nat) (Hg : rx_guest good left).

Lemma get_rx_ok n q : good q -> (left q < n)%nat ->
  exists e b q', get_rx_buf_locked n q = Ok (e, b, q') /\ good q' /\ (left q' <= left q)%nat /\ vq_given q' = vq_given q /\
    (e = 0 -> IN_BUF_SIZE <= rb_in b /\ rb_in b + rb_out b < VHOST_HAB_WEIGHT).
Proof.
  revert q. induction n as [|n IH]; intros q Hq Hn; [lia|]. cbn [get_rx_buf_locked].
  pose proof (rg_get _ _ Hg q Hq) as Hget. pose proof (vq_get_given q) as Hgg.
  destruct (vhost_get_vq_desc q) as [[head d] q1]. cbv zeta in Hget. cbn [fst snd] in *. destruct Hget as (Hq1 & Hl1 & Hbig).
  destruct (Z.ltb_spec head 0) as [|Hpos]; [eexists _, _, _; by split_and!|].
  destruct (Z.eqb_spec head (vq_num q1)) as [He|Hne].
  - pose proof (rg_enable _ _ Hg q1 Hq1) as Hen. pose proof (vq_enable_given q1) as Hge.
    destruct (vhost_enable_notify q1) as [more q2]. cbv zeta in Hen. cbn [fst snd] in *. destruct Hen as [Hq2 Hl2].
    destruct more; [|eexists _, _, _; split_and!; [done|done|lia|congruence|done]].
    destruct (rg_disable _ _ Hg q2 Hq2) as [Hq3 Hl3].
    destruct (IH (vhost_disable_notify q2) Hq3 ltac:(lia)) as (e & b & q' & He' & Hq' & Hl' & Hgi & Hb).
    eexists _, _, _. split; [exact He'|]. split_and!; [done|lia| |done]. rewrite Hgi, vq_disable_given. congruence.
  - destruct (Hbig Hpos Hne) as [Hin Hw]. eexists _, _, _. split; [reflexivity|]. by split_and!.
Qed.

(** Stamping keeps the message. *)
Lemma stamp_node_ok now seq node : node_ok node ->
  exists node', stamp_node now seq node = Ok node' /\ node_ok node' /\ same_msg node node'.
Proof.
  intros (Hz & Hle & Hp). unfold stamp_node. destruct (stamp_tx_len (sn_header node) now (sn_payload node) Hp) as (p' & -> & Hp' & Hs).
  cbn [res_bind]. eexists. split; [reflexivity|]. split.
  - split; [change (zlen p' = HAB_HEADER_GET_SIZE (sn_header node)); congruence|]. split; [done|]. intros Ht. change (16 <= zlen p'). rewrite Hp'. by apply Hp.
  - by split_and!.
Qed.

Lemma node_bytes_len node : node_ok node -> zlen (node_bytes node) = sizeof_hab_header + HAB_HEADER_GET_SIZE (sn_header node).
Proof. intros (Hz & _). unfold node_bytes. by rewrite zlen_app, header_enc_zlen, Hz. Qed.

(** One message: handed over whole in one buffer, or not at all. *)
Lemma rx_send_one_ok n now q seq node added :
  good q -> (left q < n)%nat -> node_ok node ->
  exists e s', rx_send_one_node_locked n now (Build_rx_state q seq node added) = Ok (e, s') /\
    good (rs_q s') /\ (left (rs_q s') <= left q)%nat /\
    if e =? 0 then
      exists node', stamp_node now (u32 (seq + 1)) node = Ok node' /\ vq_given (rs_q s') = vq_given q ++ [node_bytes node'] /\
        rs_seq s' = u32 (seq + 1) /\ rs_added s' = added + 1
    else vq_given (rs_q s') = vq_given q /\ same_msg node (rs_node s') /\ rs_added s' = added /\
      (rs_seq s' = seq \/ rs_seq s' = u32 (seq + 1)).
Proof.
  intros Hq Hn Hok. destruct (stamp_node_ok now (u32 (seq + 1)) node Hok) as (node' & Hst & Hok' & Hsame).
  pose proof (node_bytes_len node' Hok') as Hlen. destruct Hsame as (S1 & S2 & S3 & S4 & S5).
  unfold HAB_HEADER_GET_SIZE in Hlen. rewrite S2 in Hlen.
  pose proof Hok as (Hz & Hle & _). unfold HAB_HEADER_GET_SIZE in Hz, Hle. pose proof (zlen_nonneg (sn_payload node)).
  unfold rx_send_one_node_locked. cbn [rs_node]. cbv zeta. unfold HAB_HEADER_GET_SIZE.
  set (total := sizeof_hab_header + payload_size (sn_header node)) in *.
  assert (Ht : 20 <= total <= 5120) by (unfold total, sizeof_hab_header, IN_BUF_SIZE in *; lia).
  destruct (Z.to_nat total) as [|k] eqn:Hk; [lia|]. cbn [rx_send_loop]. rewrite (proj2 (Z.ltb_lt 0 total)) by lia.
  cbn [negb]. destruct (get_rx_ok n q Hq Hn) as (e & b & q1 & Hget & Hq1 & Hl1 & Hg1 & Hb). cbn [rs_q]. rewrite Hget. cbn [res_bind].
  destruct (Z.eqb_spec e 0) as [He0|Hne]; cbn [negb].
  2: { exists e. eexists. split; [reflexivity|]. split; [done|]. split; [done|]. rewrite (proj2 (Z.eqb_neq e 0) Hne).
       split; [done|]. split; [by split_and!|]. split; [done|by left]. }
  destruct (Hb He0) as [Hbig Hw]. cbn [rs_seq rs_node rs_added]. rewrite Hst. cbn [res_bind]. unfold fill_rx_buf. cbv zeta.
  destruct (Z.ltb_spec (rb_in b) total) as [|_]; [unfold IN_BUF_SIZE in *; lia|].
  rewrite mem_read_Some by lia. change (drop (Z.to_nat 0) (node_bytes node')) with (node_bytes node').
  rewrite take_ge by (unfold zlen in *; lia). cbn [of_opt res_bind].
  pose proof (vq_copy_given q1 (rb_head b) (node_bytes node')) as Hg2. pose proof (rg_copy _ _ Hg q1 (rb_head b) (node_bytes node') Hq1) as Hc.
  pose proof (vq_used_given q1 (rb_head b) (node_bytes node')) as Hu. rewrite Hlen in Hu.
  destruct (copy_to_iter q1 (rb_head b) (node_bytes node')) as [r q2]. cbv zeta in Hc, Hu. cbn [fst snd] in *. destruct Hc as [Hq2 Hl2].
  assert (Hfail : forall s', rs_node s' = node' -> rs_added s' = added -> rs_seq s' = u32 (seq + 1) -> vq_given (rs_q s') = vq_given q ->
    vq_given (rs_q s') = vq_given q /\ same_msg node (rs_node s') /\ rs_added s' = added /\ (rs_seq s' = seq \/ rs_seq s' = u32 (seq + 1))).
  { intros s' -> -> -> ->. split; [done|]. split; [by split_and!|]. split; [done|by right]. }
  destruct (Z.eqb_spec r total) as [Hr|Hr]; cbn [negb res_bind Z.eqb].
  2: { eexists _, _. split; [reflexivity|]. split; [done|]. cbn [rs_q]. split; [lia|]. apply (Hfail (Build_rx_state q2 (u32 (seq + 1)) node' added)); try done. cbn [rs_q]. congruence. }
  specialize (Hu Hr). pose proof (rg_used _ _ Hg q2 (rb_head b) total Hq2) as Ha.
  destruct (vhost_add_used q2 (rb_head b) total) as [e3 q3]. cbv zeta in Ha. cbn [fst snd] in *. destruct Ha as [Hq3 Hl3].
  destruct (Z.eqb_spec e3 0) as [He3|Hne3]; cbn [negb].
  2: { eexists _, _. split; [reflexivity|]. split; [done|]. cbn [rs_q]. split; [lia|]. rewrite (proj2 (Z.eqb_neq e3 0) Hne3). apply (Hfail (Build_rx_state q3 (u32 (seq + 1)) node' added)); try done. cbn [rs_q].
       rewrite Hu, app_nil_r. congruence. }
  pose proof (rg_weight _ _ Hg q3 (0 + rb_in b + rb_out b) Hq3) as Hwt. pose proof (vq_weight_given q3 (0 + rb_in b + rb_out b)) as Hg4.
  pose proof (vq_weight q3 (0 + rb_in b + rb_out b)) as Hw4.
  destruct (vhost_exceeds_weight q3 (0 + rb_in b + rb_out b)) as [over q4]. cbv zeta in Hwt. cbn [fst snd] in *. destruct Hwt as [Hq4 Hl4].
  rewrite Hw4. destruct (Z.leb_spec VHOST_HAB_WEIGHT (0 + rb_in b + rb_out b)) as [|_]; [lia|].
  replace (total - total) with 0 by lia.
  destruct k as [|k]; cbn [rx_send_loop Z.ltb Z.compare negb]; (eexists _, _; split; [reflexivity|]; split; [done|]; split; [cbn [rs_q]; lia|]);
    cbn [Z.eqb]; exists node'; (split; [done|]); cbn [rs_q rs_seq rs_added]; (split; [|done]); rewrite Hg4, Hu; congruence.
Qed.

#[local] Instance same_msg_refl : Reflexive same_msg.
Proof. intros node. by split_and!. Qed.

Lemma same_msg_ok a b : same_msg a b -> node_ok a -> node_ok b.
Proof.
  intros (E1 & E2 & _ & E4 & _) (Hz & Hle & Hp). unfold node_ok, HAB_HEADER_GET_SIZE, HAB_HEADER_GET_TYPE in *.
  rewrite E1, E2, E4. done.
Qed.

Lemma frames_len now seq l : Forall node_ok l -> length (frames now seq l) = length l.
Proof.
  intros Hl. revert seq. induction Hl as [|node l Hok _ IH]; intros seq; [done|]. cbn [frames].
  destruct (stamp_node_ok now (u32 (seq + 1)) node Hok) as (node' & -> & _). cbn [length]. by rewrite IH.
Qed.

Lemma rx_send_all_ok n now l : forall q seq added,
  good q -> (left q < n)%nat -> Forall node_ok l ->
  exists k q' seq' l', rx_send_all n now q seq added l = Ok (q', seq', added + Z.of_nat k, l') /\ (k <= length l)%nat /\
    vq_given q' = vq_given q ++ frames now seq (take k l) /\ Forall2 same_msg (drop k l) l' /\ good q' /\ (left q' <= left q)%nat.
Proof.
  induction l as [|node l IH]; intros q seq added Hq Hn Hl.
  { exists 0%nat. eexists _, _, _. cbn [rx_send_all]. rewrite Z.add_0_r. split; [reflexivity|]. simpl. rewrite app_nil_r. by split_and!. }
  apply list.Forall_cons in Hl as [Hok Hl]. cbn [rx_send_all].
  destruct (rx_send_one_ok n now q seq node added Hq Hn Hok) as (e & s & -> & Hq' & Hl' & Hs). cbn [res_bind].
  destruct (Z.eqb_spec e 0) as [_|_]; cbn [negb].
  - destruct Hs as (node' & Hst & Hgi & Hseq & Hadd).
    destruct (IH (rs_q s) (rs_seq s) (rs_added s) Hq' ltac:(lia) Hl) as (k & q' & seq' & l' & -> & Hk & Hg' & Hf & Hq'' & Hl'').
    exists (S k), q', seq', l'. rewrite Hadd. split; [do 3 f_equal; lia|]. split; [simpl; lia|]. cbn [take drop frames].
    rewrite Hst, <- Hseq, Hg', Hgi, <- app_assoc. split_and!; try done. lia.
  - destruct Hs as (Hgi & Hsame & Hadd & _). exists 0%nat. eexists _, _, _. rewrite Hadd, Z.add_0_r. split; [reflexivity|].
    simpl. rewrite app_nil_r. split_and!; try done; [lia|]. constructor; [done|]. clear. induction l; by constructor.
Qed.

(** C12: A turn of the worker hands the waiting messages to the guest in the order in
    which they were sent, each whole in a buffer of its own and numbered one after the
    other; those that it did not hand over still wait, in the same order, and none is
    lost or handed over twice.  The guest offers buffers as large as the transport
    expects. *)
Theorem vhost_send_order n now seq vh :
  good (vh_rx vh) -> (left (vh_rx vh) < n)%nat -> vh_rx_on vh = true -> Forall node_ok (vh_send_list vh) ->
  exists k seq' vh', rx_turn n now seq vh = Ok (seq', vh') /\ (k <= length (vh_send_list vh))%nat /\
    vq_given (vh_rx vh') = vq_given (vh_rx vh) ++ frames now seq (take k (vh_send_list vh)) /\
    length (frames now seq (take k (vh_send_list vh))) = k /\
    Forall2 same_msg (drop k (vh_send_list vh)) (vh_send_list vh') /\ Forall node_ok (vh_send_list vh') /\ good (vh_rx vh').
Proof.
  intros Hq Hn Hon Hl. unfold rx_turn. rewrite Hon. destruct (rg_disable _ _ Hg _ Hq) as [Hq1 Hl1].
  destruct (rx_send_all_ok n now (vh_send_list vh) (vhost_disable_notify (vh_rx vh)) seq 0 Hq1 ltac:(lia) Hl)
    as (k & q' & seq' & l' & -> & Hk & Hgi & Hf & Hq' & _). cbn [res_bind]. rewrite vq_disable_given in Hgi.
  exists k, seq'. eexists. split; [reflexivity|]. split; [done|]. cbn [vh_rx vh_send_list set_vh_send_list set_vh_rx].
  split. { destruct (negb _); [by rewrite vq_signal_given|done]. }
  split. { rewrite frames_len by (by apply Forall_take). rewrite length_firstn. lia. }
  split; [done|]. split; [|by destruct (negb _); [apply (rg_signal _ _ Hg)|]].
  apply (list.Forall_drop _ k) in Hl. clear -Hf Hl. induction Hf; [done|].
  apply list.Forall_cons in Hl as [? ?]. constructor; [by eapply same_msg_ok|auto].
Qed.
End fifo.

(** A message that is sent waits behind those that were sent before. *)
Lemma vhost_send_queues {VQ : Type} `{VhostQueue VQ} (vl : vhost_link VQ) vh header payload :
  vl_hyp vl = Some vh -> HAB_HEADER_GET_SIZE header <= IN_BUF_SIZE - sizeof_hab_header -> (forall l, vl_alloc vl <> false :: l) ->
  0 <= HAB_HEADER_GET_SIZE header <= zlen payload ->
  (HAB_HEADER_GET_TYPE header = payload_code HAB_PAYLOAD_TYPE_PROFILE -> 16 <= HAB_HEADER_GET_SIZE header) ->
  exists vl' vh', vhost_send false vl header payload = Ok (0, vl') /\ vl_hyp vl' = Some vh' /\
    vh_send_list vh' = vh_send_list vh ++ [Build_vhost_hab_send_node header (take (Z.to_nat (HAB_HEADER_GET_SIZE header)) payload)] /\
    (Forall node_ok (vh_send_list vh) -> Forall node_ok (vh_send_list vh')).
Proof.
  intros Hh Hle Ha Hz Hp. unfold vhost_send. cbv zeta. rewrite Hh. rewrite (proj2 (Z.ltb_ge _ _) Hle).
  rewrite mem_read_Some by lia. cbn [of_opt res_bind drop].
  assert (Hok : node_ok (Build_vhost_hab_send_node header (take (Z.to_nat (HAB_HEADER_GET_SIZE header)) payload))).
  { unfold node_ok. cbn [sn_header sn_payload]. assert (zlen (take (Z.to_nat (HAB_HEADER_GET_SIZE header)) payload) = HAB_HEADER_GET_SIZE header) as ->.
    { unfold zlen in *. rewrite length_firstn. lia. } by split_and!. }
  destruct (vl_alloc vl) as [|[] l] eqn:Hal; [| |by destruct (Ha l)].
  all: eexists _, _; split; [reflexivity|]; split; [reflexivity|]; split; [reflexivity|].
  all: intros Hall; cbn [vh_send_list set_vh_rx set_vh_send_list]; apply list.Forall_app; by split; [|apply list.Forall_singleton].
Qed.

(** ** A queue

    The guest offers what is left of a list; [sv_late] tells how often new buffers seem
    to come in just when the host has found none. *)
Record sample_ring := { sv_descs : list vdesc; sv_at : vdesc; sv_cur : bytes; sv_given : list bytes; sv_late : nat; sv_work : nat }.

Definition no_desc : vdesc := Build_vdesc [] [] [].

#[export] Instance sample_vhost_queue : VhostQueue sample_ring.
Proof.
  refine {| vq_num := fun _ => 256; vq_given := sv_given;
    vhost_get_vq_desc := fun q =>
      match sv_descs q with
      | [] => (256, no_desc, q)
      | d :: l => (Z.of_nat (length l), d, Build_sample_ring l d [] (sv_given q) (sv_late q) (sv_work q))
      end;
    vhost_enable_notify := fun q =>
      match sv_late q with
      | O => (false, q)
      | S m => (true, Build_sample_ring (sv_descs q) (sv_at q) (sv_cur q) (sv_given q) m (sv_work q))
      end;
    vhost_disable_notify := fun q => q;
    copy_to_iter := fun q _ bs =>
      let k := Z.min (zlen bs) (iov_length (de_in (sv_at q))) in
      (k, Build_sample_ring (sv_descs q) (sv_at q) (take (Z.to_nat k) bs) (sv_given q) (sv_late q) (sv_work q));
    vhost_add_used := fun q _ _ => (0, Build_sample_ring (sv_descs q) (sv_at q) [] (sv_given q ++ [sv_cur q]) (sv_late q) (sv_work q));
    vhost_signal := fun q => q;
    vhost_exceeds_weight := fun q n => (VHOST_HAB_WEIGHT <=? n, q);
    vhost_vq_work_queue := fun q => Build_sample_ring (sv_descs q) (sv_at q) (sv_cur q) (sv_given q) (sv_late q) (S (sv_work q));
    vhost_vq_avail_empty := fun q => match sv_descs q with [] => true | _ => false end |}; try done.
  - intros q. by destruct (sv_descs q).
  - intros q. by destruct (sv_late q).
  - intros q head bs. cbn [fst snd sv_cur]. intros Hk. rewrite Hk. cbn [sv_given Z.eqb]. by rewrite take_ge by (unfold zlen; lia).
Defined.

Definition big_bufs (q : sample_ring) : Prop :=
  Forall (fun d => IN_BUF_SIZE <= iov_length (de_in d) /\ iov_length (de_in d) + iov_length (de_out d) < VHOST_HAB_WEIGHT) (sv_descs q).

Lemma sample_guest : rx_guest big_bufs sv_late.
Proof.
  constructor; unfold big_bufs; try (intros; split; [done|apply Nat.le_refl]).
  - intros q Hq. cbn [vhost_get_vq_desc sample_vhost_queue]. destruct (sv_descs q) as [|d l] eqn:Hd; cbn [fst snd].
    + rewrite Hd. split; [done|]. split; [done|]. by intros _ Hx.
    + apply list.Forall_cons in Hq as [Hb Hl]. split; [done|]. split; [apply Nat.le_refl|]. by intros _ _.
  - intros q Hq. cbn [vhost_enable_notify sample_vhost_queue]. destruct (sv_late q) as [|m] eqn:Hl; cbn [fst snd sv_descs sv_late].
    + split; [done|]. lia.
    + split; [done|]. lia.
Qed.

Definition in_desc (n : Z) : vdesc := Build_vdesc [] [] [n].
Definition ring (l : list vdesc) : sample_ring := Build_sample_ring l no_desc [] [] 0 0.
(** A channel of the host, and a message of some bytes. *)
Definition host_chan (tx rx : sample_ring) (l : list vhost_hab_send_node) : vhost_hab_pchannel sample_ring :=
  Build_vhost_hab_pchannel 0 (Some 90%nat) tx true rx true [] l false false.
Definition note (bs : bytes) : vhost_hab_send_node := Build_vhost_hab_send_node (mk_header (zlen bs) HAB_PAYLOAD_TYPE_MSG 2 7) bs.

Lemma vhost_send_order_witness :
  exists k seq' vh', rx_turn 1 (0, 0) 4 (host_chan (ring []) (ring [in_desc 5120; in_desc 6000]) [note [1; 2]; note [3]; note [4]]) = Ok (seq', vh') /\
    (k <= 3)%nat /\ vq_given (vh_rx vh') = frames (0, 0) 4 (take k [note [1; 2]; note [3]; note [4]]) /\
    Forall2 same_msg (drop k [note [1; 2]; note [3]; note [4]]) (vh_send_list vh').
Proof.
  destruct (vhost_send_order big_bufs sv_late sample_guest 1 (0, 0) 4
    (host_chan (ring []) (ring [in_desc 5120; in_desc 6000]) [note [1; 2]; note [3]; note [4]]))
    as (k & seq' & vh' & He & Hk & Hgi & _ & Hf & _); [|apply Nat.lt_0_1|done| |].
  - repeat constructor; vm_compute; try discriminate; done.
  - repeat constructor; vm_compute; try discriminate; done.
  - exists k, seq', vh'. by split_and!.
Defined.

(** Two messages over, the third waits. *)
Lemma two_go_over :
  match rx_turn 1 (0, 0) 4 (host_chan (ring []) (ring [in_desc 5120; in_desc 6000]) [note [1; 2]; note [3]; note [4]]) with
  | Ok (seq', vh') => seq' = 6 /\ vh_send_list vh' = [note [4]] /\ map (drop 20) (sv_given (vh_rx vh')) = [[1; 2]; [3]]
  | _ => False
  end.
Proof. vm_compute. by split_and!. Qed.

(** A guest whose buffers are smaller than a message gets it in pieces, and the numbers
    of the later ones are nowhere; when its buffers run out in the middle of a message,
    the message starts again from its beginning in the next turn. *)
Lemma vhost_send_splits :
  match rx_turn 1 (0, 0) 0 (host_chan (ring []) (ring [in_desc 21; in_desc 1]) [note [1; 2; 3]]) with
  | Ok (seq', vh') =>
      seq' = 2 /\ map zlen (sv_given (vh_rx vh')) = [21; 1] /\ length (vh_send_list vh') = 1%nat /\
      match rx_turn 1 (0, 0) seq' (set_vh_rx (ring [in_desc 5120]) vh') with
      | Ok (_, vh'') => map (drop 20) (sv_given (vh_rx vh'')) = [[1; 2; 3]] /\ vh_send_list vh'' = []
      | _ => False
      end
  | _ => False
  end.
Proof. vm_compute. by split_and!. Qed.
