(* ===== verification/VHostWork.v ===== *)
(** The workers of the vhost transport (hypervisor/virtio/hab_vhost.c): one hands the
    waiting messages to the guest, the other takes the guest's messages and has the
    driver handle them.  The driver stays well-formed whatever the guest offers. *)
From S2P Require Import Prelude Header World Logic Memory Invariant Pchan Exports Context Vchan Wait Open Loopback Sample Msg Mimex Progress VHost.

Section ops.
Context {VQ : Type} `{VhostQueue VQ} `{Platform (vhost_link VQ)} `{KernelIdr}.
#[local] Abbreviation M := (World.M (vhost_link VQ)).
Implicit Types (vh : vhost_hab_pchannel VQ).

Definition get_vl (p : nat) : M (vhost_link VQ) := fun w =>
  match w_hyp w !! p with Some vl => Ok (vl, w) | None => Fault UseAfterFree end.
Definition put_vl (p : nat) (vl : vhost_link VQ) : M unit :=
  modify (fun w => set_w_hyp (<[p := vl]> (w_hyp w)) w).
Definition vh_of (p : nat) : M (vhost_hab_pchannel VQ) :=
  let! vl := get_vl p in
  match vl_hyp vl with Some vh => ret vh | None => fail NullDeref end.
Definition put_vh (p : nat) vh : M unit :=
  let! vl := get_vl p in put_vl p (set_vl_hyp (Some vh) vl).

(** [n] bounds the repeated tests for new buffers. *)
(* src/hypervisor/virtio/hab_vhost.c:936-995 rx_worker *)
Definition rx_worker (n : nat) (p : nat) : M unit :=
  let! vl := get_vl p in
  let! vh := vh_of p in
  let! pc := get_p p in
  let! r := lift (rx_turn n (vl_now vl) (pc_sequence_tx pc) vh) in
  do! upd_p p (set_pc_sequence_tx (r.1)) in
  put_vh p (r.2).

(** The message of a descriptor: its first bytes overwrite the header on the stack, which
    is what it was from the message before when they are too few. *)
(* src/hypervisor/virtio/hab_vhost.c:210-229 tx_worker *)
Definition tx_message (p : nat) (d : vdesc) (header : bytes) : M bytes :=
  let! vh := vh_of p in
  let head := take (Z.to_nat sizeof_hab_header) (de_data d) in
  let header := head ++ drop (length head) header in
  do! put_vh p (set_vh_out_iter (drop (Z.to_nat sizeof_hab_header) (de_data d)) vh) in
  let! _ := hab_msg_recv p (header_dec header) in
  do! upd_p p (set_pc_sequence_rx (sequence (header_dec header))) in
  ret header.

(** At most [n] turns. *)
(* src/hypervisor/virtio/hab_vhost.c:192-244 tx_worker *)
Fixpoint tx_loop (n : nat) (p : nat) (header : bytes) (total_len : Z) : M unit :=
  match n with
  | O => fail OutOfFuel
  | S n =>
      let! vh := vh_of p in
      let '(head, d, q) := vhost_get_vq_desc (vh_tx vh) in
      if head =? vq_num q then
        let '(more, q) := vhost_enable_notify q in
        if more then do! put_vh p (set_vh_tx (vhost_disable_notify q) vh) in tx_loop n p header total_len
        else put_vh p (set_vh_tx q vh)
      else if head <? 0 then put_vh p (set_vh_tx q vh)
      else
        do! put_vh p (set_vh_tx q vh) in
        let out_len := iov_length (de_out d) in
        let! header := (if negb (bool_decide (de_out d = [])) && (0 <? out_len) then tx_message p d header else ret header) in
        let total_len := total_len + out_len + iov_length (de_in d) in
        let! vh := vh_of p in
        let q := vhost_signal (vhost_add_used (vh_tx vh) head 0).2 in
        let '(over, q) := vhost_exceeds_weight q total_len in
        do! put_vh p (set_vh_tx q vh) in
        if over then ret tt else tx_loop n p header total_len
  end.

(** [garbage] is what the header on the stack holds at first. *)
(* src/hypervisor/virtio/hab_vhost.c:152-248 tx_worker *)
Definition tx_worker (n : nat) (garbage : bytes) (p : nat) : M unit :=
  let! vh := vh_of p in
  if vh_tx_on vh then
    do! put_vh p (set_vh_tx (vhost_disable_notify (vh_tx vh)) vh) in
    tx_loop n p garbage 0
  else ret tt.

(** What is queued to be done for a channel: its queues were kicked by the guest, or the
    driver has something for them. *)
(* src/hypervisor/virtio/hab_vhost.c:258-276 handle_tx_vq_kick *)
Inductive vhost_work := TxKick | RxKick | TxRecv | RxSend.

(* src/hypervisor/virtio/hab_vhost.c:250-276 do_tx_recv_work *)
Definition run_work (n : nat) (garbage : bytes) (k : vhost_work) (p : nat) : M unit :=
  match k with
  | TxKick | TxRecv => tx_worker n garbage p
  | RxKick | RxSend => rx_worker n p
  end.

(* src/hypervisor/virtio/hab_vhost.c:1072-1093 physical_channel_rx_dispatch *)
Definition vhost_rx_dispatch (p : nat) : M unit :=
  let! vl := get_vl p in
  match vl_hyp vl with
  | None => ret tt
  | Some vh => put_vh p (set_vh_tx (vhost_vq_work_queue (vh_tx vh)) vh)
  end.
End ops.

(** ** Properties *)

Section props.
Context {VQ : Type} `{VhostQueue VQ} `{KernelIdr}.
Context (kernel : LinuxCalls).
#[local] Instance vhost : Platform (vhost_link VQ) :=
  vhost_platform kernel.
Implicit Types (vh : vhost_hab_pchannel VQ) (vl : vhost_link VQ) (w : world (vhost_link VQ)) (h : held).

(** Sends and reads leave the queue that the guest sends on alone. *)
Definition tx_same vl vl' : Prop :=
  match vl_hyp vl, vl_hyp vl' with
  | Some a, Some b => vh_tx b = vh_tx a /\ vh_tx_on b = vh_tx_on a
  | None, None => True
  | _, _ => False
  end.

#[local] Instance tx_same_pre : PreOrder tx_same.
Proof.
  split.
  - intros vl. unfold tx_same. by destruct (vl_hyp vl).
  - intros a b c. unfold tx_same. destruct (vl_hyp a), (vl_hyp b), (vl_hyp c); try done. intuition congruence.
Qed.

Lemma send_tx_same pc vl hd bs r q vl' : phys_send pc vl hd bs = Some (r, q, vl') -> tx_same vl vl'.
Proof.
  cbn [phys_send vhost vhost_platform]. unfold vhost_phys_send, vhost_send, tx_same. cbv zeta. destruct (vl_hyp vl) as [vh|] eqn:Hv.
  2: { intros [= <- <- <-]. by rewrite Hv. }
  destruct (pc_otherend_closed pc); [intros [= <- <- <-]; by rewrite Hv|].
  destruct (_ <? _); [intros [= <- <- <-]; by rewrite Hv|]. destruct (vl_alloc vl) as [|[] l].
  1,2: destruct (mem_read _ _ _); [|done]; cbn [of_opt res_bind]; by intros [= <- <- <-].
  intros [= <- <- <-]. cbn [vl_hyp set_vl_alloc]. by rewrite Hv.
Qed.

Lemma read_tx_same pc vl n : tx_same vl (phys_read pc vl n).2.
Proof.
  cbn [phys_read vhost vhost_platform]. unfold vhost_phys_read, vhost_read. cbv zeta. destruct (vl_hyp vl) as [vh|] eqn:Hv.
  - cbn [fst snd]. destruct (_ <? _); [|reflexivity]. unfold tx_same. cbn [snd vl_hyp set_vl_hyp]. by rewrite Hv.
  - by destruct (_ <? _).
Qed.

Lemma recv_tx_same p hdr w r w' : hab_msg_recv p hdr w = Ok (r, w') -> hyp_keeps tx_same w w'.
Proof.
  intros He. refine (built_keeps tx_same _ send_tx_same _ (built_msg_recv p hdr) w r w' He). apply read_tx_same.
Qed.

(** A message of the guest whose handling relies on nothing but the driver's invariant:
    its header is there, it is no import request, and no stamped message of more than a
    page.  A descriptor without bytes to read is no message. *)
Definition desc_good (d : vdesc) : Prop :=
  0 < iov_length (de_out d) ->
  let hdr := header_dec (de_data d) in
  bytes_ok (de_data d) /\ sizeof_hab_header <= zlen (de_data d) /\
  payload_of_code (HAB_HEADER_GET_TYPE hdr) <> Some HAB_PAYLOAD_TYPE_IMPORT /\
  (is_stamped (payload_of_code (HAB_HEADER_GET_TYPE hdr)) = true -> payload_size hdr <= PAGE_SIZE).

(** A guest that sends such messages, and fewer than [left] of them. *)
Record tx_guest (good : VQ -> Prop) (left : VQ -> nat) : Prop := {
  tg_get : forall q, good q -> let r := vhost_get_vq_desc q in
    good r.2 /\ (left r.2 <= left q)%nat /\ (0 <= r.1.1 -> r.1.1 <> vq_num r.2 -> (left r.2 < left q)%nat /\ desc_good (r.1.2));
  tg_enable : forall q, good q -> let r := vhost_enable_notify q in good r.2 /\ (left r.2 + (if r.1 then 1 else 0) <= left q)%nat;
  tg_disable : forall q, good q -> good (vhost_disable_notify q) /\ (left (vhost_disable_notify q) <= left q)%nat;
  tg_used : forall q head len, good q -> let r := vhost_add_used q head len in good r.2 /\ (left r.2 <= left q)%nat;
  tg_weight : forall q len, good q -> let r := vhost_exceeds_weight q len in good r.2 /\ (left r.2 <= left q)%nat;
  tg_signal : forall q, good q -> good (vhost_signal q) /\ (left (vhost_signal q) <= left q)%nat
}.

Section take.
Context (good : VQ -> Prop) (left : VQ -> nat) (Hg : tx_guest good left).

Definition tx_chan w p vh : Prop := exists vl, w_hyp w !! p = Some vl /\ vl_hyp vl = Some vh /\ good (vh_tx vh) /\ vh_tx_on vh = true.

Lemma wp_get_vh p vh (Q : vhost_hab_pchannel VQ -> world _ -> Prop) w : tx_chan w p vh -> Q vh w -> wp (vh_of p) Q w.
Proof. intros (vl & Hl & Hv & _) HQ. unfold wp, vh_of, get_vl, bind. rewrite Hl, Hv. exact HQ. Qed.

Lemma wp_put_vh h p vh vh' (Q : unit -> world _ -> Prop) w : wf h w -> tx_chan w p vh -> good (vh_tx vh') -> vh_tx_on vh' = true ->
  (forall w', wf h w' -> tx_chan w' p vh' -> Q tt w') -> wp (put_vh p vh') Q w.
Proof.
  intros Hwf (vl & Hl & _) Hq Hon HQ. unfold wp, put_vh, get_vl, put_vl, bind, modify. rewrite Hl. apply HQ.
  - eapply wf_frame; [|exact Hwf]. apply frame_hyp.
  - eexists. split; [apply lookup_insert_eq|]. by split.
Qed.

Lemma recv_chan w w' p vh : hyp_keeps tx_same w w' -> tx_chan w p vh ->
  exists vh', tx_chan w' p vh' /\ vh_tx vh' = vh_tx vh.
Proof.
  intros Hk (vl & Hl & Hv & Hq & Hon). destruct (Hk p vl Hl) as (vl' & Hl' & Hs). unfold tx_same in Hs. rewrite Hv in Hs.
  destruct (vl_hyp vl') as [vh'|] eqn:Hv'; [|done]. destruct Hs as [E1 E2]. exists vh'. split; [|done].
  exists vl'. by rewrite E1, E2.
Qed.

Lemma tx_message_spec h w p vh d header :
  wf h w -> h_x h = None -> p ∈ h_p h -> tx_chan w p vh -> desc_good d -> 0 < iov_length (de_out d) ->
  wp (tx_message p d header) (fun _ w' => wf h w' /\ exists vh', tx_chan w' p vh' /\ vh_tx vh' = vh_tx vh) w.
Proof.
  intros Hwf Hx Hp Hc Hd Hout. destruct (Hd Hout) as (Hb & Hlen & Hni & Hst). pose proof Hc as (_ & _ & _ & Hq & Hon).
  unfold tx_message. apply wp_bind. eapply wp_get_vh; [exact Hc|]. cbv zeta. rewrite header_dec_first by done.
  apply wp_bind. eapply wp_put_vh; [exact Hwf|exact Hc|exact Hq|exact Hon|]. intros w1 Hwf1 Hc1.
  apply wp_bind. eapply (wp_mono _ (fun _ w' => wf h w' /\ hyp_keeps tx_same w1 w')).
  { apply (wp_run _ (fun _ w' => wf h w') (hyp_keeps tx_same w1)); [|intros r w' He; by eapply recv_tx_same].
    apply hab_msg_recv_spec; [done|done|]. split; [by eapply wf_held_pchan|]. split.
    - destruct Hc1 as (vl & Hl & Hv & _). exists vl. split; [done|]. cbn [phys_up vhost vhost_platform]. unfold vhost_up.
      rewrite Hv. by apply bool_decide_eq_true_2.
    - split; [by apply header_dec_size|]. split; [by intros ?|]. intros Hs Hn. specialize (Hst Hs). lia. }
  intros r w2 [Hwf2 Hk]. destruct (recv_chan _ _ _ _ Hk Hc1) as (vh2 & Hc2 & E).
  destruct (wf_held_pchan h w2 p Hwf2 Hp) as [pc2 Hpc2]. apply wp_bind. eapply wp_upd_p; [exact Hpc2|]. apply wp_ret.
  split; [eapply wf_frame; [by eapply frame_pchan|exact Hwf2]|]. exists vh2. split; [exact Hc2|exact E].
Qed.

Lemma tx_loop_spec n h p header total_len : forall w vh,
  wf h w -> h_x h = None -> p ∈ h_p h -> tx_chan w p vh -> (left (vh_tx vh) < n)%nat ->
  wp (tx_loop n p header total_len) (fun _ w' => wf h w' /\ exists vh', tx_chan w' p vh') w.
Proof.
  revert header total_len. induction n as [|n IH]; intros header total_len w vh Hwf Hx Hp Hc Hn; [lia|]. cbn [tx_loop].
  pose proof Hc as (_ & _ & _ & Hq & Hon). apply wp_bind. eapply wp_get_vh; [exact Hc|].
  pose proof (tg_get _ _ Hg (vh_tx vh) Hq) as Hget. destruct (vhost_get_vq_desc (vh_tx vh)) as [[head d] q1]. cbv zeta in Hget. cbn [fst snd] in Hget.
  destruct Hget as (Hq1 & Hl1 & Hd). destruct (Z.eqb_spec head (vq_num q1)) as [He|Hne].
  - pose proof (tg_enable _ _ Hg q1 Hq1) as Hen. destruct (vhost_enable_notify q1) as [more q2]. cbv zeta in Hen. cbn [fst snd] in Hen.
    destruct Hen as [Hq2 Hl2]. destruct more.
    + destruct (tg_disable _ _ Hg q2 Hq2) as [Hq3 Hl3]. apply wp_bind. eapply wp_put_vh; [exact Hwf|exact Hc|exact Hq3|exact Hon|].
      intros w1 Hwf1 Hc1. eapply IH; [done|done|done|exact Hc1|]. cbn [vh_tx set_vh_tx]. lia.
    + eapply wp_put_vh; [exact Hwf|exact Hc|exact Hq2|exact Hon|]. intros w1 Hwf1 Hc1. split; [done|]. by eexists.
  - destruct (Z.ltb_spec head 0) as [|Hpos].
    { eapply wp_put_vh; [exact Hwf|exact Hc|exact Hq1|exact Hon|]. intros w1 Hwf1 Hc1. split; [done|]. by eexists. }
    destruct (Hd Hpos Hne) as [Hlt Hgood]. apply wp_bind. eapply wp_put_vh; [exact Hwf|exact Hc|exact Hq1|exact Hon|]. intros w1 Hwf1 Hc1.
    apply wp_bind. cbv zeta. apply (wp_mono _ (fun _ w' => wf h w' /\ exists vh', tx_chan w' p vh' /\ vh_tx vh' = q1)).
    { destruct (negb _ && _) eqn:Hb; [|apply wp_ret; split; [done|]; by exists (set_vh_tx q1 vh)]. bool_hyps.
      exact (tx_message_spec h w1 p (set_vh_tx q1 vh) d header Hwf1 Hx Hp Hc1 Hgood ltac:(lia)). }
    intros header' w2 (Hwf2 & vh2 & Hc2 & E). apply wp_bind. eapply wp_get_vh; [exact Hc2|]. pose proof Hc2 as (_ & _ & _ & Hq2 & Hon2).
    rewrite E in *. pose proof (tg_used _ _ Hg q1 head 0 Hq1) as [Hq3 Hl3]. set (q3 := (vhost_add_used q1 head 0).2) in *.
    destruct (tg_signal _ _ Hg q3 Hq3) as [Hq4 Hl4]. set (tl := total_len + _ + _).
    pose proof (tg_weight _ _ Hg (vhost_signal q3) tl Hq4) as [Hq5 Hl5]. destruct (vhost_exceeds_weight (vhost_signal q3) tl) as [over q5].
    cbn [fst snd] in Hq5, Hl5. apply wp_bind. eapply wp_put_vh; [exact Hwf2|exact Hc2|exact Hq5|exact Hon2|]. intros w3 Hwf3 Hc3.
    destruct over; [apply wp_ret; split; [done|]; by eexists|]. eapply IH; [done|done|done|exact Hc3|]. cbn [vh_tx set_vh_tx]. lia.
Qed.

(** C13: Handling what a guest sends keeps the driver well-formed however many messages
    there are and whatever they say (import requests and stamped messages of more than a
    page apart, whose handling relies on more), and ends: the worker takes every message that the
    guest has offered, unless the turn becomes too long. *)
Theorem tx_worker_safe (n : nat) (garbage : bytes) (h : held) (w : world (vhost_link VQ)) (p : nat) vh :
  wf h w -> h_x h = None -> p ∈ h_p h -> tx_chan w p vh -> (left (vh_tx vh) < n)%nat ->
  wp (tx_worker n garbage p) (fun _ w' => wf h w' /\ exists vh', tx_chan w' p vh') w.
Proof.
  intros Hwf Hx Hp Hc Hn. pose proof Hc as (_ & _ & _ & Hq & Hon). unfold tx_worker. apply wp_bind. eapply wp_get_vh; [exact Hc|].
  rewrite Hon. destruct (tg_disable _ _ Hg _ Hq) as [Hq1 Hl1]. apply wp_bind. eapply wp_put_vh; [exact Hwf|exact Hc|exact Hq1|exact Hon|].
  intros w1 Hwf1 Hc1. eapply tx_loop_spec; [done|done|done|exact Hc1|]. cbn [vh_tx set_vh_tx]. lia.
Qed.
End take.

(** *** From the guest to the host *)

(** The channel [p], whose side of the device is [vh], is connected to the open virtual
    channel [v] that the header [hd] is for. *)
Record tx_end w (p v : nat) (pc : physical_channel) (vc : virtual_channel) vl vh (hd : hab_header) : Prop := {
  te_p : w_pchans w !! p = Some pc;
  te_vl : w_hyp w !! p = Some vl;
  te_vh : vl_hyp vl = Some vh;
  te_id : pc_vchan_idr pc !! HAB_VCID_GET_ID (HAB_HEADER_GET_ID hd) = Some v;
  te_v : w_vchans w !! v = Some vc;
  te_open : receives vc hd = true;
  te_refs : 1 <= vc_refcount vc;
  te_mem : forall l, w_alloc w <> false :: l
}.

Lemma put_vh_eq w p vl vh : w_hyp w !! p = Some vl ->
  put_vh p vh w = Ok (tt, set_w_hyp (<[p := set_vl_hyp (Some vh) vl]> (w_hyp w)) w).
Proof. intros Hl. unfold put_vh, get_vl, put_vl, bind, modify. by rewrite Hl. Qed.

Lemma read_whole pc vl vh payload pad : vl_hyp vl = Some (set_vh_out_iter (payload ++ pad) vh) -> zlen payload < 2 ^ 31 ->
  phys_read pc vl (zlen payload) = (zlen payload, payload, set_vl_hyp (Some (set_vh_out_iter pad vh)) vl).
Proof.
  intros Hv Hz. cbn [phys_read vhost vhost_platform]. unfold vhost_phys_read, vhost_read. rewrite Hv. cbv zeta. cbn [fst snd vh_out_iter set_vh_out_iter].
  assert (E : Z.to_nat (zlen payload) = length payload) by (unfold zlen; lia). rewrite E, take_app_length, drop_app_length.
  by rewrite (proj2 (Z.ltb_lt _ _) Hz).
Qed.

(** A message as it is sent: it goes to its virtual channel whole. *)
Lemma tx_message_data w p v pc vc vl vh (mh : hab_header) seq payload pad t d header :
  tx_end w p v pc vc vl vh mh -> header_ok mh -> is_u32 seq -> HAB_HEADER_GET_TYPE mh = payload_code t -> data_type t ->
  zlen payload = HAB_HEADER_GET_SIZE mh -> HAB_HEADER_GET_SIZE mh <= HAB_HEADER_SIZE_MAX ->
  de_data d = header_enc (sent_header mh seq) ++ payload ++ pad ->
  exists header' w', tx_message p d header w = Ok (header', w') /\
    w_vchans w' = <[v := set_vc_rx_list (vc_rx_list vc ++
      [Build_hab_message (HAB_HEADER_GET_SIZE mh) false (pc_sequence_rx pc) [payload]]) vc]> (w_vchans w) /\
    w_pchans w' = <[p := set_pc_sequence_rx seq pc]> (w_pchans w) /\
    exists vl', w_hyp w' !! p = Some vl' /\ vl_hyp vl' = Some (set_vh_out_iter pad vh).
Proof.
  intros [Hp Hl Hv Hi Hvc Hrec Href Hmem] Hh Hseq Ht Hm Hz Hle Hd. pose proof (zlen_nonneg payload).
  pose proof (header_enc_zlen (sent_header mh seq)) as Hez. unfold HAB_HEADER_SIZE_MAX in Hle.
  assert (Hsent : header_ok (sent_header mh seq)). { destruct Hh as (?&?&?&?&?). unfold header_ok, sent_header. by cbn; split_and!. }
  set (vl1 := set_vl_hyp (Some (set_vh_out_iter (payload ++ pad) vh)) vl).
  set (w1 := set_w_hyp (<[p := vl1]> (w_hyp w)) w).
  pose proof (read_whole pc vl1 vh payload pad eq_refl ltac:(lia)) as Hphys. rewrite Hz in Hphys.
  set (vl2 := set_vl_hyp (Some (set_vh_out_iter pad vh)) vl1) in *.
  assert (Hl1 : w_hyp w1 !! p = Some vl1) by apply lookup_insert_eq.
  destruct (recv_data_eq w1 p v pc vc vl1 vl2 (sent_header mh seq) t (HAB_HEADER_GET_SIZE mh) payload Hp Hl1 Hi Hvc Hrec Href Ht Hm) as (w2 & He & Hvs & Hhy & _ & Ho).
  { unfold HAB_HEADER_SIZE_MAX. exact Hle. }
  { exact Hmem. }
  { exact Hphys. }
  destruct Ho as (Hps & _). unfold read_msg in Hvs. change (payload_size (sent_header mh seq)) with (HAB_HEADER_GET_SIZE mh) in Hvs.
  rewrite u64_id in Hvs by lia. rewrite <- Hz, fill_buf_all, Hz in Hvs.
  assert (Hp2 : w_pchans w2 !! p = Some pc) by by rewrite Hps.
  unfold tx_message. unfold bind at 1, vh_of at 1, get_vl at 1, bind at 1. rewrite Hl, Hv. cbv zeta.
  rewrite header_dec_first by (rewrite Hd, zlen_app, Hez; pose proof (zlen_nonneg (payload ++ pad)); lia).
  replace (header_dec (de_data d)) with (sent_header mh seq) by (by rewrite Hd, header_dec_app).
  unfold ret at 1. unfold bind at 1. rewrite (put_vh_eq w p vl _ Hl).
  replace (drop (Z.to_nat sizeof_hab_header) (de_data d)) with (payload ++ pad).
  2: { rewrite Hd. unfold zlen, sizeof_hab_header in *. rewrite drop_app_ge by lia.
       by replace (Z.to_nat 20 - length (header_enc (sent_header mh seq)))%nat with 0%nat by lia. }
  change (set_w_hyp _ w) with w1. unfold bind at 1. rewrite He. unfold bind at 1, upd_p at 1. rewrite Hp2.
  eexists _, _. split; [reflexivity|]. cbn [w_vchans w_pchans w_hyp set_w_pchans].
  split; [exact Hvs|]. split; [by rewrite Hps|]. rewrite Hhy. exists vl2. split; [apply lookup_insert_eq|reflexivity].
Qed.
End props.

(** What is sent when the channel is closed towards the guest, or when its queues are not
    started, is as it is: the driver refuses the first, and takes the second and keeps
    it. *)
Lemma vhost_send_kept {VQ : Type} `{VhostQueue VQ} n now seq (vl : vhost_link VQ) vh header payload :
  vl_hyp vl = Some vh -> vh_rx_on vh = false -> HAB_HEADER_GET_SIZE header <= IN_BUF_SIZE - sizeof_hab_header ->
  (forall l, vl_alloc vl <> false :: l) -> 0 <= HAB_HEADER_GET_SIZE header <= zlen payload ->
  (HAB_HEADER_GET_TYPE header = payload_code HAB_PAYLOAD_TYPE_PROFILE -> 16 <= HAB_HEADER_GET_SIZE header) ->
  vhost_send true vl header payload = Ok (- ENODEV, vl) /\
  exists vl' vh', vhost_send false vl header payload = Ok (0, vl') /\ vl_hyp vl' = Some vh' /\
    length (vh_send_list vh') = S (length (vh_send_list vh)) /\ rx_turn n now seq vh' = Ok (seq, vh').
Proof.
  intros Hv Hoff Hle Ha Hz Hp. split; [unfold vhost_send; by rewrite Hv|].
  destruct (vhost_send_queues vl vh header payload Hv Hle Ha Hz Hp) as (vl' & vh' & He & Hv' & Hl & _).
  exists vl', vh'. split; [done|]. split; [done|]. split; [rewrite Hl, length_app; simpl; lia|].
  assert (Hoff' : vh_rx_on vh' = false).
  { revert He. unfold vhost_send. cbv zeta. rewrite Hv, (proj2 (Z.ltb_ge _ _) Hle). destruct (vl_alloc vl) as [|[] l'] eqn:E; [| |by destruct (Ha l')].
    all: destruct (mem_read _ _ _); [|done]; cbn [of_opt res_bind]; intros [= <-]; injection Hv' as <-; done. }
  unfold rx_turn. by rewrite Hoff'.
Qed.

(** ** A host *)

#[export] Instance sample_vhost : Platform (vhost_link sample_ring) :=
  vhost sample_calls.

Definition host_link (tx rx : sample_ring) (l : list vhost_hab_send_node) : vhost_link sample_ring :=
  Build_vhost_link (Some (host_chan tx rx l)) [] (100, 0).

Definition good_descs (q : sample_ring) : Prop := Forall desc_good (sv_descs q).

Lemma sample_tx_guest : tx_guest good_descs (fun q => length (sv_descs q) + sv_late q)%nat.
Proof.
  constructor; unfold good_descs; try (intros; split; [done|apply Nat.le_refl]).
  - intros q Hq. cbn [vhost_get_vq_desc sample_vhost_queue]. destruct (sv_descs q) as [|d l] eqn:Hd; cbn [fst snd].
    + rewrite Hd. split; [done|]. split; [done|]. by intros _ Hx.
    + apply list.Forall_cons in Hq as [Hb Hl]. split; [done|]. cbn [sv_descs sv_late length]. split; [lia|]. intros _ _. split; [lia|done].
  - intros q Hq. cbn [vhost_enable_notify sample_vhost_queue]. destruct (sv_late q) as [|m] eqn:Hl; cbn [fst snd sv_descs sv_late]; (split; [done|]); lia.
Qed.

(** The guest sends three bytes. *)
Definition three_note : bytes := header_enc (sent_header (mk_header 3 HAB_PAYLOAD_TYPE_MSG 2 7) 1) ++ [1; 2; 3].
Definition out_desc (bs : bytes) : vdesc := Build_vdesc [zlen bs] bs [].

Lemma three_desc : desc_good (out_desc three_note).
Proof.
  intros _. split; [|split; [vm_compute; discriminate|split; intros Hx; vm_compute in Hx; discriminate Hx]].
  apply list.Forall_forall. intros x Hx. assert (Hb : forallb (fun b => (0 <=? b) && (b <? 256)) (de_data (out_desc three_note)) = true) by (vm_compute; reflexivity).
  rewrite forallb_forall in Hb. apply list_elem_of_In in Hx. specialize (Hb x Hx). lia.
Qed.

Definition host_world (l : list vdesc) : world (vhost_link sample_ring) := busy (host_link (ring l) (ring []) []).

Lemma host_run : match tx_worker 2 [] 0 (host_world [out_desc three_note]) with
  | Ok (_, w') => (vc_rx_list <$> w_vchans w' !! 3%nat) = Some [Build_hab_message 3 false 0 [[1; 2; 3]]]
  | _ => False
  end.
Proof. vm_compute. reflexivity. Qed.

Lemma tx_worker_safe_witness :
  exists w', tx_worker 2 [] 0 (host_world [out_desc three_note]) = Ok (tt, w') /\ wf busy_held w' /\
    (vc_rx_list <$> w_vchans w' !! 3%nat) = Some [Build_hab_message 3 false 0 [[1; 2; 3]]].
Proof.
  pose proof (tx_worker_safe sample_calls
    good_descs (fun q => length (sv_descs q) + sv_late q)%nat sample_tx_guest 2 [] busy_held (host_world [out_desc three_note]) 0
    (host_chan (ring [out_desc three_note]) (ring []) []) (busy_wf _) eq_refl ltac:(by left)) as Hs.
  specialize (Hs ltac:(exists (host_link (ring [out_desc three_note]) (ring []) []); split; [reflexivity|]; split; [reflexivity|];
    split; [by apply list.Forall_singleton, three_desc|reflexivity]) ltac:(cbn; lia)).
  destruct (wp_ended _ _ _ Hs) as ([] & w' & He & Hwf & _).
  { intros Hb. pose proof host_run as Hrun. unfold sample_vhost in Hrun. rewrite Hb in Hrun. exact Hrun. }
  exists w'. pose proof host_run as Hrun. unfold sample_vhost in Hrun. rewrite He in Hrun. by split_and!.
Defined.

(** A descriptor whose memory is not there is handled like the message before it, whose
    header is still on the stack: an announcement of bytes that were never sent is
    queued at the channel once more. *)
Lemma unreadable_desc_repeats :
  match tx_worker 3 [] 0 (host_world [out_desc three_note; Build_vdesc [64] [] []]) with
  | Ok (_, w') => (map m_sizebytes <$> (vc_rx_list <$> w_vchans w' !! 3%nat)) = Some [3; 0]
  | _ => False
  end.
Proof. vm_compute. reflexivity. Qed.
