(* ===== verification/VHostVirtio.v ===== *)
(** The two ends of a virtio channel together: the vhost transport of the host and the
    virtio transport of the guest.  A message that one end sends arrives whole at
    the other, either way. *)
From S2P Require Import Prelude Header World Logic Memory Invariant Pchan Exports Context Vchan Wait Open Loopback Sample Msg Mimex Progress Virtio Pools VirtioRx VHost VHostWork.

Section ends.
Context {VQ HQ : Type} `{Virtqueue VQ} `{VhostQueue HQ} `{KernelIdr}.
Context (kernel : LinuxCalls).
#[local] Instance guest : Platform (virtio_pchan_link VQ) :=
  virtio kernel.
#[local] Instance host : Platform (vhost_link HQ) :=
  vhost kernel.

(** C10: What a guest sends, the host receives: the guest's device is given one buffer,
    with the bytes [bs], and a host that finds [bs] in a descriptor appends exactly the
    payload to the open virtual channel that the header names and records the sequence
    number. *)
Theorem guest_to_host (vpc : vq_pchan VQ) ln (seq : Z) (mh : hab_header) (payload : bytes) (hd : vh_buf_header) (l : list vh_buf_header)
    (t : hab_payload_type) :
  vpc_ok vpc -> ln_vpc ln = Some vpc -> vp_pchan_ready vpc = true -> header_ok mh ->
  HAB_HEADER_GET_TYPE mh = payload_code t -> data_type t ->
  zlen payload = HAB_HEADER_GET_SIZE mh -> HAB_HEADER_GET_SIZE mh <= buf_size PT_OUT_LARGE ->
  vp_list (send_pool (HAB_HEADER_GET_SIZE mh)) vpc = hd :: l -> overflows hd (HAB_HEADER_GET_SIZE mh) = false ->
  exists bs ln' vpc', virtio_send seq ln mh payload = Ok (0, u32 (seq + 1), ln') /\ ln_vpc ln' = Some vpc' /\
    vp_tx vpc' = (let a := virtqueue_add_outbuf (vp_tx vpc) (set_hd_payload_size (HAB_HEADER_GET_SIZE mh) hd) bs in
                  if a.1 =? 0 then (virtqueue_kick a.2).2 else a.2) /\
    forall (w : world (vhost_link HQ)) p v pc vc vl vh d garbage,
      tx_end w p v pc vc vl vh mh -> de_data d = bs ->
      exists header w', tx_message p d garbage w = Ok (header, w') /\
        w_vchans w' = <[v := set_vc_rx_list (vc_rx_list vc ++
          [Build_hab_message (HAB_HEADER_GET_SIZE mh) false (pc_sequence_rx pc) [payload]]) vc]> (w_vchans w) /\
        w_pchans w' = <[p := set_pc_sequence_rx (u32 (seq + 1)) pc]> (w_pchans w).
Proof.
  intros Hok Hv Hr Hh Ht Hm Hz Hle Hl Hov. pose proof (zlen_nonneg payload).
  destruct (virtio_crosses vpc ln seq mh payload hd l Hok Hv Hr ltac:(lia) Hz) as (ln' & vpc' & He & Hv' & Htx); [|done|done|].
  { rewrite Ht. by destruct Hm as [->|[->| ->]]. }
  eexists _, ln', vpc'. split; [exact He|]. split; [exact Hv'|]. split; [exact Htx|].
  intros w p v pc vc vl vh d garbage Hend Hd.
  destruct (tx_message_data kernel w p v pc vc vl vh mh (u32 (seq + 1)) payload [] t d garbage)
    as (header & w' & He' & Hvs & Hps & _); try done.
  - apply u32_range.
  - unfold buf_size, HAB_HEADER_SIZE_MAX in *; lia.
  - by rewrite app_nil_r.
  - by exists header, w'.
Qed.

(** C11: What the host sends, a guest receives: the message waits, the worker's next turn
    puts it into one buffer of the guest, as the bytes [bs], or leaves it waiting, and a
    guest whose device filled a buffer with [bs] appends exactly the payload to the open
    virtual channel that the header names, records the sequence number and gives the
    buffer back. *)
Theorem host_to_guest (good : HQ -> Prop) (left : HQ -> nat) (n : nat) (now : Z * Z) (seq : Z) (vl : vhost_link HQ)
    (vh : vhost_hab_pchannel HQ) (mh : hab_header) (payload : bytes) (t : hab_payload_type) :
  rx_guest good left -> (forall q, good q -> good (vhost_vq_work_queue q) /\ (left (vhost_vq_work_queue q) <= left q)%nat /\
    vq_given (vhost_vq_work_queue q) = vq_given q) ->
  vl_hyp vl = Some vh -> vh_send_list vh = [] -> vh_rx_on vh = true -> good (vh_rx vh) -> (left (vh_rx vh) < n)%nat ->
  (forall l, vl_alloc vl <> false :: l) -> header_ok mh -> HAB_HEADER_GET_TYPE mh = payload_code t -> data_type t ->
  zlen payload = HAB_HEADER_GET_SIZE mh -> HAB_HEADER_GET_SIZE mh <= IN_BUF_SIZE - sizeof_hab_header ->
  exists bs vl1 vh1 seq' vh2, vhost_send false vl mh payload = Ok (0, vl1) /\ vl_hyp vl1 = Some vh1 /\
    rx_turn n now seq vh1 = Ok (seq', vh2) /\
    (vq_given (vh_rx vh2) = vq_given (vh_rx vh) ++ [bs] /\ vh_send_list vh2 = [] \/
     vq_given (vh_rx vh2) = vq_given (vh_rx vh) /\ Forall2 same_msg [Build_vhost_hab_send_node mh payload] (vh_send_list vh2)) /\
    forall (w : world (virtio_pchan_link VQ)) p v pc vc ln vpc hd pad q,
      rx_end w p v pc vc ln vpc mh -> inbuf_ok hd -> zlen (bs ++ pad) = buf_size PT_IN ->
      virtqueue_get_buf (vp_rx vpc) = (Some (hd, zlen bs, bs ++ pad), q) ->
      exists w', rx_one p w = Ok (true, w') /\
        w_vchans w' = <[v := set_vc_rx_list (vc_rx_list vc ++
          [Build_hab_message (HAB_HEADER_GET_SIZE mh) false (pc_sequence_rx pc) [payload]]) vc]> (w_vchans w) /\
        w_pchans w' = <[p := set_pc_sequence_rx (u32 (seq + 1)) pc]> (w_pchans w) /\
        exists vpc', (ln_vpc <$> w_hyp w' !! p) = Some (Some vpc') /\
          vp_rx vpc' = (virtqueue_kick (virtqueue_add_inbuf q (set_hd_payload_size 0 hd)).2).2 /\ vp_in_cnt vpc' = vp_in_cnt vpc.
Proof.
  intros Hg Hwork Hv Hnil Hon Hq Hn Hal Hh Ht Hm Hz Hle. pose proof (zlen_nonneg payload).
  assert (Hnp : HAB_HEADER_GET_TYPE mh <> payload_code HAB_PAYLOAD_TYPE_PROFILE) by (rewrite Ht; by destruct Hm as [->|[->| ->]]).
  destruct (vhost_send_queues vl vh mh payload Hv Hle Hal ltac:(lia) ltac:(done)) as (vl1 & vh1 & Hs & Hv1 & Hl1 & Hok).
  rewrite Hnil in Hl1, Hok. cbn [app] in Hl1. rewrite take_ge in Hl1 by (unfold zlen in *; lia). specialize (Hok ltac:(by constructor)).
  assert (Hrx : vh_rx vh1 = vhost_vq_work_queue (vh_rx vh) /\ vh_rx_on vh1 = true).
  { revert Hs. unfold vhost_send. cbv zeta. rewrite Hv, (proj2 (Z.ltb_ge _ _) Hle). destruct (vl_alloc vl) as [|[] l'] eqn:Ha; [| |by destruct (Hal l')].
    all: destruct (mem_read _ _ _); [|done]; cbn [of_opt res_bind]; intros [= <-]; injection Hv1 as <-; by split. }
  destruct Hrx as [Hrx Hon1]. destruct (Hwork _ Hq) as (Hq1 & Hl & Hgi). rewrite <- Hrx in Hq1, Hl, Hgi.
  destruct (vhost_send_order good left Hg n now seq vh1 Hq1 ltac:(lia) Hon1 Hok) as (k & seq' & vh2 & Ht2 & Hk & Hg2 & Hlen & Hf & _).
  rewrite Hl1 in Hk, Hg2, Hlen, Hf. set (node := Build_vhost_hab_send_node mh payload) in *.
  exists (header_enc (sent_header mh (u32 (seq + 1))) ++ payload), vl1, vh1, seq', vh2.
  split; [exact Hs|]. split; [exact Hv1|]. split; [exact Ht2|]. rewrite Hgi in Hg2. split.
  - destruct k as [|[|k]]; [right|left|simpl in Hk; lia].
    + split; [|exact Hf]. rewrite Hg2. cbn [take frames]. by rewrite app_nil_r.
    + split; [|by inversion Hf]. rewrite Hg2. cbn [take frames]. unfold stamp_node, stamp_tx. cbn [sn_header node].
      by rewrite (proj2 (Z.eqb_neq _ _) Hnp).
  - intros w p v pc vc ln vpc hd pad q Hend Hhd Hpad Hget.
    eapply rx_one_frame; try done; [apply u32_range|unfold IN_BUF_SIZE, sizeof_hab_header, HAB_HEADER_SIZE_MAX in *; lia].
Qed.
End ends.

(** ** Two machines *)

Lemma three_host_end : tx_end (host_world []) 0 3 busy_pchan (sample_vchan 2 1) (host_link (ring []) (ring []) []) (host_chan (ring []) (ring []) []) three.
Proof. constructor; try reflexivity; done. Qed.

Lemma guest_to_host_witness :
  exists ln' header w', virtio_send 0 (sample_link [small_buf 7]) three [1; 2; 3] = Ok (0, 1, ln') /\
    (sq_sent <$> (vp_tx <$> ln_vpc ln')) = Some [three_bytes] /\
    tx_message 0 (out_desc three_bytes) [] (host_world []) = Ok (header, w') /\
    (vc_rx_list <$> w_vchans w' !! 3%nat) = Some [Build_hab_message 3 false 0 [[1; 2; 3]]].
Proof.
  assert (Hok : vpc_ok (sample_vpc [small_buf 7])).
  { apply sample_vpc_ok; [by vm_compute|apply (bool_decide_eq_true_1 _); by vm_compute]. }
  destruct (guest_to_host sample_calls
    (sample_vpc [small_buf 7]) (sample_link [small_buf 7]) 0 three [1; 2; 3] (small_buf 7) [] HAB_PAYLOAD_TYPE_MSG Hok eq_refl eq_refl)
    as (bs & ln' & vpc' & He & Hv & Htx & Hrx).
  { unfold three, header_ok. vm_compute. by split_and!. }
  { reflexivity. }
  { by left. }
  { vm_compute. reflexivity. }
  { intros Hx. vm_compute in Hx. discriminate Hx. }
  { vm_compute. reflexivity. }
  { vm_compute. reflexivity. }
  assert (Hsq : sq_sent (vp_tx vpc') = [bs]) by (rewrite Htx; reflexivity).
  pose proof three_sent as Hrun. rewrite He in Hrun. rewrite Hv in Hrun. cbn [fmap option_fmap option_map] in Hrun. rewrite Hsq in Hrun.
  injection Hrun as Hbs. subst bs.
  destruct (Hrx _ _ _ _ _ _ _ (out_desc three_bytes) [] three_host_end eq_refl) as (header & w' & Hw' & Hvs & _).
  exists ln', header, w'. split; [exact He|]. split; [rewrite Hv; cbn [fmap option_fmap option_map]; rewrite Hsq; reflexivity|].
  split; [exact Hw'|]. rewrite Hvs. reflexivity.
Defined.

Lemma one_goes_over :
  match vhost_send false (host_link (ring []) (ring [in_desc 5120]) []) three [1; 2; 3] with
  | Ok (_, vl1) =>
      match vl_hyp vl1 with
      | Some vh1 => match rx_turn 1 (0, 0) 0 vh1 with Ok (_, vh2) => vq_given (vh_rx vh2) = [three_bytes] | _ => False end
      | None => False
      end
  | _ => False
  end.
Proof. vm_compute. reflexivity. Qed.

Lemma host_to_guest_witness :
  exists vl1 vh1 seq' vh2 w', vhost_send false (host_link (ring []) (ring [in_desc 5120]) []) three [1; 2; 3] = Ok (0, vl1) /\ vl_hyp vl1 = Some vh1 /\
    rx_turn 1 (0, 0) 0 vh1 = Ok (seq', vh2) /\
    rx_one 0 (rx_world [(23, three_bytes ++ three_pad)]) = Ok (true, w') /\
    (vc_rx_list <$> w_vchans w' !! 3%nat) = Some [Build_hab_message 3 false 0 [[1; 2; 3]]].
Proof.
  destruct (host_to_guest sample_calls
    big_bufs sv_late 1 (0, 0) 0 (host_link (ring []) (ring [in_desc 5120]) []) (host_chan (ring []) (ring [in_desc 5120]) []) three [1; 2; 3]
    HAB_PAYLOAD_TYPE_MSG sample_guest) as (bs & vl1 & vh1 & seq' & vh2 & Hs & Hv & Ht & Hg & Hrx); try done.
  { by repeat constructor. }
  { apply Nat.lt_0_1. }
  { by left. }
  assert (Hbs : bs = three_bytes).
  { pose proof one_goes_over as Hrun. rewrite Hs, Hv, Ht in Hrun. destruct Hg as [[Hg _]|[Hg _]]; rewrite Hg in Hrun; [by injection Hrun|done]. }
  subst bs. destruct three_comes as [Hz Hget].
  destruct (Hrx _ 0%nat 3%nat _ _ _ _ (in_buf 4) three_pad end_queue three_end (in_buf_ok 4 ltac:(lia)) Hz Hget) as (w' & Hw' & Hvs & _).
  exists vl1, vh1, seq', vh2, w'. do 4 (split; [assumption|]). rewrite Hvs. reflexivity.
Defined.
