(* ===== verification/Claims.v ===== *)
(** The state of a received descriptor as a lock: imports and unimports of the same
    descriptor by any number of threads, interleaved at the points where the code
    takes [imp_lock].  One thread at a time works on the descriptor, and what it works
    on is alive. *)
From S2P Require Import Prelude Header World Logic Memory Invariant Pchan Exports Context Vchan Wait Open Loopback Sample Msg Mimex.

Section claims.
Context {HS : Type} `{Platform HS}.
Implicit Types (w : world HS).

(** What mapping a descriptor leaves alone. *)
Definition aside {A} (m : M HS A) : Prop :=
  forall w a w', m w = Ok (a, w') -> w_imps w' = w_imps w /\ w_ctxs w' = w_ctxs w.

Lemma aside_bind {A B} (m : M HS A) (k : A -> M HS B) : aside m -> (forall a, aside (k a)) -> aside (bind m k).
Proof.
  intros Hm Hk w b w'. unfold bind. destruct (m w) as [[a w1]| |] eqn:He; try done. intros Hb.
  destruct (Hm _ _ _ He) as [<- <-]. by eapply Hk.
Qed.
Lemma aside_ret {A} (a : A) : aside (ret a).
Proof. by intros w b w' [= <- <-]. Qed.
Lemma aside_kalloc : aside kalloc.
Proof. intros w a w'. unfold kalloc. destruct (w_alloc w) as [|[] l]; by intros [= <- <-]. Qed.
Lemma aside_lift {A} (r : res A) : aside (lift r).
Proof. intros w a w'. unfold lift. destruct r; try done. by intros [= <- <-]. Qed.

Lemma aside_put a : aside (pages_list_put a).
Proof.
  unfold pages_list_put, upd_pages, pages_list_remove. intros w b w'. unfold bind, gets. simpl.
  destruct (find_pages _ _) as [x|]; [|done]. destruct (_ <=? 0); [done|]. unfold bind, modify, when. simpl.
  destruct (_ =? 1); by intros [= <- <-].
Qed.

Lemma aside_map ex flags kernel : aside (habmem_imp_hyp_map ex flags kernel).
Proof.
  unfold habmem_imp_hyp_map, habmem_import_to_dma_buf, pages_list_create, pages_list_add.
  apply aside_bind; [|intros [[buf a]|]; [|apply aside_ret]].
  - apply aside_bind.
    + cbv zeta. destruct (negb _ || _); [apply aside_ret|]. apply aside_bind; [apply aside_kalloc|]. intros a.
      apply aside_bind; [destruct a; [apply aside_kalloc|apply aside_ret]|]. intros [b|]; [|apply aside_ret].
      apply aside_bind; [apply aside_lift|]. intros [pages|]; apply aside_ret.
    + intros [x|]; [|apply aside_ret]. apply aside_bind; [by intros w b w' [= <- <-]|]. intros _.
      destruct (dma_buf_export _); [apply aside_ret|]. apply aside_bind; [apply aside_put|]. intros _. apply aside_ret.
  - destruct kernel; [apply aside_ret|]. cbv zeta. destruct (_ <? 0); [|apply aside_ret].
    apply aside_bind; [apply aside_put|]. intros _. apply aside_ret.
Qed.

(** What a thread does with the descriptor it has claimed. *)
Inductive phase := Importing | Unimporting.

Definition phase_state (ph : phase) : exp_desc_state :=
  match ph with Importing => EXP_DESC_IMPORTING | Unimporting => EXP_DESC_UNIMPORTING end.

(** The threads at work on the descriptor [id] of the channel [p] in the context [c],
    each with the node it found, and the steps of hab_mem_import and hab_mem_unimport
    in the protocol where a failed import leaves the descriptor in the tree. *)
Context (c p : nat) (id : Z).
Definition config : Type := world HS * list (nat * nat * phase).

Inductive claim_step : config -> config -> Prop :=
| step_import t e w w' o :
    import_claim c p id w = Ok (inr e, w') -> claim_step (w, o) (w', (t, e, Importing) :: o)
| step_import_refused r w w' o :
    import_claim c p id w = Ok (inl r, w') -> claim_step (w, o) (w', o)
| step_mapped t e kernel index size flags m w w' l1 l2 :
    import_map e kernel index size flags w = Ok (m, w') ->
    claim_step (w, l1 ++ (t, e, Importing) :: l2) (w', l1 ++ l2)
| step_unimport t e w w' o :
    unimport_claim c p id w = Ok (Some e, w') -> claim_step (w, o) (w', (t, e, Unimporting) :: o)
| step_unimport_refused w w' o :
    unimport_claim c p id w = Ok (None, w') -> claim_step (w, o) (w', o)
| step_dropped t e w w' l1 l2 :
    import_drop c e w = Ok (tt, w') ->
    claim_step (w, l1 ++ (t, e, Unimporting) :: l2) (w', l1 ++ l2).

(** The node in the tree, if there is one. *)
Definition node w : option nat := cx ← w_ctxs w !! c; cx_imp_whse cx !! (id, p).
Definition node_state w (e : nat) : option exp_desc_state := es_import_state <$> w_imps w !! e.

(** Its own descriptor under its own key. *)
Definition node_ok w : Prop :=
  forall e, node w = Some e -> exists ex, w_imps w !! e = Some ex /\ imp_key ex = (id, p).

(** Nobody, in a state that can be claimed; or one thread, in its state. *)
Definition claims_ok (s : config) : Prop :=
  node_ok (s.1) /\
  match s.2 with
  | [] => forall e, node (s.1) = Some e ->
      node_state (s.1) e = Some EXP_DESC_INIT \/ node_state (s.1) e = Some EXP_DESC_IMPORTED
  | [(t, e, ph)] => node (s.1) = Some e /\ node_state (s.1) e = Some (phase_state ph)
  | _ => False
  end.

(** *** The effect of each step *)

Lemma import_claim_inv r w w' :
  import_claim c p id w = Ok (r, w') ->
  match r with
  | inl _ => w' = w
  | inr e => node w = Some e /\ exists ex, w_imps w !! e = Some ex /\ es_import_state ex = EXP_DESC_INIT /\
      w' = set_w_imps (<[e := set_es_import_state EXP_DESC_IMPORTING ex]> (w_imps w)) w
  end.
Proof.
  unfold import_claim, bind, get_c, get_i, upd_i, node. destruct (w_ctxs w !! c) as [cx|]; [|done]. simpl.
  destruct (cx_imp_whse cx !! (id, p)) as [e|]; [|by intros [= <- <-]].
  destruct (w_imps w !! e) as [ex|] eqn:He; [|done]. destruct (bool_decide_reflect (es_import_state ex = EXP_DESC_INIT)).
  - simpl. rewrite He. intros [= <- <-]. split; [done|]. by exists ex.
  - by intros [= <- <-].
Qed.

Lemma unimport_claim_inv r w w' :
  unimport_claim c p id w = Ok (r, w') ->
  match r with
  | None => w' = w
  | Some e => node w = Some e /\ exists ex, w_imps w !! e = Some ex /\ es_import_state ex = EXP_DESC_IMPORTED /\
      w' = set_w_imps (<[e := set_es_import_state EXP_DESC_UNIMPORTING ex]> (w_imps w)) w
  end.
Proof.
  unfold unimport_claim, bind, get_c, get_i, upd_i, node. destruct (w_ctxs w !! c) as [cx|]; [|done]. simpl.
  destruct (cx_imp_whse cx !! (id, p)) as [e|]; [|by intros [= <- <-]].
  destruct (w_imps w !! e) as [ex|] eqn:He; [|done]. destruct (bool_decide_reflect (es_import_state ex = EXP_DESC_IMPORTED)).
  - simpl. rewrite He. intros [= <- <-]. split; [done|]. by exists ex.
  - by intros [= <- <-].
Qed.

Lemma import_map_inv e kernel index size flags m w w' :
  import_map e kernel index size flags w = Ok (m, w') ->
  exists ex ex', w_imps w !! e = Some ex /\ w_imps w' = <[e := ex']> (w_imps w) /\ w_ctxs w' = w_ctxs w /\
    imp_key ex' = imp_key ex /\ es_import_state ex' = if m.1 =? 0 then EXP_DESC_IMPORTED else EXP_DESC_INIT.
Proof.
  unfold import_map, bind, get_i, upd_i. destruct (w_imps w !! e) as [ex|] eqn:He; [|done].
  destruct (negb _).
  { simpl. rewrite He. intros [= <- <-]. by eexists ex, _. }
  destruct (habmem_imp_hyp_map (es_exp ex) flags kernel w) as [[m1 w1]| |] eqn:Hm; [|done|done].
  destruct (aside_map _ _ _ _ _ _ Hm) as [E1 E2]. destruct (m1.1 =? 0) eqn:Hz; simpl; rewrite E1, He; intros [= <- <-];
    exists ex; eexists; rewrite Hz; by rewrite <- E1, <- E2.
Qed.

Lemma import_drop_inv e w w' :
  import_drop c e w = Ok (tt, w') ->
  exists ex cx, w_imps w !! e = Some ex /\ w_ctxs w !! c = Some cx /\ w_imps w' = delete e (w_imps w) /\
    w_ctxs w' = <[c := set_cx_import_total (u32 (cx_import_total cx - 1))
      (set_cx_imp_whse (delete (imp_key ex) (cx_imp_whse cx)) cx)]> (w_ctxs w).
Proof.
  unfold import_drop, bind, get_i, upd_c, modify. destruct (w_imps w !! e) as [ex|]; [|done].
  destruct (w_ctxs w !! c) as [cx|]; [|done]. intros [= <-]. by exists ex, cx.
Qed.

(** Writing the node's state keeps the tree. *)
Lemma node_ok_insert w w' e ex ex' :
  node_ok w -> w_ctxs w' = w_ctxs w -> w_imps w !! e = Some ex -> imp_key ex' = imp_key ex ->
  w_imps w' = <[e := ex']> (w_imps w) -> node_ok w' /\ node w' = node w /\ node_state w' e = Some (es_import_state ex').
Proof.
  intros Hok Ec He Hk Ei. assert (En : node w' = node w) by (unfold node; by rewrite Ec).
  split; [|split; [done|]].
  - intros a Ha. rewrite En in Ha. destruct (Hok a Ha) as (ax & Hax & ?). rewrite Ei, lookup_insert. case_decide; [|by eauto].
    subst a. eexists. split; [done|]. congruence.
  - unfold node_state. by rewrite Ei, lookup_insert_eq.
Qed.

Lemma node_drop w w' e ex cx :
  node w = Some e -> w_imps w !! e = Some ex -> imp_key ex = (id, p) -> w_ctxs w !! c = Some cx ->
  w_ctxs w' = <[c := set_cx_import_total (u32 (cx_import_total cx - 1))
      (set_cx_imp_whse (delete (imp_key ex) (cx_imp_whse cx)) cx)]> (w_ctxs w) -> node w' = None.
Proof. intros Hn He Hk Hc E. unfold node. rewrite E, lookup_insert_eq, Hk. simpl. apply lookup_delete_eq. Qed.

Lemma one_of {A} (l1 l2 : list A) x y : l1 ++ x :: l2 = [y] -> l1 = [] /\ l2 = [] /\ x = y.
Proof. destruct l1 as [|a l1]; [by intros [= -> ->]|]. intros [= _ E]. by destruct l1. Qed.

Lemma claim_step_ok s s' : claim_step s s' -> claims_ok s -> claims_ok s'.
Proof.
  intros Hs [Hok Ho]. destruct Hs as [t e w w' o Hc|r w w' o Hc|t e k ix sz fl m w w' l1 l2 Hm|
    t e w w' o Hc|w w' o Hc|t e w w' l1 l2 Hd]; simpl in *.
  - apply import_claim_inv in Hc as (Hn & ex & He & Hst & ->).
    set (w' := set_w_imps _ w). destruct (node_ok_insert w w' e ex (set_es_import_state EXP_DESC_IMPORTING ex)) as (Hok' & En & Es); [done..|].
    split; [exact Hok'|]. destruct o as [|[[t' e'] ph] o]; [split; [simpl; congruence|exact Es]|].
    destruct o; [|done]. destruct Ho as [Hn' Hs']. simplify_eq. unfold node_state in Hs'. rewrite He in Hs'.
    by destruct ph; simpl in Hs'; rewrite Hst in Hs'.
  - by apply import_claim_inv in Hc as ->.
  - apply import_map_inv in Hm as (ex & ex' & He & Ei & Ec & Hk & Hst).
    destruct (node_ok_insert w w' e ex ex' Hok Ec He Hk Ei) as (Hok' & En & Es). split; [exact Hok'|].
    destruct (l1 ++ (t, e, Importing) :: l2) as [|y [|? ?]] eqn:El; [by destruct l1|..].
    + apply one_of in El as (-> & -> & <-). destruct Ho as [Hn _]. simpl. intros a Ha. rewrite En in Ha.
      simplify_eq. rewrite Es, Hst. destruct (m.1 =? 0); auto.
    + by destruct y as [[? ?] ?].
  - apply unimport_claim_inv in Hc as (Hn & ex & He & Hst & ->).
    set (w' := set_w_imps _ w). destruct (node_ok_insert w w' e ex (set_es_import_state EXP_DESC_UNIMPORTING ex)) as (Hok' & En & Es); [done..|].
    split; [exact Hok'|]. destruct o as [|[[t' e'] ph] o]; [split; [simpl; congruence|exact Es]|].
    destruct o; [|done]. destruct Ho as [Hn' Hs']. simplify_eq. unfold node_state in Hs'. rewrite He in Hs'.
    by destruct ph; simpl in Hs'; rewrite Hst in Hs'.
  - by apply unimport_claim_inv in Hc as ->.
  - apply import_drop_inv in Hd as (ex & cx & He & Hcx & Ei & Ec).
    destruct (l1 ++ (t, e, Unimporting) :: l2) as [|y [|? ?]] eqn:El; [by destruct l1|..].
    + apply one_of in El as (-> & -> & <-). destruct Ho as [Hn _]. destruct (Hok e Hn) as (ex0 & He0 & Hk).
      assert (ex0 = ex) as -> by congruence. pose proof (node_drop w w' e ex cx Hn He Hk Hcx Ec) as Hnone.
      split; simpl; intros a Ha; congruence.
    + by destruct y as [[? ?] ?].
Qed.

Lemma claim_steps_ok s s' : rtc claim_step s s' -> claims_ok s -> claims_ok s'.
Proof. induction 1; [done|]. intros Hok. apply IHrtc. by eapply claim_step_ok. Qed.

(** C29: however imports and unimports of one descriptor interleave, at most one
    thread is at work on it, the node it works on is in the tree and alive, and is in
    the state that thread put it in. *)
Theorem claim_exclusive (w0 w : world HS) (o : list (nat * nat * phase)) :
  claims_ok (w0, []) -> rtc claim_step (w0, []) (w, o) ->
  (length o <= 1)%nat /\ forall t e ph, (t, e, ph) ∈ o ->
    node w = Some e /\ exists ex, w_imps w !! e = Some ex /\ es_import_state ex = phase_state ph.
Proof.
  intros H0 Hr. pose proof (claim_steps_ok _ _ Hr H0) as Hok.
  destruct Hok as [_ Ho]. destruct o as [|[[t e] ph] [|y o]]; simpl in Ho; [|destruct Ho as [Hn Hs]|done].
  - split; [simpl; lia|]. by intros ? ? ? ?%elem_of_nil.
  - split; [simpl; lia|]. intros t' e' ph' [= -> -> ->]%list_elem_of_singleton. split; [done|].
    unfold node_state in Hs. destruct (w_imps w !! e) as [ex|]; [|done]. injection Hs as Hs. by exists ex.
Qed.
End claims.

(** Two threads import the received descriptor of the example driver: the second is
    refused while the first is at work. *)
Definition sample_claimed : world loopback_dev :=
  match import_claim 1 0 9 sample_received with Ok (_, w) => w | _ => sample_received end.

Lemma sample_claim_steps : rtc (claim_step 1 0 9) (sample_received, []) (sample_claimed, [(1%nat, 5%nat, Importing)]).
Proof.
  eapply rtc_l; [apply (step_import 1 0 9 1 5 _ sample_claimed); vm_compute; reflexivity|].
  eapply rtc_l; [apply (step_import_refused 1 0 9 (- EINVAL) _ sample_claimed); vm_compute; reflexivity|]. apply rtc_refl.
Qed.

Lemma claim_exclusive_witness :
  exists ex, w_imps sample_claimed !! 5%nat = Some ex /\ es_import_state ex = EXP_DESC_IMPORTING.
Proof.
  destruct (claim_exclusive 1 0 9 sample_received sample_claimed [(1%nat, 5%nat, Importing)]) as [_ Hx].
  - split.
    + intros e He. vm_compute in He. injection He as <-. eexists. split; [reflexivity|]. reflexivity.
    + intros e He. vm_compute in He. injection He as <-. left. reflexivity.
  - exact sample_claim_steps.
  - destruct (Hx 1%nat 5%nat Importing) as [_ Hn]; [by left|exact Hn].
Defined.
