(* ===== verification/Hab.v ===== *)
(** The client interface (hab.c): opening a virtual channel by the handshake of
    either side, sending and receiving on it, closing it, and forbidding opens. *)
From Stdlib Require Import ZifyBool.
From S2P Require Import Prelude Header World Logic Memory Invariant Pchan Exports Context Vchan Wait Open Loopback Sample Msg.

(* src/include/linux/habmm.h:91-91 HABMM_SOCKET_SEND_FLAGS_NON_BLOCKING *)
Definition HABMM_SOCKET_SEND_FLAGS_NON_BLOCKING : Z := 0x1.
(* src/include/linux/habmm.h:98-98 HABMM_SOCKET_SEND_FLAGS_XING_VM_STAT *)
Definition HABMM_SOCKET_SEND_FLAGS_XING_VM_STAT : Z := 0x2.
(* src/include/linux/habmm.h:106-106 HABMM_SOCKET_XVM_SCHE_TEST *)
Definition HABMM_SOCKET_XVM_SCHE_TEST : Z := 0x4.
(* src/include/linux/habmm.h:114-114 HABMM_SOCKET_XVM_SCHE_TEST_ACK *)
Definition HABMM_SOCKET_XVM_SCHE_TEST_ACK : Z := 0x8.
(* src/include/linux/habmm.h:121-121 HABMM_SOCKET_XVM_SCHE_RESULT_REQ *)
Definition HABMM_SOCKET_XVM_SCHE_RESULT_REQ : Z := 0x10.
(* src/include/linux/habmm.h:129-129 HABMM_SOCKET_XVM_SCHE_RESULT_RSP *)
Definition HABMM_SOCKET_XVM_SCHE_RESULT_RSP : Z := 0x20.

(* src/hab.h:42-42 LOOPBACK_DOM *)
Definition LOOPBACK_DOM : Z := 0xFF.

(* src/hab.c:320-331 find_hab_device *)
Fixpoint find_dev (major : Z) (l : list hab_device) : option nat :=
  match l with
  | [] => None
  | d :: l => if dv_id d =? major then Some 0%nat else S <$> find_dev major l
  end.

(** The two halves of the version word agree on the major number. *)
(* src/hab.c:393-394 frontend_open *)
Definition same_major (a b : Z) : bool := Z.land a 0xFFFF0000 =? Z.land b 0xFFFF0000.

(** The type and the checks that the flags ask for, or the error. *)
(* src/hab.c:659-692 hab_vchan_send *)
Definition send_type (flags sizebytes : Z) : option hab_payload_type :=
  if flag flags HABMM_SOCKET_SEND_FLAGS_XING_VM_STAT then
    if sizebytes <? sizeof_xing_vm_stat then None else Some HAB_PAYLOAD_TYPE_PROFILE
  else if flag flags HABMM_SOCKET_XVM_SCHE_TEST then Some HAB_PAYLOAD_TYPE_SCHE_MSG
  else if flag flags HABMM_SOCKET_XVM_SCHE_TEST_ACK then Some HAB_PAYLOAD_TYPE_SCHE_MSG_ACK
  else if flag flags HABMM_SOCKET_XVM_SCHE_RESULT_REQ then
    if sizebytes <? 8 then None else Some HAB_PAYLOAD_TYPE_SCHE_RESULT_REQ
  else if flag flags HABMM_SOCKET_XVM_SCHE_RESULT_RSP then
    if sizebytes <? 3 * 8 then None else Some HAB_PAYLOAD_TYPE_SCHE_RESULT_RSP
  else Some HAB_PAYLOAD_TYPE_MSG.

Section ops.
Context {HS : Type} `{Platform HS} `{KernelIdr}.
#[local] Abbreviation M := (World.M HS).
#[local] Abbreviation sched := (list (wake HS)).

(* src/hab.c:320-331 find_hab_device *)
Definition find_hab_device (mm_id : Z) : M (option nat) :=
  gets (fun w => find_dev (HAB_MMID_GET_MAJOR mm_id) (w_devs w)).

(** The common exit of a failed open. *)
(* src/hab.c:454-460 frontend_open *)
Definition open_err (ov op : option nat) (r : Z) (s : sched) : M ((Z + nat) * sched) :=
  do! (match ov with Some v => hab_vchan_put v | None => ret tt end) in
  do! (match op with Some p => hab_pchan_put p | None => ret tt end) in
  ret (inl r, s).

(** A listen that failed: the other side is told, the pending open withdrawn. *)
(* src/hab.c:403-424 frontend_open *)
Definition frontend_cancel (c v p : nat) (request pending : hab_open_request) (sub oid r : Z)
    (s : sched) : M ((Z + nat) * sched) :=
  let! vc := get_v v in
  let request := set_ver_fe HAB_API_VER
    (hab_open_request_init request (payload_code HAB_PAYLOAD_TYPE_INIT_CANCEL) (Some p) (vc_id vc) sub oid) in
  let! _ := hab_open_request_send request in
  let! _ := hab_open_pending_exit c pending in
  open_err (Some v) (Some p)
    (if negb (r =? - EINTR) && negb (r =? - ENXIO) then - EINVAL else r) s.

(** The answer [q] pairs the two ends. *)
(* src/hab.c:426-453 frontend_open *)
Definition frontend_paired (c v p : nat) (request pending q : hab_open_request) (sub oid : Z)
    (s : sched) : M ((Z + nat) * sched) :=
  let! _ := hab_open_pending_exit c pending in
  do! upd_p p (set_pc_mem_proto (if ver_proto (rq_xdata q) =? 0 then 0 else 1)) in
  do! upd_v v (set_vc_otherend_id (vchan_id (rq_xdata q))) in
  do! hab_open_request_free (Some q) in
  let request := set_ver_fe HAB_API_VER
    (hab_open_request_init request (payload_code HAB_PAYLOAD_TYPE_INIT_DONE) (Some p) 0 sub oid) in
  let! r := hab_open_request_send request in
  if negb (r =? 0) then open_err (Some v) (Some p) r s
  else do! hab_pchan_put p in ret (inr v, s).

(** [stack] is the request on the stack before it is filled in: the word of
    [ver_be] stays in it and is sent. *)
(* src/hab.c:341-461 frontend_open *)
Definition frontend_open (c : nat) (mm_id dom_id : Z) (stack : hab_open_request) (s : sched) :
    M ((Z + nat) * sched) :=
  let sub := HAB_MMID_GET_MINOR mm_id in
  let! o := find_hab_device mm_id in
  match o with
  | None => open_err None None (- EINVAL) s
  | Some d =>
      let! op := hab_pchan_find_domid d dom_id in
      match op with
      | None => open_err None None (- EINVAL) s
      | Some p =>
          do! modify (fun w => set_w_open_id (i32 (w_open_id w + 1)) w) in
          let! oid := gets w_open_id in
          let! ov := hab_vchan_alloc c p oid in
          match ov with
          | None => open_err None (Some p) (- ENOMEM) s
          | Some v =>
              let! vc := get_v v in
              let request := set_ver_fe HAB_API_VER
                (hab_open_request_init stack (payload_code HAB_PAYLOAD_TYPE_INIT) (Some p) (vc_id vc) sub oid) in
              let! r := hab_open_request_send request in
              if negb (r =? 0) then open_err (Some v) (Some p) r s
              else
                let! _ := hab_open_pending_enter c request in
                let listen := hab_open_request_init request (payload_code HAB_PAYLOAD_TYPE_INIT_ACK)
                  (Some p) 0 sub oid in
                let! l := hab_open_listen c d listen 0 s in
                let '(r, recv, s) := l in
                match recv with
                | Some q =>
                    if r =? 0 then
                      if same_major (ver_fe (rq_xdata q)) (ver_be (rq_xdata q))
                      then frontend_paired c v p listen request q sub oid s
                      else
                        let! _ := hab_open_pending_exit c request in
                        open_err (Some v) (Some p) (- EPROTO) s
                    else frontend_cancel c v p listen request sub oid r s
                | None => frontend_cancel c v p listen request sub oid r s
                end
          end
      end
  end.

(** After the loop: the received request decides. *)
(* src/hab.c:609-630 backend_listen *)
Definition backend_finish (v p : nat) (r : Z) (recv : option hab_open_request) (s : sched) :
    M ((Z + nat) * sched) :=
  match recv with
  | Some q =>
      if r =? 0 then
        do! hab_open_request_free (Some q) in
        do! hab_pchan_put p in
        ret (inr v, s)
      else open_err (Some v) (Some p) (- EINVAL) s
  | None => open_err (Some v) (Some p) (- EINVAL) s
  end.

(** The opens of one turn: the request [q] is answered and the end of the
    handshake awaited.  [None]: the turn timed out and the loop goes on. *)
(* src/hab.c:521-606 backend_listen *)
Definition backend_serve (c d : nat) (sub : Z) (request q : hab_open_request) (s : sched) :
    M (option (Z + nat) * hab_open_request * sched) :=
  let! p := deref (rq_pchan q) in
  do! upd_p p (set_pc_mem_proto (if ver_proto (rq_xdata q) =? 0 then 0 else 1)) in
  let oid := open_id (rq_xdata q) in
  let ver := ver_fe (rq_xdata q) in
  do! hab_pchan_get p in
  do! hab_open_request_free (Some q) in
  let! ov := hab_vchan_alloc c p oid in
  match ov with
  | None => let! r := open_err None (Some p) (- ENOMEM) s in ret (Some (r.1), request, r.2)
  | Some v =>
      do! upd_v v (set_vc_otherend_id (vchan_id (rq_xdata q))) in
      let! vc := get_v v in
      let request := set_ver_be HAB_API_VER (set_ver_fe ver
        (hab_open_request_init request (payload_code HAB_PAYLOAD_TYPE_INIT_ACK) (Some p) (vc_id vc) sub oid)) in
      let! r := hab_open_request_send request in
      if negb (r =? 0) then
        let! r := open_err (Some v) (Some p) r s in ret (Some (r.1), request, r.2)
      else
        let pending := request in
        let! _ := hab_open_pending_enter c pending in
        let request := hab_open_request_init request (payload_code HAB_PAYLOAD_TYPE_INIT_DONE)
          (Some p) 0 sub oid in
        let! l := hab_open_listen c d request HAB_HS_TIMEOUT s in
        let '(r, recv, s) := l in
        let! _ := hab_open_pending_exit c pending in
        let! vc := get_v v in
        let cancelled := match recv with
          | Some q => negb (r =? 0) && (rq_type q =? payload_code HAB_PAYLOAD_TYPE_INIT_CANCEL)
          | None => false end in
        if cancelled then
          let request := hab_open_request_init request (payload_code HAB_PAYLOAD_TYPE_INIT_CANCEL)
            (Some p) (vc_id vc) sub oid in
          let! _ := hab_open_request_send request in
          let! _ := hab_open_pending_exit c pending in
          let! r := backend_finish v p (- ENODEV) recv s in
          ret (Some (r.1), request, r.2)
        else if r =? - ENXIO then
          let! r := open_err (Some v) (Some p) r s in ret (Some (r.1), request, r.2)
        else if negb (r =? - EAGAIN) then
          let! _ := hab_open_pending_exit c pending in
          let! r := backend_finish v p r recv s in
          ret (Some (r.1), request, r.2)
        else
          let request := set_ver_be HAB_API_VER (set_ver_fe ver
            (hab_open_request_init request (payload_code HAB_PAYLOAD_TYPE_INIT_CANCEL)
               (Some p) (vc_id vc) sub oid)) in
          let! _ := hab_open_request_send request in
          let! _ := hab_open_pending_exit c pending in
          do! hab_vchan_put v in
          do! hab_pchan_put p in
          ret (None, request, s)
  end.

(** Each turn that does not end the loop has used up a timeout of the schedule. *)
(* src/hab.c:485-607 backend_listen *)
Fixpoint backend_loop (n : nat) (c d : nat) (sub timeout : Z) (request : hab_open_request) (s : sched) :
    M ((Z + nat) * sched) :=
  match n with
  | O => fail OutOfFuel
  | S n =>
      let request := hab_open_request_init request (payload_code HAB_PAYLOAD_TYPE_INIT) None 0 sub 0 in
      let! l := hab_open_listen c d request timeout s in
      let '(r, recv, s) := l in
      match recv with
      | None =>
          open_err None None
            (if r =? 0 then - EINVAL else if r =? - EAGAIN then - ETIMEDOUT else r) s
      | Some q =>
          if negb (r =? 0) then
            open_err None None (if r =? - EAGAIN then - ETIMEDOUT else r) s
          else if negb (same_major (ver_fe (rq_xdata q)) HAB_API_VER) then
            let request := set_ver_be HAB_API_VER
              (hab_open_request_init request (payload_code HAB_PAYLOAD_TYPE_INIT_ACK) None 0 sub
                 (open_id (rq_xdata q))) in
            let! _ := hab_open_request_send request in
            open_err None None (- EPROTO) s
          else
            let! t := backend_serve c d sub request q s in
            let '(o, request, s) := t in
            match o with
            | Some r => ret (r, s)
            | None => backend_loop n c d sub timeout request s
            end
      end
  end.

Definition zero_request : hab_open_request := Build_hab_open_request 0 None open_data_zero.

(* src/hab.c:463-630 backend_listen *)
Definition backend_listen (c : nat) (mm_id timeout : Z) (s : sched) : M ((Z + nat) * sched) :=
  let! o := find_hab_device mm_id in
  match o with
  | None => open_err None None (- EINVAL) s
  | Some d => backend_loop (S (length s)) c d (HAB_MMID_GET_MINOR mm_id) timeout zero_request s
  end.

(* src/hab.c:773-811 hab_stop *)
Definition hab_stop (c : nat) (mmid : Z) : M Z :=
  let! o := find_hab_device mmid in
  match o with
  | None => ret (- EINVAL)
  | Some d =>
      let! cx := get_c c in
      if existsb (Z.eqb mmid) (cx_forbidden cx) then ret 0
      else
        let! a := kalloc in
        match a with
        | None => ret (- ENOMEM)
        | Some _ =>
            do! upd_c c (fun cx => set_cx_forbidden (cx_forbidden cx ++ [mmid]) cx) in
            do! log (EvWakeOpenq d) in
            ret 0
        end
  end.

(** A new channel is given to its context.  [IS_ERR] takes the last 4095 values
    for errors; any other value is a pointer. *)
(* src/hab.c:888-903 hab_vchan_open *)
Definition open_publish (c : nat) (r : (Z + nat) * sched) : M (Z * Z * sched) :=
  match r.1 with
  | inl e =>
      if (- 4095 <=? e) && (e <? 0) then ret (e, 0, r.2) else fail UseAfterFree
  | inr v =>
      do! upd_c c (fun cx =>
        set_cx_vcnt (cx_vcnt cx + 1) (set_cx_vchannels (cx_vchannels cx ++ [v]) cx)) in
      let! vc := get_v v in
      ret (0, vc_id vc, r.2)
  end.

(** The reference on the channel found to tell the two sides apart is kept. *)
(* src/hab.c:834-904 hab_vchan_open *)
Definition hab_vchan_open (c : nat) (mmid timeout : Z) (stack : hab_open_request) (s : sched) :
    M (Z * Z * sched) :=
  let! lb := gets w_loopback in
  if (lb : bool) then
    let! cx := get_c c in
    let! r := (if negb (cx_lb_be cx =? 0) then backend_listen c mmid timeout s
               else frontend_open c mmid LOOPBACK_DOM stack s) in
    open_publish c r
  else
    let! o := find_hab_device mmid in
    let! forb := hab_is_forbidden c o (HAB_MMID_GET_MINOR mmid) in
    if (forb : bool) then ret (- ENXIO, 0, s)
    else
      match o with
      | None => ret (- ENODEV, 0, s)
      | Some d =>
          let! op := hab_pchan_find_domid d HABCFG_VMID_DONT_CARE in
          match op with
          | None => ret (- ENODEV, 0, s)
          | Some p =>
              let! pc := get_p p in
              let! r := (if pc_is_be pc then backend_listen c mmid timeout s
                         else frontend_open c mmid HABCFG_VMID_DONT_CARE stack s) in
              open_publish c r
          end
      end.

(** The sender retries while the transport is full, letting others run. *)
(* src/hab.c:696-704 hab_vchan_send *)
Fixpoint send_loop (v : nat) (h : hab_header) (data : bytes) (nonblocking : bool) (s : sched) :
    M (Z * sched) :=
  let! vc := get_v v in
  let! r := physical_channel_send (vc_pchan vc) h data in
  let! vc := get_v v in
  if vc_otherend_closed vc || nonblocking || negb (r =? - EAGAIN) then ret (r, s)
  else
    match s with
    | [] => fun _ => Blocked
    | WakeRun m :: s => do! m in send_loop v h data nonblocking s
    | _ :: s => send_loop v h data nonblocking s
    end.

(** [data] are the [sizebytes] bytes of the caller.  The checks of the flags
    return without giving the reference back. *)
(* src/hab.c:632-718 hab_vchan_send *)
Definition hab_vchan_send (c : nat) (vcid : Z) (data : bytes) (flags : Z) (s : sched) : M (Z * sched) :=
  let sizebytes := zlen data in
  if HAB_HEADER_SIZE_MAX <? sizebytes then ret (- EINVAL, s)
  else
    let! o := hab_get_vchan_fromvcid vcid c false in
    match o with
    | None => ret (- ENODEV, s)
    | Some v =>
        let! vc := get_v v in
        if vc_otherend_closed vc then do! hab_vchan_put v in ret (- ENODEV, s)
        else
          match send_type flags sizebytes with
          | None => ret (- EINVAL, s)
          | Some t =>
              let h := mk_header sizebytes t (vc_otherend_id vc) (vc_session_id vc) in
              let! r := send_loop v h data (flag flags HABMM_SOCKET_SEND_FLAGS_NON_BLOCKING) s in
              do! when (r.1 =? 0) (upd_v v (fun vc => set_vc_tx_cnt (u64 (vc_tx_cnt vc + 1)) vc)) in
              do! hab_vchan_put v in
              ret r
          end
    end.

(** [physical_channel_rx_dispatch] of the transport that is linked in. *)
Context (physical_channel_rx_dispatch : nat -> M unit).

(* src/hab.c:720-766 hab_vchan_recv *)
Definition hab_vchan_recv (c : nat) (vcid rsize timeout flags : Z) (s : sched) :
    M (Z * option hab_message * Z * sched) :=
  let! o := hab_get_vchan_fromvcid vcid c true in
  match o with
  | None => ret (- ENODEV, None, rsize, s)
  | Some v =>
      do! upd_v v (set_vc_rx_inflight true) in
      let! vc := get_v v in
      do! when (flag flags HABMM_SOCKET_RECV_FLAGS_NON_BLOCKING)
        (physical_channel_rx_dispatch (vc_pchan vc)) in
      let! r := hab_msg_dequeue v rsize timeout flags s in
      let '(code, m, n, s) := r in
      do! when ((code =? 0) && match m with Some _ => true | None => false end)
        (upd_v v (fun vc => set_vc_rx_cnt (u64 (vc_rx_cnt vc + 1)) vc)) in
      do! upd_v v (set_vc_rx_inflight false) in
      do! hab_vchan_put v in
      ret (code, m, n, s)
  end.

(** The channel of the context with this id. *)
Fixpoint own_vchan (vcid : Z) (l : list nat) : M (option nat) :=
  match l with
  | [] => ret None
  | v :: l =>
      let! vc := get_v v in
      if vc_id vc =? vcid then ret (Some v) else own_vchan vcid l
  end.

(* src/hab.c:932-974 hab_vchan_close *)
Definition hab_vchan_close (c : nat) (vcid : Z) : M Z :=
  let! cx := get_c c in
  let! o := own_vchan vcid (cx_vchannels cx) in
  match o with
  | Some v =>
      do! upd_v v (set_vc_closed true) in
      do! upd_c c (fun cx =>
        set_cx_vcnt (cx_vcnt cx - 1) (set_cx_vchannels (list_del v (cx_vchannels cx)) cx)) in
      do! hab_vchan_stop_notify v in
      do! hab_vchan_put v in
      ret 0
  | None =>
      let! r := hab_stop c vcid in
      ret (if r =? - EINVAL then - ENODEV else r)
  end.
End ops.

(** ** The handshake keeps the driver well-formed *)

Section lemmas.
Context {HS : Type} `{Platform HS} `{KernelIdr}.
Implicit Types (w : world HS) (h : held).
#[local] Abbreviation sched := (list (wake HS)).

(** A channel that is opened goes into its context's list. *)
Lemma wf_publish h w v c cx :
  wf (held_o v c h) w -> h_x h = None -> w_ctxs w !! c = Some cx ->
  wf h (set_w_ctxs (<[c := set_cx_vcnt (cx_vcnt cx + 1)
    (set_cx_vchannels (cx_vchannels cx ++ [v]) cx)]> (w_ctxs w)) w).
Proof.
  intros [Hv Hp Hc Hd Hdrv Hfr [Hnd Ho] Hli] Hx Hcx. simpl in Hnd, Ho.
  apply list.NoDup_cons in Hnd as [Hno Hnd].
  destruct (Ho v c) as [(vc & Hvc & Hctx) Hn]; [by left|].
  set (cx' := set_cx_vcnt _ _). set (w' := set_w_ctxs _ w).
  assert (Hback : forall a ax, w_ctxs w' !! a = Some ax -> exists ay, w_ctxs w !! a = Some ay /\
    cx_exp_whse ax = cx_exp_whse ay /\ cx_imp_whse ax = cx_imp_whse ay /\
    (cx_vchannels ax = cx_vchannels ay \/ cx_vchannels ax = cx_vchannels ay ++ [v])).
  { intros a ax. simpl. rewrite lookup_insert. case_decide; [|by eauto 10].
    intros [= <-]. subst a. exists cx. split_and!; auto. }
  assert (Hsome : forall a, is_Some (w_ctxs w !! a) -> is_Some (w_ctxs w' !! a)).
  { intros a ?. simpl. rewrite lookup_insert. by case_decide. }
  constructor.
  - intros u uc Hu. destruct (Hv u uc Hu) as (pc & a & ax & ? & ? & ? & ? & Ha & Hr & ?).
    simpl in Hr. change (list_fmap _ _ fst (h_o h)) with ((h_o h).*1) in Hr.
    exists pc, a, (if decide (c = a) then cx' else ax). simpl. rewrite lookup_insert.
    split_and!; try done; [by destruct (decide (c = a))|].
    destruct (decide (c = a)) as [<-|Hca].
    + assert (ax = cx) as -> by congruence. simpl. destruct (decide (v = u)) as [<-|Hvu].
      * rewrite (decide_True (P := v ∈ cx_vchannels cx ++ [v]))
          by (apply elem_of_app; right; by left).
        rewrite (decide_False (P := v ∈ cx_vchannels cx)) in Hr by (by eapply Hn). lia.
      * assert ((if decide (u ∈ cx_vchannels cx ++ [v]) then 1 else 0) <=
          (if decide (u ∈ cx_vchannels cx) then 1 else 0)); [|lia].
        destruct (decide (u ∈ cx_vchannels cx ++ [v])) as [Hin|], (decide (u ∈ cx_vchannels cx)); try lia.
        apply elem_of_app in Hin as [?|?%list_elem_of_singleton]; congruence.
    + destruct (decide (v = u)) as [<-|]; [|lia].
      pose proof (eq_trans (eq_sym Hu) Hvc) as Heq. congruence.
  - exact Hp.
  - intros a ax. simpl. rewrite lookup_insert. case_decide as Ha; [|apply Hc].
    subst a. intros [= <-]. destruct (Hc c cx Hcx) as (? & Hndv & Hcnt & Hl & ? & ? & ? & ?).
    split_and!; try done; simpl.
    + apply list.NoDup_app. split; [done|]. split; [|apply NoDup_singleton].
      intros u Hu ->%list_elem_of_singleton. by eapply Hn.
    + rewrite Hcnt, zlen_app. done.
    + intros u [Hu| ->%list_elem_of_singleton]%elem_of_app; [by apply Hl|]. by exists vc.
  - exact Hd.
  - destruct Hdrv as (? & Hu & ? & ? & Hr & ? & ? & Hhc & ? & ? & Hi). split_and!; try done.
    + intros a Ha. apply Hsome, Hu. done.
    + intros e He. destruct (Hr e He) as (ex & ? & ? & Hne). exists ex. split_and!; try done.
      intros a ax Hax. destruct (Hback _ _ Hax) as (ay & ? & -> & _). by eapply Hne.
    + intros a Ha. by apply Hsome, Hhc.
    + intros a ax k b bx k' e G1 G2.
      destruct (Hback _ _ G1) as (ay & ? & _ & -> & _). destruct (Hback _ _ G2) as (bz & ? & _ & -> & _). eauto.
  - split; [|apply Hfr]. intros a Ha. destruct (proj1 Hfr a Ha) as (? & ? & ? & ? & ?). split_and!; try done.
    simpl. rewrite lookup_insert_ne; [done|congruence].
  - split; [done|]. intros u b Hin. destruct (Ho u b) as [Hlive Hnot]; [by right|]. split; [done|].
    assert (u <> v). { intros ->. apply Hno. by eapply held_e_fst. }
    intros a ax Hax. destruct (Hback _ _ Hax) as (ay & Hay & _ & _ & [->| ->]); [by eapply Hnot|].
    rewrite elem_of_app, list_elem_of_singleton. intros [Hin'|?]; [|done]. by eapply Hnot.
  - by eapply listed_ok_ctx.
Qed.

Lemma wf_held_o h w v c : wf (held_o v c h) w -> h_x h = None ->
  exists vc, w_vchans w !! v = Some vc /\ vc_ctx vc = Some c.
Proof.
  intros Hwf Hx. destruct (proj2 (wf_opening _ _ Hwf) v c) as [(vc & [? _]%vchans_of_lookup & ?) _]; [by left|].
  by exists vc.
Qed.

Lemma wf_drop_req h w q : wf (held_req (Some q) h) w -> wf h w.
Proof. unfold held_req. destruct (rq_pchan q) as [p|]; [|done]. apply wf_drop_p. Qed.

(** The codes of the openers are errnos. *)
Ltac errno :=
  repeat match goal with |- context [if ?b then _ else _] => destruct b eqn:? end;
  unfold EINTR, ENXIO, EAGAIN, ENOMEM, ENODEV, EINVAL, EPROTO, ETIMEDOUT in *; lia.

(** What an opener ends with: an errno and nothing, or a channel to publish. *)
Definition opened h (c : nat) (r : (Z + nat) * sched) w : Prop :=
  match r.1 with
  | inl e => wf h w /\ - 4095 <= e < 0
  | inr v => wf (held_o v c h) w
  end /\ sched_ok (r.2).

Lemma open_err_v h c v p r s w :
  wf (held_p p (held_o v c h)) w -> h_x h = None -> sched_ok s -> - 4095 <= r < 0 ->
  wp (open_err (Some v) (Some p) r s) (opened h c) w.
Proof.
  intros Hwf Hx Hs Hr. unfold open_err. apply wp_bind. eapply wp_mono.
  { apply (hab_vchan_put_spec (held_p p h)); [exact (wf_abandon (held_p p h) w v c Hwf)|done]. }
  intros [] w1 Hwf1. apply wp_bind. eapply wp_mono; [by apply (hab_pchan_put_spec h)|].
  intros [] w2 [Hwf2 _]. apply wp_ret. by split.
Qed.

Lemma open_err_p h c p r s w :
  wf (held_p p h) w -> sched_ok s -> - 4095 <= r < 0 -> wp (open_err None (Some p) r s) (opened h c) w.
Proof.
  intros Hwf Hs Hr. unfold open_err. apply wp_bind, wp_ret. apply wp_bind.
  eapply wp_mono; [by apply (hab_pchan_put_spec h)|]. intros [] w2 [Hwf2 _]. apply wp_ret. by split.
Qed.

Lemma open_err_n h c r s w : wf h w -> sched_ok s -> - 4095 <= r < 0 -> wp (open_err None None r s) (opened h c) w.
Proof. intros Hwf Hs Hr. by split. Qed.

Lemma find_dev_lt major l d : find_dev major l = Some d -> (d < length l)%nat.
Proof.
  revert d. induction l as [|x l IH]; intros d; simpl; [done|].
  destruct (dv_id x =? major); [intros [= <-]; lia|].
  destruct (find_dev major l) as [i|]; [|done]. intros [= <-]. specialize (IH i eq_refl). lia.
Qed.

Lemma find_hab_device_spec h w mm (Q : option nat -> world HS -> Prop) :
  wf h w -> Q None w ->
  (forall d, (d < 30)%nat -> find_dev (HAB_MMID_GET_MAJOR mm) (w_devs w) = Some d -> Q (Some d) w) ->
  wp (find_hab_device mm) Q w.
Proof.
  intros Hwf HN HS_. unfold find_hab_device. apply wp_gets.
  destruct (find_dev _ _) as [d|] eqn:Hd; [|done]. apply HS_; [|done].
  apply find_dev_lt in Hd. pose proof (f_equal length (proj1 (proj1 (proj2 (wf_fresh _ _ Hwf))))) as Hl.
  rewrite length_fmap in Hl. rewrite Hl in Hd. exact Hd.
Qed.

Lemma pending_enter_spec c cx r w :
  w_ctxs w !! c = Some cx -> wp (hab_open_pending_enter c r) (fun _ w' => frame w w') w.
Proof.
  intros Hc. unfold hab_open_pending_enter. apply wp_bind. eapply wp_upd_c; [done|].
  apply wp_ret. by eapply frame_ctx.
Qed.

Lemma pending_exit_spec c cx r w :
  w_ctxs w !! c = Some cx -> wp (hab_open_pending_exit c r) (fun _ w' => frame w w') w.
Proof.
  intros Hc. unfold hab_open_pending_exit. apply wp_bind. eapply wp_get_c; [done|]. cbv zeta.
  apply wp_bind. eapply wp_upd_c; [done|]. apply wp_ret. by eapply frame_ctx.
Qed.

(** The device of the mmid has the channel a lookup by [dom] relies on. *)
Definition dev_ready w (mm dom : Z) : Prop :=
  forall d dv, find_dev (HAB_MMID_GET_MAJOR mm) (w_devs w) = Some d -> w_devs w !! d = Some dv ->
    (dv_pchannels dv <> [] \/ dom <> HABCFG_VMID_DONT_CARE) /\ dv_head_word dv <> dom.

Lemma frame_wf_o h w w' v c p :
  wf (held_p p (held_o v c h)) w -> frame w w' -> wf (held_p p (held_o v c h)) w'.
Proof. intros ? ?. by eapply wf_frame. Qed.

(** Of a sequence step that is a frame, only the frame matters. *)
Lemma wp_seq_frame {A B} h (m : M HS A) (k : A -> M HS B) Q w :
  wf h w -> wp m (fun _ w' => frame w w') w ->
  (forall a w', wf h w' -> frame w w' -> wp (k a) Q w') -> wp (bind m k) Q w.
Proof.
  intros Hwf Hm Hk. apply wp_bind. eapply wp_mono; [exact Hm|]. intros a w' Hf. apply Hk; [|exact Hf].
  exact (wf_frame _ _ _ Hf Hwf).
Qed.

Lemma wp_io_frame {A} (m : M HS A) w : wp m (fun _ w' => io_frame w w') w -> wp m (fun _ w' => frame w w') w.
Proof. intros Hm. eapply wp_mono; [exact Hm|]. intros ? ? Hio. apply Hio. Qed.

(** What a send reports: success or an errno. *)
Lemma send_code r w x w' :
  hab_open_request_send r w = Ok (x, w') -> - 4095 <= x <= 0.
Proof.
  unfold hab_open_request_send, deref, bind, ret, fail, physical_channel_send.
  destruct (rq_pchan r) as [p|]; [|done].
  destruct (w_pchans w !! p) as [pc|]; [|done]. destruct (w_hyp w !! p) as [hs|]; [|done].
  destruct (phys_send _ _ _ _) as [[[y q] hs']|] eqn:Hs; [|done]. intros [= <- _].
  by eapply phys_send_ret.
Qed.

Lemma wp_seq_send {B} h h' p r (k : Z -> M HS B) Q w :
  wf h w -> wf (held_p p h') w -> rq_pchan r = Some p ->
  (forall x w', wf h w' -> frame w w' -> - 4095 <= x <= 0 -> wp (k x) Q w') ->
  wp (bind (hab_open_request_send r) k) Q w.
Proof.
  intros Hwf Hwf' Hr Hk. apply wp_bind. eapply wp_mono.
  - eapply (wp_returns _ (fun _ w' => io_frame w w') (fun x => - 4095 <= x <= 0)); [|by apply send_code].
    eapply hab_open_request_send_spec; [exact Hwf'|done|]. eapply wf_held_p; [exact Hwf'|by left].
  - intros x w' [Hio Hx]. apply Hk; [by eapply wf_io_frame|apply Hio|done].
Qed.

Lemma exit_frame h w c r :
  wf h w -> c ∈ h_c h -> wp (hab_open_pending_exit c r) (fun _ w' => frame w w') w.
Proof. intros Hwf Hc. destruct (wf_held_c _ _ _ Hwf Hc) as [cx ?]. by eapply pending_exit_spec. Qed.

Lemma enter_frame h w c r :
  wf h w -> c ∈ h_c h -> wp (hab_open_pending_enter c r) (fun _ w' => frame w w') w.
Proof. intros Hwf Hc. destruct (wf_held_c _ _ _ Hwf Hc) as [cx ?]. by eapply pending_enter_spec. Qed.

Lemma frontend_cancel_spec h c v p req pend sub oid r s w :
  wf (held_p p (held_o v c h)) w -> h_x h = None -> c ∈ h_c h -> sched_ok s ->
  wp (frontend_cancel c v p req pend sub oid r s) (opened h c) w.
Proof.
  intros Hwf Hx Hc Hs. destruct (wf_held_o (held_p p h) w v c Hwf Hx) as (vc & Hv & _).
  unfold frontend_cancel. apply wp_bind. eapply wp_get_v; [done|]. cbv zeta.
  eapply (wp_seq_send _ (held_o v c h) _ _ _ _ _ Hwf); [done|done|]. intros _ w1 Hwf1 _ _.
  eapply (wp_seq_frame _ _ _ _ _ Hwf1); [by eapply exit_frame|]. intros _ w2 Hwf2 _.
  apply open_err_v; [done|done|done|errno].
Qed.

Lemma frontend_paired_spec h c v p req pend q sub oid s w :
  wf (held_req (Some q) (held_p p (held_o v c h))) w -> h_x h = None -> c ∈ h_c h -> sched_ok s ->
  wp (frontend_paired c v p req pend q sub oid s) (opened h c) w.
Proof.
  intros Hwf Hx Hc Hs. unfold frontend_paired.
  eapply (wp_seq_frame _ _ _ _ _ Hwf); [eapply exit_frame; [done|by rewrite held_req_c]|]. intros _ w1 Hwf1 _.
  pose proof (wf_drop_req _ _ _ Hwf1) as Hwf1'.
  destruct (wf_held_p _ _ p Hwf1') as [pc Hpc]; [by left|].
  eapply (wp_seq_frame _ _ _ _ _ Hwf1); [eapply wp_upd_p; [done|]; by eapply frame_proto|]. intros _ w2 Hwf2 _.
  pose proof (wf_drop_req _ _ _ Hwf2) as Hwf2'.
  destruct (wf_held_o (held_p p h) w2 v c Hwf2' Hx) as (vc & Hv & _).
  eapply (wp_seq_frame _ _ _ _ _ Hwf2); [eapply wp_upd_v; [done|]; by eapply frame_vchan|]. intros _ w3 Hwf3 _.
  apply wp_bind. eapply wp_mono; [by apply hab_open_request_free_spec|]. intros [] w4 (Hwf4 & _). cbv zeta.
  eapply (wp_seq_send _ (held_o v c h) _ _ _ _ _ Hwf4); [done|done|]. intros r w5 Hwf5 _ Hr.
  destruct (negb (r =? 0)) eqn:Hr0; [apply open_err_v; [done|done|done|errno]|].
  apply wp_bind. eapply wp_mono; [by apply (hab_pchan_put_spec (held_o v c h))|]. intros [] w6 [Hwf6 _].
  apply wp_ret. by split.
Qed.

Lemma frontend_open_spec h c mm dom stack s w :
  wf h w -> h_x h = None -> c ∈ h_c h -> sched_ok s -> dev_ready w mm dom ->
  wp (frontend_open c mm dom stack s) (opened h c) w.
Proof.
  intros Hwf Hx Hc Hs Hdev. unfold frontend_open. cbv zeta. apply wp_bind.
  apply (find_hab_device_spec h); [done|apply open_err_n; [done|done|errno]|]. intros d Hd Hfind.
  destruct (wf_devs_some _ _ d Hwf Hd) as [dv Hdv]. destruct (Hdev d dv Hfind Hdv) as [Hne Hhead].
  apply wp_bind. eapply (hab_pchan_find_domid_spec h); [done|done|done|done| |intros _; apply open_err_n; [done|done|errno]].
  intros p pc Hpc Hwf1 _ _. set (w1 := set_w_pchans _ w) in *.
  apply wp_bind, wp_modify. set (w2 := set_w_open_id _ w1).
  assert (Hwf2 : wf (held_p p h) w2) by (eapply wf_frame; [apply frame_open_id|exact Hwf1]).
  apply wp_bind, wp_gets. apply wp_bind.
  eapply (hab_vchan_alloc_spec (held_p p h)); [done|done|done|eapply wf_held_p; [done|by left]|..].
  { intros w3 Hf. apply open_err_p; [by eapply wf_frame|done|errno]. }
  intros v w3 vc Hwf3 Hv _ _ _ _ _ _. change (wf (held_p p (held_o v c h)) w3) in Hwf3.
  apply wp_bind. eapply wp_get_v; [done|].
  eapply (wp_seq_send _ (held_o v c h) _ _ _ _ _ Hwf3); [done|done|]. intros r w4 Hwf4 _ Hr.
  destruct (negb (r =? 0)) eqn:Hr0; [apply open_err_v; [done|done|done|errno]|].
  eapply (wp_seq_frame _ _ _ _ _ Hwf4); [by eapply enter_frame|]. intros _ w5 Hwf5 _.
  apply wp_bind. eapply hab_open_listen_spec; [exact Hwf5|done|done|done| |done|].
  { intros p' [= <-]. by left. }
  intros code recv s' w6 Hwf6 _ Hs' _ _ Hcode.
  destruct recv as [q|]; [|by apply frontend_cancel_spec].
  destruct (code =? 0); [|by apply frontend_cancel_spec; [eapply wf_drop_req|..]].
  destruct (same_major _ _); [by apply frontend_paired_spec|].
  eapply (wp_seq_frame _ _ _ _ _ (wf_drop_req _ _ _ Hwf6)); [by eapply exit_frame; [by eapply wf_drop_req|]|].
  intros _ w7 Hwf7 _. apply open_err_v; [done|done|done|errno].
Qed.

Lemma backend_finish_spec h c v p r recv s w :
  wf (held_req recv (held_p p (held_o v c h))) w -> h_x h = None -> sched_ok s ->
  wp (backend_finish v p r recv s) (opened h c) w.
Proof.
  intros Hwf Hx Hs. unfold backend_finish. destruct recv as [q|]; [|apply open_err_v; [done|done|done|errno]].
  destruct (r =? 0); [|apply open_err_v; [by eapply wf_drop_req|done|done|errno]].
  apply wp_bind. eapply wp_mono; [by apply hab_open_request_free_spec|]. intros [] w1 (Hwf1 & _).
  apply wp_bind. eapply wp_mono; [by apply (hab_pchan_put_spec (held_o v c h))|]. intros [] w2 [Hwf2 _].
  apply wp_ret. by split.
Qed.

Definition served h (c : nat) (s : sched) (r : option (Z + nat) * hab_open_request * sched) w : Prop :=
  match r.1.1 with
  | Some x => opened h c (x, r.2) w
  | None => wf h w /\ sched_ok (r.2) /\ (length (r.2) < length s)%nat
  end.

(** A turn that is over has served the request. *)
Lemma wp_served h c s0 (m : M HS ((Z + nat) * sched)) req w :
  wp m (opened h c) w -> wp (let! r := m in ret (Some (r.1), req, r.2)) (served h c s0) w.
Proof. intros Hm. apply wp_bind. eapply wp_mono; [exact Hm|]. by intros [x s] w' ?. Qed.

Lemma backend_serve_spec h c d sub req q s w :
  wf (held_req (Some q) h) w -> h_x h = None -> c ∈ h_c h -> (d < 30)%nat -> sched_ok s ->
  (exists p, rq_pchan q = Some p) ->
  wp (backend_serve c d sub req q s) (served h c s) w.
Proof.
  intros Hwf Hx Hc Hd Hs [p Hq]. unfold backend_serve. rewrite Hq. apply wp_bind, wp_deref.
  assert (Hwf0 : wf (held_p p h) w) by (unfold held_req in Hwf; by rewrite Hq in Hwf).
  destruct (wf_held_p _ _ p Hwf0) as [pc Hpc]; [by left|].
  eapply (wp_seq_frame _ _ _ _ _ Hwf0); [eapply wp_upd_p; [done|]; by eapply frame_proto|]. intros _ w1 Hwf1 _.
  cbv zeta. apply wp_bind. eapply wp_mono; [apply (hab_pchan_get_spec (held_p p h)); [done|eapply wf_held_p; [done|by left]]|].
  intros [] w2 [Hwf2 _]. apply wp_bind. eapply wp_mono.
  { apply (hab_open_request_free_spec (held_p p h)). unfold held_req. by rewrite Hq. }
  intros [] w3 (Hwf3 & _). apply wp_bind.
  eapply (hab_vchan_alloc_spec (held_p p h)); [done|done|done|eapply wf_held_p; [done|by left]|..].
  { intros w4 Hf. apply wp_served, open_err_p; [by eapply wf_frame|done|errno]. }
  intros v w4 vc Hwf4 Hv _ _ _ _ _ _. change (wf (held_p p (held_o v c h)) w4) in Hwf4.
  eapply (wp_seq_frame _ _ _ _ _ Hwf4); [eapply wp_upd_v; [done|]; by eapply frame_vchan|]. intros _ w5 Hwf5 _.
  destruct (wf_held_o (held_p p h) w5 v c Hwf5 Hx) as (vc5 & Hv5 & _).
  apply wp_bind. eapply wp_get_v; [done|].
  eapply (wp_seq_send _ (held_o v c h) _ _ _ _ _ Hwf5); [done|done|]. intros r w6 Hwf6 _ Hr.
  destruct (negb (r =? 0)) eqn:Hr0; [apply wp_served, open_err_v; [done|done|done|errno]|].
  eapply (wp_seq_frame _ _ _ _ _ Hwf6); [by eapply enter_frame|]. intros _ w7 Hwf7 _.
  apply wp_bind. eapply hab_open_listen_spec; [exact Hwf7|done|done|done| |done|].
  { intros p' [= <-]. by left. }
  intros code recv s' w8 Hwf8 _ Hs' _ Hlt Hcode.
  eapply (wp_seq_frame _ _ _ _ _ Hwf8); [eapply exit_frame; [done|by rewrite held_req_c]|]. intros _ w9 Hwf9 _.
  assert (Hwf9' : wf (held_p p (held_o v c h)) w9) by (destruct recv; [by eapply wf_drop_req|done]).
  destruct (wf_held_o (held_p p h) w9 v c Hwf9' Hx) as (vc9 & Hv9 & _).
  apply wp_bind. eapply wp_get_v; [done|].
  set (canc := match recv with Some _ => _ | None => _ end). destruct canc.
  { eapply (wp_seq_send _ (held_o v c h) _ _ _ _ _ Hwf9); [exact Hwf9'|done|].
    intros _ w10 Hwf10 _ _. eapply (wp_seq_frame _ _ _ _ _ Hwf10);
      [eapply exit_frame; [done|by rewrite held_req_c]|].
    intros _ w11 Hwf11 _. by apply wp_served, backend_finish_spec. }
  destruct (code =? - ENXIO) eqn:Hc1; [apply wp_served, open_err_v; [done|done|done|errno]|].
  destruct (Z.eqb_spec code (- EAGAIN)) as [He|]; simpl.
  - eapply (wp_seq_send _ (held_o v c h) _ _ _ _ _ Hwf9'); [done|done|]. intros _ w10 Hwf10 _ _.
    eapply (wp_seq_frame _ _ _ _ _ Hwf10); [by eapply exit_frame|]. intros _ w11 Hwf11 _.
    apply wp_bind. eapply wp_mono.
    { apply (hab_vchan_put_spec (held_p p h)); [exact (wf_abandon (held_p p h) w11 v c Hwf11)|done]. }
    intros [] w12 Hwf12. apply wp_bind. eapply wp_mono; [by apply (hab_pchan_put_spec h)|].
    intros [] w13 [Hwf13 _]. apply wp_ret. split; [done|]. split; [done|]. by apply Hlt.
  - eapply (wp_seq_frame _ _ _ _ _ Hwf9); [by eapply exit_frame; [exact Hwf9'|]|].
    intros _ w10 Hwf10 _. by apply wp_served, backend_finish_spec.
Qed.

(** The one fault of the listener is the reply to a request of another major
    version, which is sent on no channel. *)
Lemma backend_loop_spec n h c d sub timeout req s w :
  (length s < n)%nat -> wf h w -> h_x h = None -> c ∈ h_c h -> (d < 30)%nat -> sched_ok s ->
  wpf (eq NullDeref) (backend_loop n c d sub timeout req s) (opened h c) w.
Proof.
  revert req s w. induction n as [|n IH]; intros req s w Hn Hwf Hx Hc Hd Hs; [lia|].
  cbn [backend_loop]. cbv zeta. apply wpf_bind. eapply hab_open_listen_spec; [done|done|done|done|done|done|].
  intros code recv s' w1 Hwf1 Hm Hs' Hlen _ Hcode.
  destruct recv as [q|]; [|apply wpf_wp, open_err_n; [done|done|errno]].
  destruct (negb (code =? 0)) eqn:Hc0; [apply wpf_wp, open_err_n; [by eapply wf_drop_req|done|errno]|].
  destruct (negb (same_major _ _)).
  { apply wpf_bind_f. unfold hab_open_request_send. simpl. apply wpf_bind_f. by apply wpf_fail. }
  apply wpf_bind. eapply wp_mono; [apply (backend_serve_spec h); try done; by apply Hm|].
  intros [[o req'] s2] w2 Hsv. unfold served in Hsv. simpl in Hsv. destruct o as [r|].
  - by apply wpf_ret.
  - destruct Hsv as (Hwf2 & Hs2 & Hlt). apply IH; [lia|done..].
Qed.

Lemma backend_listen_spec h c mm timeout s w :
  wf h w -> h_x h = None -> c ∈ h_c h -> sched_ok s ->
  wpf (eq NullDeref) (backend_listen c mm timeout s) (opened h c) w.
Proof.
  intros Hwf Hx Hc Hs. unfold backend_listen. apply wpf_bind.
  apply (find_hab_device_spec h); [done|apply wpf_wp, open_err_n; [done|done|errno]|].
  intros d Hd _. apply backend_loop_spec; [lia|done..].
Qed.

(** A successful open publishes the channel under the id it returns. *)
Definition published w (c : nat) (id : Z) : Prop :=
  exists v vc cx, w_vchans w !! v = Some vc /\ vc_id vc = id /\ vc_ctx vc = Some c /\
    w_ctxs w !! c = Some cx /\ v ∈ cx_vchannels cx.

Definition open_post h (c : nat) (r : Z * Z * sched) w : Prop :=
  wf h w /\ - 4095 <= r.1.1 <= 0 /\ (r.1.1 = 0 -> published w c (r.1.2)).

Lemma open_publish_spec h c r w :
  opened h c r w -> h_x h = None -> c ∈ h_c h -> wp (open_publish c r) (open_post h c) w.
Proof.
  intros [Ho _] Hx Hc. unfold open_publish. destruct r as [[e|v] s]; simpl in *.
  - destruct Ho as [Hwf He].
    destruct (Z.leb_spec (-4095) e), (Z.ltb_spec e 0); try lia. apply wp_ret.
    split; [done|]. simpl. split; [lia|]. intros ->. lia.
  - destruct (wf_held_c _ _ _ Ho Hc) as [cx Hcx]. destruct (wf_held_o h w v c Ho Hx) as (vc & Hv & Hvc).
    apply wp_bind. eapply wp_upd_c; [done|]. apply wp_bind. eapply wp_get_v; [exact Hv|]. apply wp_ret.
    split; [by eapply wf_publish|]. split; [done|]. intros _. exists v, vc. eexists.
    split; [exact Hv|]. split; [done|]. split; [done|]. split; [apply lookup_insert_eq|].
    simpl. apply elem_of_app. right. by left.
Qed.

Lemma open_post_drop h c p r w : open_post (held_p p h) c r w -> open_post h c r w.
Proof. intros [Hwf Hr]. split; [by eapply wf_drop_p|done]. Qed.

(** The context that opens is the listening side. *)
Definition backend_role w (c : nat) : Prop :=
  if w_loopback w then exists cx, w_ctxs w !! c = Some cx /\ cx_lb_be cx <> 0
  else exists p pc, w_pchans w !! p = Some pc /\ pc_is_be pc = true.

Lemma hab_vchan_open_spec h c mm timeout stack s w :
  wf h w -> h_x h = None -> c ∈ h_c h -> sched_ok s ->
  dev_ready w mm (if w_loopback w then LOOPBACK_DOM else HABCFG_VMID_DONT_CARE) ->
  wpf (fun f => f = NullDeref /\ backend_role w c) (hab_vchan_open c mm timeout stack s) (open_post h c) w.
Proof.
  intros Hwf Hx Hc Hs Hdev. destruct (wf_held_c _ _ _ Hwf Hc) as [cx Hcx].
  unfold hab_vchan_open, backend_role. apply wpf_bind, wp_gets. destruct (w_loopback w).
  - apply wpf_bind. eapply wp_get_c; [done|]. apply wpf_bind_f.
    apply (wpf_mono _ _ (opened h c)).
    + destruct (Z.eqb_spec (cx_lb_be cx) 0); simpl; [by apply wpf_wp, frontend_open_spec|].
      eapply wpf_weaken; [by apply backend_listen_spec|]. intros f <-. split; [done|]. by exists cx.
    + intros r w1 Ho. by apply wpf_wp, open_publish_spec.
  - apply wpf_bind. apply (find_hab_device_spec h); [done| |].
    { apply wpf_bind, wp_ret. apply wpf_ret. by split_and!. }
    intros d Hd Hfind. destruct (wf_devs_some _ _ d Hwf Hd) as [dv Hdv].
    destruct (Hdev d dv Hfind Hdv) as [Hne Hhead].
    apply wpf_bind. eapply hab_is_forbidden_spec; [done|by eexists|by eexists|]. intros forb.
    destruct forb; [apply wpf_ret; by split_and!|].
    apply wpf_bind. eapply (hab_pchan_find_domid_spec h); [done|done|done|done| |].
    2: { intros _. apply wpf_ret. by split_and!. }
    intros p pc Hpc Hwf1 _ _. set (w1 := set_w_pchans _ w) in *.
    apply wpf_bind. eapply wp_get_p; [apply lookup_insert_eq|]. apply wpf_bind_f.
    apply (wpf_mono _ _ (opened (held_p p h) c)).
    + cbn [pc_is_be set_pc_refcount]. destruct (pc_is_be pc) eqn:Hbe; [|by apply wpf_wp, frontend_open_spec].
      eapply wpf_weaken; [by apply backend_listen_spec|]. intros f <-. split; [done|]. by exists p, pc.
    + intros r w2 Ho. apply wpf_wp. eapply wp_mono; [by apply (open_publish_spec (held_p p h))|].
      intros r' w3. apply open_post_drop.
Qed.

(** A channel that leaves its context's list keeps its reference, now a held one. *)
Lemma wf_unpublish h w v c cx :
  wf h w -> w_ctxs w !! c = Some cx -> v ∈ cx_vchannels cx ->
  wf (held_v v h) (set_w_ctxs (<[c := set_cx_vcnt (cx_vcnt cx - 1)
    (set_cx_vchannels (list_del v (cx_vchannels cx)) cx)]> (w_ctxs w)) w).
Proof.
  intros [Hv Hp Hc Hd Hdrv Hfr Ho Hli] Hcx Hin.
  set (cx' := set_cx_vcnt _ _). set (w' := set_w_ctxs _ w).
  destruct (Hc c cx Hcx) as (_ & _ & _ & Hl & _). destruct (Hl v Hin) as (vc & Hvc & Hctx).
  assert (Hback : forall a ax, w_ctxs w' !! a = Some ax -> exists ay, w_ctxs w !! a = Some ay /\
    cx_exp_whse ax = cx_exp_whse ay /\ cx_imp_whse ax = cx_imp_whse ay /\
    (forall u, u ∈ cx_vchannels ax -> u ∈ cx_vchannels ay)).
  { intros a ax. simpl. rewrite lookup_insert. case_decide; [|by eauto 10].
    intros [= <-]. subst a. exists cx. split_and!; auto. by intros u [? _]%elem_of_list_del. }
  assert (Hsome : forall a, is_Some (w_ctxs w !! a) -> is_Some (w_ctxs w' !! a)).
  { intros a ?. simpl. rewrite lookup_insert. by case_decide. }
  constructor.
  - intros u uc Hu. destruct (Hv u uc Hu) as (pc & a & ax & ? & ? & ? & ? & Ha & Hr & ?).
    exists pc, a, (if decide (c = a) then cx' else ax). simpl. rewrite lookup_insert.
    split_and!; try done; [by destruct (decide (c = a))|].
    destruct (decide (c = a)) as [<-|Hca].
    + assert (ax = cx) as -> by congruence. simpl. destruct (decide (v = u)) as [<-|Hvu].
      * rewrite (decide_True (P := v ∈ cx_vchannels cx)) in Hr by done.
        rewrite decide_False; [lia|]. rewrite elem_of_list_del. tauto.
      * assert ((if decide (u ∈ list_del v (cx_vchannels cx)) then 1 else 0) <=
          (if decide (u ∈ cx_vchannels cx) then 1 else 0)); [|lia].
        destruct (decide (u ∈ list_del _ _)) as [Hi|], (decide (u ∈ cx_vchannels cx)); try lia.
        apply elem_of_list_del in Hi as [? _]. done.
    + destruct (decide (v = u)) as [<-|]; [|lia].
      pose proof (eq_trans (eq_sym Hu) Hvc) as Heq. congruence.
  - exact Hp.
  - intros a ax. simpl. rewrite lookup_insert. case_decide as Ha; [|apply Hc].
    subst a. intros [= <-]. destruct (Hc c cx Hcx) as (? & Hndv & Hcnt & _ & ? & ? & ? & ?).
    split_and!; try done; simpl.
    + by apply NoDup_list_del.
    + rewrite Hcnt. unfold zlen. rewrite (list_del_length v (cx_vchannels cx)) by done. lia.
    + intros u [Hu _]%elem_of_list_del. by apply Hl.
  - exact Hd.
  - destruct Hdrv as (? & Hu & ? & ? & Hr & Hhv & ? & Hhc & ? & ? & Hi). split_and!; try done.
    + intros a Ha. apply Hsome, Hu. done.
    + intros e He. destruct (Hr e He) as (ex & ? & ? & Hne). exists ex. split_and!; try done.
      intros a ax Hax. destruct (Hback _ _ Hax) as (ay & ? & -> & _). by eapply Hne.
    + intros u. simpl. intros [->|Hu']%elem_of_cons; [by eexists|by apply Hhv].
    + intros a Ha. by apply Hsome, Hhc.
    + intros a ax k b bx k' e G1 G2.
      destruct (Hback _ _ G1) as (ay & ? & _ & -> & _). destruct (Hback _ _ G2) as (bz & ? & _ & -> & _). eauto.
  - split; [|apply Hfr]. intros a Ha. destruct (proj1 Hfr a Ha) as (? & ? & ? & ? & ?). split_and!; try done.
    simpl. rewrite lookup_insert_ne; [done|congruence].
  - apply (open_ok_mono h (held_v v h) w); [done|by eauto| |done].
    intros a ax Hax. destruct (Hback _ _ Hax) as (ay & ? & _ & _ & ?). by exists ay.
  - by eapply listed_ok_ctx.
Qed.

Lemma hab_stop_spec h c mm w (Q : Z -> world HS -> Prop) :
  wf h w -> is_Some (w_ctxs w !! c) -> (forall r w', frame w w' -> Q r w') -> wp (hab_stop c mm) Q w.
Proof.
  intros Hwf [cx Hcx] HQ. unfold hab_stop. apply wp_bind.
  apply (find_hab_device_spec h); [done|apply wp_ret, HQ, frame_refl|]. intros d _ _.
  apply wp_bind. eapply wp_get_c; [done|].
  destruct (existsb _ _); [apply wp_ret, HQ, frame_refl|].
  apply wp_bind, wp_kalloc; intros l; [apply wp_ret, HQ, frame_alloc|].
  apply wp_bind. eapply wp_upd_c; [exact Hcx|]. apply wp_bind, wp_log. apply wp_ret, HQ.
  eapply frame_trans; [apply (frame_next l)|]. eapply frame_trans; [|apply frame_log].
  by eapply frame_ctx.
Qed.

Lemma own_vchan_spec vcid l w (Q : option nat -> world HS -> Prop) :
  Forall (fun v => is_Some (w_vchans w !! v)) l ->
  Q None w -> (forall v vc, v ∈ l -> w_vchans w !! v = Some vc -> vc_id vc = vcid -> Q (Some v) w) ->
  wp (own_vchan vcid l) Q w.
Proof.
  intros Hl HN HS_. induction l as [|v l IH]; simpl; [by apply wp_ret|].
  apply list.Forall_cons in Hl as [[vc Hv] Hl]. apply wp_bind. eapply wp_get_v; [done|].
  destruct (Z.eqb_spec (vc_id vc) vcid); [by apply wp_ret, (HS_ v vc); [left|..]|].
  apply IH; [done|]. intros u uc ?. apply HS_. by right.
Qed.

Lemma hab_vchan_close_spec h c vcid w :
  wf h w -> h_x h = None -> c ∈ h_c h ->
  wp (hab_vchan_close c vcid) (fun _ w' => wf h w') w.
Proof.
  intros Hwf Hx Hc. destruct (wf_held_c _ _ _ Hwf Hc) as [cx Hcx].
  unfold hab_vchan_close. apply wp_bind. eapply wp_get_c; [done|]. apply wp_bind.
  apply own_vchan_spec.
  { exact (wf_ctx_vchans h w c cx Hwf Hcx). }
  { apply wp_bind. eapply (hab_stop_spec h); [done|by eexists|]. intros r w1 Hf.
    apply wp_ret. by eapply wf_frame. }
  intros v vc Hin Hv _. apply wp_bind. eapply wp_upd_v; [done|]. set (w1 := set_w_vchans _ w).
  assert (Hwf1 : wf h w1) by (eapply wf_frame; [by eapply frame_vchan|done]).
  apply wp_bind. eapply wp_upd_c; [exact Hcx|]. set (w2 := set_w_ctxs _ w1).
  assert (Hwf2 : wf (held_v v h) w2) by exact (wf_unpublish h w1 v c cx Hwf1 Hcx Hin).
  apply wp_bind. eapply wp_mono.
  { apply (hab_vchan_stop_notify_spec (held_v v h)); [done|done|]. eapply wf_held_v; [done|done|by left]. }
  intros [] w3 Hf. apply wp_bind. eapply wp_mono.
  { apply (hab_vchan_put_spec h); [by eapply wf_frame|done]. }
  intros [] w4 Hwf4. by apply wp_ret.
Qed.

Lemma send_loop_spec h v hd data nb s w :
  wf (held_v v h) w -> h_x h = None -> sched_ok s ->
  wp (send_loop v hd data nb s) (fun r w' => wf (held_v v h) w' /\ sched_ok (r.2)) w.
Proof.
  intros Hwf Hx Hs. revert w Hwf. induction s as [|k s IH]; intros w Hwf; cbn [send_loop].
  all: destruct (wf_held_v _ _ v Hwf Hx) as [vc Hv]; [by left|];
    destruct (wf_vchan_ctx _ _ _ _ Hwf Hx Hv) as (pc & _ & _ & Hpc & _);
    apply wp_bind; (eapply wp_get_v; [done|]); apply wp_bind;
    (eapply wp_physical_channel_send; [exact Hwf|by eexists|]); intros r w1 Hio _;
    pose proof (wf_io_frame _ _ _ Hio Hwf) as Hwf1;
    apply wp_bind; (eapply wp_get_v; [by rewrite (io_v _ _ Hio)|]);
    destruct (_ || _ || _); [by apply wp_ret|].
  - done.
  - apply list.Forall_cons in Hs as [Hk Hs]. destruct k as [m| |]; [|by apply IH..].
    apply wp_bind. eapply wp_mono; [by apply Hk|]. intros [] w2 Hwf2. by apply IH.
Qed.

Lemma hab_vchan_send_spec h c vcid data flags s w :
  wf h w -> h_x h = None -> c ∈ h_c h -> sched_ok s ->
  wp (hab_vchan_send c vcid data flags s) (fun r w' => wf h w' /\ sched_ok (r.2)) w.
Proof.
  intros Hwf Hx Hc Hs. unfold hab_vchan_send. cbv zeta.
  destruct (HAB_HEADER_SIZE_MAX <? zlen data); [by apply wp_ret|].
  apply wp_bind. eapply (hab_get_vchan_fromvcid_spec h); [done|by eapply wf_held_c|by apply wp_ret|].
  intros v vc [Hv _] Hwf1. set (w1 := set_w_vchans _ w) in *.
  apply wp_bind. eapply wp_get_v; [apply lookup_insert_eq|].
  destruct (vc_otherend_closed _).
  { apply wp_bind. eapply wp_mono; [by apply (hab_vchan_put_spec h)|]. intros [] w2 ?. by apply wp_ret. }
  destruct (send_type flags (zlen data)) as [t|]; [|by apply wp_ret; split; [eapply wf_drop_v|]].
  apply wp_bind. eapply wp_mono; [by apply (send_loop_spec h)|]. intros r w2 [Hwf2 Hs2].
  destruct (wf_held_v _ _ v Hwf2 Hx) as [vc2 Hv2]; [by left|].
  apply wp_bind. apply (wp_mono _ (fun _ w' => wf (held_v v h) w')).
  { apply wp_when; [intros _|done]. eapply wp_upd_v; [done|]. eapply wf_frame; [by eapply frame_vchan|done]. }
  intros [] w3 Hwf3. apply wp_bind. eapply wp_mono; [by apply (hab_vchan_put_spec h)|].
  intros [] w4 ?. by apply wp_ret.
Qed.

Lemma hab_vchan_recv_spec dispatch h c vcid rsize timeout flags s w :
  (forall p, run_ok (dispatch p)) ->
  wf h w -> h_x h = None -> c ∈ h_c h -> sched_ok s ->
  wp (hab_vchan_recv dispatch c vcid rsize timeout flags s) (fun r w' => wf h w' /\ sched_ok (r.2) /\
    (r.1.1.1 = 0 <-> exists m, r.1.1.2 = Some m /\ m_sizebytes m <= u64 rsize /\ r.1.2 = i32 (m_sizebytes m)) /\
    forall m, r.1.1.2 = Some m -> msg_ok m = true) w.
Proof.
  intros Hd Hwf Hx Hc Hs. unfold hab_vchan_recv.
  apply wp_bind. eapply (hab_get_vchan_fromvcid_spec h); [done|by eapply wf_held_c| |].
  { apply wp_ret. split_and!; try done. simpl. split; [done|by intros (? & ? & _)]. }
  intros v vc [Hv _] Hwf1. set (w1 := set_w_vchans _ w) in *.
  apply wp_bind. eapply wp_upd_v; [apply lookup_insert_eq|]. set (w2 := set_w_vchans _ w1).
  assert (Hwf2 : wf (held_v v h) w2).
  { eapply wf_frame; [eapply frame_vchan; [apply lookup_insert_eq|done]|exact Hwf1]. }
  apply wp_bind. eapply wp_get_v; [apply lookup_insert_eq|]. apply wp_bind.
  apply (wp_mono _ (fun _ w' => wf (held_v v h) w')).
  { apply wp_when; [intros _; by apply Hd|done]. }
  intros [] w3 Hwf3. apply wp_bind.
  assert (Hend : forall code (m : option hab_message) n (s' : sched) (w' : world HS), wf (held_v v h) w' -> sched_ok s' ->
    (code = 0 <-> exists m', m = Some m' /\ m_sizebytes m' <= u64 rsize /\ n = i32 (m_sizebytes m')) ->
    (forall m', m = Some m' -> msg_ok m' = true) ->
    wp (do! when ((code =? 0) && match m with Some _ => true | None => false end)
          (upd_v v (fun vc => set_vc_rx_cnt (u64 (vc_rx_cnt vc + 1)) vc)) in
        do! upd_v v (set_vc_rx_inflight false) in do! hab_vchan_put v in ret (code, m, n, s'))
      (fun r w' => wf h w' /\ sched_ok (r.2) /\
        (r.1.1.1 = 0 <-> exists m, r.1.1.2 = Some m /\ m_sizebytes m <= u64 rsize /\ r.1.2 = i32 (m_sizebytes m)) /\
        forall m, r.1.1.2 = Some m -> msg_ok m = true) w').
  { intros code m n s' w' Hwf' Hs' Hm Hok. apply wp_bind. apply (wp_mono _ (fun _ w'' => wf (held_v v h) w'')).
    { destruct (wf_held_v _ _ v Hwf' Hx) as [vc' Hv']; [by left|].
      apply wp_when; [intros _|done]. eapply wp_upd_v; [done|]. eapply wf_frame; [by eapply frame_vchan|done]. }
    intros [] w4 Hwf4. destruct (wf_held_v _ _ v Hwf4 Hx) as [vc4 Hv4]; [by left|].
    apply wp_bind. eapply wp_upd_v; [done|].
    apply wp_bind. eapply wp_mono; [apply (hab_vchan_put_spec h)|].
    { eapply wf_frame; [by eapply frame_vchan|done]. }
    { done. }
    intros [] w5 ?. by apply wp_ret. }
  eapply hab_msg_dequeue_spec; [exact Hwf3|done|by left|done|..].
  - intros vc1 m l s' w' w1' Hwf0 Hv0 Hl0 Hfit Hwf' Hs' _. apply (Hend 0 (Some m) _ s' w'); [done|done| |].
    { split; [|done]. intros _. by exists m. }
    intros m' [= <-]. destruct (wf_v _ _ Hwf0 v vc1) as (? & ? & ? & _ & _ & _ & _ & _ & _ & Hmo).
    { unfold vchans_of. simpl. by rewrite Hx. }
    rewrite Hl0 in Hmo. simpl in Hmo. by apply andb_true_iff in Hmo as [? _].
  - intros vc1 m l s' w' Hwf' _ _ _ Hs'. apply (Hend _ None _ s' w'); [done|done| |done]. split; [done|by intros (? & ? & _)].
  - intros code vc1 s' w' Hwf' _ _ Hneg _ Hs'. apply (Hend _ None _ s' w'); [done|done| |done].
    split; [lia|by intros (? & ? & _)].
Qed.

(** ** What the client gets *)


(** A listener that is sent an open request of another major version crashes
    on its own reply: the reply is sent over the channel of its own request, which
    has none. *)
Theorem backend_listen_mismatch (w w' : world HS) (n c d : nat) (sub timeout : Z)
    (request q : hab_open_request) (s s' : sched) :
  hab_open_listen c d (hab_open_request_init request (payload_code HAB_PAYLOAD_TYPE_INIT) None 0 sub 0)
    timeout s w = Ok ((0, Some q, s'), w') ->
  same_major (ver_fe (rq_xdata q)) HAB_API_VER = false ->
  backend_loop (S n) c d sub timeout request s w = Fault NullDeref.
Proof.
  intros Hl Hm. cbn [backend_loop]. cbv zeta. unfold bind at 1. rewrite Hl. simpl. by rewrite Hm.
Qed.

(** A receive with a message that fits at the head of the queue. *)
Lemma recv_head_eq dispatch w c cx l1 l2 v vc m l rsize timeout flags s :
  (forall p w, dispatch p w = Ok (tt, w)) ->
  w_ctxs w !! c = Some cx -> cx_vchannels cx = l1 ++ v :: l2 ->
  Forall (fun u => exists uc, w_vchans w !! u = Some uc /\ vc_id uc <> vc_id vc) l1 ->
  w_vchans w !! v = Some vc -> vc_closed vc = false -> 1 <= vc_refcount vc ->
  vc_rx_list vc = m :: l -> m_sizebytes m <= u64 rsize ->
  hab_vchan_recv dispatch c (vc_id vc) rsize timeout flags s w =
    Ok ((0, Some m, i32 (m_sizebytes m), s), set_w_vchans (<[v :=
      set_vc_rx_inflight false (set_vc_rx_cnt (u64 (vc_rx_cnt vc + 1)) (set_vc_rx_list l vc))]> (w_vchans w)) w).
Proof.
  intros Hd Hc Hcl Hf Hv Hop Href Hl Hn. unfold hab_vchan_recv.
  unfold bind at 1. rewrite (hab_get_vchan_fromvcid_eq w c cx l1 v l2 vc (vc_id vc) true) by done. cbn iota beta.
  set (vc1 := set_vc_refcount _ vc). set (w1 := set_w_vchans _ w).
  assert (Hv1 : w_vchans w1 !! v = Some vc1) by apply lookup_insert_eq.
  unfold bind at 1, upd_v at 1. rewrite Hv1. set (vc2 := set_vc_rx_inflight true vc1). set (w2 := set_w_vchans _ w1).
  assert (Hv2 : w_vchans w2 !! v = Some vc2) by apply lookup_insert_eq.
  unfold bind at 1, get_v at 1. rewrite Hv2.
  assert (Hwh : when (flag flags HABMM_SOCKET_RECV_FLAGS_NON_BLOCKING) (dispatch (vc_pchan vc2)) w2 = Ok (tt, w2))
    by (destruct (flag _ _); simpl; [apply Hd|done]).
  unfold bind at 1. rewrite Hwh. unfold bind at 1. rewrite (dequeue_eq w2 v vc2 m l) by done.
  destruct (Z.leb_spec (m_sizebytes m) (u64 rsize)); [|lia]. set (w3 := set_w_vchans _ w2).
  assert (Hv3 : w_vchans w3 !! v = Some (set_vc_rx_list l vc2)) by apply lookup_insert_eq.
  change (0 =? 0) with true. cbn [andb when]. unfold bind at 1, upd_v at 1. rewrite Hv3. set (vc4 := set_vc_rx_cnt _ _). set (w4 := set_w_vchans _ w3).
  assert (Hv4 : w_vchans w4 !! v = Some vc4) by apply lookup_insert_eq.
  unfold bind at 1, upd_v at 1. rewrite Hv4. set (w5 := set_w_vchans _ w4).
  unfold bind. erewrite hab_vchan_put_kept; [|apply lookup_insert_eq|simpl; lia].
  unfold ret. do 2 f_equal. unfold w5, w4, w3, w2, w1. cbn [w_vchans set_w_vchans]. rewrite !insert_insert_eq.
  assert (Hss : forall x y (z : world HS), set_w_vchans x (set_w_vchans y z) = set_w_vchans x z) by (by intros x y []).
  rewrite !Hss. unfold vc4, vc2, vc1. destruct vc. cbn. by rewrite Z.add_simpl_r.
Qed.

Lemma send_data_eq (w : world HS) (c : nat) (cx : uhab_context) (l1 l2 : list nat) (v : nat)
    (vc : virtual_channel) (pc : physical_channel) (hs hs' : HS) (q flags : Z) (data : bytes)
    (t : hab_payload_type) (s : sched) :
  w_ctxs w !! c = Some cx -> cx_vchannels cx = l1 ++ v :: l2 ->
  Forall (fun u => exists uc, w_vchans w !! u = Some uc /\ vc_id uc <> vc_id vc) l1 ->
  w_vchans w !! v = Some vc -> vc_closed vc = false -> vc_otherend_closed vc = false ->
  1 <= vc_refcount vc -> zlen data <= HAB_HEADER_SIZE_MAX -> send_type flags (zlen data) = Some t ->
  w_pchans w !! vc_pchan vc = Some pc -> w_hyp w !! vc_pchan vc = Some hs ->
  phys_send pc hs (mk_header (zlen data) t (vc_otherend_id vc) (vc_session_id vc)) data = Some (0, q, hs') ->
  hab_vchan_send c (vc_id vc) data flags s w =
    Ok ((0, s),
      set_w_log (w_log w ++ [EvSend (vc_pchan vc)
        (mk_header (zlen data) t (vc_otherend_id vc) (vc_session_id vc)) data])
      (set_w_hyp (<[vc_pchan vc := hs']> (w_hyp w))
      (set_w_pchans (<[vc_pchan vc := set_pc_sequence_tx q pc]> (w_pchans w))
      (set_w_vchans (<[v := set_vc_tx_cnt (u64 (vc_tx_cnt vc + 1)) vc]> (w_vchans w)) w)))).
Proof.
  intros Hc Hl Hl1 Hv Hcl Hoc Href Hn Ht Hp Hh Hs.
  unfold hab_vchan_send. cbv zeta. rewrite (proj2 (Z.ltb_ge _ _)) by done.
  unfold bind at 1. erewrite hab_get_vchan_fromvcid_eq by eauto. cbn iota beta.
  unfold bind at 1, get_v at 1. cbn [w_vchans set_w_vchans]. rewrite lookup_insert_eq.
  cbn [vc_otherend_closed set_vc_refcount]. rewrite Hoc, Ht. cbn [vc_otherend_id vc_session_id set_vc_refcount].
  unfold bind at 1. set (hd := mk_header _ _ _ _) in *.
  match goal with |- context [send_loop v hd data ?nb s ?w1] =>
    assert (send_loop v hd data nb s w1 = Ok ((0, s), set_w_log (w_log w1 ++ [EvSend (vc_pchan vc) hd data])
      (set_w_hyp (<[vc_pchan vc := hs']> (w_hyp w1))
      (set_w_pchans (<[vc_pchan vc := set_pc_sequence_tx q pc]> (w_pchans w1)) w1)))) as -> end.
  { destruct s; cbn [send_loop]; unfold bind, get_v, physical_channel_send;
      cbn [w_vchans set_w_vchans]; rewrite lookup_insert_eq; cbn [vc_pchan set_vc_refcount w_pchans w_hyp set_w_vchans];
      rewrite Hp, Hh, Hs; cbn [w_vchans set_w_vchans set_w_log set_w_hyp set_w_pchans];
      rewrite lookup_insert_eq; cbn; by rewrite orb_true_r. }
  unfold bind, when, upd_v, ret. cbn [fst snd]. rewrite Z.eqb_refl.
  cbn [w_vchans set_w_vchans set_w_log set_w_hyp set_w_pchans]. rewrite lookup_insert_eq.
  erewrite hab_vchan_put_kept; [|apply lookup_insert_eq|simpl; lia].
  cbn [w_vchans set_w_vchans]. rewrite ?insert_insert_eq. destruct vc. cbn. by rewrite Z.add_simpl_r.
Qed.

End lemmas.

(** The open of a client on the loopback device: the answer of the other end,
    channel 9 of the same major version, arrives while it sleeps. *)
Definition answer_node (type fe be : Z) : hab_open_node :=
  Build_hab_open_node (Build_hab_open_request type (Some 0%nat)
    (Build_hab_open_send_data 9 0 6 fe be 1)) 100.

Definition answer_arrives {HS} (node : hab_open_node) : World.M HS unit := fun w =>
  match w_pchans w !! 0%nat with
  | Some pc =>
      (do! hab_pchan_get 0 in
       upd_d (pc_habdev pc) (fun d =>
         set_dv_openq_cnt (dv_openq_cnt d + 1) (set_dv_openq_list (dv_openq_list d ++ [node]) d))) w
  | None => Ok (tt, w)
  end.

Lemma answer_arrives_ok {HS} `{Platform HS} node :
  rq_pchan (on_request node) = Some 0%nat -> run_ok (HS := HS) (answer_arrives node).
Proof.
  intros Hn h w Hwf Hx. unfold answer_arrives, wp. destruct (w_pchans w !! 0%nat) as [pc|] eqn:Hp; [|done].
  exact (openq_push_spec h w 0 pc node (fun d => dv_openq_cnt d + 1) Hwf Hp Hn).
Qed.

Definition an_answer : hab_open_node := answer_node (payload_code HAB_PAYLOAD_TYPE_INIT_ACK) HAB_API_VER HAB_API_VER.



(** A context that listens, and a request of major version 2 that waits. *)
Definition sample_listener : world loopback_dev :=
  let w := sample quiet_lb in
  set_w_ctxs {[1%nat := set_cx_lb_be 1 sample_ctx]} w.

Definition request_2_0 : hab_open_node :=
  answer_node (payload_code HAB_PAYLOAD_TYPE_INIT) 0x20000 0.

Lemma backend_listen_mismatch_witness :
  exists w, w = match answer_arrives request_2_0 sample_listener with Ok (_, w) => w | _ => sample_listener end /\
  backend_loop 1 1 0 0 0 zero_request [] w = Fault NullDeref /\
  hab_vchan_open 1 101 0 zero_request [] w = Fault NullDeref.
Proof.
  eexists. split; [reflexivity|].
  match goal with |- backend_loop 1 1 0 0 0 zero_request [] ?w = _ /\ _ =>
    destruct (hab_open_listen 1 0 (hab_open_request_init zero_request (payload_code HAB_PAYLOAD_TYPE_INIT) None 0 0 0)
      0 [] w) as [[r w']| |] eqn:He; vm_compute in He; [|done|done] end.
  injection He as <- <-. split.
  - eapply (backend_listen_mismatch _ _ 0); [vm_compute; reflexivity|reflexivity].
  - vm_compute. reflexivity.
Defined.

(** an open that the other end cancelled in time succeeds all the same: a
    cancel answers any wait, and what it was is not looked at. *)
Lemma frontend_cancelled_opens :
  exists w', hab_vchan_open 1 101 0 zero_request
    [WakeRun (answer_arrives (answer_node (payload_code HAB_PAYLOAD_TYPE_INIT_CANCEL) HAB_API_VER HAB_API_VER))]
    (sample quiet_lb) = Ok ((0, vchan_id_word 3 101 0xFF, []), w').
Proof. eexists. vm_compute. reflexivity. Qed.
