(* ===== verification/VirtioDev.v ===== *)
(** The virtio devices (hypervisor/virtio/hab_virtio.c): the probed devices and the
    channels they serve, the start, the end, the suspension of a device, and the
    channels of a guest.  What the kernel answers is a parameter: the queues of a
    device and the contents of fresh memory. *)
From S2P Require Import Prelude Header World Logic Memory Invariant Pchan Exports Context Vchan Wait Open Loopback Sample Msg Mimex Progress Virtio Pools VirtioRx Hab.

(** A device of the kernel: which one, its device id, and whether it speaks version 1. *)
Record virtio_device := { vd_no : nat; vd_device : Z; vd_version_1 : bool }.

#[export] Instance virtio_device_eq_dec : EqDecision virtio_device.
Proof. solve_decision. Defined.

(** [vh_cbs] is whether the array of callbacks is there, [vh_slots] the array
    [vqpchans] as the mmid and the channel of each entry; the rest of an entry is kept
    in the channel's link. *)
(* src/hypervisor/virtio/hab_virtio.h:55-76 virtio_hab *)
Record virtio_hab := {
  vh_vdev : virtio_device;
  vh_mmid_start : Z;
  vh_mmid_range : Z;
  vh_vqs_offset : Z;
  vh_cbs : bool;
  vh_slots : list (Z * option nat);
  vh_ready : bool
}.

Definition set_vh_vqs_offset (x : Z) (r : virtio_hab) : virtio_hab :=
  Build_virtio_hab (vh_vdev r) (vh_mmid_start r) (vh_mmid_range r) x (vh_cbs r) (vh_slots r) (vh_ready r).
Definition set_vh_slots (x : list (Z * option nat)) (r : virtio_hab) : virtio_hab :=
  Build_virtio_hab (vh_vdev r) (vh_mmid_start r) (vh_mmid_range r) (vh_vqs_offset r) (vh_cbs r) x (vh_ready r).
Definition set_vh_ready (x : bool) (r : virtio_hab) : virtio_hab :=
  Build_virtio_hab (vh_vdev r) (vh_mmid_start r) (vh_mmid_range r) (vh_vqs_offset r) (vh_cbs r) (vh_slots r) x.

(** The objects of the probed devices, [vhab_list] and [vdev_tbl]. *)
(* src/hypervisor/virtio/hab_virtio.c:25-32 vhab_list *)
Record vhab_state := {
  vs_habs : gmap nat virtio_hab;
  vs_list : list nat;
  vs_tbl : list (Z * Z * option virtio_device)
}.

(* src/hypervisor/virtio/hab_virtio.c:15-15 HAB_VIRTIO_DEVICE_ID_HAB *)
Definition HAB_VIRTIO_DEVICE_ID_HAB : Z := 88.

(* src/hypervisor/virtio/hab_virtio.c:32-41 vdev_tbl *)
Definition vdev_tbl : list (Z * Z * option virtio_device) :=
  [(0, 88, None); (1001, 89, None); (601, 90, None); (101, 91, None); (201, 92, None); (301, 93, None); (401, 94, None);
   (501, 95, None)].

(* src/hypervisor/virtio/hab_virtio.c:631-642 virthab_store_vdev *)
Fixpoint virthab_store_vdev (mmid : Z) (vdev : virtio_device) (tbl : list (Z * Z * option virtio_device)) :
    list (Z * Z * option virtio_device) :=
  match tbl with
  | [] => []
  | (m, i, o) :: tbl => if m =? mmid then (m, i, Some vdev) :: tbl else (m, i, o) :: virthab_store_vdev mmid vdev tbl
  end.

(* src/hypervisor/virtio/hab_virtio.c:644-658 virthab_get_vdev *)
Fixpoint virthab_get_vdev (mmid : Z) (tbl : list (Z * Z * option virtio_device)) : option virtio_device :=
  match tbl with
  | [] => None
  | (m, _, o) :: tbl => if m =? mmid then o else virthab_get_vdev mmid tbl
  end.

(** The object of a device.  For a device that is not listed the caller is handed the
    list's head taken for an object. *)
(* src/hypervisor/virtio/hab_virtio.c:92-105 get_vh *)
Fixpoint get_vh_walk (habs : gmap nat virtio_hab) (vdev : virtio_device) (l : list nat) : res (nat * virtio_hab) :=
  match l with
  | [] => Fault OutOfBounds
  | a :: l =>
      match habs !! a with
      | None => Fault UseAfterFree
      | Some vh => if bool_decide (vh_vdev vh = vdev) then Ok (a, vh) else get_vh_walk habs vdev l
      end
  end.
(* src/hypervisor/virtio/hab_virtio.c:92-105 get_vh *)
Definition get_vh (s : vhab_state) (vdev : virtio_device) : res (nat * virtio_hab) :=
  get_vh_walk (vs_habs s) vdev (vs_list s).

(** The entry of a queue; the test lets the index of the entry after the last one
    through. *)
(* src/hypervisor/virtio/hab_virtio.c:107-118 get_virtio_pchan *)
Definition get_virtio_pchan (ndevices : Z) (vh : virtio_hab) (vq_index : Z) : res (option (Z * option nat)) :=
  let index := i32 (vq_index - vh_vqs_offset vh) in
  if (ndevices * 2 <? index) || (index <? 0) then Ok None
  else let? slot := of_opt OutOfBounds (vh_slots vh !! Z.to_nat (index / 2)) in Ok (Some slot).

(** The mmids that a probed device has taken. *)
(* src/hypervisor/virtio/hab_virtio.c:600-606 taken_range_calc *)
Fixpoint taken_loop (devs : list hab_device) (mmid_start mmid_range : Z) (i : Z) (l : list hab_device) (taken : Z * Z) : res (Z * Z) :=
  match l with
  | [] => Ok taken
  | d :: l =>
      if mmid_start =? dv_id d then
        let j := i + mmid_range - 1 in
        let? e := (if j <? 0 then Fault OutOfBounds else of_opt OutOfBounds (devs !! Z.to_nat j)) in
        taken_loop devs mmid_start mmid_range (i + 1) l (mmid_start, dv_id e)
      else taken_loop devs mmid_start mmid_range (i + 1) l taken
  end.
(* src/hypervisor/virtio/hab_virtio.c:593-607 taken_range_calc *)
Definition taken_range_calc (devs : list hab_device) (mmid_start mmid_range : Z) : res (Z * Z) :=
  taken_loop devs mmid_start mmid_range 0 devs (0, 0).

(** Only the start of the asked range is compared with what is taken. *)
(* src/hypervisor/virtio/hab_virtio.c:609-629 virthab_pchan_avail_check *)
Fixpoint virthab_pchan_avail_check (devs : list hab_device) (habs : gmap nat virtio_hab) (id mmid_start mmid_range : Z) (l : list nat) :
    res bool :=
  match l with
  | [] => Ok true
  | a :: l =>
      match habs !! a with
      | None => Fault UseAfterFree
      | Some vh =>
          if vd_device (vh_vdev vh) =? id then Ok false
          else
            let? taken := taken_range_calc devs (vh_mmid_start vh) (vh_mmid_range vh) in
            if (taken.1 <=? mmid_start) && (mmid_start <=? taken.2) then Ok false
            else virthab_pchan_avail_check devs habs id mmid_start mmid_range l
      end
  end.

(** The mmids that a device serves, by its device id, and the entry of [vdev_tbl] it is
    stored in.  An id that is not known gets no mmid. *)
(* src/hypervisor/virtio/hab_virtio.c:680-719 virthab_probe *)
Definition probe_range (devs : list hab_device) (device : Z) : option (Z * Z * Z) :=
  if device =? HAB_VIRTIO_DEVICE_ID_HAB then (fun d => (dv_id d, zlen devs, 0)) <$> head devs
  else if device =? 89 then Some (1001, 1002 - 1000 - 1, 1001)
  else if device =? 90 then Some (601, 602 - 600 - 1, 601)
  else if device =? 91 then Some (101, 105 - 100 - 1, 101)
  else if device =? 92 then Some (201, 203 - 200 - 1, 201)
  else if device =? 93 then Some (301, 306 - 300 - 1, 301)
  else if device =? 94 then Some (401, 402 - 400 - 1, 401)
  else if device =? 95 then Some (501, 504 - 500 - 1, 501)
  else None.

Section ops.
Context {VQ : Type} `{Virtqueue VQ} `{Platform (virtio_pchan_link VQ)} `{KernelIdr}.
#[local] Abbreviation M := (World.M (virtio_pchan_link VQ)).
Implicit Types (vpc : vq_pchan VQ).

(** What [virtio_find_vqs] answers for a number of queues, and what fresh memory
    holds. *)
Context (virtio_find_vqs : virtio_device -> Z -> Z + list VQ) (kmalloc_mem : nat -> Z -> bytes).

(** [n] names. *)
(* src/hypervisor/virtio/hab_virtio.c:548-552 virthab_alloc_mmid_device *)
Fixpoint alloc_names (n : nat) : M bool :=
  match n with
  | O => ret true
  | S n => let! a := kalloc in match a with None => ret false | Some _ => alloc_names n end
  end.

(** That the callbacks could not be allocated goes unnoticed. *)
(* src/hypervisor/virtio/hab_virtio.c:522-558 virthab_alloc_mmid_device *)
Definition virthab_alloc_mmid_device (vdev : virtio_device) (mmid_start mmid_range : Z) : M (Z + virtio_hab) :=
  let! vqs := kalloc in
  match vqs with
  | None => ret (inl (- ENOMEM))
  | Some _ =>
      let! cbs := kalloc in
      let! names := kalloc in
      match names with
      | None => ret (inl (- ENOMEM))
      | Some _ =>
          let! vqpchans := kalloc in
          match vqpchans with
          | None => ret (inl (- ENOMEM))
          | Some _ =>
              let! ok := alloc_names (Z.to_nat (mmid_range * 2)) in
              let! devs := gets w_devs in
              if ok then
                ret (inr (Build_virtio_hab vdev mmid_start mmid_range 0 (bool_decide (is_Some cbs))
                            (repeat (0, None) (length devs)) false))
              else ret (inl (- ENOMEM))
          end
      end
  end.

(** A failure leaks the object. *)
(* src/hypervisor/virtio/hab_virtio.c:560-590 virthab_alloc *)
Definition virthab_alloc (s : vhab_state) (vdev : virtio_device) (mmid_start mmid_range : Z) : M (Z * option nat * vhab_state) :=
  let! o := kalloc in
  match o with
  | None => ret (- ENOMEM, None, s)
  | Some a =>
      let! r := virthab_alloc_mmid_device vdev mmid_start mmid_range in
      match r with
      | inl e => ret (e, None, s)
      | inr vh => ret (0, Some a, Build_vhab_state (<[a := vh]> (vs_habs s)) (vs_list s ++ [a]) (vs_tbl s))
      end
  end.

(** The entries for the devices from [idx] on; an entry of a device without a channel
    keeps what it has. *)
(* src/hypervisor/virtio/hab_virtio.c:418-446 virthab_init_vqs_pre *)
Fixpoint fill_slots (devs : list hab_device) (idx : nat) (n : nat) (i : nat) (slots : list (Z * option nat)) : res (list (Z * option nat)) :=
  match n with
  | O => Ok slots
  | S n =>
      let? dv := of_opt OutOfBounds (devs !! (idx + i)%nat) in
      let? old := of_opt OutOfBounds (slots !! i) in
      let slot := (dv_id dv, match dv_pchannels dv with p :: _ => Some p | [] => old.2 end) in
      fill_slots devs idx n (S i) (<[i := slot]> slots)
  end.

(* src/hypervisor/virtio/hab_virtio.c:386-449 virthab_init_vqs_pre *)
Definition virthab_init_vqs_pre (vh : virtio_hab) : M (Z * virtio_hab) :=
  let! o := find_hab_device (vh_mmid_start vh) in
  match o with
  | None => ret (- ENODEV, vh)
  | Some d =>
      let! devs := gets w_devs in
      if zlen devs <? Z.of_nat d + vh_mmid_range vh then ret (- EINVAL, vh)
      else if negb (vh_cbs vh) && (0 <? vh_mmid_range vh) then fail NullDeref
      else
        let! slots := lift (fill_slots devs d (Z.to_nat (vh_mmid_range vh)) 0 (vh_slots vh)) in
        ret (0, set_vh_slots slots vh)
  end.

(** An entry that was just allocated, with its queues. *)
(* src/hypervisor/virtio/hab_virtio.c:541-542 virthab_alloc_mmid_device *)
Definition new_vpc (mmid : Z) (p : nat) (a : nat) (tx rx : VQ) : vq_pchan VQ :=
  Build_vq_pchan mmid (Some p) (Some a) tx rx None [] 0 None [] 0 None [] 0 [] 0 None 0 0 true false.

(** The entry of the object [a] with its queues: what it was when [a] had it already. *)
(* src/hypervisor/virtio/hab_virtio.c:460-479 virthab_init_vqs_post *)
Definition connect_entry (a : nat) (mmid : Z) (p : nat) (tx rx : VQ) (old : option (vq_pchan VQ)) : vq_pchan VQ :=
  match old with
  | Some vpc => if bool_decide (vp_vhab vpc = Some a)
                then set_vp_task false (set_vp_pchan_ready true (set_vp_rx rx (set_vp_tx tx (set_vp_mmid mmid vpc))))
                else new_vpc mmid p a tx rx
  | None => new_vpc mmid p a tx rx
  end.

(** Of the entry [i] on: its channel's link is connected. *)
(* src/hypervisor/virtio/hab_virtio.c:459-486 virthab_init_vqs_post *)
Fixpoint connect_slots (a : nat) (vqs : list VQ) (n : nat) (i : nat) (slots : list (Z * option nat)) : M unit :=
  match n with
  | O => ret tt
  | S n =>
      let! slot := lift (of_opt OutOfBounds (slots !! i)) in
      let! tx := lift (of_opt OutOfBounds (vqs !! (2 * i)%nat)) in
      let! rx := lift (of_opt OutOfBounds (vqs !! (2 * i + 1)%nat)) in
      let! p := deref (slot.2) in
      let! ln := get_ln p in
      do! put_ln p (set_ln_vhab (Some a) (set_ln_vpc (Some (connect_entry a (slot.1) p tx rx (ln_vpc ln))) ln)) in
      connect_slots a vqs n (S i) slots
  end.

(* src/hypervisor/virtio/hab_virtio.c:452-489 virthab_init_vqs_post *)
Definition virthab_init_vqs_post (a : nat) (vh : virtio_hab) (vqs : list VQ) : M Z :=
  do! connect_slots a vqs (Z.to_nat (vh_mmid_range vh)) 0 (vh_slots vh) in ret 0.

(* src/hypervisor/virtio/hab_virtio.c:492-520 virthab_init_vqs *)
Definition virthab_init_vqs (a : nat) (vh : virtio_hab) : M (Z * virtio_hab) :=
  let! r := virthab_init_vqs_pre vh in
  let '(ret0, vh) := r in
  if negb (ret0 =? 0) then ret (ret0, vh)
  else
    match virtio_find_vqs (vh_vdev vh) (vh_mmid_range vh * 2) with
    | inl e => ret (e, vh)
    | inr vqs =>
        let vh := set_vh_vqs_offset 0 vh in
        let! r := virthab_init_vqs_post a vh vqs in
        ret (r, vh)
    end.

(** The pools of a channel: the memory of the four is asked for before any is looked
    at. *)
(* src/hypervisor/virtio/hab_virtio.c:309-326 virthab_queue_inbufs *)
Definition alloc_pools vpc : M (bool * vq_pchan VQ) :=
  let! i := kalloc in
  let! s := kalloc in
  let! m := kalloc in
  let! l := kalloc in
  let mem t o := (fun a => kmalloc_mem a (pool_size t)) <$> o in
  let vpc := set_vp_s_cnt 0 (set_vp_m_cnt 0 (set_vp_l_cnt 0 (set_vp_in_cnt 0 vpc))) in
  let vpc := set_vp_s_pool (mem PT_OUT_SMALL s) (set_vp_m_pool (mem PT_OUT_MEDIUM m) (set_vp_l_pool (mem PT_OUT_LARGE l) vpc)) in
  ret (bool_decide (is_Some i /\ is_Some s /\ is_Some m /\ is_Some l), vpc).

(* src/hypervisor/virtio/hab_virtio.c:329-344 virthab_queue_inbufs *)
Definition init_pools vpc : vq_pchan VQ :=
  let init t cnt := init_pool_list (buf_size t) (buf_num t) t cnt in
  let i := init PT_IN (vp_in_cnt vpc) in
  let s := init PT_OUT_SMALL (vp_s_cnt vpc) in
  let m := init PT_OUT_MEDIUM (vp_m_cnt vpc) in
  let l := init PT_OUT_LARGE (vp_l_cnt vpc) in
  set_vp_in_list (i.1) (set_vp_in_cnt (i.2) (set_free PT_OUT_SMALL (s.1) (s.2) (set_free PT_OUT_MEDIUM (m.1) (m.2)
    (set_free PT_OUT_LARGE (l.1) (l.2) vpc)))).

(** Every buffer leaves the list, taken by the queue or not. *)
(* src/hypervisor/virtio/hab_virtio.c:362-373 virthab_queue_inbufs *)
Fixpoint add_inbufs (l : list vh_buf_header) vpc : vq_pchan VQ :=
  match l with
  | [] => vpc
  | hd :: l => add_inbufs l (set_vp_rx (virtqueue_add_inbuf (vp_rx vpc) hd).2 (set_vp_in_list l (set_vp_in_cnt (vp_in_cnt vpc - 1) vpc)))
  end.

(* src/hypervisor/virtio/hab_virtio.c:305-381 virthab_queue_inbufs *)
Fixpoint queue_slots (alloc : bool) (l : list (Z * option nat)) : M Z :=
  match l with
  | [] => ret 0
  | (_, o) :: l =>
      let! p := deref o in
      let! vpc := get_vpc p in
      let! r := (if alloc then alloc_pools vpc else ret (true, vpc)) in
      let '(ok, vpc) := r in
      if negb ok then do! put_vpc p vpc in ret (- ENOMEM)
      else
        let vpc := (if alloc then init_pools vpc else vpc) in
        let vpc := add_inbufs (vp_in_list vpc) vpc in
        do! put_vpc p (set_vp_rx (virtqueue_kick (vp_rx vpc)).2 vpc) in
        queue_slots alloc l
  end.

(* src/hypervisor/virtio/hab_virtio.c:298-383 virthab_queue_inbufs *)
Definition virthab_queue_inbufs (vh : virtio_hab) (alloc : bool) : M Z :=
  queue_slots alloc (take (Z.to_nat (vh_mmid_range vh)) (vh_slots vh)).

Definition put_hab (a : nat) (vh : virtio_hab) (s : vhab_state) : vhab_state :=
  Build_vhab_state (<[a := vh]> (vs_habs s)) (vs_list s) (vs_tbl s).

(** When the queues cannot be set up the object is freed and stays listed. *)
(* src/hypervisor/virtio/hab_virtio.c:662-756 virthab_probe *)
Definition virthab_probe (s : vhab_state) (vdev : virtio_device) : M (Z * vhab_state) :=
  let! devs := gets w_devs in
  if negb (vd_version_1 vdev) then ret (- ENODEV, s)
  else
    let '(mmid_start, mmid_range, tbl) :=
      match probe_range devs (vd_device vdev) with
      | Some (start, range, m) => (start, range, virthab_store_vdev m vdev (vs_tbl s))
      | None => (0, 0, vs_tbl s)
      end in
    let s := Build_vhab_state (vs_habs s) (vs_list s) tbl in
    let! avail := lift (virthab_pchan_avail_check devs (vs_habs s) (vd_device vdev) mmid_start mmid_range (vs_list s)) in
    if negb avail then ret (- EINVAL, s)
    else
      let! r := virthab_alloc s vdev mmid_start mmid_range in
      let '(e, o, s) := r in
      match o with
      | None => ret (e, s)
      | Some a =>
          let! vh := lift (of_opt UseAfterFree (vs_habs s !! a)) in
          let! r := virthab_init_vqs a vh in
          let '(err, vh) := r in
          if negb (err =? 0) then ret (err, Build_vhab_state (delete a (vs_habs s)) (vs_list s) (vs_tbl s))
          else
            let! r := virthab_queue_inbufs vh true in
            if negb (r =? 0) then ret (r, put_hab a vh s)
            else ret (0, put_hab a (set_vh_ready true vh) s)
      end.

(** The channels are disconnected from the device; its buffers go with their memory. *)
(* src/hypervisor/virtio/hab_virtio.c:771-789 virthab_remove *)
Fixpoint disconnect_slots (l : list (Z * option nat)) : M unit :=
  match l with
  | [] => ret tt
  | (_, o) :: l =>
      let! p := deref o in
      let! ln := get_ln p in
      do! put_ln p (set_ln_vpc None (set_ln_vhab None ln)) in
      disconnect_slots l
  end.

(* src/hypervisor/virtio/hab_virtio.c:758-805 virthab_remove *)
Definition virthab_remove (s : vhab_state) (vdev : virtio_device) : M vhab_state :=
  let! r := lift (get_vh s vdev) in
  let '(a, vh) := r in
  do! disconnect_slots (take (Z.to_nat (vh_mmid_range vh)) (vh_slots vh)) in
  ret (Build_vhab_state (delete a (vs_habs s)) (list_del a (vs_list s)) (vs_tbl s)).

(** The queues are deleted with the buffers that are on them; the channels are still
    marked ready. *)
(* src/hypervisor/virtio/hab_virtio.c:808-819 virthab_freeze *)
Definition virthab_freeze (s : vhab_state) (vdev : virtio_device) : res (Z * vhab_state) :=
  let? r := get_vh s vdev in Ok (0, put_hab r.1 (set_vh_ready false r.2) s).

(* src/hypervisor/virtio/hab_virtio.c:821-834 virthab_restore *)
Definition virthab_restore (s : vhab_state) (vdev : virtio_device) : M (Z * vhab_state) :=
  let! r := lift (get_vh s vdev) in
  let '(a, vh) := r in
  let! r := virthab_init_vqs a vh in
  let '(err, vh) := r in
  if negb (err =? 0) then ret (err, put_hab a vh s)
  else
    let vh := set_vh_ready true vh in
    let! _ := virthab_queue_inbufs vh false in
    ret (0, put_hab a vh s).

(** ** The callbacks of the queues *)

(** The queue's entry, by its device and its index. *)
Definition queue_slot (s : vhab_state) (vdev : virtio_device) (vq_index : Z) : M (Z * option nat) :=
  let! r := lift (get_vh s vdev) in
  let! devs := gets w_devs in
  let! o := lift (get_virtio_pchan (zlen devs) r.2 vq_index) in
  match o with None => fail NullDeref | Some slot => ret slot end.

(* src/hypervisor/virtio/hab_virtio.c:121-182 virthab_recv_txq *)
Definition recv_txq_callback (s : vhab_state) (vdev : virtio_device) (vq_index : Z) : M unit :=
  let! slot := queue_slot s vdev vq_index in
  let! p := deref (slot.2) in
  let! vpc := get_vpc p in
  let! vpc := lift (virthab_recv_txq vpc) in
  put_vpc p vpc.

(* src/hypervisor/virtio/hab_virtio.c:262-268 virthab_recv_rxq_task *)
Definition recv_rxq_callback (s : vhab_state) (vdev : virtio_device) (vq_index : Z) : M unit :=
  let! slot := queue_slot s vdev vq_index in
  let! p := deref (slot.2) in
  virthab_recv_rxq_task p.

(** ** The channels of a guest *)

(** On an error the channel is freed although its device lists it. *)
(* src/hypervisor/virtio/hab_virtio.c:1069-1106 habvirtio_pchan_create *)
Definition habvirtio_pchan_create (d : nat) : M Z :=
  let! now := gets w_now in
  let! id := (let! dv := get_d d in ret (dv_id dv)) in
  let! o := hab_pchan_alloc d LOOPBACK_DOM (Build_virtio_pchan_link id None None now) in
  match o with
  | None => ret (- ENOMEM)
  | Some p =>
      do! upd_p p (set_pc_closed false) in
      let! a := kalloc in
      match a with
      | None => do! modify (fun w => set_w_pchans (delete p (w_pchans w)) w) in ret (- ENOMEM)
      | Some _ => ret 0
      end
  end.

(** The reference that the lookup takes is kept. *)
(* src/hypervisor/virtio/hab_virtio.c:1108-1128 habhyp_commdev_alloc *)
Definition virtio_commdev_alloc (is_be : bool) (vmid_remote : Z) (d : nat) : M (Z * option nat) :=
  let! r := habvirtio_pchan_create d in
  if negb (r =? 0) then ret (r, None)
  else
    let! o := hab_pchan_find_domid d HABCFG_VMID_DONT_CARE in
    ret (r, o).

(** The channel before this one on its device's list. *)
Fixpoint list_prev (p : nat) (prev : option nat) (l : list nat) : option nat :=
  match l with
  | [] => None
  | q :: l => if decide (q = p) then prev else list_prev p (Some q) l
  end.

(** What is handed in is a channel and is taken for a link: the pointer to the link's
    channel is where a channel has the pointer to the one before it on the list, which
    for the first one is the list's head. *)
(* src/hypervisor/virtio/hab_virtio.c:1130-1141 habhyp_commdev_dealloc *)
Definition virtio_commdev_dealloc (p : nat) : M Z :=
  let! pc := get_p p in
  let! dv := get_d (pc_habdev pc) in
  match list_prev p None (dv_pchannels dv) with
  | None => fail OutOfBounds
  | Some q =>
      let! _ := get_p q in
      do! modify (fun w => set_w_pchans (delete p (w_pchans w)) w) in
      do! hab_pchan_put q in
      ret 0
  end.

(** The report of a channel takes a used buffer off each queue and forgets it.
    [print] is what printing a line into the caller's buffer answers. *)
(* src/hypervisor/virtio/hab_virtio.c:1143-1178 hab_stat_log *)
Fixpoint virtio_stat_log (print : vq_pchan VQ -> Z) (pchans : list nat) : M Z :=
  match pchans with
  | [] => ret 0
  | p :: pchans =>
      let! ln := get_ln p in
      match ln_vpc ln with
      | None => virtio_stat_log print pchans
      | Some vpc =>
          let vpc := set_vp_rx (virtqueue_get_buf (vp_rx vpc)).2 (set_vp_tx (virtqueue_get_buf (vp_tx vpc)).2 vpc) in
          do! put_vpc p vpc in
          let r := print vpc in
          if negb (r =? 0) then ret r else virtio_stat_log print pchans
      end
  end.
End ops.
