(* ===== verification/VirtioProbe.v ===== *)
(** What the probe of a virtio device gives: each of its channels is up, with the pools
    and the queues in the order that sending and reception rely on; and what becomes of
    a device that is suspended or whose probe fails. *)
From S2P Require Import Prelude Header World Logic Memory Invariant Pchan Exports Context Vchan Wait Open Loopback Sample Msg Mimex Progress Virtio Pools VirtioRx Hab VirtioDev.

Section pools.
Context {VQ : Type} `{Virtqueue VQ}.
Implicit Types (vpc : vq_pchan VQ).

(** *** The pools *)

Lemma init_pool_list_eq t cnt : init_pool_list (buf_size t) (buf_num t) t cnt = (pool_hds t, cnt + zlen (pool_hds t)).
Proof. done. Qed.

Lemma pool_hds_ok t : Forall (fun hd => hd_pool_type hd = t /\ hd_ok hd /\ core hd = hd) (pool_hds t) /\
  NoDup (hd_id <$> pool_hds t) /\ zlen (pool_hds t) = buf_num t.
Proof.
  assert (Hn : 0 <= buf_num t) by by destruct t. unfold pool_hds, init_pool_list. cbn [fst]. split; [|split].
  - pose proof (init_pool_from_ok t (Z.to_nat (buf_num t)) 0 0 ltac:(lia) ltac:(lia) eq_refl) as Hok.
    assert (Hcore : forall n i ptr, Forall (fun hd => core hd = hd) (init_pool_from (buf_size t) t i n ptr)).
    { induction n; intros i ptr; cbn [init_pool_from]; constructor; [done|apply IHn]. }
    specialize (Hcore (Z.to_nat (buf_num t)) 0 0). rewrite list.Forall_forall in Hok, Hcore |- *.
    intros hd Hin. destruct (Hok hd Hin) as (? & ? & _). by split_and!; [| |apply Hcore].
  - apply init_pool_from_NoDup; lia.
  - assert (Hlen : forall n i ptr, length (init_pool_from (buf_size t) t i n ptr) = n) by (induction n; intros; simpl; [done|by rewrite IHn]).
    unfold zlen. rewrite Hlen. lia.
Qed.

Lemma NoDup_app_tagged {A} (f : A -> pool_type_t) (g : A -> pool_type_t * Z) l1 l2 :
  (forall x, (g x).1 = f x) -> (forall x y, x ∈ l1 -> y ∈ l2 -> f x <> f y) -> NoDup (g <$> l1) -> NoDup (g <$> l2) -> NoDup (g <$> (l1 ++ l2)).
Proof.
  intros Hf Hne H1 H2. rewrite fmap_app. apply list.NoDup_app. split; [done|]. split; [|done].
  intros i (x & -> & Hx)%list_elem_of_fmap (y & He & Hy)%list_elem_of_fmap. apply (Hne x y Hx Hy). by rewrite <- !Hf, He.
Qed.

(** The pools of an entry with their memory and their buffers. *)
Lemma init_pools_ok vpc (ms mm ml : bytes) :
  vq_held (vp_tx vpc) = [] -> vp_s_pool vpc = Some ms -> vp_m_pool vpc = Some mm -> vp_l_pool vpc = Some ml ->
  zlen ms = pool_size PT_OUT_SMALL -> zlen mm = pool_size PT_OUT_MEDIUM -> zlen ml = pool_size PT_OUT_LARGE ->
  vp_s_cnt vpc = 0 -> vp_m_cnt vpc = 0 -> vp_l_cnt vpc = 0 ->
  vpc_ok (init_pools vpc).
Proof.
  intros Htx Hs Hm Hl Zs Zm Zl Cs Cm Cl. unfold init_pools. rewrite !init_pool_list_eq. cbn [fst snd]. rewrite Cs, Cm, Cl. cbn [set_free].
  destruct (pool_hds_ok PT_OUT_SMALL) as (Os & Ns & _), (pool_hds_ok PT_OUT_MEDIUM) as (Om & Nm & _), (pool_hds_ok PT_OUT_LARGE) as (Ol & Nl & _).
  set (S := pool_hds PT_OUT_SMALL) in *. set (M := pool_hds PT_OUT_MEDIUM) in *. set (L := pool_hds PT_OUT_LARGE) in *.
  clearbody S M L. set (v := set_vp_in_list _ _).
  assert (Hall : Forall (fun hd => hd_pool_type hd <> PT_IN /\ hd_ok hd /\ core hd = hd) (S ++ M ++ L)).
  { rewrite !Forall_app. split_and!; (eapply list.Forall_impl; [eassumption|]); intros hd (-> & ? & ?); by split_and!. }
  assert (Hc : cores v = S ++ M ++ L).
  { unfold cores, out_bufs. unfold v. simpl. rewrite Htx, app_nil_r. clear -Hall. induction Hall as [|hd l (? & ? & Hcore) _ IH]; [done|].
    rewrite fmap_cons, Hcore. by f_equal. }
  rewrite list.Forall_forall in Os, Om, Ol.
  constructor.
  - intros t Ht. destruct t; try done; eexists; split; try reflexivity; try eassumption; unfold v; simpl; eassumption.
  - intros t Ht. destruct t; try done; apply list.Forall_forall; unfold v; simpl; intros hd Hin.
    + by apply Os.
    + by apply Om.
    + by apply Ol.
  - intros t Ht. destruct t; try done.
  - rewrite Hc. eapply list.Forall_impl; [exact Hall|]. by intros hd (? & ? & _).
  - rewrite Hc. apply (NoDup_app_tagged hd_pool_type hd_id); [done| |done|].
    + intros x y Hx Hy. rewrite (proj1 (Os x Hx)). apply elem_of_app in Hy as [Hy|Hy]; [rewrite (proj1 (Om y Hy))|rewrite (proj1 (Ol y Hy))]; done.
    + apply (NoDup_app_tagged hd_pool_type hd_id); [done| |done|done].
      intros x y Hx Hy. by rewrite (proj1 (Om x Hx)), (proj1 (Ol y Hy)).
Qed.
End pools.

(** ** A device that comes up *)

Section probe.
Context {VQ : Type} `{Virtqueue VQ} `{Platform (virtio_pchan_link VQ)} `{KernelIdr}.
Context (good : VQ -> Prop) (left : VQ -> nat) (Hdev : device_ok good left).
Context (find_vqs : virtio_device -> Z -> Z + list VQ) (kmalloc_mem : nat -> Z -> bytes).
Hypothesis kmalloc_len : forall a n, 0 <= n -> zlen (kmalloc_mem a n) = n.
Implicit Types (vpc : vq_pchan VQ) (w : world (virtio_pchan_link VQ)) (h : held).

(** The pools for sending do not depend on the receiving side. *)
Lemma vpc_ok_rx q l n vpc : vpc_ok vpc -> vpc_ok (set_vp_rx q (set_vp_in_list l (set_vp_in_cnt n vpc))).
Proof.
  intros [Hp Hl Hc Hb Hi]. constructor; try done.
  - intros t Ht. specialize (Hl t Ht). by destruct t.
  - intros t Ht. specialize (Hc t Ht). by destruct t.
Qed.

Lemma add_inbufs_ok l : forall vpc, good (vp_rx vpc) ->
  exists q i, add_inbufs l vpc = set_vp_rx q (set_vp_in_list i (set_vp_in_cnt (vp_in_cnt vpc - zlen l) vpc)) /\ good q /\
    vq_held q ≡ₚ l ++ vq_held (vp_rx vpc).
Proof.
  induction l as [|hd l IH]; intros vpc Hg; cbn [add_inbufs].
  - exists (vp_rx vpc), (vp_in_list vpc). split; [|done]. unfold zlen. cbn [length Z.of_nat]. rewrite Z.sub_0_r. by destruct vpc.
  - destruct (virtqueue_add_inbuf (vp_rx vpc) hd) as [r q1] eqn:Ha. pose proof (vq_add_in_held _ _ _ _ Ha) as Hq1.
    pose proof (do_add _ _ Hdev (vp_rx vpc) hd Hg) as Hadd. rewrite Ha in Hadd. destruct Hadd as (Hr & Hg1 & _). cbn [fst snd] in *.
    rewrite Hr in Hq1. cbn [Z.eqb app] in Hq1.
    destruct (IH (set_vp_rx q1 (set_vp_in_list l (set_vp_in_cnt (vp_in_cnt vpc - 1) vpc))) Hg1) as (q & i & -> & Hg' & Hq).
    exists q, i. split; [|split; [done|]].
    + cbn. unfold zlen. cbn [length]. replace (vp_in_cnt vpc - Z.of_nat (S (length l))) with (vp_in_cnt vpc - 1 - Z.of_nat (length l)) by lia. done.
    + rewrite Hq. cbn [vp_rx set_vp_rx]. rewrite Hq1. solve_Permutation.
Qed.

(** A channel that is up: it can send, and its device has every buffer for reception. *)
Definition up (mmid : Z) vpc : Prop :=
  vp_mmid vpc = mmid /\ vpc_ok vpc /\ rx_ok good (pool_hds PT_IN) vpc /\ vp_in_cnt vpc = 0.

(** From the fresh entry to the channel that is up. *)
Lemma fresh_up mmid p a tx rx (ms mm ml : bytes) :
  vq_held tx = [] -> good rx -> vq_held rx = [] ->
  zlen ms = pool_size PT_OUT_SMALL -> zlen mm = pool_size PT_OUT_MEDIUM -> zlen ml = pool_size PT_OUT_LARGE ->
  let vpc := init_pools (set_vp_s_pool (Some ms) (set_vp_m_pool (Some mm) (set_vp_l_pool (Some ml) (new_vpc mmid p a tx rx)))) in
  let vpc := add_inbufs (vp_in_list vpc) vpc in
  up mmid (set_vp_rx (virtqueue_kick (vp_rx vpc)).2 vpc).
Proof.
  intros Htx Hg Hrx Zs Zm Zl v0. set (nv := set_vp_s_pool _ _) in v0.
  assert (Hok : vpc_ok v0) by (apply (init_pools_ok nv ms mm ml); done).
  assert (Hin : vp_in_list v0 = pool_hds PT_IN /\ vp_in_cnt v0 = zlen (pool_hds PT_IN) /\ vp_rx v0 = rx /\
    vp_pchan_ready v0 = true /\ vp_mmid v0 = mmid).
  { unfold v0, init_pools. rewrite !init_pool_list_eq. generalize (pool_hds PT_IN), (pool_hds PT_OUT_SMALL), (pool_hds PT_OUT_MEDIUM), (pool_hds PT_OUT_LARGE).
    intros. by split_and!. }
  clearbody v0. destruct Hin as (El & Ec & Er & Ey & Em). rewrite El.
  destruct (pool_hds_ok PT_IN) as (Hall & _ & _). unfold up. set (l := pool_hds PT_IN) in *. clearbody l. cbv zeta.
  destruct (add_inbufs_ok l v0) as (q1 & i1 & -> & Hg1 & Hq1); [by rewrite Er|].
  destruct (virtqueue_kick (vp_rx _)) as [k q2] eqn:Hk. cbn [vp_rx set_vp_rx] in Hk. pose proof (vq_kick_held _ _ _ Hk) as Hq2.
  pose proof (do_kick _ _ Hdev q1 Hg1) as Hkk. rewrite Hk in Hkk. destruct Hkk as (Hg2 & _). cbn [fst snd] in *.
  rewrite Er, Hrx, app_nil_r in Hq1. rewrite Hq1 in Hq2.
  split; [done|]. split; [by apply (vpc_ok_rx q2)|]. split; [|cbn; lia].
  split; [done|]. cbn [vp_rx set_vp_rx vp_pchan_ready]. rewrite Hq2. split; [|split; [done|]].
  - eapply list.Forall_impl; [exact Hall|]. by intros hd (? & ? & _).
  - clear -Hall. induction Hall as [|hd l (_ & _ & Hc) _ IH]; [done|]. rewrite fmap_cons, Hc. by constructor.
Qed.

(** What the loops over the channels of a device leave alone. *)
Definition links_only (P : nat -> Prop) w w' : Prop :=
  frame w w' /\ w_alloc w' = w_alloc w /\ w_devs w' = w_devs w /\ (forall q, ~ P q -> w_hyp w' !! q = w_hyp w !! q).

Lemma links_only_refl P w : links_only P w w.
Proof. split; [apply frame_refl|done]. Qed.

Lemma links_only_trans (P Q R : nat -> Prop) w1 w2 w3 :
  links_only P w1 w2 -> links_only Q w2 w3 -> (forall q, P q -> R q) -> (forall q, Q q -> R q) -> links_only R w1 w3.
Proof.
  intros (F1 & A1 & D1 & H1') (F2 & A2 & D2 & H2') HP HQ. split; [by eapply frame_trans|]. split; [congruence|]. split; [congruence|].
  intros q Hq. rewrite H2', H1' by auto. done.
Qed.

Lemma wp_get_ln p ln (Q : virtio_pchan_link VQ -> world _ -> Prop) w : w_hyp w !! p = Some ln -> Q ln w -> wp (get_ln p) Q w.
Proof. unfold wp, get_ln. by intros ->. Qed.

Lemma wp_put_ln p ln (Q : unit -> world _ -> Prop) w :
  (forall w', links_only (eq p) w w' -> w_hyp w' !! p = Some ln -> Q tt w') -> wp (put_ln p ln) Q w.
Proof.
  intros HQ. apply wp_modify, HQ; [|apply lookup_insert_eq]. split; [apply frame_hyp|]. split; [done|]. split; [done|].
  intros q Hq. cbn [w_hyp set_w_hyp]. by apply lookup_insert_ne.
Qed.

(** The channels of the entries from [i] on. *)
Definition slot_chan (slots : list (Z * option nat)) (i n : nat) (q : nat) : Prop :=
  exists j mm, (i <= j < i + n)%nat /\ slots !! j = Some (mm, Some q).

(** No channel has two entries. *)
Definition slots_inj (slots : list (Z * option nat)) : Prop :=
  forall j k mm mm' p, slots !! j = Some (mm, Some p) -> slots !! k = Some (mm', Some p) -> j = k.

Lemma connect_slots_spec a vqs slots : slots_inj slots -> forall n i w,
  (forall j, (i <= j < i + n)%nat -> exists mm p ln tx rx, slots !! j = Some (mm, Some p) /\ w_hyp w !! p = Some ln /\
     vqs !! (2 * j)%nat = Some tx /\ vqs !! (2 * j + 1)%nat = Some rx) ->
  wp (connect_slots a vqs n i slots) (fun _ w' => links_only (slot_chan slots i n) w w' /\
    forall j mm p, (i <= j < i + n)%nat -> slots !! j = Some (mm, Some p) -> exists old ln tx rx, w_hyp w !! p = Some old /\
      w_hyp w' !! p = Some ln /\ ln_vpc ln = Some (connect_entry a mm p tx rx (ln_vpc old)) /\ vqs !! (2 * j)%nat = Some tx /\ vqs !! (2 * j + 1)%nat = Some rx) w.
Proof.
  intros Hinj. induction n as [|n IH]; intros i w Hslots; cbn [connect_slots].
  { apply wp_ret. split; [apply links_only_refl|]. intros; lia. }
  destruct (Hslots i ltac:(lia)) as (mm & p & ln & tx & rx & Hs & Hl & Ht & Hr).
  rewrite Hs, Ht, Hr. cbn [of_opt]. apply wp_bind, wp_ret, wp_bind, wp_ret, wp_bind, wp_ret, wp_bind, wp_deref, wp_bind.
  eapply wp_get_ln; [exact Hl|]. apply wp_bind, wp_put_ln. intros w1 G1 Hl1.
  eapply wp_mono; [apply (IH (S i) w1)|].
  - intros j Hj. destruct (Hslots j ltac:(lia)) as (mm' & p' & ln' & tx' & rx' & Hs' & Hl' & Ht' & Hr').
    exists mm', p', ln', tx', rx'. split; [done|]. split; [|done]. rewrite (proj2 (proj2 (proj2 G1))); [done|].
    intros <-. pose proof (Hinj i j mm mm' p Hs Hs'). lia.
  - intros _ w2 [G2 Hc]. split.
    + eapply links_only_trans; [exact G1|exact G2| |].
      * intros q <-. exists i, mm. split; [lia|done].
      * intros q (j & m & Hj & Hjs). exists j, m. split; [lia|done].
    + intros j m q Hj Hjs. destruct (decide (j = i)) as [->|Hne].
      2: { destruct (Hc j m q ltac:(lia) Hjs) as (old & ln2 & tx2 & rx2 & Ho & Hrest). exists old, ln2, tx2, rx2. split; [|done].
           rewrite <- Ho. symmetry. apply (proj2 (proj2 (proj2 G1))). intros <-. pose proof (Hinj i j mm m p Hs Hjs). lia. }
      rewrite Hs in Hjs. injection Hjs as <- <-. exists ln, (set_ln_vhab (Some a) (set_ln_vpc (Some (connect_entry a mm p tx rx (ln_vpc ln))) ln)), tx, rx. split; [done|]. split; [|done]. rewrite (proj2 (proj2 (proj2 G2))); [done|]. intros (k & m & Hk & Hks). pose proof (Hinj i k mm m p Hs Hks). lia.
Qed.

(** The fresh entries, brought up one after the other. *)
Lemma queue_slots_spec a : forall l w, w_alloc w = [] -> NoDup l.*2 ->
  (forall mm o, (mm, o) ∈ l -> exists p ln tx rx, o = Some p /\ w_hyp w !! p = Some ln /\ ln_vpc ln = Some (new_vpc mm p a tx rx) /\
     vq_held tx = [] /\ good rx /\ vq_held rx = []) ->
  wp (queue_slots kmalloc_mem true l) (fun r w' => r = 0 /\ frame w w' /\ w_alloc w' = [] /\
    (forall q, (forall mm, (mm, Some q) ∉ l) -> w_hyp w' !! q = w_hyp w !! q) /\
    forall mm p, (mm, Some p) ∈ l -> exists ln vpc, w_hyp w' !! p = Some ln /\ ln_vpc ln = Some vpc /\ up mm vpc) w.
Proof.
  induction l as [|[mm o] l IH]; intros w Ha Hnd Hl; cbn [queue_slots].
  { apply wp_ret. split; [done|]. split; [apply frame_refl|]. split; [done|]. split; [done|]. by intros mm p ?%elem_of_nil. }
  cbn [fmap list_fmap snd] in Hnd. apply list.NoDup_cons in Hnd as [Hni Hnd].
  destruct (Hl mm o ltac:(by left)) as (p & ln & tx & rx & -> & Hln & Hv & Htx & Hg & Hrx).
  apply wp_bind, wp_deref, wp_bind. unfold get_vpc. apply wp_bind. eapply wp_get_ln; [exact Hln|]. rewrite Hv. apply wp_ret.
  apply wp_bind. unfold alloc_pools.
  do 4 (apply wp_bind, wp_kalloc_nil; [done|]). match goal with |- wp _ _ ?x => set (w1 := x) end.
  assert (Hf1 : frame w w1) by (do 4 (eapply frame_trans; [|apply frame_next]); apply frame_refl).
  assert (Ha1 : w_alloc w1 = []) by done. assert (Hh1 : w_hyp w1 = w_hyp w) by done.
  apply wp_ret. rewrite bool_decide_eq_true_2 by (split_and!; by eexists). cbn [negb fmap option_fmap option_map].
  set (ms := kmalloc_mem _ _). set (mmem := kmalloc_mem _ _). set (ml := kmalloc_mem _ _). clearbody w1.
  pose proof (fresh_up mm p a tx rx ms mmem ml Htx Hg Hrx ltac:(by apply kmalloc_len) ltac:(by apply kmalloc_len)
    ltac:(by apply kmalloc_len)) as Hup. cbv zeta in Hup.
  match goal with |- wp (bind (put_vpc p ?v) _) _ _ => set (v1 := v) end. change (up mm v1) in Hup. clearbody v1.
  apply wp_bind. unfold put_vpc. apply wp_bind. eapply wp_get_ln; [by rewrite Hh1|]. apply wp_put_ln.
  intros w2 G2 Hl2. destruct G2 as (F2 & A2 & D2 & L2). rewrite Ha1 in A2.
  eapply wp_mono; [apply (IH w2 A2 Hnd)|].
  - intros m o Hin. destruct (Hl m o ltac:(by right)) as (q & ln' & tx' & rx' & -> & Hq & Hrest). exists q, ln', tx', rx'.
    split; [done|]. split; [|done]. rewrite L2, Hh1; [done|]. intros <-. apply Hni. apply list_elem_of_fmap. by exists (m, Some p).
  - intros r w3 (-> & F3 & A3 & L3 & U3). split; [done|]. split; [by do 2 (eapply frame_trans; [eassumption|])|]. split; [done|]. split.
    + intros q Hq. rewrite L3 by (intros m Hin; apply (Hq m); by right). rewrite L2, Hh1; [done|]. intros <-. apply (Hq mm). by left.
    + intros m q [He|Hin]%elem_of_cons; [|by apply U3]. injection He as -> ->.
      exists (set_ln_vpc (Some v1) ln), v1. split; [|by split]. rewrite L3; [done|].
      intros m' Hin. apply Hni. apply list_elem_of_fmap. by exists (m', Some p).
Qed.

(** *** The object of the device *)

Definition nobody : nat -> Prop := fun _ => False.

Lemma nobody_trans P w1 w2 w3 : links_only nobody w1 w2 -> links_only P w2 w3 -> links_only P w1 w3.
Proof. intros G1 G2. eapply links_only_trans; [exact G1|exact G2|done|done]. Qed.

Lemma wp_kalloc_quiet (Q : option nat -> world _ -> Prop) w : w_alloc w = [] ->
  (forall a w', links_only nobody w w' -> Q (Some a) w') -> wp kalloc Q w.
Proof. intros Ha HQ. apply wp_kalloc_nil; [done|]. apply HQ. split; [apply frame_next|]. by split. Qed.

Lemma alloc_names_spec n : forall w, w_alloc w = [] -> wp (alloc_names n) (fun ok w' => ok = true /\ links_only nobody w w') w.
Proof.
  induction n as [|n IH]; intros w Ha; cbn [alloc_names]; [apply wp_ret; split; [done|apply links_only_refl]|].
  apply wp_bind, wp_kalloc_quiet; [done|]. intros a w1 G1. eapply wp_mono; [apply IH; by rewrite (proj1 (proj2 G1))|].
  intros ok w2 [-> G2]. split; [done|]. by eapply nobody_trans.
Qed.

(** The object as it is allocated. *)
Definition new_hab (ndevices : nat) (vdev : virtio_device) (mmid_start mmid_range : Z) : virtio_hab :=
  Build_virtio_hab vdev mmid_start mmid_range 0 true (repeat (0, None) ndevices) false.

Lemma virthab_alloc_spec s vdev start range w : w_alloc w = [] ->
  wp (virthab_alloc s vdev start range) (fun r w' => links_only nobody w w' /\ exists a,
    r = (0, Some a, Build_vhab_state (<[a := new_hab (length (w_devs w)) vdev start range]> (vs_habs s)) (vs_list s ++ [a]) (vs_tbl s))) w.
Proof.
  intros Ha. unfold virthab_alloc, virthab_alloc_mmid_device. apply wp_bind, wp_kalloc_quiet; [done|]. intros a w1 G1.
  pose proof (proj1 (proj2 G1)) as A1. rewrite Ha in A1.
  apply wp_bind, wp_bind, wp_kalloc_quiet; [done|]. intros a2 w2 G2. pose proof (proj1 (proj2 G2)) as A2. rewrite A1 in A2.
  apply wp_bind, wp_kalloc_quiet; [done|]. intros a3 w3 G3. pose proof (proj1 (proj2 G3)) as A3. rewrite A2 in A3.
  apply wp_bind, wp_kalloc_quiet; [done|]. intros a4 w4 G4. pose proof (proj1 (proj2 G4)) as A4. rewrite A3 in A4.
  apply wp_bind, wp_kalloc_quiet; [done|]. intros a5 w5 G5. pose proof (proj1 (proj2 G5)) as A5. rewrite A4 in A5.
  apply wp_bind. eapply wp_mono; [by apply alloc_names_spec|]. intros ok w6 [-> G6]. apply wp_bind, wp_gets, wp_ret, wp_ret.
  assert (G : links_only nobody w w6) by (do 5 (eapply nobody_trans; [eassumption|]); done).
  split; [done|]. exists a. by rewrite (proj1 (proj2 (proj2 G))).
Qed.

(** *** The entries *)

(** The first channels of the [n] devices from [d] on. *)
Definition first_chans (devs : list hab_device) (d : nat) (ps : list nat) : Prop :=
  forall j p, ps !! j = Some p -> exists dv l, devs !! (d + j)%nat = Some dv /\ dv_pchannels dv = p :: l.

Lemma fill_slots_spec devs d ps : first_chans devs d ps -> forall n i slots,
  (i + n <= length ps)%nat -> (length ps <= length slots)%nat ->
  exists slots', fill_slots devs d n i slots = Ok slots' /\ length slots' = length slots /\
    (forall j, ~ (i <= j < i + n)%nat -> slots' !! j = slots !! j) /\
    (forall j p, (i <= j < i + n)%nat -> ps !! j = Some p -> exists dv, devs !! (d + j)%nat = Some dv /\ slots' !! j = Some (dv_id dv, Some p)).
Proof.
  intros Hps. induction n as [|n IH]; intros i slots Hi Hlen; cbn [fill_slots].
  { exists slots. split; [done|]. split; [done|]. split; [done|]. intros; lia. }
  destruct (lookup_lt_is_Some_2 ps i ltac:(lia)) as [p Hp]. destruct (Hps i p Hp) as (dv & l & Hd & Hl).
  destruct (lookup_lt_is_Some_2 slots i ltac:(lia)) as [old Hold]. rewrite Hd, Hold. cbn [of_opt res_bind]. rewrite Hl.
  destruct (IH (S i) (<[i := (dv_id dv, Some p)]> slots)) as (slots' & -> & Hlen' & Hout & Hin); [lia|by rewrite length_insert|].
  exists slots'. split; [done|]. split; [by rewrite Hlen', length_insert|]. split.
  - intros j Hj. rewrite Hout by lia. apply list_lookup_insert_ne. lia.
  - intros j q Hj Hq. destruct (decide (j = i)) as [->|Hne]; [|apply Hin; [lia|done]].
    assert (q = p) as -> by congruence. exists dv. split; [done|]. rewrite Hout by lia. apply list_lookup_insert_eq. lia.
Qed.

Lemma first_chans_inj h w d ps j k p :
  wf h w -> first_chans (w_devs w) d ps -> ps !! j = Some p -> ps !! k = Some p -> j = k.
Proof.
  intros Hwf Hps Hj Hk. destruct (Hps j p Hj) as (dv & l & Hd & Hl), (Hps k p Hk) as (dv' & l' & Hd' & Hl').
  destruct (wf_d _ _ Hwf _ _ Hd) as (_ & _ & Hin & _), (wf_d _ _ Hwf _ _ Hd') as (_ & _ & Hin' & _).
  destruct (Hin p) as (pc & Hp & E); [rewrite Hl; by left|]. destruct (Hin' p) as (pc' & Hp' & E'); [rewrite Hl'; by left|].
  assert (pc' = pc) by congruence. subst pc'. lia.
Qed.

(** What setting up the queues of an object relies on: its mmids are those of the devices
    from [d] on, which have the channels [ps], and the kernel gives two queues for
    each. *)
Record served w (vh : virtio_hab) (d : nat) (ps : list nat) (vqs : list VQ) : Prop := {
  sv_dev : find_dev (HAB_MMID_GET_MAJOR (vh_mmid_start vh)) (w_devs w) = Some d;
  sv_range : vh_mmid_range vh = zlen ps;
  sv_fits : (d + length ps <= length (w_devs w))%nat;
  sv_chans : first_chans (w_devs w) d ps;
  sv_once : NoDup ps;
  sv_links : forall p, p ∈ ps -> is_Some (w_hyp w !! p);
  sv_cbs : vh_cbs vh = true;
  sv_slots : (length ps <= length (vh_slots vh))%nat /\
    forall j mm p, (length ps <= j)%nat -> vh_slots vh !! j <> Some (mm, Some p);
  sv_vqs : find_vqs (vh_vdev vh) (vh_mmid_range vh * 2) = inr vqs /\ length vqs = (2 * length ps)%nat
}.

(** The entries of the object once its queues are there. *)
Definition connected w w' (a d : nat) (ps : list nat) (vqs : list VQ) (l : list (Z * option nat)) : Prop :=
  NoDup l.*2 /\
  (forall j p, ps !! j = Some p -> exists dv, w_devs w !! (d + j)%nat = Some dv /\ (dv_id dv, Some p) ∈ l) /\
  (forall mm o, (mm, o) ∈ l -> exists p old ln tx rx, o = Some p /\ p ∈ ps /\ w_hyp w !! p = Some old /\ w_hyp w' !! p = Some ln /\
     ln_vpc ln = Some (connect_entry a mm p tx rx (ln_vpc old)) /\ tx ∈ vqs /\ rx ∈ vqs).

Lemma filled_inj (devs : list hab_device) d ps (slots0 slots : list (Z * option nat)) :
  NoDup ps -> (forall j mm p, (length ps <= j)%nat -> slots0 !! j <> Some (mm, Some p)) ->
  (forall j, ~ (0 <= j < 0 + length ps)%nat -> slots !! j = slots0 !! j) ->
  (forall j p, (0 <= j < 0 + length ps)%nat -> ps !! j = Some p -> exists dv : hab_device, devs !! (d + j)%nat = Some dv /\ slots !! j = Some (dv_id dv, Some p)) ->
  slots_inj slots.
Proof.
  intros Hnd Hz Hout Hin. assert (Hat : forall j mm p, slots !! j = Some (mm, Some p) -> ps !! j = Some p).
  { intros j mm p Hj. destruct (decide (j < length ps)%nat) as [Hlt|Hge].
    - destruct (lookup_lt_is_Some_2 ps j Hlt) as [q Hq]. destruct (Hin j q ltac:(lia) Hq) as (dv & _ & Hs). congruence.
    - rewrite Hout in Hj by lia. by destruct (Hz j mm p ltac:(lia)). }
  intros j k mm mm' p Hj%Hat Hk%Hat. by eapply NoDup_lookup.
Qed.

Lemma virthab_init_vqs_spec w a vh d ps vqs :
  served w vh d ps vqs ->
  wp (virthab_init_vqs find_vqs a vh) (fun r w' => r.1 = 0 /\ frame w w' /\ w_alloc w' = w_alloc w /\ w_devs w' = w_devs w /\
    exists slots, r.2 = set_vh_vqs_offset 0 (set_vh_slots slots vh) /\
      connected w w' a d ps vqs (take (Z.to_nat (vh_mmid_range vh)) slots)) w.
Proof.
  intros [Hd Hr Hfit Hps Hnd Hln Hcbs [Hlen0 Hz] [Hvq Hlen]]. unfold virthab_init_vqs, virthab_init_vqs_pre, find_hab_device.
  assert (Hn : Z.to_nat (vh_mmid_range vh) = length ps) by (rewrite Hr; unfold zlen; lia).
  apply wp_bind, wp_bind, wp_gets. rewrite Hd. apply wp_bind, wp_gets. rewrite Hcbs.
  assert (Hfit' : (zlen (w_devs w) <? Z.of_nat d + vh_mmid_range vh) = false) by (rewrite Hr; unfold zlen; lia).
  rewrite Hfit'. cbn [negb andb]. rewrite Hn.
  destruct (fill_slots_spec (w_devs w) d ps Hps (length ps) 0 (vh_slots vh) ltac:(lia) Hlen0) as (slots & -> & _ & Hout & Hin).
  apply wp_bind, wp_ret, wp_ret. cbn [negb Z.eqb]. cbn [vh_vdev vh_mmid_range set_vh_slots]. rewrite Hvq.
  pose proof (filled_inj _ d ps _ slots Hnd Hz Hout Hin) as Hinj.
  assert (Hslot : forall j, (j < length ps)%nat -> exists p dv, ps !! j = Some p /\ w_devs w !! (d + j)%nat = Some dv /\ slots !! j = Some (dv_id dv, Some p)).
  { intros j Hj. destruct (lookup_lt_is_Some_2 ps j Hj) as [p Hp]. destruct (Hin j p ltac:(lia) Hp) as (dv & ? & ?). by exists p, dv. }
  unfold virthab_init_vqs_post. cbn [vh_mmid_range vh_slots set_vh_vqs_offset set_vh_slots]. rewrite Hn. apply wp_bind, wp_bind.
  eapply wp_mono; [apply (connect_slots_spec a vqs slots Hinj (length ps) 0 w)|].
  { intros j Hj. destruct (Hslot j ltac:(lia)) as (p & dv & Hp & _ & Hs). destruct (Hln p) as [ln Hl]; [by eapply list_elem_of_lookup_2|].
    destruct (lookup_lt_is_Some_2 vqs (2 * j)%nat ltac:(lia)) as [tx Htx], (lookup_lt_is_Some_2 vqs (2 * j + 1)%nat ltac:(lia)) as [rx Hrx].
    by exists (dv_id dv), p, ln, tx, rx. }
  intros _ w1 [(F1 & A1 & D1 & _) Hc]. apply wp_ret, wp_ret. split; [done|]. split; [done|]. split; [done|]. split; [done|].
  exists slots. split; [done|]. split; [|split].
  - apply NoDup_alt. intros j k o Hj Hk. rewrite list_lookup_fmap in Hj, Hk.
    destruct (take _ slots !! j) as [[mj oj]|] eqn:Ej; [|done]. destruct (take _ slots !! k) as [[mk ok]|] eqn:Ek; [|done].
    injection Hj as Ej'. injection Hk as Ek'. cbn [snd] in *. subst oj ok. apply lookup_take_Some in Ej as [Ej Hjn], Ek as [Ek Hkn].
    destruct (Hslot j Hjn) as (p & dv & _ & _ & Hs). rewrite Ej in Hs. injection Hs as -> ->. by eapply Hinj.
  - intros j p Hp. assert (Hj : (j < length ps)%nat) by by eapply lookup_lt_Some. destruct (Hslot j Hj) as (p' & dv & Hp' & Hdv & Hs).
    assert (p' = p) as -> by congruence. exists dv. split; [done|]. apply (list_elem_of_lookup_2 _ j). by rewrite lookup_take_lt.
  - intros mm o [j Hj]%list_elem_of_lookup. apply lookup_take_Some in Hj as [Hj Hlt].
    destruct (Hslot j Hlt) as (p & dv & Hp & _ & Hs). rewrite Hj in Hs. injection Hs as -> ->.
    destruct (Hc j (dv_id dv) p ltac:(lia) Hj) as (old & ln & tx & rx & Ho & Hl & Hv & Htx & Hrx). exists p, old, ln, tx, rx.
    split; [done|]. split; [by eapply list_elem_of_lookup_2|]. do 3 (split; [done|]). split; by eapply list_elem_of_lookup_2.
Qed.

(** What a probe relies on: the channels are not connected yet, and the queues are
    new. *)
Record probed w (vdev : virtio_device) (start range : Z) (d : nat) (ps : list nat) (vqs : list VQ) : Prop := {
  pb_dev : find_dev (HAB_MMID_GET_MAJOR start) (w_devs w) = Some d;
  pb_range : range = zlen ps;
  pb_fits : (d + length ps <= length (w_devs w))%nat;
  pb_chans : first_chans (w_devs w) d ps;
  pb_links : forall p, p ∈ ps -> exists ln, w_hyp w !! p = Some ln /\ ln_vpc ln = None;
  pb_vqs : find_vqs vdev (range * 2) = inr vqs;
  pb_new : length vqs = (2 * length ps)%nat /\ Forall (fun q => good q /\ vq_held q = []) vqs
}.

Lemma probed_served h w vdev start range d ps vqs :
  wf h w -> probed w vdev start range d ps vqs -> served w (new_hab (length (w_devs w)) vdev start range) d ps vqs.
Proof.
  intros Hwf [B1 B2 B3 B4 B5 B6 [B7 _]]. constructor; try done.
  - apply NoDup_alt. intros j k p Hj Hk. by eapply first_chans_inj.
  - intros p Hp. destruct (B5 p Hp) as (ln & ? & _). by eexists.
  - cbn [new_hab vh_slots]. split; [rewrite repeat_length; lia|]. intros j mm p _ Hj.
    apply list_elem_of_lookup_2, list_elem_of_In, repeat_spec in Hj. done.
Qed.

(** C23: The probe of a device whose mmids are free succeeds and brings every channel of
    these mmids up: with full pools for sending, with all buffers for reception on the
    device's queue and counted there, and ready; the driver stays well-formed and the
    device is listed, ready. *)
Theorem virthab_probe_up (h : held) (w : world (virtio_pchan_link VQ)) (s : vhab_state) (vdev : virtio_device)
    (start range m : Z) (d : nat) (ps : list nat) (vqs : list VQ) :
  wf h w -> w_alloc w = [] -> vd_version_1 vdev = true -> probe_range (w_devs w) (vd_device vdev) = Some (start, range, m) ->
  virthab_pchan_avail_check (w_devs w) (vs_habs s) (vd_device vdev) start range (vs_list s) = Ok true ->
  probed w vdev start range d ps vqs ->
  wp (virthab_probe find_vqs kmalloc_mem s vdev) (fun r w' => r.1 = 0 /\ wf h w' /\
    (forall j p, ps !! j = Some p -> exists dv ln vpc, w_devs w !! (d + j)%nat = Some dv /\
       w_hyp w' !! p = Some ln /\ ln_vpc ln = Some vpc /\ up (dv_id dv) vpc) /\
    exists a vh, vs_list r.2 = vs_list s ++ [a] /\ vs_habs r.2 !! a = Some vh /\ vh_ready vh = true) w.
Proof.
  intros Hwf Ha Hv1 Hpr Hav Hpb. unfold virthab_probe. apply wp_bind, wp_gets. rewrite Hv1, Hpr. cbn [negb].
  cbn [vs_habs vs_list]. rewrite Hav. apply wp_bind, wp_ret. cbn [negb]. apply wp_bind.
  eapply wp_mono; [by apply virthab_alloc_spec|]. intros r1 w1 (G1 & a & ->). cbn [vs_habs vs_list vs_tbl].
  destruct G1 as (F1 & A1 & D1 & L1). rewrite lookup_insert_eq. apply wp_bind, wp_ret.
  assert (Hpb1 : probed w1 vdev start range d ps vqs).
  { destruct Hpb as [B1 B2 B3 B4 B5 B6 B7]. constructor; rewrite ?D1; try done. intros p Hp. rewrite L1 by (by intros []). by apply B5. }
  assert (Hwf1 : wf h w1) by by eapply wf_frame.
  rewrite <- D1. apply wp_bind. eapply wp_mono; [apply (virthab_init_vqs_spec w1 a _ d ps vqs); by eapply probed_served|].
  intros [e vh] w2 (He & F2 & A2 & D2 & slots & Evh & Hnd & Hall & Hslots). cbn [fst snd] in *. subst e vh. cbn [negb Z.eqb].
  unfold virthab_queue_inbufs. cbn [vh_mmid_range vh_slots set_vh_vqs_offset set_vh_slots new_hab] in *.
  apply wp_bind. eapply wp_mono; [apply (queue_slots_spec a _ w2); [congruence|exact Hnd|]|].
  { intros mm o Hin. destruct (Hslots mm o Hin) as (p & old & ln & tx & rx & -> & Hp & Ho & Hl & Hv & Htx & Hrx).
    destruct Hpb1 as [_ _ _ _ B5 _ [_ B7]]. destruct (B5 p Hp) as (ln0 & Hl0 & Hv0). assert (old = ln0) as -> by congruence.
    rewrite Hv0 in Hv. rewrite list.Forall_forall in B7. destruct (B7 tx Htx), (B7 rx Hrx). by exists p, ln, tx, rx. }
  intros r3 w3 (-> & F3 & A3 & L3 & U3). cbn [negb Z.eqb]. apply wp_ret. split; [done|].
  split; [do 2 (eapply wf_frame; [eassumption|]); done|]. split.
  - intros j p Hp. destruct (Hall j p Hp) as (dv & Hdv & Hin). destruct (U3 _ _ Hin) as (ln & vpc & ? & ? & ?).
    by exists dv, ln, vpc.
  - eexists a, (set_vh_ready true _). cbn. split; [done|]. split; [apply lookup_insert_eq|done].
Qed.
End probe.
