(* ===== verification/VirtioLife.v ===== *)
(** The rest of a virtio device's life: its channels are created, its queues call back,
    it is removed, suspended and resumed; what becomes of a probe that fails; and a
    device that is probed. *)
From S2P Require Import Prelude Header World Logic Memory Invariant Pchan Exports Context Vchan Wait Open Loopback Sample Msg Mimex Progress Virtio Pools VirtioRx Hab VirtioDev VirtioProbe.

Section life.
Context {VQ : Type} `{Virtqueue VQ} `{Platform (virtio_pchan_link VQ)} `{KernelIdr}.
Context (find_vqs : virtio_device -> Z -> Z + list VQ) (kmalloc_mem : nat -> Z -> bytes).
Implicit Types (vpc : vq_pchan VQ) (w : world (virtio_pchan_link VQ)) (h : held).

(** *** The channels *)

(** A new channel of a guest, which no device serves yet. *)
Lemma habvirtio_pchan_create_spec h w d dv :
  wf h w -> w_devs w !! d = Some dv -> w_alloc w = [] ->
  wp (habvirtio_pchan_create d) (fun r w' => r = 0 /\ wf h w' /\ w_alloc w' = [] /\
    exists p ln, w_devs w' = <[d := set_dv_pchan_cnt (dv_pchan_cnt dv + 1) (set_dv_pchannels (dv_pchannels dv ++ [p]) dv)]> (w_devs w) /\
      w_hyp w' !! p = Some ln /\ ln_vpc ln = None) w.
Proof.
  intros Hwf Hd Ha. unfold habvirtio_pchan_create. apply wp_bind, wp_gets, wp_bind, wp_bind. eapply wp_get_d; [exact Hd|]. apply wp_ret.
  apply wp_bind. unfold hab_pchan_alloc. apply wp_bind, wp_kalloc_nil; [done|]. set (w1 := set_w_next _ _). set (p := w_next w).
  assert (Hwf1 : wf h w1) by by apply wf_next.
  assert (Hnew : w_pchans w1 !! p = None) by by apply (proj1 (wf_fresh _ _ Hwf) p).
  apply wp_bind, wp_modify, wp_bind. set (pc := Build_physical_channel _ _ _ _ _ _ _ _ _ _ _ _ _ _ _ _). set (ln := Build_virtio_pchan_link _ _ _ _).
  eapply wp_upd_d; [exact Hd|]. apply wp_ret.
  pose proof (wf_pchan_new h w1 p d dv pc ln Hwf1 Hd Hnew ltac:(simpl; lia)) as Hwf2.
  specialize (Hwf2 eq_refl eq_refl eq_refl eq_refl eq_refl eq_refl eq_refl).
  match goal with |- wp _ _ ?x => set (w2 := x) end. change (wf h w2) in Hwf2.
  assert (Hp2 : w_pchans w2 !! p = Some pc) by apply lookup_insert_eq.
  assert (Hl2 : w_hyp w2 !! p = Some ln) by apply lookup_insert_eq.
  apply wp_bind. eapply wp_upd_p; [exact Hp2|]. set (w3 := set_w_pchans _ w2).
  assert (Hwf3 : wf h w3) by (eapply wf_frame; [by eapply frame_pchan|exact Hwf2]).
  apply wp_bind, wp_kalloc_nil; [done|]. apply wp_ret. split; [done|]. split; [by apply wf_next|]. split; [done|]. by exists p, ln.
Qed.

(** What is handed out of a device with a channel before the new one can not be taken
    back: the first channel of a device is dereferenced as a link. *)
Lemma virtio_commdev_dealloc_first w p pc dv l :
  w_pchans w !! p = Some pc -> w_devs w !! pc_habdev pc = Some dv -> dv_pchannels dv = p :: l ->
  virtio_commdev_dealloc p w = Fault OutOfBounds.
Proof.
  intros Hp Hd Hl. unfold virtio_commdev_dealloc, bind, get_p, get_d. rewrite Hp, Hd, Hl. cbn [list_prev]. by rewrite decide_True.
Qed.

(** *** The callbacks *)

(** The entry of a queue is that of its pair; an index before the device's queues or
    beyond has none, but for the first one beyond, which is let through to the entry
    after the array. *)
Theorem get_virtio_pchan_bounds (ndevices : Z) (vh : virtio_hab) (vq_index : Z) :
  zlen (vh_slots vh) = ndevices -> 0 <= vq_index - vh_vqs_offset vh < 2 ^ 31 ->
  get_virtio_pchan ndevices vh vq_index =
    if vq_index - vh_vqs_offset vh <? 2 * ndevices then Ok (vh_slots vh !! Z.to_nat ((vq_index - vh_vqs_offset vh) / 2))
    else if vq_index - vh_vqs_offset vh =? 2 * ndevices then Fault OutOfBounds else Ok None.
Proof.
  intros Hn Hi. unfold get_virtio_pchan. rewrite (i32_id _) by (unfold is_i32; lia). set (i := vq_index - _) in *.
  pose proof (Z.div_mod i 2 ltac:(lia)). pose proof (Z.mod_pos_bound i 2 ltac:(lia)). unfold zlen in Hn.
  destruct (Z.ltb_spec (ndevices * 2) i), (Z.ltb_spec i 0); try lia; cbn [orb].
  { destruct (Z.ltb_spec i (2 * ndevices)); [lia|]. by destruct (Z.eqb_spec i (2 * ndevices)); [lia|]. }
  destruct (Z.ltb_spec i (2 * ndevices)).
  - destruct (lookup_lt_is_Some_2 (vh_slots vh) (Z.to_nat (i / 2)) ltac:(lia)) as [slot Hs]. by rewrite Hs.
  - destruct (Z.eqb_spec i (2 * ndevices)); [|lia]. rewrite (proj2 (lookup_ge_None (vh_slots vh) _)); [done|lia].
Qed.

(** The callback of an entry's sending queue takes the sent buffers back into the pools
    of its channel. *)
Lemma recv_txq_callback_spec h w s vdev a vh i mm p ln vpc :
  wf h w -> get_vh s vdev = Ok (a, vh) -> vh_vqs_offset vh = 0 -> zlen (vh_slots vh) = zlen (w_devs w) -> (i < length (vh_slots vh))%nat ->
  2 * zlen (w_devs w) < 2 ^ 31 ->
  vh_slots vh !! i = Some (mm, Some p) -> w_hyp w !! p = Some ln -> ln_vpc ln = Some vpc -> vpc_ok vpc -> vp_pchan_ready vpc = true ->
  wp (recv_txq_callback s vdev (2 * Z.of_nat i)) (fun _ w' => wf h w' /\ exists ln' vpc', w_hyp w' !! p = Some ln' /\
    ln_vpc ln' = Some vpc' /\ vpc_ok vpc' /\ cores vpc' ≡ₚ cores vpc) w.
Proof.
  intros Hwf Hvh Hoff Hlen Hi Hsmall Hs Hl Hv Hok Hr. unfold recv_txq_callback, queue_slot. rewrite Hvh.
  apply wp_bind, wp_bind, wp_ret, wp_bind, wp_gets, wp_bind. unfold get_virtio_pchan. cbn [snd]. rewrite Hoff, Z.sub_0_r.
  unfold zlen in *. rewrite i32_id by (unfold is_i32; lia).
  destruct (Z.ltb_spec (Z.of_nat (length (w_devs w)) * 2) (2 * Z.of_nat i)); [lia|]. destruct (Z.ltb_spec (2 * Z.of_nat i) 0); [lia|]. cbn [orb].
  rewrite (Z.mul_comm 2), Z.div_mul, Nat2Z.id, Hs by lia. apply wp_ret, wp_ret, wp_bind, wp_deref, wp_bind.
  unfold get_vpc. apply wp_bind. eapply wp_get_ln; [exact Hl|]. rewrite Hv. apply wp_ret, wp_bind.
  unfold virthab_recv_txq. rewrite Hr. destruct (txq_loop_ok (S (length (vq_held (vp_tx vpc)))) vpc Hok ltac:(lia)) as (vpc' & -> & Hok' & Hc').
  apply wp_ret. unfold put_vpc. apply wp_bind. eapply wp_get_ln; [exact Hl|]. apply wp_put_ln. intros w' (Hf & _) Hl'.
  split; [by eapply wf_frame|]. by exists (set_ln_vpc (Some vpc') ln), vpc'.
Qed.

(** The object of a device that is written back is found again. *)
Lemma get_vh_put s vdev a vh vh' : get_vh s vdev = Ok (a, vh) -> vh_vdev vh' = vh_vdev vh -> get_vh (put_hab a vh' s) vdev = Ok (a, vh').
Proof.
  unfold get_vh. destruct s as [habs l tbl]. cbn [vs_habs vs_list put_hab]. intros Hg Hd.
  assert (Hin : habs !! a = Some vh /\ vh_vdev vh = vdev).
  { revert Hg. induction l as [|b l IH]; cbn [get_vh_walk]; [done|]. destruct (habs !! b) as [x|] eqn:Hb; [|done].
    case_bool_decide; [by intros [= <- <-]|]. exact IH. }
  destruct Hin as [Ha Hv]. revert Hg. induction l as [|b l IH]; cbn [get_vh_walk]; [done|].
  destruct (decide (b = a)) as [->|Hne].
  - rewrite Ha, lookup_insert_eq. rewrite !bool_decide_eq_true_2 by congruence. by intros _.
  - rewrite lookup_insert_ne by congruence. destruct (habs !! b) as [x|]; [|done]. case_bool_decide; [|exact IH]. intros [= -> _]. done.
Qed.

(** *** The end of a device *)

Lemma disconnect_slots_spec h : forall l w, wf h w ->
  (forall mm o, (mm, o) ∈ l -> exists p ln, o = Some p /\ w_hyp w !! p = Some ln) ->
  wp (disconnect_slots l) (fun _ w' => wf h w' /\ (forall q, is_Some (w_hyp w !! q) -> is_Some (w_hyp w' !! q)) /\
    (forall q ln, w_hyp w !! q = Some ln -> ln_vpc ln = None -> exists ln', w_hyp w' !! q = Some ln' /\ ln_vpc ln' = None) /\
    forall mm p, (mm, Some p) ∈ l -> exists ln, w_hyp w' !! p = Some ln /\ ln_vpc ln = None) w.
Proof.
  induction l as [|[mm o] l IH]; intros w Hwf Hl; cbn [disconnect_slots].
  { apply wp_ret. split; [done|]. split; [done|]. split; [by eauto|]. by intros mm p ?%elem_of_nil. }
  destruct (Hl mm o ltac:(by left)) as (p & ln & -> & Hp). apply wp_bind, wp_deref, wp_bind. eapply wp_get_ln; [exact Hp|].
  apply wp_bind, wp_put_ln. intros w1 (F1 & _ & _ & L1) Hp1.
  assert (Hkeep : forall q, is_Some (w_hyp w !! q) -> is_Some (w_hyp w1 !! q)).
  { intros q Hq. destruct (decide (p = q)) as [<-|Hne]; [by eexists|by rewrite L1]. }
  eapply wp_mono; [apply (IH w1); [by eapply wf_frame|]|].
  { intros m o Hin. destruct (Hl m o ltac:(by right)) as (q & lq & -> & Hq). destruct (Hkeep q) as [lq' ?]; [by eexists|]. by exists q, lq'. }
  intros _ w2 (Hwf2 & Hk2 & Hn2 & Hd2). split; [done|]. split; [by auto|]. split.
  - intros q lq Hq Hv. destruct (decide (p = q)) as [<-|Hne]; [by eapply Hn2|]. eapply (Hn2 q lq); [by rewrite L1|done].
  - intros m q [He|Hin]%elem_of_cons; [|exact (Hd2 m q Hin)]. injection He as -> ->. by eapply (Hn2 p _ Hp1).
Qed.

(** Removing a device disconnects every channel it served, so that a send on them is
    refused, and takes the device off the list with its object; the driver stays
    well-formed. *)
Theorem virthab_remove_disconnects (h : held) (w : world (virtio_pchan_link VQ)) (s : vhab_state) (vdev : virtio_device)
    (a : nat) (vh : virtio_hab) (seq : Z) (mh : hab_header) (payload : bytes) :
  wf h w -> get_vh s vdev = Ok (a, vh) ->
  (forall mm o, (mm, o) ∈ take (Z.to_nat (vh_mmid_range vh)) (vh_slots vh) -> exists p ln, o = Some p /\ w_hyp w !! p = Some ln) ->
  wp (virthab_remove s vdev) (fun s' w' => wf h w' /\ (a ∉ vs_list s') /\ vs_habs s' !! a = None /\
    forall mm p, (mm, Some p) ∈ take (Z.to_nat (vh_mmid_range vh)) (vh_slots vh) ->
      exists ln, w_hyp w' !! p = Some ln /\ virtio_send seq ln mh payload = Ok (- ENODEV, seq, ln)) w.
Proof.
  intros Hwf Hvh Hl. unfold virthab_remove. rewrite Hvh. apply wp_bind, wp_ret, wp_bind.
  eapply wp_mono; [by apply (disconnect_slots_spec h)|]. intros _ w' (Hwf' & _ & _ & Hd). apply wp_ret. cbn [vs_list vs_habs].
  split; [done|]. split; [by rewrite elem_of_list_del; intros [_ ?]|]. split; [apply lookup_delete_eq|].
  intros mm p Hin. destruct (Hd mm p Hin) as (ln & Hp & Hv). exists ln. split; [done|]. unfold virtio_send. by rewrite Hv.
Qed.

(** The entries of devices that are there can be filled. *)
Lemma fill_slots_total devs d : forall n i slots,
  (d + i + n <= length devs)%nat -> (i + n <= length slots)%nat -> exists slots', fill_slots devs d n i slots = Ok slots'.
Proof.
  induction n as [|n IH]; intros i slots Hd Hs; cbn [fill_slots]; [by exists slots|].
  destruct (lookup_lt_is_Some_2 devs (d + i)%nat ltac:(lia)) as [dv ->]. destruct (lookup_lt_is_Some_2 slots i ltac:(lia)) as [old ->].
  cbn [of_opt res_bind]. apply IH; [lia|]. rewrite length_insert. lia.
Qed.

(** *** Suspension *)

(** The channels of a device whose buffers for reception are not in their lists: the
    queues get nothing. *)
Lemma queue_slots_empty : forall l w, NoDup l.*2 ->
  (forall mm o, (mm, o) ∈ l -> exists p ln vpc, o = Some p /\ w_hyp w !! p = Some ln /\ ln_vpc ln = Some vpc /\
     vp_in_list vpc = [] /\ vp_pchan_ready vpc = true /\ vq_held (vp_rx vpc) = []) ->
  wp (queue_slots kmalloc_mem false l) (fun _ w' => (forall q, (forall mm, (mm, Some q) ∉ l) -> w_hyp w' !! q = w_hyp w !! q) /\
    forall mm p, (mm, Some p) ∈ l -> exists ln vpc, w_hyp w' !! p = Some ln /\ ln_vpc ln = Some vpc /\
      vp_pchan_ready vpc = true /\ vq_held (vp_rx vpc) = []) w.
Proof.
  induction l as [|[mm o] l IH]; intros w Hnd Hl; cbn [queue_slots].
  { apply wp_ret. split; [done|]. by intros mm p ?%elem_of_nil. }
  cbn [fmap list_fmap snd] in Hnd. apply list.NoDup_cons in Hnd as [Hni Hnd].
  destruct (Hl mm o ltac:(by left)) as (p & ln & vpc & -> & Hln & Hv & Hi & Hr & Hh).
  apply wp_bind, wp_deref, wp_bind. unfold get_vpc. apply wp_bind. eapply wp_get_ln; [exact Hln|]. rewrite Hv. apply wp_ret.
  apply wp_bind, wp_ret. cbn [negb]. cbv zeta. rewrite Hi. cbn [add_inbufs].
  destruct (virtqueue_kick (vp_rx vpc)) as [k q2] eqn:Hk. apply vq_kick_held in Hk. rewrite Hh in Hk. apply Permutation_nil_r in Hk. cbn [snd].
  apply wp_bind. unfold put_vpc. apply wp_bind. eapply wp_get_ln; [exact Hln|]. apply wp_put_ln. intros w1 (_ & _ & _ & L1) Hp1.
  assert (Hother : forall m q, (m, Some q) ∈ l -> p <> q).
  { intros m q Hin ->. apply Hni. apply list_elem_of_fmap. by exists (m, Some q). }
  eapply wp_mono; [apply (IH w1 Hnd)|].
  - intros m o Hin. destruct (Hl m o ltac:(by right)) as (q & ln' & vpc' & -> & Hq & Hrest). exists q, ln', vpc'.
    split; [done|]. split; [|done]. rewrite L1; [done|]. by eapply Hother.
  - intros r w2 [L2 U2]. split.
    + intros q Hq. rewrite L2 by (intros m Hin; apply (Hq m); by right). apply L1. intros ->. apply (Hq mm). by left.
    + intros m q [He|Hin]%elem_of_cons; [|exact (U2 m q Hin)]. injection He as -> ->.
      eexists _, _. rewrite L2; [split; [exact Hp1|by split]|]. intros m' Hin. by apply (Hother m' p Hin).
Qed.

(** A device that is suspended and resumed is ready again, and so are its channels,
    but it has no buffer for reception left: those it had were on the deleted queues,
    and the lists they are queued from are empty since the probe. *)
Theorem virthab_restore_starves (w : world (virtio_pchan_link VQ)) (s s1 : vhab_state) (vdev : virtio_device) (a : nat) (vh : virtio_hab)
    (d : nat) (ps : list nat) (vqs : list VQ) (r : Z) :
  get_vh s vdev = Ok (a, vh) -> virthab_freeze s vdev = Ok (r, s1) -> served find_vqs w vh d ps vqs ->
  Forall (fun q => vq_held q = []) vqs ->
  (forall p, p ∈ ps -> exists ln vpc, w_hyp w !! p = Some ln /\ ln_vpc ln = Some vpc /\ vp_vhab vpc = Some a /\ vp_in_list vpc = []) ->
  wp (virthab_restore find_vqs kmalloc_mem s1 vdev) (fun r w' => r.1 = 0 /\
    (vh_ready <$> vs_habs r.2 !! a) = Some true /\
    forall p, p ∈ ps -> exists ln vpc, w_hyp w' !! p = Some ln /\ ln_vpc ln = Some vpc /\
      vp_pchan_ready vpc = true /\ vq_held (vp_rx vpc) = []) w.
Proof.
  intros Hvh Hfr Hsv Hnew Hps. unfold virthab_freeze in Hfr. rewrite Hvh in Hfr. cbn [res_bind fst snd] in Hfr. injection Hfr as <- <-.
  unfold virthab_restore. assert (Hvh1 : get_vh (put_hab a (set_vh_ready false vh) s) vdev = Ok (a, set_vh_ready false vh)) by by eapply get_vh_put.
  rewrite Hvh1. apply wp_bind, wp_ret, wp_bind.
  eapply wp_mono; [apply (virthab_init_vqs_spec find_vqs w a (set_vh_ready false vh) d ps vqs); by destruct Hsv|].
  intros [e vh1] w1 (He & _ & _ & _ & slots & Evh & Hnd & Hall & Hslots). cbn [fst snd] in *. subst e vh1. cbn [negb Z.eqb].
  unfold virthab_queue_inbufs. cbn [vh_mmid_range vh_slots set_vh_vqs_offset set_vh_slots set_vh_ready] in *. apply wp_bind.
  rewrite list.Forall_forall in Hnew.
  eapply wp_mono; [apply (queue_slots_empty _ w1 Hnd)|].
  - intros mm o Hin. destruct (Hslots mm o Hin) as (p & old & ln & tx & rx & -> & Hp & Ho & Hl & Hv & _ & Hrx).
    destruct (Hps p Hp) as (ln0 & vpc0 & Hl0 & Hv0 & Ha0 & Hi0). assert (old = ln0) as -> by congruence.
    rewrite Hv0 in Hv. cbn [connect_entry] in Hv. rewrite bool_decide_eq_true_2 in Hv by done.
    eexists p, ln, _. split; [done|]. split; [done|]. split; [exact Hv|]. cbn. by rewrite (Hnew rx Hrx).
  - intros r w2 [_ Hup]. apply wp_ret. cbn [fst snd]. split; [done|]. split; [by cbn; rewrite lookup_insert_eq|].
    intros p [j Hj]%list_elem_of_lookup. destruct (Hall j p Hj) as (dv & _ & Hin). exact (Hup _ _ Hin).
Qed.
End life.

(** ** What goes wrong *)

Section failures.
Context {VQ : Type} `{Virtqueue VQ} `{Platform (virtio_pchan_link VQ)} `{KernelIdr}.
Context (find_vqs : virtio_device -> Z -> Z + list VQ) (kmalloc_mem : nat -> Z -> bytes).
Implicit Types (vpc : vq_pchan VQ) (w : world (virtio_pchan_link VQ)).

(** A probe whose queues the kernel refuses leaves the freed object on the list, and the
    probe of another device then follows it. *)
Lemma virthab_probe_dangles (w : world (virtio_pchan_link VQ)) (s : vhab_state) (vdev vdev' : virtio_device) (start range m e : Z) (d : nat) :
  w_alloc w = [] -> vs_list s = [] -> vd_version_1 vdev = true -> vd_version_1 vdev' = true ->
  probe_range (w_devs w) (vd_device vdev) = Some (start, range, m) -> find_dev (HAB_MMID_GET_MAJOR start) (w_devs w) = Some d ->
  0 <= range -> Z.of_nat d + range <= zlen (w_devs w) -> find_vqs vdev (range * 2) = inl e -> e <> 0 ->
  wp (virthab_probe find_vqs kmalloc_mem s vdev) (fun r w' => r.1 = e /\
    virthab_probe find_vqs kmalloc_mem r.2 vdev' w' = Fault UseAfterFree) w.
Proof.
  intros Ha Hl Hv Hv' Hpr Hd Hr0 Hr Hq He. unfold virthab_probe at 1. apply wp_bind, wp_gets. rewrite Hv, Hpr. cbn [negb vs_habs vs_list].
  rewrite Hl. cbn [virthab_pchan_avail_check]. apply wp_bind, wp_ret. cbn [negb]. apply wp_bind.
  eapply wp_mono; [by apply virthab_alloc_spec|]. intros r1 w1 [(_ & _ & D1 & _) (a & ->)]. cbn [vs_habs vs_list vs_tbl].
  rewrite lookup_insert_eq. apply wp_bind, wp_ret, wp_bind. unfold virthab_init_vqs, virthab_init_vqs_pre, find_hab_device.
  cbn [vh_mmid_start vh_mmid_range vh_cbs vh_slots new_hab]. apply wp_bind, wp_bind, wp_gets. rewrite D1, Hd. apply wp_bind, wp_gets.
  rewrite D1, (proj2 (Z.ltb_ge _ _)) by lia. cbn [negb andb].
  destruct (fill_slots_total (w_devs w) d (Z.to_nat range) 0 (repeat (0, None) (length (w_devs w)))) as [slots ->];
    [unfold zlen in Hr; lia|rewrite repeat_length; unfold zlen in Hr; lia|].
  apply wp_bind, wp_ret, wp_ret. cbn [negb Z.eqb vh_vdev vh_mmid_range set_vh_slots new_hab]. rewrite Hq. apply wp_ret.
  rewrite (proj2 (Z.eqb_neq e 0)) by done. cbn [negb]. apply wp_ret. cbn [fst snd]. split; [done|].
  unfold virthab_probe, bind, gets. rewrite Hv'. cbn [negb vs_habs vs_list].
  destruct (probe_range (w_devs w1) (vd_device vdev')) as [[[st rg] mm]|]; cbn [vs_habs vs_list app virthab_pchan_avail_check];
    by rewrite lookup_delete_eq.
Qed.

(** A report takes the used buffers off the queues and forgets them: the device's oldest
    sent buffer is in no pool and on no queue any more. *)
Lemma virtio_stat_log_loses w p ln vpc (hd : vh_buf_header) (len : Z) (bs : bytes) q (print : vq_pchan VQ -> Z) :
  w_hyp w !! p = Some ln -> ln_vpc ln = Some vpc -> virtqueue_get_buf (vp_tx vpc) = (Some (hd, len, bs), q) ->
  exists r w' ln' vpc', virtio_stat_log print [p] w = Ok (r, w') /\ w_hyp w' !! p = Some ln' /\ ln_vpc ln' = Some vpc' /\
    cores vpc ≡ₚ core hd :: cores vpc'.
Proof.
  intros Hl Hv Hg. cbn [virtio_stat_log]. unfold bind at 1, get_ln at 1. rewrite Hl, Hv, Hg. cbn [snd].
  set (vpc' := set_vp_rx _ _). unfold bind at 1. rewrite (put_vpc_eq w p ln vpc' Hl).
  set (w' := set_w_hyp _ w). assert (He : (if negb (print vpc' =? 0) then ret (print vpc') else ret 0) w' = Ok (print vpc', w')).
  { destruct (Z.eqb_spec (print vpc') 0) as [->|]; done. }
  exists (print vpc'), w', (set_ln_vpc (Some vpc') ln), vpc'. split; [exact He|]. split; [apply lookup_insert_eq|]. split; [done|].
  destruct (vq_get_held _ _ _ _ _ Hg) as [Hheld _]. unfold cores, out_bufs, vpc'. cbn. rewrite Hheld, !fmap_app, fmap_cons. solve_Permutation.
Qed.
End failures.

(** The device for all mmids is let in although another one has taken some of them. *)
Lemma hab_device_overlaps :
  probe_range sample_devs 88 = Some (101, 30, 0) /\
  virthab_pchan_avail_check sample_devs {[7%nat := new_hab 30 (Build_virtio_device 1 92 true) 201 2]} 88 101 30 [7%nat] = Ok true.
Proof. split; vm_compute; reflexivity. Qed.

(** ** A device *)

(** A device for the mmid 401, and a guest with a channel for it. *)
Definition gpu : virtio_device := Build_virtio_device 1 94 true.
Definition sample_queues (_ : virtio_device) (n : Z) : Z + list sample_queue := inr (repeat end_queue (Z.to_nat n)).
Definition zeros (_ : nat) (n : Z) : bytes := repeat 0 (Z.to_nat n).
Definition no_device : vhab_state := Build_vhab_state ∅ [] vdev_tbl.
Definition idle_link : virtio_pchan_link sample_queue := Build_virtio_pchan_link 101 None None (100, 0).
Definition guest : world (virtio_pchan_link sample_queue) :=
  match habvirtio_pchan_create 11 (sample idle_link) with Ok (_, w) => w | _ => sample idle_link end.

Lemma guest_wf : wf idle guest.
Proof.
  destruct (lookup_lt_is_Some_2 (w_devs (sample idle_link)) 11 ltac:(cbn; lia)) as [dv Hd].
  pose proof (habvirtio_pchan_create_spec idle (sample idle_link) 11 dv (sample_wf _) Hd eq_refl) as Hc.
  unfold guest. unfold wp in Hc. destruct (habvirtio_pchan_create 11 (sample idle_link)) as [[r w']| |]; [by destruct Hc as (_ & ? & _)|done|apply sample_wf].
Qed.

Lemma guest_chan : w_alloc guest = [] /\ find_dev (HAB_MMID_GET_MAJOR 401) (w_devs guest) = Some 11%nat /\ length (w_devs guest) = 30%nat /\
  ((fun dv => (dv_id dv, dv_pchannels dv)) <$> w_devs guest !! 11%nat) = Some (401, [6%nat]) /\
  (ln_vpc <$> w_hyp guest !! 6%nat) = Some None.
Proof. split_and!; vm_compute; reflexivity. Qed.

Lemma gpu_probed : probed good_answers sample_queues guest gpu 401 1 11 [6%nat] (repeat end_queue 2).
Proof.
  destruct guest_chan as (_ & Hf & Hlen & Hd & Hl). constructor.
  - exact Hf.
  - reflexivity.
  - rewrite Hlen. cbn. lia.
  - intros [|j] p Hp; [|done]. injection Hp as <-. change (11 + 0)%nat with 11%nat.
    destruct (w_devs guest !! 11%nat) as [dv|]; [|done]. injection Hd as _ Hps. by exists dv, [].
  - intros p ->%list_elem_of_singleton. destruct (w_hyp guest !! 6%nat) as [ln|]; [|done]. injection Hl as Hv. by exists ln.
  - reflexivity.
  - split; [reflexivity|]. repeat (apply list.Forall_cons; split; [split; [by apply list.Forall_nil|reflexivity]|]). by apply list.Forall_nil.
Qed.

Lemma gpu_free : vd_version_1 gpu = true /\ probe_range (w_devs guest) (vd_device gpu) = Some (401, 1, 401) /\
  virthab_pchan_avail_check (w_devs guest) (vs_habs no_device) (vd_device gpu) 401 1 (vs_list no_device) = Ok true.
Proof. split_and!; reflexivity. Qed.

Lemma gpu_runs : match virthab_probe sample_queues zeros no_device gpu guest with Ok _ => True | _ => False end.
Proof. vm_compute. exact I. Qed.

Lemma virthab_probe_up_witness :
  exists r w', virthab_probe sample_queues zeros no_device gpu guest = Ok (r, w') /\ r.1 = 0 /\ wf idle w' /\
    exists ln vpc, w_hyp w' !! 6%nat = Some ln /\ ln_vpc ln = Some vpc /\ up good_answers 401 vpc.
Proof.
  destruct gpu_free as (F1 & F2 & F3). destruct guest_chan as (Ha & _ & _ & Hd & _).
  destruct (wp_ended _ _ _ (virthab_probe_up good_answers (fun q => length (sq_answers q)) sample_device sample_queues zeros
      (fun _ n Hn => repeat_zlen 0 n Hn) idle guest no_device gpu 401 1 401 11 [6%nat] (repeat end_queue 2) guest_wf Ha F1 F2 F3 gpu_probed))
    as (r & w' & He & Hr & Hwf & Hup & _).
  { intros Hb. pose proof gpu_runs as Hrun. rewrite Hb in Hrun. exact Hrun. }
  exists r, w'. split; [exact He|]. split; [exact Hr|]. split; [exact Hwf|].
  destruct (Hup 0%nat 6%nat eq_refl) as (dv & ln & vpc & Hdv & Hl & Hv & Hu). exists ln, vpc. split; [exact Hl|]. split; [exact Hv|].
  change (11 + 0)%nat with 11%nat in Hdv. rewrite Hdv in Hd. injection Hd as Hid _. rewrite Hid in Hu. exact Hu.
Defined.

(** The object of that device and the guest that it serves. *)
Definition gpu_hab : virtio_hab := Build_virtio_hab gpu 401 1 0 true ((401, Some 6%nat) :: repeat (0, None) 29) true.
Definition gpu_state : vhab_state := Build_vhab_state {[7%nat := gpu_hab]} [7%nat] vdev_tbl.
Definition gpu_link : virtio_pchan_link sample_queue :=
  Build_virtio_pchan_link 401 (Some (set_vp_vhab (Some 7%nat) (sample_vpc []))) (Some 7%nat) (100, 0).
Definition served_guest : world (virtio_pchan_link sample_queue) := set_w_hyp (<[6%nat := gpu_link]> (w_hyp guest)) guest.

Lemma served_guest_wf : wf idle served_guest.
Proof. eapply wf_frame; [apply frame_hyp|exact guest_wf]. Qed.

Lemma gpu_served : served sample_queues served_guest gpu_hab 11 [6%nat] (repeat end_queue 2).
Proof.
  destruct guest_chan as (_ & Hf & Hlen & Hd & Hl). constructor.
  - exact Hf.
  - reflexivity.
  - change (w_devs served_guest) with (w_devs guest). rewrite Hlen. cbn. lia.
  - intros [|j] p Hp; [|done]. injection Hp as <-. change (w_devs served_guest) with (w_devs guest). change (11 + 0)%nat with 11%nat.
    destruct (w_devs guest !! 11%nat) as [dv|]; [|done]. injection Hd as _ Hps. by exists dv, [].
  - apply NoDup_singleton.
  - intros p ->%list_elem_of_singleton. exists gpu_link. apply lookup_insert_eq.
  - reflexivity.
  - split; [cbn; lia|]. intros [|j] mm p Hj; [cbn in Hj; lia|]. intros Hs.
    cbn [gpu_hab vh_slots] in Hs. change (((401, Some 6%nat) :: repeat (0, None) 29) !! S j) with (repeat (0, @None nat) 29 !! j) in Hs.
    apply list_elem_of_lookup_2, list_elem_of_In, repeat_spec in Hs. discriminate Hs.
  - split; reflexivity.
Qed.

Lemma get_virtio_pchan_bounds_witness :
  get_virtio_pchan 30 gpu_hab 1 = Ok (Some (401, Some 6%nat)) /\ get_virtio_pchan 30 gpu_hab 60 = Fault OutOfBounds /\
  get_virtio_pchan 30 gpu_hab 61 = Ok None.
Proof.
  split; [|split].
  - rewrite (get_virtio_pchan_bounds 30 gpu_hab 1); [reflexivity|reflexivity|cbn; lia].
  - rewrite (get_virtio_pchan_bounds 30 gpu_hab 60); [reflexivity|reflexivity|cbn; lia].
  - rewrite (get_virtio_pchan_bounds 30 gpu_hab 61); [reflexivity|reflexivity|cbn; lia].
Defined.

Lemma gpu_removed : match virthab_remove gpu_state gpu served_guest with Ok _ => True | _ => False end.
Proof. vm_compute. exact I. Qed.

Lemma virthab_remove_disconnects_witness :
  exists s' w', virthab_remove gpu_state gpu served_guest = Ok (s', w') /\ wf idle w' /\ (7%nat ∉ vs_list s') /\
    exists ln, w_hyp w' !! 6%nat = Some ln /\ virtio_send 0 ln three [1; 2; 3] = Ok (- ENODEV, 0, ln).
Proof.
  destruct (wp_ended _ _ _ (virthab_remove_disconnects idle served_guest gpu_state gpu 7 gpu_hab 0 three [1; 2; 3] served_guest_wf eq_refl
    ltac:(intros mm o [= -> ->]%list_elem_of_singleton; exists 6%nat, gpu_link; split; [reflexivity|apply lookup_insert_eq])))
    as (s' & w' & He & Hwf & Hni & _ & Hs).
  { intros Hb. pose proof gpu_removed as Hrun. rewrite Hb in Hrun. exact Hrun. }
  exists s', w'. split; [exact He|]. split; [exact Hwf|]. split; [exact Hni|]. apply (Hs 401). by left.
Defined.

Definition frozen_gpu : vhab_state := put_hab 7 (set_vh_ready false gpu_hab) gpu_state.

Lemma gpu_restored : match virthab_restore sample_queues zeros frozen_gpu gpu served_guest with Ok _ => True | _ => False end.
Proof. vm_compute. exact I. Qed.

Lemma virthab_restore_starves_witness :
  exists r w', virthab_restore sample_queues zeros frozen_gpu gpu served_guest = Ok (r, w') /\ r.1 = 0 /\
    exists ln vpc, w_hyp w' !! 6%nat = Some ln /\ ln_vpc ln = Some vpc /\ vp_pchan_ready vpc = true /\ vq_held (vp_rx vpc) = [].
Proof.
  destruct (wp_ended _ _ _ (virthab_restore_starves sample_queues zeros served_guest gpu_state frozen_gpu gpu 7 gpu_hab 11 [6%nat]
    (repeat end_queue 2) 0 eq_refl eq_refl gpu_served
    ltac:(apply list.Forall_forall; intros q Hq; apply list_elem_of_In, repeat_spec in Hq; subst q; reflexivity)
    ltac:(intros p ->%list_elem_of_singleton; exists gpu_link, (set_vp_vhab (Some 7%nat) (sample_vpc []));
          split; [apply lookup_insert_eq|by split]))) as (r & w' & He & Hr & _ & Hs).
  { intros Hb. pose proof gpu_restored as Hrun. rewrite Hb in Hrun. exact Hrun. }
  exists r, w'. split; [exact He|]. split; [exact Hr|]. apply Hs. by left.
Defined.
