(* ===== verification/LoopThread.v ===== *)
(** The thread of a loopback channel (hab_comm.c), which hands what was sent on the
    channel back to the driver, and what the whole path gives: the messages that one
    end sends are received by the other end, each whole, once and in order. *)
From S2P Require Import Prelude Header World Logic Memory Invariant Pchan Exports Context Vchan Wait Open Loopback Sample Msg Mimex Progress Hab.

Section ops.
Context `{Platform loopback_dev} `{KernelIdr}.
#[local] Abbreviation M := (World.M loopback_dev).

Definition get_lb (p : nat) : M loopback_dev := fun w =>
  match w_hyp w !! p with Some dev => Ok (dev, w) | None => Fault NullDeref end.
Definition put_lb (p : nat) (dev : loopback_dev) : M unit :=
  modify (fun w => set_w_hyp (<[p := dev]> (w_hyp w)) w).

(** The oldest message leaves the list and is the current one. *)
(* src/hab_comm.c:60-64 lb_kthread *)
Definition lb_take (m : loopback_msg) (l : list loopback_msg) (dev : loopback_dev) : loopback_dev :=
  Build_loopback_dev l (lb_msg_cnt dev - 1) (Some m) (lb_alloc dev) (lb_now dev) (lb_locked dev) (lb_stop dev).
(* src/hab_comm.c:78-79 lb_kthread *)
Definition lb_done (dev : loopback_dev) : loopback_dev :=
  Build_loopback_dev (lb_msg_list dev) (lb_msg_cnt dev) None (lb_alloc dev) (lb_now dev) (lb_locked dev) (lb_stop dev).
Definition lb_lock (b : bool) (dev : loopback_dev) : loopback_dev :=
  Build_loopback_dev (lb_msg_list dev) (lb_msg_cnt dev) (lb_current_msg dev) (lb_alloc dev) (lb_now dev) b (lb_stop dev).

(** One message; [false] when there is none. *)
(* src/hab_comm.c:57-80 lb_kthread *)
Definition lb_deliver_one (p : nat) : M bool :=
  let! dev := get_lb p in
  match lb_msg_list dev with
  | [] => ret false
  | m :: l =>
      do! put_lb p (lb_take m l dev) in
      let! _ := hab_msg_recv p (lm_header m) in
      let! dev := get_lb p in
      do! put_lb p (lb_done dev) in
      ret true
  end.

(* src/hab_comm.c:57-80 lb_kthread *)
Fixpoint lb_drain (n : nat) (p : nat) : M unit :=
  match n with
  | O => fail OutOfFuel
  | S n => let! more := lb_deliver_one p in if more then lb_drain n p else ret tt
  end.

(** What the thread does when it is woken: the lock is held until the list is
    empty. *)
(* src/hab_comm.c:55-82 lb_kthread *)
Definition lb_kthread_turn (n : nat) (p : nat) : M unit :=
  let! dev := get_lb p in
  do! put_lb p (lb_lock true dev) in
  do! lb_drain n p in
  let! dev := get_lb p in
  put_lb p (lb_lock false dev).

(** The thread over a sequence of what others do while it waits; it is left waiting
    when there is nothing more, and has ended when it was told to stop. *)
(* src/hab_comm.c:42-87 lb_kthread *)
Fixpoint lb_kthread (n : nat) (p : nat) (s : list (M unit)) : M bool :=
  let! dev := get_lb p in
  if lb_stop dev then ret true
  else
    match s with
    | [] => ret false
    | other :: s =>
        do! other in
        let! dev := get_lb p in
        do! when (negb (lb_thread_queue_empty dev) || lb_stop dev) (lb_kthread_turn n p) in
        lb_kthread n p s
    end.

(** The loopback transport has no deferred reception. *)
(* src/hab_comm.c:197-199 physical_channel_rx_dispatch *)
Definition lb_rx_dispatch (p : nat) : M unit := ret tt.
End ops.

(** ** From one end to the other *)

Section path.
Context `{Platform loopback_dev} `{KernelIdr} `{!Loopback}.
Implicit Types (w : world loopback_dev).

(** The context's first channel of this id. *)
Definition owns w (c v : nat) (vc : virtual_channel) : Prop :=
  exists cx l1 l2, w_ctxs w !! c = Some cx /\ cx_vchannels cx = l1 ++ v :: l2 /\
    Forall (fun x => exists xc, w_vchans w !! x = Some xc /\ vc_id xc <> vc_id vc) l1.

(** [v] of the context [c] and [u] of the context [a] are the two ends of an open
    connection over the channel [p], whose transport is [dev]; memory is plentiful. *)
Record link w (c v a u p : nat) (vc uc : virtual_channel) (pc : physical_channel) (dev : loopback_dev) : Prop := {
  lk_ne : u <> v;
  lk_cv : owns w c v vc;
  lk_au : owns w a u uc;
  lk_v : w_vchans w !! v = Some vc;
  lk_u : w_vchans w !! u = Some uc;
  lk_vopen : vc_closed vc = false /\ vc_otherend_closed vc = false /\ 1 <= vc_refcount vc /\ vc_pchan vc = p;
  lk_uopen : vc_closed uc = false /\ vc_otherend_closed uc = false /\ 1 <= vc_refcount uc /\ vc_otherend_id uc <> 0;
  lk_sess : vc_session_id uc = u32 (vc_session_id vc);
  lk_peer : pc_vchan_idr pc !! HAB_VCID_GET_ID (vc_otherend_id vc) = Some u;
  lk_p : w_pchans w !! p = Some pc;
  lk_dev : w_hyp w !! p = Some dev;
  lk_mem : w_alloc w = [] /\ lb_alloc dev = []
}.

Lemma owns_upd w w' c v vc vc' :
  (forall x xc, w_vchans w !! x = Some xc -> exists xc', w_vchans w' !! x = Some xc' /\ vc_id xc' = vc_id xc) ->
  w_ctxs w' = w_ctxs w -> vc_id vc' = vc_id vc -> owns w c v vc -> owns w' c v vc'.
Proof.
  intros Hv Hc Hid (cx & l1 & l2 & E1 & E2 & E3). exists cx, l1, l2. rewrite Hc, Hid. split_and!; try done.
  eapply list.Forall_impl; [exact E3|]. intros x (xc & Hx & Hne). destruct (Hv x xc Hx) as (xc' & ? & ?).
  exists xc'. split; [done|congruence].
Qed.

Lemma owns_insert w w' c v vc vc' x xc xc' :
  w_vchans w !! x = Some xc -> w_vchans w' = <[x := xc']> (w_vchans w) -> vc_id xc' = vc_id xc ->
  w_ctxs w' = w_ctxs w -> vc_id vc' = vc_id vc -> owns w c v vc -> owns w' c v vc'.
Proof.
  intros Hx Hw Hid Hc Hvid. apply owns_upd; [|done|done]. intros y yc Hy. rewrite Hw, lookup_insert.
  case_decide; [subst; exists xc'; split; [done|congruence]|by exists yc].
Qed.

(** The message that [data] becomes on the way. *)
Definition lb_message (vc : virtual_channel) (t : hab_payload_type) (data : bytes) : loopback_msg :=
  Build_loopback_msg (zlen data) (mk_header (zlen data) t (vc_otherend_id vc) (vc_session_id vc)) data.
Definition lb_push (m : loopback_msg) (dev : loopback_dev) : loopback_dev :=
  Build_loopback_dev (lb_msg_list dev ++ [m]) (lb_msg_cnt dev + 1) (lb_current_msg dev) [] (lb_now dev) (lb_locked dev) (lb_stop dev).
(** And on the receive queue. *)
Definition rx_message (pc : physical_channel) (data : bytes) : hab_message :=
  Build_hab_message (zlen data) false (pc_sequence_rx pc) [data].

Lemma lb_send_eq dev vc t data :
  lb_alloc dev = [] -> lb_locked dev = false -> zlen data <= HAB_HEADER_SIZE_MAX -> data_type t ->
  lb_send dev (mk_header (zlen data) t (vc_otherend_id vc) (vc_session_id vc)) data = Ok (0, lb_push (lb_message vc t data) dev).
Proof.
  intros Ha Hl Hn Ht. pose proof (zlen_nonneg data). unfold HAB_HEADER_SIZE_MAX in Hn. unfold lb_send. cbv zeta.
  rewrite mk_header_size, Ha, Hl. rewrite u32_id by (unfold is_u32; lia). rewrite i32_id by (unfold is_i32; lia).
  assert ((if zlen data =? 0 then Ok [] else
    let? payload := stamp_tx (mk_header (zlen data) t (vc_otherend_id vc) (vc_session_id vc)) (lb_now dev) data in
    of_opt OutOfBounds (mem_read payload 0 (zlen data))) = Ok data) as ->; [|unfold lb_push; by rewrite Hl].
  destruct (Z.eqb_spec (zlen data) 0) as [Hz|].
  { destruct data; [done|]. unfold zlen in Hz. simpl in Hz. lia. } unfold stamp_tx. rewrite mk_header_type.
  assert ((payload_code t =? payload_code HAB_PAYLOAD_TYPE_PROFILE) = false) as -> by (by destruct Ht as [->|[->| ->]]).
  cbn [res_bind]. rewrite mem_read_Some by lia. cbn [of_opt]. f_equal. unfold zlen. rewrite Nat2Z.id. apply take_ge. simpl. lia.
Qed.

(** What is sent joins the transport's list. *)
Lemma link_send w c v a u p vc uc pc dev flags data t s :
  link w c v a u p vc uc pc dev -> lb_locked dev = false ->
  zlen data <= HAB_HEADER_SIZE_MAX -> send_type flags (zlen data) = Some t -> data_type t ->
  exists w' vc', hab_vchan_send c (vc_id vc) data flags s w = Ok ((0, s), w') /\
    vc' = set_vc_tx_cnt (u64 (vc_tx_cnt vc + 1)) vc /\
    link w' c v a u p vc' uc pc (lb_push (lb_message vc t data) dev).
Proof.
  intros [] Hl Hn Hst Ht. destruct lk_cv0 as (cx & l1 & l2 & Hc & Hcl & Hl1). destruct lk_vopen0 as (V1 & V2 & V3 & V4). subst p.
  assert (Hs : phys_send pc dev (mk_header (zlen data) t (vc_otherend_id vc) (vc_session_id vc)) data =
    Some (0, pc_sequence_tx pc, lb_push (lb_message vc t data) dev)).
  { rewrite loopback_send. unfold lb_phys_send. by rewrite lb_send_eq by tauto. }
  eexists _, _. split; [by eapply send_data_eq|]. split; [done|].
  constructor; simpl; try done.
  - eapply owns_insert; [exact lk_v0|reflexivity|done|done|done|]. by exists cx, l1, l2.
  - eapply owns_insert; [exact lk_v0|reflexivity|done|done|done|exact lk_au0].
  - apply lookup_insert_eq.
  - by rewrite lookup_insert_ne.
  - rewrite lookup_insert_eq. by destruct pc.
  - apply lookup_insert_eq.
  - by destruct lk_mem0.
Qed.

Lemma lb_read_eq pc dev m :
  lb_current_msg dev = Some m -> lm_payload_size m = zlen (lm_payload m) -> zlen (lm_payload m) <= HAB_HEADER_SIZE_MAX ->
  phys_read pc dev (zlen (lm_payload m)) = (zlen (lm_payload m), lm_payload m, dev).
Proof.
  intros Hc Hs Hn. pose proof (zlen_nonneg (lm_payload m)). unfold HAB_HEADER_SIZE_MAX in Hn.
  rewrite loopback_read. unfold lb_phys_read, lb_read. rewrite Hc, Hs, Z.eqb_refl.
  destruct (Z.eqb_spec (zlen (lm_payload m)) 0) as [Hz|].
  { destruct (lm_payload m); [done|]. unfold zlen in Hz. simpl in Hz. lia. }
  rewrite mem_read_Some by lia. cbn [of_opt res_bind]. rewrite i32_id by (unfold is_i32; lia).
  assert (take (Z.to_nat (zlen (lm_payload m))) (drop (Z.to_nat 0) (lm_payload m)) = lm_payload m) as ->
    by (unfold zlen; rewrite Nat2Z.id; apply take_ge; simpl; lia).
  destruct (Z.leb_spec (zlen (lm_payload m)) (zlen (lm_payload m))), (Z.leb_spec 0 (zlen (lm_payload m))); done || lia.
Qed.

(** What the thread takes from the list joins the receiver's queue. *)
Lemma link_deliver w c v a u p vc uc pc dev data t l :
  link w c v a u p vc uc pc dev -> lb_msg_list dev = lb_message vc t data :: l ->
  zlen data <= HAB_HEADER_SIZE_MAX -> data_type t ->
  exists w' dev', lb_deliver_one p w = Ok (true, w') /\ dev' = lb_done (lb_take (lb_message vc t data) l dev) /\
    link w' c v a u p vc (set_vc_rx_list (vc_rx_list uc ++ [rx_message pc data]) uc) pc dev'.
Proof.
  intros [] Hl Hn Ht. pose proof (zlen_nonneg data). assert (Hn' := Hn). unfold HAB_HEADER_SIZE_MAX in Hn'.
  destruct lk_uopen0 as (U1 & U2 & U3 & U4). set (m := lb_message vc t data) in *.
  set (dev1 := lb_take m l dev). set (w1 := set_w_hyp (<[p := dev1]> (w_hyp w)) w).
  assert (Hsz : payload_size (lm_header m) = zlen data).
  { change (payload_size (lm_header m)) with (u32 (zlen data)). apply u32_id. unfold is_u32. lia. }
  destruct (recv_data_eq w1 p u pc uc dev1 dev1 (lm_header m) t (zlen data) data) as (w2 & He & F1 & F2 & _ & F3 & F4 & _ & _ & _ & F5).
  - exact lk_p0.
  - apply lookup_insert_eq.
  - change (HAB_HEADER_GET_ID (lm_header m)) with (HAB_HEADER_GET_ID (mk_header (zlen data) t (vc_otherend_id vc) (vc_session_id vc))).
    rewrite mk_header_id, vcid_get_id_mod, vcid_get_id_mod, Zmod_mod, <- vcid_get_id_mod. exact lk_peer0.
  - exact lk_u0.
  - unfold receives. rewrite U1, U2. change (HAB_HEADER_GET_SESSION_ID (lm_header m)) with (u32 (vc_session_id vc)).
    rewrite lk_sess0, Z.eqb_refl.
    destruct (Z.eqb_spec (vc_otherend_id uc) 0); [done|]. destruct (Z.eqb_spec (vc_refcount uc) 0); [lia|done].
  - exact U3.
  - apply mk_header_type.
  - exact Ht.
  - by rewrite Hsz.
  - intros x. simpl. by rewrite (proj1 lk_mem0).
  - rewrite Hsz. by apply (lb_read_eq pc dev1 m).
  - assert (Hm : read_msg pc (payload_size (lm_header m)) (zlen data) data = rx_message pc data).
    { rewrite Hsz. unfold read_msg, rx_message, u64. rewrite fill_buf_all, Z.mod_small by lia. done. }
    rewrite Hm in F1. eexists _, _. split.
    { unfold lb_deliver_one, bind, get_lb, put_lb, modify. rewrite lk_dev0, Hl. fold m. fold dev1. fold w1. rewrite He, F2.
      simpl. rewrite lookup_insert_eq. reflexivity. }
    split; [done|]. constructor; simpl; try done.
    + eapply owns_insert; [exact lk_u0|exact F1|done|exact F4|done|done].
    + eapply owns_insert; [exact lk_u0|exact F1|done|exact F4|done|done].
    + by rewrite F1, lookup_insert_ne.
    + rewrite F1. apply lookup_insert_eq.
    + by rewrite F3.
    + apply lookup_insert_eq.
    + rewrite F5. simpl. by destruct lk_mem0 as [-> ->].
Qed.

Lemma link_drain c v a u p vc pc t ds : forall n w uc dev,
  data_type t -> Forall (fun d => zlen d <= HAB_HEADER_SIZE_MAX) ds ->
  link w c v a u p vc uc pc dev -> lb_msg_list dev = map (lb_message vc t) ds -> (length ds < n)%nat ->
  exists w' dev', lb_drain n p w = Ok (tt, w') /\ lb_msg_list dev' = [] /\ lb_alloc dev' = [] /\
    link w' c v a u p vc (set_vc_rx_list (vc_rx_list uc ++ map (rx_message pc) ds) uc) pc dev'.
Proof.
  induction ds as [|d ds IH]; intros [|n] w uc dev Ht Hs Hlk Hl Hn; simpl in Hn; try lia.
  - exists w, dev. split; [|split; [done|split; [apply (lk_mem _ _ _ _ _ _ _ _ _ _ Hlk)|]]].
    + cbn [lb_drain]. unfold bind, lb_deliver_one, bind, get_lb. by rewrite (lk_dev _ _ _ _ _ _ _ _ _ _ Hlk), Hl.
    + rewrite app_nil_r. by destruct uc.
  - apply list.Forall_cons in Hs as [Hd Hs].
    destruct (link_deliver w c v a u p vc uc pc dev d t _ Hlk Hl Hd Ht) as (w1 & dev1 & He & Hd1 & Hlk1).
    destruct (IH n w1 _ dev1 Ht Hs Hlk1) as (w2 & dev2 & He2 & Hl2 & Ha2 & Hlk2); [by subst dev1|lia|].
    exists w2, dev2. split; [|split; [done|split; [done|]]].
    + cbn [lb_drain]. unfold bind. by rewrite He.
    + cbn [map]. rewrite cons_middle, app_assoc. by destruct uc.
Qed.

(** A change of the transport's own state. *)
Lemma link_dev w c v a u p vc uc pc dev dev' :
  link w c v a u p vc uc pc dev -> lb_alloc dev' = [] -> link (set_w_hyp (<[p := dev']> (w_hyp w)) w) c v a u p vc uc pc dev'.
Proof. intros [] Ha. constructor; try done; [apply lookup_insert_eq|]. by destruct lk_mem0. Qed.

Lemma link_turn c v a u p vc pc t ds n w uc dev :
  data_type t -> Forall (fun d => zlen d <= HAB_HEADER_SIZE_MAX) ds ->
  link w c v a u p vc uc pc dev -> lb_msg_list dev = map (lb_message vc t) ds -> (length ds < n)%nat ->
  exists w' dev', lb_kthread_turn n p w = Ok (tt, w') /\ lb_msg_list dev' = [] /\ lb_locked dev' = false /\
    link w' c v a u p vc (set_vc_rx_list (vc_rx_list uc ++ map (rx_message pc) ds) uc) pc dev'.
Proof.
  intros Ht Hs Hlk Hl Hn. assert (Hlk1 := link_dev _ _ _ _ _ _ _ _ _ _ (lb_lock true dev) Hlk (proj2 (lk_mem _ _ _ _ _ _ _ _ _ _ Hlk))).
  destruct (link_drain c v a u p vc pc t ds n _ uc _ Ht Hs Hlk1 Hl Hn) as (w2 & dev2 & He & Hl2 & Ha2 & Hlk2).
  exists (set_w_hyp (<[p := lb_lock false dev2]> (w_hyp w2)) w2), (lb_lock false dev2).
  split; [|split; [exact Hl2|split; [done|by eapply link_dev]]].
  unfold lb_kthread_turn. unfold bind at 1, get_lb at 1. rewrite (lk_dev _ _ _ _ _ _ _ _ _ _ Hlk).
  unfold bind at 1, put_lb at 1, modify. unfold bind at 1. rewrite He. unfold bind, get_lb.
  by rewrite (lk_dev _ _ _ _ _ _ _ _ _ _ Hlk2).
Qed.

(** The oldest message of the queue is what a receive returns. *)
Lemma link_recv w c v a u p vc uc pc dev m l rsize timeout flags s :
  link w c v a u p vc uc pc dev -> vc_rx_list uc = m :: l -> m_sizebytes m <= u64 rsize ->
  exists w' uc', hab_vchan_recv lb_rx_dispatch a (vc_id uc) rsize timeout flags s w =
      Ok ((0, Some m, i32 (m_sizebytes m), s), w') /\
    vc_rx_list uc' = l /\ vc_id uc' = vc_id uc /\ link w' c v a u p vc uc' pc dev.
Proof.
  intros [] Hl Hn. destruct lk_uopen0 as (U1 & U2 & U3 & U4). assert (Hown := lk_au0).
  destruct Hown as (ax & l1 & l2 & Ha & Hal & Hf).
  set (uc' := set_vc_rx_inflight false (set_vc_rx_cnt (u64 (vc_rx_cnt uc + 1)) (set_vc_rx_list l uc))).
  set (w' := set_w_vchans (<[u := uc']> (w_vchans w)) w).
  exists w', uc'. split; [|split; [done|split; [done|]]].
  - by eapply recv_head_eq.
  - constructor; simpl; try done.
    + eapply owns_insert; [exact lk_u0|reflexivity|done|done|done|done].
    + eapply owns_insert; [exact lk_u0|reflexivity|done|done|done|done].
    + by rewrite lookup_insert_ne.
    + apply lookup_insert_eq.
Qed.

(** *** Several messages *)

Fixpoint send_all (c : nat) (vcid flags : Z) (ds : list bytes) : World.M loopback_dev (list Z) :=
  match ds with
  | [] => ret []
  | d :: ds =>
      let! r := hab_vchan_send c vcid d flags [] in
      let! rs := send_all c vcid flags ds in
      ret (r.1 :: rs)
  end.

Fixpoint recv_all (c : nat) (vcid rsize : Z) (n : nat) : World.M loopback_dev (list (Z * option hab_message * Z)) :=
  match n with
  | O => ret []
  | S n =>
      let! r := hab_vchan_recv lb_rx_dispatch c vcid rsize 0 0 [] in
      let! rs := recv_all c vcid rsize n in
      ret (r.1 :: rs)
  end.

(** The messages of this size that these flags send as data. *)
Definition sendable (flags : Z) (t : hab_payload_type) (data : bytes) : Prop :=
  zlen data <= HAB_HEADER_SIZE_MAX /\ send_type flags (zlen data) = Some t.

Lemma link_send_all c v a u p uc pc flags t ds : forall w vc dev,
  data_type t -> Forall (sendable flags t) ds ->
  link w c v a u p vc uc pc dev -> lb_locked dev = false ->
  exists w' vc' dev', send_all c (vc_id vc) flags ds w = Ok (repeat 0 (length ds), w') /\
    vc_id vc' = vc_id vc /\ (forall d, lb_message vc' t d = lb_message vc t d) /\
    lb_msg_list dev' = lb_msg_list dev ++ map (lb_message vc t) ds /\
    link w' c v a u p vc' uc pc dev'.
Proof.
  induction ds as [|d ds IH]; intros w vc dev Ht Hs Hlk Hl.
  - exists w, vc, dev. rewrite app_nil_r. by split_and!.
  - apply list.Forall_cons in Hs as [[Hd1 Hd2] Hs].
    destruct (link_send w c v a u p vc uc pc dev flags d t [] Hlk Hl Hd1 Hd2 Ht) as (w1 & vc1 & He & Hv1 & Hlk1).
    assert (Hid : vc_id vc1 = vc_id vc) by (by subst vc1). assert (Hm : forall d, lb_message vc1 t d = lb_message vc t d) by (by subst vc1).
    destruct (IH w1 vc1 _ Ht Hs Hlk1) as (w2 & vc2 & dev2 & He2 & Hid2 & Hm2 & Hl2 & Hlk2); [done|].
    exists w2, vc2, dev2. split_and!; [|congruence|intros x; by rewrite Hm2| |done].
    + cbn [send_all]. unfold bind. rewrite He, <- Hid, He2. done.
    + rewrite Hl2. simpl. rewrite <- app_assoc. simpl. do 2 f_equal. by apply map_ext.
Qed.

Lemma link_recv_all c v a u p vc pc dev rsize ds : forall w uc,
  Forall (fun d => zlen d <= HAB_HEADER_SIZE_MAX /\ zlen d <= u64 rsize) ds ->
  link w c v a u p vc uc pc dev -> vc_rx_list uc = map (rx_message pc) ds ->
  exists w' uc', recv_all a (vc_id uc) rsize (length ds) w = Ok (map (fun d => (0, Some (rx_message pc d), zlen d)) ds, w') /\
    vc_rx_list uc' = [] /\ link w' c v a u p vc uc' pc dev.
Proof.
  induction ds as [|d ds IH]; intros w uc Hs Hlk Hl.
  - by exists w, uc.
  - apply list.Forall_cons in Hs as [[Hd1 Hd2] Hs].
    destruct (link_recv w c v a u p vc uc pc dev (rx_message pc d) _ rsize 0 0 [] Hlk Hl Hd2) as (w1 & uc1 & He & Hl1 & Hid & Hlk1).
    destruct (IH w1 uc1 Hs Hlk1 Hl1) as (w2 & uc2 & He2 & Hl2 & Hlk2). exists w2, uc2. split_and!; [|done|done].
    cbn [recv_all length]. unfold bind. rewrite He, <- Hid, He2. cbn. rewrite i32_id; [done|].
    pose proof (zlen_nonneg d). unfold HAB_HEADER_SIZE_MAX in Hd1. unfold is_i32. lia.
Qed.

(** C7: Over the loopback transport, what one end of a connection sends is what the
    other end receives: once the channel's thread has had its turn, the receives
    return the bytes of the sends, each message whole, once and in order, and
    nothing is left in the transport or in the queue. *)
Theorem loopback_transfer (w : world loopback_dev) (c v a u p : nat) (vc uc : virtual_channel) (pc : physical_channel)
    (dev : loopback_dev) (flags rsize : Z) (t : hab_payload_type) (ds : list bytes) (n : nat) :
  link w c v a u p vc uc pc dev -> lb_msg_list dev = [] -> lb_locked dev = false -> vc_rx_list uc = [] ->
  data_type t -> Forall (sendable flags t) ds -> Forall (fun d => zlen d <= u64 rsize) ds -> (length ds < n)%nat ->
  exists w' vc' uc' dev',
    (let! sent := send_all c (vc_id vc) flags ds in
     do! lb_kthread_turn n p in
     let! received := recv_all a (vc_id uc) rsize (length ds) in
     ret (sent, received)) w =
    Ok ((repeat 0 (length ds),
         map (fun d => (0, Some (Build_hab_message (zlen d) false (pc_sequence_rx pc) [d]), zlen d)) ds), w') /\
    link w' c v a u p vc' uc' pc dev' /\ lb_msg_list dev' = [] /\ vc_rx_list uc' = [].
Proof.
  intros Hlk Hl Hu Hq Ht Hs Hr Hn.
  destruct (link_send_all c v a u p uc pc flags t ds w vc dev Ht Hs Hlk Hu) as (w1 & vc1 & dev1 & E1 & _ & Hm & Hl1 & Hlk1).
  rewrite Hl in Hl1. rewrite (map_ext _ _ (fun d => eq_sym (Hm d))) in Hl1.
  assert (Hmax : Forall (fun d => zlen d <= HAB_HEADER_SIZE_MAX) ds) by (eapply list.Forall_impl; [exact Hs|by intros ? []]).
  destruct (link_turn c v a u p vc1 pc t ds n w1 uc dev1 Ht Hmax Hlk1 Hl1 Hn) as (w2 & dev2 & E2 & Hl2 & _ & Hlk2).
  rewrite Hq in Hlk2. simpl in Hlk2.
  assert (Hfit : Forall (fun d => zlen d <= HAB_HEADER_SIZE_MAX /\ zlen d <= u64 rsize) ds).
  { rewrite list.Forall_forall in *. auto. }
  destruct (link_recv_all c v a u p vc1 pc dev2 rsize ds w2 _ Hfit Hlk2 eq_refl) as (w3 & uc3 & E3 & Hl3 & Hlk3).
  exists w3, vc1, uc3, dev2. split_and!; [|done..]. unfold bind. rewrite E1, E2.
  change (vc_id uc) with (vc_id (set_vc_rx_list (map (rx_message pc) ds) uc)). by rewrite E3.
Qed.
End path.

(** The two channels of the sample are the ends of a connection. *)
Lemma sample_link : link (sample quiet_lb) 1 2 1 3 0 (sample_vchan 1 2) (sample_vchan 2 1) sample_pchan quiet_lb.
Proof.
  constructor; try done.
  - exists sample_ctx, [], [3%nat]. by split_and!.
  - exists sample_ctx, [2%nat], []. split_and!; try done. constructor; [by eexists|constructor].
Qed.

Lemma loopback_transfer_witness :
  exists w', (let! sent := send_all 1 1 0 [[1; 2; 3]; [4]] in
    do! lb_kthread_turn 3 0 in
    let! received := recv_all 1 2 4096 2 in
    ret (sent, received)) (sample quiet_lb) =
  Ok (([0; 0], [(0, Some (Build_hab_message 3 false 0 [[1; 2; 3]]), 3); (0, Some (Build_hab_message 1 false 0 [[4]]), 1)]), w').
Proof.
  destruct (loopback_transfer (sample quiet_lb) 1 2 1 3 0 (sample_vchan 1 2) (sample_vchan 2 1) sample_pchan quiet_lb 0 4096
    HAB_PAYLOAD_TYPE_MSG [[1; 2; 3]; [4]] 3) as (w' & _ & _ & _ & He & _); [exact sample_link|try done..|by eexists].
  - by left.
  - repeat constructor; done.
  - repeat constructor; done.
  - simpl. lia.
Defined.

(** The thread holds the lock of the list while it hands a message to the
    driver, and the answer that an import request calls for takes the same lock: the
    thread waits for itself. *)
Theorem loopback_ack_deadlock :
  let hd := mk_header 8 HAB_PAYLOAD_TYPE_IMPORT 2 7 in
  let dev := Build_loopback_dev [Build_loopback_msg 8 hd (le_enc 4 1 ++ le_enc 4 1)] 1 None [] (100, 0) false false in
  lb_kthread_turn 2 0 (sample dev) = Blocked /\
  (exists w', hab_msg_recv 0 hd (sample (lb_take (Build_loopback_msg 8 hd (le_enc 4 1 ++ le_enc 4 1)) [] dev)) = Ok (0, w')).
Proof. split; [by vm_compute|]. eexists. by vm_compute. Qed.
