(* ===== verification/Config.v ===== *)
(** The configuration (hab_parser.c) and what is made of it when the driver starts
    (the end of hab.c): the table of which remote VM uses which group of mmids in
    which role, and the physical channels created for it. *)
From S2P Require Import Prelude Header World Logic Memory Invariant Pchan Exports Context Vchan Wait Open Loopback Sample Msg Hab.

(* src/hab.h:95-95 HABCFG_MMID_AREA_MAX *)
Definition HABCFG_MMID_AREA_MAX : Z := 16.
(* src/hab.h:97-97 HABCFG_VMID_MAX *)
Definition HABCFG_VMID_MAX : Z := 16.
(* src/hab.h:98-98 HABCFG_VMID_INVALID *)
Definition HABCFG_VMID_INVALID : Z := -1.
(* src/hab.h:114-115 HABCFG_BE_FALSE *)
Definition HABCFG_BE_FALSE : Z := 0.
(* src/hab.h:114-115 HABCFG_BE_TRUE *)
Definition HABCFG_BE_TRUE : Z := 1.

(** The first and the end of each group, [MM_*_START] and [MM_*_END]. *)
(* src/include/uapi/linux/habmmid.h:11-90 MM_AUD_START *)
Definition mmid_groups : list (Z * Z) :=
  [(100, 105); (200, 203); (300, 306); (400, 402); (500, 504); (600, 602); (700, 702); (800, 803);
   (900, 902); (1000, 1002); (1100, 1103); (1200, 1202); (1300, 1304); (1400, 1402); (1500, 1502); (1600, 1602)].
(* src/include/uapi/linux/habmmid.h:11-11 MM_AUD_START *)
Definition MM_AUD_START : Z := 100.
(* src/include/uapi/linux/habmmid.h:89-89 MM_ID_MAX *)
Definition MM_ID_MAX : Z := 1603.

(** ** The table *)

(* src/hab.h:368-372 vmid_mmid_desc *)
Record vmid_mmid_desc := { vd_vmid : Z; vd_mmid : list Z; vd_is_listener : list Z }.

(* src/hab.h:374-377 local_vmid *)
Record local_vmid := { lv_self : Z; lv_list : list vmid_mmid_desc }.

(** [memset] to [HABCFG_VMID_INVALID]: every word is -1. *)
(* src/hab.c:1175-1176 do_hab_parse *)
Definition blank_desc : vmid_mmid_desc :=
  Build_vmid_mmid_desc HABCFG_VMID_INVALID (repeat HABCFG_VMID_INVALID 17) (repeat HABCFG_VMID_INVALID 17).
(* src/hab.c:1175-1176 do_hab_parse *)
Definition blank_settings : local_vmid := Build_local_vmid HABCFG_VMID_INVALID (repeat blank_desc 16).

(** A store into an array of the table. *)
Definition arr_set {A} (l : list A) (i : Z) (x : A) : res (list A) :=
  if (0 <=? i) && (i <? zlen l) then Ok (<[Z.to_nat i := x]> l) else Fault OutOfBounds.
Definition arr_get {A} (l : list A) (i : Z) : res A :=
  if (0 <=? i) && (i <? zlen l) then of_opt OutOfBounds (l !! Z.to_nat i) else Fault OutOfBounds.

(** [n] turns of a counting loop. *)
Fixpoint for_range {A} (f : Z -> A -> res A) (lo : Z) (n : nat) (a : A) : res A :=
  match n with
  | O => Ok a
  | S n => let? a := f lo a in for_range f (lo + 1) n a
  end.

(* src/hab_parser.c:20-29 fill_vmid_mmid_tbl *)
Definition fill_mmid (be j : Z) (d : vmid_mmid_desc) : res vmid_mmid_desc :=
  let? mmid := arr_set (vd_mmid d) j j in
  let? listener := arr_set (vd_is_listener d) j be in
  Ok (Build_vmid_mmid_desc (vd_vmid d) mmid listener).

(* src/hab_parser.c:18-30 fill_vmid_mmid_tbl *)
Definition fill_vmid (mmid_start mmid_range be i : Z) (tbl : list vmid_mmid_desc) : res (list vmid_mmid_desc) :=
  let? d := arr_get tbl i in
  let? d := for_range (fill_mmid be) mmid_start (Z.to_nat mmid_range)
    (Build_vmid_mmid_desc i (vd_mmid d) (vd_is_listener d)) in
  arr_set tbl i d.

(* src/hab_parser.c:12-33 fill_vmid_mmid_tbl *)
Definition fill_vmid_mmid_tbl (tbl : list vmid_mmid_desc) (vm_start vm_range mmid_start mmid_range be : Z) :
    res (list vmid_mmid_desc) :=
  for_range (fill_vmid mmid_start mmid_range be) vm_start (Z.to_nat vm_range) tbl.

(** The driver is built for a host ([CONFIG_MSM_VHOST_HAB]) or for a guest. *)
(* src/hab_parser.c:41-67 fill_default_gvm_settings *)
Definition fill_default_gvm_settings (vhost : bool) (settings : local_vmid) (vmid mmid_start mmid_end : Z) :
    res local_vmid :=
  let self := if vhost then 0 else vmid in
  let vmremote := if vhost then vmid else 0 in
  let? tbl := fill_vmid_mmid_tbl (lv_list settings) vmremote 1 (Z.quot mmid_start 100)
    (Z.quot (mmid_end - mmid_start) 100 + 1) (if vhost then HABCFG_BE_TRUE else HABCFG_BE_FALSE) in
  Ok (Build_local_vmid self tbl).

(** ** The device tree

    What the kernel's [of_property_*] calls find: a value, or the error they return. *)
Record mmid_grp_node := { g_start_id : Z + Z; g_role_be : Z + bool; g_vmids : Z + list Z }.
Record hab_node := { n_vmid : Z + Z; n_children : list mmid_grp_node }.

(* src/hab_parser.c:135-152 hab_parse_dt *)
Fixpoint parse_vmids (start be : Z) (vmids : list Z) (tbl : list vmid_mmid_desc) : res (Z * list vmid_mmid_desc) :=
  match vmids with
  | [] => Ok (0, tbl)
  | v :: vmids =>
      if HABCFG_VMID_MAX <=? u32 v then Ok (- EINVAL, tbl)
      else
        let? tbl := fill_vmid_mmid_tbl tbl v 1 (Z.quot start 100) 1 be in
        parse_vmids start be vmids tbl
  end.

(** The remote vmids are read into an array of 16 on the stack, however many there
    are. *)
(* src/hab_parser.c:97-154 hab_parse_dt *)
Fixpoint parse_groups (groups : list mmid_grp_node) (tbl : list vmid_mmid_desc) : res (Z * list vmid_mmid_desc) :=
  match groups with
  | [] => Ok (0, tbl)
  | g :: groups =>
      match g_start_id g, g_role_be g, g_vmids g with
      | inl r, _, _ => Ok (r, tbl)
      | _, inl r, _ => Ok (r, tbl)
      | _, _, inl r => Ok (r, tbl)
      | inr start, inr be, inr vmids =>
          if 16 <? zlen vmids then Fault OutOfBounds
          else
            let? r := parse_vmids (i32 start) (if be then 1 else 0) vmids tbl in
            if r.1 =? 0 then parse_groups groups (r.2) else Ok r
      end
  end.

(* src/hab_parser.c:70-158 hab_parse_dt *)
Definition hab_parse_dt (dt : option hab_node) (settings : local_vmid) : res (Z * local_vmid) :=
  match dt with
  | None => Ok (- ENODEV, settings)
  | Some n =>
      match n_vmid n with
      | inl r => Ok (r, settings)
      | inr vmid =>
          let? r := parse_groups (n_children n) (lv_list settings) in
          Ok (r.1, Build_local_vmid (i32 vmid) (r.2))
      end
  end.

(* src/hab_parser.c:164-171 hab_parse *)
Definition hab_parse (dt : option hab_node) (settings : local_vmid) : res (Z * local_vmid) :=
  hab_parse_dt dt settings.

(** What the start of the driver ends up with: the parsed table, or the default one. *)
(* src/hab.c:1174-1183 do_hab_parse *)
Definition read_settings (vhost : bool) (dt : option hab_node) (default_gvmid : Z) : res local_vmid :=
  let? r := hab_parse dt blank_settings in
  if r.1 =? 0 then Ok (r.2)
  else fill_default_gvm_settings vhost (r.2) default_gvmid MM_AUD_START MM_ID_MAX.

(** ** The channels made from it *)

Section generate.
Context {HS : Type} `{Platform HS}.
#[local] Abbreviation M := (World.M HS).

(** The hypervisor's part: a channel for a device, with the role and the remote VM,
    or an error. *)
Context (habhyp_commdev_alloc : bool -> Z -> nat -> M (Z * option nat)).

(* src/hab.c:984-1017 hab_initialize_pchan_entry *)
Definition hab_initialize_pchan_entry (mmid_device : option nat) (vmid_local vmid_remote is_be : Z) : M Z :=
  match mmid_device with
  | None => ret (- EINVAL)
  | Some d =>
      let! r := habhyp_commdev_alloc (negb (is_be =? 0)) vmid_remote d in
      if negb (r.1 =? 0) then ret (r.1)
      else
        let! p := deref (r.2) in
        do! upd_p p (fun pc => set_pc_vmid_remote vmid_remote (set_pc_vmid_local vmid_local pc)) in
        ret 0
  end.

(* src/hab.c:1019-1038 hab_generate_pchan_group *)
Fixpoint generate_group (k : Z) (n : nat) (vmid_local vmid_remote is_be ret0 : Z) : M Z :=
  match n with
  | O => ret ret0
  | S n =>
      let! d := find_hab_device k in
      let! r := hab_initialize_pchan_entry d vmid_local vmid_remote is_be in
      generate_group (k + 1) n vmid_local vmid_remote is_be (i32 (ret0 + r))
  end.

(** The row and the column of the table. *)
Definition cfg_vmid (settings : local_vmid) (i : nat) : Z := from_option vd_vmid HABCFG_VMID_INVALID (lv_list settings !! i).
Definition cfg_mmid (settings : local_vmid) (i j : nat) : Z :=
  from_option (fun d => nth j (vd_mmid d) HABCFG_VMID_INVALID) HABCFG_VMID_INVALID (lv_list settings !! i).
Definition cfg_be (settings : local_vmid) (i j : nat) : Z :=
  from_option (fun d => nth j (vd_is_listener d) HABCFG_VMID_INVALID) HABCFG_VMID_INVALID (lv_list settings !! i).

(** A group that is not one of the known is only reported. *)
(* src/hab.c:1044-1110 hab_generate_pchan *)
Definition hab_generate_pchan (settings : local_vmid) (i j : nat) : M Z :=
  match filter (fun g => g.1 / 100 = cfg_mmid settings i j) mmid_groups with
  | (first, last) :: _ =>
      generate_group (first + 1) (Z.to_nat (last - first - 1)) (lv_self settings) (cfg_vmid settings i)
        (cfg_be settings i j) 0
  | [] => ret 0
  end.

(** The groups of one remote VM; only the code of the last one stays. *)
(* src/hab.c:1127-1132 hab_generate_pchan_list *)
Fixpoint generate_row (settings : local_vmid) (i : nat) (js : list nat) (ret0 : Z) : M Z :=
  match js with
  | [] => ret ret0
  | j :: js =>
      let! r := (if cfg_mmid settings i j =? HABCFG_VMID_INVALID then ret ret0 else hab_generate_pchan settings i j) in
      generate_row settings i js r
  end.

(* src/hab.c:1116-1137 hab_generate_pchan_list *)
Fixpoint generate_rows (settings : local_vmid) (rows : list nat) (ret0 : Z) : M Z :=
  match rows with
  | [] => ret ret0
  | i :: rows =>
      let! r := (if (cfg_vmid settings i =? HABCFG_VMID_INVALID) || (cfg_vmid settings i =? lv_self settings)
                 then ret ret0 else generate_row settings i (seq 1 16) ret0) in
      generate_rows settings rows r
  end.

(* src/hab.c:1116-1137 hab_generate_pchan_list *)
Definition hab_generate_pchan_list (settings : local_vmid) : M Z :=
  generate_rows settings (seq 0 16) 0.
End generate.

(** ** What a configuration means *)

(** A cell of the table: whether the remote VM [i] uses the group [j], and its role. *)
Definition cell (tbl : list vmid_mmid_desc) (i j : Z) : option (Z * Z) :=
  d ← tbl !! Z.to_nat i; m ← vd_mmid d !! Z.to_nat j; l ← vd_is_listener d !! Z.to_nat j; Some (m, l).
Definition row_vmid (tbl : list vmid_mmid_desc) (i : Z) : option Z := vd_vmid <$> tbl !! Z.to_nat i.

(** The role that the last group with the VM and the mmids of the cell gives it. *)
Definition lists (g : mmid_grp_node) (i j : Z) : option bool :=
  match g_start_id g, g_role_be g, g_vmids g with
  | inr start, inr be, inr vmids =>
      if bool_decide (i ∈ vmids) && (Z.quot (i32 start) 100 =? j) then Some be else None
  | _, _, _ => None
  end.
Fixpoint listed (groups : list mmid_grp_node) (i j : Z) : option bool :=
  match groups with
  | [] => None
  | g :: groups => match listed groups i j with Some b => Some b | None => lists g i j end
  end.
Definition names (g : mmid_grp_node) (i : Z) : bool :=
  match g_vmids g with inr vmids => bool_decide (i ∈ vmids) | inl _ => false end.

(** A group that can be read and stays inside the table. *)
Definition group_ok (g : mmid_grp_node) : Prop :=
  exists start be vmids, g = Build_mmid_grp_node (inr start) (inr be) (inr vmids) /\
    0 <= start < 1700 /\ zlen vmids <= 16 /\ Forall (fun v => 0 <= v < 16) vmids.

Definition row_ok (d : vmid_mmid_desc) : Prop := length (vd_mmid d) = 17%nat /\ length (vd_is_listener d) = 17%nat.
Definition tbl_ok (tbl : list vmid_mmid_desc) : Prop := length tbl = 16%nat /\ Forall row_ok tbl.

Lemma arr_set_ok {A} (l : list A) i x : 0 <= i < zlen l -> arr_set l i x = Ok (<[Z.to_nat i := x]> l).
Proof. intros Hi. unfold arr_set. destruct (Z.leb_spec 0 i), (Z.ltb_spec i (zlen l)); try lia. done. Qed.

Lemma fill_one tbl v j be :
  tbl_ok tbl -> 0 <= v < 16 -> 0 <= j < 17 ->
  exists tbl', fill_vmid_mmid_tbl tbl v 1 j 1 be = Ok tbl' /\ tbl_ok tbl' /\
    (forall i k, 0 <= i -> 0 <= k -> cell tbl' i k = if (i =? v) && (k =? j) then Some (j, be) else cell tbl i k) /\
    (forall i, 0 <= i -> row_vmid tbl' i = if i =? v then Some v else row_vmid tbl i).
Proof.
  intros [Hl Hr] Hv Hj. destruct (lookup_lt_is_Some_2 tbl (Z.to_nat v)) as [d Hd]; [lia|].
  assert (Hdo : row_ok d) by (rewrite list.Forall_forall in Hr; by apply Hr, (list_elem_of_lookup_2 _ (Z.to_nat v))).
  destruct Hdo as [H1 H2]. unfold fill_vmid_mmid_tbl. change (Z.to_nat 1) with 1%nat. cbn [for_range].
  unfold fill_vmid, arr_get. unfold zlen at 1. destruct (Z.leb_spec 0 v), (Z.ltb_spec v (Z.of_nat (length tbl))); try lia.
  rewrite Hd. change (Z.to_nat 1) with 1%nat. cbn [for_range andb res_bind of_opt]. unfold fill_mmid. cbn [vd_mmid vd_is_listener].
  rewrite !arr_set_ok by (unfold zlen; lia). cbn [res_bind]. rewrite arr_set_ok by (unfold zlen; lia). cbn [res_bind].
  eexists. split; [done|]. split; [|split].
  - split; [by rewrite length_insert|]. apply Forall_insert; [done|]. split; simpl; by rewrite length_insert.
  - intros i k Hi Hk. unfold cell. destruct (Z.eqb_spec i v) as [->|Hiv].
    + rewrite list_lookup_insert_eq by lia. cbn [mbind option_bind vd_mmid vd_is_listener andb]. rewrite Hd. cbn [mbind option_bind].
      destruct (Z.eqb_spec k j) as [->|Hkj].
      * rewrite !list_lookup_insert_eq by lia. done.
      * rewrite !list_lookup_insert_ne by lia. done.
    + cbn [andb]. by rewrite list_lookup_insert_ne by lia.
  - intros i Hi. unfold row_vmid. destruct (Z.eqb_spec i v) as [->|Hiv].
    + by rewrite list_lookup_insert_eq by lia.
    + by rewrite list_lookup_insert_ne by lia.
Qed.

Lemma parse_vmids_spec start be vmids : forall tbl,
  tbl_ok tbl -> 0 <= Z.quot start 100 < 17 -> Forall (fun v => 0 <= v < 16) vmids ->
  exists tbl', parse_vmids start be vmids tbl = Ok (0, tbl') /\ tbl_ok tbl' /\
    (forall i k, 0 <= i -> 0 <= k -> cell tbl' i k =
      if bool_decide (i ∈ vmids) && (Z.quot start 100 =? k) then Some (k, be) else cell tbl i k) /\
    (forall i, 0 <= i -> row_vmid tbl' i = if bool_decide (i ∈ vmids) then Some i else row_vmid tbl i).
Proof.
  induction vmids as [|v vmids IH]; intros tbl Ht Hs Hv.
  { exists tbl. cbn [parse_vmids]. split; [done|]. split; [done|]. split; intros; by rewrite bool_decide_eq_false_2 by apply not_elem_of_nil. }
  apply list.Forall_cons in Hv as [Hv Hvs]. cbn [parse_vmids]. unfold HABCFG_VMID_MAX.
  rewrite u32_id by (unfold is_u32; lia). destruct (Z.leb_spec 16 v); [lia|].
  destruct (fill_one tbl v (Z.quot start 100) be Ht Hv Hs) as (tbl1 & -> & Ht1 & Hc1 & Hr1). cbn [res_bind].
  destruct (IH tbl1 Ht1 Hs Hvs) as (tbl2 & -> & Ht2 & Hc2 & Hr2). exists tbl2. split; [done|]. split; [done|]. split.
  - intros i k Hi Hk. rewrite Hc2, Hc1 by done. rewrite (bool_decide_ext (i ∈ v :: vmids) (i = v \/ i ∈ vmids)) by apply elem_of_cons.
    destruct (bool_decide_reflect (i ∈ vmids)) as [Hin|Hin], (Z.eqb_spec (Z.quot start 100) k) as [Hk'|Hk'],
      (Z.eqb_spec i v) as [Hiv|Hiv], (Z.eqb_spec k (Z.quot start 100)) as [Hk2|Hk2]; try congruence; simpl;
      rewrite ?(bool_decide_eq_true_2 (i = v \/ i ∈ vmids)) by tauto; rewrite ?(bool_decide_eq_false_2 (i = v \/ i ∈ vmids)) by tauto;
      rewrite ?andb_false_r; simpl; congruence.
  - intros i Hi. rewrite Hr2, Hr1 by done. rewrite (bool_decide_ext (i ∈ v :: vmids) (i = v \/ i ∈ vmids)) by apply elem_of_cons.
    destruct (bool_decide_reflect (i ∈ vmids)), (Z.eqb_spec i v);
      rewrite ?(bool_decide_eq_true_2 (i = v \/ i ∈ vmids)) by tauto; rewrite ?(bool_decide_eq_false_2 (i = v \/ i ∈ vmids)) by tauto; congruence.
Qed.

Lemma blank_ok : tbl_ok (lv_list blank_settings).
Proof. split; [done|]. simpl. repeat constructor. Qed.

Lemma lookup_repeat_lt {A} (x : A) n i : (i < n)%nat -> repeat x n !! i = Some x.
Proof. revert i. induction n as [|n IH]; intros [|i] Hi; simpl; try lia; [done|]. apply IH. lia. Qed.

Lemma blank_cell i j : 0 <= i < 16 -> 0 <= j < 17 -> cell (lv_list blank_settings) i j = Some (-1, -1).
Proof.
  intros Hi Hj. unfold cell, blank_settings, blank_desc, lv_list. rewrite lookup_repeat_lt by lia.
  cbn [mbind option_bind vd_mmid vd_is_listener]. by rewrite lookup_repeat_lt by lia.
Qed.

Lemma blank_vmid i : 0 <= i < 16 -> row_vmid (lv_list blank_settings) i = Some (-1).
Proof. intros Hi. unfold row_vmid, blank_settings, lv_list. by rewrite lookup_repeat_lt by lia. Qed.

Lemma parse_groups_spec groups : forall tbl,
  tbl_ok tbl -> Forall group_ok groups ->
  exists tbl', parse_groups groups tbl = Ok (0, tbl') /\ tbl_ok tbl' /\
    (forall i k, 0 <= i -> 0 <= k -> cell tbl' i k =
      match listed groups i k with Some be => Some (k, if be then 1 else 0) | None => cell tbl i k end) /\
    (forall i, 0 <= i -> row_vmid tbl' i = if existsb (fun g => names g i) groups then Some i else row_vmid tbl i).
Proof.
  induction groups as [|g groups IH]; intros tbl Ht Hg; [by exists tbl|].
  apply list.Forall_cons in Hg as [(start & be & vmids & -> & Hs & Hn & Hv) Hgs]. cbn [parse_groups g_start_id g_role_be g_vmids].
  destruct (Z.ltb_spec 16 (zlen vmids)); [lia|]. rewrite i32_id by (unfold is_i32; lia).
  assert (Hq : 0 <= Z.quot start 100 < 17) by (rewrite Z.quot_div_nonneg by lia; split; [apply Z.div_pos|apply Z.div_lt_upper_bound]; lia).
  destruct (parse_vmids_spec start (if be then 1 else 0) vmids tbl Ht Hq Hv) as (tbl1 & -> & Ht1 & Hc1 & Hr1).
  cbn [res_bind fst snd Z.eqb]. destruct (IH tbl1 Ht1 Hgs) as (tbl2 & -> & Ht2 & Hc2 & Hr2). exists tbl2.
  split; [done|]. split; [done|]. split.
  - intros i k Hi Hk. rewrite Hc2, Hc1 by done. cbn [listed]. destruct (listed groups i k); [done|].
    unfold lists. cbn [g_start_id g_role_be g_vmids]. rewrite i32_id by (unfold is_i32; lia). by destruct (_ && _).
  - intros i Hi. rewrite Hr2, Hr1 by done. cbn [existsb]. unfold names at 2. cbn [g_vmids].
    destruct (bool_decide (i ∈ vmids)), (existsb _ groups); done.
Qed.

(** A device tree whose groups lie inside the table parses without an error,
    and the table then says, for each remote VM and group of mmids, the role that the
    last group of the device tree which names them gives, and [HABCFG_VMID_INVALID]
    where none does; a row has its VM's id exactly when some group names the VM. *)
Theorem hab_parse_table vmid groups :
  Forall group_ok groups ->
  exists s, hab_parse (Some (Build_hab_node (inr vmid) groups)) blank_settings = Ok (0, s) /\
    lv_self s = i32 vmid /\
    (forall i j, 0 <= i < 16 -> 0 <= j < 17 -> cell (lv_list s) i j =
      Some match listed groups i j with
           | Some be => (j, if be then HABCFG_BE_TRUE else HABCFG_BE_FALSE)
           | None => (HABCFG_VMID_INVALID, HABCFG_VMID_INVALID)
           end) /\
    (forall i, 0 <= i < 16 -> row_vmid (lv_list s) i =
      Some (if existsb (fun g => names g i) groups then i else HABCFG_VMID_INVALID)).
Proof.
  intros Hg. destruct (parse_groups_spec groups _ blank_ok Hg) as (tbl & Hp & _ & Hc & Hr).
  unfold hab_parse, hab_parse_dt. cbn [n_vmid n_children]. rewrite Hp. eexists. split; [done|]. split; [done|].
  cbn [lv_list]. split.
  - intros i j Hi Hj. rewrite Hc by lia. destruct (listed groups i j); [done|]. by apply blank_cell.
  - intros i Hi. rewrite Hr by lia. destruct (existsb _ _); [done|]. by apply blank_vmid.
Qed.

(** Two groups, the second one for two VMs, over one of the first's. *)
Definition sample_dt : list mmid_grp_node :=
  [Build_mmid_grp_node (inr 100) (inr false) (inr [2]); Build_mmid_grp_node (inr 300) (inr true) (inr [2; 3])].

Lemma hab_parse_table_witness :
  exists s, hab_parse (Some (Build_hab_node (inr 0) sample_dt)) blank_settings = Ok (0, s) /\ lv_self s = 0 /\
    cell (lv_list s) 3 3 = Some (3, HABCFG_BE_TRUE) /\ cell (lv_list s) 3 1 = Some (-1, -1).
Proof.
  destruct (hab_parse_table 0 sample_dt) as (s & H1 & H2 & H3 & _).
  - repeat constructor; repeat eexists; try lia; try done; repeat constructor; lia.
  - exists s. rewrite !H3 by lia. by split_and!.
Defined.

(** What the default table says, as a check of each of its cells. *)
Definition default_check (vhost : bool) (vmid : Z) : bool :=
  match fill_default_gvm_settings vhost blank_settings vmid MM_AUD_START MM_ID_MAX with
  | Ok s =>
      let remote := if vhost then vmid else 0 in
      bool_decide (lv_self s = if vhost then 0 else vmid) &&
      forallb (fun i => bool_decide (row_vmid (lv_list s) i = Some (if (i =? remote) then i else HABCFG_VMID_INVALID)) &&
        forallb (fun j => bool_decide (cell (lv_list s) i j =
          Some (if (i =? remote) && (1 <=? j) then (j, if vhost then HABCFG_BE_TRUE else HABCFG_BE_FALSE)
                else (HABCFG_VMID_INVALID, HABCFG_VMID_INVALID)))) (seqZ 0 17)) (seqZ 0 16)
  | _ => false
  end.

Lemma default_checked vhost vmid : 0 <= vmid < 16 -> default_check vhost vmid = true.
Proof.
  intros Hv. assert (Hall : forallb (fun v => default_check true v && default_check false v) (seqZ 0 16) = true) by by vm_compute.
  rewrite forallb_forall in Hall. specialize (Hall vmid). rewrite andb_true_iff in Hall.
  destruct Hall as [Ht Hf]; [apply list_elem_of_In, elem_of_seqZ; lia|]. by destruct vhost.
Qed.

(** Without a device tree every group of mmids is shared with one remote VM: a
    host takes the guest's id for the remote and listens, a guest talks to VM 0. *)
Lemma default_settings_table vhost vmid :
  0 <= vmid < 16 ->
  exists s, read_settings vhost None vmid = Ok s /\
    lv_self s = (if vhost then 0 else vmid) /\
    forall i, 0 <= i < 16 ->
      row_vmid (lv_list s) i = Some (if (i =? (if vhost then vmid else 0)) then i else HABCFG_VMID_INVALID) /\
      forall j, 0 <= j < 17 -> cell (lv_list s) i j =
        Some (if (i =? (if vhost then vmid else 0)) && (1 <=? j) then (j, if vhost then HABCFG_BE_TRUE else HABCFG_BE_FALSE)
              else (HABCFG_VMID_INVALID, HABCFG_VMID_INVALID)).
Proof.
  intros Hv. pose proof (default_checked vhost vmid Hv) as Hc. unfold default_check in Hc.
  unfold read_settings. change (hab_parse None blank_settings) with (Ok (- ENODEV, blank_settings)). cbn [res_bind fst snd].
  destruct (Z.eqb_spec (- ENODEV) 0) as [He|_]; [done|]. destruct (fill_default_gvm_settings _ _ _ _ _) as [s| |]; try done.
  rewrite andb_true_iff, bool_decide_eq_true, forallb_forall in Hc. destruct Hc as [Hself Hall].
  exists s. split; [done|]. split; [done|]. intros i Hi. specialize (Hall i).
  rewrite andb_true_iff, bool_decide_eq_true, forallb_forall in Hall.
  destruct Hall as [Hrow Hcol]; [apply list_elem_of_In, elem_of_seqZ; lia|]. split; [done|].
  intros j Hj. specialize (Hcol j). rewrite bool_decide_eq_true in Hcol. apply Hcol, list_elem_of_In, elem_of_seqZ. lia.
Qed.

Lemma default_settings_table_witness :
  exists s, read_settings false None 2 = Ok s /\ lv_self s = 2 /\ row_vmid (lv_list s) 0 = Some 0.
Proof.
  destruct (default_settings_table false 2) as (s & H1 & H2 & H3); [lia|]. exists s. split; [done|]. split; [done|].
  exact (proj1 (H3 0 ltac:(lia))).
Defined.

(** ** The channels a configuration asks for *)

(** The mmids of a group, the groups of a remote VM, the remote VMs: mmid, remote VM
    and role of each channel, in the order they are created. *)
Definition group_plan (v be g : Z) : list (Z * Z * Z) :=
  match filter (fun x => x.1 / 100 = g) mmid_groups with
  | (first, last) :: _ => (fun k => (k, v, be)) <$> seqZ (first + 1) (last - first - 1)
  | [] => []
  end.
Definition row_plan (s : local_vmid) (i : nat) (js : list nat) : list (Z * Z * Z) :=
  flat_map (fun j => if cfg_mmid s i j =? HABCFG_VMID_INVALID then []
                     else group_plan (cfg_vmid s i) (cfg_be s i j) (cfg_mmid s i j)) js.
Definition rows_plan (s : local_vmid) (rows : list nat) : list (Z * Z * Z) :=
  flat_map (fun i => if (cfg_vmid s i =? HABCFG_VMID_INVALID) || (cfg_vmid s i =? lv_self s) then []
                     else row_plan s i (seq 1 16)) rows.
Definition pchan_plan (s : local_vmid) : list (Z * Z * Z) := rows_plan s (seq 0 16).

Section plan.
Context {HS : Type} `{Platform HS} (alloc : bool -> Z -> nat -> World.M HS (Z * option nat)).
#[local] Abbreviation M := (World.M HS).

Definition plan_step (self : Z) (x : Z * Z * Z) : M unit :=
  let! d := find_hab_device (x.1.1) in
  let! _ := hab_initialize_pchan_entry alloc d self (x.1.2) (x.2) in
  ret tt.

(** One step of the creation against the plan: [m] does what the plan [l] says,
    whatever code it returns and whatever follows. *)
Definition follows (self : Z) (m : M Z) (l : list (Z * Z * Z)) : Prop :=
  forall B (K : M B) w, (let! _ := m in K) w = (do! for_each (plan_step self) l in K) w.

Lemma follows_ret self r : follows self (ret r) [].
Proof. done. Qed.

Lemma follows_app self (m : M Z) (k : Z -> M Z) l l' :
  follows self m l -> (forall r, follows self (k r) l') -> follows self (bind m k) (l ++ l').
Proof.
  intros Hm Hk B K w. rewrite bind_assoc. transitivity ((let! _ := m in (do! for_each (plan_step self) l' in K)) w).
  - apply bind_ext. intros r w'. apply Hk.
  - rewrite Hm. transitivity ((do! (do! for_each (plan_step self) l in for_each (plan_step self) l') in K) w); [by rewrite bind_assoc|].
    unfold bind at 1 3. by rewrite for_each_app.
Qed.

Lemma generate_group_follows self v be : forall n k r0,
  follows self (generate_group alloc k n self v be r0) ((fun k => (k, v, be)) <$> seqZ k (Z.of_nat n)).
Proof.
  induction n as [|n IH]; intros k r0; [done|]. rewrite seqZ_cons by lia. rewrite Nat2Z.inj_succ, Z.pred_succ, fmap_cons.
  cbn [generate_group]. intros B K w. cbn [for_each]. rewrite !bind_assoc. unfold plan_step at 1. rewrite bind_assoc.
  apply bind_ext. intros d w1. rewrite !bind_assoc. apply bind_ext. intros r w2. apply IH.
Qed.

Lemma hab_generate_pchan_follows s i j :
  follows (lv_self s) (hab_generate_pchan alloc s i j) (group_plan (cfg_vmid s i) (cfg_be s i j) (cfg_mmid s i j)).
Proof.
  unfold hab_generate_pchan, group_plan. destruct (filter _ _) as [|[first last] l] eqn:Hf; [done|].
  assert (Hin : (first, last) ∈ mmid_groups) by (eapply (list_elem_of_filter _ _ _); rewrite Hf; by left).
  assert (first < last) by (assert (Hall : Forall (fun x => x.1 < x.2) mmid_groups) by (repeat constructor);
    rewrite list.Forall_forall in Hall; exact (Hall _ Hin)).
  rewrite <- (Z2Nat.id (last - first - 1)) at 2 by lia. apply generate_group_follows.
Qed.

Lemma generate_row_follows s i js : forall r0, follows (lv_self s) (generate_row alloc s i js r0) (row_plan s i js).
Proof.
  induction js as [|j js IH]; intros r0; [done|]. cbn [generate_row]. unfold row_plan. cbn [flat_map].
  apply follows_app; [|apply IH]. case_match; [done|]. apply hab_generate_pchan_follows.
Qed.

Lemma generate_rows_follows s rows : forall r0, follows (lv_self s) (generate_rows alloc s rows r0) (rows_plan s rows).
Proof.
  induction rows as [|i rows IH]; intros r0; [done|]. cbn [generate_rows]. unfold rows_plan. cbn [flat_map].
  apply follows_app; [|apply IH]. case_match; [done|]. apply generate_row_follows.
Qed.
End plan.

(** The mmids the driver knows by group. *)
Definition group_mmid (k : Z) : Prop := exists g, g ∈ mmid_groups /\ g.1 < k < g.2.

Lemma mmid_groups_shape g : g ∈ mmid_groups ->
  exists n, g.1 = 100 * n /\ 1 <= n <= 16 /\ g.1 < g.2 < g.1 + 100 /\ filter (fun x => x.1 / 100 = n) mmid_groups = [g].
Proof.
  intros Hg. exists (g.1 / 100). revert g Hg. apply list.Forall_forall.
  apply (bool_decide_eq_true_1 _). by vm_compute.
Qed.

Lemma elem_of_group_plan v be g x :
  x ∈ group_plan v be g <-> group_mmid (x.1.1) /\ x.1.1 / 100 = g /\ x.1.2 = v /\ x.2 = be.
Proof.
  destruct x as [[k v'] be']. unfold group_plan, group_mmid. cbn [fst snd]. split.
  - destruct (filter _ _) as [|[first last] l] eqn:Hf; [by intros ?%elem_of_nil|].
    assert (Hin : (first, last) ∈ filter (fun x => x.1 / 100 = g) mmid_groups) by (rewrite Hf; by left).
    apply list_elem_of_filter in Hin as [Hg Hin]. intros (k' & [= -> -> ->] & Hk)%list_elem_of_fmap. apply elem_of_seqZ in Hk.
    destruct (mmid_groups_shape _ Hin) as (n & H1 & H2 & H3 & _). simpl in *. split_and!; try done.
    + exists (first, last). split; [done|]. simpl. lia.
    + assert (g = n) as -> by (subst; rewrite Z.mul_comm; by rewrite Z.div_mul). symmetry. apply (Z.div_unique _ _ _ (k' - 100 * n)); lia.
  - intros ((gr & Hin & Hk) & <- & -> & ->). destruct (mmid_groups_shape _ Hin) as (n & H1 & H2 & H3 & H4).
    assert (k / 100 = n) as -> by (symmetry; apply (Z.div_unique _ _ _ (k - 100 * n)); lia).
    rewrite H4. destruct gr as [first last]. apply list_elem_of_fmap. exists k. split; [done|]. apply elem_of_seqZ. simpl in *. lia.
Qed.

Lemma NoDup_group_plan v be g : NoDup (group_plan v be g).
Proof.
  unfold group_plan. destruct (filter _ _) as [|[first last] l]; [constructor|].
  apply NoDup_fmap_2; [by intros ?? [=]|]. apply NoDup_seqZ.
Qed.

(** The cells that the creation reads, for a table with ids and columns in place. *)
Definition placed (s : local_vmid) : Prop :=
  forall i j, (i < 16)%nat -> (j < 17)%nat ->
    (cfg_vmid s i = Z.of_nat i \/ cfg_vmid s i = HABCFG_VMID_INVALID) /\
    (cfg_mmid s i j = Z.of_nat j \/ cfg_mmid s i j = HABCFG_VMID_INVALID).

Lemma elem_of_row_plan s i x : placed s -> (i < 16)%nat ->
  x ∈ row_plan s i (seq 1 16) <-> group_mmid (x.1.1) /\ x.1.2 = cfg_vmid s i /\
    cfg_mmid s i (Z.to_nat (x.1.1 / 100)) = x.1.1 / 100 /\ x.2 = cfg_be s i (Z.to_nat (x.1.1 / 100)).
Proof.
  intros Hs Hi. unfold row_plan. rewrite elem_of_flat_map. setoid_rewrite elem_of_seq. split.
  - intros (j & Hj & Hx). destruct (Hs i j) as [_ [Hm|Hm]]; try lia.
    2: { rewrite Hm in Hx. by apply elem_of_nil in Hx. }
    rewrite Hm in Hx. destruct (Z.eqb_spec (Z.of_nat j) HABCFG_VMID_INVALID); [by apply elem_of_nil in Hx|].
    apply elem_of_group_plan in Hx as (H1 & H2 & H3 & H4). rewrite H2, Nat2Z.id, Hm. by split_and!.
  - intros (H1 & H2 & H3 & H4). exists (Z.to_nat (x.1.1 / 100)). pose proof H1 as (g & Hg & Hk).
    destruct (mmid_groups_shape g Hg) as (n & ? & ? & ? & _).
    assert (x.1.1 / 100 = n) as Hn by (symmetry; apply (Z.div_unique _ _ _ (x.1.1 - 100 * n)); lia).
    split; [lia|]. rewrite H3, Hn. destruct (Z.eqb_spec n HABCFG_VMID_INVALID) as [Hx|]; [unfold HABCFG_VMID_INVALID in Hx; lia|].
    apply elem_of_group_plan. rewrite <- Hn. by split_and!.
Qed.

Lemma elem_of_pchan_plan s x : placed s ->
  x ∈ pchan_plan s <-> group_mmid (x.1.1) /\ 0 <= x.1.2 < 16 /\ x.1.2 <> lv_self s /\
    cfg_vmid s (Z.to_nat (x.1.2)) = x.1.2 /\
    cfg_mmid s (Z.to_nat (x.1.2)) (Z.to_nat (x.1.1 / 100)) = x.1.1 / 100 /\
    x.2 = cfg_be s (Z.to_nat (x.1.2)) (Z.to_nat (x.1.1 / 100)).
Proof.
  intros Hs. unfold pchan_plan, rows_plan. rewrite elem_of_flat_map. setoid_rewrite elem_of_seq. split.
  - intros (i & Hi & Hx). destruct (Z.eqb_spec (cfg_vmid s i) HABCFG_VMID_INVALID); [by apply elem_of_nil in Hx|].
    destruct (Z.eqb_spec (cfg_vmid s i) (lv_self s)); [by apply elem_of_nil in Hx|]. simpl in Hx.
    apply elem_of_row_plan in Hx as (H1 & H2 & H3 & H4); [|done|lia].
    destruct (Hs i 0%nat) as [[Hv|Hv] _]; [lia..| |done]. rewrite H2, Hv, Nat2Z.id in *. split_and!; try done; try lia.
  - intros (H1 & H2 & H3 & H4 & H5 & H6). exists (Z.to_nat (x.1.2)). split; [lia|]. rewrite H4.
    destruct (Z.eqb_spec (x.1.2) HABCFG_VMID_INVALID) as [Hv|]; [unfold HABCFG_VMID_INVALID in Hv; lia|].
    destruct (Z.eqb_spec (x.1.2) (lv_self s)); [done|]. simpl. apply elem_of_row_plan; [done|lia|]. rewrite H4. by split_and!.
Qed.

Lemma NoDup_pchan_plan s : placed s -> NoDup (pchan_plan s).
Proof.
  intros Hs. apply (NoDup_flat_map _ (fun x => Z.to_nat (x.1.2))); [apply NoDup_seq| |].
  - intros i Hi%elem_of_seq. case_match; [constructor|].
    apply (NoDup_flat_map _ (fun x => Z.to_nat (x.1.1 / 100))); [apply NoDup_seq| |].
    + intros j _. case_match; [constructor|apply NoDup_group_plan].
    + intros j x Hj%elem_of_seq. case_match; [by intros ?%elem_of_nil|]. intros (_ & -> & _)%elem_of_group_plan.
      destruct (Hs i j) as [_ [->|Hm]]; [lia..|lia|]. rewrite Hm in *. done.
  - intros i x Hi%elem_of_seq. case_match eqn:Hb; [by intros ?%elem_of_nil|]. bool_hyps.
    intros (_ & -> & _)%elem_of_row_plan; [|done|lia]. destruct (Hs i 0%nat) as [[->|Hv] _]; [lia..|lia|done].
Qed.

Lemma cfg_cell s i j m l : cell (lv_list s) (Z.of_nat i) (Z.of_nat j) = Some (m, l) -> cfg_mmid s i j = m /\ cfg_be s i j = l.
Proof.
  unfold cell, cfg_mmid, cfg_be. rewrite !Nat2Z.id. destruct (lv_list s !! i) as [d|]; [|done]. cbn [mbind option_bind from_option].
  destruct (vd_mmid d !! j) as [x|] eqn:H1; [|done]. destruct (vd_is_listener d !! j) as [y|] eqn:H2; [|done].
  intros [= -> ->]. split; apply nth_lookup_Some; done.
Qed.

Lemma cfg_row s i v : row_vmid (lv_list s) (Z.of_nat i) = Some v -> cfg_vmid s i = v.
Proof. unfold row_vmid, cfg_vmid. rewrite Nat2Z.id. destruct (lv_list s !! i); [by intros [= <-]|done]. Qed.

Lemma lists_names g i j b : lists g i j = Some b -> names g i = true.
Proof. unfold lists, names. destruct (g_start_id g), (g_role_be g), (g_vmids g); try done. by destruct (bool_decide _). Qed.

Lemma listed_named groups i j b : listed groups i j = Some b -> existsb (fun g => names g i) groups = true.
Proof.
  induction groups as [|g groups IH]; simpl; [done|]. destruct (listed groups i j); intros Hb.
  - rewrite IH by congruence. apply orb_true_r.
  - by rewrite (lists_names _ _ _ _ Hb).
Qed.

(** A table with what a device tree of usable groups says. *)
Definition says (s : local_vmid) (groups : list mmid_grp_node) : Prop :=
  (forall i j, 0 <= i < 16 -> 0 <= j < 17 -> cell (lv_list s) i j =
    Some match listed groups i j with
         | Some be => (j, if be then HABCFG_BE_TRUE else HABCFG_BE_FALSE)
         | None => (HABCFG_VMID_INVALID, HABCFG_VMID_INVALID)
         end) /\
  (forall i, 0 <= i < 16 -> row_vmid (lv_list s) i =
    Some (if existsb (fun g => names g i) groups then i else HABCFG_VMID_INVALID)).

Lemma says_cfg s groups i j : says s groups -> (i < 16)%nat -> (j < 17)%nat ->
  cfg_vmid s i = (if existsb (fun g => names g (Z.of_nat i)) groups then Z.of_nat i else HABCFG_VMID_INVALID) /\
  cfg_mmid s i j = (match listed groups (Z.of_nat i) (Z.of_nat j) with Some _ => Z.of_nat j | None => HABCFG_VMID_INVALID end) /\
  cfg_be s i j = (match listed groups (Z.of_nat i) (Z.of_nat j) with
                  | Some b => if b then HABCFG_BE_TRUE else HABCFG_BE_FALSE | None => HABCFG_VMID_INVALID end).
Proof.
  intros [Hc Hr] Hi Hj. split; [apply cfg_row, Hr; lia|]. specialize (Hc (Z.of_nat i) (Z.of_nat j) ltac:(lia) ltac:(lia)).
  destruct (listed groups _ _); by apply cfg_cell in Hc.
Qed.

Lemma says_placed s groups : says s groups -> placed s.
Proof.
  intros Hs i j Hi Hj. destruct (says_cfg s groups i j Hs Hi Hj) as (-> & -> & _).
  split; [destruct (existsb _ _)|destruct (listed _ _ _)]; auto.
Qed.

(** C33: The channels made for a device tree: one for every known mmid of a group and
    every other VM that the device tree lists for the group, in the role that the
    last such entry gives, each made once, and made through the hypervisor's
    allocation for the mmid's device in the order of the table. *)
Theorem hab_generate_pchan_list_creates {HS} `{Platform HS} (alloc : bool -> Z -> nat -> World.M HS (Z * option nat)) vmid groups :
  Forall group_ok groups ->
  exists s, hab_parse (Some (Build_hab_node (inr vmid) groups)) blank_settings = Ok (0, s) /\
    (forall w, (let! _ := hab_generate_pchan_list alloc s in ret tt) w = for_each (plan_step alloc (i32 vmid)) (pchan_plan s) w) /\
    NoDup (pchan_plan s) /\
    forall mmid remote be, (mmid, remote, be) ∈ pchan_plan s <->
      group_mmid mmid /\ 0 <= remote < 16 /\ remote <> i32 vmid /\
      exists b, listed groups remote (mmid / 100) = Some b /\ be = (if b then HABCFG_BE_TRUE else HABCFG_BE_FALSE).
Proof.
  intros Hg. destruct (parse_groups_spec groups _ blank_ok Hg) as (tbl & Hp & _ & Hc & Hr).
  unfold hab_parse, hab_parse_dt. cbn [n_vmid n_children]. rewrite Hp. eexists. split; [done|]. cbn [fst snd].
  set (s := Build_local_vmid (i32 vmid) tbl). assert (Hs : says s groups).
  { split; intros i *; cbn [lv_list s]; intros Hi.
    - intros Hj. rewrite Hc by lia. destruct (listed groups i j); [done|]. by apply blank_cell.
    - rewrite Hr by lia. destruct (existsb _ _); [done|]. by apply blank_vmid. }
  pose proof (says_placed _ _ Hs) as Hpl. split; [|split; [by apply NoDup_pchan_plan|]].
  - intros w. unfold hab_generate_pchan_list. rewrite (generate_rows_follows alloc s _ 0). fold (pchan_plan s).
    unfold bind. by destruct (for_each _ _ _) as [[[] ?]| |].
  - intros mmid remote be. rewrite elem_of_pchan_plan by done. cbn [fst snd]. split.
    + intros (H1 & H2 & H3 & H4 & H5 & H6). split_and!; try done; try lia.
      pose proof H1 as (g & Hgin & Hk). destruct (mmid_groups_shape g Hgin) as (n & ? & ? & ? & _).
      assert (mmid / 100 = n) as Hn by (symmetry; apply (Z.div_unique _ _ _ (mmid - 100 * n)); lia).
      destruct (says_cfg s groups (Z.to_nat remote) (Z.to_nat (mmid / 100)) Hs) as (_ & Hm & Hb); [lia..|].
      rewrite Hn in *. rewrite (Z2Nat.id remote), (Z2Nat.id n) in Hm by lia. rewrite (Z2Nat.id remote), (Z2Nat.id n) in Hb by lia.
      destruct (listed groups remote n) as [b|].
      * exists b. split; [done|]. congruence.
      * rewrite Hm in H5. unfold HABCFG_VMID_INVALID in H5. lia.
    + intros (H1 & H2 & H3 & b & Hb & ->).
      pose proof H1 as (g & Hgin & Hk). destruct (mmid_groups_shape g Hgin) as (n & ? & ? & ? & _).
      assert (mmid / 100 = n) as Hn by (symmetry; apply (Z.div_unique _ _ _ (mmid - 100 * n)); lia).
      destruct (says_cfg s groups (Z.to_nat remote) (Z.to_nat (mmid / 100)) Hs) as (Hv & Hm & Hbe); [lia..|].
      rewrite Hn in *. rewrite (Z2Nat.id remote), (Z2Nat.id n) in Hm by lia. rewrite (Z2Nat.id remote), (Z2Nat.id n) in Hbe by lia.
      rewrite (Z2Nat.id remote) in Hv by lia. rewrite Hb in Hm, Hbe. rewrite (listed_named _ _ _ _ Hb) in Hv. split_and!; try done; try lia; try congruence.
Qed.

Lemma hab_generate_pchan_list_creates_witness :
  exists s, hab_parse (Some (Build_hab_node (inr 0) sample_dt)) blank_settings = Ok (0, s) /\
    (301, 3, 1) ∈ pchan_plan s /\ (101, 3, 0) ∉ pchan_plan s.
Proof.
  destruct (hab_generate_pchan_list_creates (HS := loopback_dev) (fun _ _ _ => ret (0, None)) 0 sample_dt) as (s & H1 & _ & _ & H4).
  - repeat constructor; repeat eexists; try lia; try done; repeat constructor; lia.
  - exists s. split; [done|]. split.
    + apply H4. split; [exists (300, 306); split; [|simpl; lia]|split; [lia|split; [done|by exists true]]].
      apply (bool_decide_eq_true_1 _). by vm_compute.
    + intros (_ & _ & _ & b & Hb & _)%H4. done.
Defined.

(** An allocation that fails for the device of the first mmid only. *)
Definition first_fails (be : bool) (vmid : Z) (d : nat) : World.M loopback_dev (Z * option nat) :=
  ret (if Nat.eqb d 0 then (- ENOMEM, None) else (0, Some 0%nat)).

(** Only the code of the last group is returned: a channel that could not be
    created for another group goes unnoticed. *)
Lemma generate_result_lost :
  exists s w', read_settings false None 2 = Ok s /\ (101, 0, HABCFG_BE_FALSE) ∈ pchan_plan s /\
    (hab_initialize_pchan_entry first_fails (Some 0%nat) 2 0 HABCFG_BE_FALSE (sample quiet_lb) = Ok (- ENOMEM, sample quiet_lb)) /\
    hab_generate_pchan_list first_fails s (sample quiet_lb) = Ok (0, w').
Proof.
  eexists _, _. split; [vm_compute; reflexivity|]. split; [|split; [reflexivity|vm_compute; reflexivity]].
  vm_compute. by left.
Qed.
