(* ===== verification/Boot.v ===== *)
(** The driver's start and end on the loopback transport (the end of hab.c, the
    device part of hab_comm.c, hyp_stub.c): the channels that the configuration asks
    for are created with their threads, and all of it gives the well-formed state
    from which the other files reason. *)
From S2P Require Import Prelude Header World Logic Memory Invariant Pchan Exports Context Vchan Wait Open Loopback Sample Msg Mimex Progress Hab LoopThread Config.

(** The loopback device with no message, no thread turn in progress and time [now]. *)
Definition new_lb (now : Z * Z) : loopback_dev := Build_loopback_dev [] 0 None [] now false false.

Section ops.
Context `{Platform loopback_dev} `{KernelIdr}.
#[local] Abbreviation M := (World.M loopback_dev).

(** What the kernel answers to the start of a channel's thread: 0 or an error. *)
Context (kthread_run : nat -> Z).

(** On an error the channel is freed although its device lists it. *)
(* src/hab_comm.c:150-195 loopback_pchan_create *)
Definition loopback_pchan_create (d : nat) : M Z :=
  let! now := gets w_now in
  let! o := hab_pchan_alloc d LOOPBACK_DOM (new_lb now) in
  match o with
  | None => ret (- ENOMEM)
  | Some p =>
      do! upd_p p (set_pc_closed false) in
      let! a := kalloc in
      let r := (match a with None => - ENOMEM | Some _ => kthread_run p end) in
      if negb (r =? 0) then
        do! modify (fun w => set_w_pchans (delete p (w_pchans w)) w) in
        ret r
      else
        do! put_lb p (new_lb now) in
        ret 0
  end.

(** What is handed out is some channel of the device, not the new one. *)
(* src/hab_comm.c:201-226 habhyp_commdev_alloc *)
Definition habhyp_commdev_alloc (is_be : bool) (vmid_remote : Z) (d : nat) : M (Z * option nat) :=
  let! r := loopback_pchan_create d in
  if negb (r =? 0) then ret (r, None)
  else
    let! o := hab_pchan_find_domid d HABCFG_VMID_DONT_CARE in
    match o with
    | None => ret (r, None)
    | Some p => do! hab_pchan_put p in ret (r, Some p)
    end.

(** The messages that are left are dropped and the thread is told to stop. *)
(* src/hab_comm.c:228-263 habhyp_commdev_dealloc *)
Definition habhyp_commdev_dealloc (p : nat) : M Z :=
  let! _ := get_p p in
  let! dev := get_lb p in
  do! put_lb p (Build_loopback_dev [] (lb_msg_cnt dev - zlen (lb_msg_list dev)) (lb_current_msg dev) (lb_alloc dev)
        (lb_now dev) (lb_locked dev) true) in
  do! hab_pchan_put p in
  ret 0.

(* src/hyp_stub.c:7-12 hab_hypervisor_register *)
Definition hab_hypervisor_register : M Z :=
  do! modify (fun w => set_w_loopback true w) in ret 0.

(** [dt] and [default_gvmid] are the device tree and the built-in guest id. *)
(* src/hab.c:1145-1199 do_hab_parse *)
Definition do_hab_parse (vhost : bool) (dt : option hab_node) (default_gvmid : Z) : M Z :=
  let! r := hab_hypervisor_register in
  if negb (r =? 0) then ret r
  else
    let! settings := lift (read_settings vhost dt default_gvmid) in
    hab_generate_pchan_list habhyp_commdev_alloc settings.

(** Contexts and channels that are left are only reported. *)
(* src/hab.c:1201-1236 hab_hypervisor_unregister_common *)
Definition hab_hypervisor_unregister_common : M unit :=
  let! devs := gets w_devs in
  do! for_each (fun d => let! dv := get_d d in
        for_each (fun p => let! _ := habhyp_commdev_dealloc p in ret tt) (dv_pchannels dv))
      (seq 0 (length devs)) in
  let! uctxs := gets w_uctx_list in
  for_each (fun c => let! cx := get_c c in
    for_each (fun v => let! _ := get_v v in ret tt) (cx_vchannels cx)) uctxs.
End ops.

(** ** Creation *)

Section create.
Context `{Platform loopback_dev} `{KernelIdr} (kthread_run : nat -> Z).
Implicit Types (w : world loopback_dev).

(** The lookup of any channel and the release of it give the first one and leave
    everything as it was. *)
Lemma find_any_eq w d dv q l qc :
  w_devs w !! d = Some dv -> dv_pchannels dv = q :: l -> w_pchans w !! q = Some qc -> 1 <= pc_refcount qc ->
  (let! o := hab_pchan_find_domid d HABCFG_VMID_DONT_CARE in
   match o with Some p => do! hab_pchan_put p in ret (Some p) | None => ret None end) w = Ok (Some q, w).
Proof.
  intros Hd Hl Hq Hr. unfold hab_pchan_find_domid, bind, get_d. rewrite Hd, Hl. cbn [pchan_walk]. unfold bind, get_p, ret.
  rewrite Hq, Z.eqb_refl, orb_true_r, Hq. destruct (Z.eqb_spec (pc_refcount qc) 0); [lia|].
  unfold hab_pchan_get, upd_p. rewrite Hq. unfold hab_pchan_put, bind, get_p, upd_p, when, ret. cbn [w_pchans set_w_pchans].
  rewrite lookup_insert_eq. cbn [pc_refcount set_pc_refcount]. destruct (Z.leb_spec (pc_refcount qc + 1) 0); [lia|].
  cbn [w_pchans set_w_pchans]. rewrite lookup_insert_eq. destruct (Z.eqb_spec (pc_refcount qc + 1) 1); [lia|].
  do 2 f_equal. cbn [w_pchans set_w_pchans]. rewrite insert_insert_eq, insert_id; [by destruct w|].
  rewrite Hq. destruct qc. cbn. by rewrite Z.add_simpl_r.
Qed.

Lemma loopback_pchan_create_spec h w d dv :
  wf h w -> w_devs w !! d = Some dv -> w_alloc w = [] -> (forall p, kthread_run p = 0) ->
  wp (loopback_pchan_create kthread_run d) (fun r w' => r = 0 /\ wf h w' /\ w_alloc w' = [] /\
    exists p, w_devs w' = <[d := set_dv_pchan_cnt (dv_pchan_cnt dv + 1) (set_dv_pchannels (dv_pchannels dv ++ [p]) dv)]> (w_devs w)) w.
Proof.
  intros Hwf Hd Ha Hk. unfold loopback_pchan_create. apply wp_bind, wp_gets, wp_bind. unfold hab_pchan_alloc.
  apply wp_bind, wp_kalloc_nil; [done|]. set (w1 := set_w_next _ _). set (p := w_next w).
  assert (Hwf1 : wf h w1) by by apply wf_next.
  assert (Hnew : w_pchans w1 !! p = None) by by apply (proj1 (wf_fresh _ _ Hwf) p).
  apply wp_bind, wp_modify, wp_bind. set (pc := Build_physical_channel _ _ _ _ _ _ _ _ _ _ _ _ _ _ _ _).
  eapply wp_upd_d; [exact Hd|]. apply wp_ret.
  pose proof (wf_pchan_new h w1 p d dv pc (new_lb (w_now w)) Hwf1 Hd Hnew ltac:(simpl; lia)) as Hwf2.
  specialize (Hwf2 eq_refl eq_refl eq_refl eq_refl eq_refl eq_refl eq_refl).
  match goal with |- wp _ _ ?x => set (w2 := x) end. change (wf h w2) in Hwf2.
  assert (Hp2 : w_pchans w2 !! p = Some pc) by apply lookup_insert_eq.
  apply wp_bind. eapply wp_upd_p; [exact Hp2|]. set (w3 := set_w_pchans _ w2).
  assert (Hwf3 : wf h w3) by (eapply wf_frame; [by eapply frame_pchan|exact Hwf2]).
  apply wp_bind, wp_kalloc_nil; [done|]. rewrite Hk. cbn [negb Z.eqb]. set (w4 := set_w_next _ _).
  assert (Hwf4 : wf h w4) by by apply wf_next.
  apply wp_bind, wp_modify, wp_ret. split; [done|]. split; [eapply wf_frame; [apply frame_hyp|exact Hwf4]|].
  split; [done|]. by exists p.
Qed.

(** A channel for a device is created, and what is handed out is a live channel. *)
Lemma habhyp_commdev_alloc_spec h w d dv is_be vmid :
  wf h w -> w_devs w !! d = Some dv -> w_alloc w = [] -> (forall p, kthread_run p = 0) ->
  wp (habhyp_commdev_alloc kthread_run is_be vmid d) (fun r w' => wf h w' /\ w_alloc w' = [] /\
    (exists q, r = (0, Some q) /\ is_Some (w_pchans w' !! q)) /\
    exists p, w_devs w' = <[d := set_dv_pchan_cnt (dv_pchan_cnt dv + 1) (set_dv_pchannels (dv_pchannels dv ++ [p]) dv)]> (w_devs w)) w.
Proof.
  intros Hwf Hd Ha Hk. unfold habhyp_commdev_alloc. apply wp_bind.
  eapply wp_mono; [by eapply loopback_pchan_create_spec|]. intros r w1 (-> & Hwf1 & Ha1 & p & Hdv1). cbn [negb Z.eqb].
  set (dv1 := set_dv_pchan_cnt _ _) in *.
  assert (Hd1 : w_devs w1 !! d = Some dv1) by (rewrite Hdv1; apply list_lookup_insert_eq; by eapply lookup_lt_Some).
  destruct (dv_pchannels dv1) as [|q l] eqn:Hl; [by destruct (dv_pchannels dv)|].
  destruct (wf_d _ _ Hwf1 d dv1 Hd1) as (_ & _ & Hin & _). destruct (Hin q) as (qc & Hq & _); [rewrite Hl; by left|].
  pose proof (find_any_eq w1 d dv1 q l qc Hd1 Hl Hq (wf_pchan_ref_pos _ _ _ _ Hwf1 Hq)) as He.
  unfold wp, bind in *. destruct (hab_pchan_find_domid d HABCFG_VMID_DONT_CARE w1) as [[[p'|] w2]| |]; try done.
  destruct (hab_pchan_put p' w2) as [[[] w3]| |]; try done. injection He as -> ->. split; [done|].
  split; [done|]. split; [exists q; by split; [|eexists]|]. by exists p.
Qed.

Lemma hab_initialize_pchan_entry_spec h w d dv self vmid be :
  wf h w -> w_devs w !! d = Some dv -> w_alloc w = [] -> (forall p, kthread_run p = 0) ->
  wp (hab_initialize_pchan_entry (habhyp_commdev_alloc kthread_run) (Some d) self vmid be) (fun r w' =>
    r = 0 /\ wf h w' /\ w_alloc w' = [] /\
    exists p, w_devs w' = <[d := set_dv_pchan_cnt (dv_pchan_cnt dv + 1) (set_dv_pchannels (dv_pchannels dv ++ [p]) dv)]> (w_devs w)) w.
Proof.
  intros Hwf Hd Ha Hk. unfold hab_initialize_pchan_entry. apply wp_bind.
  eapply wp_mono; [by eapply habhyp_commdev_alloc_spec|]. intros r w1 (Hwf1 & Ha1 & (q & -> & [qc Hq]) & p & Hdv). cbn [fst snd negb Z.eqb].
  apply wp_bind, wp_deref, wp_bind. eapply wp_upd_p; [exact Hq|]. apply wp_ret. split; [done|].
  split; [eapply wf_frame; [by eapply frame_pchan|done]|]. split; [done|]. by exists p.
Qed.
End create.

(** ** The configured channels *)

Section generate.
Context {HS : Type} `{Platform HS} (alloc : bool -> Z -> nat -> World.M HS (Z * option nat)).
Context (self : Z) (I : list (Z * Z * Z) -> world HS -> Prop).

(** Every entry of a plan of known mmids succeeds and is accounted for. *)
Hypothesis entry_ok : forall done x w, I done w -> group_mmid (x.1.1) ->
  wp (let! d := find_hab_device (x.1.1) in hab_initialize_pchan_entry alloc d self (x.1.2) (x.2))
    (fun r w' => r = 0 /\ I (done ++ [x]) w') w.

Lemma generate_group_all v be : forall n k done w,
  I done w -> (forall j, k <= j < k + Z.of_nat n -> group_mmid j) ->
  wp (generate_group alloc k n self v be 0)
    (fun r w' => r = 0 /\ I (done ++ ((fun k => (k, v, be)) <$> seqZ k (Z.of_nat n))) w') w.
Proof.
  induction n as [|n IH]; intros k done w HI Hk.
  - apply wp_ret. simpl. by rewrite app_nil_r.
  - rewrite seqZ_cons, Nat2Z.inj_succ, Z.pred_succ, fmap_cons, cons_middle, app_assoc by lia. cbn [generate_group].
    pose proof (entry_ok done (k, v, be) w HI (Hk k ltac:(lia))) as He. cbn [fst snd] in He.
    unfold wp, bind in *. destruct (find_hab_device k w) as [[d w1]| |]; try done.
    destruct (hab_initialize_pchan_entry alloc d self v be w1) as [[r w2]| |]; try done.
    destruct He as [-> HI2]. change (i32 (0 + 0)) with 0. apply IH; [done|]. intros j Hj. apply Hk. lia.
Qed.

Lemma hab_generate_pchan_all s i j done w :
  lv_self s = self -> I done w ->
  wp (hab_generate_pchan alloc s i j)
    (fun r w' => r = 0 /\ I (done ++ group_plan (cfg_vmid s i) (cfg_be s i j) (cfg_mmid s i j)) w') w.
Proof.
  intros Hs HI. unfold hab_generate_pchan, group_plan.
  destruct (filter (fun g => g.1 / 100 = cfg_mmid s i j) mmid_groups) as [|[first last] l] eqn:Hf.
  { apply wp_ret. by rewrite app_nil_r. }
  assert (Hin : (first, last) ∈ mmid_groups) by (eapply (list_elem_of_filter _ _ _); rewrite Hf; by left).
  destruct (mmid_groups_shape _ Hin) as (n & _ & _ & Hlt & _). simpl in Hlt.
  pose proof (generate_group_all (cfg_vmid s i) (cfg_be s i j) (Z.to_nat (last - first - 1)) (first + 1) done w HI) as Hall.
  rewrite Z2Nat.id in Hall by lia. rewrite Hs. apply Hall. intros k Hk. exists (first, last). split; [done|]. simpl. lia.
Qed.

Lemma generate_row_all s i js : lv_self s = self -> forall done w, I done w ->
  wp (generate_row alloc s i js 0) (fun r w' => r = 0 /\ I (done ++ row_plan s i js) w') w.
Proof.
  intros Hs. induction js as [|j js IH]; intros done w HI; cbn [generate_row row_plan flat_map].
  - apply wp_ret. by rewrite app_nil_r.
  - rewrite app_assoc. destruct (cfg_mmid s i j =? HABCFG_VMID_INVALID).
    + rewrite app_nil_r. apply wp_bind, wp_ret. by apply IH.
    + apply wp_bind. eapply wp_mono; [by apply hab_generate_pchan_all|]. intros r w1 [-> HI1]. by apply IH.
Qed.

Lemma hab_generate_pchan_list_all s w : lv_self s = self -> I [] w ->
  wp (hab_generate_pchan_list alloc s) (fun r w' => r = 0 /\ I (pchan_plan s) w') w.
Proof.
  intros Hs HI. unfold hab_generate_pchan_list, pchan_plan.
  cut (forall rows done w, I done w -> wp (generate_rows alloc s rows 0) (fun r w' => r = 0 /\ I (done ++ rows_plan s rows) w') w).
  { intros Hr. exact (Hr (seq 0 16) [] w HI). }
  induction rows as [|i rows IH]; intros done w1 HI1; cbn [generate_rows rows_plan flat_map].
  - apply wp_ret. by rewrite app_nil_r.
  - rewrite app_assoc. destruct (_ || _).
    + rewrite app_nil_r. apply wp_bind, wp_ret. by apply IH.
    + apply wp_bind. eapply wp_mono; [by apply generate_row_all|]. intros r w2 [-> HI2]. by apply IH.
Qed.
End generate.

Lemma group_mmid_known k : group_mmid k -> k ∈ hab_device_ids /\ HAB_MMID_GET_MAJOR k = k.
Proof.
  intros (g & Hg & Hk). assert (Hall : Forall (fun g => Forall (fun k => k ∈ hab_device_ids /\ HAB_MMID_GET_MAJOR k = k)
    (seqZ (g.1 + 1) (g.2 - g.1 - 1))) mmid_groups) by (apply (bool_decide_eq_true_1 _); by vm_compute).
  rewrite list.Forall_forall in Hall. specialize (Hall g Hg). rewrite list.Forall_forall in Hall. apply Hall, elem_of_seqZ. lia.
Qed.

Lemma find_dev_known k l : k ∈ dv_id <$> l -> exists d dv, find_dev k l = Some d /\ l !! d = Some dv /\ dv_id dv = k.
Proof.
  induction l as [|x l IH]; simpl; [by intros ?%elem_of_nil|]. intros Hk. destruct (Z.eqb_spec (dv_id x) k); [by exists 0%nat, x|].
  apply elem_of_cons in Hk as [?|Hk]; [congruence|]. destruct (IH Hk) as (d & dv & -> & ? & ?). by exists (S d), dv.
Qed.

(** The number of channels that a plan has for a device. *)
Definition planned (plan : list (Z * Z * Z)) (id : Z) : Z := zlen (filter (fun x => x.1.1 = id) plan).

(** The state after part of the plan. *)
Definition booted (plan : list (Z * Z * Z)) (w : world loopback_dev) : Prop :=
  wf idle w /\ w_alloc w = [] /\ forall d dv, w_devs w !! d = Some dv -> dv_pchan_cnt dv = planned plan (dv_id dv).

Lemma planned_app l x id : planned (l ++ [x]) id = planned l id + (if decide (x.1.1 = id) then 1 else 0).
Proof. unfold planned. rewrite list.filter_app, zlen_app. simpl. rewrite filter_cons. by case_decide. Qed.

Lemma device_ids_inj (devs : list hab_device) d e dv ev :
  dv_id <$> devs = hab_device_ids -> devs !! d = Some dv -> devs !! e = Some ev -> dv_id dv = dv_id ev -> d = e.
Proof.
  intros Hids Hd He Heq. assert (Hnd : NoDup hab_device_ids) by (apply (bool_decide_eq_true_1 _); by vm_compute).
  eapply NoDup_lookup; [exact Hnd|rewrite <- Hids, list_lookup_fmap, Hd; reflexivity|].
  rewrite <- Hids, list_lookup_fmap, He. simpl. by rewrite Heq.
Qed.

Section boot.
Context `{Platform loopback_dev} `{KernelIdr} (kthread_run : nat -> Z).

Lemma booted_entry self done x w :
  (forall p, kthread_run p = 0) -> booted done w -> group_mmid (x.1.1) ->
  wp (let! d := find_hab_device (x.1.1) in
      hab_initialize_pchan_entry (habhyp_commdev_alloc kthread_run) d self (x.1.2) (x.2))
    (fun r w' => r = 0 /\ booted (done ++ [x]) w') w.
Proof.
  intros Hk (Hwf & Ha & Hcnt) Hx. destruct (group_mmid_known _ Hx) as [Hin Hmaj].
  pose proof (proj1 (proj1 (proj2 (wf_fresh _ _ Hwf)))) as Hids. rewrite <- Hids in Hin.
  destruct (find_dev_known _ _ Hin) as (d & dv & Hf & Hd & Hid).
  apply wp_bind, wp_gets. rewrite Hmaj, Hf.
  eapply wp_mono; [by eapply hab_initialize_pchan_entry_spec|]. intros r w' (-> & Hwf' & Ha' & p & Hdevs).
  split; [done|]. split; [done|]. split; [done|]. intros e ev. rewrite Hdevs, planned_app, list_lookup_insert.
  case_decide as He; [destruct He as [<- _]; intros [= <-]; simpl; rewrite decide_True by done; by rewrite (Hcnt _ _ Hd)|].
  intros Hev. rewrite (Hcnt _ _ Hev). rewrite decide_False; [lia|]. intros Heq. apply He. split; [|by eapply lookup_lt_Some].
  eapply device_ids_inj; [exact Hids|done|done|congruence].
Qed.

(** The driver before its start: its devices have no channel; [words] are those found
    where a device's list head would have a domain id. *)
Definition boot_world (words : Z -> Z) (now : Z * Z) : world loopback_dev :=
  Build_world 0 ∅ ∅ ∅ ∅ ∅ ∅ ((fun i => Build_hab_device i [] 0 (words i) [] 0) <$> hab_device_ids)
    [] 0 [] false 0 0 [] 0 now [] [].

Lemma boot_dev words now d dv : w_devs (boot_world words now) !! d = Some dv ->
  dv_pchannels dv = [] /\ dv_pchan_cnt dv = 0 /\ dv_openq_list dv = [].
Proof. cbn [w_devs boot_world]. rewrite list_lookup_fmap. destruct (hab_device_ids !! d); [|done]. by intros [= <-]. Qed.

Lemma boot_wf words now : wf idle (boot_world words now).
Proof.
  constructor.
  - intros v vc Hv. exfalso. unfold vchans_of in Hv. cbn in Hv. by rewrite lookup_empty in Hv.
  - intros p pc Hp. exfalso; cbn in Hp; by rewrite lookup_empty in Hp.
  - intros c cx Hc. exfalso; cbn in Hc; by rewrite lookup_empty in Hc.
  - intros d dv Hd. destruct (boot_dev _ _ _ _ Hd) as (E1 & E2 & E3). unfold dev_ok. rewrite E1, E2, E3.
    split_and!; try done; [constructor|]. by intros p ?%elem_of_nil.
  - unfold driver_ok. split_and!; try (by constructor); try (by intros ? ?%elem_of_nil); try (by intros ? ? ?%elem_of_nil).
    intros c cx k c' cx' k' e Hc. exfalso; cbn in Hc; by rewrite lookup_empty in Hc.
  - split; [by intros a _; simpl; rewrite !lookup_empty|]. split; [split; [|by constructor]|].
    + cbn [w_devs boot_world]. rewrite <- list_fmap_compose. apply list_fmap_id.
    + split; [intros e ex He; exfalso; cbn in He; by rewrite lookup_empty in He|].
      split; [intros p pc Hp; exfalso; cbn in Hp; by rewrite lookup_empty in Hp|].
      intros e ex c He; exfalso; cbn in He; by rewrite lookup_empty in He.
  - split; [constructor|]. by intros v c ?%elem_of_nil.
  - intros p pc i e Hp. exfalso; cbn in Hp; by rewrite lookup_empty in Hp.
Qed.

Lemma boot_booted words now : booted [] (set_w_loopback true (boot_world words now)).
Proof.
  split; [eapply wf_frame; [|apply (boot_wf words now)]; by constructor|]. split; [done|].
  intros d dv Hd. by destruct (boot_dev words now d dv Hd) as (_ & -> & _).
Qed.

Lemma runs_bind {HS A B} (m : World.M HS A) (k : A -> World.M HS B) : runs m -> (forall a, runs (k a)) -> runs (bind m k).
Proof. intros Hm Hk w. unfold bind. specialize (Hm w). destruct (m w) as [[a w']| |]; [apply Hk|done|done]. Qed.
(** The steps below the transport do not know which it is. *)
Lemma runs_below {A} (m : World.M loopback_dev A) : @built _ sink_platform _ m -> runs m.
Proof. apply (built_runs (H := sink_platform)), sink_awake. Qed.

Lemma runs_commdev_alloc is_be vmid d : runs (habhyp_commdev_alloc kthread_run is_be vmid d).
Proof.
  assert (Hwalk : forall l, runs (pchan_walk (HS := loopback_dev) HABCFG_VMID_DONT_CARE l)).
  { intros l. apply runs_below. induction l; simpl; built. }
  assert (Hset : forall f, runs (@modify loopback_dev f)) by done.
  assert (Hput : forall p, runs (hab_pchan_put (HS := loopback_dev) p)) by (intros p; apply runs_below, built_pchan_put).
  unfold habhyp_commdev_alloc, loopback_pchan_create, hab_pchan_alloc, hab_pchan_find_domid, put_lb.
  repeat first
    [ apply Hput | apply Hwalk | apply runs_bind; [|intros ?] | apply Hset
    | match goal with |- runs (match ?x with _ => _ end) => destruct x end
    | apply runs_below; solve [built | apply built_pchan_get] ].
Qed.

Lemma runs_generate {HS} `{Platform HS} (alloc : bool -> Z -> nat -> World.M HS (Z * option nat)) s :
  (forall be vm d, runs (alloc be vm d)) -> runs (hab_generate_pchan_list alloc s).
Proof.
  intros Ha. assert (Hret : forall (r : Z), runs (@ret HS Z r)) by done.
  assert (Hg : forall n k l v be r0, runs (generate_group alloc k n l v be r0)).
  { induction n as [|n IH]; intros k l v be r0; [done|]. cbn [generate_group]. apply runs_bind; [done|]. intros [d|]; [|by apply runs_bind].
    apply runs_bind; [|done]. cbn [hab_initialize_pchan_entry]. apply runs_bind; [done|]. intros [r o].
    destruct (negb _); [done|]. apply runs_bind; [by destruct o|]. intros p. apply runs_bind; [|done].
    intros w. unfold upd_p. simpl. by destruct (_ !! _). }
  assert (Hrow : forall i js r0, runs (generate_row alloc s i js r0)).
  { intros i js. induction js as [|j js IH]; intros r0; [done|]. apply runs_bind; [|done].
    destruct (_ =? _); [done|]. unfold hab_generate_pchan. by destruct (filter _ _) as [|[]]. }
  unfold hab_generate_pchan_list. generalize 0. induction (seq 0 16) as [|i rows IH]; intros r0; [done|].
  apply runs_bind; [|done]. by destruct (_ || _).
Qed.

Lemma do_hab_parse_runs (vhost : bool) vmid groups gvmid words now :
  Forall group_ok groups -> (forall p, kthread_run p = 0) ->
  exists s w', hab_parse (Some (Build_hab_node (inr vmid) groups)) blank_settings = Ok (0, s) /\
    do_hab_parse kthread_run vhost (Some (Build_hab_node (inr vmid) groups)) gvmid (boot_world words now) = Ok (0, w') /\
    booted (pchan_plan s) w'.
Proof.
  intros Hg Hk. destruct (parse_groups_spec groups _ blank_ok Hg) as (tbl & Hp & _).
  assert (Hparse : hab_parse (Some (Build_hab_node (inr vmid) groups)) blank_settings = Ok (0, Build_local_vmid (i32 vmid) tbl)).
  { unfold hab_parse, hab_parse_dt. cbn [n_vmid n_children]. by rewrite Hp. }
  set (s := Build_local_vmid (i32 vmid) tbl) in *. exists s.
  pose proof (hab_generate_pchan_list_all (habhyp_commdev_alloc kthread_run) (lv_self s) booted
    (fun done x w HI Hx => booted_entry (lv_self s) done x w Hk HI Hx) s _ eq_refl (boot_booted words now)) as Hw.
  destruct (wp_runs _ _ _ Hw (runs_generate _ _ runs_commdev_alloc)) as (r & w' & He & -> & HI).
  exists w'. split; [done|]. split; [|done].
  unfold do_hab_parse, hab_hypervisor_register, read_settings. unfold bind at 1 2. unfold modify, ret at 1. cbn [negb Z.eqb].
  unfold bind, lift. rewrite Hparse. exact He.
Qed.

End boot.

Definition boots : Z -> Z := fun _ => 0.


(** What the start makes the end takes away: no device has a channel left, the
    channels are freed, and every thread is told to stop. *)
Lemma start_stop :
  exists w1 w2, do_hab_parse (fun _ => 0) false (Some (Build_hab_node (inr 0) sample_dt)) 2 (boot_world boots (7, 0)) = Ok (0, w1) /\
    size (w_pchans w1) = 14%nat /\
    hab_hypervisor_unregister_common w1 = Ok (tt, w2) /\
    w_pchans w2 = ∅ /\ forallb (fun dv => bool_decide (dv_pchannels dv = [])) (w_devs w2) = true /\
    forallb (fun x => lb_stop (snd x)) (map_to_list (w_hyp w2)) = true.
Proof. eexists _, _. split; [vm_compute; reflexivity|]. split; [reflexivity|]. split; [vm_compute; reflexivity|]. by split_and!. Qed.

(** When the device of a new channel, or its thread, cannot be had, the channel is
    freed but stays in its device's list: the next lookup touches freed memory. *)
Lemma create_failure_dangles :
  let w := set_w_alloc [true; false] (boot_world boots (7, 0)) in
  exists w', loopback_pchan_create (fun _ => 0) 0 w = Ok (- ENOMEM, w') /\
    (dv_pchannels <$> w_devs w' !! 0%nat) = Some [0%nat] /\ w_pchans w' = ∅ /\
    hab_pchan_find_domid 0 LOOPBACK_DOM w' = Fault UseAfterFree.
Proof. eexists. split; [vm_compute; reflexivity|]. by split_and!. Qed.

(** With two remote VMs for an mmid the first of the device's channels is given
    the ids of the second VM, and the second channel none. *)
Theorem second_remote_lost :
  exists w', do_hab_parse (fun _ => 0) false (Some (Build_hab_node (inr 0)
      [Build_mmid_grp_node (inr 600) (inr true) (inr [2; 3])])) 2 (boot_world boots (7, 0)) = Ok (0, w') /\
    (dv_pchannels <$> w_devs w' !! 15%nat) = Some [0%nat; 2%nat] /\
    ((fun pc => (pc_vmid_local pc, pc_vmid_remote pc)) <$> w_pchans w' !! 0%nat) = Some (0, 3) /\
    ((fun pc => (pc_vmid_local pc, pc_vmid_remote pc)) <$> w_pchans w' !! 2%nat) = Some (0, 0).
Proof. eexists. split; [vm_compute; reflexivity|]. by split_and!. Qed.
