(* ===== verification/VHostDev.v ===== *)
(** The character devices of the vhost transport (hypervisor/virtio/hab_vhost.c): one for
    each remote VM and group of mmids and one for all of a VM's devices, the channels
    that are free, and what a user of a device (the guest's monitor) does with it.  The
    kernel's vhost library is an interface. *)
From stdpp Require Import strings pretty.
From S2P Require Import Prelude Header World Logic Memory Invariant Pchan Exports Context Vchan Wait Open Loopback Sample Msg Mimex Progress VHost VHostWork Hab Config.

(* src/hab.h:82-82 HABCFG_MMID_NUM *)
Definition HABCFG_MMID_NUM : Z := 26.
(* src/hab.h:83-83 HAB_MMID_ALL_AREA *)
Definition HAB_MMID_ALL_AREA : Z := 0.

(* src/hypervisor/virtio/hab_vhost.c:109-127 hab_area_names *)
Definition hab_area_names : list string :=
  ["hab"; "aud"; "cam"; "disp"; "ogles"; "vid"; "misc"; "qcpe"; "clock"; "fde"; "bufferq"; "network"; "hsi2s"; "xvm"; "vnw";
   "ext"; "gpce"]%string.

(** ** State *)

(** The devices of the group that a character device serves, or of all groups. *)
(* src/hypervisor/virtio/hab_vhost.c:77-84 vhost_hab_cdev *)
Record vhost_hab_cdev := {
  cd_dev_no : Z;
  cd_domain_id : Z;
  cd_vmid : Z;
  cd_habdevs : list (option nat)
}.

Definition set_cd_dev_no (x : Z) (r : vhost_hab_cdev) : vhost_hab_cdev :=
  Build_vhost_hab_cdev x (cd_domain_id r) (cd_vmid r) (cd_habdevs r).
Definition set_cd_domain_id (x : Z) (r : vhost_hab_cdev) : vhost_hab_cdev :=
  Build_vhost_hab_cdev (cd_dev_no r) x (cd_vmid r) (cd_habdevs r).
Definition set_cd_vmid (x : Z) (r : vhost_hab_cdev) : vhost_hab_cdev :=
  Build_vhost_hab_cdev (cd_dev_no r) (cd_domain_id r) x (cd_habdevs r).
Definition set_cd_habdevs (x : list (option nat)) (r : vhost_hab_cdev) : vhost_hab_cdev :=
  Build_vhost_hab_cdev (cd_dev_no r) (cd_domain_id r) (cd_vmid r) x.


(** An open device: the kernel's part, whether it is started, its channels.  [vu_cdev] is
    the index of the character device. *)
(* src/hypervisor/virtio/hab_vhost.c:69-75 vhost_hab_dev *)
Record vhost_hab_dev (D : Type) := {
  vu_dev : D;
  vu_cdev : Z;
  vu_started : Z;
  vu_vmid : Z;
  vu_pchans : list nat
}.
Arguments Build_vhost_hab_dev {D}.
Arguments vu_dev {D} _.
Arguments vu_cdev {D} _.
Arguments vu_started {D} _.
Arguments vu_vmid {D} _.
Arguments vu_pchans {D} _.

Definition set_vu_dev {D} (x : D) (r : vhost_hab_dev D) : vhost_hab_dev D :=
  Build_vhost_hab_dev x (vu_cdev r) (vu_started r) (vu_vmid r) (vu_pchans r).
Definition set_vu_cdev {D} (x : Z) (r : vhost_hab_dev D) : vhost_hab_dev D :=
  Build_vhost_hab_dev (vu_dev r) x (vu_started r) (vu_vmid r) (vu_pchans r).
Definition set_vu_started {D} (x : Z) (r : vhost_hab_dev D) : vhost_hab_dev D :=
  Build_vhost_hab_dev (vu_dev r) (vu_cdev r) x (vu_vmid r) (vu_pchans r).
Definition set_vu_vmid {D} (x : Z) (r : vhost_hab_dev D) : vhost_hab_dev D :=
  Build_vhost_hab_dev (vu_dev r) (vu_cdev r) (vu_started r) x (vu_pchans r).
Definition set_vu_pchans {D} (x : list nat) (r : vhost_hab_dev D) : vhost_hab_dev D :=
  Build_vhost_hab_dev (vu_dev r) (vu_cdev r) (vu_started r) (vu_vmid r) x.


(** [g_list] are the channels that no open device has. *)
(* src/hypervisor/virtio/hab_vhost.c:92-104 vhost_hab *)
Record vhost_hab (D : Type) := {
  g_major : Z;
  g_cdevs : gmap Z vhost_hab_cdev;
  g_list : list nat;
  g_devs : gmap nat (vhost_hab_dev D)
}.
Arguments Build_vhost_hab {D}.
Arguments g_major {D} _.
Arguments g_cdevs {D} _.
Arguments g_list {D} _.
Arguments g_devs {D} _.

Definition set_g_major {D} (x : Z) (r : vhost_hab D) : vhost_hab D :=
  Build_vhost_hab x (g_cdevs r) (g_list r) (g_devs r).
Definition set_g_cdevs {D} (x : gmap Z vhost_hab_cdev) (r : vhost_hab D) : vhost_hab D :=
  Build_vhost_hab (g_major r) x (g_list r) (g_devs r).
Definition set_g_list {D} (x : list nat) (r : vhost_hab D) : vhost_hab D :=
  Build_vhost_hab (g_major r) (g_cdevs r) x (g_devs r).
Definition set_g_devs {D} (x : gmap nat (vhost_hab_dev D)) (r : vhost_hab D) : vhost_hab D :=
  Build_vhost_hab (g_major r) (g_cdevs r) (g_list r) x.


(** The kernel's vhost library: the answers about a device's owner and a queue's memory
    and event descriptors, and what its calls make of a queue and of a device. *)
Class VhostDevice (VQ D : Type) := {
  vhost_dev_init : D;
  vhost_vq_reset : VQ -> VQ;
  vhost_dev_check_owner : D -> Z;
  vhost_dev_has_owner : D -> bool;
  vhost_vq_access_ok : VQ -> bool;
  vq_kick : VQ -> bool;
  vq_call : VQ -> bool;
  vhost_vq_init_access : VQ -> Z * VQ;
  vhost_poll_queue : VQ -> VQ;
  vhost_vq_stop : VQ -> VQ;
  vhost_vq_cleanup : VQ -> VQ;
  vhost_log_access_ok : D -> bool;
  set_acked_features : Z -> VQ -> VQ;
  vhost_dev_reset_owner : D -> D;
  vhost_dev_ioctl : D -> list VQ -> Z -> Z -> Z * D * list VQ;
  vhost_vring_ioctl : D -> list VQ -> Z -> Z -> Z * D * list VQ
}.

(** ** The character devices *)

(** The entry of a VM and a group in the table. *)
Definition cdev_index (domain_id vmid_remote : Z) : res Z :=
  let i := (HABCFG_MMID_AREA_MAX + 1) * vmid_remote + domain_id in
  if (0 <=? i) && (i <? (HABCFG_MMID_AREA_MAX + 1) * HABCFG_VMID_MAX) then Ok i else Fault OutOfBounds.

(* src/hypervisor/virtio/hab_vhost.c:1137-1144 get_cdev *)
Definition cdev_name (vmid_remote : Z) (area : string) : string :=
  if vmid_remote =? 2 then ("vhost-" ++ area)%string else ("vhost-vm" ++ pretty vmid_remote ++ "-" ++ area)%string.

Definition no_habdev (o : option nat) : bool := match o with None => true | Some _ => false end.

(** The slots without a device, and the first free slot or the number of slots. *)
(* src/hypervisor/virtio/hab_vhost.c:1180-1186 del_hab_device_from_cdev *)
Definition clear_habdev (d : nat) (l : list (option nat)) : list (option nat) :=
  map (fun o => if bool_decide (o = Some d) then None else o) l.
(* src/hypervisor/virtio/hab_vhost.c:1216-1221 add_hab_device_to_cdev *)
Fixpoint put_habdev (d : nat) (l : list (option nat)) : list (option nat) * nat :=
  match l with
  | [] => ([], 0%nat)
  | None :: l => (Some d :: l, 0%nat)
  | Some e :: l => let r := put_habdev d l in (Some e :: r.1, S r.2)
  end.

Section cdevs.
Context {VQ D : Type} `{VhostQueue VQ} `{VhostDevice VQ D} `{Platform (vhost_link VQ)} `{KernelIdr}.
#[local] Abbreviation M := (World.M (vhost_link VQ)).
Implicit Types (s : vhost_hab D).

(** What the kernel answers to a new character device. *)
Context (cdev_add : Z -> Z) (device_create : string -> bool).

(* src/hypervisor/virtio/hab_vhost.c:1105-1163 get_cdev *)
Definition get_cdev (domain_id vmid_remote : Z) s : M (option Z * vhost_hab D) :=
  let! i := lift (cdev_index domain_id vmid_remote) in
  match g_cdevs s !! i with
  | Some _ => ret (Some i, s)
  | None =>
      let! a := kalloc in
      match a with
      | None => ret (None, s)
      | Some _ =>
          let dev_no := Z.lor (Z.shiftl (g_major s) 20) i in
          if negb (cdev_add dev_no =? 0) then ret (None, s)
          else
            let! area := lift (of_opt OutOfBounds (hab_area_names !! Z.to_nat domain_id)) in
            if device_create (cdev_name vmid_remote area) then
              let cdev := Build_vhost_hab_cdev dev_no domain_id vmid_remote (repeat None (Z.to_nat HABCFG_MMID_NUM)) in
              ret (Some i, set_g_cdevs (<[i := cdev]> (g_cdevs s)) s)
            else ret (None, s)
      end
  end.

(* src/hypervisor/virtio/hab_vhost.c:1165-1197 del_hab_device_from_cdev *)
Definition del_hab_device_from_cdev (mmid : Z) (d : nat) (vmid_remote : Z) s : res (vhost_hab D) :=
  let? i := cdev_index (mmid / 100) vmid_remote in
  match g_cdevs s !! i with
  | None => Ok s
  | Some c =>
      let l := clear_habdev d (cd_habdevs c) in
      if forallb no_habdev l then Ok (set_g_cdevs (delete i (g_cdevs s)) s)
      else Ok (set_g_cdevs (<[i := set_cd_habdevs l c]> (g_cdevs s)) s)
  end.

(* src/hypervisor/virtio/hab_vhost.c:1199-1203 vhost_hab_cdev_del_hab_device *)
Definition vhost_hab_cdev_del_hab_device (d : nat) (vmid_remote : Z) s : M (vhost_hab D) :=
  let! dv := get_d d in
  let! s := lift (del_hab_device_from_cdev (dv_id dv) d vmid_remote s) in
  lift (del_hab_device_from_cdev HAB_MMID_ALL_AREA d vmid_remote s).

(** A device for which there is no slot is left out; the test is against the number of
    the driver's devices, not of slots. *)
(* src/hypervisor/virtio/hab_vhost.c:1205-1229 add_hab_device_to_cdev *)
Definition add_hab_device_to_cdev (mmid : Z) (d : nat) (vmid_remote : Z) s : M (Z * vhost_hab D) :=
  let! r := get_cdev (mmid / 100) vmid_remote s in
  match r with
  | (None, s) => ret (- ENODEV, s)
  | (Some i, s) =>
      let! c := lift (of_opt UseAfterFree (g_cdevs s !! i)) in
      let! ndevices := gets (fun w => zlen (w_devs w)) in
      let q := put_habdev d (cd_habdevs c) in
      let s := set_g_cdevs (<[i := set_cd_habdevs (q.1) c]> (g_cdevs s)) s in
      if ndevices <=? Z.of_nat (q.2) then ret (- EINVAL, s) else ret (0, s)
  end.

(* src/hypervisor/virtio/hab_vhost.c:1231-1244 vhost_hab_cdev_add_hab_device *)
Definition vhost_hab_cdev_add_hab_device (d : nat) (vmid_remote : Z) s : M (Z * vhost_hab D) :=
  let! r := add_hab_device_to_cdev HAB_MMID_ALL_AREA d vmid_remote s in
  let '(e, s) := r in
  if negb (e =? 0) then ret (e, s)
  else
    let! dv := get_d d in
    let! r := add_hab_device_to_cdev (dv_id dv) d vmid_remote s in
    let '(e, s) := r in
    if negb (e =? 0) then
      let! s := lift (del_hab_device_from_cdev HAB_MMID_ALL_AREA d vmid_remote s) in ret (e, s)
    else ret (0, s).

(** ** The channels of the host *)

(** [fresh] is a queue in zeroed memory and [allocs] the outcomes of the coming
    allocations of the send path.  When there is no memory for the transport's part, the
    one reference to the channel is dropped twice. *)
Context (fresh : VQ) (allocs : list bool).

(* src/hypervisor/virtio/hab_vhost.c:1246-1308 habhyp_commdev_alloc *)
Definition vhost_commdev_alloc (vmid_remote : Z) (d : nat) s : M (Z * option nat * vhost_hab D) :=
  let! now := gets w_now in
  let! o := hab_pchan_alloc d vmid_remote (Build_vhost_link None allocs now) in
  match o with
  | None => ret (- ENOMEM, None, s)
  | Some p =>
      do! upd_p p (fun pc => set_pc_is_be true (set_pc_otherend_closed true (set_pc_closed false pc))) in
      let! a := kalloc in
      match a with
      | None => do! hab_pchan_put p in do! hab_pchan_put p in ret (- ENOMEM, None, s)
      | Some _ =>
          let! r := vhost_hab_cdev_add_hab_device d vmid_remote s in
          let '(e, s) := r in
          if negb (e =? 0) then do! hab_pchan_put p in ret (e, None, s)
          else
            let vh := Build_vhost_hab_pchannel d None fresh false fresh false [] [] false false in
            do! put_vl p (Build_vhost_link (Some vh) allocs now) in
            ret (0, Some p, set_g_list (g_list s ++ [p]) s)
      end
  end.

(** The transport's part of the channel stays. *)
(* src/hypervisor/virtio/hab_vhost.c:1310-1320 habhyp_commdev_dealloc *)
Definition vhost_commdev_dealloc (p : nat) s : M (Z * vhost_hab D) :=
  let! pc := get_p p in
  let! s := vhost_hab_cdev_del_hab_device (pc_habdev pc) (pc_dom_id pc) s in
  do! hab_pchan_put p in
  ret (0, s).

(** ** Opening and releasing a device *)

(** The first of the free channels that is of the device and leads to the VM. *)
(* src/hypervisor/virtio/hab_vhost.c:304-323 vhost_hab_open *)
Fixpoint find_vh_pchan (d : nat) (vmid : Z) (l : list nat) : M (option nat) :=
  match l with
  | [] => ret None
  | p :: l =>
      let! vh := vh_of p in
      if decide (vh_habdev vh = d) then
        let! pc := get_p p in
        if pc_dom_id pc =? vmid then ret (Some p) else find_vh_pchan d vmid l
      else find_vh_pchan d vmid l
  end.

(** The code, the channels that are still free and those that were taken.  The walk over
    the slots ends at the first that is empty. *)
(* src/hypervisor/virtio/hab_vhost.c:298-331 vhost_hab_open *)
Fixpoint take_pchans (vmid : Z) (habdevs : list (option nat)) (free mine : list nat) : M (Z * list nat * list nat) :=
  match habdevs with
  | Some d :: habdevs =>
      let! o := find_vh_pchan d vmid free in
      match o with
      | None => ret (- ENODEV, free, mine)
      | Some p => take_pchans vmid habdevs (list_del p free) (mine ++ [p])
      end
  | _ => ret (0, free, mine)
  end.

Definition upd_vh (p : nat) (f : vhost_hab_pchannel VQ -> vhost_hab_pchannel VQ) : M unit :=
  let! vh := vh_of p in put_vh p (f vh).
(** Both queues of a channel. *)
Definition on_vqs (f : VQ -> VQ) (vh : vhost_hab_pchannel VQ) : vhost_hab_pchannel VQ :=
  set_vh_rx (f (vh_rx vh)) (set_vh_tx (f (vh_tx vh)) vh).

(** The character device is at the index [i]. *)
(* src/hypervisor/virtio/hab_vhost.c:278-372 vhost_hab_open *)
Definition vhost_hab_open (i : Z) s : M (Z * option nat * vhost_hab D) :=
  let! c := lift (of_opt UseAfterFree (g_cdevs s !! i)) in
  let! a := kalloc in
  match a with
  | None => ret (- ENOMEM, None, s)
  | Some f =>
      let! r := take_pchans (cd_vmid c) (cd_habdevs c) (g_list s) [] in
      let '(e, free, mine) := r in
      if negb (e =? 0) then ret (e, None, set_g_list (free ++ mine) s)
      else
        let! vqs := kalloc in
        match vqs with
        | None => ret (- ENOMEM, None, set_g_list (free ++ mine) s)
        | Some _ =>
            do! for_each (fun p => upd_vh p (fun vh => set_vh_dev (Some f) (set_vh_rx_on false (set_vh_tx_on false (on_vqs vhost_vq_reset vh))))) mine in
            ret (0, Some f, set_g_list free (set_g_devs (<[f := Build_vhost_hab_dev vhost_dev_init i 0 (cd_vmid c) mine]> (g_devs s)) s))
        end
  end.

(** [queued] are the works that the kernel still has for these channels when one waits for
    them; the other two are what the workers are given. *)
Context (queued : list nat -> list (vhost_work * nat)) (fuel : nat) (garbage : bytes).

Definition vhost_dev_flush (l : list nat) : M unit := for_each (fun k => run_work fuel garbage (k.1) (k.2)) (queued l).

(* src/hypervisor/virtio/hab_vhost.c:374-383 vhost_hab_stop_vq *)
Definition stop_vqs (p : nat) : M unit := upd_vh p (fun vh => set_vh_rx_on false (set_vh_tx_on false vh)).

(* src/hypervisor/virtio/hab_vhost.c:385-396 vhost_hab_stop *)
Definition vhost_hab_stop (u : vhost_hab_dev D) : M (vhost_hab_dev D) :=
  do! for_each stop_vqs (vu_pchans u) in ret (set_vu_started 0 u).

(* src/hypervisor/virtio/hab_vhost.c:404-415 vhost_hab_flush *)
Definition vhost_hab_flush (u : vhost_hab_dev D) : M unit := vhost_dev_flush (vu_pchans u).

(** A channel that is given back: its counters start over, and a reference to it is
    dropped. *)
(* src/hypervisor/virtio/hab_vhost.c:437-442 vhost_hab_release *)
Definition give_back (p : nat) : M unit :=
  do! upd_p p (fun pc => set_pc_sequence_tx 0 (set_pc_sequence_rx 0 pc)) in
  hab_pchan_put p.

(* src/hypervisor/virtio/hab_vhost.c:417-450 vhost_hab_release *)
Definition vhost_hab_release (f : nat) s : M (Z * vhost_hab D) :=
  let! u := lift (of_opt UseAfterFree (g_devs s !! f)) in
  let! u := vhost_hab_stop u in
  do! vhost_hab_flush u in
  do! for_each (fun p => upd_vh p (on_vqs (fun q => vhost_vq_cleanup (vhost_vq_stop q)))) (vu_pchans u) in
  do! vhost_hab_flush u in
  do! for_each give_back (vu_pchans u) in
  ret (0, set_g_list (g_list s ++ vu_pchans u) (set_g_devs (delete f (g_devs s)) s)).

(** ** Running a device *)

(** The queues of an open device in order, and their replacement. *)
Fixpoint dev_vqs (l : list nat) : M (list VQ) :=
  match l with
  | [] => ret []
  | p :: l => let! vh := vh_of p in let! qs := dev_vqs l in ret (vh_tx vh :: vh_rx vh :: qs)
  end.
Fixpoint put_vqs (l : list nat) (qs : list VQ) : M unit :=
  match l, qs with
  | p :: l, tx :: rx :: qs => do! upd_vh p (fun vh => set_vh_rx rx (set_vh_tx tx vh)) in put_vqs l qs
  | _, _ => ret tt
  end.

(* src/hypervisor/virtio/hab_vhost.c:452-487 vhost_hab_ready_check *)
Definition vhost_hab_ready_check (u : vhost_hab_dev D) : M Z :=
  let r := vhost_dev_check_owner (VQ := VQ) (vu_dev u) in
  if negb (r =? 0) then ret r
  else
    let! qs := dev_vqs (vu_pchans u) in
    ret (if forallb (fun q => vhost_vq_access_ok q && vq_kick q && vq_call q) qs then 0 else - EFAULT).

(** Starting a queue: whether it is started then, the code and how many are not. *)
(* src/hypervisor/virtio/hab_vhost.c:525-540 vhost_hab_run *)
Definition start_vq (on : bool) (q : VQ) (r not_started : Z) : bool * VQ * Z * Z :=
  if on then (true, q, r, not_started)
  else
    let '(r, q) := vhost_vq_init_access q in
    if negb (r =? 0) then (false, q, r, not_started + 1) else (true, q, r, not_started).

(* src/hypervisor/virtio/hab_vhost.c:520-542 vhost_hab_run *)
Fixpoint start_pchans (l : list nat) (r not_started : Z) : M (Z * Z) :=
  match l with
  | [] => ret (r, not_started)
  | p :: l =>
      let! vh := vh_of p in
      let '(tx_on, tx, r, not_started) := start_vq (vh_tx_on vh) (vh_tx vh) r not_started in
      let '(rx_on, rx, r, not_started) := start_vq (vh_rx_on vh) (vh_rx vh) r not_started in
      do! put_vh p (set_vh_rx_on rx_on (set_vh_rx rx (set_vh_tx_on tx_on (set_vh_tx tx vh)))) in
      start_pchans l r not_started
  end.

(** The code is that of the last queue that was tried, whatever the others gave. *)
(* src/hypervisor/virtio/hab_vhost.c:489-562 vhost_hab_run *)
Definition vhost_hab_run (u : vhost_hab_dev D) (start : Z) : M (Z * vhost_hab_dev D) :=
  if (start <? 0) || (1 <? start) then ret (- EINVAL, u)
  else if vu_started u =? start then ret (0, u)
  else
    let r := vhost_dev_check_owner (VQ := VQ) (vu_dev u) in
    if negb (r =? 0) then ret (r, u)
    else
      let! qs := dev_vqs (vu_pchans u) in
      if negb (forallb vhost_vq_access_ok qs) then ret (- EFAULT, u)
      else
        let! x := start_pchans (vu_pchans u) 0 0 in
        let '(r, not_started) := x in
        if not_started =? 0 then
          do! for_each (fun p => upd_vh p (on_vqs vhost_poll_queue)) (vu_pchans u) in
          ret (0, set_vu_started 1 u)
        else ret (r, u).

(** ** The virtual channels of a channel are closed *)

(** Other threads run between the looks. *)
(* src/hab_vchan.c:273-281 hab_vchans_empty_wait_pchan *)
Fixpoint hab_vchans_empty_wait_pchan (p : nat) (others : list (M unit)) : M (list (M unit)) :=
  let! empty := hab_vchans_per_pchan_empty p in
  if empty then ret others
  else match others with [] => fun _ => Blocked | m :: others => do! m in hab_vchans_empty_wait_pchan p others end.

(* src/hab_vchan.c:255-267 hab_vchans_empty_wait *)
Fixpoint hab_vchans_empty_wait (vmid : Z) (others : list (M unit)) : M (list (M unit)) :=
  let! devs := gets w_devs in
  let! empty := hab_vchans_empty vmid devs in
  if empty then ret others
  else match others with [] => fun _ => Blocked | m :: others => do! m in hab_vchans_empty_wait vmid others end.

(* src/hypervisor/virtio/hab_vhost.c:578-582 vhost_hab_reset_owner *)
Fixpoint wait_pchans (l : list nat) (others : list (M unit)) : M (list (M unit)) :=
  match l with
  | [] => ret others
  | p :: l => let! others := hab_vchans_empty_wait_pchan p others in wait_pchans l others
  end.

(* src/hypervisor/virtio/hab_vhost.c:564-600 vhost_hab_reset_owner *)
Definition vhost_hab_reset_owner (u : vhost_hab_dev D) (others : list (M unit)) : M (Z * vhost_hab_dev D) :=
  do! for_each (fun p => do! hab_vchans_stop p in upd_p p (set_pc_otherend_closed true)) (vu_pchans u) in
  let! _ := wait_pchans (vu_pchans u) others in
  let r := vhost_dev_check_owner (VQ := VQ) (vu_dev u) in
  if negb (r =? 0) then ret (r, u)
  else
    let! umem := kalloc in
    match umem with
    | None => ret (- ENOMEM, u)
    | Some _ =>
        let! u := vhost_hab_stop u in
        do! vhost_hab_flush u in
        do! for_each (fun p => upd_vh p (on_vqs vhost_vq_stop)) (vu_pchans u) in
        do! for_each (fun p => upd_vh p (on_vqs vhost_vq_cleanup)) (vu_pchans u) in
        ret (0, set_vu_dev (vhost_dev_reset_owner (VQ := VQ) (vu_dev u)) u)
    end.

(** ** The ioctl commands *)

(* src/vhost.h:296-303 VHOST_FEATURES *)
Definition VHOST_FEATURES : Z :=
  2 ^ 24 + 2 ^ 28 + 2 ^ 29 + 2 ^ 26 + 2 ^ 27 + 2 ^ 32.
Definition VHOST_F_LOG_ALL : Z := 26.

(* src/hypervisor/virtio/hab_vhost.c:602-623 vhost_hab_set_features *)
Definition vhost_hab_set_features (u : vhost_hab_dev D) (features : Z) : M Z :=
  if Z.testbit features VHOST_F_LOG_ALL && negb (vhost_log_access_ok (VQ := VQ) (vu_dev u)) then ret (- EFAULT)
  else
    do! for_each (fun p => upd_vh p (on_vqs (set_acked_features features))) (vu_pchans u) in
    ret 0.

(* src/hypervisor/virtio/hab_vhost.c:625-634 vhost_hab_dev_start_pchans *)
Definition vhost_hab_dev_start_pchans (u : vhost_hab_dev D) : M unit :=
  for_each (fun p => upd_p p (set_pc_otherend_closed false)) (vu_pchans u).

(** A command with what reading or writing the user's memory gives. *)
Inductive vhost_cmd :=
  | VHOST_RESET_OWNER
  | VHOST_SET_FEATURES (features : option Z)
  | VHOST_SET_CONFIG
  | VHOST_GET_FEATURES (writable : bool)
  | VHOST_OTHER (ioctl arg : Z).

(** The commands of the vhost library; each is followed by an attempt to start. *)
(* src/hypervisor/virtio/hab_vhost.c:671-686 vhost_hab_ioctl *)
Definition vhost_other_ioctl (u : vhost_hab_dev D) (ioctl arg : Z) : M (Z * vhost_hab_dev D) :=
  let! qs := dev_vqs (vu_pchans u) in
  let '(r, dev, qs) := vhost_dev_ioctl (vu_dev u) qs ioctl arg in
  let '(r, dev, qs) := (if r =? - ENOIOCTLCMD then vhost_vring_ioctl dev qs ioctl arg else (r, dev, qs)) in
  let u := set_vu_dev dev u in
  do! put_vqs (vu_pchans u) qs in
  do! vhost_hab_flush u in
  let! ready := vhost_hab_ready_check u in
  if ready =? 0 then
    do! vhost_hab_dev_start_pchans u in
    let! x := vhost_hab_run u 1 in
    ret (r, x.2)
  else ret (r, u).

(** The code, the device and what the user is given. *)
(* src/hypervisor/virtio/hab_vhost.c:636-690 vhost_hab_ioctl *)
Definition vhost_hab_ioctl (u : vhost_hab_dev D) (cmd : vhost_cmd) (others : list (M unit)) : M (Z * vhost_hab_dev D * option Z) :=
  match cmd with
  | VHOST_RESET_OWNER => let! x := vhost_hab_reset_owner u others in ret (x.1, x.2, None)
  | VHOST_SET_FEATURES None => ret (- EFAULT, u, None)
  | VHOST_SET_FEATURES (Some features) =>
      if negb (Z.ldiff features VHOST_FEATURES =? 0) then ret (- EOPNOTSUPP, u, None)
      else let! r := vhost_hab_set_features u features in ret (r, u, None)
  | VHOST_SET_CONFIG => ret (0, u, None)
  | VHOST_GET_FEATURES writable => if writable then ret (0, u, Some VHOST_FEATURES) else ret (- EFAULT, u, None)
  | VHOST_OTHER ioctl arg => let! x := vhost_other_ioctl u ioctl arg in ret (x.1, x.2, None)
  end.

(* src/hypervisor/virtio/hab_vhost.c:636-690 vhost_hab_ioctl *)
Definition vhost_file_ioctl (f : nat) (cmd : vhost_cmd) (others : list (M unit)) s : M (Z * option Z * vhost_hab D) :=
  let! u := lift (of_opt UseAfterFree (g_devs s !! f)) in
  let! x := vhost_hab_ioctl u cmd others in
  let '(r, u, out) := x in
  ret (r, out, set_g_devs (<[f := u]> (g_devs s)) s).

(** ** Start and end of the transport *)

(** What the kernel answers: the number of the devices' driver or an errno, the class or an
    errno (0 when it gives none), whether there is a work queue. *)
(* src/hypervisor/virtio/hab_vhost.c:700-732 hab_hypervisor_register *)
Definition vhost_register (region : Z + Z) (class : Z + unit) (wq : bool) s : Z * vhost_hab D :=
  match region with
  | inl e => (e, s)
  | inr major =>
      let s := set_g_major major s in
      match class with
      | inl e => (if e =? 0 then - ENOMEM else e, s)
      | inr _ => if wq then (0, set_g_list [] s) else (- EINVAL, s)
      end
  end.

(** The transport's part of every free channel goes; those of an open device stay. *)
(* src/hypervisor/virtio/hab_vhost.c:734-763 hab_hypervisor_unregister *)
Definition vhost_unregister (common : vhost_hab D -> M (vhost_hab D)) s : M (vhost_hab D) :=
  do! for_each (fun p => let! vl := get_vl p in let! _ := get_p p in put_vl p (set_vl_hyp None vl)) (g_list s) in
  common (set_g_list [] s).

(** ** The report *)

(** The worker takes on the memory of the device's owner. *)
(* src/hypervisor/virtio/hab_vhost.c:1358-1402 stat_worker *)
Fixpoint stat_worker s (pchans : list nat) : M unit :=
  match pchans with
  | [] => ret tt
  | p :: pchans =>
      let! vl := get_vl p in
      match vl_hyp vl with
      | None => stat_worker s pchans
      | Some vh =>
          let! f := deref (vh_dev vh) in
          let! u := lift (of_opt UseAfterFree (g_devs s !! f)) in
          if vhost_dev_has_owner (VQ := VQ) (vu_dev u) then
            do! put_vh p (set_vh_rx_empty (vhost_vq_avail_empty (vh_rx vh)) (set_vh_tx_empty (vhost_vq_avail_empty (vh_tx vh)) vh)) in
            stat_worker s pchans
          else fail NullDeref
      end
  end.

(** [print] is what printing a line into the caller's buffer answers. *)
(* src/hypervisor/virtio/hab_vhost.c:1338-1353 hab_stat_log *)
Fixpoint stat_print (print : vhost_hab_pchannel VQ -> Z) (pchans : list nat) (r : Z) : M Z :=
  match pchans with
  | [] => ret r
  | p :: pchans =>
      let! vl := get_vl p in
      match vl_hyp vl with
      | None => stat_print print pchans r
      | Some vh => let r := print vh in if negb (r =? 0) then ret r else stat_print print pchans r
      end
  end.

(* src/hypervisor/virtio/hab_vhost.c:1322-1356 hab_stat_log *)
Definition vhost_stat_log (print : vhost_hab_pchannel VQ -> Z) s (pchans : list nat) : M Z :=
  do! stat_worker s pchans in stat_print print pchans 0.
End cdevs.
