(* ===== verification/VHostLife.v ===== *)
(** What holds of the character devices of the vhost transport: a device is entered in and
    removed from the tables without a trace, an open device has exactly the channels it
    is for, it counts as started only with all its queues, and what a release leaves. *)
From stdpp Require Import strings pretty.
From S2P Require Import Prelude Header World Logic Memory Invariant Pchan Exports Context Vchan Wait Open Loopback Sample Msg Mimex Progress VHost VHostWork Hab Config VHostDev.

(** ** Runs *)

Section runs.
Context {HS : Type}.
Implicit Types (w : world HS).

Lemma bind_eq {A B} (m : M HS A) (k : A -> M HS B) w a w' : m w = Ok (a, w') -> bind m k w = k a w'.
Proof. unfold bind. by intros ->. Qed.

Lemma bind_assoc_eq {A B C} (m : M HS A) (k : A -> M HS B) (l : B -> M HS C) w a w' :
  m w = Ok (a, w') -> bind (bind m k) l w = bind (k a) l w'.
Proof. unfold bind. by intros ->. Qed.

Lemma lift_eq {A} (r : res A) a w : r = Ok a -> lift (HS := HS) r w = Ok (a, w).
Proof. unfold lift. by intros ->. Qed.

Lemma kalloc_eq w : exists o w', kalloc w = Ok (o, w') /\ w_devs w' = w_devs w.
Proof. unfold kalloc. destruct (w_alloc w) as [|[] l]; by eexists _, _. Qed.
Lemma kalloc_frame w : exists o w', kalloc w = Ok (o, w') /\ w_hyp w' = w_hyp w /\ w_pchans w' = w_pchans w.
Proof. unfold kalloc. destruct (w_alloc w) as [|[] l]; by eexists _, _. Qed.
Lemma kalloc_plenty w : (forall l, w_alloc w <> false :: l) ->
  exists a w', kalloc w = Ok (Some a, w') /\ w_hyp w' = w_hyp w /\ w_pchans w' = w_pchans w.
Proof. intros Ha. unfold kalloc. destruct (w_alloc w) as [|[] l]; [by eexists _, _|by eexists _, _|by destruct (Ha l)]. Qed.
End runs.

(** ** Slots *)

Lemma clear_put d l : Some d ∉ l -> clear_habdev d (put_habdev d l).1 = l.
Proof.
  assert (Hid : forall l, Some d ∉ l -> clear_habdev d l = l).
  { clear l. induction l as [|o l IH]; intros Hn; [done|]. apply not_elem_of_cons in Hn as [Ho Hl].
    cbn [clear_habdev map]. fold (clear_habdev d l). rewrite IH by done. by rewrite bool_decide_eq_false_2 by congruence. }
  induction l as [|[e|] l IH]; intros Hn; [done| |].
  - apply not_elem_of_cons in Hn as [Ho Hl]. cbn [put_habdev fst clear_habdev map]. fold (clear_habdev d (put_habdev d l).1).
    rewrite IH by done. by rewrite bool_decide_eq_false_2 by congruence.
  - apply not_elem_of_cons in Hn as [Ho Hl]. cbn [put_habdev fst clear_habdev map]. fold (clear_habdev d l).
    rewrite Hid by done. by rewrite bool_decide_eq_true_2.
Qed.

Lemma put_habdev_le d l : ((put_habdev d l).2 <= length l)%nat.
Proof. induction l as [|[e|] l IH]; simpl; lia. Qed.

Lemma put_habdev_len d l : length (put_habdev d l).1 = length l.
Proof. induction l as [|[e|] l IH]; simpl; congruence. Qed.

Lemma put_habdev_some d e l : Some e ∈ l -> Some e ∈ (put_habdev d l).1.
Proof.
  induction l as [|[x|] l IH]; simpl; [done| |].
  - rewrite !elem_of_cons. intuition.
  - rewrite !elem_of_cons. intros [?|?]; [done|by right].
Qed.

Lemma put_habdev_in d l : (exists e, Some e ∈ l) \/ l <> [] -> exists e, Some e ∈ (put_habdev d l).1.
Proof.
  intros [[e He]|Hne]; [exists e; by apply put_habdev_some|]. destruct l as [|[e|] l]; [done| |]; simpl; eexists; by left.
Qed.

Lemma all_free_none l : forallb no_habdev l = true -> forall e, Some e ∉ l.
Proof. intros Hf e He. rewrite forallb_forall in Hf. apply list_elem_of_In in He. by specialize (Hf _ He). Qed.

Lemma some_not_free l e : Some e ∈ l -> forallb no_habdev l = false.
Proof. intros He. destruct (forallb no_habdev l) eqn:Hf; [|done]. by destruct (all_free_none l Hf e He). Qed.

Section cdevs.
Context {VQ D : Type} `{VhostQueue VQ} `{!VhostDevice VQ D} `{Platform (vhost_link VQ)} `{KernelIdr}.
Implicit Types (s : vhost_hab D) (w : world (vhost_link VQ)).
Context (cdev_add : Z -> Z) (device_create : string -> bool).

(** A character device exists as long as it serves a device. *)
Definition cdevs_ok s : Prop :=
  forall i c, g_cdevs s !! i = Some c -> length (cd_habdevs c) = Z.to_nat HABCFG_MMID_NUM /\ exists e, Some e ∈ cd_habdevs c.

(** The device [d] is in no table. *)
Definition unlisted (d : nat) s : Prop := forall i c, g_cdevs s !! i = Some c -> Some d ∉ cd_habdevs c.

(** The table's entry, before and after. *)
Definition with_cdev s i (c : vhost_hab_cdev) : vhost_hab D := set_g_cdevs (<[i := c]> (g_cdevs s)) s.

Lemma get_cdev_ok domain vmid s w i :
  cdev_index domain vmid = Ok i -> 0 <= domain <= 16 ->
  exists w', w_devs w' = w_devs w /\
    (get_cdev cdev_add device_create domain vmid s w = Ok ((None, s), w') \/
     exists c, get_cdev cdev_add device_create domain vmid s w = Ok ((Some i, with_cdev s i c), w') /\
       (g_cdevs s !! i = Some c \/ g_cdevs s !! i = None /\ cd_habdevs c = repeat None (Z.to_nat HABCFG_MMID_NUM))).
Proof.
  intros Hi Hd. unfold get_cdev. rewrite (bind_eq _ _ _ _ _ (lift_eq _ _ w Hi)).
  destruct (g_cdevs s !! i) as [c|] eqn:Hc.
  - exists w. split; [done|]. right. exists c. split; [|by left]. unfold with_cdev, ret.
    rewrite insert_id by done. by destruct s.
  - destruct (kalloc_eq w) as (o & w' & Ha & Hw). rewrite (bind_eq _ _ _ _ _ Ha). exists w'. split; [done|].
    destruct o as [a|]; [|by left]. destruct (cdev_add _ =? 0); cbn [negb]; [|by left].
    destruct (lookup_lt_is_Some_2 hab_area_names (Z.to_nat domain)) as [n Hn]; [cbn; lia|].
    rewrite (bind_eq _ _ _ _ _ (lift_eq (of_opt OutOfBounds (hab_area_names !! Z.to_nat domain)) n w' ltac:(by rewrite Hn))).
    destruct (device_create _); [right|by left]. eexists. split; [reflexivity|]. by right.
Qed.

(** Entering a device: nothing changes when it fails, and removing it is the way back. *)
Lemma add_del_one mmid d vmid s w i :
  cdev_index (mmid / 100) vmid = Ok i -> 0 <= mmid / 100 <= 16 -> cdevs_ok s ->
  (forall c, g_cdevs s !! i = Some c -> Some d ∉ cd_habdevs c) -> HABCFG_MMID_NUM < zlen (w_devs w) ->
  exists e s' w', add_hab_device_to_cdev cdev_add device_create mmid d vmid s w = Ok ((e, s'), w') /\ w_devs w' = w_devs w /\
    (if e =? 0 then exists c, s' = with_cdev s i c /\ cdevs_ok s' else s' = s) /\
    (e = 0 -> forall s2, g_cdevs s2 !! i = g_cdevs s' !! i ->
       del_hab_device_from_cdev mmid d vmid s2 = Ok (set_g_cdevs (partial_alter (fun _ => g_cdevs s !! i) i (g_cdevs s2)) s2)).
Proof.
  intros Hi Hd Hok Hun Hn. unfold add_hab_device_to_cdev.
  destruct (get_cdev_ok (mmid / 100) vmid s w i Hi Hd) as (w' & Hw & [Hg|(c & Hg & Hc)]); rewrite (bind_eq _ _ _ _ _ Hg).
  { exists (- ENODEV), s, w'. by split_and!. }
  rewrite (bind_eq _ _ _ _ _ (lift_eq (of_opt UseAfterFree (g_cdevs (with_cdev s i c) !! i)) c w'
    ltac:(unfold with_cdev; cbn [g_cdevs set_g_cdevs]; by rewrite lookup_insert_eq))).
  assert (Hlen : length (cd_habdevs c) = Z.to_nat HABCFG_MMID_NUM /\ Some d ∉ cd_habdevs c).
  { destruct Hc as [Hc|[_ ->]]; [split; [by destruct (Hok i c Hc)|by apply Hun]|]. split; [by rewrite repeat_length|].
    by intros [=]%list_elem_of_In%repeat_spec. }
  destruct Hlen as [Hlen Hnd]. rewrite (bind_eq (gets (fun w => zlen (w_devs w))) _ w' (zlen (w_devs w)) w' ltac:(unfold gets; by rewrite Hw)). cbv zeta.
  pose proof (put_habdev_le d (cd_habdevs c)) as Hle. rewrite Hlen in Hle. set (q := put_habdev d (cd_habdevs c)) in *.
  destruct (Z.leb_spec (zlen (w_devs w)) (Z.of_nat q.2)) as [Hbad|_]; [unfold HABCFG_MMID_NUM in *; lia|].
  eexists 0, _, w'. split; [reflexivity|]. split; [done|]. cbn [Z.eqb]. split.
  - exists (set_cd_habdevs q.1 c). unfold with_cdev. cbn [g_cdevs set_g_cdevs]. rewrite insert_insert_eq. split; [by destruct s|].
    intros j cj. cbn [g_cdevs set_g_cdevs]. rewrite lookup_insert_Some. intros [[<- <-]|[_ Hj]]; [|by apply (Hok j)].
    cbn [cd_habdevs set_cd_habdevs]. split; [unfold q; by rewrite put_habdev_len|]. apply put_habdev_in. right.
    intros Hnil. by rewrite Hnil in Hlen.
  - intros _ s2 H2. unfold with_cdev in H2. cbn [g_cdevs set_g_cdevs] in H2. rewrite lookup_insert_eq in H2.
    unfold del_hab_device_from_cdev. rewrite Hi. cbn [res_bind]. rewrite H2. cbn [cd_habdevs set_cd_habdevs]. cbv zeta.
    unfold q. rewrite clear_put by done. destruct Hc as [Hc|[Hc Hcr]].
    + destruct (Hok i c Hc) as (_ & e & He). rewrite (some_not_free _ e He). rewrite Hc. do 3 f_equal. by destruct c.
    + rewrite Hcr. rewrite Hc. reflexivity.
Qed.

Lemma undo_with s i c : set_g_cdevs (partial_alter (fun _ => g_cdevs s !! i) i (g_cdevs (with_cdev s i c))) (with_cdev s i c) = s.
Proof.
  unfold with_cdev. cbn [g_cdevs set_g_cdevs]. destruct s as [m cs l ds]. unfold set_g_cdevs. cbn.
  f_equal. apply map_eq. intros j. destruct (decide (j = i)) as [->|]; [by rewrite lookup_partial_alter_eq|by rewrite lookup_partial_alter_ne, lookup_insert_ne].
Qed.

Lemma cdev_index_ok domain vmid : 0 <= domain <= 16 -> 0 <= vmid < HABCFG_VMID_MAX ->
  cdev_index domain vmid = Ok (17 * vmid + domain).
Proof.
  unfold cdev_index, HABCFG_VMID_MAX, HABCFG_MMID_AREA_MAX. intros Hd Hv. cbv zeta.
  change (16 + 1) with 17. rewrite (proj2 (Z.leb_le 0 (17 * vmid + domain))), (proj2 (Z.ltb_lt (17 * vmid + domain) (17 * 16))) by lia. done.
Qed.

(** C20: Entering a device in the tables either fails and leaves them as they were, or it
    succeeds and removing the device again leaves them as they were: the character
    devices that were made for it go, and no other device's entry is touched. *)
Theorem vhost_cdev_roundtrip d dv vmid s w :
  w_devs w !! d = Some dv -> MM_AUD_START <= dv_id dv <= MM_ID_MAX -> 0 <= vmid < HABCFG_VMID_MAX ->
  HABCFG_MMID_NUM < zlen (w_devs w) -> cdevs_ok s -> unlisted d s ->
  exists e s' w', vhost_hab_cdev_add_hab_device cdev_add device_create d vmid s w = Ok ((e, s'), w') /\ cdevs_ok s' /\
    if e =? 0 then forall w2, w_devs w2 = w_devs w -> vhost_hab_cdev_del_hab_device d vmid s' w2 = Ok (s, w2) else s' = s.
Proof.
  intros Hdv Hid Hvm Hn Hok Hun. unfold MM_AUD_START, MM_ID_MAX in Hid.
  assert (Hg : 1 <= dv_id dv / 100 <= 16) by (split; [apply Z.div_le_lower_bound; lia|apply Z.lt_succ_r, Z.div_lt_upper_bound; lia]).
  set (b := 17 * vmid + dv_id dv / 100). pose proof (cdev_index_ok 0 vmid ltac:(lia) Hvm) as Hia.
  pose proof (cdev_index_ok (dv_id dv / 100) vmid ltac:(lia) Hvm) as Hib. fold b in Hib.
  destruct (add_del_one HAB_MMID_ALL_AREA d vmid s w _ Hia ltac:(by split) Hok ltac:(by intros c Hc; eapply Hun) Hn) as (e & s1 & w1 & He & Hw1 & Hs1 & Hdel1).
  unfold vhost_hab_cdev_add_hab_device. rewrite (bind_eq _ _ _ _ _ He). destruct (Z.eqb_spec e 0) as [->|Hne]; cbn [negb].
  2: { exists e, s1, w1. subst s1. split; [done|]. split; [done|]. by rewrite (proj2 (Z.eqb_neq e 0) Hne). }
  destruct Hs1 as (c1 & -> & Hok1). specialize (Hdel1 eq_refl).
  rewrite (bind_eq (get_d d) _ w1 dv w1 ltac:(unfold get_d; by rewrite Hw1, Hdv)).
  assert (Hun1 : forall c, g_cdevs (with_cdev s (17 * vmid + 0) c1) !! b = Some c -> Some d ∉ cd_habdevs c).
  { intros c. unfold with_cdev. cbn [g_cdevs set_g_cdevs]. rewrite lookup_insert_ne by (unfold b; lia). apply Hun. }
  destruct (add_del_one (dv_id dv) d vmid (with_cdev s (17 * vmid + 0) c1) w1 b Hib ltac:(lia) Hok1 Hun1 ltac:(by rewrite Hw1))
    as (e2 & s2 & w2 & He2 & Hw2 & Hs2 & Hdel2).
  rewrite (bind_eq _ _ _ _ _ He2). destruct (Z.eqb_spec e2 0) as [->|Hne]; cbn [negb].
  - destruct Hs2 as (c2 & -> & Hok2). specialize (Hdel2 eq_refl). eexists 0, _, w2. split; [reflexivity|]. split; [done|]. cbn [Z.eqb].
    intros w3 Hw3. unfold vhost_hab_cdev_del_hab_device. rewrite (bind_eq (get_d d) _ w3 dv w3 ltac:(unfold get_d; by rewrite Hw3, Hdv)).
    rewrite (bind_eq _ _ _ _ _ (lift_eq _ _ w3 (Hdel2 _ eq_refl))). rewrite undo_with. apply lift_eq. rewrite (Hdel1 _ eq_refl). by rewrite undo_with.
  - subst s2. eexists e2, s, w2. split.
    + rewrite (bind_eq _ _ _ _ _ (lift_eq _ _ w2 (Hdel1 _ eq_refl))). by rewrite undo_with.
    + split; [done|]. by rewrite (proj2 (Z.eqb_neq e2 0) Hne).
Qed.

(** A device for which there is no slot is not entered, and nobody is told. *)
Lemma add_hab_device_full mmid d vmid s w i c :
  cdev_index (mmid / 100) vmid = Ok i -> g_cdevs s !! i = Some c -> length (cd_habdevs c) = Z.to_nat HABCFG_MMID_NUM ->
  Forall (fun o => no_habdev o = false) (cd_habdevs c) -> HABCFG_MMID_NUM < zlen (w_devs w) ->
  add_hab_device_to_cdev cdev_add device_create mmid d vmid s w = Ok ((0, s), w).
Proof.
  intros Hi Hc Hlen Hfull Hn. unfold add_hab_device_to_cdev, get_cdev.
  assert (Hput : put_habdev d (cd_habdevs c) = (cd_habdevs c, length (cd_habdevs c))).
  { clear -Hfull. induction Hfull as [|[e|] l ? _ IH]; [done| |done]. cbn [put_habdev]. by rewrite IH. }
  unfold bind at 1. unfold bind at 1, lift at 1. rewrite Hi. cbv beta iota. rewrite Hc. unfold ret at 1. cbv beta iota.
  rewrite (bind_eq _ _ _ _ _ (lift_eq (of_opt UseAfterFree (g_cdevs s !! i)) c w ltac:(by rewrite Hc))).
  rewrite (bind_eq (gets (fun w => zlen (w_devs w))) _ w (zlen (w_devs w)) w eq_refl). cbv zeta. rewrite Hput. cbn [fst snd].
  rewrite Hlen. rewrite (proj2 (Z.leb_gt (zlen (w_devs w)) (Z.of_nat (Z.to_nat HABCFG_MMID_NUM)))) by (unfold HABCFG_MMID_NUM in *; lia).
  unfold ret. do 3 f_equal. destruct c as [n dm vm hd]. cbn [set_cd_habdevs cd_habdevs]. rewrite insert_id by done. by destruct s.
Qed.
End cdevs.

(** ** An open device *)

(** The devices of a character device, up to the first empty slot. *)
Fixpoint named (habdevs : list (option nat)) : list nat :=
  match habdevs with Some d :: l => d :: named l | _ => [] end.

Section open.
Context {VQ D : Type} `{VhostQueue VQ} `{!VhostDevice VQ D} `{Platform (vhost_link VQ)} `{KernelIdr}.
Implicit Types (s : vhost_hab D) (w : world (vhost_link VQ)) (vh : vhost_hab_pchannel VQ).

(** The channel [p] and the transport's part of it. *)
Definition chan_of w p vh pc : Prop := (exists vl, w_hyp w !! p = Some vl /\ vl_hyp vl = Some vh) /\ w_pchans w !! p = Some pc.
Definition known w p : Prop := exists vh pc, chan_of w p vh pc.
(** It is one of the device [d] to the VM. *)
Definition fits w vmid d p : Prop := exists vh pc, chan_of w p vh pc /\ vh_habdev vh = d /\ pc_dom_id pc = vmid.

Lemma get_vh_eq w p vh pc : chan_of w p vh pc -> vh_of p w = Ok (vh, w).
Proof. intros [(vl & Hl & Hv) _]. unfold vh_of, get_vl, bind. by rewrite Hl, Hv. Qed.

Lemma chan_of_inj w p vh pc vh' pc' : chan_of w p vh pc -> chan_of w p vh' pc' -> vh' = vh /\ pc' = pc.
Proof. intros [(vl & E1 & E2) E3] [(vl' & E1' & E2') E3']. split; congruence. Qed.

Lemma find_vh_pchan_ok w d vmid l : Forall (known w) l ->
  exists o, find_vh_pchan d vmid l w = Ok (o, w) /\
    match o with Some p => p ∈ l /\ fits w vmid d p | None => forall p, p ∈ l -> ~ fits w vmid d p end.
Proof.
  induction 1 as [|p l (vh & pc & Hc) _ IH]; [exists None; split; [done|]; by intros p ?%elem_of_nil|]. cbn [find_vh_pchan].
  rewrite (bind_eq _ _ _ _ _ (get_vh_eq w p vh pc Hc)). destruct IH as (o & Ho & Hspec).
  assert (Hskip : ~ fits w vmid d p -> match o with Some q => q ∈ p :: l /\ fits w vmid d q | None => forall q, q ∈ p :: l -> ~ fits w vmid d q end).
  { intros Hn. destruct o as [q|]; [destruct Hspec; split; [by right|done]|]. intros q [->|Hq]%elem_of_cons; auto. }
  assert (Hone : forall Hf : fits w vmid d p, vh_habdev vh = d /\ pc_dom_id pc = vmid).
  { intros (vh' & pc' & Hc' & E1 & E2). destruct (chan_of_inj _ _ _ _ _ _ Hc Hc') as [-> ->]. done. }
  destruct (decide (vh_habdev vh = d)) as [He|Hne].
  - rewrite (bind_eq (get_p p) _ w pc w ltac:(unfold get_p; by rewrite (proj2 Hc))).
    destruct (Z.eqb_spec (pc_dom_id pc) vmid) as [Hv|Hv].
    + exists (Some p). split; [done|]. split; [by left|]. by exists vh, pc.
    + exists o. split; [done|]. apply Hskip. intros Hf. by destruct (Hone Hf).
  - exists o. split; [done|]. apply Hskip. intros Hf. by destruct (Hone Hf).
Qed.

Lemma list_del_perm (p : nat) l : NoDup l -> p ∈ l -> l ≡ₚ p :: list_del p l.
Proof.
  intros Hnd Hin. apply NoDup_Permutation; [done| |].
  - apply list.NoDup_cons. split; [by intros [? []]%elem_of_list_del|by apply NoDup_list_del].
  - intros q. rewrite elem_of_cons, elem_of_list_del. destruct (decide (q = p)) as [->|]; [by split; [by left|]|tauto].
Qed.

Lemma take_pchans_ok w vmid habdevs : forall free mine, NoDup free -> Forall (known w) free ->
  exists e free' got, take_pchans vmid habdevs free mine w = Ok ((e, free', mine ++ got), w) /\ free' ++ got ≡ₚ free /\
    if e =? 0 then Forall2 (fits w vmid) (named habdevs) got
    else e = - ENODEV /\ exists l1 d l2, named habdevs = l1 ++ d :: l2 /\ Forall2 (fits w vmid) l1 got /\ forall p, p ∈ free' -> ~ fits w vmid d p.
Proof.
  induction habdevs as [|[d|] habdevs IH]; intros free mine Hnd Hk; cbn [take_pchans named].
  1,3: exists 0, free, []; rewrite !app_nil_r; split; [done|]; split; [done|constructor].
  destruct (find_vh_pchan_ok w d vmid free Hk) as (o & Ho & Hspec). rewrite (bind_eq _ _ _ _ _ Ho). destruct o as [p|].
  - destruct Hspec as [Hin Hfit]. pose proof (list_del_perm p free Hnd Hin) as Hperm.
    assert (Hk' : Forall (known w) (list_del p free)) by (rewrite Hperm in Hk; by apply list.Forall_cons in Hk as [_ ?]).
    destruct (IH (list_del p free) (mine ++ [p]) (NoDup_list_del _ _ Hnd) Hk') as (e & free' & got & -> & Hp & Hs).
    exists e, free', (p :: got). rewrite <- app_assoc. split; [done|]. split; [by rewrite <- Permutation_middle, Hp|].
    destruct (e =? 0); [by constructor|]. destruct Hs as (-> & l1 & d' & l2 & Hn & Hf & Hno). split; [done|].
    exists (d :: l1), d', l2. rewrite Hn. split; [done|]. split; [by constructor|done].
  - exists (- ENODEV), free, []. rewrite !app_nil_r. split; [done|]. split; [done|]. cbn. split; [done|].
    exists [], d, (named habdevs). split; [done|]. split; [constructor|done].
Qed.

(** The update of the transport's part of some channels. *)
Lemma upd_all_ok (g : vhost_hab_pchannel VQ -> vhost_hab_pchannel VQ) l : forall w, Forall (known w) l ->
  exists w', for_each (fun p => upd_vh p g) l w = Ok (tt, w') /\ w_pchans w' = w_pchans w /\ w_alloc w' = w_alloc w /\ w_devs w' = w_devs w /\
    (forall p vh pc, p ∉ l -> chan_of w p vh pc -> chan_of w' p vh pc) /\
    (forall p vh pc, NoDup l -> p ∈ l -> chan_of w p vh pc -> chan_of w' p (g vh) pc).
Proof.
  induction l as [|q l IH]; intros w Hk; cbn [for_each].
  { exists w. do 5 (split; [done|]). by intros p vh pc _ ?%elem_of_nil. }
  apply list.Forall_cons in Hk as [(vq & pcq & Hq) Hk]. pose proof Hq as [(vl & Hl & Hv) Hp].
  assert (Hup : upd_vh q g w = Ok (tt, set_w_hyp (<[q := set_vl_hyp (Some (g vq)) vl]> (w_hyp w)) w)).
  { unfold upd_vh. rewrite (bind_eq _ _ _ _ _ (get_vh_eq w q vq pcq Hq)). unfold put_vh, get_vl, put_vl, bind, modify. by rewrite Hl. }
  rewrite (bind_eq _ _ _ _ _ Hup). set (w1 := set_w_hyp _ w).
  assert (Hother : forall p vh pc, p <> q -> chan_of w p vh pc -> chan_of w1 p vh pc).
  { intros p vh pc Hne [(vl' & ? & ?) ?]. split; [|done]. exists vl'. split; [|done]. unfold w1. cbn. by rewrite lookup_insert_ne by done. }
  assert (Hself : chan_of w1 q (g vq) pcq).
  { split; [|done]. eexists. split; [apply lookup_insert_eq|done]. }
  assert (Hk1 : Forall (known w1) l).
  { eapply list.Forall_impl; [exact Hk|]. intros p (vh & pc & Hc). destruct (decide (p = q)) as [->|].
    - by exists (g vq), pcq.
    - exists vh, pc. by apply Hother. }
  destruct (IH w1 Hk1) as (w' & -> & Hps & Has & Hds & Hn & Hy). exists w'. do 4 (split; [done|]). split.
  - intros p vh pc [Hne Hnl]%not_elem_of_cons Hc. apply Hn; [done|]. by apply Hother.
  - intros p vh pc [Hnq Hnd]%list.NoDup_cons [->|Hin]%elem_of_cons Hc.
    + destruct (chan_of_inj _ _ _ _ _ _ Hq Hc) as [-> ->]. by apply Hn.
    + apply Hy; [done|done|]. apply Hother; [|done]. by intros ->.
Qed.


(** *** Release *)

Definition stopped w p : Prop := exists vh pc, chan_of w p vh pc /\ vh_tx_on vh = false /\ vh_rx_on vh = false.

(** A work that is still queued for a stopped channel does nothing. *)
Lemma run_work_stopped w p fuel garbage k : stopped w p -> run_work fuel garbage k p w = Ok (tt, w).
Proof.
  intros (vh & pc & Hc & Htx & Hrx). pose proof Hc as [(vl & Hl & Hv) Hp].
  assert (Ht : tx_worker fuel garbage p w = Ok (tt, w)).
  { unfold tx_worker. rewrite (bind_eq _ _ _ _ _ (get_vh_eq w p vh pc Hc)). by rewrite Htx. }
  assert (Hr : rx_worker fuel p w = Ok (tt, w)).
  { unfold rx_worker. rewrite (bind_eq (get_vl p) _ w vl w ltac:(unfold get_vl; by rewrite Hl)).
    rewrite (bind_eq _ _ _ _ _ (get_vh_eq w p vh pc Hc)). rewrite (bind_eq (get_p p) _ w pc w ltac:(unfold get_p; by rewrite Hp)).
    assert (Hturn : rx_turn fuel (vl_now vl) (pc_sequence_tx pc) vh = Ok (pc_sequence_tx pc, vh)) by (unfold rx_turn; by rewrite Hrx).
    rewrite (bind_eq _ _ _ _ _ (lift_eq _ _ w Hturn)). cbn [fst snd].
    assert (Hup : upd_p p (set_pc_sequence_tx (pc_sequence_tx pc)) w = Ok (tt, w)).
    { unfold upd_p. rewrite Hp. replace (set_pc_sequence_tx (pc_sequence_tx pc) pc) with pc by (by destruct pc).
      rewrite insert_id by done. by destruct w. }
    rewrite (bind_eq _ _ _ _ _ Hup). unfold put_vh, get_vl, put_vl, bind, modify. rewrite Hl.
    replace (set_vl_hyp (Some vh) vl) with vl by (rewrite <- Hv; by destruct vl). rewrite insert_id by done. by destruct w. }
  by destruct k.
Qed.

(** The last reference to a channel is dropped. *)
Lemma put_last w p pc : w_pchans w !! p = Some pc -> pc_refcount pc = 1 -> pc_vchannels pc = [] -> is_Some (w_devs w !! pc_habdev pc) ->
  exists w', hab_pchan_put p w = Ok (tt, w') /\ w_pchans w' = delete p (w_pchans w) /\ w_hyp w' = w_hyp w /\ w_alloc w' = w_alloc w /\
    (forall d, is_Some (w_devs w !! d) -> is_Some (w_devs w' !! d)).
Proof.
  intros Hp Hr Hv [dv Hd]. unfold hab_pchan_put. rewrite (bind_eq (get_p p) _ w pc w ltac:(unfold get_p; by rewrite Hp)).
  rewrite Hr. cbn [Z.leb Z.compare]. unfold upd_p. unfold bind at 1. rewrite Hp. change (1 =? 1) with true. cbn [when]. unfold hab_pchan_free.
  set (pc2 := set_pc_refcount _ pc). set (w2 := set_w_pchans _ _).
  rewrite (bind_eq (get_p p) _ w2 pc2 w2 ltac:(unfold get_p, w2; cbn [w_pchans set_w_pchans]; by rewrite lookup_insert_eq)).
  change (pc_habdev pc2) with (pc_habdev pc). change (pc_vchannels pc2) with (pc_vchannels pc). rewrite Hv. unfold upd_d. unfold bind at 1.
  change (w_devs w2) with (w_devs w). rewrite Hd. cbn [for_each]. unfold bind, ret, modify. eexists. split; [reflexivity|].
  cbn [w_pchans set_w_pchans w_hyp w_alloc w_devs set_w_devs w2]. split; [by rewrite delete_insert_eq|]. do 2 (split; [done|]).
  intros d [x Hx]. destruct (decide (d = pc_habdev pc)) as [->|].
  - eexists. apply list_lookup_insert_eq. by eapply lookup_lt_Some.
  - exists x. by rewrite list_lookup_insert_ne by congruence.
Qed.

Lemma give_back_last w p pc : w_pchans w !! p = Some pc -> pc_refcount pc = 1 -> pc_vchannels pc = [] -> is_Some (w_devs w !! pc_habdev pc) ->
  exists w', give_back p w = Ok (tt, w') /\ w_pchans w' = delete p (w_pchans w) /\ w_hyp w' = w_hyp w /\ w_alloc w' = w_alloc w /\
    (forall d, is_Some (w_devs w !! d) -> is_Some (w_devs w' !! d)).
Proof.
  intros Hp Hr Hv Hd. unfold give_back, upd_p. unfold bind at 1. rewrite Hp. set (pc1 := set_pc_sequence_tx 0 (set_pc_sequence_rx 0 pc)).
  set (w1 := set_w_pchans _ w). destruct (put_last w1 p pc1 (lookup_insert_eq _ _ _) Hr Hv Hd) as (w' & He & P & F1 & F2 & F3).
  exists w'. split; [done|]. split; [|done]. rewrite P. apply delete_insert_eq.
Qed.

(** The channel is not referred to by anybody. *)
Definition idle_chan w p : Prop := exists pc, w_pchans w !! p = Some pc /\ pc_refcount pc = 1 /\ pc_vchannels pc = [] /\ is_Some (w_devs w !! pc_habdev pc).

Lemma give_back_all l : forall w, NoDup l -> Forall (idle_chan w) l ->
  exists w', for_each give_back l w = Ok (tt, w') /\ w_hyp w' = w_hyp w /\ w_alloc w' = w_alloc w /\
    forall p, w_pchans w' !! p = if decide (p ∈ l) then None else w_pchans w !! p.
Proof.
  induction l as [|q l IH]; intros w Hnd Hl; cbn [for_each].
  { exists w. do 3 (split; [done|]). intros p. rewrite decide_False; [done|]. apply not_elem_of_nil. }
  apply list.NoDup_cons in Hnd as [Hq Hnd]. apply list.Forall_cons in Hl as [(pc & Hp & Hr & Hv & Hd) Hl].
  destruct (give_back_last w q pc Hp Hr Hv Hd) as (w1 & E1 & P1 & P2 & P3 & P4). rewrite (bind_eq _ _ _ _ _ E1).
  destruct (IH w1 Hnd) as (w' & E2 & Q1 & Q2 & Q3).
  { rewrite list.Forall_forall in Hl |- *. intros p Hin. destruct (Hl p Hin) as (pc' & ? & ? & ? & ?). exists pc'. rewrite P1, lookup_delete_ne by congruence.
    split_and!; auto. }
  exists w'. split; [done|]. split; [congruence|]. split; [congruence|]. intros p. rewrite Q3, P1.
  destruct (decide (p ∈ l)) as [Hin|Hn]; [rewrite decide_True by (by right); done|].
  destruct (decide (p = q)) as [->|Hne]; [rewrite decide_True by (by left); by rewrite lookup_delete_eq|].
  rewrite decide_False by (rewrite elem_of_cons; tauto). by rewrite lookup_delete_ne by done.
Qed.

Context (queued : list nat -> list (vhost_work * nat)) (fuel : nat) (garbage : bytes).

Lemma flush_stopped w l : Forall (stopped w) l -> Forall (fun k => k.2 ∈ l) (queued l) ->
  vhost_dev_flush queued fuel garbage l w = Ok (tt, w).
Proof.
  intros Hl Hq. unfold vhost_dev_flush. induction Hq as [|k q Hk _ IH]; [done|]. cbn [for_each].
  rewrite list.Forall_forall in Hl. rewrite (bind_eq _ _ _ _ _ (run_work_stopped w (k.2) fuel garbage (k.1) (Hl _ Hk))). apply IH.
Qed.

(** C40: A release drops a reference to each channel that nobody has taken.  When no
    virtual channel is left, that is the last one: the channels are freed and are on the
    list of free channels nevertheless, and the next opening of the device reads one of
    them. *)
Theorem vhost_release_dangles f u s w c d l :
  g_devs s !! f = Some u -> NoDup (vu_pchans u) -> Forall (known w) (vu_pchans u) -> Forall (idle_chan w) (vu_pchans u) ->
  Forall (fun k => k.2 ∈ vu_pchans u) (queued (vu_pchans u)) -> (forall x, w_alloc w <> false :: x) ->
  g_cdevs s !! vu_cdev u = Some c -> cd_habdevs c = Some d :: l -> g_list s = [] ->
  (forall p, head (vu_pchans u) = Some p -> exists vh pc, chan_of w p vh pc /\ vh_habdev vh = d) -> vu_pchans u <> [] ->
  exists s' w', vhost_hab_release queued fuel garbage f s w = Ok ((0, s'), w') /\ g_list s' = vu_pchans u /\
    (forall p, p ∈ g_list s' -> w_pchans w' !! p = None) /\ vhost_hab_open (vu_cdev u) s' w' = Fault UseAfterFree.
Proof.
  intros Hf Hnd Hk Hidle Hq Hal Hc Hcd Hnil Hhead Hne. unfold vhost_hab_release.
  rewrite (bind_eq _ _ _ _ _ (lift_eq (of_opt UseAfterFree (g_devs s !! f)) u w ltac:(by rewrite Hf))).
  unfold vhost_hab_stop. destruct (upd_all_ok (fun vh => set_vh_rx_on false (set_vh_tx_on false vh)) (vu_pchans u) w Hk)
    as (w1 & E1 & P1 & A1 & D1 & _ & Y1).
  assert (Hstop : (do! for_each stop_vqs (vu_pchans u) in ret (set_vu_started 0 u)) w = Ok (set_vu_started 0 u, w1)) by exact (bind_eq _ _ _ _ _ E1).
  rewrite (bind_eq _ _ _ _ _ Hstop). set (u1 := set_vu_started 0 u). change (vu_pchans u1) with (vu_pchans u).
  assert (Hst1 : Forall (stopped w1) (vu_pchans u)).
  { rewrite list.Forall_forall in Hk |- *. intros p Hp. destruct (Hk p Hp) as (vh & pc & Hx). eexists _, pc. split; [by apply (Y1 p vh pc)|]. done. }
  unfold vhost_hab_flush. change (vu_pchans u1) with (vu_pchans u).
  rewrite (bind_eq _ _ _ _ _ (flush_stopped w1 (vu_pchans u) Hst1 Hq)).
  assert (Hk1 : Forall (known w1) (vu_pchans u)).
  { eapply list.Forall_impl; [exact Hst1|]. intros p (vh & pc & Hx & _). by exists vh, pc. }
  set (g := on_vqs _). destruct (upd_all_ok g (vu_pchans u) w1 Hk1) as (w2 & E2 & P2 & A2 & D2 & _ & Y2). rewrite (bind_eq _ _ _ _ _ E2).
  assert (Hst2 : Forall (stopped w2) (vu_pchans u)).
  { rewrite list.Forall_forall in Hst1 |- *. intros p Hp. destruct (Hst1 p Hp) as (vh & pc & Hx & ? & ?). eexists _, pc.
    split; [by apply (Y2 p vh pc)|]. done. }
  rewrite (bind_eq _ _ _ _ _ (flush_stopped w2 (vu_pchans u) Hst2 Hq)).
  assert (Hi2 : Forall (idle_chan w2) (vu_pchans u)).
  { eapply list.Forall_impl; [exact Hidle|]. intros p (pc & Hx). exists pc. by rewrite P2, P1, D2, D1. }
  destruct (give_back_all (vu_pchans u) w2 Hnd Hi2) as (w3 & E3 & H3 & A3 & Hgone). rewrite (bind_eq _ _ _ _ _ E3).
  eexists _, w3. split; [reflexivity|]. rewrite Hnil. cbn [app g_list set_g_list].
  split; [done|]. split. { intros p Hp. rewrite Hgone. by rewrite decide_True. }
  unfold vhost_hab_open. cbn [g_cdevs set_g_list set_g_devs g_list].
  rewrite (bind_eq _ _ _ _ _ (lift_eq (of_opt UseAfterFree (g_cdevs s !! vu_cdev u)) c w3 ltac:(by rewrite Hc))).
  destruct (kalloc_plenty w3) as (a & w4 & E4 & H4 & P4); [intros x; rewrite A3, A2, A1; apply Hal|].
  rewrite (bind_eq _ _ _ _ _ E4). rewrite Hcd. cbn [take_pchans]. destruct (vu_pchans u) as [|p ps] eqn:Hps; [done|].
  destruct (Hhead p eq_refl) as (vh & pc & Hx & Hd). pose proof (Y1 p vh pc Hnd ltac:(by left) Hx) as Hx1.
  destruct (Y2 p _ pc Hnd ltac:(by left) Hx1) as [(vl & Hl & Hv) _].
  cbn [find_vh_pchan]. unfold bind at 1. unfold bind at 1. unfold bind at 1. unfold vh_of at 1, bind at 1, get_vl at 1.
  rewrite H4, H3, Hl, Hv. unfold ret at 1. cbv beta iota. rewrite decide_True by done. unfold bind at 1, get_p at 1.
  rewrite P4, Hgone. by rewrite decide_True by (by left).
Qed.

(** *** Starting *)

Definition running w p : Prop := exists vh pc, chan_of w p vh pc /\ vh_tx_on vh = true /\ vh_rx_on vh = true.

Lemma start_vq_ok on (q : VQ) r k : exists on' q' r' k', start_vq (D := D) on q r k = (on', q', r', k') /\ k <= k' /\ (k' = k <-> on' = true).
Proof.
  unfold start_vq. destruct on; [exists true, q, r, k; split_and!; try done; lia|].
  destruct (vhost_vq_init_access (D := D) q) as [r' q']. destruct (r' =? 0); cbn [negb]; eexists _, _, _, _; (split; [reflexivity|]); (split; [lia|]); [done|].
  split; [lia|done].
Qed.

Lemma put_vh_ok w p vh pc vh' : chan_of w p vh pc ->
  exists w', put_vh p vh' w = Ok (tt, w') /\ w_pchans w' = w_pchans w /\ chan_of w' p vh' pc /\
    forall q x y, q <> p -> chan_of w' q x y <-> chan_of w q x y.
Proof.
  intros [(vl & Hl & Hv) Hp]. unfold put_vh, get_vl, put_vl, bind, modify. rewrite Hl. eexists. split; [reflexivity|]. split; [done|]. split.
  - split; [|done]. eexists. split; [apply lookup_insert_eq|done].
  - intros q x y Hne. unfold chan_of. cbn [w_hyp set_w_hyp w_pchans]. by rewrite lookup_insert_ne by done.
Qed.

Lemma start_pchans_ok l : forall r k w, NoDup l -> Forall (known w) l ->
  exists r' k' w', start_pchans (D := D) l r k w = Ok ((r', k'), w') /\ k <= k' /\ (k' = k <-> Forall (running w') l) /\ Forall (known w') l /\
    (forall q x y, q ∉ l -> chan_of w' q x y <-> chan_of w q x y).
Proof.
  induction l as [|p l IH]; intros r k w Hnd Hk; cbn [start_pchans].
  { exists r, k, w. split_and!; try done; lia. }
  apply list.NoDup_cons in Hnd as [Hp Hnd]. apply list.Forall_cons in Hk as [(vh & pc & Hc) Hk].
  rewrite (bind_eq _ _ _ _ _ (get_vh_eq w p vh pc Hc)).
  destruct (start_vq_ok (vh_tx_on vh) (vh_tx vh) r k) as (on1 & q1 & r1 & k1 & E1 & L1 & I1). rewrite E1.
  destruct (start_vq_ok (vh_rx_on vh) (vh_rx vh) r1 k1) as (on2 & q2 & r2 & k2 & E2 & L2 & I2). rewrite E2.
  set (vh' := set_vh_rx_on _ _). destruct (put_vh_ok w p vh pc vh' Hc) as (w1 & Ew & Hp1 & Hc1 & Ho1). rewrite (bind_eq _ _ _ _ _ Ew).
  destruct (IH r2 k2 w1 Hnd) as (r' & k' & w' & E & L & I & Hk' & Ho).
  { rewrite list.Forall_forall in Hk |- *. intros q Hq. destruct (Hk q Hq) as (x & y & Hx). exists x, y. apply Ho1; [by intros ->|done]. }
  exists r', k', w'. split; [done|]. split; [lia|].
  assert (Hcp : chan_of w' p vh' pc) by (by apply Ho).
  assert (Hrun : running w' p <-> on1 = true /\ on2 = true).
  { split; [|intros [-> ->]; by exists vh', pc]. intros (x & y & Hx & Htx & Hrx). destruct (chan_of_inj _ _ _ _ _ _ Hcp Hx) as [-> ->]. done. }
  split; [|split; [constructor; [by exists vh', pc|done]|]].
  - rewrite list.Forall_cons, Hrun, <- I, <- I1, <- I2. lia.
  - intros q x y [Hne Hnl]%not_elem_of_cons. rewrite Ho by done. by apply Ho1.
Qed.

Lemma dev_vqs_ok w l : Forall (known w) l -> exists qs, dev_vqs l w = Ok (qs, w).
Proof.
  induction 1 as [|p l (vh & pc & Hc) _ [qs IH]]; cbn [dev_vqs]; [by eexists|].
  rewrite (bind_eq _ _ _ _ _ (get_vh_eq w p vh pc Hc)), (bind_eq _ _ _ _ _ IH). by eexists.
Qed.

(** C22: A device that was not started counts as started after an attempt to start it only
    when every queue of every of its channels is started; otherwise it is as it was, and
    either the attempt was refused before any queue was touched or some queue is not
    started yet. *)
Theorem vhost_hab_run_starts (u : vhost_hab_dev D) w :
  vu_started u = 0 -> NoDup (vu_pchans u) -> Forall (known w) (vu_pchans u) ->
  exists r u' w', vhost_hab_run u 1 w = Ok ((r, u'), w') /\
    (u' = set_vu_started 1 u /\ r = 0 /\ Forall (running w') (vu_pchans u) \/
     u' = u /\ (w' = w /\ r <> 0 \/ ~ Forall (running w') (vu_pchans u))).
Proof.
  intros Hst Hnd Hk. unfold vhost_hab_run. rewrite Hst. change ((1 <? 0) || (1 <? 1)) with false. change (0 =? 1) with false. cbv beta iota zeta.
  destruct (Z.eqb_spec (vhost_dev_check_owner (VQ := VQ) (vu_dev u)) 0) as [_|Hne]; cbn [negb].
  2: { eexists _, u, w. split; [reflexivity|]. right. split; [done|]. by left. }
  destruct (dev_vqs_ok w (vu_pchans u) Hk) as [qs Hq]. rewrite (bind_eq _ _ _ _ _ Hq).
  destruct (forallb _ qs); cbn [negb]; [|by eexists _, u, w; split; [reflexivity|]; right; split; [done|]; left].
  destruct (start_pchans_ok (vu_pchans u) 0 0 w Hnd Hk) as (r & k & w1 & Es & L & I & Hk1 & _). rewrite (bind_eq _ _ _ _ _ Es).
  destruct (Z.eqb_spec k 0) as [->|Hne].
  - pose proof (proj1 I eq_refl) as Hrun. destruct (upd_all_ok (on_vqs (vhost_poll_queue (D := D))) (vu_pchans u) w1 Hk1) as (w2 & E2 & _ & _ & _ & _ & Hin).
    rewrite (bind_eq _ _ _ _ _ E2). eexists 0, _, w2. split; [reflexivity|]. left. split; [done|]. split; [done|].
    rewrite list.Forall_forall in Hrun |- *. intros p Hp. destruct (Hrun p Hp) as (x & y & Hx & ? & ?). eexists _, y.
    split; [exact (Hin p x y Hnd Hp Hx)|]. done.
  - exists r, u, w1. split; [done|]. right. split; [done|]. right. intros Hall. by apply Hne, I.
Qed.

(** *** What goes wrong *)

(** The report of a channel that no device has been opened for takes on the memory of a
    device that is not there. *)
Lemma stat_before_open s w p vh pc print l : chan_of w p vh pc -> vh_dev vh = None -> vhost_stat_log print s (p :: l) w = Fault NullDeref.
Proof.
  intros [(vl & Hl & Hv) _] Hd. unfold vhost_stat_log. cbn [stat_worker]. unfold bind at 1. unfold bind at 1, get_vl at 1.
  rewrite Hl, Hv. unfold bind at 1. by rewrite Hd.
Qed.

Context (cdev_add : Z -> Z) (device_create : string -> bool) (fresh : VQ) (allocs : list bool).

(** Without memory for the transport's part the reference to the new channel is dropped
    twice. *)
Lemma commdev_alloc_puts_twice s w vmid d dv l :
  w_devs w !! d = Some dv -> w_pchans w !! w_next w = None -> w_alloc w = true :: false :: l ->
  vhost_commdev_alloc cdev_add device_create fresh allocs vmid d s w = Fault UseAfterFree.
Proof.
  intros Hd Hp Ha. unfold vhost_commdev_alloc. rewrite (bind_eq (gets w_now) _ w (w_now w) w eq_refl). unfold hab_pchan_alloc.
  set (p := w_next w). set (w1 := set_w_next (S p) (set_w_alloc (false :: l) w)).
  rewrite (bind_assoc_eq kalloc _ _ w (Some p) w1 ltac:(unfold kalloc; by rewrite Ha)).
  set (pc := Build_physical_channel _ _ _ _ _ _ _ _ _ _ _ _ _ _ _ _). set (w2 := set_w_hyp (<[p := Build_vhost_link None allocs (w_now w)]> (w_hyp w1)) (set_w_pchans (<[p := pc]> (w_pchans w1)) w1)).
  rewrite (bind_assoc_eq (modify _) _ _ w1 tt w2 eq_refl).
  assert (Hu : exists w3, upd_d d (fun d0 => set_dv_pchan_cnt (dv_pchan_cnt d0 + 1) (set_dv_pchannels (dv_pchannels d0 ++ [p]) d0)) w2 = Ok (tt, w3) /\
    is_Some (w_devs w3 !! d) /\ w_pchans w3 = <[p := pc]> (w_pchans w) /\ w_alloc w3 = false :: l).
  { unfold upd_d. change (w_devs w2) with (w_devs w). rewrite Hd. eexists. split; [reflexivity|]. split; [|done].
    eexists. apply list_lookup_insert_eq. by eapply lookup_lt_Some. }
  destruct Hu as (w3 & E3 & Hd3 & P3 & A3). rewrite (bind_assoc_eq _ _ _ w2 tt w3 E3). unfold bind at 1, ret at 1.
  set (g := fun _ => _). set (w4 := set_w_pchans (<[p := g pc]> (w_pchans w3)) w3).
  rewrite (bind_eq (upd_p p g) _ w3 tt w4 ltac:(unfold upd_p; by rewrite (eq_trans (f_equal (lookup p) P3) (lookup_insert_eq _ _ _)))).
  rewrite (bind_eq kalloc _ w4 None (set_w_alloc l w4) ltac:(unfold kalloc; change (w_alloc w4) with (w_alloc w3); by rewrite A3)).
  set (w5 := set_w_alloc l w4).
  assert (H5 : w_pchans w5 !! p = Some (g pc)) by (apply lookup_insert_eq).
  destruct (put_last w5 p (g pc) H5 eq_refl eq_refl Hd3) as (w6 & E6 & P6 & _). rewrite (bind_eq _ _ _ _ _ E6).
  unfold bind at 1. unfold hab_pchan_put, bind at 1, get_p at 1. rewrite P6. by rewrite lookup_delete_eq.
Qed.
End open.

(** ** A host

    The kernel's part of a device is whether it has an owner. *)
#[export] Instance sample_vhost_device : VhostDevice sample_ring bool := {|
  vhost_dev_init := false;
  vhost_vq_reset := fun q => q;
  vhost_dev_check_owner := fun b => if b then 0 else - EBUSY;
  vhost_dev_has_owner := fun b => b;
  vhost_vq_access_ok := fun _ => true;
  vq_kick := fun _ => true;
  vq_call := fun _ => true;
  vhost_vq_init_access := fun q => (0, q);
  vhost_poll_queue := fun q => vhost_vq_work_queue q;
  vhost_vq_stop := fun q => q;
  vhost_vq_cleanup := fun q => q;
  vhost_log_access_ok := fun _ => true;
  set_acked_features := fun _ q => q;
  vhost_dev_reset_owner := fun _ => false;
  vhost_dev_ioctl := fun b qs ioctl _ => if ioctl =? 1 then (0, true, qs) else (- ENOIOCTLCMD, b, qs);
  vhost_vring_ioctl := fun b qs _ _ => (0, b, qs)
|}.

(** No character device; the audio devices' one, which serves the first device; and an
    open one. *)
Definition no_cdevs : vhost_hab bool := Build_vhost_hab 240 ∅ [] ∅.
Definition aud_cdev : vhost_hab_cdev := Build_vhost_hab_cdev 1 1 0xFF (Some 0%nat :: repeat None 25).
Definition aud_free : vhost_hab bool := Build_vhost_hab 240 {[1 := aud_cdev]} [0%nat] ∅.
Definition aud_dev (started : Z) : vhost_hab_dev bool := Build_vhost_hab_dev true 1 started 0xFF [0%nat].
Definition aud_open : vhost_hab bool := Build_vhost_hab 240 {[1 := aud_cdev]} [] {[90%nat := aud_dev 1]}.

Definition host_idle : world (vhost_link sample_ring) := sample (host_link (ring []) (ring []) []).
(** Nobody uses the channel. *)
Definition host_unused : world (vhost_link sample_ring) :=
  set_w_pchans {[0%nat := set_pc_refcount 1 (set_pc_vchannels [] sample_pchan)]} host_idle.

Lemma host_idle_chan : chan_of host_idle 0 (host_chan (ring []) (ring []) []) sample_pchan.
Proof. split; [|reflexivity]. by exists (host_link (ring []) (ring []) []). Qed.

Lemma aud_entered :
  match vhost_hab_cdev_add_hab_device (fun _ => 0) (fun _ => true) 0 2 no_cdevs host_idle with
  | Ok ((e, s), _) => e = 0 /\ map (fun x => (x.1, cd_dev_no x.2)) (map_to_list (g_cdevs s)) = [(35, 251658275); (34, 251658274)]
  | _ => False
  end.
Proof. vm_compute. by split. Qed.

Lemma vhost_cdev_roundtrip_witness :
  exists s' w', vhost_hab_cdev_add_hab_device (fun _ => 0) (fun _ => true) 0 2 no_cdevs host_idle = Ok ((0, s'), w') /\
    cdevs_ok s' /\ vhost_hab_cdev_del_hab_device 0 2 s' host_idle = Ok (no_cdevs, host_idle).
Proof.
  destruct (w_devs host_idle !! 0%nat) as [dv|] eqn:Hd; [|discriminate Hd].
  assert (Hid : dv_id dv = 101). { assert (E : (dv_id <$> w_devs host_idle !! 0%nat) = Some 101) by reflexivity. rewrite Hd in E. by injection E. }
  destruct (vhost_cdev_roundtrip (fun _ => 0) (fun _ => true) 0 dv 2 no_cdevs host_idle Hd ltac:(rewrite Hid; unfold MM_AUD_START, MM_ID_MAX; lia)
    ltac:(unfold HABCFG_VMID_MAX; lia) ltac:(vm_compute; reflexivity) ltac:(intros i c Hc; discriminate Hc) ltac:(intros i c Hc; discriminate Hc))
    as (e & s' & w' & He & Hok & Hs).
  pose proof aud_entered as Hrun. rewrite He in Hrun. destruct Hrun as [-> _]. exists s', w'. split; [exact He|]. split; [exact Hok|].
  by apply Hs.
Defined.


Lemma vhost_release_dangles_witness :
  exists s' w', vhost_hab_release (fun l => map (fun p => (TxKick, p)) l) 1 [] 90 aud_open host_unused = Ok ((0, s'), w') /\
    g_list s' = [0%nat] /\ w_pchans w' !! 0%nat = None /\ vhost_hab_open 1 s' w' = Fault UseAfterFree.
Proof.
  assert (Hc : chan_of host_unused 0 (host_chan (ring []) (ring []) []) (set_pc_refcount 1 (set_pc_vchannels [] sample_pchan))).
  { split; [|reflexivity]. by exists (host_link (ring []) (ring []) []). }
  destruct (vhost_release_dangles (fun l => map (fun p => (TxKick, p)) l) 1 [] 90 (aud_dev 1) aud_open host_unused aud_cdev 0 (repeat None 25))
    as (s' & w' & He & Hl & Hgone & Ho).
  - apply lookup_insert_eq.
  - apply NoDup_singleton.
  - apply list.Forall_singleton. by eexists _, _.
  - apply list.Forall_singleton. eexists. split; [reflexivity|]. split; [reflexivity|]. split; [reflexivity|]. by eexists.
  - apply list.Forall_singleton. by left.
  - intros x Hx. discriminate Hx.
  - apply lookup_insert_eq.
  - reflexivity.
  - reflexivity.
  - intros p [= <-]. by eexists _, _.
  - discriminate.
  - exists s', w'. split; [exact He|]. split; [exact Hl|]. split; [apply Hgone; rewrite Hl; by left|exact Ho].
Defined.

Lemma aud_starts : match vhost_hab_run (aud_dev 0) 1 host_idle with Ok ((_, u), _) => vu_started u = 1 | _ => False end.
Proof. vm_compute. reflexivity. Qed.

Lemma vhost_hab_run_starts_witness :
  exists w', vhost_hab_run (aud_dev 0) 1 host_idle = Ok ((0, aud_dev 1), w') /\ running w' 0.
Proof.
  destruct (vhost_hab_run_starts (aud_dev 0) host_idle eq_refl ltac:(apply NoDup_singleton)
    ltac:(apply list.Forall_singleton; eexists _, _; exact host_idle_chan)) as (r & u' & w' & He & Hor).
  pose proof aud_starts as Hrun. rewrite He in Hrun. destruct Hor as [(-> & -> & Hall)|(-> & _)]; [|cbn in Hrun; discriminate Hrun].
  exists w'. split; [exact He|]. exact (proj1 (list.Forall_singleton _ _) Hall).
Defined.

(** The walk over the slots of a character device ends at a hole: a device behind one that
    was removed is not opened. *)
Lemma open_stops_at_hole :
  match vhost_hab_open 1 (set_g_cdevs {[1 := set_cd_habdevs [None; Some 0%nat] aud_cdev]} aud_free) host_idle with
  | Ok ((e, Some f, s'), _) => e = 0 /\ (vu_pchans <$> g_devs s' !! f) = Some []
  | _ => False
  end.
Proof. vm_compute. by split. Qed.

(** The code of a start is the one of the last queue: it is 0 although an earlier queue
    did not start. *)
Lemma run_forgets_failures :
  match start_vq (D := bool) true (ring []) (- EFAULT) 1 with (on, _, r, k) => on = true /\ r = - EFAULT /\ k = 1 end /\
  match start_vq (D := bool) false (ring []) (- EFAULT) 1 with (on, _, r, k) => on = true /\ r = 0 /\ k = 1 end.
Proof. vm_compute. by split_and!. Qed.
