(* ===== verification/Stat.v ===== *)
(** The reports of the driver (hab_stat.c): what is printed about channels, contexts,
    exports and imports into a buffer of a page, and the dump of a pipe.  A report is
    the beginning of its lines, as much as fits. *)
From Stdlib Require Import Strings.Ascii Strings.String.
From stdpp Require Import strings pretty.
From S2P Require Import Prelude Header World Logic Memory Invariant Pchan Exports Context Vchan Wait Sample VHostDev.

(** ** Text *)

Definition chars := list ascii.
Definition text (s : string) : chars := list_ascii_of_string s.

(** [%d], [%u] and [%lu]. *)
Definition dec (z : Z) : chars := text (pretty z).

Definition hex_digit (upper : bool) (d : Z) : ascii :=
  ascii_of_nat (Z.to_nat (if d <? 10 then 48 + d else (if upper then 55 else 87) + d)).
(** [n] digits of a number, the lowest last. *)
Fixpoint hex_digits (upper : bool) (n : nat) (z : Z) : chars :=
  match n with O => [] | S n => hex_digits upper n (Z.shiftr z 4) ++ [hex_digit upper (z mod 16)] end.
(** [%x], and [%08X] of a 32-bit word. *)
Fixpoint drop_zeros (l : chars) : chars :=
  match l with
  | c :: l' => match l' with [] => l | _ => if decide (c = "0"%char) then drop_zeros l' else l end
  | [] => l
  end.
Definition hex (z : Z) : chars := drop_zeros (hex_digits false 8 (u32 z)).
Definition HEX8 (z : Z) : chars := hex_digits true 8 (u32 z).

(* src/hab_stat.c:9-9 MAX_LINE_SIZE *)
Definition MAX_LINE_SIZE : Z := 128.

(** The line is cut to what the buffer on the stack holds, and appended as far as there
    is room; the code is the length the text would have.  [strlcat] is a bug trap when the
    text there is has no end within the buffer. *)
(* src/hab_stat.c:21-38 hab_stat_buffer_print *)
Definition hab_stat_buffer_print (dest_size : Z) (line dest : chars) : res (Z * chars) :=
  if 0 <? zlen line then
    if dest_size <=? zlen dest then Fault OutOfBounds
    else
      let line := take (Z.to_nat (MAX_LINE_SIZE - 1)) line in
      Ok (zlen dest + zlen line, take (Z.to_nat (dest_size - 1)) (dest ++ line))
  else Ok (0, dest).

Section reports.
Context {HS : Type}.
#[local] Abbreviation M := (World.M HS).
Implicit Types (w : world HS).

(** The name and the status word of a channel, which the driver keeps for these reports
    only, the order in which the tree of imports is walked, and the transport's own
    report. *)
Context (name : nat -> string) (status : nat -> Z) (imp_walk : gmap (Z * nat) nat -> list nat).
Context (stat_log : list nat -> Z -> chars -> M (Z * chars)).

Definition print (size : Z) (line : chars) (buf : chars) : M (Z * chars) := lift (hab_stat_buffer_print size line buf).

Definition bit (b : bool) : Z := if b then 1 else 0.

(* src/hab_stat.c:55-59 hab_stat_show_vchan *)
Definition pchan_line (p : nat) (pc : physical_channel) : chars :=
  text "nm " ++ text (name p) ++ text " r " ++ dec (bit (pc_is_be pc)) ++ text " lc " ++ dec (pc_vmid_local pc) ++
  text " rm " ++ dec (pc_vmid_remote pc) ++ text " sq_t " ++ dec (i32 (pc_sequence_tx pc)) ++ text " sq_r " ++
  dec (i32 (pc_sequence_rx pc)) ++ text " st 0x" ++ hex (status p) ++ text " vn " ++ dec (pc_vcnt pc) ++ text ":" ++ ["010"%char].

(* src/hab_stat.c:63-69 hab_stat_show_vchan *)
Definition vchan_line (vc : virtual_channel) : chars :=
  HEX8 (vc_id vc) ++ text "(" ++ dec (vc_refcount vc) ++ text ":" ++ dec (bit (vc_otherend_closed vc)) ++ text ":" ++
  dec (vc_tx_cnt vc) ++ text ":" ++ dec (vc_rx_cnt vc) ++ text ":" ++ dec (bit (vc_rx_inflight vc)) ++ text ") ".

(* src/hab_stat.c:62-70 hab_stat_show_vchan *)
Fixpoint show_vchans (size : Z) (l : list nat) (buf : chars) : M chars :=
  match l with
  | [] => ret buf
  | v :: l =>
      let! vc := get_v v in
      let! r := print size (vchan_line vc) buf in
      show_vchans size l (r.2)
  end.

(* src/hab_stat.c:51-74 hab_stat_show_vchan *)
Fixpoint show_pchans (size : Z) (l : list nat) (r : Z * chars) : M (Z * chars) :=
  match l with
  | [] => ret r
  | p :: l =>
      let! pc := get_p p in
      if pc_vcnt pc =? 0 then show_pchans size l r
      else
        let! r := print size (pchan_line p pc) (r.2) in
        let! buf := show_vchans size (pc_vchannels pc) (r.2) in
        let! r := print size ["010"%char] buf in
        show_pchans size l r
  end.

(* src/hab_stat.c:46-76 hab_stat_show_vchan *)
Fixpoint show_devs (size : Z) (devs : list hab_device) (r : Z * chars) : M (Z * chars) :=
  match devs with
  | [] => ret r
  | dv :: devs => let! r := show_pchans size (dv_pchannels dv) r in show_devs size devs r
  end.

(** [strscpy] of an empty text; there is no room for it in a buffer of no size. *)
Definition blank (size : Z) : Z * chars := (if 0 <? size then 0 else - 7, []).

(* src/hab_stat.c:40-79 hab_stat_show_vchan *)
Definition hab_stat_show_vchan (size : Z) : M (Z * chars) :=
  let! devs := gets w_devs in show_devs size devs (blank size).

(* src/hab_stat.c:94-98 hab_stat_show_ctx *)
Definition ctx_line (cx : uhab_context) : chars :=
  text "ctx " ++ dec (cx_owner cx) ++ text " K " ++ dec (bit (cx_kernel cx)) ++ text " close " ++ dec (bit (cx_closing cx)) ++
  text " vc " ++ dec (cx_vcnt cx) ++ text " exp " ++ dec (cx_export_total cx) ++ text " imp " ++ dec (cx_import_total cx) ++
  text " open " ++ dec (cx_pending_cnt cx) ++ text " ref " ++ dec (cx_refcount cx) ++ ["010"%char].

(* src/hab_stat.c:93-99 hab_stat_show_ctx *)
Fixpoint show_ctxs (size : Z) (l : list nat) (r : Z * chars) : M (Z * chars) :=
  match l with
  | [] => ret r
  | c :: l => let! cx := get_c c in let! r := print size (ctx_line cx) (r.2) in show_ctxs size l r
  end.

(* src/hab_stat.c:81-103 hab_stat_show_ctx *)
Definition hab_stat_show_ctx (size : Z) : M (Z * chars) :=
  let! w := gets (fun w => w) in
  let! r := print size (text "Total contexts " ++ dec (w_ctx_cnt w) ++ ["010"%char]) (blank size).2 in
  show_ctxs size (w_uctx_list w) r.

(** ** Exports and imports *)

(** The number of regions is what the table says. *)
(* src/hab_stat.c:105-113 get_pft_tbl_total_size *)
Fixpoint pft_size_from (payload : bytes) (n : nat) (i total : Z) : res Z :=
  match n with
  | O => Ok total
  | S n =>
      let? word := of_opt OutOfBounds (mem_read payload (12 + sizeof_region * i) 4) in
      pft_size_from payload n (i + 1) (i32 (total + le_dec_i32 word * PAGE_SIZE))
  end.
(* src/hab_stat.c:105-113 get_pft_tbl_total_size *)
Definition get_pft_tbl_total_size (payload : bytes) : res Z :=
  pft_size_from payload (Z.to_nat (pfn_nregions payload)) 0 0.

(** How many exports there are and how much they are; [get] finds one and says whether it
    counts. *)
(* src/hab_stat.c:127-147 print_ctx_total_expimp *)
Fixpoint total_expimp (get : nat -> M (export_desc * bool)) (l : list nat) (cnt total : Z) : M (Z * Z) :=
  match l with
  | [] => ret (cnt, total)
  | e :: l =>
      let! x := get e in
      if x.2 then
        let! n := lift (get_pft_tbl_total_size (ed_payload (x.1))) in
        total_expimp get l (i32 (cnt + 1)) (i32 (total + n))
      else total_expimp get l cnt total
  end.

Definition get_exp (e : nat) : M (export_desc * bool) := let! es := get_e e in ret (es_exp es, true).
Definition get_imp (e : nat) : M (export_desc * bool) :=
  let! es := get_i e in
  let! m := habmm_imp_hyp_map_check (es_exp es) in
  ret (es_exp es, negb (m =? 0)).

Definition expimp_line (d : export_desc) (n : Z) : chars :=
  text "[" ++ dec (ed_export_id d) ++ text ":" ++ hex (ed_vcid_local d) ++ text ":" ++ dec n ++ text "] ".

(* src/hab_stat.c:159-182 print_ctx_total_expimp *)
Fixpoint print_expimp (size : Z) (get : nat -> M (export_desc * bool)) (l : list nat) (buf : chars) : M chars :=
  match l with
  | [] => ret buf
  | e :: l =>
      let! x := get e in
      if x.2 then
        let! n := lift (get_pft_tbl_total_size (ed_payload (x.1))) in
        let! r := print size (expimp_line (x.1) n) buf in
        print_expimp size get l (r.2)
      else print_expimp size get l buf
  end.

(* src/hab_stat.c:115-184 print_ctx_total_expimp *)
Definition print_ctx_total_expimp (c : nat) (size : Z) (buf : chars) : M (Z * chars) :=
  let! cx := get_c c in
  let imports := imp_walk (cx_imp_whse cx) in
  let! x := total_expimp get_exp (cx_exp_whse cx) 0 0 in
  let! y := total_expimp get_imp imports 0 0 in
  let '(exp_cnt, exp_total) := x in
  let '(imp_cnt, imp_total) := y in
  if forallb (Z.eqb 0) [exp_cnt; exp_total; imp_cnt; imp_total] then ret (0, buf)
  else
    let! r := print size (text "ctx " ++ dec (cx_owner cx) ++ text " exp " ++ dec exp_cnt ++ text " size " ++ dec exp_total ++
      text " imp " ++ dec imp_cnt ++ text " size " ++ dec imp_total ++ ["010"%char]) buf in
    let! r := print size (text "export[expid:vcid:size]: ") (r.2) in
    let! buf := print_expimp size get_exp (cx_exp_whse cx) (r.2) in
    let! r := print size ["010"%char] buf in
    let! r := print size (text "import[expid:vcid:size]: ") (r.2) in
    let! buf := print_expimp size get_imp imports (r.2) in
    print size ["010"%char] buf.

(** The channels of a context's virtual channels, without those that have the mmid of the
    one before; at most as many as the array on the stack has room for. *)
(* src/hab_stat.c:205-212 hab_stat_show_expimp *)
Fixpoint collect_pchans (l : list nat) (mmid : Z) (acc : list nat) : M (list nat) :=
  match l with
  | [] => ret acc
  | v :: l =>
      let! vc := get_v v in
      let! pc := get_p (vc_pchan vc) in
      let! dv := get_d (pc_habdev pc) in
      if dv_id dv =? mmid then collect_pchans l mmid acc
      else
        let acc := acc ++ [vc_pchan vc] in
        if HABCFG_MMID_NUM <=? zlen acc then ret acc else collect_pchans l (dv_id dv) acc
  end.

(* src/hab_stat.c:201-216 hab_stat_show_expimp *)
Fixpoint show_expimp_of (pid : Z) (size : Z) (l : list nat) (r : Z * chars) : M (Z * chars * list nat) :=
  match l with
  | [] => ret (r, [])
  | c :: l =>
      let! cx := get_c c in
      if pid =? cx_owner cx then
        let! r := print_ctx_total_expimp c size (r.2) in
        let! pchans := collect_pchans (cx_vchannels cx) 0 [] in
        ret (r, pchans)
      else show_expimp_of pid size l r
  end.

(* src/hab_stat.c:186-223 hab_stat_show_expimp *)
Definition hab_stat_show_expimp (pid : Z) (size : Z) : M (Z * chars) :=
  let! l := gets w_uctx_list in
  let! x := show_expimp_of pid size l (blank size) in
  let '(r, pchans) := x in
  if 0 <? zlen pchans then stat_log pchans size (r.2) else ret r.

(* src/hab_stat.c:235-246 hab_stat_show_reclaim *)
Fixpoint print_reclaim (size : Z) (l : list nat) (num total : Z) (buf : chars) : M (Z * Z * chars) :=
  match l with
  | [] => ret (num, total, buf)
  | e :: l =>
      let! es := get_e e in
      let d := es_exp es in
      let! n := lift (get_pft_tbl_total_size (ed_payload d)) in
      let! p := deref (ed_pchan d) in
      let! _ := get_p p in
      let! r := print size (text "[" ++ dec (ed_export_id d) ++ text ":" ++ hex (ed_vcid_local d) ++ text ":" ++ dec n ++ text ":" ++
        text (name p) ++ text "] ") buf in
      let! r := print size ["010"%char] (r.2) in
      print_reclaim size l (num + 1) (u64 (total + n)) (r.2)
  end.

(* src/hab_stat.c:225-250 hab_stat_show_reclaim *)
Definition hab_stat_show_reclaim (size : Z) : M (Z * chars) :=
  let! r := print size (text "export[expid:vcid:size:pchan]:" ++ ["010"%char]) (blank size).2 in
  let! l := gets w_reclaim_list in
  let! x := print_reclaim size l 0 0 (r.2) in
  let '(num, total, buf) := x in
  print size (text "total: " ++ dec (u32 num) ++ text ", size " ++ dec (u32 total) ++ ["010"%char]) buf.

(** ** The dump of a pipe *)

(** The buffer of the dump: what is written of it, [None] for no buffer. *)
(* src/hab_stat.c:257-258 filp *)
Record dump := { filp : option bytes; pipedump_idx : Z }.

(* src/hab_stat.c:256-256 HAB_PIPEDUMP_SIZE *)
Definition HAB_PIPEDUMP_SIZE : Z := 768 * 1024 * 4.

(** A text as bytes, as many as an array of 256 holds after its end. *)
Definition file_path (file_time : string) : bytes :=
  (fun c => Z.of_nat (nat_of_ascii c)) <$>
    take 255 (take 255 (text "/sdcard/habpipe-" ++ text file_time) ++ text ".dat").

(* src/hab_stat.c:292-303 dump_hab_buf *)
Definition dump_hab_buf (buf : option bytes) (size : Z) (g : dump) : res (Z * dump) :=
  match buf with
  | None => Ok (0, g)
  | Some buf =>
      if (size =? 0) || (HAB_PIPEDUMP_SIZE - pipedump_idx g <? size) then Ok (0, g)
      else
        let? data := of_opt OutOfBounds (mem_read buf 0 size) in
        match filp g with
        | None => Fault NullDeref
        | Some out => Ok (size, Build_dump (Some (take (Z.to_nat (pipedump_idx g)) out ++ data)) (pipedump_idx g + size))
        end
  end.

(** [got] tells whether there is memory; without, [vmalloc] gives NULL, which is not one
    of the pointers that stand for an error. *)
(* src/hab_stat.c:260-282 dump_hab_open *)
Definition dump_hab_open (file_time : string) (got : bool) : res (Z * dump) :=
  let filp := if got then Some [] else None in
  let path := file_path file_time in
  let? r := dump_hab_buf (Some path) (zlen path) (Build_dump filp 0) in
  Ok (0, r.2).

(* src/hab_stat.c:284-290 dump_hab_close *)
Definition dump_hab_close (g : dump) : dump := Build_dump None 0.

(** The first channel in use; the back ends of virtio have nothing to say about it. *)
(* src/hab_stat.c:316-323 dump_hab *)
Fixpoint dump_pchans (l : list nat) : M unit :=
  match l with
  | [] => ret tt
  | p :: l => let! pc := get_p p in if 0 <? pc_vcnt pc then ret tt else dump_pchans l
  end.

(* src/hab_stat.c:309-309 dump_hab *)
Definition separator : bytes := repeat 35 8.

(* src/hab_stat.c:312-326 dump_hab *)
Fixpoint dump_devs (mmid : Z) (devs : list hab_device) (g : dump) : M dump :=
  match devs with
  | [] => ret g
  | dv :: devs =>
      if dv_id dv =? mmid then
        let! _ := dump_pchans (dv_pchannels dv) in
        let! r := lift (dump_hab_buf (Some separator) 8 g) in
        dump_devs mmid devs (r.2)
      else dump_devs mmid devs g
  end.

(** What the core dump is given, and the state of the dump after. *)
(* src/hab_stat.c:305-329 dump_hab *)
Definition dump_hab (file_time : string) (got : bool) (mmid : Z) : M (option bytes * Z * dump) :=
  let! r := lift (dump_hab_open file_time got) in
  let! devs := gets w_devs in
  let! g := dump_devs mmid devs (r.2) in
  ret (filp g, pipedump_idx g, dump_hab_close g).

(** ** What is reported *)

(** Of a channel that has virtual channels: its line, one entry for each of these, and the end of
    the line. *)
Definition vchan_entry w (v : nat) : list chars := match w_vchans w !! v with Some vc => [vchan_line vc] | None => [] end.
Definition pchan_report w (p : nat) : list chars :=
  match w_pchans w !! p with
  | Some pc => if decide (pc_vchannels pc = []) then [] else pchan_line p pc :: concat (vchan_entry w <$> pc_vchannels pc) ++ [["010"%char]]
  | None => []
  end.
Definition vchan_report w : list chars := concat (pchan_report w <$> concat (dv_pchannels <$> w_devs w)).

(** Of every context one line. *)
Definition ctx_entry w (c : nat) : list chars := match w_ctxs w !! c with Some cx => [ctx_line cx] | None => [] end.
Definition ctx_report w : list chars :=
  (text "Total contexts " ++ dec (w_ctx_cnt w) ++ ["010"%char]) :: concat (ctx_entry w <$> w_uctx_list w).

(** What a buffer of a size holds of such pieces: each cut to a line, and as much as
    fits. *)
Definition clip (size : Z) (pieces : list chars) : chars :=
  take (Z.to_nat (size - 1)) (concat (take (Z.to_nat (MAX_LINE_SIZE - 1)) <$> pieces)).

Lemma take_clip {A} n (l k : list A) : take n (take n l ++ k) = take n (l ++ k).
Proof.
  destruct (Nat.le_ge_cases n (length l)) as [Hn|Hn].
  - rewrite !take_app_le by (rewrite ?length_take; lia). by rewrite take_take, Nat.min_id.
  - by rewrite (take_ge l n) by done.
Qed.

Lemma clip_size size pieces : 0 < size -> zlen (clip size pieces) < size.
Proof. intros Hs. unfold clip, zlen. rewrite length_take. lia. Qed.

Lemma blank_clip size : 0 < size -> blank size = (0, clip size []).
Proof. intros Hs. unfold blank, clip. rewrite (proj2 (Z.ltb_lt 0 size) Hs). cbn. by rewrite take_nil. Qed.

Lemma print_clip size line pieces w (Q : Z * chars -> world HS -> Prop) :
  0 < size -> line <> [] ->
  (forall n, Q (n, clip size (pieces ++ [line])) w) -> wp (print size line (clip size pieces)) Q w.
Proof.
  intros Hs Hl HQ. unfold print, hab_stat_buffer_print, wp, lift.
  destruct (Z.ltb_spec 0 (zlen line)) as [_|Hz]; [|destruct line; [done|unfold zlen in Hz; simpl in Hz; lia]].
  pose proof (clip_size size pieces Hs). destruct (Z.leb_spec size (zlen (clip size pieces))); [lia|].
  match goal with |- Q (?n, ?c) w => replace c with (clip size (pieces ++ [line])); [apply HQ|] end.
  unfold clip. rewrite fmap_app, concat_app. cbn [fmap list_fmap concat]. rewrite app_nil_r.
  symmetry. apply take_clip.
Qed.

Lemma pchan_line_some p pc : pchan_line p pc <> [].
Proof. unfold pchan_line. by cbn. Qed.
Lemma vchan_line_some vc : vchan_line vc <> [].
Proof. unfold vchan_line, HEX8, hex_digits. intros Hx. apply app_nil in Hx as [_ Hx]. by cbn in Hx. Qed.

(** Each part of the report appends its pieces. *)
Lemma show_vchans_clip size l pieces w Q :
  0 < size -> Forall (fun v => is_Some (w_vchans w !! v)) l ->
  Q (clip size (pieces ++ concat (vchan_entry w <$> l))) w -> wp (show_vchans size l (clip size pieces)) Q w.
Proof.
  intros Hs. revert pieces. induction l as [|v l IH]; intros pieces Hl HQ; cbn [show_vchans].
  - cbn in HQ. rewrite app_nil_r in HQ. by apply wp_ret.
  - apply list.Forall_cons in Hl as [[vc Hv] Hl]. apply wp_bind, (wp_get_v _ vc); [done|].
    apply wp_bind, print_clip; [done|apply vchan_line_some|]. intros n. cbn [snd]. apply IH; [done|].
    cbn in HQ. unfold vchan_entry at 1 in HQ. rewrite Hv in HQ. by rewrite <- app_assoc.
Qed.

Lemma show_pchans_clip h size l n pieces w (Q : Z * chars -> world HS -> Prop) :
  wf h w -> 0 < size -> Forall (fun p => is_Some (w_pchans w !! p)) l ->
  (forall n, Q (n, clip size (pieces ++ concat (pchan_report w <$> l))) w) -> wp (show_pchans size l (n, clip size pieces)) Q w.
Proof.
  intros Hwf Hs. revert n pieces. induction l as [|p l IH]; intros n pieces Hl HQ; cbn [show_pchans].
  - specialize (HQ n). cbn in HQ. rewrite app_nil_r in HQ. by apply wp_ret.
  - apply list.Forall_cons in Hl as [[pc Hp] Hl]. apply wp_bind, (wp_get_p _ pc); [done|].
    destruct (wf_p _ _ Hwf p pc Hp) as (_ & _ & _ & Hcnt & Hvs & _).
    cbn in HQ. unfold pchan_report at 1 in HQ. rewrite Hp in HQ.
    destruct (Z.eqb_spec (pc_vcnt pc) 0) as [H0|H0].
    { apply IH; [done|]. rewrite decide_True in HQ; [done|]. apply length_zero_iff_nil. unfold zlen in Hcnt. lia. }
    rewrite decide_False in HQ by (intros E; rewrite E in Hcnt; done).
    apply wp_bind, print_clip; [done|apply pchan_line_some|]. intros n1. cbn [snd].
    apply wp_bind, show_vchans_clip; [done| |].
    { apply list.Forall_forall. intros v Hv. destruct (Hvs v Hv) as (vc & Hvc & _). exists vc. by apply (vchans_of_lookup h). }
    apply wp_bind, print_clip; [done|done|]. intros n2. apply IH; [done|].
    intros n3. specialize (HQ n3). cbn [app] in HQ. by rewrite <- !app_assoc in *.
Qed.

Lemma show_devs_clip h size l n pieces w (Q : Z * chars -> world HS -> Prop) :
  wf h w -> 0 < size -> Forall (fun dv => dv ∈ w_devs w) l ->
  (forall n, Q (n, clip size (pieces ++ concat (pchan_report w <$> concat (dv_pchannels <$> l)))) w) ->
  wp (show_devs size l (n, clip size pieces)) Q w.
Proof.
  intros Hwf Hs. revert n pieces. induction l as [|dv l IH]; intros n pieces Hl HQ; cbn [show_devs].
  - specialize (HQ n). cbn in HQ. rewrite app_nil_r in HQ. by apply wp_ret.
  - apply list.Forall_cons in Hl as [[d Hd]%list_elem_of_lookup Hl].
    apply wp_bind, (show_pchans_clip h); [done|done| |].
    { apply list.Forall_forall. intros p Hp. destruct (wf_d _ _ Hwf d dv Hd) as (_ & _ & Hps & _).
      destruct (Hps p Hp) as (pc & Hpc & _). by exists pc. }
    intros n1. apply IH; [done|]. intros n2. specialize (HQ n2).
    cbn [fmap list_fmap concat] in HQ. rewrite fmap_app, concat_app in HQ. by rewrite <- app_assoc.
Qed.

(** C38: the report on the channels: of any driver in a proper state, into a buffer of any size, it is the line of
    each physical channel in use with an entry for each of its virtual channels, device by
    device in their order, cut where the buffer ends and never longer than that; the driver is left as it is. *)
Theorem hab_stat_show_vchan_reports h size w :
  wf h w -> 0 < size ->
  wp (hab_stat_show_vchan size) (fun r w' => w' = w /\ r.2 = clip size (vchan_report w) /\ zlen (r.2) < size) w.
Proof.
  intros Hwf Hs. apply wp_bind, wp_gets. rewrite blank_clip by done.
  apply (show_devs_clip h); [done|done|by apply list.Forall_forall|].
  intros n. split_and!; [done|done|]. by apply clip_size.
Qed.

Lemma ctx_line_some cx : ctx_line cx <> [].
Proof. unfold ctx_line. by cbn. Qed.

Lemma show_ctxs_clip size l n pieces w (Q : Z * chars -> world HS -> Prop) :
  0 < size -> Forall (fun c => is_Some (w_ctxs w !! c)) l ->
  (forall n, Q (n, clip size (pieces ++ concat (ctx_entry w <$> l))) w) -> wp (show_ctxs size l (n, clip size pieces)) Q w.
Proof.
  intros Hs. revert n pieces. induction l as [|c l IH]; intros n pieces Hl HQ; cbn [show_ctxs].
  - specialize (HQ n). cbn in HQ. rewrite app_nil_r in HQ. by apply wp_ret.
  - apply list.Forall_cons in Hl as [[cx Hc] Hl]. apply wp_bind, (wp_get_c _ cx); [done|].
    apply wp_bind, print_clip; [done|apply ctx_line_some|]. intros n1. cbn [snd]. apply IH; [done|]. intros n2. specialize (HQ n2).
    cbn in HQ. unfold ctx_entry at 1 in HQ. rewrite Hc in HQ. by rewrite <- app_assoc.
Qed.

(** The report on the contexts. *)
Lemma hab_stat_show_ctx_reports h size w :
  wf h w -> 0 < size ->
  wp (hab_stat_show_ctx size) (fun r w' => w' = w /\ r.2 = clip size (ctx_report w) /\ zlen (r.2) < size) w.
Proof.
  intros Hwf Hs. apply wp_bind, wp_gets, wp_bind. rewrite blank_clip by done.
  apply print_clip; [done|done|]. intros n. cbn [snd]. apply show_ctxs_clip; [done| |].
  { apply list.Forall_forall. destruct (wf_drv _ _ Hwf) as (_ & Hc & _). exact Hc. }
  intros n2. split_and!; [done|done|]. by apply clip_size.
Qed.

(** Without memory for the buffer, the dump writes to address 0. *)
Lemma dump_needs_memory file_time mmid w : dump_hab file_time false mmid w = Fault NullDeref.
Proof.
  unfold dump_hab, bind, lift, dump_hab_open, dump_hab_buf.
  set (path := file_path file_time).
  assert (Hp : 16 <= zlen path <= 255).
  { unfold path, file_path, zlen. rewrite length_fmap, length_take, length_app, length_take, length_app.
    change (length (text "/sdcard/habpipe-")) with 16%nat. lia. }
  rewrite (proj2 (Z.eqb_neq _ 0)) by lia.
  cbn [pipedump_idx]. destruct (Z.ltb_spec (HAB_PIPEDUMP_SIZE - 0) (zlen path)) as [Hl|_]; [unfold HAB_PIPEDUMP_SIZE in Hl; lia|].
  cbn [orb]. by rewrite mem_read_Some by lia.
Qed.
End reports.

(** One channel with two virtual channels, in a buffer too small for its report: it
    ends in the id of the second. *)
Lemma hab_stat_show_vchan_reports_witness :
  wp (hab_stat_show_vchan (HS := unit) (fun _ => "vm"%string) (fun _ => 0) 75)
    (fun r w' => w' = busy tt /\ r.2 = text "nm vm r 0 lc 0 rm 0 sq_t 0 sq_r 0 st 0x0 vn 2:" ++ "010"%char :: text "00000001(1:0:0:0:0) 0000000" /\
      zlen (r.2) < 75) (busy tt).
Proof.
  eapply wp_mono.
  - apply (hab_stat_show_vchan_reports (fun _ => "vm"%string) (fun _ => 0) busy_held); [apply busy_wf|lia].
  - intros r w' (-> & Hr & Hl). split_and!; [done| |done]. rewrite Hr. vm_compute. reflexivity.
Defined.
