(* ===== verification/Linux.v ===== *)
(** The driver as Linux programs see it (hab_linux.c, hab_ioctl.h): opening and
    releasing the device file, the ioctl commands with the structures they pass and
    the copies from and to user memory; and the query of hab_vchan.c. *)
From S2P Require Import Prelude Header World Logic Memory Invariant Pchan Exports Context Vchan Wait Open Loopback Sample Msg Mimex Progress Hab LoopThread.

(** ** User memory

    The bytes that the process can read and write, by address. *)
#[local] Abbreviation umem := (gmap Z Z).

(** All of it or nothing: the buffer of a copy that fails is not used. *)
Fixpoint copy_from_user (um : umem) (addr : Z) (n : nat) : option bytes :=
  match n with
  | O => Some []
  | S n => b ← um !! addr; l ← copy_from_user um (addr + 1) n; Some (b :: l)
  end.

(** The bytes up to the first address that faults, and how many were left. *)
Fixpoint copy_to_user (um : umem) (addr : Z) (bs : bytes) : umem * Z :=
  match bs with
  | [] => (um, 0)
  | b :: bs' =>
      match um !! addr with
      | Some _ => copy_to_user (<[addr := b]> um) (addr + 1) bs'
      | None => (um, zlen bs)
      end
  end.

(** ** The commands *)

Definition IOC (dir nr size : Z) : Z := Z.lor (Z.lor (Z.lor (Z.shiftl dir 30) (Z.shiftl size 16)) (Z.shiftl 0x0A 8)) nr.
Definition IOC_SIZE (cmd : Z) : Z := Z.land (Z.shiftr cmd 16) 0x3fff.
Definition IOC_IN (cmd : Z) : bool := Z.testbit cmd 30.
Definition IOC_OUT (cmd : Z) : bool := Z.testbit cmd 31.

(** [_IOW] is direction 1, [_IOWR] direction 3; the sizes are those of the structures,
    with the padding to their alignment. *)
(* src/include/uapi/linux/hab_ioctl.h:90-91 IOCTL_HAB_SEND *)
Definition IOCTL_HAB_SEND : Z := IOC 1 0x2 24.
(* src/include/uapi/linux/hab_ioctl.h:93-94 IOCTL_HAB_RECV *)
Definition IOCTL_HAB_RECV : Z := IOC 3 0x3 24.
(* src/include/uapi/linux/hab_ioctl.h:96-97 IOCTL_HAB_VC_OPEN *)
Definition IOCTL_HAB_VC_OPEN : Z := IOC 3 0x4 16.
(* src/include/uapi/linux/hab_ioctl.h:99-100 IOCTL_HAB_VC_CLOSE *)
Definition IOCTL_HAB_VC_CLOSE : Z := IOC 1 0x5 8.
(* src/include/uapi/linux/hab_ioctl.h:102-103 IOCTL_HAB_VC_EXPORT *)
Definition IOCTL_HAB_VC_EXPORT : Z := IOC 3 0x6 24.
(* src/include/uapi/linux/hab_ioctl.h:105-106 IOCTL_HAB_VC_IMPORT *)
Definition IOCTL_HAB_VC_IMPORT : Z := IOC 3 0x7 32.
(* src/include/uapi/linux/hab_ioctl.h:108-109 IOCTL_HAB_VC_UNEXPORT *)
Definition IOCTL_HAB_VC_UNEXPORT : Z := IOC 1 0x8 12.
(* src/include/uapi/linux/hab_ioctl.h:111-112 IOCTL_HAB_VC_UNIMPORT *)
Definition IOCTL_HAB_VC_UNIMPORT : Z := IOC 1 0x9 24.
(* src/include/uapi/linux/hab_ioctl.h:114-115 IOCTL_HAB_VC_QUERY *)
Definition IOCTL_HAB_VC_QUERY : Z := IOC 3 0xA 32.

(** Fields of a structure in the command's buffer. *)
Definition get32 (d : bytes) (off : nat) : Z := le_dec (take 4 (drop off d)).
Definition get64 (d : bytes) (off : nat) : Z := le_dec (take 8 (drop off d)).
Definition set32 (off : Z) (z : Z) (d : bytes) : res bytes := of_opt OutOfBounds (mem_write d off (le_enc 4 (u32 z))).
Definition set64 (off : Z) (z : Z) (d : bytes) : res bytes := of_opt OutOfBounds (mem_write d off (le_enc 8 (u64 z))).

(** The offsets of the fields. *)
(* src/include/uapi/linux/hab_ioctl.h:11-16 hab_send *)
Record hab_send := { sd_data : Z; sd_vcid : Z; sd_sizebytes : Z; sd_flags : Z }.
(* src/include/uapi/linux/hab_ioctl.h:11-16 hab_send *)
Definition hab_send_dec (d : bytes) : hab_send := Build_hab_send (get64 d 0) (i32 (get32 d 8)) (get32 d 12) (get32 d 16).
(* src/include/uapi/linux/hab_ioctl.h:18-24 hab_recv *)
Record hab_recv := { rv_data : Z; rv_vcid : Z; rv_sizebytes : Z; rv_timeout : Z; rv_flags : Z }.
(* src/include/uapi/linux/hab_ioctl.h:18-24 hab_recv *)
Definition hab_recv_dec (d : bytes) : hab_recv :=
  Build_hab_recv (get64 d 0) (i32 (get32 d 8)) (get32 d 12) (get32 d 16) (get32 d 20).
(* src/include/uapi/linux/hab_ioctl.h:26-31 hab_open *)
Record hab_open_param := { op_mmid : Z; op_timeout : Z; op_flags : Z }.
(* src/include/uapi/linux/hab_ioctl.h:26-31 hab_open *)
Definition hab_open_dec (d : bytes) : hab_open_param := Build_hab_open_param (get32 d 4) (i32 (get32 d 8)) (get32 d 12).
(* src/include/uapi/linux/hab_ioctl.h:38-44 hab_export *)
Record hab_export := { xp_buffer : Z; xp_vcid : Z; xp_sizebytes : Z; xp_flags : Z }.
(* src/include/uapi/linux/hab_ioctl.h:38-44 hab_export *)
Definition hab_export_dec (d : bytes) : hab_export := Build_hab_export (get64 d 0) (i32 (get32 d 8)) (get32 d 12) (get32 d 20).
(* src/include/uapi/linux/hab_ioctl.h:46-53 hab_import *)
Record hab_import := { im_index : Z; im_vcid : Z; im_sizebytes : Z; im_exportid : Z; im_flags : Z }.
(* src/include/uapi/linux/hab_ioctl.h:46-53 hab_import *)
Definition hab_import_dec (d : bytes) : hab_import :=
  Build_hab_import (get64 d 0) (i32 (get32 d 16)) (get32 d 20) (get32 d 24) (get32 d 28).
(* src/include/uapi/linux/hab_ioctl.h:69-75 hab_info *)
Record hab_info := { nf_vcid : Z; nf_names : Z; nf_namesize : Z }.
(* src/include/uapi/linux/hab_ioctl.h:69-75 hab_info *)
Definition hab_info_dec (d : bytes) : hab_info := Build_hab_info (i32 (get32 d 0)) (get64 d 16) (get32 d 24).

(** ** Copying a received message out *)

(** The full pages of a scattered message, then the rest. *)
(* src/hab_linux.c:88-110 hab_copy_data *)
Fixpoint copy_pages (pages : list bytes) (sizebytes : Z) (um : umem) (dest : Z) : res (bool * umem) :=
  if sizebytes =? 0 then Ok (true, um)
  else
    match pages with
    | [] => Fault OutOfBounds
    | pg :: pages =>
        let n := Z.min sizebytes PAGE_SIZE in
        let? bs := of_opt OutOfBounds (mem_read pg 0 n) in
        let r := copy_to_user um dest bs in
        if negb (r.2 =? 0) then Ok (false, r.1)
        else copy_pages pages (sizebytes - n) (r.1) (dest + n)
    end.

(** Whether it went well; if not, the size in the parameters is cleared. *)
(* src/hab_linux.c:79-123 hab_copy_data *)
Definition hab_copy_data (msg : hab_message) (um : umem) (dest : Z) : res (Z * umem) :=
  let? r :=
    (if m_scatter msg then copy_pages (m_data msg) (m_sizebytes msg) um dest
     else
       let? bs := of_opt OutOfBounds (mem_read (concat (m_data msg)) 0 (m_sizebytes msg)) in
       let r := copy_to_user um dest bs in
       Ok ((r.2 =? 0), r.1)) in
  Ok ((if (r.1 : bool) then 0 else - EFAULT), r.2).

Section ops.
Context {HS : Type} `{Platform HS} `{KernelIdr}.
#[local] Abbreviation M := (World.M HS).
#[local] Abbreviation sched := (list (wake HS)).

(** The ids, and the buffer of the names with both names made empty. *)
(* src/hab_vchan.c:294-316 hab_vchan_query *)
Definition hab_vchan_query (c : nat) (vcid : Z) (names : bytes) (name_size : Z) : M (Z * option (Z * bytes)) :=
  let! o := hab_get_vchan_fromvcid vcid c true in
  match o with
  | None => ret (- EINVAL, None)
  | Some v =>
      let! vc := get_v v in
      if vc_otherend_closed vc then do! hab_vchan_put v in ret (- ENODEV, None)
      else
        let! pc := get_p (vc_pchan vc) in
        let ids := Z.lor (u64 (pc_vmid_local pc)) (u64 (Z.shiftl (pc_vmid_remote pc) 32)) in
        let! names := lift (of_opt OutOfBounds (mem_write names 0 [0])) in
        let! names := lift (of_opt OutOfBounds (mem_write names (name_size / 2) [0])) in
        do! hab_vchan_put v in
        ret (0, Some (ids, names))
  end.

(** A context per open file, for the process [pid]. *)
(* src/hab_linux.c:14-33 hab_open *)
Definition hab_open (pid : Z) : M (Z * option nat) :=
  let! o := hab_ctx_alloc false in
  match o with
  | None => ret (- ENOMEM, None)
  | Some c => do! upd_c c (set_cx_owner pid) in ret (0, Some c)
  end.

(** One channel of a context that goes away. *)
(* src/hab_linux.c:48-59 hab_release *)
Definition release_vchan (c v : nat) : M unit :=
  do! upd_v v (set_vc_closed true) in
  do! upd_c c (fun cx => set_cx_vcnt (cx_vcnt cx - 1) (set_cx_vchannels (list_del v (cx_vchannels cx)) cx)) in
  do! hab_vchan_stop_notify v in
  hab_vchan_put v.

(* src/hab_linux.c:35-77 hab_release *)
Definition hab_release (private_data : option nat) : M Z :=
  match private_data with
  | None => ret 0
  | Some c =>
      let! cx := get_c c in
      do! for_each (release_vchan c) (cx_vchannels cx) in
      let! cx := get_c c in
      do! for_each (fun r => let! _ := hab_open_cancel_notify r in ret tt) (cx_pending_open cx) in
      do! hab_ctx_put c in
      ret 0
  end.

(** *** The commands

    Each takes the buffer with the structure and user memory, and gives the code, the
    buffer as it is copied back, and user memory.  [stack] and [uninit] are what
    uninitialised variables of the operations hold. *)
Context (physical_channel_rx_dispatch : nat -> M unit) (stack : hab_open_request) (uninit : Z).

Definition cmd_result : Type := Z * bytes * umem * sched.

(* src/hab_linux.c:152-158 hab_ioctl *)
Definition ioctl_open (c : nat) (data : bytes) (um : umem) (s : sched) : M cmd_result :=
  let o := hab_open_dec data in
  let! r := hab_vchan_open c (op_mmid o) (op_timeout o) stack s in
  let '(code, vcid, s) := r in
  let! data := lift (if code =? 0 then set32 0 vcid data else Ok data) in
  ret (code, data, um, s).

(* src/hab_linux.c:159-162 hab_ioctl *)
Definition ioctl_close (c : nat) (data : bytes) (um : umem) (s : sched) : M cmd_result :=
  let! r := hab_vchan_close c (i32 (get32 data 0)) in
  ret (r, data, um, s).

(* src/hab_linux.c:163-186 hab_ioctl *)
Definition ioctl_send (c : nat) (data : bytes) (um : umem) (s : sched) : M cmd_result :=
  let p := hab_send_dec data in
  if HAB_HEADER_SIZE_MAX <? sd_sizebytes p then ret (- EINVAL, data, um, s)
  else
    let! a := kalloc in
    match a with
    | None => ret (- ENOMEM, data, um, s)
    | Some _ =>
        match copy_from_user um (sd_data p) (Z.to_nat (sd_sizebytes p)) with
        | None => ret (- EFAULT, data, um, s)
        | Some send_data =>
            let! r := hab_vchan_send c (sd_vcid p) send_data (sd_flags p) s in
            ret (r.1, data, um, r.2)
        end
    end.

(* src/hab_linux.c:187-208 hab_ioctl *)
Definition ioctl_recv (c : nat) (data : bytes) (um : umem) (s : sched) : M cmd_result :=
  let p := hab_recv_dec data in
  if rv_data p =? 0 then ret (- EINVAL, data, um, s)
  else
    let! r := hab_vchan_recv physical_channel_rx_dispatch c (rv_vcid p) (i32 (rv_sizebytes p)) (rv_timeout p) (rv_flags p) s in
    let '(code, msg, rsize, s) := r in
    let! data := lift (set32 12 rsize data) in
    match msg with
    | None => ret (code, data, um, s)
    | Some m =>
        let! r := (if code =? 0 then
                     let! x := lift (hab_copy_data m um (rv_data p)) in
                     let! data := lift (if x.1 =? 0 then Ok data else set32 12 0 data) in
                     ret (x.1, data, x.2)
                   else ret (code, data, um)) in
        do! hab_msg_free m in
        ret (r, s)
    end.

(* src/hab_linux.c:209-211 hab_ioctl *)
Definition ioctl_export (c : nat) (data : bytes) (um : umem) (s : sched) : M cmd_result :=
  let p := hab_export_dec data in
  let! r := hab_mem_export c false (xp_buffer p) (xp_vcid p) (xp_sizebytes p) (xp_flags p) uninit s in
  let '(code, id, s) := r in
  let! data := lift (match id with Some i => set32 16 i data | None => Ok data end) in
  ret (code, data, um, s).

(* src/hab_linux.c:212-214 hab_ioctl *)
Definition ioctl_import (c : nat) (data : bytes) (um : umem) (s : sched) : M cmd_result :=
  let p := hab_import_dec data in
  let! r := hab_mem_import c false (im_index p) (im_vcid p) (im_sizebytes p) (im_exportid p) (im_flags p) s in
  let '(code, kva, s) := r in
  let! data := lift (match kva with Some a => set64 8 a data | None => Ok data end) in
  ret (code, data, um, s).

(* src/hab_linux.c:215-217 hab_ioctl *)
Definition ioctl_unexport (c : nat) (data : bytes) (um : umem) (s : sched) : M cmd_result :=
  let! r := hab_mem_unexport c (i32 (get32 data 0)) (get32 data 4) in
  ret (r, data, um, s).

(* src/hab_linux.c:218-220 hab_ioctl *)
Definition ioctl_unimport (c : nat) (data : bytes) (um : umem) (s : sched) : M cmd_result :=
  let! r := hab_mem_unimport c false (i32 (get32 data 0)) (get32 data 4) in
  let! data := lift (match r.2 with Some a => set64 8 a data | None => Ok data end) in
  ret (r.1, data, um, s).

(* src/hab_linux.c:221-245 hab_ioctl *)
Definition ioctl_query (c : nat) (data : bytes) (um : umem) (s : sched) : M cmd_result :=
  let p := hab_info_dec data in
  if (nf_names p =? 0) || (nf_namesize p =? 0) || (30 <? nf_namesize p) then ret (- EINVAL, data, um, s)
  else
    let! r := hab_vchan_query c (nf_vcid p) (repeat 0 30) (nf_namesize p) in
    match r.2 with
    | None => ret (r.1, data, um, s)
    | Some (ids, names) =>
        let! data := lift (set64 8 ids data) in
        let! bs := lift (of_opt OutOfBounds (mem_read names 0 (nf_namesize p))) in
        let x := copy_to_user um (nf_names p) bs in
        if x.2 =? 0 then ret (r.1, data, x.1, s)
        else let! data := lift (set32 24 0 data) in ret (- EFAULT, data, x.1, s)
    end.

(* src/hab_linux.c:151-249 hab_ioctl *)
Definition ioctl_command (c : nat) (cmd : Z) (data : bytes) (um : umem) (s : sched) : M cmd_result :=
  if cmd =? IOCTL_HAB_VC_OPEN then ioctl_open c data um s
  else if cmd =? IOCTL_HAB_VC_CLOSE then ioctl_close c data um s
  else if cmd =? IOCTL_HAB_SEND then ioctl_send c data um s
  else if cmd =? IOCTL_HAB_RECV then ioctl_recv c data um s
  else if cmd =? IOCTL_HAB_VC_EXPORT then ioctl_export c data um s
  else if cmd =? IOCTL_HAB_VC_IMPORT then ioctl_import c data um s
  else if cmd =? IOCTL_HAB_VC_UNEXPORT then ioctl_unexport c data um s
  else if cmd =? IOCTL_HAB_VC_UNIMPORT then ioctl_unimport c data um s
  else if cmd =? IOCTL_HAB_VC_QUERY then ioctl_query c data um s
  else ret (- ENOIOCTLCMD, data, um, s).

(** The structure is copied into a buffer of 256 bytes, and back. *)
(* src/hab_linux.c:125-258 hab_ioctl *)
Definition hab_ioctl (c : nat) (cmd arg : Z) (um : umem) (s : sched) : M (Z * umem * sched) :=
  let size := IOC_SIZE cmd in
  let copies := negb (size =? 0) && (IOC_IN cmd || IOC_OUT cmd) in
  if copies && (256 <? size) then ret (- EINVAL, um, s)
  else
    match (if copies && IOC_IN cmd then copy_from_user um arg (Z.to_nat size) else Some []) with
    | None => ret (- EFAULT, um, s)
    | Some bs =>
        let! r := ioctl_command c cmd (bs ++ repeat 0 (256 - length bs)) um s in
        let '(code, data, um, s) := r in
        if negb (code =? - ENOIOCTLCMD) && negb (size =? 0) && IOC_OUT cmd then
          let x := copy_to_user um arg (take (Z.to_nat size) data) in
          ret ((if x.2 =? 0 then code else - EFAULT), x.1, s)
        else ret (code, um, s)
    end.
End ops.

(** ** Copies *)

Lemma copy_to_user_app bs bs' : forall um addr,
  copy_to_user um addr (bs ++ bs') =
  let r := copy_to_user um addr bs in
  if r.2 =? 0 then copy_to_user (r.1) (addr + zlen bs) bs' else (r.1, r.2 + zlen bs').
Proof.
  induction bs as [|b bs IH]; intros um addr; cbv zeta.
  - simpl. by rewrite Z.add_0_r.
  - cbn [copy_to_user app]. destruct (um !! addr).
    + rewrite IH. cbv zeta. destruct (_ =? 0); [|done]. f_equal. unfold zlen. simpl length. lia.
    + unfold zlen. cbn [fst snd length]. destruct (Z.eqb_spec (Z.of_nat (S (length bs))) 0); [lia|]. f_equal. rewrite length_app. lia.
Qed.

Lemma copy_to_user_left bs : forall um addr, 0 <= (copy_to_user um addr bs).2 <= zlen bs.
Proof.
  induction bs as [|b bs IH]; intros um addr; cbn [copy_to_user]; [done|]. unfold zlen in *. simpl length.
  destruct (um !! addr); [specialize (IH (<[addr:=b]> um) (addr + 1)); lia|simpl; lia].
Qed.

(** A copy that leaves nothing puts the bytes at the address and changes no other. *)
Lemma copy_to_user_spec bs : forall um addr, (copy_to_user um addr bs).2 = 0 ->
  forall a, (copy_to_user um addr bs).1 !! a =
    if (addr <=? a) && (a <? addr + zlen bs) then bs !! Z.to_nat (a - addr) else um !! a.
Proof.
  induction bs as [|b bs IH]; intros um addr Hl a.
  - unfold zlen. cbn [copy_to_user length fst snd]. destruct (Z.leb_spec addr a), (Z.ltb_spec a (addr + Z.of_nat 0)); try done; lia.
  - cbn [copy_to_user] in *. destruct (um !! addr) as [x|] eqn:Hx; [|unfold zlen in Hl; simpl in Hl; lia].
    rewrite IH by done. unfold zlen. simpl length. destruct (Z.leb_spec (addr + 1) a), (Z.ltb_spec a (addr + 1 + Z.of_nat (length bs))),
      (Z.leb_spec addr a), (Z.ltb_spec a (addr + Z.of_nat (S (length bs)))); try lia; cbn [andb]; rewrite ?lookup_insert.
    + replace (Z.to_nat (a - addr)) with (S (Z.to_nat (a - (addr + 1)))) by lia. done.
    + case_decide; [lia|done].
    + case_decide; [|lia]. by replace (Z.to_nat (a - addr)) with 0%nat by lia.
    + case_decide; [lia|done].
Qed.

Lemma copy_to_user_dom bs : forall um addr a, is_Some (um !! a) -> is_Some ((copy_to_user um addr bs).1 !! a).
Proof.
  induction bs as [|b bs IH]; intros um addr a Ha; cbn [copy_to_user]; [done|]. destruct (um !! addr); [|done].
  apply IH. rewrite lookup_insert. by case_decide.
Qed.

Lemma copy_from_user_len um n : forall addr bs, copy_from_user um addr n = Some bs -> length bs = n.
Proof.
  induction n as [|n IH]; intros addr bs; simpl; [by intros [= <-]|].
  destruct (um !! addr); [|done]. simpl. destruct (copy_from_user um (addr + 1) n) eqn:He; [|done].
  intros [= <-]. simpl. f_equal. by eapply IH.
Qed.

(** The bytes of a message. *)
Definition msg_bytes (m : hab_message) : bytes := take (Z.to_nat (m_sizebytes m)) (concat (m_data m)).

Lemma zlen_concat (l : list bytes) : zlen (concat l) = foldr Z.add 0 (map zlen l).
Proof. induction l as [|b l IH]; [done|]. simpl. by rewrite zlen_app, IH. Qed.

(** The pages of a message: all full but the last. *)
Definition paged (l : list bytes) : Prop :=
  forallb (Z.eqb PAGE_SIZE) (removelast (map zlen l)) = true /\ forall b, list.last l = Some b -> zlen b <= PAGE_SIZE.

Lemma paged_tail pg l : paged (pg :: l) -> paged l /\ ((zlen pg = PAGE_SIZE) \/ (l = [] /\ zlen pg <= PAGE_SIZE)).
Proof.
  intros [Hf Hl]. destruct l as [|b l].
  - split; [by split|]. right. split; [done|by apply Hl].
  - cbn [map removelast forallb] in Hf. bool_hyps. split; [split; [done|exact Hl]|by left].
Qed.

Lemma msg_ok_paged m : msg_ok m = true -> m_scatter m = true -> paged (m_data m).
Proof.
  intros Hm Hsc. apply andb_true_iff in Hm as [_ Hm]. unfold data_ok in Hm. rewrite Hsc in Hm. simpl in Hm. bool_hyps. split; [done|].
  intros b Hb. match goal with H : forallb (Z.geb _) _ = true |- _ => rewrite forallb_forall in H; specialize (H (zlen b)) end.
  assert (In (zlen b) (map zlen (m_data m))) as Hin by (apply in_map, list_elem_of_In; by apply last_Some_elem_of).
  match goal with H : In _ _ -> _ |- _ => specialize (H Hin) end. lia.
Qed.

Lemma copy_pages_eq l : forall n um dest,
  0 <= n <= zlen (concat l) -> paged l ->
  copy_pages l n um dest =
    let r := copy_to_user um dest (take (Z.to_nat n) (concat l)) in Ok ((r.2 =? 0), r.1).
Proof.
  induction l as [|pg l IH]; intros n um dest Hn Hp; cbn [copy_pages]; cbv zeta.
  - destruct (Z.eqb_spec n 0); [by subst|]. unfold zlen in Hn. simpl in Hn. lia.
  - destruct (Z.eqb_spec n 0) as [->|]; [done|]. pose proof (zlen_nonneg pg).
    rewrite zlen_concat in Hn. cbn [map foldr] in Hn. rewrite <- zlen_concat in Hn.
    destruct (paged_tail _ _ Hp) as [Hp' Hpg].
    assert (Hmin : Z.min n PAGE_SIZE <= zlen pg) by (destruct Hpg as [->|[-> ?]]; [lia|]; unfold zlen in Hn at 2; simpl in Hn; lia).
    unfold PAGE_SIZE in *. rewrite mem_read_Some by lia. cbn [of_opt res_bind]. change (drop (Z.to_nat 0) pg) with pg.
    set (k := Z.min n 4096) in *.
    assert (Hsplit : take (Z.to_nat n) (concat (pg :: l)) = take (Z.to_nat k) pg ++ take (Z.to_nat (n - k)) (concat l)).
    { cbn [concat]. rewrite take_app. f_equal; [|f_equal; unfold zlen in *; lia].
      destruct Hpg as [Hfull|[-> Hshort]]; unfold zlen in *; destruct (Z.le_gt_cases n 4096).
      - by replace k with n by lia.
      - rewrite !take_ge by lia. done.
      - by replace k with n by lia.
      - rewrite !take_ge by lia. done. }
    rewrite Hsplit, copy_to_user_app. cbv zeta. rewrite zlen_take by lia.
    destruct (copy_to_user um dest (take (Z.to_nat k) pg)) as [um1 left] eqn:Hc. cbn [fst snd].
    destruct (Z.eqb_spec left 0) as [->|Hne]; cbn [negb].
    + destruct Hpg as [Hfull|[-> Hshort]].
      * pose proof (zlen_nonneg (concat l)). apply IH; [lia|done].
      * unfold zlen in Hn at 2. simpl in Hn. assert (n - k = 0) as -> by (unfold zlen in *; simpl in *; lia). done.
    + cbn [fst snd]. pose proof (copy_to_user_left (take (Z.to_nat k) pg) um dest) as Hleft. rewrite Hc in Hleft. simpl in Hleft.
      pose proof (zlen_nonneg (take (Z.to_nat (n - k)) (concat l))). destruct (Z.eqb_spec (left + zlen (take (Z.to_nat (n - k)) (concat l))) 0); [lia|done].
Qed.

Lemma mem_read_take m n : 0 <= n <= zlen m -> mem_read m 0 n = Some (take (Z.to_nat n) m).
Proof. intros Hn. by rewrite mem_read_Some by lia. Qed.

(** The size of a message of the queue that a client can take. *)
Lemma msg_ok_size m : msg_ok m = true -> 0 <= m_sizebytes m <= zlen (concat (m_data m)).
Proof.
  intros Hm. apply andb_true_iff in Hm as [_ Hm]. unfold data_ok in Hm. rewrite zlen_concat. bool_hyps. lia.
Qed.

Lemma copy_data_eq m um dest :
  msg_ok m = true ->
  hab_copy_data m um dest =
    let r := copy_to_user um dest (msg_bytes m) in Ok ((if r.2 =? 0 then 0 else - EFAULT), r.1).
Proof.
  intros Hm. pose proof (msg_ok_size m Hm) as Hn. unfold hab_copy_data, msg_bytes. cbv zeta.
  destruct (m_scatter m) eqn:Hsc.
  - rewrite copy_pages_eq; [done|done|by apply msg_ok_paged].
  - rewrite mem_read_take by done. done.
Qed.

(** ** The commands keep the driver well-formed *)

Section lemmas.
Context {HS : Type} `{Platform HS} `{KernelIdr}.
Implicit Types (w : world HS) (h : held).
#[local] Abbreviation sched := (list (wake HS)).
Context (dispatch : nat -> World.M HS unit) (stack : hab_open_request) (uninit : Z).
Hypothesis dispatch_ok : forall p, run_ok (dispatch p).

Lemma set32_ok off z d : 0 <= off -> off + 4 <= zlen d -> exists d', set32 off z d = Ok d' /\ zlen d' = zlen d.
Proof.
  intros H1 H2. unfold set32. rewrite mem_write_Some by (rewrite ?le_enc_zlen; lia). eexists. split; [done|].
  eapply mem_write_len. apply mem_write_Some; rewrite ?le_enc_zlen; lia.
Qed.
Lemma set64_ok off z d : 0 <= off -> off + 8 <= zlen d -> exists d', set64 off z d = Ok d' /\ zlen d' = zlen d.
Proof.
  intros H1 H2. unfold set64. rewrite mem_write_Some by (rewrite ?le_enc_zlen; lia). eexists. split; [done|].
  eapply mem_write_len. apply mem_write_Some; rewrite ?le_enc_zlen; lia.
Qed.

Lemma wpf_lift {A} F (r : res A) a (Q : A -> world HS -> Prop) w : r = Ok a -> Q a w -> wpf F (lift r) Q w.
Proof. unfold wpf, lift. by intros ->. Qed.

Lemma hab_vchan_query_spec h c vcid names n w :
  wf h w -> h_x h = None -> c ∈ h_c h -> 0 < n <= zlen names ->
  wp (hab_vchan_query c vcid names n) (fun r w' => wf h w' /\ forall x, r.2 = Some x -> zlen (x.2) = zlen names) w.
Proof.
  intros Hwf Hx Hc Hn. unfold hab_vchan_query. apply wp_bind.
  eapply (hab_get_vchan_fromvcid_spec h); [done|by eapply wf_held_c|by apply wp_ret|].
  intros v vc (Hv & _) Hwf1. rewrite vchans_of_None in Hv by done. set (w1 := set_w_vchans _ _) in *.
  assert (Hv1 : w_vchans w1 !! v = Some (set_vc_refcount (vc_refcount vc + 1) vc)) by apply lookup_insert_eq.
  destruct (wf_vchan_ctx _ _ _ _ Hwf1 Hx Hv1) as (pc & _ & _ & Hpc & _).
  apply wp_bind. eapply wp_get_v; [done|].
  assert (Hput : forall (r : Z * option (Z * bytes)), (forall x, r.2 = Some x -> zlen (x.2) = zlen names) ->
    wp (do! hab_vchan_put v in ret r) (fun r w' => wf h w' /\ forall x, r.2 = Some x -> zlen (x.2) = zlen names) w1).
  { intros r Hr. apply wp_bind. eapply wp_mono; [by eapply (hab_vchan_put_spec h)|]. intros [] w2 ?. by apply wp_ret. }
  destruct (vc_otherend_closed _); [by apply Hput|].
  apply wp_bind. eapply wp_get_p; [exact Hpc|]. cbv zeta.
  destruct (mem_write names 0 [0]) as [n1|] eqn:E1; [|by rewrite mem_write_Some in E1 by (unfold zlen in *; simpl; lia)].
  pose proof (mem_write_len _ _ _ _ E1) as L1. pose proof (Z.div_pos n 2 ltac:(lia) ltac:(lia)). pose proof (Z.div_lt n 2 ltac:(lia) ltac:(lia)).
  destruct (mem_write n1 (n / 2) [0]) as [n2|] eqn:E2; [|by rewrite mem_write_Some in E2 by (unfold zlen in *; simpl; lia)].
  pose proof (mem_write_len _ _ _ _ E2) as L2.
  apply wp_bind, wp_lift. simpl. apply wp_bind, wp_lift. rewrite E2. simpl. apply Hput. intros x [= <-]. simpl. congruence.
Qed.

(** Every command ends with a well-formed driver and a buffer of the same size. *)
Definition cmd_post h (data : bytes) (r : Z * bytes * gmap Z Z * sched) w : Prop := wf h w /\ zlen (r.1.1.2) = zlen data.

(** What opening and exporting ask of the devices and of the exported buffers. *)
Definition ioctl_ready w : Prop :=
  (forall mm, dev_ready w mm (if w_loopback w then LOOPBACK_DOM else HABCFG_VMID_DONT_CARE)) /\
  (forall buffer flags n, covered false buffer flags n).

Section commands.
Context (h : held) (c : nat) (data : bytes) (um : gmap Z Z) (s : sched).
Hypotheses (Hx : h_x h = None) (Hc : c ∈ h_c h) (Hs : sched_ok s) (Hlen : zlen data = 256).

Lemma ioctl_open_spec w : wf h w -> ioctl_ready w -> wpf (eq NullDeref) (ioctl_open stack c data um s) (cmd_post h data) w.
Proof.
  intros Hwf [Hdev _]. unfold ioctl_open. apply wpf_bind_f. eapply wpf_mono.
  { eapply wpf_weaken; [apply (hab_vchan_open_spec h); [done|done|done|done|apply Hdev]|]. by intros f [-> _]. }
  intros [[code vcid] s'] w' (Hwf' & _). apply wpf_bind, wp_lift.
  destruct (set32_ok 0 vcid data) as (d' & He & Hl); [lia..|]. destruct (code =? 0); [rewrite He|]; by apply wpf_ret.
Qed.

Lemma ioctl_close_spec w : wf h w -> wpf (eq NullDeref) (ioctl_close c data um s) (cmd_post h data) w.
Proof.
  intros Hwf. apply wpf_wp, wp_bind. eapply wp_mono; [by apply (hab_vchan_close_spec h)|]. intros r w' ?. by apply wp_ret.
Qed.

Lemma ioctl_send_spec w : wf h w -> wpf (eq NullDeref) (ioctl_send c data um s) (cmd_post h data) w.
Proof.
  intros Hwf. apply wpf_wp. unfold ioctl_send. cbv zeta. destruct (_ <? _); [by apply wp_ret|].
  apply wp_bind, wp_kalloc; intros l; [apply wp_ret; split; [eapply wf_frame; [apply frame_alloc|done]|done]|].
  pose proof (wf_next h l w Hwf) as Hwf1. destruct (copy_from_user _ _ _) as [bs|]; [|by apply wp_ret].
  apply wp_bind. eapply wp_mono; [by apply (hab_vchan_send_spec h)|]. intros r w' [? _]. by apply wp_ret.
Qed.

Lemma ioctl_recv_spec w : wf h w ->
  wpf (eq NullDeref) (ioctl_recv dispatch c data um s) (cmd_post h data) w.
Proof.
  intros Hwf. apply wpf_wp. unfold ioctl_recv. cbv zeta. destruct (_ =? _); [by apply wp_ret|].
  apply wp_bind. eapply wp_mono; [by apply (hab_vchan_recv_spec dispatch h)|].
  intros [[[code msg] rsize] s'] w' (Hwf' & _ & Hcode & Hok). simpl in Hcode, Hok.
  destruct (set32_ok 12 rsize data) as (d1 & E1 & L1); [lia..|]. apply wp_bind, wp_lift. rewrite E1.
  destruct msg as [m|]; [|by apply wp_ret; split; [|simpl; lia]]. specialize (Hok m eq_refl).
  assert (Hfree : forall x, zlen (x.1.2) = zlen data ->
    wp (do! hab_msg_free m in ret (x, s')) (cmd_post h data) w').
  { intros x Hl. apply wp_bind. unfold hab_msg_free. pose proof (andb_prop _ _ Hok) as [Hp _].
    destruct (m_scatter m); simpl in *; [|by apply wp_ret, wp_ret]. destruct (Z.ltb_spec (zlen (m_data m)) (page_count (m_sizebytes m))).
    - apply Z.leb_le in Hp. lia.
    - by apply wp_ret, wp_ret. }
  apply wp_bind. destruct (Z.eqb_spec code 0) as [->|]; [|by apply wp_ret, Hfree; simpl; lia].
    rewrite copy_data_eq by done. cbv zeta. apply wp_bind, wp_lift, wp_bind, wp_lift. cbn [fst snd].
  destruct (set32_ok 12 0 d1) as (d2 & E2 & L2); [lia..|].
  destruct (_ =? 0); cbn [Z.eqb]; [by apply wp_ret, Hfree; simpl; lia|]. rewrite E2. apply wp_ret, Hfree. simpl. lia.
Qed.

Lemma get32_range d off : bytes_ok d -> 0 <= get32 d off < 2 ^ 32.
Proof.
  intros Hd. unfold get32. pose proof (le_dec_range (take 4 (drop off d))) as Hr.
  assert (Hb : bytes_ok (take 4 (drop off d))) by by apply Forall_take, Forall_drop.
  specialize (Hr Hb). split; [lia|]. eapply Z.lt_le_trans; [apply Hr|]. change (2 ^ 32) with (256 ^ 4).
  apply Z.pow_le_mono_r; [lia|]. unfold zlen. rewrite length_firstn. lia.
Qed.

Lemma ioctl_export_spec w : wf h w -> ioctl_ready w -> bytes_ok data ->
  wpf (eq NullDeref) (ioctl_export uninit c data um s) (cmd_post h data) w.
Proof.
  intros Hwf [_ Hcov] Hb. unfold ioctl_export. cbv zeta. apply wpf_bind_f. eapply wpf_mono.
  { apply (hab_mem_export_spec h); [done|done|done|done|by apply get32_range|apply Hcov]. }
  intros [[code id] s'] w' [Hwf' _]. apply wpf_bind, wp_lift.
  destruct id as [i|]; [|by apply wpf_ret]. destruct (set32_ok 16 i data) as (d' & -> & Hl); [lia..|]. by apply wpf_ret.
Qed.

Lemma ioctl_import_spec w : wf h w -> wpf (eq NullDeref) (ioctl_import c data um s) (cmd_post h data) w.
Proof.
  intros Hwf. apply wpf_wp. unfold ioctl_import. cbv zeta. apply wp_bind. eapply wp_mono; [by apply (hab_mem_import_spec h)|].
  intros [[code kva] s'] w' [Hwf' _]. apply wp_bind, wp_lift.
  destruct kva as [i|]; [|by apply wp_ret]. destruct (set64_ok 8 i data) as (d' & -> & Hl); [lia..|]. by apply wp_ret.
Qed.

Lemma ioctl_unexport_spec w : wf h w -> wpf (eq NullDeref) (ioctl_unexport c data um s) (cmd_post h data) w.
Proof.
  intros Hwf. apply wpf_wp, wp_bind. eapply wp_mono; [by apply (hab_mem_unexport_spec h)|]. intros r w' ?. by apply wp_ret.
Qed.

Lemma ioctl_unimport_spec w : wf h w -> wpf (eq NullDeref) (ioctl_unimport c data um s) (cmd_post h data) w.
Proof.
  intros Hwf. apply wpf_wp, wp_bind. eapply wp_mono; [by apply (hab_mem_unimport_spec h)|]. intros [r kva] w' ?.
  apply wp_bind, wp_lift. cbn [fst snd]. destruct kva as [i|]; [|by apply wp_ret].
  destruct (set64_ok 8 i data) as (d' & -> & Hl); [lia..|]. by apply wp_ret.
Qed.

Lemma ioctl_query_spec w : wf h w -> bytes_ok data -> wpf (eq NullDeref) (ioctl_query c data um s) (cmd_post h data) w.
Proof.
  intros Hwf Hb. apply wpf_wp. unfold ioctl_query. cbv zeta. set (p := hab_info_dec data).
  destruct (_ || _ || _) eqn:Hg; [by apply wp_ret|]. bool_hyps.
  assert (Hn : 0 < nf_namesize p <= 30) by (pose proof (get32_range data 24 Hb); change (nf_namesize p) with (get32 data 24) in *; lia).
  apply wp_bind. eapply wp_mono; [apply (hab_vchan_query_spec h c (nf_vcid p) (repeat 0 30) (nf_namesize p)); try done|].
  intros [r o] w' [Hwf' Ho]. cbn [fst snd] in *. destruct o as [[ids names]|]; [|by apply wp_ret].
  specialize (Ho _ eq_refl). change (zlen names = 30) in Ho. destruct (set64_ok 8 ids data) as (d1 & -> & L1); [lia..|].
  apply wp_bind, wp_lift, wp_bind, wp_lift. rewrite mem_read_take by lia. simpl.
  destruct (_ =? 0); [by apply wp_ret|]. destruct (set32_ok 24 0 d1) as (d2 & E2 & L2); [lia..|].
  apply wp_bind, wp_lift. rewrite E2. apply wp_ret. split; [done|simpl; lia].
Qed.

Lemma ioctl_command_spec w cmd : wf h w -> ioctl_ready w -> bytes_ok data ->
  wpf (eq NullDeref) (ioctl_command dispatch stack uninit c cmd data um s) (cmd_post h data) w.
Proof.
  intros Hwf Hr Hb. unfold ioctl_command.
  destruct (cmd =? _); [by apply ioctl_open_spec|].
  destruct (cmd =? _); [by apply ioctl_close_spec|].
  destruct (cmd =? _); [by apply ioctl_send_spec|].
  destruct (cmd =? _); [by apply ioctl_recv_spec|].
  destruct (cmd =? _); [by apply ioctl_export_spec|].
  destruct (cmd =? _); [by apply ioctl_import_spec|].
  destruct (cmd =? _); [by apply ioctl_unexport_spec|].
  destruct (cmd =? _); [by apply ioctl_unimport_spec|].
  destruct (cmd =? _); [by apply ioctl_query_spec|].
  by apply wpf_ret.
Qed.
End commands.

Lemma copy_from_user_ok um n : forall addr bs, map_Forall (fun _ b => 0 <= b < 256) um ->
  copy_from_user um addr n = Some bs -> bytes_ok bs.
Proof.
  induction n as [|n IH]; intros addr bs Hu; simpl; [intros [= <-]; constructor|].
  destruct (um !! addr) as [b|] eqn:Hb; [|done]. simpl. destruct (copy_from_user um (addr + 1) n) eqn:He; [|done].
  intros [= <-]. constructor; [by apply (Hu addr)|by eapply IH].
Qed.

Lemma hab_ioctl_spec h c cmd arg um s w :
  wf h w -> h_x h = None -> c ∈ h_c h -> sched_ok s -> ioctl_ready w -> map_Forall (fun _ b => 0 <= b < 256) um ->
  wpf (eq NullDeref) (hab_ioctl dispatch stack uninit c cmd arg um s) (fun _ w' => wf h w') w.
Proof.
  intros Hwf Hx Hc Hs Hr Hu. unfold hab_ioctl. cbv zeta. destruct (_ && (256 <? _)) eqn:Hsz; [by apply wpf_ret|].
  set (got := if _ && IOC_IN cmd then _ else Some []).
  assert (Hgot : forall bs, got = Some bs -> bytes_ok bs /\ (length bs <= 256)%nat).
  { intros bs. unfold got. destruct (_ && IOC_IN cmd) eqn:Hin; [|intros [= <-]; split; [constructor|simpl; lia]].
    intros Hg. split; [by eapply copy_from_user_ok|]. rewrite (copy_from_user_len _ _ _ _ Hg).
    apply andb_true_iff in Hin as [Hcp _]. rewrite Hcp in Hsz. apply Z.ltb_ge in Hsz. lia. }
  destruct got as [bs|]; [|by apply wpf_ret]. destruct (Hgot bs eq_refl) as [Hb Hl].
  set (data := bs ++ repeat 0 (256 - length bs)).
  assert (Hlen : zlen data = 256) by (unfold data, zlen; rewrite length_app, repeat_length; lia).
  assert (Hok : bytes_ok data).
  { apply Forall_app. split; [done|]. apply list.Forall_forall. intros b Hin%list_elem_of_In%repeat_spec. subst. lia. }
  apply wpf_bind_f. eapply wpf_mono; [by apply (ioctl_command_spec h)|].
  intros [[[code d'] um'] s'] w' [Hwf' _]. cbn beta iota zeta. by destruct (negb (code =? - ENOIOCTLCMD) && _ && _); apply wpf_ret.
Qed.
End lemmas.

(** ** What a program can rely on *)

(** The copy leaves nothing exactly when all of the destination can be written. *)
Lemma copy_to_user_all bs : forall um addr,
  (copy_to_user um addr bs).2 = 0 <-> forall a, addr <= a < addr + zlen bs -> is_Some (um !! a).
Proof.
  induction bs as [|b bs IH]; intros um addr; cbn [copy_to_user].
  - split; [|done]. intros _ a Ha. unfold zlen in Ha. simpl in Ha. lia.
  - unfold zlen. cbn [length]. destruct (um !! addr) as [x|] eqn:Hx; cbn [fst snd].
    + rewrite IH. unfold zlen. split; intros Ha a Hr.
      * destruct (decide (a = addr)) as [->|]; [done|]. specialize (Ha a ltac:(lia)).
        by rewrite lookup_insert_ne in Ha by lia.
      * rewrite lookup_insert. case_decide; [done|]. apply Ha. lia.
    + split; [unfold zlen; simpl; lia|]. intros Ha. destruct (Ha addr ltac:(lia)). congruence.
Qed.

Lemma msg_bytes_zlen m : msg_ok m = true -> zlen (msg_bytes m) = m_sizebytes m.
Proof. intros Hm%msg_ok_size. unfold msg_bytes, zlen in *. rewrite length_firstn. lia. Qed.

(** C16: A received message is copied out whole, and nothing else is written: a scattered
    message page by page, to the same bytes as one in one piece.  It fails exactly when
    some address of the destination cannot be written. *)
Theorem hab_copy_data_whole (m : hab_message) (um : gmap Z Z) (dest : Z) :
  msg_ok m = true ->
  exists code um', hab_copy_data m um dest = Ok (code, um') /\
    (code = 0 \/ code = - EFAULT) /\
    (code = 0 <-> forall a, dest <= a < dest + m_sizebytes m -> is_Some (um !! a)) /\
    (code = 0 -> forall a, um' !! a =
       if (dest <=? a) && (a <? dest + m_sizebytes m) then concat (m_data m) !! Z.to_nat (a - dest) else um !! a).
Proof.
  intros Hm. rewrite copy_data_eq by done. cbv zeta. pose proof (msg_bytes_zlen m Hm) as Hl. eexists _, _. split; [done|].
  pose proof (copy_to_user_all (msg_bytes m) um dest) as Hall. rewrite Hl in Hall.
  destruct (Z.eqb_spec (copy_to_user um dest (msg_bytes m)).2 0) as [He|He].
  - split; [by left|]. split; [tauto|]. intros _ a. rewrite copy_to_user_spec, Hl by done.
    destruct (Z.leb_spec dest a), (Z.ltb_spec a (dest + m_sizebytes m)); try done. unfold msg_bytes. cbn [andb].
    rewrite lookup_take. by rewrite decide_True by lia.
  - split; [by right|]. split; [split; [done|]|done]. intros Ha. by apply Hall in Ha.
Qed.

Definition paged_message : hab_message :=
  Build_hab_message (PAGE_SIZE + 2) true 0 [repeat 7 (Z.to_nat PAGE_SIZE); [1; 2; 0; 0]].

Lemma hab_copy_data_whole_witness :
  exists um', hab_copy_data paged_message {[0x1000 := 5]} 0x1000 = Ok (- EFAULT, um') /\ um' !! 0x1000 = Some 7.
Proof.
  destruct (hab_copy_data_whole paged_message {[0x1000 := 5]} 0x1000) as (code & um' & He & Hc & Hall & _).
  - by vm_compute.
  - exists um'. destruct Hc as [->| ->].
    + destruct (proj1 Hall eq_refl 0x1001) as [x Hx]; [vm_compute; split; congruence|]. by vm_compute in Hx.
    + split; [exact He|]. vm_compute in He. injection He as <-. by vm_compute.
Defined.


Definition user_memory (addr : Z) (bs : bytes) : gmap Z Z := list_to_map (zip (seqZ addr (zlen bs)) bs).

(** A program that sends three bytes over the first channel. *)
Definition send_struct : bytes := le_enc 8 0x2000 ++ le_enc 4 1 ++ le_enc 4 3 ++ le_enc 4 0 ++ le_enc 4 0.
Definition send_memory : gmap Z Z := user_memory 0x1000 send_struct ∪ user_memory 0x2000 [10; 11; 12].

