(* ===== verification/Release.v ===== *)
(** Opening and releasing the device file: what a context leaves behind.  A release
    takes the channels out of the context one by one; the steps in between leave the
    lists of the contexts alone, which is shown for all of them at once. *)
From S2P Require Import Prelude Header World Logic Memory Invariant Pchan Exports Context Vchan Wait Open Loopback Sample Msg Mimex Hab Linux.

(** Every context that is left has the channels and the pending opens it had. *)
Definition ctx_same {HS} (w w' : world HS) : Prop :=
  forall c cx', w_ctxs w' !! c = Some cx' ->
    exists cx, w_ctxs w !! c = Some cx /\ cx_vchannels cx' = cx_vchannels cx /\ cx_pending_open cx' = cx_pending_open cx.

#[export] Instance ctx_same_preorder {HS} : PreOrder (@ctx_same HS).
Proof.
  split.
  - intros w c cx Hc. by exists cx.
  - intros w1 w2 w3 H1 H2 c cx Hc. destruct (H2 c cx Hc) as (cy & Hy & ? & ?). destruct (H1 c cy Hy) as (cz & ? & ? & ?).
    exists cz. split_and!; congruence.
Qed.

Definition steady {HS A} (m : World.M HS A) : Prop := forall w a w', m w = Ok (a, w') -> ctx_same w w'.

Create HintDb steady.

Section rules.
Context {HS : Type}.
Implicit Types (w : world HS).

Lemma ctx_same_eq w w' : w_ctxs w' = w_ctxs w -> ctx_same w w'.
Proof. intros He c cx Hc. exists cx. by rewrite <- He. Qed.

Lemma steady_bind {A B} (m : World.M HS A) (k : A -> World.M HS B) : steady m -> (forall a, steady (k a)) -> steady (bind m k).
Proof.
  intros Hm Hk w b w' He. unfold bind in He. destruct (m w) as [[a w1]| |] eqn:E; try done.
  etrans; [by eapply Hm|by eapply Hk].
Qed.

(** A step that does not touch the contexts. *)
Lemma steady_aside {A} (m : World.M HS A) : (forall w, match m w with Ok (_, w') => w_ctxs w' = w_ctxs w | _ => True end) -> steady m.
Proof. intros Hm w a w' He. specialize (Hm w). rewrite He in Hm. by apply ctx_same_eq. Qed.

Lemma steady_ret {A} (a : A) : steady (@ret HS A a).
Proof. apply steady_aside. by intros w. Qed.
Lemma steady_fail {A} f : steady (@fail HS A f).
Proof. apply steady_aside. by intros w. Qed.
Lemma steady_gets {A} (f : world HS -> A) : steady (gets f).
Proof. apply steady_aside. by intros w. Qed.
Lemma steady_log e : steady (@log HS e).
Proof. apply steady_aside. by intros w. Qed.
Lemma steady_deref o : steady (@deref HS o).
Proof. destruct o; [apply steady_ret|apply steady_fail]. Qed.
Lemma steady_get_p x : steady (@get_p HS x).
Proof. apply steady_aside. intros w. unfold get_p. by destruct (_ !! x). Qed.
Lemma steady_get_v x : steady (@get_v HS x).
Proof. apply steady_aside. intros w. unfold get_v. by destruct (_ !! x). Qed.
Lemma steady_get_c x : steady (@get_c HS x).
Proof. apply steady_aside. intros w. unfold get_c. by destruct (_ !! x). Qed.
Lemma steady_get_e x : steady (@get_e HS x).
Proof. apply steady_aside. intros w. unfold get_e. by destruct (_ !! x). Qed.
Lemma steady_get_i x : steady (@get_i HS x).
Proof. apply steady_aside. intros w. unfold get_i. by destruct (_ !! x). Qed.
Lemma steady_upd_p x f : steady (@upd_p HS x f).
Proof. apply steady_aside. intros w. unfold upd_p. by destruct (_ !! x). Qed.
Lemma steady_upd_v x f : steady (@upd_v HS x f).
Proof. apply steady_aside. intros w. unfold upd_v. by destruct (_ !! x). Qed.
Lemma steady_upd_e x f : steady (@upd_e HS x f).
Proof. apply steady_aside. intros w. unfold upd_e. by destruct (_ !! x). Qed.
Lemma steady_upd_d x f : steady (@upd_d HS x f).
Proof. apply steady_aside. intros w. unfold upd_d. by destruct (_ !! x). Qed.
Lemma steady_msg_free m : steady (@hab_msg_free HS m).
Proof. unfold hab_msg_free. destruct (_ && _); [apply steady_fail|apply steady_ret]. Qed.
Lemma steady_upd_c x f :
  (forall cx, cx_vchannels (f cx) = cx_vchannels cx /\ cx_pending_open (f cx) = cx_pending_open cx) -> steady (@upd_c HS x f).
Proof.
  intros Hf w a w' He. unfold upd_c in He. destruct (w_ctxs w !! x) as [cx|] eqn:Hx; [|done]. injection He as _ <-.
  intros c cx' Hc. simpl in Hc. rewrite lookup_insert in Hc. case_decide; [|by exists cx']. subst. injection Hc as <-.
  exists cx. split; [done|apply Hf].
Qed.
Lemma steady_modify (f : world HS -> world HS) : (forall w, ctx_same w (f w)) -> steady (modify f).
Proof. intros Hf w a w' [= _ <-]. apply Hf. Qed.
Lemma steady_when b (m : World.M HS unit) : steady m -> steady (when b m).
Proof. destruct b; [done|]. intros _. apply steady_ret. Qed.
Lemma steady_for_each {A} (f : A -> World.M HS unit) l : (forall x, steady (f x)) -> steady (for_each f l).
Proof. intros Hf. induction l; simpl; [apply steady_ret|]. by apply steady_bind. Qed.
End rules.

#[export] Hint Resolve steady_ret steady_fail steady_gets steady_log steady_deref steady_get_p steady_get_v steady_get_c
  steady_get_e steady_get_i steady_upd_p steady_upd_v steady_upd_e steady_upd_d steady_msg_free : steady.

Ltac steady :=
  repeat match goal with
  | |- steady (bind _ _) => apply steady_bind; [|intros ?]
  | |- steady (when _ _) => apply steady_when
  | |- steady (for_each _ _) => apply steady_for_each; intros ?
  | |- steady (upd_c _ _) => apply steady_upd_c; by intros []
  | |- steady (modify _) => apply steady_modify; intros ?; by apply ctx_same_eq
  | |- steady (match ?x with _ => _ end) => destruct x
  | |- _ => solve [auto with steady]
  end.

(** A fresh context joins the list of contexts; its creator holds it. *)
Section fresh.
Context {HS : Type} (h : held) (w w' : world HS) (c : nat) (cx : uhab_context).
Hypothesis Hwf : wf h w.
Hypothesis Hnew : (w_next w <= c < w_next w')%nat.
Hypothesis Hctxs : w_ctxs w' = <[c := cx]> (w_ctxs w).
Hypothesis Hlist : w_uctx_list w' = w_uctx_list w ++ [c].
Hypothesis Hcnt : w_ctx_cnt w' = w_ctx_cnt w + 1.
Hypothesis Hsame : w_pchans w' = w_pchans w /\ w_vchans w' = w_vchans w /\ w_exps w' = w_exps w /\ w_imps w' = w_imps w /\
  w_devs w' = w_devs w /\ w_hyp w' = w_hyp w /\ w_reclaim_list w' = w_reclaim_list w /\ w_imp_list w' = w_imp_list w.
Hypothesis Hempty : cx_refcount cx = 1 /\ cx_vchannels cx = [] /\ cx_vcnt cx = 0 /\ cx_exp_whse cx = [] /\ cx_imp_whse cx = ∅.

Lemma fresh_none : w_ctxs w !! c = None.
Proof. apply (proj1 (wf_fresh _ _ Hwf)). apply Hnew. Qed.

Lemma fresh_old a ax : w_ctxs w !! a = Some ax -> w_ctxs w' !! a = Some ax /\ a <> c.
Proof.
  pose proof fresh_none. intros Ha. assert (a <> c) by congruence. split; [|done]. by rewrite Hctxs, lookup_insert_ne.
Qed.

Lemma fresh_cases a ax : w_ctxs w' !! a = Some ax -> (a = c /\ ax = cx) \/ (a <> c /\ w_ctxs w !! a = Some ax).
Proof. rewrite Hctxs. intros [[<- <-]|[? ?]]%lookup_insert_Some; auto. Qed.

Lemma fresh_vchans : vchans_of (held_c c h) w' = vchans_of h w.
Proof. unfold vchans_of. destruct Hsame as (_ & -> & _). done. Qed.

Lemma fresh_owned e ex : export_owned w e ex -> export_owned w' e ex.
Proof. destruct Hsame as (E & _). unfold export_owned. by rewrite E. Qed.

Lemma fresh_vchan v vc : vchan_ok h w v vc -> vchan_ok (held_c c h) w' v vc.
Proof.
  intros (pc & a & ax & ? & ? & ? & ? & Ha & ? & ?). exists pc, a, ax. destruct Hsame as (-> & _).
  destruct (fresh_old _ _ Ha). by split_and!.
Qed.

Lemma fresh_pchan_ok p pc : pchan_ok h w p pc -> pchan_ok (held_c c h) w' p pc.
Proof.
  destruct Hsame as (Ep & Ev & Ee & _ & Ed & Eh & _). unfold pchan_ok. rewrite fresh_vchans, Ev, Ee, Ed, Eh. done.
Qed.

Lemma fresh_ctx_ok a ax : ctx_ok h w a ax -> ctx_ok (held_c c h) w' a ax.
Proof.
  destruct Hsame as (Ep & _ & Ee & Ei & _). intros (Hu & ? & ? & ? & ? & He & Hi & ?). unfold ctx_ok.
  rewrite fresh_vchans, Hlist, Ee, Ei, Ep. split_and!; try done.
  - apply elem_of_app. by left.
  - intros e Hin. destruct (He e Hin) as (ex & ? & ? & ?). exists ex. split; [done|]. split; [by apply fresh_owned|done].
  - cbn [occ held_c h_c]. case_decide; [|lia]. exfalso.
    destruct (proj1 (proj2 (wf_drv _ _ Hwf)) _ Hu). pose proof fresh_none. congruence.
Qed.

Lemma fresh_ctx_new : ctx_ok (held_c c h) w' c cx.
Proof.
  destruct Hempty as (E1 & E2 & E3 & E4 & E5). unfold ctx_ok. rewrite fresh_vchans, Hlist, E1, E2, E3, E4, E5.
  split_and!; try done; try (by constructor); try (by intros ? ?%elem_of_nil).
  - apply elem_of_app. right. by left.
  - assert (count (fun vc => bool_decide (vc_ctx vc = Some c)) (vchans_of h w) = 0) as ->.
    { unfold count. apply Nat2Z.inj_iff with (m := 0%nat), map_size_empty_iff, map_empty. intros v.
      apply eq_None_not_Some. intros [vc [Hvc Hb]%map_lookup_filter_Some]. simpl in Hb. apply bool_decide_eq_true in Hb.
      destruct (wf_v _ _ Hwf v vc Hvc) as (? & a & ax & _ & _ & _ & Ha & Hax & _). pose proof fresh_none. congruence. }
    cbn [held_c h_c]. rewrite occ_cons_same, occ_notin; [lia|]. intros Hin.
    destruct (wf_held_c _ _ _ Hwf Hin). pose proof fresh_none. congruence.
Qed.

Lemma fresh_driver : driver_ok (held_c c h) w'.
Proof.
  pose proof fresh_none as Hn. destruct Hsame as (Ep & _ & Ee & Ei & _ & _ & Er & _).
  destruct (wf_drv _ _ Hwf) as (D1 & D2 & D3 & D4 & D5 & D6 & D7 & D8 & D9 & D10 & D11).
  unfold driver_ok. rewrite fresh_vchans, Hlist, Hcnt, Er, Ee, Ep. split_and!; try done.
  - apply list.NoDup_app. split; [done|]. split; [|apply NoDup_singleton].
    intros a Ha ->%list_elem_of_singleton. destruct (D2 c Ha). congruence.
  - intros a [Ha| ->%list_elem_of_singleton]%elem_of_app; rewrite Hctxs, lookup_insert; case_decide; try done; auto.
  - rewrite zlen_app, D3. done.
  - intros e He. destruct (D5 e He) as (ex & ? & ? & Hno). exists ex. split; [done|]. split; [by apply fresh_owned|].
    intros a ax [[-> ->]|[_ Ha]]%fresh_cases; [|by eapply Hno]. destruct Hempty as (_ & _ & _ & -> & _). by intros ?%elem_of_nil.
  - intros a Ha. rewrite Hctxs, lookup_insert. case_decide; [done|]. simpl in Ha. apply elem_of_cons in Ha as [->|Ha]; [done|by apply D8].
  - intros a ax k b bx k' e [[-> ->]|[_ Ha]]%fresh_cases [[-> ->]|[_ Hb]]%fresh_cases; try done.
    + destruct Hempty as (_ & _ & _ & _ & ->). by rewrite lookup_empty.
    + destruct Hempty as (_ & _ & _ & _ & ->). by rewrite lookup_empty.
    + by apply D11.
Qed.

Lemma wf_ctx_new : wf (held_c c h) w'.
Proof.
  pose proof fresh_none as Hn. destruct Hsame as (Ep & Ev & Ee & Ei & Ed & _ & _ & Epl). pose proof Hwf as [Hv Hp Hc Hd _ Hfr Hop Hli].
  constructor.
  - intros v vc. rewrite fresh_vchans. intros Hvc. by apply fresh_vchan, Hv.
  - intros p pc. rewrite Ep. intros Hpc. by apply fresh_pchan_ok, Hp.
  - intros a ax [[-> ->]|[_ Ha]]%fresh_cases; [apply fresh_ctx_new|by apply fresh_ctx_ok, Hc].
  - intros d dv. rewrite Ed. unfold dev_ok. rewrite Ep. apply Hd.
  - apply fresh_driver.
  - destruct Hfr as (F1 & (F2 & F3) & F4 & F5 & F6). unfold fresh_ok, pages_below, ctxs_below. rewrite Ep, Ev, Ee, Ei, Ed, Epl.
    split_and!; try done.
    + intros a Ha. destruct (F1 a) as (? & ? & ? & ? & ?); [lia|]. rewrite Hctxs, lookup_insert_ne by lia. done.
    + eapply list.Forall_impl; [exact F3|]. intros x. simpl. lia.
    + intros e ex a He Ha. specialize (F6 e ex a He Ha). lia.
  - destruct Hop as [Hnd Ho]. split; [done|]. intros v a Hin. rewrite fresh_vchans. destruct (Ho v a Hin) as [? Hno].
    split; [done|]. intros b bx [[-> ->]|[_ Hb]]%fresh_cases; [|by eapply Hno].
    destruct Hempty as (_ & -> & _). by intros ?%elem_of_nil.
  - intros p pc i e. rewrite Ep. intros Hpc Hi. destruct (Hli p pc i e Hpc Hi) as (L1 & L2 & L3).
    split; [done|]. split; [done|]. rewrite Ee. intros ex a ax He Hs Ha Hax. apply fresh_cases in Hax as [[-> ->]|[_ Hax]]; [|by eapply L3]. exfalso.
    destruct Hfr as (_ & _ & _ & _ & F6). specialize (F6 e ex c He Ha). lia.
Qed.
End fresh.

Section opening.
Context {HS : Type} `{Platform HS}.
Implicit Types (w : world HS) (h : held).

(** A context that was opened is held by its creator, lists nothing, and keeps the
    rest of the driver as it was. *)
Definition opened h (kernel : bool) w (o : option nat) w' : Prop :=
  match o with
  | None => wf h w'
  | Some c => wf (held_c c h) w' /\ w_ctxs w !! c = None /\ exists cx, w_ctxs w' !! c = Some cx /\
      cx_vchannels cx = [] /\ cx_pending_open cx = [] /\ cx_kernel cx = kernel /\ cx_refcount cx = 1
  end.

Lemma hab_ctx_alloc_spec h kernel w :
  wf h w -> wp (hab_ctx_alloc kernel) (opened h kernel w) w.
Proof.
  intros Hwf. unfold hab_ctx_alloc. apply wp_bind, wp_kalloc; intros l; [apply wp_ret; eapply wf_frame; [apply frame_alloc|done]|].
  apply wp_bind. apply wp_kalloc; intros l2.
  { apply wp_ret. eapply wf_frame; [apply frame_alloc|]. eapply wf_frame; [apply frame_next|done]. }
  apply wp_bind, wp_modify, wp_ret. split; [|split].
  - eapply (wf_ctx_new h w); [done|simpl; lia|done..|by split_and!|by split_and!].
  - by apply (proj1 (wf_fresh _ _ Hwf)).
  - eexists. split; [apply lookup_insert_eq|]. by split_and!.
Qed.

Lemma hab_open_spec h pid w :
  wf h w -> wp (hab_open pid) (fun r w' => r.1 = (if r.2 is Some _ then 0 else - ENOMEM) /\ opened h false w r.2 w') w.
Proof.
  intros Hwf. unfold hab_open. apply wp_bind. eapply wp_mono; [by apply (hab_ctx_alloc_spec h)|].
  intros [c|] w' Ho; [|by apply wp_ret]. destruct Ho as (Hwf' & Hn & cx & Hcx & E1 & E2 & E3 & E4).
  apply wp_bind. eapply wp_upd_c; [exact Hcx|]. apply wp_ret. split; [done|]. split; [|split; [done|]].
  - eapply wf_frame; [|exact Hwf']. by eapply frame_ctx.
  - eexists. split; [apply lookup_insert_eq|]. by split_and!.
Qed.
End opening.

Section operations.
Context {HS : Type} `{Platform HS} `{KernelIdr}.
Implicit Types (w : world HS) (h : held).
#[local] Abbreviation steady := (@Release.steady HS _).

Lemma steady_send p hd bs : steady (physical_channel_send p hd bs).
Proof.
  apply steady_aside. intros w. unfold physical_channel_send. destruct (_ !! p) as [pc|]; [|done]. destruct (_ !! p) as [hs|]; [|done].
  by destruct (phys_send pc hs hd bs) as [[[? ?] ?]|].
Qed.
#[local] Hint Resolve steady_send : steady.
Lemma steady_pchan_put p : steady (hab_pchan_put p).
Proof. unfold hab_pchan_put, hab_pchan_free. steady. Qed.
Lemma steady_export_put e : steady (habmem_export_put e).
Proof. unfold habmem_export_put, habmem_export_destroy, habmem_exp_release. steady. Qed.
#[local] Hint Resolve steady_pchan_put steady_export_put : steady.
Lemma steady_remove_export e : steady (habmem_remove_export e).
Proof. unfold habmem_remove_export. steady. Qed.
#[local] Hint Resolve steady_remove_export : steady.
Lemma steady_free_export c e : steady (ctx_free_export c e).
Proof. unfold ctx_free_export, expid_remove. steady. Qed.
Lemma steady_free_import c kernel k e : steady (ctx_free_import c kernel k e).
Proof. unfold ctx_free_import. steady. Qed.
Lemma steady_touch v : steady (touch_v v).
Proof. unfold touch_v. steady. Qed.
#[local] Hint Resolve steady_free_export steady_free_import steady_touch : steady.
Lemma steady_delete c : steady (modify (fun w => set_w_ctxs (delete c (w_ctxs w)) w)).
Proof. apply steady_modify. intros w a ax Ha. simpl in Ha. apply lookup_delete_Some in Ha as [_ Ha]. by exists ax. Qed.
#[local] Hint Resolve steady_delete : steady.
Lemma steady_ctx_put c : steady (hab_ctx_put c).
Proof.
  unfold hab_ctx_put, hab_ctx_free. steady.
Qed.
#[local] Hint Resolve steady_ctx_put : steady.
Lemma steady_vchan_put v : steady (hab_vchan_put v).
Proof. unfold hab_vchan_put, hab_vchan_free. steady. Qed.
Lemma steady_stop_notify v : steady (hab_vchan_stop_notify v).
Proof. unfold hab_vchan_stop_notify, hab_send_close_msg, hab_vchan_stop. steady. Qed.

Lemma wp_steady {A} (m : World.M HS A) (Q : A -> world HS -> Prop) w :
  steady m -> wp m Q w -> wp m (fun a w' => Q a w' /\ ctx_same w w') w.
Proof. intros Hm Hw. unfold wp in *. destruct (m w) as [[a w']| |] eqn:He; [|done..]. split; [done|by eapply Hm]. Qed.

(** The state of a release: the channels still to close, and the pending opens. *)
Definition releasing h (c : nat) (l : list nat) (pend : list hab_open_request) w : Prop :=
  wf h w /\ exists cx, w_ctxs w !! c = Some cx /\ cx_vchannels cx = l /\ cx_pending_open cx = pend.

Lemma list_del_head v l : NoDup (v :: l) -> list_del v (v :: l) = l.
Proof.
  intros [Hv Hl]%list.NoDup_cons. unfold list_del. rewrite filter_cons. rewrite decide_False by tauto.
  clear Hl. induction l as [|x l IH]; [done|]. apply not_elem_of_cons in Hv as [? Hv]. rewrite filter_cons, decide_True by congruence.
  by rewrite IH.
Qed.

Lemma release_vchan_spec h c v l pend w :
  releasing h c (v :: l) pend w -> h_x h = None -> c ∈ h_c h ->
  wp (release_vchan c v) (fun _ w' => releasing h c l pend w') w.
Proof.
  intros (Hwf & cx & Hcx & Hl & Hp) Hx Hc. destruct (wf_c _ _ Hwf c cx Hcx) as (_ & Hnd & _ & Hvs & _).
  destruct (Hvs v) as (vc & Hv & _); [rewrite Hl; by left|]. rewrite vchans_of_None in Hv by done.
  unfold release_vchan. apply wp_bind. eapply wp_upd_v; [done|]. set (w1 := set_w_vchans _ w).
  assert (Hwf1 : wf h w1) by (eapply wf_frame; [by eapply frame_vchan|done]).
  apply wp_bind. eapply wp_upd_c; [exact Hcx|]. set (cx1 := set_cx_vcnt _ _). set (w2 := set_w_ctxs _ w1).
  assert (Hwf2 : wf (held_v v h) w2) by (apply (wf_unpublish h w1 v c cx Hwf1 Hcx); rewrite Hl; by left).
  assert (Hcx1 : cx_vchannels cx1 = l) by (unfold cx1; simpl; rewrite Hl in *; by apply list_del_head).
  assert (Hc2 : w_ctxs w2 !! c = Some cx1) by apply lookup_insert_eq.
  apply wp_bind. eapply wp_mono.
  { apply wp_steady; [apply steady_stop_notify|]. apply (hab_vchan_stop_notify_spec (held_v v h)); [done|done|].
    eapply wf_held_v; [done|done|by left]. }
  intros [] w3 [Hf Hsame]. assert (Hwf3 : wf (held_v v h) w3) by by eapply wf_frame.
  eapply wp_mono; [apply wp_steady; [apply steady_vchan_put|by apply (hab_vchan_put_spec h)]|].
  intros [] w4 [Hwf4 Hsame2]. split; [done|]. destruct (wf_held_c _ _ _ Hwf4 Hc) as [cx4 Hcx4].
  destruct (transitivity Hsame Hsame2 c cx4 Hcx4) as (cy & Hy & E1 & E2). exists cx4. split; [done|].
  assert (cy = cx1) as -> by congruence. split; [congruence|]. rewrite E2. done.
Qed.

Lemma steady_cancel r : steady (hab_open_cancel_notify r).
Proof. unfold hab_open_cancel_notify. apply steady_bind; [apply steady_deref|intros p; apply steady_send]. Qed.

(** Releasing a context: the file's reference goes, and with it, if nobody else uses
    it, the context. *)
Lemma hab_release_spec h c cx w :
  wf (held_c c h) w -> h_x h = None -> w_ctxs w !! c = Some cx ->
  Forall (fun r => exists p, rq_pchan r = Some p /\ p ∈ h_p h) (cx_pending_open cx) ->
  wp (hab_release (Some c)) (fun r w' => r = 0 /\ wf h w' /\
    forall cx', w_ctxs w' !! c = Some cx' -> cx_vchannels cx' = []) w.
Proof.
  intros Hwf Hx Hcx Hpend. unfold hab_release. apply wp_bind. eapply wp_get_c; [done|].
  set (h1 := held_c c h) in *. assert (Hc : c ∈ h_c h1) by by left.
  apply wp_bind. apply (wp_for_each (fun l w' => releasing h1 c l (cx_pending_open cx) w')).
  { split; [done|]. by exists cx. }
  { intros v l w1 Hr. by apply release_vchan_spec. }
  intros w1 (Hwf1 & cx1 & Hc1 & Hl1 & Hp1). apply wp_bind. eapply wp_get_c; [exact Hc1|]. rewrite Hp1. apply wp_bind.
  apply (wp_for_each (fun l w' => Forall (fun r => exists p, rq_pchan r = Some p /\ p ∈ h_p h) l /\ releasing h1 c [] (cx_pending_open cx) w')).
  { split; [done|]. split; [done|]. by exists cx1. }
  { intros r l w2 [Hrl (Hwf2 & cx2 & Hc2 & Hl2 & Hp2)]. apply list.Forall_cons in Hrl as [(p & Hrp & Hin) Hrl].
    apply wp_bind. eapply wp_mono.
    { apply (wp_steady _ (fun _ w' => io_frame w2 w')); [apply steady_cancel|].
      unfold hab_open_cancel_notify. rewrite Hrp. apply wp_bind, wp_deref.
      destruct (wf_drv _ _ Hwf2) as (_ & _ & _ & _ & _ & _ & Hhp & _).
      eapply (wp_physical_channel_send h1); [done|by apply Hhp|]. by intros. }
    intros r' w3 [Hio Hsame]. apply wp_ret. split; [done|]. split; [by eapply wf_io_frame|].
    exists cx2. by rewrite (io_c _ _ Hio). }
  intros w2 [_ (Hwf2 & cx2 & Hc2 & Hl2 & _)]. apply wp_bind.
  eapply wp_mono; [apply wp_steady; [apply steady_ctx_put|by apply (hab_ctx_put_spec h)]|].
  intros [] w3 [[Hwf3 _] Hsame]. apply wp_ret. split; [done|]. split; [done|].
  intros cx' Hc'. destruct (Hsame c cx' Hc') as (cy & Hy & -> & _). congruence.
Qed.
End operations.


(** A program that opens the device and ends. *)
Definition after_open : world loopback_dev :=
  match hab_open 42 (sample quiet_lb) with Ok (_, w) => w | _ => sample quiet_lb end.

Lemma after_open_eq : hab_open 42 (sample quiet_lb) = Ok ((0, Some 6%nat), after_open).
Proof. by vm_compute. Qed.
Lemma after_open_calm : (cx_pending_open <$> w_ctxs after_open !! 6%nat) = Some [].
Proof. by vm_compute. Qed.
Lemma after_open_ends : hab_release (Some 6%nat) after_open <> Blocked.
Proof. by vm_compute. Qed.
Lemma after_open_gone r w2 : hab_release (Some 6%nat) after_open = Ok (r, w2) -> w_ctxs w2 !! 6%nat = None.
Proof.
  assert (H : match hab_release (Some 6%nat) after_open with Ok (_, w) => w_ctxs w !! 6%nat = None | _ => False end) by by vm_compute.
  intros He. rewrite He in H. exact H.
Qed.

