(* ===== verification/Kernel.v ===== *)
(** The driver as kernel clients see it (os/linux/khab.c, habmm.h): the same operations
    on the driver's own context, with buffers of the caller in place of user memory. *)
From S2P Require Import Prelude Header World Logic Memory Invariant Pchan Exports Context Vchan Wait Open Loopback Sample Msg Mimex Progress Hab LoopThread Config Linux.

(* src/include/linux/habmm.h:362-362 VMNAME_SIZE *)
Definition VMNAME_SIZE : Z := 12.

(** The names are C strings. *)
(* src/include/linux/habmm.h:364-370 hab_socket_info *)
Record hab_socket_info := { si_vmid_remote : Z; si_vmid_local : Z; si_vmname_remote : bytes; si_vmname_local : bytes }.

(** The C string at the start of an array: up to the first 0 byte. *)
Fixpoint cstr (bs : bytes) : bytes :=
  match bs with
  | [] => []
  | b :: bs => if b =? 0 then [] else b :: cstr bs
  end.

(** [strscpy]: at most [n - 1] bytes of the string. *)
Definition strscpy (n : Z) (src : bytes) : bytes := take (Z.to_nat (n - 1)) (cstr src).

(** One page of a scattered message to its place in the buffer. *)
(* src/os/linux/khab.c:57-59 habmm_socket_recv *)
Definition recv_page (pages : list bytes) (i : Z) (dst : bytes) : res bytes :=
  let? pg := arr_get pages i in
  let? bs := of_opt OutOfBounds (mem_read pg 0 PAGE_SIZE) in
  of_opt OutOfBounds (mem_write dst (i * PAGE_SIZE) bs).

(* src/os/linux/khab.c:53-66 habmm_socket_recv *)
Definition recv_copy (m : hab_message) (dst : bytes) : res bytes :=
  if m_scatter m then
    let n := m_sizebytes m / PAGE_SIZE in
    let rest := m_sizebytes m mod PAGE_SIZE in
    let? dst := for_range (recv_page (m_data m)) 0 (Z.to_nat n) dst in
    if rest =? 0 then Ok dst
    else
      let? pg := arr_get (m_data m) n in
      let? bs := of_opt OutOfBounds (mem_read pg 0 rest) in
      of_opt OutOfBounds (mem_write dst (n * PAGE_SIZE) bs)
  else
    let? bs := of_opt OutOfBounds (mem_read (concat (m_data m)) 0 (m_sizebytes m)) in
    of_opt OutOfBounds (mem_write dst 0 bs).

Section ops.
Context {HS : Type} `{Platform HS} `{KernelIdr}.
#[local] Abbreviation M := (World.M HS).
#[local] Abbreviation sched := (list (wake HS)).
(** [kctx] is the driver's own context; the other two are what uninitialised variables
    of the operations hold. *)
Context (physical_channel_rx_dispatch : nat -> M unit) (kctx : nat) (stack : hab_open_request) (uninit : Z).

(* src/os/linux/khab.c:9-14 habmm_socket_open *)
Definition habmm_socket_open (mm_ip_id timeout : Z) (s : sched) : M (Z * Z * sched) :=
  hab_vchan_open kctx mm_ip_id (i32 timeout) stack s.

(* src/os/linux/khab.c:17-20 habmm_socket_close *)
Definition habmm_socket_close (handle : Z) : M Z := hab_vchan_close kctx handle.

(** [src] is what the caller's buffer holds, as long as the size it gives. *)
(* src/os/linux/khab.c:23-35 habmm_socket_send *)
Definition habmm_socket_send (handle : Z) (src : bytes) (flags : Z) (s : sched) : M (Z * sched) :=
  hab_vchan_send kctx handle src flags s.

(** The code, the buffer and the size as they are left. *)
(* src/os/linux/khab.c:38-75 habmm_socket_recv *)
Definition habmm_socket_recv (handle : Z) (dst : option bytes) (size : option Z) (timeout flags : Z) (s : sched) :
    M (Z * option bytes * option Z * sched) :=
  match size, dst with
  | Some sz, Some buf =>
      let! r := hab_vchan_recv physical_channel_rx_dispatch kctx handle (i32 sz) timeout flags s in
      let '(code, msg, n, s) := r in
      let! buf := lift (match msg with
                        | Some m => if code =? 0 then recv_copy m buf else Ok buf
                        | None => Ok buf
                        end) in
      do! match msg with Some m => hab_msg_free m | None => ret tt end in
      ret (code, Some buf, Some (u32 n), s)
  | _, _ => ret (- EINVAL, dst, size, s)
  end.

(** The second part is what is written through [export_id], if that is given. *)
(* src/os/linux/khab.c:78-97 habmm_export *)
Definition habmm_export (handle buff size_bytes : Z) (export_id : bool) (flags : Z) (s : sched) : M (Z * option Z * sched) :=
  if export_id then
    let! r := hab_mem_export kctx true buff handle size_bytes flags uninit s in
    let '(code, id, s) := r in
    ret (code, Some (default 0 id), s)
  else ret (- EINVAL, None, s).

(* src/os/linux/khab.c:100-108 habmm_unexport *)
Definition habmm_unexport (handle export_id : Z) : M Z := hab_mem_unexport kctx handle export_id.

(** The second part is what is written through [buff_shared], if that is given. *)
(* src/os/linux/khab.c:111-131 habmm_import *)
Definition habmm_import (handle : Z) (buff_shared : bool) (size_bytes export_id flags : Z) (s : sched) :
    M (Z * option Z * sched) :=
  if buff_shared then
    let! r := hab_mem_import kctx true 0 handle size_bytes export_id flags s in
    let '(code, kva, s) := r in
    ret (code, (if code =? 0 then Some (default 0 kva) else None), s)
  else ret (- EINVAL, None, s).

(* src/os/linux/khab.c:134-146 habmm_unimport *)
Definition habmm_unimport (handle export_id : Z) : M Z :=
  let! r := hab_mem_unimport kctx true handle export_id in ret (fst r).

(** [nm] is what the array of the names holds before the query, [info] whether the
    caller gave a place for the answer.  The comparison with 32 is the code's. *)
(* src/os/linux/khab.c:149-168 habmm_socket_query *)
Definition habmm_socket_query (handle : Z) (info : bool) (nm : bytes) : M (Z * option hab_socket_info) :=
  if info then
    let! r := hab_vchan_query kctx handle nm (2 * VMNAME_SIZE) in
    match r.2 with
    | Some (ids, nm) =>
        ret (r.1, Some (Build_hab_socket_info
          (if 32 <? Z.land ids 0xFFFFFFFF00000000 then 1 else 0)
          (i32 (Z.land ids 0xFFFFFFFF))
          (strscpy VMNAME_SIZE (drop (Z.to_nat VMNAME_SIZE) nm))
          (strscpy VMNAME_SIZE nm)))
    | None => ret (r.1, None)
    end
  else ret (- EINVAL, None).
End ops.

(** ** Page by page is in one piece *)

(** A place of the message is in the page that its number says. *)
Lemma paged_lookup l : forall k n, paged l -> 0 <= k -> k * PAGE_SIZE < n <= (k + 1) * PAGE_SIZE -> n <= zlen (concat l) ->
  exists pg, l !! Z.to_nat k = Some pg /\ n - k * PAGE_SIZE <= zlen pg /\
    take (Z.to_nat n) (concat l) = take (Z.to_nat (k * PAGE_SIZE)) (concat l) ++ take (Z.to_nat (n - k * PAGE_SIZE)) pg.
Proof.
  unfold PAGE_SIZE. induction l as [|pg l IH]; intros k n Hp Hk Hn Hz.
  - unfold zlen in Hz. simpl in Hz. lia.
  - destruct (paged_tail _ _ Hp) as [Hp' Hpg]. cbn [concat] in *. rewrite zlen_app in Hz. unfold PAGE_SIZE in Hpg.
    assert (Hone : l = [] -> zlen (concat l) = 0) by by intros ->.
    destruct (decide (k = 0)) as [->|Hk0].
    + exists pg. assert (n <= zlen pg) by (destruct Hpg as [?|[? ?]]; [lia|rewrite Hone in Hz by done; lia]).
      split; [done|]. split; [lia|]. rewrite take_app_le by (unfold zlen in *; lia). by rewrite Z.sub_0_r.
    + assert (zlen pg = 4096) as Hfull by (destruct Hpg as [?|[? ?]]; [done|rewrite Hone in Hz by done; lia]).
      destruct (IH (k - 1) (n - 4096)) as (x & Hx & Hl & He); [done|lia..|].
      exists x. replace (Z.to_nat k) with (S (Z.to_nat (k - 1))) by lia. split; [done|]. split; [lia|].
      unfold zlen in Hfull. rewrite !take_app_ge by lia. rewrite <- app_assoc. f_equal.
      replace (Z.to_nat n - length pg)%nat with (Z.to_nat (n - 4096)) by lia. rewrite He.
      f_equal; f_equal; lia.
Qed.

Lemma write_prefix (dst a b : bytes) k :
  zlen a = k -> k + zlen b <= zlen dst ->
  mem_write (a ++ drop (Z.to_nat k) dst) k b = Some ((a ++ b) ++ drop (Z.to_nat (k + zlen b)) dst).
Proof.
  intros Ha Hb. pose proof (zlen_nonneg a). pose proof (zlen_nonneg b).
  rewrite mem_write_Some; [|lia|rewrite zlen_app; unfold zlen in *; rewrite length_drop; lia].
  f_equal. unfold zlen in *. rewrite take_app_le by lia. rewrite take_ge by lia. rewrite <- app_assoc. do 2 f_equal.
  rewrite drop_app_ge by lia. rewrite drop_drop. f_equal. lia.
Qed.

Lemma recv_pages (l : list bytes) dst n : forall k j, paged l ->
  0 <= j -> Z.of_nat k + j = n -> n * PAGE_SIZE <= zlen (concat l) -> n * PAGE_SIZE <= zlen dst ->
  for_range (recv_page l) j k (take (Z.to_nat (j * PAGE_SIZE)) (concat l) ++ drop (Z.to_nat (j * PAGE_SIZE)) dst) =
    Ok (take (Z.to_nat (n * PAGE_SIZE)) (concat l) ++ drop (Z.to_nat (n * PAGE_SIZE)) dst).
Proof.
  induction k as [|k IH]; intros j Hp Hj Hn Hz Hd; cbn [for_range]; [by replace n with j by lia|].
  unfold recv_page at 1. unfold PAGE_SIZE in *.
  destruct (paged_lookup l j ((j + 1) * 4096) Hp) as (pg & Hpg & Hl & He); [unfold PAGE_SIZE; lia..|]. unfold PAGE_SIZE in *.
  assert (Hlt : j < zlen l) by (apply lookup_lt_Some in Hpg; unfold zlen; lia).
  unfold arr_get. rewrite (proj2 (Z.leb_le 0 j)), (proj2 (Z.ltb_lt j (zlen l))) by done. cbn [andb]. rewrite Hpg. cbn [of_opt res_bind].
  rewrite mem_read_take by lia. cbn [of_opt res_bind].
  replace ((j + 1) * 4096 - j * 4096) with 4096 in * by lia.
  assert (Hb : zlen (take (Z.to_nat 4096) pg) = 4096) by (unfold zlen in *; rewrite length_firstn; lia).
  rewrite write_prefix; [|unfold zlen in *; rewrite length_firstn; lia|rewrite Hb; lia].
  cbn [of_opt res_bind]. rewrite <- He, Hb. replace (j * 4096 + 4096) with ((j + 1) * 4096) by lia.
  apply IH; [done|lia..].
Qed.

Lemma recv_copy_eq m dst :
  msg_ok m = true -> m_sizebytes m <= zlen dst ->
  recv_copy m dst = Ok (msg_bytes m ++ drop (Z.to_nat (m_sizebytes m)) dst).
Proof.
  intros Hm Hd. pose proof (msg_ok_size m Hm) as Hn. unfold recv_copy, msg_bytes. destruct (m_scatter m) eqn:Hsc.
  - pose proof (msg_ok_paged m Hm Hsc) as Hp.
    set (n := m_sizebytes m / PAGE_SIZE). set (r := m_sizebytes m mod PAGE_SIZE). cbv zeta.
    pose proof (Z.div_mod (m_sizebytes m) PAGE_SIZE ltac:(done)) as Hdm. fold n r in Hdm.
    pose proof (Z.mod_pos_bound (m_sizebytes m) PAGE_SIZE ltac:(done)) as Hr. fold r in Hr.
    assert (0 <= n) by (apply Z.div_pos; [lia|done]). unfold PAGE_SIZE in *.
    pose proof (recv_pages (m_data m) dst n (Z.to_nat n) 0 Hp) as Hgo. unfold PAGE_SIZE in Hgo.
    rewrite take_0 in Hgo. change (drop (Z.to_nat (0 * 4096)) dst) with dst in Hgo.
    cbn [app] in Hgo. rewrite Hgo by lia. cbn [res_bind].
    destruct (Z.eqb_spec r 0) as [Hr0|Hr0]; [by replace (m_sizebytes m) with (n * 4096) by lia|].
    destruct (paged_lookup (m_data m) n (m_sizebytes m) Hp) as (pg & Hpg & Hl & He); [unfold PAGE_SIZE; lia..|]. unfold PAGE_SIZE in *.
    assert (Hlt : n < zlen (m_data m)) by (apply lookup_lt_Some in Hpg; unfold zlen; lia).
    unfold arr_get. rewrite (proj2 (Z.leb_le 0 n)), (proj2 (Z.ltb_lt n _)) by done. cbn [andb]. rewrite Hpg. cbn [of_opt res_bind].
    replace (m_sizebytes m - n * 4096) with r in * by lia. rewrite mem_read_take by lia. cbn [of_opt res_bind].
    assert (Hb : zlen (take (Z.to_nat r) pg) = r) by (unfold zlen in *; rewrite length_firstn; lia).
    rewrite write_prefix; [|unfold zlen in *; rewrite length_firstn; lia|rewrite Hb; lia].
    cbn [of_opt]. rewrite <- He, Hb. by replace (n * 4096 + r) with (m_sizebytes m) by lia.
  - rewrite mem_read_take by done. cbn [of_opt res_bind].
    assert (Hb : zlen (take (Z.to_nat (m_sizebytes m)) (concat (m_data m))) = m_sizebytes m) by (unfold zlen in *; rewrite length_firstn; lia).
    pose proof (write_prefix dst [] (take (Z.to_nat (m_sizebytes m)) (concat (m_data m))) 0 eq_refl) as Hw.
    cbn [app] in Hw. change (drop (Z.to_nat 0) dst) with dst in Hw. rewrite Hw by lia. cbn [of_opt]. by rewrite Hb, Z.add_0_l.
Qed.

(** ** What a kernel client can rely on *)

(** C18: A kernel client receives what a program would: the call ends as the receive
    operation does, a message is copied whole to the start of the caller's buffer,
    scattered or not, the size tells its length and the rest of the buffer, or all of
    it if there is no message, is as it was. *)
Theorem habmm_socket_recv_whole {HS} `{Platform HS} `{KernelIdr} (dispatch : nat -> World.M HS unit) (h : held) (kctx : nat)
    (handle size timeout flags : Z) (dst : bytes) (s : list (wake HS)) (w : world HS) :
  (forall p, run_ok (dispatch p)) -> wf h w -> h_x h = None -> kctx ∈ h_c h -> sched_ok s ->
  0 <= size < 2 ^ 31 -> size <= zlen dst ->
  match hab_vchan_recv dispatch kctx handle size timeout flags s w with
  | Ok ((code, msg, n, s'), w') =>
      exists dst', habmm_socket_recv dispatch kctx handle (Some dst) (Some size) timeout flags s w =
          Ok ((code, Some dst', Some (u32 n), s'), w') /\ wf h w' /\
        (code <> 0 -> dst' = dst) /\
        (code = 0 -> exists m, msg = Some m /\ u32 n = m_sizebytes m /\ m_sizebytes m <= size /\
           dst' = msg_bytes m ++ drop (Z.to_nat (m_sizebytes m)) dst)
  | Fault _ => False
  | Blocked => habmm_socket_recv dispatch kctx handle (Some dst) (Some size) timeout flags s w = Blocked
  end.
Proof.
  intros Hd Hwf Hx Hc Hs Hsz Hdst. pose proof (hab_vchan_recv_spec dispatch h kctx handle size timeout flags s w Hd Hwf Hx Hc Hs) as Hw.
  assert (Hi : i32 size = size) by (apply i32_id; unfold is_i32; lia).
  assert (Hu : u64 size = size) by (apply Z.mod_small; lia).
  unfold habmm_socket_recv. rewrite Hi. unfold wp in Hw. unfold bind.
  destruct (hab_vchan_recv _ _ _ _ _ _ _ _) as [[[[[code msg] n] s'] w']| |]; [|done|done].
  destruct Hw as (Hwf' & _ & Hcode & Hok). cbn [fst snd] in *.
  assert (Hfree : forall m w1, msg_ok m = true -> @hab_msg_free HS m w1 = Ok (tt, w1)).
  { intros m w1 Hm. apply andb_true_iff in Hm as [Hm _]. unfold hab_msg_free.
    destruct (m_scatter m); [|done]. simpl in *. destruct (Z.ltb_spec (zlen (m_data m)) (page_count (m_sizebytes m))); [|done].
    apply Z.leb_le in Hm. lia. }
  destruct (Z.eqb_spec code 0) as [->|Hne].
  - destruct (proj1 Hcode eq_refl) as (m & -> & Hm & Hn). rewrite Hu in Hm. specialize (Hok m eq_refl).
    pose proof (msg_ok_size m Hok) as Hms. rewrite recv_copy_eq by (done || lia). unfold lift. rewrite Hfree by done.
    eexists. split; [reflexivity|]. split; [done|]. split; [done|]. intros _. exists m. split_and!; try done.
    rewrite Hn, i32_id by (unfold is_i32; lia). apply Z.mod_small. lia.
  - exists dst. split; [|split; [done|by split]]. destruct msg as [m|]; unfold lift; [rewrite Hfree by by apply Hok|]; done.
Qed.

(** A client receives the one message that waits on the first channel. *)
Definition waiting : world loopback_dev :=
  set_w_vchans (<[2%nat := set_vc_rx_list [Build_hab_message 3 false 0 [[7; 8; 9]]] (sample_vchan 1 2)]> (w_vchans (sample quiet_lb)))
    (sample quiet_lb).

Lemma waiting_wf : wf client waiting.
Proof.
  apply (wf_frame _ (sample quiet_lb)); [|apply sample_wf_client]. by eapply frame_vchan.
Qed.

Lemma habmm_socket_recv_whole_witness :
  exists w', habmm_socket_recv lb_rx_dispatch 1 1 (Some [0; 0; 0; 0]) (Some 4) 0 0 [] waiting =
    Ok ((0, Some [7; 8; 9; 0], Some 3, []), w') /\ wf client w'.
Proof.
  pose proof (habmm_socket_recv_whole lb_rx_dispatch client 1 1 4 0 0 [0; 0; 0; 0] [] waiting) as Hs.
  specialize (Hs ltac:(intros p h w Hw _; by apply wp_ret) waiting_wf eq_refl ltac:(by left) ltac:(constructor) ltac:(lia)
    ltac:(by vm_compute)).
  destruct (hab_vchan_recv _ _ _ _ _ _ _ _) as [[[[[code msg] n] s'] w']| |] eqn:He; vm_compute in He; [|done|done].
  injection He as <- <- <- <- <-. destruct Hs as (dst' & Hr & Hwf & _ & Hm). destruct (Hm eq_refl) as (m & [= <-] & _ & _ & ->).
  eexists. split; [exact Hr|exact Hwf].
Defined.

(** The remote VM's id that the query gives is 1 or 0, for whether it is anything but
    zero: the code compares with 32 where it means to shift. *)
Lemma habmm_socket_query_remote {HS} `{Platform HS} `{KernelIdr} (kctx : nat) (handle : Z) (nm : bytes)
    (w w' : world HS) (code : Z) (info : hab_socket_info) :
  habmm_socket_query kctx handle true nm w = Ok ((code, Some info), w') -> si_vmid_remote info = 0 \/ si_vmid_remote info = 1.
Proof.
  unfold habmm_socket_query, bind. destruct (hab_vchan_query _ _ _ _ w) as [[[c o] w1]| |]; [|done|done]. cbn [fst snd].
  destruct o as [[ids names]|]; intros [= <- <- <-]. simpl. destruct (_ <? _); auto.
Qed.
