(* ===== verification/Init.v ===== *)
(** Loading and unloading the module (the end of hab_linux.c, hyp_stub.c): what is
    registered with the kernel, the configured channels and the driver's own context. *)
From S2P Require Import Prelude Header World Logic Memory Invariant Pchan Exports Context Vchan Wait Open Loopback Sample Msg Mimex Progress Hab LoopThread Config Boot Linux Release.

(** What the kernel answers to the registrations: 0 or an error. *)
Record kernel_answers := { ka_region : Z; ka_cdev : Z; ka_class : Z; ka_device : Z; ka_notifier : Z; ka_dma : Z }.

(** What of the module is registered; [rg_own_dma] tells that the device was given the
    pass-through DMA operations of the driver. *)
Record registered := { rg_region : bool; rg_cdev : bool; rg_class : bool; rg_device : bool; rg_notifier : bool;
  rg_own_dma : bool; rg_stat : bool; rg_kctx : option nat }.
Definition unregistered : registered := Build_registered false false false false false false false None.

Section ops.
Context `{Platform loopback_dev} `{KernelIdr} (kthread_run : nat -> Z).
#[local] Abbreviation M := (World.M loopback_dev).
Context (vhost : bool) (dt : option hab_node) (default_gvmid : Z).

(* src/hyp_stub.c:14-17 hab_hypervisor_unregister *)
Definition hab_hypervisor_unregister : M unit := hab_hypervisor_unregister_common.

(** The end of the start: the channels, the own context, the DMA operations.  The
    result of the configuration of the DMA mask is the result of the start. *)
(* src/hab_linux.c:456-492 hab_init *)
Definition init_driver (ka : kernel_answers) (rg : registered) : M (Z * registered) :=
  let! result := do_hab_parse kthread_run vhost dt default_gvmid in
  if negb (result =? 0) then
    ret (result, Build_registered true true true true (rg_notifier rg) false true None)
  else
    let! kctx := hab_ctx_alloc true in
    match kctx with
    | None =>
        do! hab_hypervisor_unregister in
        ret (- ENOMEM, Build_registered false false false false (rg_notifier rg) false false None)
    | Some c =>
        ret (ka_dma ka, Build_registered true true true true (rg_notifier rg) (negb (ka_dma ka =? 0)) true (Some c))
    end.

(* src/hab_linux.c:410-498 hab_init *)
Definition hab_init (ka : kernel_answers) : M (Z * registered) :=
  if ka_region ka <? 0 then ret (ka_region ka, unregistered)
  else if ka_cdev ka <? 0 then ret (ka_cdev ka, unregistered)
  else if ka_class ka <? 0 then ret (ka_class ka, unregistered)
  else if ka_device ka <? 0 then ret (ka_device ka, unregistered)
  else init_driver ka (Build_registered true true true true (ka_notifier ka =? 0) false false None).

(* src/hab_linux.c:500-513 hab_exit *)
Definition hab_exit (rg : registered) : M registered :=
  do! hab_hypervisor_unregister in
  do! match rg_kctx rg with Some c => hab_ctx_put c | None => ret tt end in
  ret unregistered.

(** SYS_DOWN, SYS_HALT and SYS_POWER_OFF end the channels, other actions nothing. *)
(* src/hab_linux.c:301-319 hab_power_down_callback *)
Definition hab_power_down_callback (action : Z) : M Z :=
  do! when (existsb (Z.eqb action) [1; 2; 3]) hab_hypervisor_unregister in ret 0.
End ops.

Section init.
Context `{Platform loopback_dev} `{KernelIdr} (kthread_run : nat -> Z).

(** The own context of a driver that has memory. *)
Lemma hab_ctx_alloc_plenty h kernel (w : world loopback_dev) :
  wf h w -> w_alloc w = [] -> wp (hab_ctx_alloc kernel) (fun o w' => exists c, o = Some c /\ opened h kernel w o w') w.
Proof.
  intros Hwf Ha. pose proof (hab_ctx_alloc_spec h kernel w Hwf) as Hs. unfold wp in *.
  assert (Hsome : match hab_ctx_alloc kernel w with Ok (Some _, _) => True | _ => False end).
  { unfold hab_ctx_alloc, bind, kalloc, modify, ret. rewrite Ha. simpl. by rewrite Ha. }
  destruct (hab_ctx_alloc kernel w) as [[[c|] w']| |]; [|done..]. by exists c.
Qed.

End init.

Definition all_well : kernel_answers := Build_kernel_answers 0 0 0 0 0 0.


(** The start that fails for want of memory for the channels leaves everything
    registered (its code is the sum of those of the group's two channels); so does one whose
    DMA mask is refused, with the fallback in place. *)
Lemma hab_init_failure_leaks :
  (exists w', hab_init (fun _ => 0) false (Some (Build_hab_node (inr 0) [Build_mmid_grp_node (inr 200) (inr true) (inr [2])])) 2 all_well
    (set_w_alloc (repeat false 100) (boot_world boots (7, 0))) = Ok ((- ENOMEM + - ENOMEM, Build_registered true true true true true false true None), w')) /\
  (exists w' c, hab_init (fun _ => 0) false (Some (Build_hab_node (inr 0) sample_dt)) 2 (Build_kernel_answers 0 0 0 0 0 (-5))
    (boot_world boots (7, 0)) = Ok ((-5, Build_registered true true true true true true true (Some c)), w')).
Proof. split; [eexists|eexists _, _]; vm_compute; reflexivity. Qed.

(** Loading and unloading leaves no channel, no context and nothing registered. *)
Lemma init_exit :
  match hab_init (fun _ => 0) false (Some (Build_hab_node (inr 0) sample_dt)) 2 all_well (boot_world boots (7, 0)) with
  | Ok ((_, rg), w1) =>
      match hab_exit rg w1 with
      | Ok (rg', w2) => rg' = unregistered /\ w_pchans w2 = ∅ /\ w_ctxs w2 = ∅ /\ w_uctx_list w2 = []
      | _ => False
      end
  | _ => False
  end.
Proof. by vm_compute. Qed.
